(* ===== verification/_CoqProject ===== *)
-Q . S2P
Prelude.v
Abi.v
Bpf.v
BpfInv.v
BpfFrame.v
BpfTrace.v
BpfDuplex.v
BpfProps.v
Loader.v
LoaderProps.v
Smp.v
SmpRefine.v
SmpSerial.v
SmpPool.v
SmpCareful.v
SmpTypes.v
SmpProps.v
TlsParse.v
TlsSpec.v
TlsEquiv.v
TlsReparse.v
TlsDuplex.v
TlsTypes.v
TlsWire.v
TlsProps.v
CLayout.v
KTypes1.v
KTypes2.v
KTypes3.v
KTypes4.v
KTypes5.v
KTypes6.v
KernelTypes.v
ObjectBtf.v
HeaderLayout.v
KernelMem.v
AbiLayout.v
LayoutProps.v
Slices.v
Proc.v
Store.v
StoreInv.v
StoreFacts.v
StoreDuplex.v
StorePlain.v
StoreFinal.v
StoreProps.v
System.v
SystemTrace.v
SystemFlows.v
SystemTypes.v
SystemProps.v
Names.v
NamesProps.v
UnitTests.v
Ui.v
UiProps.v
Format.v
Dump.v
FormatProps.v
Text.v
Endpoint.v
Render.v
RenderFacts.v
RenderProps.v
Screen.v
ScreenProps.v
Headless.v
HeadlessProps.v
Startup.v
StartupProps.v
Bindings.v
