(* ===== verification/Prelude.v ===== *)
(** * tlstat: a verification library

    tlstat watches TLS connections on a Linux host.  eBPF programs (bpf/tlstat.bpf.c)
    count bytes per socket and per OpenSSL session in maps and copy the beginning of
    each handshake, pieces of plaintext and session ends into a ring buffer.  In user
    space (Go) a reader decodes the ring's records and folds them into a table of
    connections, a poller copies the maps into the same table, and a terminal
    interface shows it.

    ** Files and the code they model

    Prelude          machine words, Go results ([go]: a value, a panic, or a model out
                     of fuel), byte slices read by index, little-endian words, strings
    Abi              bpf/tlstat.h: constants, map values and ring records as [Record]s,
                     their well-formedness and packed byte images
    Bpf              bpf/tlstat.bpf.c: the state [bpf] (six maps and the ring), every
                     helper and all nine programs; [probe], [fire], the relation [kstep]
    BpfInv, BpfFrame, BpfTrace, BpfDuplex
                     its invariant; what one firing does to one socket or session; what
                     a whole interleaved trace does, to one direction and to both
    BpfProps         the theorems about it
    Loader           internal/loader/loader.go: ReadEvent, Flows, SSLStats, DeleteFlow
    LoaderProps      the theorems about them
    Smp              bpf/tlstat.bpf.c again, one memory access at a time ([prog], [step])
    SmpRefine        a program that is not interrupted does what Bpf says
    SmpSerial        executions on several processors ([cstep]), and that those without
                     overlap have the outcome of a sequence
    SmpPool, SmpCareful
                     the storage of the maps, reused as the kernel does ([pstep]), and that
                     programs that keep apart do not notice
    SmpTypes         what holds in all of them, races included
    SmpProps         the theorems about them
    TlsParse         internal/tlsparse/parse.go: the cursor [reader] and every parser
    TlsSpec, TlsEquiv
                     a reference parser on list suffixes that yields a list of
                     assignments to [Info], and that [Parse] performs exactly those
    TlsReparse, TlsDuplex, TlsTypes
                     parsing a prefix first changes nothing; parsing two directions into
                     one [Info]; the widths of what is parsed
    TlsWire          how a TLS peer encodes handshake messages and records
    TlsProps         the theorems about the parser
    CLayout          C data layout: sizes, alignments, offsets, bit-fields
    KTypes1-6, KernelTypes
                     bpf/vmlinux.h: the declarations of the kernel objects behind the
                     pointers the programs receive, in the order of the file's needs;
                     all of them by the names C has for them ([kernel_btf])
    ObjectBtf        internal/loader/tlstat_x86_bpfel.o: what its BTF records of these
                     types, and its CO-RE relocations; HeaderLayout: the same rows for the
                     types it does not contain, from the C compiler
    KernelMem, AbiLayout
                     CO-RE reads of those objects from byte memory, which find types and
                     members by name as the relocations do; the instance of the
                     interface [KernelView] Bpf is written against; the structs of
                     tlstat.h as C and as Go types
    LayoutProps      the theorems about layouts and reads
    Slices           Go slices over shared arrays; append and appendTail
    Proc             internal/model/proc.go (the /proc lookup) and ipFrom
    Store            internal/model/model.go: [Conn], [Store] and every operation
    StoreInv, StoreFacts, StoreDuplex, StorePlain, StoreFinal
                     the operations as one step [do_op] and runs of them; the invariant;
                     snapshots, reassembly of both directions, attribution, totals,
                     samples, final totals
    StoreProps       the theorems about the store
    System           main.go: the event reader and the map poller as state machines
                     beside the kernel side; [action], [act], and the invariant
    SystemTrace      where the bytes of a session are while the program runs
    SystemFlows      where the counters of a socket are
    SystemTypes      the widths of all values in every state
    SystemProps      the theorems about the composition
    Names            internal/tlsparse/names.go; NamesProps: the theorems
    UnitTests        internal/tlsparse/*_test.go: the assertions, proved
    Ui               internal/ui/ui.go: state, messages, rows and selection; UiProps
    Format           internal/ui/format.go: trunc, over UTF-8, and orDash
    Dump             internal/ui/format.go: humanBytes and hexDump; renderPlain of
                     internal/ui/ui.go
    FormatProps      the theorems about both
    Text             what the program uses of Go's formats: %d, %q, padding, durations,
                     netip.AddrPort; Endpoint: reading endpoints back from their text
    Render, RenderFacts
                     internal/ui/ui.go: rows, detail panel and screen as text; their
                     lines and columns; RenderProps: the theorems
    Screen           main.go with the interface: kernel, reader, poller and message loop as
                     one interleaving ([happen]), and the screen at each moment;
                     ScreenProps: the theorems
    Headless         main.go: runDump with its notes, findLibssl; HeadlessProps
    Startup          internal/loader/loader.go: New, attachSSL, Close, and the order main
                     uses them in, as logs of resources opened and closed; StartupProps
    Bindings         internal/loader/tlstat_x86_bpfel.go: the objects, their names, how they
                     are closed; where loader.go attaches them

    ** How the model corresponds to the code

    An integer of the code is a [Z] with its width written out where arithmetic can
    leave it ([wrap], [swrap]).  A function that changes state takes and returns the
    state; one that can panic returns [go].  What the code takes from its surroundings
    is an argument: [env] (what the kernel helpers return to one firing: ids, memory,
    ring space, room in a map), [call] (clock, /proc, map iteration orders of one store
    operation), and the classes [KernelView] (field reads of kernel memory), [X509]
    (certificate decoding), [Growth] (how far append over-allocates), [MapRange] (the
    order of a range loop), [ProcFS] and [SortSlice].  The classes with a name in [Ok]
    state what is documented of them, and no more: a read yields a value of the field's
    type, append allocates enough, an iteration is a permutation, a sort sorts.

    One firing of an eBPF program (in Bpf and System), one store operation (they hold the
    mutex from beginning to end) and one step of a goroutine between two of those are
    atomic; the order of steps is arbitrary.  Map iterations of the poller are one step per
    entry.  That firings are atomic is what C6 justifies: on several processors, access by
    access, programs that do not meet on a socket, session or thread context have the
    outcome of atomic firings in some order, although the kernel may give the space of a
    removed entry to another key at once.  Where they do meet, C15 says what still holds,
    and [totals_overlap], [creations_overlap], [captures_overlap] and [deletion_overlap]
    what does not: a counter can lose bytes, an entry can be replaced, a seventeenth chunk
    captured, and what a send on a deleted flow counts can land in another flow.

    Fuel occurs in the parser's loops, the drawing loop, the loop of humanBytes, the
    loops that print numbers and dump lines, and in TrimSpace.  The parser's entry points
    and the drawing loop supply the length of the input plus one, which C28 and C32 include
    to suffice; humanBytes has seven turns and needs at most six tests (C36); a number
    below 2^64 has at most 20 decimal and 16 hexadecimal digits; a dump has no more lines
    than bytes (C37), a text no more blanks at its ends than bytes.

    ** What the theorems show

    C1-C5 (composition): a client's handshake, both directions of it, goes from tcp_sendmsg
    and tcp_recvmsg to the connection table and the detail panel without loss, whatever is
    interleaved, as long as it fits the capture (C1 says how); the byte counters shown are
    those of the moment the poller read the entry; nothing that can happen, keys and ticks
    included, makes the program fail; at every moment the bytes captured are split between
    store, reader and ring; every value keeps its type.
    C6, C15 (kernel side on several processors): refinement of the atomic model, and what
    survives races.
    C7-C14 (kernel side): all entries and records are well-formed in every reachable
    state; exactly which bytes of a socket are captured; exact byte, plaintext and close
    totals; receive pairing across threads; connection states; identity.
    C16-C25 (store): its invariant; snapshot reconciliation and retirement; reassembly of
    both directions and whose word counts for each field; attribution and its grounds;
    totals; finalisation; the plaintext window in spite of in-place appends; late chunks;
    the /proc lookup.
    C26, C27 (decoder): every record the kernel side can submit is decoded to the event
    it stands for, and any bytes are decoded without a panic.  C28-C30 (parser): total and
    equal to the reference parser; insensitive to fragmentation; messages encoded by a
    peer are read back.  C31: starting acquires everything or nothing.  C32-C38 (what is
    shown): the selection and the rows, lines and columns of the screen, the endpoint a row
    tells, byte counts, dumps, and the plaintext notes of the headless mode.  C39, C40: the
    kernel's structs are laid out as the shipped object file records and relocates them, and
    the programs depend on nothing else of kernel memory.
    Theorems without a number - lossless capture, the images of the events, Go's layout
    of the shared structs, the offsets read in the kernel's, members inside and apart,
    truncation before TLS 1.3's extension, a half-close and a snapshot that is not stable,
    labels, the plaintext panel, the lines of the headless mode, the search for libssl, the
    end of main, the closing and attaching of the objects, the unit tests' assertions -
    complete these.

    ** Not modelled

    The eBPF library (loading, attaching and the ring's memory protocol answer through
    [outcome] and [env]); a whole value copied by a helper is one access, although another
    processor could see half of it; X.509 decoding; the styles of lipgloss, the event loop
    of bubbletea and the parsing of flags; how crypto/tls behaves in the tests; the types of
    vmlinux.h no program touches. *)
From Stdlib Require Export ZArith Lia.
From stdpp Require Export base numbers option list gmap strings sorting.

#[global] Open Scope Z_scope.
Create HintDb tlstat.

(** ** Machine words

    An unsigned C or Go integer of [w] bits is a [Z] in [0, 2^w); arithmetic on
    it wraps.  A signed 32-bit integer is a [Z] in [-2^31, 2^31). *)

Definition wrap (w z : Z) : Z := z mod 2 ^ w.

Definition swrap (w z : Z) : Z :=
  let u := wrap w z in if u <? 2 ^ (w - 1) then u else u - 2 ^ w.

Arguments wrap : simpl never.
Arguments swrap : simpl never.

Definition in_width (w z : Z) : Prop := 0 <= z < 2 ^ w.

Definition is_byte (z : Z) : Prop := 0 <= z < 256.

#[export] Instance in_width_dec w z : Decision (in_width w z).
Proof. unfold in_width. apply _. Defined.

#[export] Instance is_byte_dec z : Decision (is_byte z).
Proof. unfold is_byte. apply _. Defined.

Lemma wrap_range w z : 0 <= w -> in_width w (wrap w z).
Proof. intros Hw. apply Z.mod_pos_bound. lia. Qed.

Lemma wrap_small w z : in_width w z -> wrap w z = z.
Proof. apply Z.mod_small. Qed.

Lemma wrap_wrap w z : 0 <= w -> wrap w (wrap w z) = wrap w z.
Proof. intros. apply wrap_small, wrap_range; lia. Qed.

Lemma wrap_add_l w a b : 0 <= w -> wrap w (wrap w a + b) = wrap w (a + b).
Proof. intros. unfold wrap. rewrite Zplus_mod_idemp_l. done. Qed.

Lemma swrap_small w z : 0 < w -> - 2 ^ (w - 1) <= z < 2 ^ (w - 1) -> swrap w z = z.
Proof.
  intros Hw Hz. unfold swrap, wrap.
  assert (2 ^ w = 2 * 2 ^ (w - 1)) as E.
  { rewrite <- Z.pow_succ_r by lia. f_equal. lia. }
  destruct (decide (0 <= z)).
  - rewrite Z.mod_small by lia. destruct (Z.ltb_spec z (2 ^ (w - 1))); lia.
  - replace (z mod 2 ^ w) with (z + 2 ^ w).
    2:{ symmetry. rewrite <- (Z.mod_small (z + 2 ^ w) (2 ^ w)) by lia.
        rewrite <- Z.add_mod_idemp_r, Z.mod_same, Z.add_0_r by lia.
        reflexivity. }
    destruct (Z.ltb_spec (z + 2 ^ w) (2 ^ (w - 1))); lia.
Qed.

(** Or-ing a word into zero bits is addition. *)
Lemma land_shiftl_0 a b n : 0 <= n -> 0 <= a < 2 ^ n -> Z.land a (Z.shiftl b n) = 0.
Proof.
  intros Hn Ha. apply Z.bits_inj'. intros i Hi. rewrite Z.land_spec, Z.shiftl_spec, Z.bits_0 by done.
  destruct (decide (i < n)).
  - by rewrite (Z.testbit_neg_r b), andb_false_r by lia.
  - rewrite <- (Z.mod_small a (2 ^ n)) by lia. by rewrite Z.mod_pow2_bits_high by lia.
Qed.

Lemma lor_shiftl_add a b n : 0 <= n -> 0 <= a < 2 ^ n -> Z.lor a (Z.shiftl b n) = a + 2 ^ n * b.
Proof.
  intros Hn Ha. pose proof (Z.add_lor_land a (Z.shiftl b n)) as E.
  rewrite land_shiftl_0 in E by done. rewrite Z.shiftl_mul_pow2 in E |- * by done. lia.
Qed.

(** ** Bytes, little- and big-endian words *)

(** The [n] least significant bytes of [z], least significant first. *)
Fixpoint le_bytes (n : nat) (z : Z) : list Z :=
  match n with
  | O => []
  | S n => z mod 256 :: le_bytes n (z / 256)
  end.

(** The word a little-endian byte sequence denotes. *)
Fixpoint le_word (bs : list Z) : Z :=
  match bs with
  | [] => 0
  | b :: bs => b + 256 * le_word bs
  end.

(** The [n] least significant bytes of [z], most significant first. *)
Definition be_bytes (n : nat) (z : Z) : list Z := rev (le_bytes n z).

Lemma length_le_bytes n z : length (le_bytes n z) = n.
Proof. revert z; induction n; intros; cbn; auto. Qed.

Lemma length_be_bytes n z : length (be_bytes n z) = n.
Proof. unfold be_bytes. rewrite length_rev. apply length_le_bytes. Qed.

Lemma le_bytes_is_byte n z : Forall is_byte (le_bytes n z).
Proof.
  revert z; induction n; intros; cbn; constructor; auto.
  apply Z.mod_pos_bound; lia.
Qed.

Lemma le_word_bytes n z : le_word (le_bytes n z) = wrap (8 * Z.of_nat n) z.
Proof.
  revert z; induction n as [|n IH]; intros z; cbn [le_bytes le_word].
  - unfold wrap. rewrite Z.mod_1_r. done.
  - rewrite IH. unfold wrap.
    replace (8 * Z.of_nat (S n)) with (8 + 8 * Z.of_nat n) by lia.
    rewrite Z.pow_add_r, Z.rem_mul_r by lia. done.
Qed.

Lemma le_word_bytes_small n z :
  in_width (8 * Z.of_nat n) z -> le_word (le_bytes n z) = z.
Proof. intros. rewrite le_word_bytes. by apply wrap_small. Qed.

Lemma le_word_range bs :
  Forall is_byte bs -> 0 <= le_word bs < 2 ^ (8 * Z.of_nat (length bs)).
Proof.
  induction 1 as [|b bs Hb _ IH]; cbn [le_word length]; [lia|].
  replace (8 * Z.of_nat (S (length bs))) with (8 + 8 * Z.of_nat (length bs)) by lia.
  rewrite Z.pow_add_r by lia. unfold is_byte in Hb. lia.
Qed.

Lemma le_bytes_word bs :
  Forall is_byte bs -> le_bytes (length bs) (le_word bs) = bs.
Proof.
  induction 1 as [|b bs Hb _ IH]; cbn [le_word le_bytes length]; [done|].
  unfold is_byte in Hb. rewrite (Z.mul_comm 256). f_equal.
  - rewrite Z_mod_plus_full. apply Z.mod_small; lia.
  - rewrite Z.div_add by lia. rewrite (Z.div_small b), Z.add_0_l by lia. done.
Qed.

Lemma le_word_inj bs cs :
  Forall is_byte bs -> Forall is_byte cs -> length bs = length cs ->
  le_word bs = le_word cs -> bs = cs.
Proof.
  intros Hb Hc Hl He. rewrite <- (le_bytes_word bs), <- (le_bytes_word cs) by done.
  by rewrite Hl, He.
Qed.

(** ** Outcomes of a Go computation

    [Panic] is a run-time panic (index or slice bounds out of range); [NoFuel]
    marks a model loop that was given too few iterations, which the totality
    theorems exclude for the fuel the model uses. *)

Inductive go (A : Type) : Type :=
| Ok (a : A)
| Panic
| NoFuel.
Arguments Ok {A} a.
Arguments Panic {A}.
Arguments NoFuel {A}.

Definition go_bind {A B} (m : go A) (k : A -> go B) : go B :=
  match m with
  | Ok a => k a
  | Panic => Panic
  | NoFuel => NoFuel
  end.

Declare Scope go_scope.
Delimit Scope go_scope with go.
Notation "'do!' x <- m ; k" := (go_bind m (fun x => k))
  (at level 10, x pattern, m at level 100, k at level 200) : go_scope.
#[global] Open Scope go_scope.

Definition is_ok {A} (m : go A) : Prop := exists a, m = Ok a.

#[export] Instance go_eq_dec {A} `{EqDecision A} : EqDecision (go A).
Proof. solve_decision. Defined.

Lemma go_bind_ok {A B} (m : go A) (k : A -> go B) :
  is_ok m -> (forall a, m = Ok a -> is_ok (k a)) -> is_ok (go_bind m k).
Proof. intros [a Ha] Hk. rewrite Ha. cbn. by apply Hk. Qed.

Lemma go_bind_inv {A B} (m : go A) (k : A -> go B) b :
  go_bind m k = Ok b -> exists a, m = Ok a /\ k a = Ok b.
Proof. destruct m; cbn; naive_solver. Qed.

(** ** Go slices of bytes, read-only

    [zlen] is [len].  [byte_at] and [subslice] panic exactly when the index or
    one of the bounds is outside the slice. *)

Definition zlen {A} (l : list A) : Z := Z.of_nat (length l).

Definition byte_at (b : list Z) (i : Z) : go Z :=
  if 0 <=? i then
    match b !! Z.to_nat i with Some v => Ok v | None => Panic end
  else Panic.

Definition subslice {A} (b : list A) (lo hi : Z) : go (list A) :=
  if (0 <=? lo) && (lo <=? hi) && (hi <=? zlen b)
  then Ok (take (Z.to_nat (hi - lo)) (drop (Z.to_nat lo) b))
  else Panic.

(** The first [n] and all but the first [n] elements, for an [int] count. *)
Definition ztake {A} (n : Z) (l : list A) : list A := take (Z.to_nat n) l.
Definition zdrop {A} (n : Z) (l : list A) : list A := drop (Z.to_nat n) l.

Lemma zlen_nonneg {A} (l : list A) : 0 <= zlen l.
Proof. unfold zlen; lia. Qed.

Lemma zlen_nil {A} : zlen (@nil A) = 0.
Proof. done. Qed.
Lemma zlen_nil_inv {A} (l : list A) : zlen l = 0 -> l = [].
Proof. by destruct l. Qed.

Lemma nonempty_zlen {A} (l : list A) : 0 < zlen l <-> l <> [].
Proof. destruct l; unfold zlen; cbn; split; done || lia. Qed.

Lemma zlen_cons {A} (x : A) l : zlen (x :: l) = 1 + zlen l.
Proof. unfold zlen; cbn [length]; lia. Qed.

Lemma zlen_app {A} (l k : list A) : zlen (l ++ k) = zlen l + zlen k.
Proof. unfold zlen. rewrite length_app. lia. Qed.

Lemma zlen_ztake {A} n (l : list A) : 0 <= n <= zlen l -> zlen (ztake n l) = n.
Proof. unfold zlen, ztake. rewrite length_take. lia. Qed.

Lemma zlen_zdrop {A} n (l : list A) : 0 <= n <= zlen l -> zlen (zdrop n l) = zlen l - n.
Proof. unfold zlen, zdrop. rewrite length_drop. lia. Qed.

Lemma zlen_le_bytes n z : zlen (le_bytes n z) = Z.of_nat n.
Proof. unfold zlen. by rewrite length_le_bytes. Qed.

Lemma zlen_be_bytes n z : zlen (be_bytes n z) = Z.of_nat n.
Proof. unfold zlen. by rewrite length_be_bytes. Qed.

Lemma zdrop_0 {A} (l : list A) : zdrop 0 l = l.
Proof. done. Qed.

Lemma zdrop_all {A} (l : list A) : zdrop (zlen l) l = [].
Proof. unfold zdrop, zlen. rewrite Nat2Z.id. apply drop_all. Qed.

Lemma ztake_all {A} (l : list A) : ztake (zlen l) l = l.
Proof. unfold ztake, zlen. rewrite Nat2Z.id. apply take_ge. lia. Qed.

Lemma ztake_ge {A} n (l : list A) : zlen l <= n -> ztake n l = l.
Proof. unfold ztake, zlen. intros. apply take_ge. lia. Qed.

Lemma zdrop_zdrop {A} n m (l : list A) :
  0 <= n -> 0 <= m -> zdrop n (zdrop m l) = zdrop (m + n) l.
Proof. intros. unfold zdrop. rewrite drop_drop. f_equal; lia. Qed.

Lemma zdrop_app {A} (l k : list A) : zdrop (zlen l) (l ++ k) = k.
Proof. unfold zdrop, zlen. rewrite Nat2Z.id. apply drop_app_length. Qed.

Lemma ztake_app {A} (l k : list A) : ztake (zlen l) (l ++ k) = l.
Proof. unfold ztake, zlen. rewrite Nat2Z.id. apply take_app_length. Qed.

Lemma ztake_zdrop {A} n (l : list A) : ztake n l ++ zdrop n l = l.
Proof. apply take_drop. Qed.

Lemma byte_at_ok b i : 0 <= i < zlen b -> is_ok (byte_at b i).
Proof.
  unfold zlen, byte_at. intros Hi. destruct (Z.leb_spec 0 i); [|lia].
  destruct (lookup_lt_is_Some_2 b (Z.to_nat i)) as [v ->]; [lia|]. by exists v.
Qed.

Lemma byte_at_zdrop b n i :
  0 <= n -> 0 <= i -> byte_at (zdrop n b) i = byte_at b (n + i).
Proof.
  intros Hn Hi. unfold byte_at, zdrop.
  destruct (Z.leb_spec 0 i), (Z.leb_spec 0 (n + i)); try lia.
  rewrite lookup_drop. by replace (Z.to_nat (n + i)) with (Z.to_nat n + Z.to_nat i)%nat by lia.
Qed.

Lemma byte_at_0 x l : byte_at (x :: l) 0 = Ok x.
Proof. done. Qed.

Lemma byte_at_S x l i : 0 < i -> byte_at (x :: l) i = byte_at l (i - 1).
Proof.
  intros Hi. unfold byte_at.
  destruct (Z.leb_spec 0 i), (Z.leb_spec 0 (i - 1)); try lia.
  replace (Z.to_nat i) with (S (Z.to_nat (i - 1))) by lia. done.
Qed.

(** Evaluate the reads at constant offsets of a list with explicit head. *)
Ltac byte_at_eval :=
  repeat match goal with
  | |- context [byte_at ?l ?i] =>
      let r := eval lazy in (byte_at l i) in
      match r with Ok _ => change (byte_at l i) with r end
  end; cbn [go_bind].

Lemma byte_at_byte b i v : Forall is_byte b -> byte_at b i = Ok v -> is_byte v.
Proof.
  intros Hb. unfold byte_at. case_match; [|done]. case_match eqn:E; [|done].
  intros [= <-]. eapply Forall_lookup_1; eauto.
Qed.

Lemma subslice_ok {A} (b : list A) lo hi :
  0 <= lo <= hi -> hi <= zlen b -> subslice b lo hi = Ok (ztake (hi - lo) (zdrop lo b)).
Proof.
  intros. unfold subslice.
  destruct (Z.leb_spec 0 lo), (Z.leb_spec lo hi), (Z.leb_spec hi (zlen b)); try lia. done.
Qed.

Lemma subslice_tail {A} (p q : list A) n :
  zlen p = n -> subslice (p ++ q) n (zlen (p ++ q)) = Ok q.
Proof.
  intros <-. pose proof (zlen_nonneg p). pose proof (zlen_nonneg q).
  rewrite subslice_ok; rewrite ?zlen_app; [|lia|lia].
  rewrite zdrop_app, ztake_ge by lia. done.
Qed.

Lemma subslice_prefix {A} (p q : list A) n : zlen p = n -> subslice (p ++ q) 0 n = Ok p.
Proof.
  intros <-. pose proof (zlen_nonneg p). pose proof (zlen_nonneg q).
  rewrite subslice_ok; rewrite ?zlen_app; [|lia|lia]. rewrite Z.sub_0_r, zdrop_0. by rewrite ztake_app.
Qed.

(** ** Go strings

    A Go string is a sequence of bytes; here a Rocq [string], whose characters
    are the 8-bit codes. *)

Definition ascii_of_byte (z : Z) : Ascii.ascii := Ascii.ascii_of_N (Z.to_N z).
Definition byte_of_ascii (c : Ascii.ascii) : Z := Z.of_N (Ascii.N_of_ascii c).

(** The conversion [string(b)]. *)
Definition string_of_bytes (b : list Z) : string := String.string_of_list_ascii (map ascii_of_byte b).
(** The conversion []byte(s). *)
Definition bytes_of_string (s : string) : list Z := map byte_of_ascii (String.list_ascii_of_string s).

Lemma byte_of_ascii_of_byte z : is_byte z -> byte_of_ascii (ascii_of_byte z) = z.
Proof.
  unfold is_byte, byte_of_ascii, ascii_of_byte. intros.
  rewrite Ascii.N_ascii_embedding; [lia|]. change 256%N with (Z.to_N 256). lia.
Qed.

Lemma ascii_of_byte_of_ascii c : ascii_of_byte (byte_of_ascii c) = c.
Proof.
  unfold byte_of_ascii, ascii_of_byte. rewrite N2Z.id. apply Ascii.ascii_N_embedding.
Qed.

Lemma byte_of_ascii_is_byte c : is_byte (byte_of_ascii c).
Proof. destruct c as [[] [] [] [] [] [] [] []]; cbv; split; congruence. Qed.

Lemma bytes_of_string_of_bytes b :
  Forall is_byte b -> bytes_of_string (string_of_bytes b) = b.
Proof.
  intros Hb. unfold bytes_of_string, string_of_bytes.
  rewrite String.list_ascii_of_string_of_list_ascii, map_map.
  induction Hb as [|z b Hz _ IH]; cbn; [done|].
  by rewrite byte_of_ascii_of_byte, IH.
Qed.

Lemma string_of_bytes_of_string s : string_of_bytes (bytes_of_string s) = s.
Proof.
  unfold bytes_of_string, string_of_bytes. rewrite map_map.
  rewrite (map_ext _ id), map_id by apply ascii_of_byte_of_ascii.
  apply String.string_of_list_ascii_of_string.
Qed.

Lemma bytes_of_string_is_byte s : Forall is_byte (bytes_of_string s).
Proof.
  unfold bytes_of_string. apply Forall_map, Forall_true. intros. apply byte_of_ascii_is_byte.
Qed.

Lemma length_bytes_of_string s : length (bytes_of_string s) = String.length s.
Proof.
  unfold bytes_of_string. rewrite length_map.
  induction s; cbn; congruence.
Qed.

Lemma string_of_bytes_empty b : string_of_bytes b = EmptyString <-> b = [].
Proof. destruct b; cbn; naive_solver. Qed.
