(* ===== verification/Abi.v ===== *)
(** The layout shared by the eBPF programs and the Go side: bpf/tlstat.h.

    Every struct is a [Record] whose integer fields are [Z]s of the declared
    width, with a well-formedness predicate [*_wf] and, for the structs that
    travel as bytes, the packed little-endian image [*_bytes]. *)
From S2P Require Import Prelude.

(** ** Constants *)

Definition TASK_COMM_LEN : Z := 16.
Definition WIRE_CAP : Z := 1024.
Definition DATA_CAP : Z := 1024.
Definition MAX_WIRE_EVENTS : Z := 16.

(** [enum event_type]: the first byte of every ring buffer record. *)
Definition EVENT_WIRE : Z := 1.
Definition EVENT_DATA : Z := 2.
Definition EVENT_CLOSE : Z := 3.

(** [enum dir] *)
Definition DIR_OUT : Z := 1.
Definition DIR_IN : Z := 2.

(** ** Map values *)

Record flow := mk_flow {
  f_tx : Z; f_rx : Z; f_pid : Z;
  f_saddr : list Z; f_daddr : list Z;
  f_sport : Z; f_dport : Z;
  f_is_ipv6 : Z; f_direction : Z; f_is_tls : Z; f_closed : Z;
  f_wire_out : Z; f_wire_in : Z;
  f_comm : list Z }.

Record ssl_stat := mk_ssl_stat { s_ptx : Z; s_prx : Z; s_pid : Z; s_fd : Z }.

(** Scratch values that pair an entry probe with its return probe. *)
Record recv_ctx := mk_recv_ctx { rc_sk : Z; rc_base : Z }.
Record ssl_ctx := mk_ssl_ctx { sc_ssl : Z; sc_buf : Z }.

(** The all-zero initialisers [struct flow zero = {}] and [struct ssl_stat zero = {}]. *)
Definition flow_zero : flow :=
  mk_flow 0 0 0 (replicate 4 0) (replicate 4 0) 0 0 0 0 0 0 0 0 (replicate 16 0).
Definition ssl_stat_zero : ssl_stat := mk_ssl_stat 0 0 0 0.

(** ** Ring buffer records *)

Record wire_event := mk_wire_event {
  we_type : Z; we_direction : Z; we_len : Z; we_sk : Z; we_data : list Z }.

Record data_event := mk_data_event {
  de_type : Z; de_direction : Z; de_len : Z; de_pid : Z; de_tid : Z;
  de_fd : Z; de_ssl : Z; de_data : list Z }.

Record close_event := mk_close_event {
  ce_type : Z; ce_pad : list Z; ce_pid : Z; ce_fd : Z; ce_ssl : Z;
  ce_ptx : Z; ce_prx : Z }.

#[export] Instance flow_eq_dec : EqDecision flow.
Proof. solve_decision. Defined.
#[export] Instance ssl_stat_eq_dec : EqDecision ssl_stat.
Proof. solve_decision. Defined.
#[export] Instance wire_event_eq_dec : EqDecision wire_event.
Proof. solve_decision. Defined.
#[export] Instance data_event_eq_dec : EqDecision data_event.
Proof. solve_decision. Defined.
#[export] Instance close_event_eq_dec : EqDecision close_event.
Proof. solve_decision. Defined.

(** ** Packed images

    The structs are [__attribute__((packed))]: the fields follow one another
    with no padding, little-endian (x86-64). *)

Definition wire_event_bytes (e : wire_event) : list Z :=
  le_bytes 1 (we_type e) ++ le_bytes 1 (we_direction e) ++ le_bytes 2 (we_len e)
  ++ le_bytes 8 (we_sk e) ++ we_data e.

Definition data_event_bytes (e : data_event) : list Z :=
  le_bytes 1 (de_type e) ++ le_bytes 1 (de_direction e) ++ le_bytes 2 (de_len e)
  ++ le_bytes 4 (de_pid e) ++ le_bytes 4 (de_tid e) ++ le_bytes 4 (de_fd e)
  ++ le_bytes 8 (de_ssl e) ++ de_data e.

Definition close_event_bytes (e : close_event) : list Z :=
  le_bytes 1 (ce_type e) ++ ce_pad e ++ le_bytes 4 (ce_pid e) ++ le_bytes 4 (ce_fd e)
  ++ le_bytes 8 (ce_ssl e) ++ le_bytes 8 (ce_ptx e) ++ le_bytes 8 (ce_prx e).

(** ** Well-formedness: every field fits its declared type *)

Definition in_s32 (z : Z) : Prop := - 2 ^ 31 <= z < 2 ^ 31.

Definition flow_wf (f : flow) : Prop :=
  in_width 64 (f_tx f) /\ in_width 64 (f_rx f) /\ in_width 32 (f_pid f)
  /\ (length (f_saddr f) = 4%nat /\ Forall (in_width 32) (f_saddr f))
  /\ (length (f_daddr f) = 4%nat /\ Forall (in_width 32) (f_daddr f))
  /\ in_width 16 (f_sport f) /\ in_width 16 (f_dport f)
  /\ in_width 8 (f_is_ipv6 f) /\ in_width 8 (f_direction f)
  /\ in_width 8 (f_is_tls f) /\ in_width 8 (f_closed f)
  /\ (0 <= f_wire_out f <= MAX_WIRE_EVENTS) /\ (0 <= f_wire_in f <= MAX_WIRE_EVENTS)
  /\ (length (f_comm f) = 16%nat /\ Forall is_byte (f_comm f)).

Definition ssl_stat_wf (s : ssl_stat) : Prop :=
  in_width 64 (s_ptx s) /\ in_width 64 (s_prx s) /\ in_width 32 (s_pid s) /\ in_s32 (s_fd s).

Definition wire_event_wf (e : wire_event) : Prop :=
  we_type e = EVENT_WIRE /\ (we_direction e = DIR_OUT \/ we_direction e = DIR_IN)
  /\ (0 <= we_len e < WIRE_CAP) /\ in_width 64 (we_sk e)
  /\ zlen (we_data e) = WIRE_CAP /\ Forall is_byte (we_data e).

Definition data_event_wf (e : data_event) : Prop :=
  de_type e = EVENT_DATA /\ (de_direction e = DIR_OUT \/ de_direction e = DIR_IN)
  /\ (0 <= de_len e < DATA_CAP) /\ in_width 32 (de_pid e) /\ in_width 32 (de_tid e)
  /\ in_s32 (de_fd e) /\ in_width 64 (de_ssl e)
  /\ zlen (de_data e) = DATA_CAP /\ Forall is_byte (de_data e).

Definition close_event_wf (e : close_event) : Prop :=
  ce_type e = EVENT_CLOSE /\ (length (ce_pad e) = 3%nat /\ Forall is_byte (ce_pad e))
  /\ in_width 32 (ce_pid e) /\ in_s32 (ce_fd e) /\ in_width 64 (ce_ssl e)
  /\ in_width 64 (ce_ptx e) /\ in_width 64 (ce_prx e).

(** ** Updates of one field, for the assignments of the programs *)

Definition flow_add_tx (n : Z) (f : flow) : flow :=
  mk_flow (wrap 64 (f_tx f + n)) (f_rx f) (f_pid f) (f_saddr f) (f_daddr f) (f_sport f)
    (f_dport f) (f_is_ipv6 f) (f_direction f) (f_is_tls f) (f_closed f) (f_wire_out f)
    (f_wire_in f) (f_comm f).
Definition flow_add_rx (n : Z) (f : flow) : flow :=
  mk_flow (f_tx f) (wrap 64 (f_rx f + n)) (f_pid f) (f_saddr f) (f_daddr f) (f_sport f)
    (f_dport f) (f_is_ipv6 f) (f_direction f) (f_is_tls f) (f_closed f) (f_wire_out f)
    (f_wire_in f) (f_comm f).
Definition flow_set_ident (pid : Z) (comm : list Z) (f : flow) : flow :=
  mk_flow (f_tx f) (f_rx f) pid (f_saddr f) (f_daddr f) (f_sport f)
    (f_dport f) (f_is_ipv6 f) (f_direction f) (f_is_tls f) (f_closed f) (f_wire_out f)
    (f_wire_in f) comm.
Definition flow_set_tuple (saddr daddr : list Z) (sport dport is_ipv6 : Z) (f : flow) : flow :=
  mk_flow (f_tx f) (f_rx f) (f_pid f) saddr daddr sport
    dport is_ipv6 (f_direction f) (f_is_tls f) (f_closed f) (f_wire_out f)
    (f_wire_in f) (f_comm f).
Definition flow_set_direction (d : Z) (f : flow) : flow :=
  mk_flow (f_tx f) (f_rx f) (f_pid f) (f_saddr f) (f_daddr f) (f_sport f)
    (f_dport f) (f_is_ipv6 f) d (f_is_tls f) (f_closed f) (f_wire_out f)
    (f_wire_in f) (f_comm f).
Definition flow_set_tls (f : flow) : flow :=
  mk_flow (f_tx f) (f_rx f) (f_pid f) (f_saddr f) (f_daddr f) (f_sport f)
    (f_dport f) (f_is_ipv6 f) (f_direction f) 1 (f_closed f) (f_wire_out f)
    (f_wire_in f) (f_comm f).
Definition flow_set_closed (f : flow) : flow :=
  mk_flow (f_tx f) (f_rx f) (f_pid f) (f_saddr f) (f_daddr f) (f_sport f)
    (f_dport f) (f_is_ipv6 f) (f_direction f) (f_is_tls f) 1 (f_wire_out f)
    (f_wire_in f) (f_comm f).

(** [cnt = (dir == DIR_OUT) ? &f->wire_out : &f->wire_in], read and incremented
    as the [__u8] it points to. *)
Definition wire_cnt (dir : Z) (f : flow) : Z :=
  if dir =? DIR_OUT then f_wire_out f else f_wire_in f.
Definition wire_cnt_incr (dir : Z) (f : flow) : flow :=
  if dir =? DIR_OUT then
    mk_flow (f_tx f) (f_rx f) (f_pid f) (f_saddr f) (f_daddr f) (f_sport f)
      (f_dport f) (f_is_ipv6 f) (f_direction f) (f_is_tls f) (f_closed f)
      (wrap 8 (f_wire_out f + 1)) (f_wire_in f) (f_comm f)
  else
    mk_flow (f_tx f) (f_rx f) (f_pid f) (f_saddr f) (f_daddr f) (f_sport f)
      (f_dport f) (f_is_ipv6 f) (f_direction f) (f_is_tls f) (f_closed f)
      (f_wire_out f) (wrap 8 (f_wire_in f + 1)) (f_comm f).

(** ** Sizes of the images, and well-formed starting values *)

Lemma wire_event_size e : wire_event_wf e -> zlen (wire_event_bytes e) = 1036.
Proof.
  intros (_ & _ & _ & _ & Hd & _). unfold wire_event_bytes.
  rewrite !zlen_app, !zlen_le_bytes, Hd. done.
Qed.

Lemma data_event_size e : data_event_wf e -> zlen (data_event_bytes e) = 1048.
Proof.
  intros (_ & _ & _ & _ & _ & _ & _ & Hd & _). unfold data_event_bytes.
  rewrite !zlen_app, !zlen_le_bytes, Hd. done.
Qed.

Lemma close_event_size e : close_event_wf e -> zlen (close_event_bytes e) = 36.
Proof.
  intros (_ & [Hp _] & _). unfold close_event_bytes.
  rewrite !zlen_app, !zlen_le_bytes. unfold zlen at 1. rewrite Hp. done.
Qed.

Lemma flow_zero_wf : flow_wf flow_zero.
Proof.
  unfold flow_wf, flow_zero, in_width, MAX_WIRE_EVENTS. cbn.
  repeat match goal with |- _ /\ _ => split end; try lia;
    repeat constructor; unfold is_byte; lia.
Qed.
