(* ===== verification/Bpf.v ===== *)
(** The eBPF programs of bpf/tlstat.bpf.c.

    The state [bpf] holds the six maps; the ring buffer is the list of records
    submitted and not yet consumed.  One firing of a program is a function of the
    state and of an [env]: what the kernel helpers return to that firing.  Kernel
    memory is reached only through the class [KernelView], the interface of the
    CO-RE field reads. *)
From S2P Require Import Prelude Abi.

(** ** Kernel constants (bpf/vmlinux.h) *)

Definition AF_INET6 : Z := 10.
Definition IPPROTO_TCP : Z := 6.
Definition TCP_ESTABLISHED : Z := 1.
Definition TCP_SYN_RECV : Z := 3.
Definition TCP_CLOSE : Z := 7.
Definition TCP_CLOSE_WAIT : Z := 8.
Definition ITER_UBUF : Z := 0.
Definition ITER_IOVEC : Z := 1.
Definition BPF_ANY : Z := 0.
Definition BPF_NOEXIST : Z := 1.

(** ** Kernel memory, as the programs read it

    [K] is a state of kernel memory; each method is one [BPF_CORE_READ] path. *)
Class KernelView (K : Type) := {
  msg_iter : Z -> Z;                          (* &msg->msg_iter *)
  iter_type : K -> Z -> Z;
  iter_ubuf : K -> Z -> Z;
  iter_iov : K -> Z -> Z;
  iov_base : K -> Z -> Z;
  skc_family : K -> Z -> Z;
  skc_num : K -> Z -> Z;
  skc_dport : K -> Z -> Z;                    (* network byte order *)
  skc_rcv_saddr : K -> Z -> Z;
  skc_daddr : K -> Z -> Z;
  skc_v6_rcv_saddr : K -> Z -> list Z;
  skc_v6_daddr : K -> Z -> list Z }.

(** What a client may rely on: every read yields a value of the field's type. *)
Class KernelViewOk (K : Type) `{KernelView K} : Prop := {
  skc_num_ok k sk : in_width 16 (skc_num k sk);
  skc_dport_ok k sk : in_width 16 (skc_dport k sk);
  skc_rcv_saddr_ok k sk : in_width 32 (skc_rcv_saddr k sk);
  skc_daddr_ok k sk : in_width 32 (skc_daddr k sk);
  skc_v6_rcv_saddr_ok k sk :
    length (skc_v6_rcv_saddr k sk) = 4%nat /\ Forall (in_width 32) (skc_v6_rcv_saddr k sk);
  skc_v6_daddr_ok k sk :
    length (skc_v6_daddr k sk) = 4%nat /\ Forall (in_width 32) (skc_v6_daddr k sk) }.

(** ** Maps *)

Inductive event : Type :=
| EvWire (e : wire_event)
| EvData (e : data_event)
| EvClose (e : close_event).

Definition event_bytes (ev : event) : list Z :=
  match ev with
  | EvWire e => wire_event_bytes e
  | EvData e => data_event_bytes e
  | EvClose e => close_event_bytes e
  end.

Record bpf := Bpf {
  events : list event;
  flows : gmap Z flow;
  ssl_stats : gmap Z ssl_stat;
  ssl_fds : gmap Z Z;
  recv_ctxs : gmap Z recv_ctx;
  ssl_ctxs : gmap Z ssl_ctx }.

Definition bpf_init : bpf := Bpf [] ∅ ∅ ∅ ∅ ∅.

Definition flows_max : Z := 65536.
Definition ssl_stats_max : Z := 65536.
Definition ssl_fds_max : Z := 65536.
Definition recv_ctxs_max : Z := 16384.
Definition ssl_ctxs_max : Z := 16384.

Definition set_events (x : list event) (s : bpf) : bpf :=
  Bpf x (flows s) (ssl_stats s) (ssl_fds s) (recv_ctxs s) (ssl_ctxs s).
Definition set_flows (x : gmap Z flow) (s : bpf) : bpf :=
  Bpf (events s) x (ssl_stats s) (ssl_fds s) (recv_ctxs s) (ssl_ctxs s).
Definition set_ssl_stats (x : gmap Z ssl_stat) (s : bpf) : bpf :=
  Bpf (events s) (flows s) x (ssl_fds s) (recv_ctxs s) (ssl_ctxs s).
Definition set_ssl_fds (x : gmap Z Z) (s : bpf) : bpf :=
  Bpf (events s) (flows s) (ssl_stats s) x (recv_ctxs s) (ssl_ctxs s).
Definition set_recv_ctxs (x : gmap Z recv_ctx) (s : bpf) : bpf :=
  Bpf (events s) (flows s) (ssl_stats s) (ssl_fds s) x (ssl_ctxs s).
Definition set_ssl_ctxs (x : gmap Z ssl_ctx) (s : bpf) : bpf :=
  Bpf (events s) (flows s) (ssl_stats s) (ssl_fds s) (recv_ctxs s) x.

(** [bpf_map_update_elem] on a hash map of [max] entries.  [room] says whether the
    kernel can allocate an element for a new key.  No caller looks at the result
    code, so only the resulting map is returned. *)
Definition map_update_elem {V} (max : Z) (room : bool) (flags k : Z) (v : V)
    (m : gmap Z V) : gmap Z V :=
  match m !! k with
  | Some _ => if flags =? BPF_NOEXIST then m else <[k := v]> m
  | None => if room && (Z.of_nat (size m) <? max) then <[k := v]> m else m
  end.

(** ** What the helpers return to one firing

    [e_user a n] is [bpf_probe_read_user] of [n] bytes at [a] ([None] on a fault);
    [e_ring n] is the memory [bpf_ringbuf_reserve] returns, uninitialised ([None]
    when it returns NULL); [e_room] is whether a map can grow. *)
Record env (K : Type) := Env {
  e_pid_tgid : Z;
  e_comm : list Z;
  e_kmem : K;
  e_user : Z -> Z -> option (list Z);
  e_ring : Z -> option (list Z);
  e_room : bool }.
Arguments Env {K}.
Arguments e_pid_tgid {K}.
Arguments e_comm {K}.
Arguments e_kmem {K}.
Arguments e_user {K}.
Arguments e_ring {K}.
Arguments e_room {K}.

Definition env_ok {K} (e : env K) : Prop :=
  in_width 64 (e_pid_tgid e)
  /\ (length (e_comm e) = 16%nat /\ Forall is_byte (e_comm e))
  /\ (forall a n bs, e_user e a n = Some bs -> zlen bs = n /\ Forall is_byte bs)
  /\ (forall n bs, e_ring e n = Some bs -> zlen bs = n /\ Forall is_byte bs).

(** ** Helpers *)

Definition looks_like_tls (hdr : list Z) : bool :=
  let ct := nth 0 hdr 0 in
  if (ct <? 20) || (23 <? ct) then false
  else if negb (nth 1 hdr 0 =? 3) then false
  else if 4 <? nth 2 hdr 0 then false
  else true.

(** [bpf_ntohs] on a little-endian machine. *)
Definition ntohs (x : Z) : Z := Z.lor (wrap 16 (Z.shiftl x 8)) (Z.shiftr x 8).

(** The clamp of the capture sizes: [__u32 cap = n;] then clamp, then mask. *)
Definition clamp_cap (size n : Z) : Z :=
  let cap := wrap 32 n in
  let cap := if size - 1 <? cap then size - 1 else cap in
  Z.land cap (size - 1).

(** The tgid half of [bpf_get_current_pid_tgid]. *)
Definition tgid_of (id : Z) : Z := wrap 32 (Z.shiftr id 32).

Section Programs.
Context {K : Type} `{KernelView K}.
Implicit Types (e : env K) (s : bpf) (f : flow).

Definition iter_base (k : K) (iter : Z) : Z :=
  let t := iter_type k iter in
  if t =? ITER_UBUF then iter_ubuf k iter
  else if t =? ITER_IOVEC then iov_base k (iter_iov k iter)
  else 0.

Definition read_tuple (k : K) (sk : Z) (f : flow) : flow :=
  let family := skc_family k sk in
  let sport := skc_num k sk in
  let dport := ntohs (skc_dport k sk) in
  if family =? AF_INET6 then
    flow_set_tuple (skc_v6_rcv_saddr k sk) (skc_v6_daddr k sk) sport dport 1 f
  else
    flow_set_tuple (<[0%nat := skc_rcv_saddr k sk]> (f_saddr f))
      (<[0%nat := skc_daddr k sk]> (f_daddr f)) sport dport 0 f.

Definition put_flow (sk : Z) (f : flow) (s : bpf) : bpf :=
  set_flows (<[sk := f]> (flows s)) s.

Definition flow_get (e : env K) (sk : Z) (s : bpf) : bpf * option flow :=
  let s :=
    match flows s !! sk with
    | Some _ => s
    | None => set_flows (map_update_elem flows_max (e_room e) BPF_ANY sk flow_zero (flows s)) s
    end in
  match flows s !! sk with
  | None => (s, None)
  | Some f =>
      if f_pid f =? 0 then
        let f := flow_set_ident (tgid_of (e_pid_tgid e)) (e_comm e) f in
        let f := read_tuple (e_kmem e) sk f in
        (put_flow sk f s, Some f)
      else (s, Some f)
  end.

(** The part of [capture_wire] after the gate: reserve, copy, submit.  [f] is the
    entry the flow pointer designates. *)
Definition emit_wire (e : env K) (sk : Z) (f : flow) (buf n dir : Z) (s : bpf) : bpf :=
  match e_ring e 1036 with
  | None => s
  | Some mem =>
      let cap := clamp_cap WIRE_CAP n in
      match e_user e buf cap with
      | None => s
      | Some bs =>
          let data := bs ++ zdrop (12 + cap) mem in
          let s := put_flow sk (wire_cnt_incr dir f) s in
          set_events (events s ++ [EvWire (mk_wire_event EVENT_WIRE dir cap sk data)]) s
      end
  end.

Definition capture_wire (e : env K) (sk : Z) (f : flow) (buf n dir : Z) (s : bpf) : bpf :=
  if (buf =? 0) || (n <? 1) then s
  else if MAX_WIRE_EVENTS <=? wire_cnt dir f then s
  else if wire_cnt dir f =? 0 then
    if n <? 5 then s
    else
      match e_user e buf 5 with
      | None => s
      | Some hdr =>
          if negb (looks_like_tls hdr) then s
          else
            let f := flow_set_tls f in
            emit_wire e sk f buf n dir (put_flow sk f s)
      end
  else emit_wire e sk f buf n dir s.

(** ** kprobes and kretprobe: byte counts and wire capture *)

Definition k_tcp_sendmsg (e : env K) (sk msg size : Z) (s : bpf) : bpf :=
  match flow_get e sk s with
  | (s, None) => s
  | (s, Some f) =>
      let f := flow_add_tx size f in
      let s := put_flow sk f s in
      let base := iter_base (e_kmem e) (msg_iter msg) in
      capture_wire e sk f base size DIR_OUT s
  end.

Definition k_tcp_recvmsg (e : env K) (sk msg : Z) (s : bpf) : bpf :=
  let rc := mk_recv_ctx sk (iter_base (e_kmem e) (msg_iter msg)) in
  set_recv_ctxs (map_update_elem recv_ctxs_max (e_room e) BPF_ANY (e_pid_tgid e) rc
                   (recv_ctxs s)) s.

Definition kr_tcp_recvmsg (e : env K) (ret : Z) (s : bpf) : bpf :=
  let id := e_pid_tgid e in
  match recv_ctxs s !! id with
  | None => s
  | Some rc =>
      let sk := rc_sk rc in
      let base := rc_base rc in
      let s := set_recv_ctxs (delete id (recv_ctxs s)) s in
      if (ret <=? 0) || (sk =? 0) then s
      else
        match flow_get e sk s with
        | (s, None) => s
        | (s, Some f) =>
            let f := flow_add_rx ret f in
            let s := put_flow sk f s in
            capture_wire e sk f base ret DIR_IN s
        end
  end.

(** ** Tracepoint: connection lifecycle *)

Definition tp_inet_sock_set_state (e : env K) (protocol skaddr oldstate newstate : Z)
    (s : bpf) : bpf :=
  if negb (protocol =? IPPROTO_TCP) then s
  else if newstate =? TCP_ESTABLISHED then
    let s :=
      match flows s !! skaddr with
      | Some _ => s
      | None =>
          set_flows (map_update_elem flows_max (e_room e) BPF_NOEXIST skaddr flow_zero
                       (flows s)) s
      end in
    match flows s !! skaddr with
    | None => s
    | Some f =>
        let d := if oldstate =? TCP_SYN_RECV then DIR_IN else DIR_OUT in
        put_flow skaddr (flow_set_direction d f) s
    end
  else if (newstate =? TCP_CLOSE) || (newstate =? TCP_CLOSE_WAIT) then
    match flows s !! skaddr with
    | None => s
    | Some f => put_flow skaddr (flow_set_closed f) s
    end
  else s.

(** ** uprobes: OpenSSL plaintext *)

Definition put_stat (ssl : Z) (st : ssl_stat) (s : bpf) : bpf :=
  set_ssl_stats (<[ssl := st]> (ssl_stats s)) s.

Definition ssl_stat_get (e : env K) (ssl : Z) (s : bpf) : bpf * option ssl_stat :=
  match ssl_stats s !! ssl with
  | Some st => (s, Some st)
  | None =>
      let fd := match ssl_fds s !! ssl with Some fd => fd | None => -1 end in
      let zero := mk_ssl_stat 0 0 (tgid_of (e_pid_tgid e)) fd in
      let s := set_ssl_stats
                 (map_update_elem ssl_stats_max (e_room e) BPF_ANY ssl zero (ssl_stats s)) s in
      (s, ssl_stats s !! ssl)
  end.

(** [s->ptx += n] or [s->prx += n]. *)
Definition stat_add (dir n : Z) (st : ssl_stat) : ssl_stat :=
  if dir =? DIR_OUT then mk_ssl_stat (wrap 64 (s_ptx st + n)) (s_prx st) (s_pid st) (s_fd st)
  else mk_ssl_stat (s_ptx st) (wrap 64 (s_prx st + n)) (s_pid st) (s_fd st).

Definition emit_plaintext (e : env K) (ssl buf n dir : Z) (s : bpf) : bpf :=
  if (buf =? 0) || (n =? 0) then s
  else
    match ssl_stat_get e ssl s with
    | (s, None) => s
    | (s, Some st) =>
        let st := stat_add dir n st in
        let s := put_stat ssl st s in
        match e_ring e 1048 with
        | None => s
        | Some mem =>
            let id := e_pid_tgid e in
            let cap := clamp_cap DATA_CAP n in
            match e_user e buf cap with
            | None => s
            | Some bs =>
                let data := bs ++ zdrop (24 + cap) mem in
                set_events (events s ++
                  [EvData (mk_data_event EVENT_DATA dir cap (tgid_of id) (wrap 32 id) (s_fd st)
                             ssl data)]) s
            end
        end
    end.

Definition u_ssl_free (e : env K) (ssl : Z) (s : bpf) : bpf :=
  let s :=
    match ssl_stats s !! ssl with
    | None => s
    | Some st =>
        let s :=
          match e_ring e 36 with
          | None => s
          | Some mem =>
              set_events (events s ++
                [EvClose (mk_close_event EVENT_CLOSE (ztake 3 (zdrop 1 mem))
                            (tgid_of (e_pid_tgid e)) (s_fd st) ssl (s_ptx st) (s_prx st))]) s
          end in
        set_ssl_stats (delete ssl (ssl_stats s)) s
    end in
  set_ssl_fds (delete ssl (ssl_fds s)) s.

Definition u_ssl_set_fd (e : env K) (ssl fd : Z) (s : bpf) : bpf :=
  set_ssl_fds (map_update_elem ssl_fds_max (e_room e) BPF_ANY ssl fd (ssl_fds s)) s.

Definition u_ssl_write (e : env K) (ssl buf num : Z) (s : bpf) : bpf :=
  if 0 <? num then emit_plaintext e ssl buf num DIR_OUT s else s.

Definition u_ssl_read (e : env K) (ssl buf : Z) (s : bpf) : bpf :=
  set_ssl_ctxs (map_update_elem ssl_ctxs_max (e_room e) BPF_ANY (e_pid_tgid e)
                  (mk_ssl_ctx ssl buf) (ssl_ctxs s)) s.

Definition ur_ssl_read (e : env K) (ret : Z) (s : bpf) : bpf :=
  let id := e_pid_tgid e in
  match ssl_ctxs s !! id with
  | None => s
  | Some c =>
      let s := set_ssl_ctxs (delete id (ssl_ctxs s)) s in
      if 0 <? ret then emit_plaintext e (sc_ssl c) (sc_buf c) ret DIR_IN s else s
  end.
End Programs.

(** ** Firings and traces *)

(** The attachments of [SEC(...)], with the arguments each program reads. *)
Inductive probe : Type :=
| KpSendmsg (sk msg size : Z)
| KpRecvmsg (sk msg : Z)
| KrRecvmsg (ret : Z)
| TpSetState (protocol skaddr oldstate newstate : Z)
| UpSslFree (ssl : Z)
| UpSslSetFd (ssl fd : Z)
| UpSslWrite (ssl buf num : Z)
| UpSslRead (ssl buf : Z)
| UrSslRead (ret : Z).

Definition probe_ok (p : probe) : Prop :=
  match p with
  | KpSendmsg sk msg size => in_width 64 sk /\ in_width 64 msg /\ in_width 64 size
  | KpRecvmsg sk msg => in_width 64 sk /\ in_width 64 msg
  | KrRecvmsg ret => in_s32 ret
  | TpSetState _ sk _ _ => in_width 64 sk
  | UpSslFree ssl => in_width 64 ssl
  | UpSslSetFd ssl fd => in_width 64 ssl /\ in_s32 fd
  | UpSslWrite ssl buf num => in_width 64 ssl /\ in_width 64 buf /\ in_s32 num
  | UpSslRead ssl buf => in_width 64 ssl /\ in_width 64 buf
  | UrSslRead ret => in_s32 ret
  end.

Definition fire {K} `{KernelView K} (e : env K) (p : probe) (s : bpf) : bpf :=
  match p with
  | KpSendmsg sk msg size => k_tcp_sendmsg e sk msg size s
  | KpRecvmsg sk msg => k_tcp_recvmsg e sk msg s
  | KrRecvmsg ret => kr_tcp_recvmsg e ret s
  | TpSetState p sk o n => tp_inet_sock_set_state e p sk o n s
  | UpSslFree ssl => u_ssl_free e ssl s
  | UpSslSetFd ssl fd => u_ssl_set_fd e ssl fd s
  | UpSslWrite ssl buf num => u_ssl_write e ssl buf num s
  | UpSslRead ssl buf => u_ssl_read e ssl buf s
  | UrSslRead ret => ur_ssl_read e ret s
  end.

(** A trace is a sequence of firings, each with its environment. *)
Definition fire_all {K} `{KernelView K} (tr : list (env K * probe)) (s : bpf) : bpf :=
  fold_left (fun s ep => fire ep.1 ep.2 s) tr s.

(** Everything that changes the kernel side: a firing, the reader taking records
    off the ring, and userspace deleting a flow ([Loader.DeleteFlow]). *)
Inductive kstep {K} `{KernelView K} : bpf -> bpf -> Prop :=
| kstep_fire e p s : env_ok e -> probe_ok p -> kstep s (fire e p s)
| kstep_consume n s : kstep s (set_events (drop n (events s)) s)
| kstep_delete sk s : kstep s (set_flows (delete sk (flows s)) s).
