(* ===== verification/BpfInv.v ===== *)
(** The invariant of the kernel side: whatever sequence of probe firings, ring
    reads and flow deletions happens, every map entry and every ring record is
    well-formed, no map outgrows its [max_entries], and no flow reports more than
    [MAX_WIRE_EVENTS] captures per direction. *)
From S2P Require Import Prelude Abi Bpf.

Definition event_wf (ev : event) : Prop :=
  match ev with
  | EvWire e => wire_event_wf e
  | EvData e => data_event_wf e
  | EvClose e => close_event_wf e
  end.

Record bpf_wf (s : bpf) : Prop := BpfWf {
  wf_events : Forall event_wf (events s);
  wf_flows : map_Forall (fun _ f => flow_wf f) (flows s);
  wf_stats : map_Forall (fun _ st => ssl_stat_wf st) (ssl_stats s);
  wf_fds : map_Forall (fun _ fd => in_s32 fd) (ssl_fds s);
  wf_recv : map_Forall (fun _ rc => in_width 64 (rc_sk rc)) (recv_ctxs s);
  wf_ssl : map_Forall (fun _ c => in_width 64 (sc_ssl c)) (ssl_ctxs s);
  wf_sizes :
    Z.of_nat (size (flows s)) <= flows_max
    /\ Z.of_nat (size (ssl_stats s)) <= ssl_stats_max
    /\ Z.of_nat (size (ssl_fds s)) <= ssl_fds_max
    /\ Z.of_nat (size (recv_ctxs s)) <= recv_ctxs_max
    /\ Z.of_nat (size (ssl_ctxs s)) <= ssl_ctxs_max }.

(** ** Maps *)

Lemma map_update_elem_size {V} max room fl k (v : V) m :
  Z.of_nat (size m) <= max -> Z.of_nat (size (map_update_elem max room fl k v m)) <= max.
Proof.
  intros Hm. unfold map_update_elem. destruct (m !! k) eqn:E.
  - case_match; [done|]. by rewrite map_size_insert_Some by eauto.
  - destruct room; cbn; [|done]. destruct (Z.ltb_spec (Z.of_nat (size m)) max); [|done].
    rewrite map_size_insert_None by done. lia.
Qed.

Lemma map_update_elem_Forall {V} (P : V -> Prop) max room fl k (v : V) m :
  P v -> map_Forall (fun _ => P) m ->
  map_Forall (fun _ => P) (map_update_elem max room fl k v m).
Proof.
  intros Hv Hm. unfold map_update_elem.
  repeat case_match; try done; by apply map_Forall_insert_2.
Qed.

Lemma map_update_elem_ne {V} max room fl k k' (v : V) m :
  k <> k' -> map_update_elem max room fl k v m !! k' = m !! k'.
Proof.
  intros. unfold map_update_elem. repeat case_match; try done; by rewrite lookup_insert_ne.
Qed.

(** An update either stores the value or leaves the map as it was. *)
Lemma map_update_elem_cases {V} max room fl k (v : V) m :
  map_update_elem max room fl k v m = <[k := v]> m
  \/ map_update_elem max room fl k v m = m.
Proof. unfold map_update_elem. repeat case_match; auto. Qed.

Lemma size_insert_is_Some {V} (m : gmap Z V) k v :
  is_Some (m !! k) -> size (<[k := v]> m) = size m.
Proof. intros. by rewrite map_size_insert_Some. Qed.

Lemma size_delete_le {V} (m : gmap Z V) k : (size (delete k m) <= size m)%nat.
Proof.
  destruct (m !! k) eqn:E.
  - rewrite map_size_delete_Some by eauto. lia.
  - by rewrite delete_id.
Qed.

#[export] Hint Resolve map_update_elem_size map_update_elem_Forall map_Forall_delete : tlstat.

Lemma map_Forall_get {V} (P : V -> Prop) (m : gmap Z V) k v :
  map_Forall (fun _ => P) m -> m !! k = Some v -> P v.
Proof. intros Hm. apply Hm. Qed.

(** [lia] on the capacities. *)
Ltac sizes :=
  unfold flows_max, ssl_stats_max, ssl_fds_max, recv_ctxs_max, ssl_ctxs_max in *; lia.

(** ** Values *)

Lemma ntohs_range x : in_width 16 x -> in_width 16 (ntohs x).
Proof.
  intros Hx. unfold ntohs, in_width in *.
  assert (0 <= wrap 16 (Z.shiftl x 8) < 2 ^ 16) by (apply wrap_range; lia).
  assert (0 <= Z.shiftr x 8 < 2 ^ 16).
  { rewrite Z.shiftr_div_pow2 by lia.
    split; [apply Z.div_pos; lia | apply Z.div_lt_upper_bound; lia]. }
  set (a := wrap 16 (Z.shiftl x 8)) in *. set (b := Z.shiftr x 8) in *.
  split; [apply Z.lor_nonneg; lia|].
  destruct (Z.eq_dec (Z.lor a b) 0) as [E|E]; [lia|].
  assert (0 <= Z.lor a b) by (apply Z.lor_nonneg; lia).
  apply Z.log2_lt_pow2; [lia|]. rewrite Z.log2_lor by lia.
  apply Z.max_lub_lt.
  - destruct (Z.eq_dec a 0) as [->|]; [done|]. apply Z.log2_lt_pow2; lia.
  - destruct (Z.eq_dec b 0) as [->|]; [done|]. apply Z.log2_lt_pow2; lia.
Qed.

Lemma tgid_of_range id : in_width 32 (tgid_of id).
Proof. apply wrap_range. lia. Qed.

(** For sizes that are a power of two the mask is a no-op after the clamp. *)
Lemma clamp_cap_spec n : clamp_cap 1024 n = Z.min (wrap 32 n) 1023.
Proof.
  unfold clamp_cap. change (1024 - 1) with (Z.ones 10).
  assert (0 <= wrap 32 n) by (apply wrap_range; lia).
  rewrite Z.land_ones by lia. change (Z.ones 10) with 1023. change (2 ^ 10) with 1024.
  destruct (Z.ltb_spec 1023 (wrap 32 n)).
  - rewrite Z.mod_small by lia. lia.
  - rewrite Z.mod_small by lia. lia.
Qed.

Lemma clamp_cap_range n : 0 <= clamp_cap 1024 n < 1024.
Proof.
  rewrite clamp_cap_spec. assert (0 <= wrap 32 n) by (apply wrap_range; lia). lia.
Qed.

(** ** Preservation, one state update at a time *)

Section Preservation.
Context {K : Type} `{KernelViewOk K}.
Implicit Types (e : env K) (s : bpf) (f : flow).

Lemma flow_set_tls_wf f : flow_wf f -> flow_wf (flow_set_tls f).
Proof. unfold flow_wf, flow_set_tls. cbn. assert (in_width 8 1) by done. tauto. Qed.
Lemma flow_set_closed_wf f : flow_wf f -> flow_wf (flow_set_closed f).
Proof. unfold flow_wf, flow_set_closed. cbn. assert (in_width 8 1) by done. tauto. Qed.
Lemma flow_set_direction_wf d f : in_width 8 d -> flow_wf f -> flow_wf (flow_set_direction d f).
Proof. unfold flow_wf, flow_set_direction. cbn. tauto. Qed.
Lemma flow_add_tx_wf n f : flow_wf f -> flow_wf (flow_add_tx n f).
Proof.
  unfold flow_wf, flow_add_tx. cbn. intros Hf.
  pose proof (wrap_range 64 (f_tx f + n) ltac:(lia)). tauto.
Qed.
Lemma flow_add_rx_wf n f : flow_wf f -> flow_wf (flow_add_rx n f).
Proof.
  unfold flow_wf, flow_add_rx. cbn. intros Hf.
  pose proof (wrap_range 64 (f_rx f + n) ltac:(lia)). tauto.
Qed.

Lemma wire_cnt_incr_wf dir f :
  flow_wf f -> wire_cnt dir f < MAX_WIRE_EVENTS -> flow_wf (wire_cnt_incr dir f).
Proof.
  unfold flow_wf, wire_cnt_incr, wire_cnt, MAX_WIRE_EVENTS. intros Hf.
  destruct (dir =? DIR_OUT); cbn; intros Hc; unfold wrap;
    rewrite Z.mod_small by lia; intuition lia.
Qed.

Lemma insert_tuple_wf (l : list Z) x :
  length l = 4%nat /\ Forall (in_width 32) l -> in_width 32 x ->
  length (<[0%nat := x]> l) = 4%nat /\ Forall (in_width 32) (<[0%nat := x]> l).
Proof.
  intros [Hl HF] Hx. rewrite length_insert. split; [done|]. by apply Forall_insert.
Qed.

Lemma read_tuple_wf k sk f : flow_wf f -> flow_wf (read_tuple k sk f).
Proof.
  unfold flow_wf, read_tuple, flow_set_tuple. intros Hf.
  pose proof (skc_num_ok k sk). pose proof (ntohs_range _ (skc_dport_ok k sk)).
  pose proof (skc_v6_rcv_saddr_ok k sk). pose proof (skc_v6_daddr_ok k sk).
  pose proof (insert_tuple_wf (f_saddr f) _ ltac:(tauto) (skc_rcv_saddr_ok k sk)).
  pose proof (insert_tuple_wf (f_daddr f) _ ltac:(tauto) (skc_daddr_ok k sk)).
  assert (in_width 8 0 /\ in_width 8 1) by (unfold in_width; lia).
  destruct (_ =? AF_INET6); cbn; tauto.
Qed.

Lemma flow_set_ident_wf pid comm f :
  in_width 32 pid -> length comm = 16%nat /\ Forall is_byte comm ->
  flow_wf f -> flow_wf (flow_set_ident pid comm f).
Proof. unfold flow_wf, flow_set_ident. cbn. tauto. Qed.

Lemma put_flow_wf sk f s :
  bpf_wf s -> is_Some (flows s !! sk) -> flow_wf f -> bpf_wf (put_flow sk f s).
Proof.
  intros [] Hsk Hf. constructor; cbn; try done.
  - by apply map_Forall_insert_2.
  - by rewrite size_insert_is_Some.
Qed.

Lemma push_event_wf ev s :
  bpf_wf s -> event_wf ev -> bpf_wf (set_events (events s ++ [ev]) s).
Proof. intros [] Hev. constructor; cbn; try done. apply Forall_app; auto. Qed.

(** The invariant of a pointer returned by a lookup: it designates [f]. *)
Definition flow_ptr (s : bpf) (sk : Z) (f : flow) : Prop := flows s !! sk = Some f.

Lemma put_flow_ptr sk f s : flow_ptr (put_flow sk f s) sk f.
Proof. unfold flow_ptr. cbn. apply lookup_insert_eq. Qed.

Lemma flow_get_wf e sk s s' o :
  env_ok e -> bpf_wf s -> flow_get e sk s = (s', o) ->
  bpf_wf s' /\ (forall f, o = Some f -> flow_ptr s' sk f /\ flow_wf f).
Proof.
  intros (_ & Hcomm & _) Hs. unfold flow_get.
  set (s1 := match flows s !! sk with Some _ => s | None => _ end).
  assert (bpf_wf s1) as Hs1.
  { subst s1. destruct (flows s !! sk); [done|]. destruct Hs. constructor; cbn; try done.
    - apply map_update_elem_Forall; [apply flow_zero_wf|done].
    - repeat split; try apply map_update_elem_size; tauto. }
  clearbody s1. destruct (flows s1 !! sk) as [f|] eqn:E.
  - pose proof (map_Forall_get _ _ _ _ (wf_flows _ Hs1) E) as Hf.
    destruct (f_pid f =? 0); intros [= <- <-].
    + set (f' := read_tuple _ _ _).
      assert (flow_wf f') as Hf'.
      { apply read_tuple_wf, flow_set_ident_wf; auto using tgid_of_range. }
      split; [apply put_flow_wf; eauto|]. intros ? [= <-]. split; [apply put_flow_ptr|done].
    + split; [done|]. intros ? [= <-]. auto.
  - intros [= <- <-]. split; [done|]. congruence.
Qed.

Lemma payload_wf e a n k mem bs :
  env_ok e -> e_ring e k = Some mem -> e_user e a (clamp_cap 1024 n) = Some bs ->
  k = 12 + 1024 \/ k = 24 + 1024 ->
  zlen (bs ++ zdrop (k - 1024 + clamp_cap 1024 n) mem) = 1024
  /\ Forall is_byte (bs ++ zdrop (k - 1024 + clamp_cap 1024 n) mem).
Proof.
  intros (_ & _ & Hu & Hr) Hmem Hbs Hk.
  destruct (Hu _ _ _ Hbs), (Hr _ _ Hmem). pose proof (clamp_cap_range n).
  split.
  - rewrite zlen_app, zlen_zdrop by lia. lia.
  - apply Forall_app. split; [done|]. by apply Forall_drop.
Qed.

Lemma emit_wire_wf e sk f buf n dir s :
  env_ok e -> bpf_wf s -> flow_ptr s sk f -> in_width 64 sk ->
  dir = DIR_OUT \/ dir = DIR_IN -> wire_cnt dir f < MAX_WIRE_EVENTS ->
  bpf_wf (emit_wire e sk f buf n dir s).
Proof.
  intros He Hs Hp Hsk Hdir Hc. unfold emit_wire, WIRE_CAP.
  destruct (e_ring e 1036) as [mem|] eqn:Hmem; [|done].
  destruct (e_user e buf _) as [bs|] eqn:Hbs; [|done].
  destruct (payload_wf e buf n 1036 mem bs) as [Hl Hb]; auto.
  apply push_event_wf.
  - apply put_flow_wf; [done|by eexists|].
    apply wire_cnt_incr_wf; [|done]. by apply (map_Forall_get _ _ _ _ (wf_flows _ Hs) Hp).
  - cbn. repeat split; auto; apply clamp_cap_range || apply Hsk.
Qed.

Lemma capture_wire_wf e sk f buf n dir s :
  env_ok e -> bpf_wf s -> flow_ptr s sk f -> in_width 64 sk ->
  dir = DIR_OUT \/ dir = DIR_IN ->
  bpf_wf (capture_wire e sk f buf n dir s).
Proof.
  intros He Hs Hp Hsk Hdir. unfold capture_wire.
  case_match; [done|].
  destruct (Z.leb_spec MAX_WIRE_EVENTS (wire_cnt dir f)) as [|Hc]; [done|].
  pose proof (map_Forall_get _ _ _ _ (wf_flows _ Hs) Hp) as Hf.
  repeat case_match; try done; apply emit_wire_wf; auto using put_flow_ptr.
  apply put_flow_wf; [done|by eexists|by apply flow_set_tls_wf].
Qed.

Lemma flow_step_wf e sk s buf n dir (upd : flow -> flow) :
  env_ok e -> bpf_wf s -> in_width 64 sk -> dir = DIR_OUT \/ dir = DIR_IN ->
  (forall f, flow_wf f -> flow_wf (upd f)) ->
  bpf_wf (match flow_get e sk s with
          | (s, None) => s
          | (s, Some f) => capture_wire e sk (upd f) buf n dir (put_flow sk (upd f) s)
          end).
Proof.
  intros He Hs Hsk Hdir Hupd. destruct (flow_get e sk s) as [s' o] eqn:E.
  destruct (flow_get_wf _ _ _ _ _ He Hs E) as [Hs' Ho]. destruct o as [f|]; [|done].
  destruct (Ho f eq_refl) as [Hp Hf].
  apply capture_wire_wf; auto using put_flow_ptr.
  apply put_flow_wf; eauto.
Qed.

Lemma stat_add_wf dir n st : ssl_stat_wf st -> ssl_stat_wf (stat_add dir n st).
Proof.
  unfold ssl_stat_wf, stat_add. intros Hst.
  pose proof (wrap_range 64 (s_ptx st + n) ltac:(lia)).
  pose proof (wrap_range 64 (s_prx st + n) ltac:(lia)).
  destruct (_ =? _); cbn; tauto.
Qed.

Lemma put_stat_wf ssl st s :
  bpf_wf s -> is_Some (ssl_stats s !! ssl) -> ssl_stat_wf st -> bpf_wf (put_stat ssl st s).
Proof.
  intros [] Hk Hst. constructor; cbn; try done.
  - by apply map_Forall_insert_2.
  - by rewrite size_insert_is_Some.
Qed.

Lemma ssl_stat_get_wf e ssl s s' o :
  env_ok e -> bpf_wf s -> ssl_stat_get e ssl s = (s', o) ->
  bpf_wf s' /\ (forall st, o = Some st -> ssl_stats s' !! ssl = Some st /\ ssl_stat_wf st).
Proof.
  intros He Hs. unfold ssl_stat_get. destruct (ssl_stats s !! ssl) as [st|] eqn:E.
  - intros [= <- <-]. split; [done|]. intros ? [= <-].
    split; [done|]. by apply (map_Forall_get _ _ _ _ (wf_stats _ Hs) E).
  - set (zero := mk_ssl_stat _ _ _ _). intros [= <- <-].
    assert (ssl_stat_wf zero) as Hz.
    { unfold ssl_stat_wf, zero, in_width, in_s32. cbn. pose proof (tgid_of_range (e_pid_tgid e)) as Ht.
      unfold in_width in Ht. repeat split; try lia.
      all: destruct (ssl_fds s !! ssl) as [fd|] eqn:F; [|lia];
        pose proof (map_Forall_get _ _ _ _ (wf_fds _ Hs) F) as Hfd; unfold in_s32 in Hfd; lia. }
    assert (bpf_wf (set_ssl_stats (map_update_elem ssl_stats_max (e_room e) BPF_ANY ssl zero
                      (ssl_stats s)) s)) as Hs'.
    { destruct Hs. constructor; cbn; try done.
      - by apply map_update_elem_Forall.
      - repeat split; try apply map_update_elem_size; tauto. }
    split; [done|]. cbn. intros st Hst. split; [done|].
    by apply (map_Forall_get _ _ _ _ (wf_stats _ Hs') Hst).
Qed.

Lemma emit_plaintext_wf e ssl buf n dir s :
  env_ok e -> bpf_wf s -> in_width 64 ssl -> dir = DIR_OUT \/ dir = DIR_IN ->
  bpf_wf (emit_plaintext e ssl buf n dir s).
Proof.
  intros He Hs Hssl Hdir. unfold emit_plaintext, DATA_CAP. case_match; [done|].
  destruct (ssl_stat_get e ssl s) as [s' o] eqn:E.
  destruct (ssl_stat_get_wf _ _ _ _ _ He Hs E) as [Hs' Ho]. destruct o as [st|]; [|done].
  destruct (Ho st eq_refl) as [Hk Hst]. apply (stat_add_wf dir n) in Hst.
  assert (bpf_wf (put_stat ssl (stat_add dir n st) s')) by (apply put_stat_wf; eauto).
  destruct (e_ring e 1048) as [mem|] eqn:Hmem; [|done].
  destruct (e_user e buf _) as [bs|] eqn:Hbs; [|done].
  destruct (payload_wf e buf n 1048 mem bs) as [Hl Hb]; auto.
  apply push_event_wf; [done|]. cbn.
  pose proof (clamp_cap_range n). pose proof (tgid_of_range (e_pid_tgid e)).
  pose proof (wrap_range 32 (e_pid_tgid e) ltac:(lia)). destruct Hst as (_ & _ & _ & Hfd).
  unfold data_event_wf; cbn. unfold DATA_CAP. tauto.
Qed.

Lemma set_recv_ctxs_wf m s :
  bpf_wf s -> map_Forall (fun _ rc => in_width 64 (rc_sk rc)) m ->
  Z.of_nat (size m) <= recv_ctxs_max -> bpf_wf (set_recv_ctxs m s).
Proof. intros [] ??. constructor; cbn; tauto. Qed.

Lemma set_ssl_ctxs_wf m s :
  bpf_wf s -> map_Forall (fun _ c => in_width 64 (sc_ssl c)) m ->
  Z.of_nat (size m) <= ssl_ctxs_max -> bpf_wf (set_ssl_ctxs m s).
Proof. intros [] ??. constructor; cbn; tauto. Qed.

Lemma set_ssl_fds_wf m s :
  bpf_wf s -> map_Forall (fun _ fd => in_s32 fd) m ->
  Z.of_nat (size m) <= ssl_fds_max -> bpf_wf (set_ssl_fds m s).
Proof. intros [] ??. constructor; cbn; tauto. Qed.

Lemma set_ssl_stats_delete_wf ssl s :
  bpf_wf s -> bpf_wf (set_ssl_stats (delete ssl (ssl_stats s)) s).
Proof.
  intros []. pose proof (size_delete_le (ssl_stats s) ssl).
  constructor; cbn; try done; [by apply map_Forall_delete|sizes].
Qed.

Lemma set_flows_delete_wf sk s : bpf_wf s -> bpf_wf (set_flows (delete sk (flows s)) s).
Proof.
  intros []. pose proof (size_delete_le (flows s) sk).
  constructor; cbn; try done; [by apply map_Forall_delete|sizes].
Qed.

Lemma set_flows_create_wf room fl sk s :
  bpf_wf s ->
  bpf_wf (set_flows (map_update_elem flows_max room fl sk flow_zero (flows s)) s).
Proof.
  intros []. constructor; cbn; try done.
  - apply map_update_elem_Forall; [apply flow_zero_wf|done].
  - repeat split; try apply map_update_elem_size; tauto.
Qed.

Lemma recv_exit_wf e id s :
  bpf_wf s -> bpf_wf (set_recv_ctxs (delete id (recv_ctxs s)) s).
Proof.
  intros Hs. pose proof (size_delete_le (recv_ctxs s) id). destruct (wf_sizes _ Hs) as (? & ? & ? & ? & ?).
  apply set_recv_ctxs_wf; [done| |lia]. apply map_Forall_delete, Hs.
Qed.

Lemma tp_inet_sock_set_state_wf e p sk o n s :
  bpf_wf s -> bpf_wf (tp_inet_sock_set_state e p sk o n s).
Proof.
  intros Hs. unfold tp_inet_sock_set_state. case_match; [done|]. case_match.
  - set (s1 := match flows s !! sk with Some _ => s | None => _ end).
    assert (bpf_wf s1) as Hs1.
    { subst s1. destruct (flows s !! sk); auto using set_flows_create_wf. }
    clearbody s1. destruct (flows s1 !! sk) as [f|] eqn:E; [|done].
    apply put_flow_wf; eauto. apply flow_set_direction_wf.
    + by destruct (o =? TCP_SYN_RECV).
    + by apply (map_Forall_get _ _ _ _ (wf_flows _ Hs1) E).
  - case_match; [|done]. destruct (flows s !! sk) as [f|] eqn:E; [|done].
    apply put_flow_wf; eauto. apply flow_set_closed_wf.
    by apply (map_Forall_get _ _ _ _ (wf_flows _ Hs) E).
Qed.

Lemma u_ssl_free_wf e ssl s :
  env_ok e -> in_width 64 ssl -> bpf_wf s -> bpf_wf (u_ssl_free e ssl s).
Proof.
  intros (_ & _ & _ & Hr) Hssl Hs. unfold u_ssl_free.
  set (s1 := match ssl_stats s !! ssl with Some _ => _ | None => s end).
  assert (bpf_wf s1) as Hs1.
  { subst s1. destruct (ssl_stats s !! ssl) as [st|] eqn:E; [|done].
    apply set_ssl_stats_delete_wf. destruct (e_ring e 36) as [mem|] eqn:Hm; [|done].
    destruct (Hr _ _ Hm). apply push_event_wf; [done|].
    destruct (map_Forall_get _ _ _ _ (wf_stats _ Hs) E) as (? & ? & _ & ?).
    cbn. unfold close_event_wf; cbn.
    assert (zlen (ztake 3 (zdrop 1 mem)) = 3) by (rewrite zlen_ztake; rewrite ?zlen_zdrop; lia).
    assert (length (ztake 3 (zdrop 1 mem)) = 3%nat) by (unfold zlen in *; lia).
    assert (Forall is_byte (ztake 3 (zdrop 1 mem))) by (by apply Forall_take, Forall_drop).
    pose proof (tgid_of_range (e_pid_tgid e)). tauto. }
  clearbody s1. pose proof (size_delete_le (ssl_fds s1) ssl). destruct (wf_sizes _ Hs1) as (? & ? & ? & ? & ?).
  apply set_ssl_fds_wf; [done| |lia]. apply map_Forall_delete, Hs1.
Qed.

(** Every program preserves the invariant. *)
Lemma fire_wf e p s : env_ok e -> probe_ok p -> bpf_wf s -> bpf_wf (fire e p s).
Proof.
  intros He Hp Hs. pose proof (wf_sizes _ Hs) as Hz. destruct p; cbn in *.
  - apply (flow_step_wf e sk s _ size DIR_OUT (flow_add_tx size)); auto using flow_add_tx_wf.
    tauto.
  - unfold k_tcp_recvmsg. apply set_recv_ctxs_wf; [done| |apply map_update_elem_size; tauto].
    apply (map_update_elem_Forall (fun rc => in_width 64 (rc_sk rc))); [apply Hp|apply Hs].
  - unfold kr_tcp_recvmsg. destruct (recv_ctxs s !! _) as [rc|] eqn:E; [|done].
    pose proof (recv_exit_wf e (e_pid_tgid e) s Hs) as Hs1. case_match; [done|].
    apply (flow_step_wf e (rc_sk rc) _ (rc_base rc) ret DIR_IN (flow_add_rx ret));
      auto using flow_add_rx_wf. by apply (map_Forall_get _ _ _ _ (wf_recv _ Hs) E).
  - by apply tp_inet_sock_set_state_wf.
  - by apply u_ssl_free_wf.
  - unfold u_ssl_set_fd. apply set_ssl_fds_wf; [done| |apply map_update_elem_size; tauto].
    apply (map_update_elem_Forall in_s32); [apply Hp|apply Hs].
  - unfold u_ssl_write. case_match; [|done]. apply emit_plaintext_wf; auto. apply Hp.
  - unfold u_ssl_read. apply set_ssl_ctxs_wf; [done| |apply map_update_elem_size; tauto].
    apply (map_update_elem_Forall (fun c => in_width 64 (sc_ssl c))); [apply Hp|apply Hs].
  - unfold ur_ssl_read. destruct (ssl_ctxs s !! _) as [c|] eqn:E; [|done].
    assert (bpf_wf (set_ssl_ctxs (delete (e_pid_tgid e) (ssl_ctxs s)) s)).
    { pose proof (size_delete_le (ssl_ctxs s) (e_pid_tgid e)).
      apply set_ssl_ctxs_wf; [done| |lia]. apply map_Forall_delete, Hs. }
    case_match; [|done]. apply emit_plaintext_wf; auto.
    by apply (map_Forall_get _ _ _ _ (wf_ssl _ Hs) E).
Qed.

Lemma bpf_init_wf : bpf_wf bpf_init.
Proof. constructor; cbn; try apply map_Forall_empty; [constructor|]. by rewrite !map_size_empty. Qed.

Lemma kstep_wf s s' : kstep (K := K) s s' -> bpf_wf s -> bpf_wf s'.
Proof.
  intros [e p s0 He Hp|n s0|sk s0] Hs.
  - by apply fire_wf.
  - destruct Hs. constructor; cbn; try done. by apply Forall_drop.
  - by apply set_flows_delete_wf.
Qed.

Lemma reachable_wf s s' : rtc (kstep (K := K)) s s' -> bpf_wf s -> bpf_wf s'.
Proof. induction 1; eauto using kstep_wf. Qed.
End Preservation.

#[export] Hint Resolve put_flow_wf push_event_wf put_stat_wf : tlstat.
