(* ===== verification/BpfFrame.v ===== *)
(** What one firing does to one socket and to one TLS session.

    [fire_flow] describes the effect of any firing on the flow entry of a socket
    (only the firings on that socket touch it); [fire_wire_out] its effect on the
    outbound captures of a socket; [fire_stat] its effect on the entry of an SSL
    session; [fire_recv_ctx] on the scratch entry of a thread.  The trace theorems
    of BpfProps are inductions over these. *)
From S2P Require Import Prelude Abi Bpf BpfInv.

(** The payloads of the wire records in [evs] for socket [sk], direction [dir]. *)
Definition wire_payload (sk dir : Z) (ev : event) : option (list Z) :=
  match ev with
  | EvWire e =>
      if (we_sk e =? sk) && (we_direction e =? dir)
      then Some (ztake (we_len e) (we_data e)) else None
  | _ => None
  end.
Definition wire_payloads (sk dir : Z) (evs : list event) : list (list Z) :=
  omap (wire_payload sk dir) evs.
Arguments wire_payloads : simpl never.

Lemma wire_payloads_app sk dir a b :
  wire_payloads sk dir (a ++ b) = wire_payloads sk dir a ++ wire_payloads sk dir b.
Proof. apply omap_app. Qed.

(** Identity fields: who owns the flow and between which endpoints it runs. *)
Definition flow_ident (f : flow) : Z * list Z * (list Z * list Z) * (Z * Z * Z) :=
  (f_pid f, f_comm f, (f_saddr f, f_daddr f), (f_sport f, f_dport f, f_is_ipv6 f)).

Section Frame.
Context {K : Type} `{KernelView K}.
Implicit Types (e : env K) (s : bpf) (f : flow).

(** *** Access to the state after each kind of update *)

Lemma put_flow_lookup sk sk' f s :
  flows (put_flow sk f s) !! sk' = if decide (sk = sk') then Some f else flows s !! sk'.
Proof. cbn. by rewrite lookup_insert. Qed.

Lemma put_flow_ne sk sk' f s : sk <> sk' -> flows (put_flow sk f s) !! sk' = flows s !! sk'.
Proof. intros. cbn. by rewrite lookup_insert_ne. Qed.

(** *** flow_get *)

Definition backfill e sk f : flow :=
  if f_pid f =? 0
  then read_tuple (e_kmem e) sk (flow_set_ident (tgid_of (e_pid_tgid e)) (e_comm e) f)
  else f.

Lemma flow_get_existing e sk s f :
  flows s !! sk = Some f ->
  exists s', flow_get e sk s = (s', Some (backfill e sk f))
    /\ flows s' = <[sk := backfill e sk f]> (flows s)
    /\ events s' = events s /\ recv_ctxs s' = recv_ctxs s
    /\ ssl_stats s' = ssl_stats s /\ ssl_fds s' = ssl_fds s /\ ssl_ctxs s' = ssl_ctxs s.
Proof.
  intros Hf. unfold flow_get, backfill. rewrite Hf, Hf.
  destruct (f_pid f =? 0); eexists; (split; [done|]); [done|by rewrite insert_id].
Qed.

(** [flow_get] on [sk] leaves everything but the entry of [sk] alone. *)
Lemma flow_get_frame e sk s s' o :
  flow_get e sk s = (s', o) ->
  (forall sk', sk' <> sk -> flows s' !! sk' = flows s !! sk')
  /\ (forall f, o = Some f -> flows s' !! sk = Some f)
  /\ events s' = events s /\ recv_ctxs s' = recv_ctxs s
  /\ ssl_stats s' = ssl_stats s /\ ssl_fds s' = ssl_fds s /\ ssl_ctxs s' = ssl_ctxs s.
Proof.
  unfold flow_get. set (s1 := match flows s !! sk with Some _ => s | None => _ end).
  assert ((forall sk', sk' <> sk -> flows s1 !! sk' = flows s !! sk')
          /\ events s1 = events s /\ recv_ctxs s1 = recv_ctxs s
          /\ ssl_stats s1 = ssl_stats s /\ ssl_fds s1 = ssl_fds s
          /\ ssl_ctxs s1 = ssl_ctxs s) as (Hne & Hrest).
  { subst s1. destruct (flows s !! sk); [done|]. split; [|done].
    intros. cbn. by rewrite map_update_elem_ne. }
  clearbody s1. destruct (flows s1 !! sk) as [f|] eqn:E; [|intros [= <- <-]; by rewrite ?E].
  destruct (f_pid f =? 0); intros [= <- <-]; cbn; (split; [|split; [|done]]).
  - intros. rewrite lookup_insert_ne by done. auto.
  - intros ? [= <-]. apply lookup_insert_eq.
  - auto.
  - by intros ? [= <-].
Qed.

(** *** capture_wire *)

Lemma emit_wire_cases e sk f buf n dir s :
  emit_wire e sk f buf n dir s = s
  \/ exists bs mem,
       e_ring e 1036 = Some mem /\ e_user e buf (clamp_cap WIRE_CAP n) = Some bs
       /\ emit_wire e sk f buf n dir s =
          set_events (events s ++ [EvWire (mk_wire_event EVENT_WIRE dir (clamp_cap WIRE_CAP n) sk
                        (bs ++ zdrop (12 + clamp_cap WIRE_CAP n) mem))])
            (put_flow sk (wire_cnt_incr dir f) s).
Proof.
  unfold emit_wire. destruct (e_ring e 1036) as [mem|]; [|by left].
  destruct (e_user e buf _) as [bs|]; [|by left]. right. by exists bs, mem.
Qed.

(** What [capture_wire] may do to the entry it is given: arm it, count one capture. *)
Definition capture_upd dir f f' : Prop :=
  f' = f \/ f' = flow_set_tls f \/ f' = wire_cnt_incr dir f
  \/ f' = wire_cnt_incr dir (flow_set_tls f).

Lemma capture_wire_frame e sk f buf n dir s :
  flows s !! sk = Some f ->
  let s' := capture_wire e sk f buf n dir s in
  (exists f', flows s' !! sk = Some f' /\ capture_upd dir f f')
  /\ (forall sk', sk' <> sk -> flows s' !! sk' = flows s !! sk')
  /\ (forall sk' dir', sk' <> sk \/ dir' <> dir ->
        wire_payloads sk' dir' (events s') = wire_payloads sk' dir' (events s))
  /\ recv_ctxs s' = recv_ctxs s
  /\ ssl_stats s' = ssl_stats s /\ ssl_fds s' = ssl_fds s /\ ssl_ctxs s' = ssl_ctxs s.
Proof.
  intros Hf. cbn zeta.
  assert (forall g s0, flows s0 !! sk = Some g -> (g = f \/ g = flow_set_tls f) ->
    (forall sk', sk' <> sk -> flows s0 !! sk' = flows s !! sk') ->
    events s0 = events s -> recv_ctxs s0 = recv_ctxs s ->
    ssl_stats s0 = ssl_stats s -> ssl_fds s0 = ssl_fds s -> ssl_ctxs s0 = ssl_ctxs s ->
    let s' := emit_wire e sk g buf n dir s0 in
    (exists f', flows s' !! sk = Some f' /\ capture_upd dir f f')
    /\ (forall sk', sk' <> sk -> flows s' !! sk' = flows s !! sk')
    /\ (forall sk' dir', sk' <> sk \/ dir' <> dir ->
          wire_payloads sk' dir' (events s') = wire_payloads sk' dir' (events s))
    /\ recv_ctxs s' = recv_ctxs s
    /\ ssl_stats s' = ssl_stats s /\ ssl_fds s' = ssl_fds s /\ ssl_ctxs s' = ssl_ctxs s)
    as Hemit.
  { intros g s0 Hg Hgf Hne He Hr H1 H2 H3. cbn zeta.
    destruct (emit_wire_cases e sk g buf n dir s0) as [->|(bs & mem & _ & _ & ->)].
    - split; [exists g; split; [done|unfold capture_upd; tauto]|]. by rewrite He.
    - cbn. rewrite lookup_insert_eq. split; [eexists; split; [done|]|].
      { unfold capture_upd. destruct Hgf as [-> | ->]; tauto. }
      split; [intros; rewrite lookup_insert_ne by done; auto|]. split; [|done].
      intros sk' dir' Hor. rewrite wire_payloads_app, He. unfold wire_payloads at 2. cbn.
      destruct (Z.eqb_spec sk sk'), (Z.eqb_spec dir dir'); cbn; rewrite ?app_nil_r; try done.
      destruct Hor; congruence. }
  unfold capture_wire.
  assert (exists f', flows s !! sk = Some f' /\ capture_upd dir f f') as Hid
    by (exists f; split; [done|by left]).
  repeat case_match; try (split; [exact Hid|done]).
  - apply Hemit; auto; try (apply put_flow_ptr).
    intros. by rewrite put_flow_ne.
  - by apply Hemit; auto.
Qed.

(** *** One firing, one socket *)

(** The bytes a firing accounts to the sending and the receiving side of [sk]. *)
Definition sent (sk : Z) (p : probe) : Z :=
  match p with KpSendmsg sk' _ size => if sk' =? sk then size else 0 | _ => 0 end.

Definition received (sk : Z) e (p : probe) s : Z :=
  match p with
  | KrRecvmsg ret =>
      match recv_ctxs s !! e_pid_tgid e with
      | Some rc => if (rc_sk rc =? sk) && negb (sk =? 0) && (0 <? ret) then ret else 0
      | None => 0
      end
  | _ => 0
  end.

(** [f'] is [f] after [dtx] more bytes out and [drx] more bytes in. *)
Record flow_evolves (dtx drx : Z) f f' : Prop := {
  ev_tx : f_tx f' = wrap 64 (f_tx f + dtx);
  ev_rx : f_rx f' = wrap 64 (f_rx f + drx);
  ev_ident : f_pid f <> 0 -> flow_ident f' = flow_ident f;
  ev_closed : f_closed f = 1 -> f_closed f' = 1;
  ev_tls : f_is_tls f = 1 -> f_is_tls f' = 1 }.

Definition counters_ok f : Prop := in_width 64 (f_tx f) /\ in_width 64 (f_rx f).

Lemma flow_evolves_refl f : counters_ok f -> flow_evolves 0 0 f f.
Proof. intros []. constructor; rewrite ?Z.add_0_r, ?wrap_small; done. Qed.

Lemma backfill_evolves e sk f : counters_ok f -> flow_evolves 0 0 f (backfill e sk f).
Proof.
  intros []. unfold backfill. destruct (Z.eqb_spec (f_pid f) 0); [|by apply flow_evolves_refl].
  unfold read_tuple. constructor; destruct (_ =? AF_INET6); cbn;
    rewrite ?Z.add_0_r, ?wrap_small; done.
Qed.

Lemma capture_upd_evolves dir f f' : counters_ok f -> capture_upd dir f f' -> flow_evolves 0 0 f f'.
Proof.
  intros [] Hu. assert (f_tx f' = f_tx f /\ f_rx f' = f_rx f /\ flow_ident f' = flow_ident f
    /\ f_closed f' = f_closed f /\ (f_is_tls f' = f_is_tls f \/ f_is_tls f' = 1))
    as (Ht & Hr & Hi & Hc & Hl).
  { destruct Hu as [-> | [-> | [-> | ->]]]; unfold wire_cnt_incr;
      try destruct (dir =? DIR_OUT); cbn; auto 6. }
  constructor; rewrite ?Ht, ?Hr, ?Hi, ?Hc, ?Z.add_0_r, ?wrap_small; auto.
  destruct Hl; congruence.
Qed.

Lemma flow_evolves_counters dtx drx f f' : flow_evolves dtx drx f f' -> counters_ok f'.
Proof. intros []. split; [rewrite ev_tx0|rewrite ev_rx0]; apply wrap_range; lia. Qed.

Lemma flow_evolves_trans a b c d f f' f'' :
  flow_evolves a b f f' -> flow_evolves c d f' f'' -> flow_evolves (a + c) (b + d) f f''.
Proof.
  intros [T R I C L] [T' R' I' C' L']. constructor; auto.
  - by rewrite T', T, wrap_add_l, Z.add_assoc by lia.
  - by rewrite R', R, wrap_add_l, Z.add_assoc by lia.
  - intros Hp. rewrite I'; [auto|]. specialize (I Hp). unfold flow_ident in I. congruence.
Qed.

Lemma add_tx_evolves n f : counters_ok f -> flow_evolves n 0 f (flow_add_tx n f).
Proof. intros []. constructor; cbn; try done; rewrite Z.add_0_r, wrap_small; done. Qed.
Lemma add_rx_evolves n f : counters_ok f -> flow_evolves 0 n f (flow_add_rx n f).
Proof. intros []. constructor; cbn; try done; rewrite Z.add_0_r, wrap_small; done. Qed.
Lemma set_direction_evolves d f : counters_ok f -> flow_evolves 0 0 f (flow_set_direction d f).
Proof. intros []. constructor; cbn; try done; rewrite Z.add_0_r, wrap_small; done. Qed.
Lemma set_closed_evolves f : counters_ok f -> flow_evolves 0 0 f (flow_set_closed f).
Proof. intros []. constructor; cbn; try done; rewrite Z.add_0_r, wrap_small; done. Qed.

(** The common body of the send and the receive-return probe. *)
Definition count_and_capture e sk buf n dir (upd : flow -> flow) s : bpf :=
  match flow_get e sk s with
  | (s, None) => s
  | (s, Some f) => capture_wire e sk (upd f) buf n dir (put_flow sk (upd f) s)
  end.

Lemma count_and_capture_at e sk buf n dir upd s f :
  flows s !! sk = Some f ->
  exists f', flows (count_and_capture e sk buf n dir upd s) !! sk = Some f'
    /\ capture_upd dir (upd (backfill e sk f)) f'.
Proof.
  intros Hf. unfold count_and_capture.
  destruct (flow_get_existing e sk s f Hf) as (s' & -> & _).
  apply capture_wire_frame. apply put_flow_ptr.
Qed.

Lemma count_and_capture_frame e sk buf n dir upd s :
  let s' := count_and_capture e sk buf n dir upd s in
  (forall sk', sk' <> sk -> flows s' !! sk' = flows s !! sk')
  /\ (forall sk' dir', sk' <> sk \/ dir' <> dir ->
        wire_payloads sk' dir' (events s') = wire_payloads sk' dir' (events s))
  /\ recv_ctxs s' = recv_ctxs s
  /\ ssl_stats s' = ssl_stats s /\ ssl_fds s' = ssl_fds s /\ ssl_ctxs s' = ssl_ctxs s.
Proof.
  unfold count_and_capture. cbn zeta. destruct (flow_get e sk s) as [s1 [f|]] eqn:E.
  - destruct (flow_get_frame _ _ _ _ _ E) as (Hne & _ & He & Hr & H1 & H2 & H3).
    destruct (capture_wire_frame e sk (upd f) buf n dir (put_flow sk (upd f) s1))
      as (_ & Hne' & He' & Hr' & H1' & H2' & H3'); [apply put_flow_ptr|].
    split; [intros; rewrite Hne', put_flow_ne by done; auto|].
    split; [intros; rewrite He' by done; cbn; by rewrite He|].
    cbn in *. by rewrite Hr', H1', H2', H3'.
  - destruct (flow_get_frame _ _ _ _ _ E) as (Hne & _ & He & Hr & H1 & H2 & H3).
    split; [done|]. split; [|done]. intros. by rewrite He.
Qed.

Lemma k_tcp_sendmsg_eq e sk msg size s :
  k_tcp_sendmsg e sk msg size s =
  count_and_capture e sk (iter_base (e_kmem e) (msg_iter msg)) size DIR_OUT (flow_add_tx size) s.
Proof. unfold k_tcp_sendmsg, count_and_capture. by destruct (flow_get e sk s) as [? []]. Qed.

Lemma kr_tcp_recvmsg_eq e ret s :
  kr_tcp_recvmsg e ret s =
  match recv_ctxs s !! e_pid_tgid e with
  | None => s
  | Some rc =>
      let s := set_recv_ctxs (delete (e_pid_tgid e) (recv_ctxs s)) s in
      if (ret <=? 0) || (rc_sk rc =? 0) then s
      else count_and_capture e (rc_sk rc) (rc_base rc) ret DIR_IN (flow_add_rx ret) s
  end.
Proof.
  unfold kr_tcp_recvmsg, count_and_capture. destruct (recv_ctxs s !! _); [|done].
  case_match; [done|]. by destruct (flow_get _ _ _) as [? []].
Qed.

(** Plaintext and scratch firings do not look at the flows. *)
Lemma ssl_stat_get_frame e ssl s :
  flows (ssl_stat_get e ssl s).1 = flows s /\ events (ssl_stat_get e ssl s).1 = events s
  /\ recv_ctxs (ssl_stat_get e ssl s).1 = recv_ctxs s
  /\ ssl_fds (ssl_stat_get e ssl s).1 = ssl_fds s
  /\ (forall ssl', ssl' <> ssl ->
        ssl_stats (ssl_stat_get e ssl s).1 !! ssl' = ssl_stats s !! ssl').
Proof.
  unfold ssl_stat_get. destruct (ssl_stats s !! ssl); cbn; [done|].
  repeat split. intros. by rewrite map_update_elem_ne.
Qed.

Lemma emit_plaintext_frame e ssl buf n dir s :
  let s' := emit_plaintext e ssl buf n dir s in
  flows s' = flows s /\ recv_ctxs s' = recv_ctxs s /\ ssl_fds s' = ssl_fds s
  /\ (forall sk d, wire_payloads sk d (events s') = wire_payloads sk d (events s))
  /\ (forall ssl', ssl' <> ssl -> ssl_stats s' !! ssl' = ssl_stats s !! ssl').
Proof.
  cbn zeta. unfold emit_plaintext. case_match; [done|].
  pose proof (ssl_stat_get_frame e ssl s) as (Hf & He & Hr & Hd & Hn).
  destruct (ssl_stat_get e ssl s) as [s1 [st|]]; cbn in *.
  2:{ rewrite Hf, Hr, Hd, He. auto. }
  destruct (e_ring e 1048) as [mem|]; [destruct (e_user e buf _) as [bs|]|]; cbn;
    rewrite Hf, Hr, Hd, He; (split; [done|split; [done|split; [done|split; intros]]]);
    rewrite ?wire_payloads_app, ?lookup_insert_ne by done; auto.
  unfold wire_payloads at 2. cbn. by rewrite app_nil_r.
Qed.

Lemma u_ssl_free_frame e ssl s :
  let s' := u_ssl_free e ssl s in
  flows s' = flows s /\ recv_ctxs s' = recv_ctxs s
  /\ (forall sk d, wire_payloads sk d (events s') = wire_payloads sk d (events s)).
Proof.
  cbn zeta. unfold u_ssl_free. destruct (ssl_stats s !! ssl) as [st|]; [|done].
  destruct (e_ring e 36); [|done]. cbn. repeat split. intros.
  rewrite wire_payloads_app. unfold wire_payloads at 2. cbn. by rewrite app_nil_r.
Qed.

Lemma set_state_at e p sk' o n s sk f :
  counters_ok f -> flows s !! sk = Some f ->
  exists f', flows (tp_inet_sock_set_state e p sk' o n s) !! sk = Some f'
    /\ flow_evolves 0 0 f f' /\ f_wire_out f' = f_wire_out f /\ f_wire_in f' = f_wire_in f.
Proof.
  intros Hc Hf. unfold tp_inet_sock_set_state.
  assert (exists f', flows s !! sk = Some f' /\ flow_evolves 0 0 f f'
            /\ f_wire_out f' = f_wire_out f /\ f_wire_in f' = f_wire_in f) as Hid
    by (exists f; auto using flow_evolves_refl).
  case_match; [exact Hid|]. case_match.
  - set (s1 := match flows s !! sk' with Some _ => s | None => _ end).
    assert (flows s1 !! sk = Some f) as Hf1.
    { subst s1. destruct (flows s !! sk') eqn:E; [done|]. cbn.
      rewrite map_update_elem_ne; [done|]. congruence. }
    clearbody s1. destruct (flows s1 !! sk') as [g|] eqn:E.
    2:{ exists f. auto using flow_evolves_refl. }
    rewrite put_flow_lookup. case_decide as D.
    + subst sk'. assert (g = f) as -> by congruence. eexists. split; [done|].
      auto using set_direction_evolves.
    + exists f. auto using flow_evolves_refl.
  - case_match; [|exact Hid]. destruct (flows s !! sk') as [g|] eqn:E; [|exact Hid].
    rewrite put_flow_lookup. case_decide as D; [|exact Hid].
    subst sk'. assert (g = f) as -> by congruence. eexists. split; [done|].
    auto using set_closed_evolves.
Qed.

Lemma set_state_payloads e p sk' o n s sk d :
  wire_payloads sk d (events (tp_inet_sock_set_state e p sk' o n s))
  = wire_payloads sk d (events s) /\ recv_ctxs (tp_inet_sock_set_state e p sk' o n s) = recv_ctxs s.
Proof.
  unfold tp_inet_sock_set_state.
  repeat (case_match; try done); cbn; destruct (flows s !! sk'); done.
Qed.

(** *** The effect of any firing on one socket, session or thread *)

Lemma count_and_capture_evolves e sk' buf n dir upd dtx drx s sk f :
  counters_ok f -> flows s !! sk = Some f ->
  (forall g, counters_ok g -> flow_evolves dtx drx g (upd g)) ->
  exists f', flows (count_and_capture e sk' buf n dir upd s) !! sk = Some f'
    /\ flow_evolves (if sk' =? sk then dtx else 0) (if sk' =? sk then drx else 0) f f'.
Proof.
  intros Hc Hf Hupd. destruct (Z.eqb_spec sk' sk) as [->|Hne].
  - destruct (count_and_capture_at e sk buf n dir upd s f Hf) as (f' & Hf' & Hu).
    exists f'. split; [done|].
    pose proof (backfill_evolves e sk f Hc) as H1.
    pose proof (Hupd _ (flow_evolves_counters _ _ _ _ H1)) as H2.
    pose proof (capture_upd_evolves _ _ _ (flow_evolves_counters _ _ _ _ H2) Hu) as H3.
    pose proof (flow_evolves_trans _ _ _ _ _ _ _ (flow_evolves_trans _ _ _ _ _ _ _ H1 H2) H3) as H4.
    by rewrite !Z.add_0_l, !Z.add_0_r in H4.
  - exists f. split; [|by apply flow_evolves_refl].
    destruct (count_and_capture_frame e sk' buf n dir upd s) as (-> & _); auto.
Qed.

Lemma fire_flow e p s sk f :
  counters_ok f -> flows s !! sk = Some f ->
  exists f', flows (fire e p s) !! sk = Some f'
    /\ flow_evolves (sent sk p) (received sk e p s) f f'.
Proof.
  intros Hc Hf.
  assert (exists f', flows s !! sk = Some f' /\ flow_evolves 0 0 f f') as Hid
    by eauto using flow_evolves_refl.
  destruct p as [sk' msg size|sk' msg|ret|pr sk' o n|ssl|ssl fd|ssl buf num|ssl buf|ret];
    cbn [fire sent received].
  - rewrite k_tcp_sendmsg_eq.
    destruct (count_and_capture_evolves e sk' (iter_base (e_kmem e) (msg_iter msg)) size
                DIR_OUT (flow_add_tx size) size 0 s sk f) as (f' & Hf' & He);
      auto using add_tx_evolves.
    exists f'. split; [done|]. by destruct (sk' =? sk).
  - done.
  - rewrite kr_tcp_recvmsg_eq. destruct (recv_ctxs s !! _) as [rc|]; [|done]. cbn zeta.
    destruct (Z.leb_spec ret 0), (Z.ltb_spec 0 ret); try lia; cbn [orb].
    { by rewrite andb_false_r. }
    destruct (Z.eqb_spec (rc_sk rc) 0) as [E0|].
    { destruct (Z.eqb_spec (rc_sk rc) sk), (Z.eqb_spec sk 0); cbn; try lia; done. }
    destruct (count_and_capture_evolves e (rc_sk rc) (rc_base rc) ret DIR_IN (flow_add_rx ret)
      0 ret (set_recv_ctxs (delete (e_pid_tgid e) (recv_ctxs s)) s) sk f) as (f' & Hf' & He);
      auto using add_rx_evolves.
    exists f'. split; [done|]. revert He.
    destruct (Z.eqb_spec (rc_sk rc) sk), (Z.eqb_spec sk 0); cbn; try lia; done.
  - destruct (set_state_at e pr sk' o n s sk f Hc Hf) as (f' & ? & ? & _). eauto.
  - destruct (u_ssl_free_frame e ssl s) as (-> & _). done.
  - done.
  - unfold u_ssl_write. case_match; [|done].
    destruct (emit_plaintext_frame e ssl buf num DIR_OUT s) as (-> & _). done.
  - done.
  - unfold ur_ssl_read. destruct (ssl_ctxs s !! _); [|done]. case_match; [|done].
    destruct (emit_plaintext_frame e (sc_ssl s0) (sc_buf s0) ret DIR_IN
      (set_ssl_ctxs (delete (e_pid_tgid e) (ssl_ctxs s)) s)) as (-> & _). done.
Qed.

Lemma capture_upd_wire_out dir f f' :
  dir <> DIR_OUT -> capture_upd dir f f' -> f_wire_out f' = f_wire_out f.
Proof.
  intros Hd [-> | [-> | [-> | ->]]]; unfold wire_cnt_incr;
    destruct (Z.eqb_spec dir DIR_OUT); done.
Qed.

Lemma backfill_wire e sk f :
  f_wire_out (backfill e sk f) = f_wire_out f /\ f_wire_in (backfill e sk f) = f_wire_in f
  /\ f_is_tls (backfill e sk f) = f_is_tls f.
Proof.
  unfold backfill, read_tuple. destruct (f_pid f =? 0); [|done]. by destruct (_ =? AF_INET6).
Qed.

(** Only [tcp_sendmsg] on [sk] captures outbound bytes of [sk]. *)
Lemma fire_wire_out e p s sk f :
  counters_ok f -> flows s !! sk = Some f ->
  match p with KpSendmsg sk' _ _ => sk' <> sk | _ => True end ->
  (exists f', flows (fire e p s) !! sk = Some f' /\ f_wire_out f' = f_wire_out f)
  /\ wire_payloads sk DIR_OUT (events (fire e p s)) = wire_payloads sk DIR_OUT (events s).
Proof.
  intros Hc Hf Hp.
  assert (exists f', flows s !! sk = Some f' /\ f_wire_out f' = f_wire_out f) as Hid by eauto.
  destruct p as [sk' msg size|sk' msg|ret|pr sk' o n|ssl|ssl fd|ssl buf num|ssl buf|ret];
    cbn [fire sent received].
  - rewrite k_tcp_sendmsg_eq.
    destruct (count_and_capture_frame e sk' (iter_base (e_kmem e) (msg_iter msg)) size DIR_OUT
      (flow_add_tx size) s) as (-> & -> & _); auto.
  - done.
  - rewrite kr_tcp_recvmsg_eq. destruct (recv_ctxs s !! _) as [rc|]; [|done]. cbn zeta.
    case_match; [done|].
    set (s1 := set_recv_ctxs _ s). assert (flows s1 !! sk = Some f) as Hf1 by done.
    destruct (count_and_capture_frame e (rc_sk rc) (rc_base rc) ret DIR_IN (flow_add_rx ret) s1)
      as (Hne & -> & _); [|by right]. split; [|done].
    destruct (decide (sk = rc_sk rc)) as [->|]; [|by rewrite Hne].
    destruct (count_and_capture_at e (rc_sk rc) (rc_base rc) ret DIR_IN (flow_add_rx ret) s1 f Hf1)
      as (f' & Hf' & Hu).
    exists f'. split; [done|]. apply capture_upd_wire_out in Hu; [|done]. rewrite Hu. cbn.
    apply backfill_wire.
  - destruct (set_state_at e pr sk' o n s sk f Hc Hf) as (f' & ? & _ & ? & _).
    destruct (set_state_payloads e pr sk' o n s sk DIR_OUT) as [-> _]. eauto.
  - destruct (u_ssl_free_frame e ssl s) as (-> & _ & ->). done.
  - done.
  - unfold u_ssl_write. case_match; [|done].
    destruct (emit_plaintext_frame e ssl buf num DIR_OUT s) as (-> & _ & _ & -> & _). done.
  - done.
  - unfold ur_ssl_read. destruct (ssl_ctxs s !! _) as [c|]; [|done]. case_match; [|done].
    destruct (emit_plaintext_frame e (sc_ssl c) (sc_buf c) ret DIR_IN
      (set_ssl_ctxs (delete (e_pid_tgid e) (ssl_ctxs s)) s)) as (-> & _ & _ & -> & _). done.
Qed.

(** The pairing entry of a thread is touched by that thread's firings only. *)
Lemma fire_recv_ctx e p s t :
  e_pid_tgid e <> t -> recv_ctxs (fire e p s) !! t = recv_ctxs s !! t.
Proof.
  intros Ht. destruct p as [sk' msg size|sk' msg|ret|pr sk' o n|ssl|ssl fd|ssl buf num|ssl buf|ret];
    cbn [fire].
  - rewrite k_tcp_sendmsg_eq.
    destruct (count_and_capture_frame e sk' (iter_base (e_kmem e) (msg_iter msg)) size DIR_OUT
      (flow_add_tx size) s) as (_ & _ & -> & _). done.
  - unfold k_tcp_recvmsg. cbn. by rewrite map_update_elem_ne.
  - rewrite kr_tcp_recvmsg_eq. destruct (recv_ctxs s !! e_pid_tgid e) as [rc|]; [|done]. cbn zeta.
    case_match; [|destruct (count_and_capture_frame e (rc_sk rc) (rc_base rc) ret DIR_IN
      (flow_add_rx ret) (set_recv_ctxs (delete (e_pid_tgid e) (recv_ctxs s)) s)) as (_ & _ & -> & _)];
      cbn; by rewrite lookup_delete_ne.
  - by destruct (set_state_payloads e pr sk' o n s 0 0) as [_ ->].
  - destruct (u_ssl_free_frame e ssl s) as (_ & -> & _). done.
  - done.
  - unfold u_ssl_write. case_match; [|done].
    destruct (emit_plaintext_frame e ssl buf num DIR_OUT s) as (_ & -> & _). done.
  - done.
  - unfold ur_ssl_read. destruct (ssl_ctxs s !! _) as [c|]; [|done]. case_match; [|done].
    destruct (emit_plaintext_frame e (sc_ssl c) (sc_buf c) ret DIR_IN
      (set_ssl_ctxs (delete (e_pid_tgid e) (ssl_ctxs s)) s)) as (_ & -> & _). done.
Qed.
End Frame.
