(* ===== verification/BpfTrace.v ===== *)
(** Traces of the kernel side: what the per-socket and per-session counters, the
    captured handshake bytes and the close records are, as functions of the whole
    interleaved sequence of firings. *)
From S2P Require Import Prelude Abi Bpf BpfInv BpfFrame.

(** ** Specification of the capture gate *)

(** A buffer that begins with a TLS record header: content type 20 to 23, major
    version 3, minor version at most 4, and all five header bytes present. *)
Definition tls_start (c : list Z) : bool :=
  (5 <=? zlen c) && (20 <=? nth 0 c 0) && (nth 0 c 0 <=? 23)
  && (nth 1 c 0 =? 3) && (nth 2 c 0 <=? 4).

Lemma looks_like_tls_start c : 5 <= zlen c -> looks_like_tls (ztake 5 c) = tls_start c.
Proof.
  intros Hl. unfold looks_like_tls, tls_start.
  destruct (Z.leb_spec 5 (zlen c)); [|lia].
  destruct c as [|a [|b [|m c]]]; unfold zlen in Hl; cbn in Hl; try lia.
  change (ztake 5 (a :: b :: m :: c)) with (a :: b :: m :: ztake 2 c). cbn [nth].
  destruct (Z.ltb_spec a 20), (Z.leb_spec 20 a), (Z.ltb_spec 23 a), (Z.leb_spec a 23);
    try lia; try done; cbn.
  destruct (b =? 3); cbn; [|done].
  destruct (Z.ltb_spec 4 m), (Z.leb_spec m 4); try lia; done.
Qed.

(** The chunks that are captured, given how many have been already: from the first
    chunk that begins a TLS record on, every non-empty chunk until there are 16,
    each cut to 1023 bytes. *)
Fixpoint captured (cnt : Z) (chunks : list (list Z)) : list (list Z) :=
  match chunks with
  | [] => []
  | c :: chunks =>
      if (1 <=? zlen c) && (cnt <? MAX_WIRE_EVENTS) && ((0 <? cnt) || tls_start c)
      then ztake (WIRE_CAP - 1) c :: captured (cnt + 1) chunks
      else captured cnt chunks
  end.

(** Once armed, and within the budget, short chunks are captured whole. *)
Lemma captured_armed n cs :
  Forall (fun c => 1 <= zlen c <= 1023) cs -> 0 < n -> n + zlen cs <= 16 ->
  concat (captured n cs) = concat cs.
Proof.
  intros Hcs. revert n. induction Hcs as [|c cs Hc _ IH]; intros n Hn Hle; [done|].
  rewrite zlen_cons in Hle. pose proof (zlen_nonneg cs). cbn [captured concat]. unfold MAX_WIRE_EVENTS.
  destruct (Z.leb_spec 1 (zlen c)), (Z.ltb_spec n 16), (Z.ltb_spec 0 n); try lia.
  cbn [andb orb concat]. rewrite ztake_ge by (unfold WIRE_CAP; lia). f_equal. apply IH; lia.
Qed.

(** A handshake the kernel can carry whole: at most 16 chunks of 1 to 1023 bytes, the
    first of which begins a TLS record. *)
Definition whole (cs : list (list Z)) : Prop :=
  Forall (fun c => 1 <= zlen c <= 1023) cs /\ zlen cs <= 16
  /\ forall c cs', cs = c :: cs' -> tls_start c = true.

Lemma captured_whole cs : whole cs -> concat (captured 0 cs) = concat cs.
Proof.
  intros (Hcs & Hn & Hhd). destruct Hcs as [|c cs Hc Hcs]; [done|]. rewrite zlen_cons in Hn.
  cbn [captured concat]. rewrite (Hhd c cs eq_refl), orb_true_r.
  destruct (Z.leb_spec 1 (zlen c)); [|lia]. cbn [andb Z.ltb Z.compare MAX_WIRE_EVENTS concat].
  rewrite ztake_ge by (unfold WIRE_CAP; lia). f_equal. apply captured_armed; [done|lia|lia].
Qed.

Section Trace.
Context {K : Type} `{KernelView K}.
Implicit Types (e : env K) (s : bpf) (f : flow) (tr : list (env K * probe)).

(** [e] lets a program read the bytes [c] at [a] and reserve a wire record. *)
Definition readable e (a : Z) (c : list Z) : Prop :=
  a <> 0 /\ zlen c < 2 ^ 32
  /\ (forall n, 0 <= n <= zlen c -> e_user e a n = Some (ztake n c))
  /\ exists mem, e_ring e 1036 = Some mem /\ zlen mem = 1036.

Lemma emit_wire_readable e sk f a c dir s :
  readable e a c ->
  exists junk, zlen junk = WIRE_CAP - Z.min (zlen c) (WIRE_CAP - 1) /\
  emit_wire e sk f a (zlen c) dir s =
    set_events (events s ++ [EvWire (mk_wire_event EVENT_WIRE dir (Z.min (zlen c) (WIRE_CAP - 1)) sk
                 (ztake (WIRE_CAP - 1) c ++ junk))])
      (put_flow sk (wire_cnt_incr dir f) s).
Proof.
  intros (_ & Hl & Hu & mem & Hm & Hz). unfold emit_wire. rewrite Hm.
  pose proof (zlen_nonneg c).
  unfold WIRE_CAP. rewrite clamp_cap_spec, wrap_small by done.
  rewrite Hu by lia. exists (zdrop (12 + Z.min (zlen c) 1023) mem). split.
  - rewrite zlen_zdrop by lia. lia.
  - do 5 f_equal. destruct (Z.min_spec (zlen c) 1023) as [[? ->]|[? ->]]; [|done].
    rewrite ztake_all, ztake_ge by lia. done.
Qed.

(** The gate of [capture_wire] on readable memory. *)
Lemma capture_wire_readable e sk f a c dir s :
  readable e a c -> flows s !! sk = Some f -> 0 <= wire_cnt dir f ->
  if (1 <=? zlen c) && (wire_cnt dir f <? MAX_WIRE_EVENTS)
     && ((0 <? wire_cnt dir f) || tls_start c)
  then exists junk,
    zlen junk = WIRE_CAP - Z.min (zlen c) (WIRE_CAP - 1)
    /\ events (capture_wire e sk f a (zlen c) dir s) = events s ++
       [EvWire (mk_wire_event EVENT_WIRE dir (Z.min (zlen c) (WIRE_CAP - 1)) sk
                 (ztake (WIRE_CAP - 1) c ++ junk))]
    /\ flows (capture_wire e sk f a (zlen c) dir s) !! sk =
       Some (wire_cnt_incr dir (if 0 <? wire_cnt dir f then f else flow_set_tls f))
  else capture_wire e sk f a (zlen c) dir s = s.
Proof.
  intros Hr Hf Hc. pose proof Hr as (Ha & Hl & Hu & _). unfold capture_wire.
  destruct (Z.eqb_spec a 0); [done|]. cbn [orb].
  destruct (Z.ltb_spec (zlen c) 1), (Z.leb_spec 1 (zlen c)); try lia; [done|]. cbn [andb].
  destruct (Z.leb_spec MAX_WIRE_EVENTS (wire_cnt dir f)),
    (Z.ltb_spec (wire_cnt dir f) MAX_WIRE_EVENTS); try lia; [done|]. cbn [andb].
  destruct (Z.eqb_spec (wire_cnt dir f) 0) as [E0|], (Z.ltb_spec 0 (wire_cnt dir f)); try lia;
    cbn [orb].
  - destruct (Z.ltb_spec (zlen c) 5).
    { unfold tls_start. destruct (Z.leb_spec 5 (zlen c)); [lia|done]. }
    rewrite Hu, looks_like_tls_start by lia. destruct (tls_start c); [|done]. cbn [negb].
    destruct (emit_wire_readable e sk (flow_set_tls f) a c dir (put_flow sk (flow_set_tls f) s) Hr)
      as (junk & Hj & ->).
    exists junk. split; [done|]. split; [done|]. cbn. apply lookup_insert_eq.
  - destruct (emit_wire_readable e sk f a c dir s Hr) as (junk & Hj & ->).
    exists junk. split; [done|]. split; [done|]. cbn. apply lookup_insert_eq.
Qed.

Lemma wire_payload_capture sk dir c junk :
  wire_payload sk dir (EvWire (mk_wire_event EVENT_WIRE dir (Z.min (zlen c) (WIRE_CAP - 1)) sk
    (ztake (WIRE_CAP - 1) c ++ junk))) = Some (ztake (WIRE_CAP - 1) c).
Proof.
  cbn. rewrite !Z.eqb_refl. cbn. f_equal. unfold WIRE_CAP.
  assert (Z.min (zlen c) (1024 - 1) = zlen (ztake (1024 - 1) c)) as ->.
  { pose proof (zlen_nonneg c). destruct (Z.min_spec (zlen c) (1024 - 1)) as [[? ->]|[? ->]].
    - by rewrite ztake_ge by lia.
    - by rewrite zlen_ztake by lia. }
  apply ztake_app.
Qed.

(** *** Sums over a trace *)

(** The sum over the firings of a trace of what each contributes in the state it
    runs in. *)
Fixpoint trace_sum (w : env K -> probe -> bpf -> Z) tr s : Z :=
  match tr with
  | [] => 0
  | (e, p) :: tr => w e p s + trace_sum w tr (fire e p s)
  end.

Lemma trace_flow tr s sk f :
  counters_ok f -> flows s !! sk = Some f ->
  exists f', flows (fire_all tr s) !! sk = Some f'
    /\ flow_evolves (trace_sum (fun _ p _ => sent sk p) tr s)
         (trace_sum (received sk) tr s) f f'.
Proof.
  revert s f. induction tr as [|[e p] tr IH]; intros s f Hc Hf; cbn.
  - exists f. auto using flow_evolves_refl.
  - destruct (fire_flow e p s sk f Hc Hf) as (g & Hg & He).
    destruct (IH _ _ (flow_evolves_counters _ _ _ _ He) Hg) as (f' & Hf' & He').
    exists f'. split; [done|]. by eapply flow_evolves_trans.
Qed.

(** *** The chunks a socket sends, in an interleaved trace *)

Inductive sends_of (sk : Z) : list (env K * probe) -> list (list Z) -> Prop :=
| sends_nil : sends_of sk [] []
| sends_send e msg c tr cs :
    readable e (iter_base (e_kmem e) (msg_iter msg)) c -> sends_of sk tr cs ->
    sends_of sk ((e, KpSendmsg sk msg (zlen c)) :: tr) (c :: cs)
| sends_other e p tr cs :
    match p with KpSendmsg sk' _ _ => sk' <> sk | _ => True end -> sends_of sk tr cs ->
    sends_of sk ((e, p) :: tr) cs.

Lemma sendmsg_capture e sk msg c s f :
  readable e (iter_base (e_kmem e) (msg_iter msg)) c ->
  flows s !! sk = Some f -> 0 <= f_wire_out f <= MAX_WIRE_EVENTS ->
  exists f', flows (k_tcp_sendmsg e sk msg (zlen c) s) !! sk = Some f'
  /\ if (1 <=? zlen c) && (f_wire_out f <? MAX_WIRE_EVENTS)
        && ((0 <? f_wire_out f) || tls_start c)
     then f_wire_out f' = f_wire_out f + 1
          /\ wire_payloads sk DIR_OUT (events (k_tcp_sendmsg e sk msg (zlen c) s))
             = wire_payloads sk DIR_OUT (events s) ++ [ztake (WIRE_CAP - 1) c]
     else f_wire_out f' = f_wire_out f
          /\ wire_payloads sk DIR_OUT (events (k_tcp_sendmsg e sk msg (zlen c) s))
             = wire_payloads sk DIR_OUT (events s).
Proof.
  intros Hr Hf Hw. rewrite k_tcp_sendmsg_eq. unfold count_and_capture.
  destruct (flow_get_existing e sk s f Hf) as (s1 & -> & Hs1 & He & _).
  set (g := flow_add_tx (zlen c) (backfill e sk f)). set (s2 := put_flow sk g s1).
  assert (f_wire_out g = f_wire_out f) as Hg by (apply (backfill_wire e sk f)).
  clearbody g.
  assert (wire_cnt DIR_OUT g = f_wire_out f) as Hcnt by done.
  assert (events s2 = events s) as He2 by done.
  pose proof (capture_wire_readable e sk g _ c DIR_OUT s2 Hr (put_flow_ptr _ _ _)) as Hcap.
  rewrite Hcnt in Hcap. specialize (Hcap (proj1 Hw)).
  destruct ((1 <=? zlen c) && (f_wire_out f <? MAX_WIRE_EVENTS) && _) eqn:G.
  - destruct Hcap as (junk & _ & Hev & Hfl). rewrite Hfl, Hev, He2. eexists. split; [done|]. split.
    + apply andb_prop in G as [G _]. apply andb_prop in G as [_ G%Z.ltb_lt].
      transitivity (wrap 8 (f_wire_out f + 1)).
      * destruct (0 <? f_wire_out f); cbn; by rewrite Hg.
      * apply wrap_small. unfold in_width, MAX_WIRE_EVENTS in *. lia.
    + rewrite wire_payloads_app. f_equal. unfold wire_payloads, omap; cbn [list_omap].
      by rewrite wire_payload_capture.
  - rewrite Hcap, He2. exists g. split; [apply put_flow_ptr|done].
Qed.

Lemma trace_captured sk tr cs s f :
  sends_of sk tr cs -> flows s !! sk = Some f -> counters_ok f ->
  0 <= f_wire_out f <= MAX_WIRE_EVENTS ->
  wire_payloads sk DIR_OUT (events (fire_all tr s))
    = wire_payloads sk DIR_OUT (events s) ++ captured (f_wire_out f) cs.
Proof.
  intros Hs. revert s f. induction Hs as [|e msg c tr cs Hr _ IH|e p tr cs Hp _ IH];
    intros s f Hf Hc Hw; cbn [fire_all fold_left captured].
  - by rewrite app_nil_r.
  - destruct (sendmsg_capture e sk msg c s f Hr Hf Hw) as (f' & Hf' & Hcap).
    destruct (fire_flow e (KpSendmsg sk msg (zlen c)) s sk f Hc Hf) as (f'' & Hf'' & Hev).
    cbn [fire] in Hf''. assert (f'' = f') as -> by congruence.
    pose proof (flow_evolves_counters _ _ _ _ Hev) as Hc'.
    destruct ((1 <=? zlen c) && (f_wire_out f <? MAX_WIRE_EVENTS) && _) eqn:G.
    + destruct Hcap as [Hn Hp]. apply andb_prop in G as [G _]. apply andb_prop in G as [_ G%Z.ltb_lt].
      etransitivity; [apply (IH _ f' Hf' Hc'); lia|]. cbn [fst snd fire].
      by rewrite Hp, Hn, <- app_assoc.
    + destruct Hcap as [Hn Hp]. etransitivity; [apply (IH _ f' Hf' Hc'); lia|]. cbn [fst snd fire].
      by rewrite Hp, Hn.
  - destruct (fire_wire_out e p s sk f Hc Hf Hp) as [(f' & Hf' & Hn) He].
    destruct (fire_flow e p s sk f Hc Hf) as (f'' & Hf'' & Hev).
    assert (f'' = f') as -> by congruence.
    etransitivity; [apply (IH _ f' Hf'); [by eapply flow_evolves_counters|lia]|].
    cbn [fst snd]. by rewrite He, Hn.
Qed.

(** *** Plaintext totals of one SSL session *)

(** The plaintext a firing accounts to each direction of [ssl]. *)
Definition written (ssl : Z) (p : probe) : Z :=
  match p with
  | UpSslWrite ssl' buf num =>
      if (ssl' =? ssl) && negb (buf =? 0) && (0 <? num) then num else 0
  | _ => 0
  end.

Definition read_back (ssl : Z) e (p : probe) s : Z :=
  match p with
  | UrSslRead ret =>
      match ssl_ctxs s !! e_pid_tgid e with
      | Some c => if (sc_ssl c =? ssl) && negb (sc_buf c =? 0) && (0 <? ret) then ret else 0
      | None => 0
      end
  | _ => 0
  end.

Definition stat_evolves (dw dr : Z) (st st' : ssl_stat) : Prop :=
  s_ptx st' = wrap 64 (s_ptx st + dw) /\ s_prx st' = wrap 64 (s_prx st + dr)
  /\ s_pid st' = s_pid st /\ s_fd st' = s_fd st.

Definition totals_ok (st : ssl_stat) : Prop := in_width 64 (s_ptx st) /\ in_width 64 (s_prx st).

Lemma stat_evolves_refl st : totals_ok st -> stat_evolves 0 0 st st.
Proof. intros []. unfold stat_evolves. rewrite !Z.add_0_r, !wrap_small; done. Qed.

Lemma stat_evolves_totals dw dr st st' : stat_evolves dw dr st st' -> totals_ok st'.
Proof. intros (E1 & E2 & _). split; [rewrite E1|rewrite E2]; apply wrap_range; lia. Qed.

Lemma stat_evolves_trans a b c d st st' st'' :
  stat_evolves a b st st' -> stat_evolves c d st' st'' -> stat_evolves (a + c) (b + d) st st''.
Proof.
  intros (T & R & P & F) (T' & R' & P' & F'). unfold stat_evolves.
  rewrite T', T, R', R, !wrap_add_l, !Z.add_assoc by lia. split_and!; congruence.
Qed.

Lemma emit_plaintext_at e ssl' buf n dir s ssl st :
  totals_ok st -> ssl_stats s !! ssl = Some st ->
  exists st', ssl_stats (emit_plaintext e ssl' buf n dir s) !! ssl = Some st'
  /\ let hit := (ssl' =? ssl) && negb (buf =? 0) in
     stat_evolves (if hit && (dir =? DIR_OUT) then n else 0)
       (if hit && negb (dir =? DIR_OUT) then n else 0) st st'.
Proof.
  intros Ht Hst. cbn zeta. destruct (Z.eqb_spec ssl' ssl) as [->|Hne]; cbn [andb].
  2:{ exists st. split; [|by apply stat_evolves_refl].
      destruct (emit_plaintext_frame e ssl' buf n dir s) as (_ & _ & _ & _ & ->); auto. }
  unfold emit_plaintext. destruct (Z.eqb_spec buf 0); cbn [orb negb andb].
  { exists st. split; [done|by apply stat_evolves_refl]. }
  destruct (Z.eqb_spec n 0) as [->|].
  { exists st. split; [done|]. destruct (dir =? DIR_OUT); by apply stat_evolves_refl. }
  unfold ssl_stat_get. rewrite Hst. exists (stat_add dir n st). split.
  - destruct (e_ring e 1048); [destruct (e_user e buf _)|]; cbn; apply lookup_insert_eq.
  - destruct Ht. unfold stat_evolves, stat_add.
    destruct (dir =? DIR_OUT); cbn; rewrite ?Z.add_0_r; split_and!; try done;
      by rewrite wrap_small.
Qed.

Lemma fire_stat e p s ssl st :
  totals_ok st -> ssl_stats s !! ssl = Some st -> p <> UpSslFree ssl ->
  exists st', ssl_stats (fire e p s) !! ssl = Some st'
    /\ stat_evolves (written ssl p) (read_back ssl e p s) st st'.
Proof.
  intros Ht Hst Hp.
  assert (exists st', ssl_stats s !! ssl = Some st' /\ stat_evolves 0 0 st st') as Hid
    by eauto using stat_evolves_refl.
  destruct p as [sk' msg size|sk' msg|ret|pr sk' o n|ssl'|ssl' fd|ssl' buf num|ssl' buf|ret];
    cbn [fire written read_back]; try done.
  - rewrite k_tcp_sendmsg_eq.
    destruct (count_and_capture_frame e sk' (iter_base (e_kmem e) (msg_iter msg)) size DIR_OUT
      (flow_add_tx size) s) as (_ & _ & _ & -> & _). done.
  - rewrite kr_tcp_recvmsg_eq. destruct (recv_ctxs s !! _) as [rc|]; [|done]. cbn zeta.
    case_match; [done|]. destruct (count_and_capture_frame e (rc_sk rc) (rc_base rc) ret DIR_IN
      (flow_add_rx ret) (set_recv_ctxs (delete (e_pid_tgid e) (recv_ctxs s)) s))
      as (_ & _ & _ & -> & _). done.
  - unfold tp_inet_sock_set_state. repeat (case_match; try done); cbn;
      destruct (flows s !! sk'); done.
  - unfold u_ssl_free. assert (ssl' <> ssl) by congruence.
    destruct (ssl_stats s !! ssl') eqn:E; [|done].
    destruct (e_ring e 36); cbn; rewrite lookup_delete_ne by done; done.
  - unfold u_ssl_write. destruct (0 <? num).
    + destruct (emit_plaintext_at e ssl' buf num DIR_OUT s ssl st Ht Hst) as (st' & Hst' & Hev).
      exists st'. split; [done|]. revert Hev. cbn zeta. rewrite !andb_true_r, andb_false_r. done.
    + by rewrite andb_false_r.
  - unfold ur_ssl_read. destruct (ssl_ctxs s !! _) as [c|]; [|done]. destruct (0 <? ret).
    + destruct (emit_plaintext_at e (sc_ssl c) (sc_buf c) ret DIR_IN
        (set_ssl_ctxs (delete (e_pid_tgid e) (ssl_ctxs s)) s) ssl st Ht Hst) as (st' & Hst' & Hev).
      exists st'. split; [done|]. revert Hev. cbn zeta. rewrite !andb_true_r, andb_false_r. done.
    + by rewrite andb_false_r.
Qed.

Lemma trace_stat tr s ssl st :
  totals_ok st -> ssl_stats s !! ssl = Some st ->
  Forall (fun ep => ep.2 <> UpSslFree ssl) tr ->
  exists st', ssl_stats (fire_all tr s) !! ssl = Some st'
    /\ stat_evolves (trace_sum (fun _ p _ => written ssl p) tr s)
         (trace_sum (read_back ssl) tr s) st st'.
Proof.
  intros Ht Hst Htr. revert s st Ht Hst. induction Htr as [|[e p] tr Hp _ IH]; intros s st Ht Hst; cbn.
  - exists st. auto using stat_evolves_refl.
  - destruct (fire_stat e p s ssl st Ht Hst Hp) as (st1 & Hst1 & Hev).
    destruct (IH _ _ (stat_evolves_totals _ _ _ _ Hev) Hst1) as (st' & Hst' & Hev').
    exists st'. split; [done|]. by eapply stat_evolves_trans.
Qed.

(** *** Receive pairing under interleaving *)

Lemma trace_recv_ctx tr s t :
  Forall (fun ep => e_pid_tgid ep.1 <> t) tr ->
  recv_ctxs (fire_all tr s) !! t = recv_ctxs s !! t.
Proof.
  intros Htr. revert s. induction Htr as [|[e p] tr Hp _ IH]; intros s; [done|].
  etransitivity; [apply IH|]. by apply fire_recv_ctx.
Qed.
End Trace.
