(* ===== verification/BpfDuplex.v ===== *)
(** Both directions of one socket: its capture stream as one sequence.

    [touches] says which firings move bytes of a socket, with the buffer and the
    count; every other firing leaves the socket's captures alone ([fire_untouched]),
    and one that does captures by the gate ([fire_touched]), whatever the direction. *)
From S2P Require Import Prelude Abi Bpf BpfInv BpfFrame BpfTrace.

(** ** The stream *)

(** The chunk a record carries for [sk], with its direction. *)
Definition wire_item (sk : Z) (ev : event) : option (Z * list Z) :=
  match ev with
  | EvWire e =>
      if (we_sk e =? sk) && (0 <? we_len e) then Some (we_direction e, ztake (we_len e) (we_data e)) else None
  | _ => None
  end.
Definition wire_stream (sk : Z) (evs : list event) : list (Z * list Z) := omap (wire_item sk) evs.
Arguments wire_stream : simpl never.

Lemma wire_stream_app sk a b : wire_stream sk (a ++ b) = wire_stream sk a ++ wire_stream sk b.
Proof. apply omap_app. Qed.

Lemma wire_stream_snoc sk evs ev :
  wire_stream sk (evs ++ [ev]) = wire_stream sk evs ++ option_list (wire_item sk ev).
Proof. rewrite wire_stream_app. unfold wire_stream, omap. cbn. by destruct (wire_item sk ev). Qed.

(** The chunks of a two-way exchange that are captured, [no] and [ni] having been so
    already: each direction has its own gate and budget. *)
Fixpoint captured_both (no ni : Z) (tr : list (Z * list Z)) : list (Z * list Z) :=
  match tr with
  | [] => []
  | (dir, c) :: tr =>
      let cnt := if dir =? DIR_OUT then no else ni in
      if (1 <=? zlen c) && (cnt <? MAX_WIRE_EVENTS) && ((0 <? cnt) || tls_start c)
      then (dir, ztake (WIRE_CAP - 1) c)
           :: (if dir =? DIR_OUT then captured_both (no + 1) ni tr else captured_both no (ni + 1) tr)
      else captured_both no ni tr
  end.

(** Seen one direction at a time, it is [captured]. *)
Definition toward (out : bool) (tr : list (Z * list Z)) : list (list Z) :=
  (filter (fun it => (it.1 =? DIR_OUT) = out) tr).*2.

Lemma toward_cons out it tr :
  toward out (it :: tr) = if eqb (it.1 =? DIR_OUT) out then it.2 :: toward out tr else toward out tr.
Proof.
  unfold toward. rewrite filter_cons. by case_decide as Hd; destruct (it.1 =? DIR_OUT), out.
Qed.

Lemma captured_both_toward out no ni tr :
  toward out (captured_both no ni tr) = captured (if out then no else ni) (toward out tr).
Proof.
  revert no ni. induction tr as [|[d c] tr IH]; intros no ni; [done|].
  cbn [captured_both]. rewrite toward_cons. cbn [fst snd].
  destruct (d =? DIR_OUT) eqn:Ed, out; cbn [eqb captured];
    (destruct (_ && _); [rewrite toward_cons; cbn [fst snd]; rewrite Ed; cbn [eqb]|]; by rewrite IH).
Qed.

(** Within the budget and the capture size, everything. *)
Definition fits_gate (n : Z) (cs : list (list Z)) : Prop :=
  Forall (fun c => 1 <= zlen c <= 1023) cs /\ n + zlen cs <= 16
  /\ (n = 0 -> forall c cs', cs = c :: cs' -> tls_start c = true).

Lemma fits_gate_cons n c cs : 0 <= n -> fits_gate n (c :: cs) ->
  1 <= zlen c <= 1023 /\ n < 16 /\ (0 < n \/ tls_start c = true) /\ fits_gate (n + 1) cs.
Proof.
  intros Hn ([Hc Hcs]%Forall_cons & Hl & Ht). rewrite zlen_cons in Hl. pose proof (zlen_nonneg cs).
  split_and!; [lia..| |split_and!; [done|lia|lia]].
  destruct (decide (n = 0)) as [E|]; [right; by eapply Ht|left; lia].
Qed.

Lemma captured_both_whole no ni tr :
  0 <= no -> 0 <= ni -> fits_gate no (toward true tr) -> fits_gate ni (toward false tr) ->
  captured_both no ni tr = tr.
Proof.
  intros Hno Hni. revert no ni Hno Hni. induction tr as [|[d c] tr IH]; intros no ni Hno Hni Ho Hi; [done|].
  rewrite !toward_cons in Ho, Hi. cbn [captured_both fst snd] in *.
  destruct (d =? DIR_OUT) eqn:Ed; cbn [eqb] in Ho, Hi;
    [apply fits_gate_cons in Ho as (Hc & Hn & Ht & Ho); [|done]
    |apply fits_gate_cons in Hi as (Hc & Hn & Ht & Hi); [|done]];
    unfold MAX_WIRE_EVENTS;
    rewrite (proj2 (Z.leb_le _ _)), (proj2 (Z.ltb_lt _ _)) by lia; cbn [andb];
    (match goal with |- context [(0 <? ?n) || _] => assert ((0 <? n) || tls_start c = true) as -> end;
     [destruct Ht as [Ht| ->]; [by rewrite (proj2 (Z.ltb_lt _ _) Ht)|apply orb_true_r]|]);
    rewrite ztake_ge by (unfold WIRE_CAP; lia); f_equal; apply IH; done || lia.
Qed.

(** ** One firing *)

Section Fire.
Context {K : Type} `{KernelView K}.
Implicit Types (e : env K) (s : bpf) (f : flow).

(** The bytes of [sk] a firing moves: direction, buffer, count. *)
Definition touches (sk : Z) e (p : probe) s : option (Z * Z * Z) :=
  match p with
  | KpSendmsg sk' msg size =>
      if sk' =? sk then Some (DIR_OUT, iter_base (e_kmem e) (msg_iter msg), size) else None
  | KrRecvmsg ret =>
      match recv_ctxs s !! e_pid_tgid e with
      | Some rc =>
          if (rc_sk rc =? sk) && negb (sk =? 0) && (0 <? ret) then Some (DIR_IN, rc_base rc, ret) else None
      | None => None
      end
  | _ => None
  end.

(** A firing that does not close [sk]. *)
Definition keeps_open (sk : Z) (p : probe) : Prop :=
  match p with
  | TpSetState _ sk' _ new => sk' = sk -> new <> TCP_CLOSE /\ new <> TCP_CLOSE_WAIT
  | _ => True
  end.

(** What captures look at: the counters and whether the flow is closed. *)
Definition gate_view f : Z * Z * Z := (f_wire_out f, f_wire_in f, f_closed f).

Lemma backfill_gate e sk f : gate_view (backfill e sk f) = gate_view f.
Proof. unfold backfill, read_tuple. destruct (f_pid f =? 0); [|done]. by destruct (_ =? AF_INET6). Qed.

(** *** Events *)

Lemma capture_wire_events e sk f buf n dir s :
  events (capture_wire e sk f buf n dir s) = events s
  \/ exists ev, events (capture_wire e sk f buf n dir s) = events s ++ [EvWire ev] /\ we_sk ev = sk.
Proof.
  unfold capture_wire. repeat (case_match; [by left|..]).
  all: repeat case_match; try by left.
  all: match goal with |- context [emit_wire ?e ?sk ?f ?b ?n ?d ?s] =>
         destruct (emit_wire_cases e sk f b n d s) as [->|(bs & mem & _ & _ & ->)] end;
    [by left|right; by eexists].
Qed.

Lemma count_and_capture_stream e sk' buf n dir upd s sk :
  sk' <> sk -> wire_stream sk (events (count_and_capture e sk' buf n dir upd s)) = wire_stream sk (events s).
Proof.
  intros Hne. unfold count_and_capture. destruct (flow_get e sk' s) as [s1 [f|]] eqn:E;
    destruct (flow_get_frame _ _ _ _ _ E) as (_ & _ & He & _); [|by rewrite He].
  destruct (capture_wire_events e sk' (upd f) buf n dir (put_flow sk' (upd f) s1)) as [->|(ev & -> & Hev)];
    cbn [events put_flow set_flows]; rewrite He; [done|].
  rewrite wire_stream_snoc. cbn. rewrite Hev, (proj2 (Z.eqb_neq _ _) Hne). cbn. by rewrite app_nil_r.
Qed.

Lemma emit_plaintext_stream e ssl buf n dir s sk :
  wire_stream sk (events (emit_plaintext e ssl buf n dir s)) = wire_stream sk (events s).
Proof.
  unfold emit_plaintext. case_match; [done|].
  pose proof (ssl_stat_get_frame e ssl s) as (_ & He & _).
  destruct (ssl_stat_get e ssl s) as [s1 [st|]]; cbn [fst] in *; [|by rewrite He].
  destruct (e_ring e 1048) as [mem|]; [destruct (e_user e buf _) as [bs|]|];
    cbn [events put_stat set_ssl_stats set_events]; rewrite ?wire_stream_snoc, He; cbn; by rewrite ?app_nil_r.
Qed.

Lemma set_state_events e pr sk o n s : events (tp_inet_sock_set_state e pr sk o n s) = events s.
Proof. unfold tp_inet_sock_set_state. repeat (case_match; try done). Qed.

(** *** A firing that does not touch the socket *)

Lemma set_state_gate e pr sk' o n s sk f :
  keeps_open sk (TpSetState pr sk' o n) -> flows s !! sk = Some f ->
  exists f', flows (tp_inet_sock_set_state e pr sk' o n s) !! sk = Some f' /\ gate_view f' = gate_view f.
Proof.
  intros Hq Hf. unfold tp_inet_sock_set_state. case_match; [eauto|]. case_match.
  - set (s1 := match flows s !! sk' with Some _ => s | None => _ end).
    assert (flows s1 !! sk = Some f) as Hf1.
    { subst s1. destruct (flows s !! sk') eqn:E; [done|]. cbn. rewrite map_update_elem_ne; [done|congruence]. }
    clearbody s1. destruct (flows s1 !! sk') as [g|] eqn:Eg; [|by eauto].
    rewrite put_flow_lookup. case_decide as Hd; [|by eauto]. eexists. split; [done|]. subst sk'.
    by assert (g = f) as -> by congruence.
  - destruct ((n =? TCP_CLOSE) || (n =? TCP_CLOSE_WAIT)) eqn:En; [|eauto].
    destruct (flows s !! sk') as [g|]; [|eauto]. rewrite put_flow_ne; [eauto|]. intros ->.
    destruct (Hq eq_refl). apply orb_true_iff in En as [En|En]; apply Z.eqb_eq in En; done.
Qed.

Lemma fire_untouched e p s sk f :
  touches sk e p s = None -> keeps_open sk p -> flows s !! sk = Some f ->
  (exists f', flows (fire e p s) !! sk = Some f' /\ gate_view f' = gate_view f)
  /\ wire_stream sk (events (fire e p s)) = wire_stream sk (events s).
Proof.
  intros Ht Hq Hf. assert (exists f', flows s !! sk = Some f' /\ gate_view f' = gate_view f) as Hid by eauto.
  destruct p as [sk' msg size|sk' msg|ret|pr sk' o n|ssl|ssl fd|ssl buf num|ssl buf|ret]; cbn [fire touches] in *; try done.
  - destruct (Z.eqb_spec sk' sk) as [|Hne]; [done|]. rewrite k_tcp_sendmsg_eq.
    destruct (count_and_capture_frame e sk' (iter_base (e_kmem e) (msg_iter msg)) size DIR_OUT
      (flow_add_tx size) s) as (-> & _); [|done]. split; [done|]. by apply count_and_capture_stream.
  - rewrite kr_tcp_recvmsg_eq. destruct (recv_ctxs s !! e_pid_tgid e) as [rc|]; [|done]. cbn zeta.
    destruct (Z.leb_spec ret 0), (Z.ltb_spec 0 ret); try lia; [done|]. cbn [orb].
    destruct (Z.eqb_spec (rc_sk rc) 0); [done|].
    destruct (Z.eqb_spec (rc_sk rc) sk) as [|Hne]; [destruct (Z.eqb_spec sk 0); [congruence|discriminate]|].
    set (s1 := set_recv_ctxs _ s).
    destruct (count_and_capture_frame e (rc_sk rc) (rc_base rc) ret DIR_IN (flow_add_rx ret) s1) as (-> & _); [|done].
    split; [done|]. by rewrite count_and_capture_stream.
  - rewrite set_state_events. split; [|done]. by apply set_state_gate.
  - split; [by destruct (u_ssl_free_frame e ssl s) as (-> & _)|].
    unfold u_ssl_free. destruct (ssl_stats s !! ssl) as [st|]; [|done]. destruct (e_ring e 36); [|done].
    cbn [events set_ssl_fds set_ssl_stats set_events]. rewrite wire_stream_snoc. cbn. by rewrite app_nil_r.
  - unfold u_ssl_write. case_match; [|done].
    destruct (emit_plaintext_frame e ssl buf num DIR_OUT s) as (-> & _). by rewrite emit_plaintext_stream.
  - unfold ur_ssl_read. destruct (ssl_ctxs s !! _) as [c|]; [|done]. case_match; [|done].
    destruct (emit_plaintext_frame e (sc_ssl c) (sc_buf c) ret DIR_IN
      (set_ssl_ctxs (delete (e_pid_tgid e) (ssl_ctxs s)) s)) as (-> & _). by rewrite emit_plaintext_stream.
Qed.

(** *** A firing that does *)

Lemma fire_touched_eq e p s sk dir buf n :
  touches sk e p s = Some (dir, buf, n) ->
  (dir = DIR_OUT \/ dir = DIR_IN) /\
  exists s0 upd, fire e p s = count_and_capture e sk buf n dir upd s0
    /\ flows s0 = flows s /\ events s0 = events s
    /\ forall g, gate_view (upd g) = gate_view g.
Proof.
  destruct p as [sk' msg size|sk' msg|ret|pr sk' o k|ssl|ssl fd|ssl b num|ssl b|ret]; cbn [touches fire]; try done.
  - destruct (Z.eqb_spec sk' sk) as [->|]; [|done]. intros [= <- <- <-]. split; [by left|].
    rewrite k_tcp_sendmsg_eq. by exists s, (flow_add_tx size).
  - rewrite kr_tcp_recvmsg_eq. destruct (recv_ctxs s !! e_pid_tgid e) as [rc|]; [|done].
    destruct (Z.eqb_spec (rc_sk rc) sk) as [->|]; [|done]. destruct (Z.eqb_spec sk 0); [done|].
    destruct (Z.ltb_spec 0 ret), (Z.leb_spec ret 0); try lia; [|done]. intros [= <- <- <-].
    split; [by right|]. cbn zeta. cbn [orb].
    by exists (set_recv_ctxs (delete (e_pid_tgid e) (recv_ctxs s)) s), (flow_add_rx ret).
Qed.

(** The counters after one more capture. *)
Definition gate_incr (dir : Z) (v : Z * Z * Z) : Z * Z * Z :=
  if dir =? DIR_OUT then (v.1.1 + 1, v.1.2, v.2) else (v.1.1, v.1.2 + 1, v.2).
Definition gate_cnt (dir : Z) (v : Z * Z * Z) : Z := if dir =? DIR_OUT then v.1.1 else v.1.2.

Lemma wire_cnt_gate dir f : wire_cnt dir f = gate_cnt dir (gate_view f).
Proof. done. Qed.

Lemma wire_cnt_incr_gate dir f :
  0 <= wire_cnt dir f < MAX_WIRE_EVENTS -> gate_view (wire_cnt_incr dir f) = gate_incr dir (gate_view f).
Proof.
  unfold wire_cnt, wire_cnt_incr, gate_incr, MAX_WIRE_EVENTS. intros Hc.
  destruct (dir =? DIR_OUT); unfold gate_view; cbn in *; rewrite wrap_small by (unfold in_width; lia); done.
Qed.

Lemma fire_touched e p s sk f dir buf c :
  touches sk e p s = Some (dir, buf, zlen c) -> readable e buf c -> flows s !! sk = Some f ->
  0 <= gate_cnt dir (gate_view f) <= MAX_WIRE_EVENTS ->
  exists f', flows (fire e p s) !! sk = Some f' /\
  let cnt := gate_cnt dir (gate_view f) in
  if (1 <=? zlen c) && (cnt <? MAX_WIRE_EVENTS) && ((0 <? cnt) || tls_start c)
  then gate_view f' = gate_incr dir (gate_view f)
       /\ wire_stream sk (events (fire e p s)) = wire_stream sk (events s) ++ [(dir, ztake (WIRE_CAP - 1) c)]
  else gate_view f' = gate_view f /\ wire_stream sk (events (fire e p s)) = wire_stream sk (events s).
Proof.
  intros Ht Hr Hf Hn. destruct (fire_touched_eq _ _ _ _ _ _ _ Ht) as (_ & s0 & upd & -> & Ef & Ee & Hupd).
  rewrite <- Ef in Hf. unfold count_and_capture.
  destruct (flow_get_existing e sk s0 f Hf) as (s1 & -> & _ & He & _).
  set (g := upd (backfill e sk f)).
  assert (gate_view g = gate_view f) as Hg by (unfold g; by rewrite Hupd, backfill_gate). clearbody g.
  cbn zeta. rewrite <- Hg in *. pose proof (capture_wire_readable e sk g buf c dir (put_flow sk g s1) Hr (put_flow_ptr _ _ _)) as Hcap.
  rewrite wire_cnt_gate in Hcap. specialize (Hcap (proj1 Hn)).
  destruct ((1 <=? zlen c) && (gate_cnt dir (gate_view g) <? MAX_WIRE_EVENTS) && _) eqn:G.
  - destruct Hcap as (junk & Hj & Hev & Hfl). rewrite Hfl. eexists. split; [done|].
    apply andb_prop in G as [[G1%Z.leb_le G2%Z.ltb_lt]%andb_prop _]. split.
    + rewrite wire_cnt_incr_gate.
      * by destruct (0 <? _).
      * rewrite wire_cnt_gate. assert (gate_view (flow_set_tls g) = gate_view g) as Htls by done.
        destruct (0 <? _); rewrite ?Htls; lia.
    + rewrite Hev, wire_stream_snoc. cbn [events put_flow set_flows]. rewrite He, Ee. f_equal.
      pose proof (wire_payload_capture sk dir c junk) as Hp. cbn in Hp |- *. rewrite !Z.eqb_refl in Hp. cbn in Hp.
      rewrite Z.eqb_refl. destruct (Z.ltb_spec 0 (Z.min (zlen c) (WIRE_CAP - 1))); [|unfold WIRE_CAP in *; lia].
      cbn. by injection Hp as ->.
  - rewrite Hcap. exists g. split; [apply put_flow_ptr|]. cbn [events put_flow set_flows]. by rewrite He, Ee.
Qed.

(** *** Open flows stay open *)

Lemma capture_upd_closed dir f f' : capture_upd dir f f' -> f_closed f' = f_closed f.
Proof. intros [-> | [-> | [-> | ->]]]; unfold wire_cnt_incr; try destruct (dir =? DIR_OUT); done. Qed.

Lemma fire_open e p s sk f :
  keeps_open sk p -> flows s !! sk = Some f ->
  exists f', flows (fire e p s) !! sk = Some f' /\ f_closed f' = f_closed f.
Proof.
  intros Hq Hf. destruct (touches sk e p s) as [[[dir buf] n]|] eqn:Ht.
  - destruct (fire_touched_eq _ _ _ _ _ _ _ Ht) as (_ & s0 & upd & -> & Ef & _ & Hupd). rewrite <- Ef in Hf.
    destruct (count_and_capture_at e sk buf n dir upd s0 f Hf) as (f' & Hf' & Hu).
    exists f'. split; [done|]. rewrite (capture_upd_closed _ _ _ Hu).
    transitivity (f_closed (backfill e sk f)); [exact (f_equal snd (Hupd _))|exact (f_equal snd (backfill_gate e sk f))].
  - destruct (fire_untouched e p s sk f Ht Hq Hf) as [(f' & Hf' & Hg) _].
    exists f'. split; [done|exact (f_equal snd Hg)].
Qed.
End Fire.
