(* ===== verification/BpfProps.v ===== *)
(** Properties of the eBPF programs, with a concrete kernel for the witnesses. *)
From S2P Require Import Prelude Abi Bpf BpfInv BpfFrame BpfTrace.

(** ** A concrete kernel: memory is irrelevant, an iterator's buffer is its address *)

#[export] Instance demo_view : KernelView unit := {|
  msg_iter m := m;
  iter_type _ _ := ITER_UBUF;
  iter_ubuf _ it := it;
  iter_iov _ _ := 0;
  iov_base _ _ := 0;
  skc_family _ _ := 2;
  skc_num _ _ := 51234;
  skc_dport _ _ := 0xbb01;
  skc_rcv_saddr _ _ := 0x0500000a;
  skc_daddr _ _ := 0x0100007f;
  skc_v6_rcv_saddr _ _ := [0; 0; 0; 0];
  skc_v6_daddr _ _ := [0; 0; 0; 0] |}.

#[export] Instance demo_view_ok : KernelViewOk unit.
Proof. split; intros; repeat (split || constructor); cbn; lia. Qed.

(** The firing of thread [id]: every user buffer holds [c]. *)
Definition demo_env (id : Z) (c : list Z) : env unit :=
  Env id (replicate 16 0) tt
    (fun _ n => if (0 <=? n) && (n <=? zlen c) then Some (ztake n c) else None)
    (fun n => if 0 <=? n then Some (replicate (Z.to_nat n) 0) else None)
    true.

Lemma demo_env_ok id c : in_width 64 id -> Forall is_byte c -> env_ok (demo_env id c).
Proof.
  intros Hid Hc. split; [done|]. split; [split; [done|by repeat constructor]|]. split; cbn.
  - intros _ n bs. destruct (Z.leb_spec 0 n), (Z.leb_spec n (zlen c)); cbn; try done.
    intros [= <-]. split; [by apply zlen_ztake|by apply Forall_take].
  - intros n bs. destruct (Z.leb_spec 0 n); [|done]. intros [= <-]. split.
    + unfold zlen. rewrite length_replicate. lia.
    + by apply Forall_replicate.
Qed.

(** A record header followed by a short handshake body. *)
Definition demo_record : list Z := [22; 3; 1; 0; 4; 1; 0; 0; 0].

Lemma demo_readable id a : a <> 0 -> readable (demo_env id demo_record) a demo_record.
Proof.
  intros Ha. split_and!; [done|done| |].
  - intros n [Hn1 Hn2]. cbn. destruct (Z.leb_spec 0 n), (Z.leb_spec n (zlen demo_record)); try lia; done.
  - exists (replicate 1036 0). done.
Qed.

(** The state once socket 7 has been established. *)
Definition demo_state : bpf :=
  fire (demo_env (2 ^ 32 * 100 + 101) demo_record) (TpSetState IPPROTO_TCP 7 2 TCP_ESTABLISHED) bpf_init.

(** ** The invariant *)

(** C7: in every state the kernel side can reach - whatever programs fire, in any
    order and on any arguments of their types, whatever the helpers return, and
    however userspace drains the ring and deletes flows - all map entries and ring
    records are well-formed (integer fields in range, payload buffers of exactly
    1024 bytes with [len] below 1024), every flow counts at most 16 captures per
    direction and no map exceeds its [max_entries]. *)
Theorem kernel_invariant {K} `{KernelViewOk K} (s : bpf) :
  rtc (kstep (K := K)) bpf_init s -> bpf_wf s.
Proof. intros Hr. eapply reachable_wf; [exact Hr|]. apply bpf_init_wf. Qed.

Lemma kernel_invariant_witness :
  bpf_wf (fire (demo_env 1 demo_record) (KpSendmsg 7 9 (zlen demo_record)) bpf_init).
Proof.
  apply (kernel_invariant (K := unit)). eapply rtc_l; [|apply rtc_refl].
  apply kstep_fire; [apply demo_env_ok; [done|by repeat constructor]|cbn; by split_and!].
Defined.

(** ** Capture *)

(** C8: the gate of [capture_wire].  On readable memory a chunk [c] is captured
    exactly when it is non-empty, fewer than 16 chunks of its direction were
    captured, and either the direction is armed or [c] begins a TLS record; then
    one record carries its first 1023 bytes, the counter goes up by one and the
    flow is marked TLS.  Otherwise nothing at all changes. *)
Theorem capture_gate {K} `{KernelView K} (e : env K) sk f a c dir s :
  readable e a c -> flows s !! sk = Some f -> 0 <= wire_cnt dir f ->
  (dir = DIR_OUT \/ dir = DIR_IN) ->
  let s' := capture_wire e sk f a (zlen c) dir s in
  if (1 <=? zlen c) && (wire_cnt dir f <? 16) && ((0 <? wire_cnt dir f) || tls_start c)
  then wire_payloads sk dir (events s') = wire_payloads sk dir (events s) ++ [ztake 1023 c]
       /\ exists f', flows s' !! sk = Some f' /\ wire_cnt dir f' = wire_cnt dir f + 1
            /\ (f_is_tls f' = 1 \/ (f_is_tls f' = f_is_tls f /\ 0 < wire_cnt dir f))
  else s' = s.
Proof.
  intros Hr Hf Hc Hdir. cbn zeta. pose proof (capture_wire_readable e sk f a c dir s Hr Hf Hc) as Hcap.
  change MAX_WIRE_EVENTS with 16 in Hcap.
  destruct ((1 <=? zlen c) && (wire_cnt dir f <? 16) && _) eqn:G; [|done].
  destruct Hcap as (junk & _ & Hev & Hfl). split.
  - rewrite Hev, wire_payloads_app. f_equal. unfold wire_payloads, omap; cbn [list_omap].
    by rewrite wire_payload_capture.
  - eexists. split; [exact Hfl|].
    apply andb_prop in G as [G _]. apply andb_prop in G as [_ G%Z.ltb_lt].
    destruct (Z.ltb_spec 0 (wire_cnt dir f)) as [H0|H0]; destruct Hdir as [-> | ->];
      unfold wire_cnt, wire_cnt_incr in *; cbn in *; rewrite wrap_small;
      unfold in_width; auto; lia.
Qed.

Lemma capture_gate_witness :
  wire_payloads 7 DIR_OUT (events (capture_wire (demo_env 1 demo_record) 7
    (flow_set_direction DIR_OUT flow_zero) 9 (zlen demo_record) DIR_OUT demo_state)) = [demo_record].
Proof.
  refine (proj1 (capture_gate (demo_env 1 demo_record) 7 (flow_set_direction DIR_OUT flow_zero) 9
    demo_record DIR_OUT demo_state _ _ _ _)); [by apply demo_readable|reflexivity|cbn; lia|by left].
Defined.

(** C9: the outbound capture stream under interleaving.  Let any trace of firings -
    of other sockets, threads and SSL sessions, of receives and state changes on the
    same socket, in any order - contain the sends [cs] on socket [sk].  Then the
    outbound records of [sk] are, in order, exactly those the specification
    [captured] selects from [cs], and with the earlier ones there are at most 16. *)
Theorem outbound_stream_captured {K} `{KernelView K} sk tr cs s f :
  sends_of (K := K) sk tr cs -> flows s !! sk = Some f -> flow_wf f ->
  wire_payloads sk DIR_OUT (events (fire_all tr s))
    = wire_payloads sk DIR_OUT (events s) ++ captured (f_wire_out f) cs
  /\ f_wire_out f + zlen (captured (f_wire_out f) cs) <= 16.
Proof.
  intros Hs Hf Hw. unfold flow_wf, MAX_WIRE_EVENTS in Hw. split.
  - apply (trace_captured sk tr cs s f Hs Hf); [split; tauto|tauto].
  - assert (f_wire_out f <= 16) as Hle by tauto. clear Hs Hf Hw. revert Hle.
    generalize (f_wire_out f). induction cs as [|c cs IH]; intros n Hn; cbn [captured].
    + rewrite zlen_nil. lia.
    + case_match eqn:G; [|by apply IH].
      apply andb_prop in G as [G _]. apply andb_prop in G as [_ G%Z.ltb_lt].
      unfold MAX_WIRE_EVENTS in G. rewrite zlen_cons. specialize (IH (n + 1)). lia.
Qed.

Lemma outbound_stream_captured_witness :
  wire_payloads 7 DIR_OUT (events (fire_all
    [(demo_env 1 demo_record, KpSendmsg 7 9 (zlen demo_record));
     (demo_env 2 demo_record, KpSendmsg 8 9 (zlen demo_record));
     (demo_env 1 demo_record, KpSendmsg 7 9 (zlen demo_record))] demo_state))
  = [demo_record; demo_record].
Proof.
  refine (proj1 (outbound_stream_captured 7 _ [demo_record; demo_record] demo_state
    (flow_set_direction DIR_OUT flow_zero) _ _ _)).
  - constructor; [by apply demo_readable|]. apply sends_other; [done|].
    constructor; [by apply demo_readable|]. constructor.
  - reflexivity.
  - apply flow_set_direction_wf; [done|apply flow_zero_wf].
Defined.

(** Chunks the kernel can carry whole arrive whole.  If a socket's first send
    begins a TLS record, no send is empty or longer than 1023 bytes and there are at
    most 16, the captured payloads concatenate to exactly the bytes sent. *)
Theorem captured_lossless (cs : list (list Z)) :
  Forall (fun c => 1 <= zlen c <= 1023) cs -> zlen cs <= 16 ->
  (forall c cs', cs = c :: cs' -> tls_start c = true) ->
  concat (captured 0 cs) = concat cs.
Proof.
  intros Hcs Hn Hhd. by apply captured_whole.
Qed.

Lemma captured_lossless_witness :
  concat (captured 0 [demo_record; [1; 2]]) = demo_record ++ [1; 2].
Proof.
  refine (captured_lossless [demo_record; [1; 2]] _ _ _).
  - repeat constructor; done.
  - done.
  - by intros c cs' [= <- _].
Defined.

(** C10: byte accounting.  Over any trace, the 64-bit counters of a known socket
    advance by exactly the bytes of the sends on that socket and of the completed
    receives attributed to it, modulo 2^64; a known owner (pid, command, 4-tuple)
    never changes, and [closed] is never taken back. *)
Theorem socket_accounting {K} `{KernelView K} (tr : list (env K * probe)) s sk f :
  flows s !! sk = Some f -> flow_wf f ->
  exists f', flows (fire_all tr s) !! sk = Some f'
    /\ f_tx f' = wrap 64 (f_tx f + trace_sum (fun _ p _ => sent sk p) tr s)
    /\ f_rx f' = wrap 64 (f_rx f + trace_sum (received sk) tr s)
    /\ (f_pid f <> 0 -> flow_ident f' = flow_ident f)
    /\ (f_closed f = 1 -> f_closed f' = 1).
Proof.
  intros Hf Hw. unfold flow_wf in Hw.
  destruct (trace_flow tr s sk f) as (f' & Hf' & []); [split; tauto|done|]. eauto 8.
Qed.

Lemma socket_accounting_witness :
  exists f', flows (fire_all [(demo_env 5 [], KpSendmsg 7 9 100); (demo_env 5 [], KpSendmsg 8 9 50);
                              (demo_env 5 [], KpSendmsg 7 9 23)] demo_state) !! 7 = Some f'
             /\ f_tx f' = 123.
Proof.
  destruct (socket_accounting (K := unit)
    [(demo_env 5 [], KpSendmsg 7 9 100); (demo_env 5 [], KpSendmsg 8 9 50);
     (demo_env 5 [], KpSendmsg 7 9 23)] demo_state 7 (flow_set_direction DIR_OUT flow_zero))
    as (f' & Hf & Ht & _).
  - reflexivity.
  - apply flow_set_direction_wf; [done|apply flow_zero_wf].
  - exists f'. split; [exact Hf|]. rewrite Ht. reflexivity.
Defined.

(** C11: receive pairing under interleaving.  After thread [t] entered
    [tcp_recvmsg] on [sk], whatever the other threads do in between, [t]'s return
    with [ret > 0] bytes adds exactly [ret] to [sk] and to no other socket, and the
    scratch entry is gone. *)
Theorem recv_pairing {K} `{KernelView K} (e1 e2 : env K) tr sk msg ret s f2 :
  let t := e_pid_tgid e1 in
  let s1 := fire e1 (KpRecvmsg sk msg) s in
  let s2 := fire_all tr s1 in
  let s3 := fire e2 (KrRecvmsg ret) s2 in
  sk <> 0 -> e_room e1 = true -> Z.of_nat (size (recv_ctxs s)) < recv_ctxs_max ->
  Forall (fun ep => e_pid_tgid ep.1 <> t) tr -> e_pid_tgid e2 = t ->
  flows s2 !! sk = Some f2 -> flow_wf f2 -> 0 < ret ->
  (exists f3, flows s3 !! sk = Some f3 /\ f_rx f3 = wrap 64 (f_rx f2 + ret) /\ f_tx f3 = f_tx f2)
  /\ (forall sk', sk' <> sk -> flows s3 !! sk' = flows s2 !! sk')
  /\ recv_ctxs s3 !! t = None.
Proof.
  intros t s1 s2 s3 Hsk Hroom Hmax Htr Ht Hf Hw Hret.
  set (base := iter_base (e_kmem e1) (msg_iter msg)).
  assert (recv_ctxs s2 !! t = Some (mk_recv_ctx sk base)) as Hrc.
  { subst s2. rewrite trace_recv_ctx by done. subst s1. cbn [fire k_tcp_recvmsg].
    unfold k_tcp_recvmsg, map_update_elem. rewrite Hroom. cbn.
    destruct (Z.ltb_spec (Z.of_nat (size (recv_ctxs s))) recv_ctxs_max); [|lia].
    destruct (recv_ctxs s !! e_pid_tgid e1); apply lookup_insert_eq. }
  split_and!.
  - assert (counters_ok f2) as Hc by (unfold flow_wf in Hw; split; tauto).
    destruct (fire_flow e2 (KrRecvmsg ret) s2 sk f2 Hc Hf) as (f3 & Hf3 & [Etx Erx _ _ _]).
    exists f3. split; [done|]. revert Etx Erx. cbn [sent received]. rewrite Ht, Hrc. cbn [rc_sk].
    rewrite Z.eqb_refl. destruct (Z.eqb_spec sk 0); [done|]. destruct (Z.ltb_spec 0 ret); [|lia].
    cbn [negb andb]. rewrite Z.add_0_r. intros -> ->. split; [done|]. by apply wrap_small, Hc.
  - intros sk' Hne. subst s3. cbn [fire]. rewrite kr_tcp_recvmsg_eq, Ht, Hrc. cbn zeta.
    case_match; [done|].
    destruct (count_and_capture_frame e2 sk base ret DIR_IN (flow_add_rx ret)
      (set_recv_ctxs (delete t (recv_ctxs s2)) s2)) as (Hfr & _). by apply Hfr.
  - subst s3. cbn [fire]. rewrite kr_tcp_recvmsg_eq, Ht, Hrc. cbn zeta.
    case_match; [apply lookup_delete_eq|].
    destruct (count_and_capture_frame e2 sk base ret DIR_IN (flow_add_rx ret)
      (set_recv_ctxs (delete t (recv_ctxs s2)) s2)) as (_ & _ & Hfr & _).
    cbn [rc_sk rc_base]. rewrite Hfr. apply lookup_delete_eq.
Qed.

Lemma recv_pairing_witness :
  recv_ctxs (fire (demo_env 5 demo_record) (KrRecvmsg 9)
    (fire_all [(demo_env 6 demo_record, KpRecvmsg 8 9); (demo_env 6 demo_record, KrRecvmsg 9)]
      (fire (demo_env 5 demo_record) (KpRecvmsg 7 9) demo_state))) !! 5 = None.
Proof.
  refine (proj2 (proj2 (recv_pairing (demo_env 5 demo_record) (demo_env 5 demo_record)
    [(demo_env 6 demo_record, KpRecvmsg 8 9); (demo_env 6 demo_record, KrRecvmsg 9)]
    7 9 9 demo_state (flow_set_direction DIR_OUT flow_zero) _ _ _ _ _ _ _ _)));
    try reflexivity; try done.
  - repeat constructor; done.
  - apply flow_set_direction_wf; [done|apply flow_zero_wf].
Defined.

(** C12: the close record is exact and the session leaves no state behind.  Over any
    trace in which session [ssl] is not freed its totals grow by exactly the
    plaintext of its own [SSL_write] calls and completed [SSL_read] calls (mod
    2^64); a following [SSL_free] submits a close record with those totals and
    removes the session from both maps, and from no other session. *)
Theorem ssl_free_totals {K} `{KernelView K} tr (e : env K) ssl s st mem :
  ssl_stats s !! ssl = Some st -> ssl_stat_wf st ->
  Forall (fun ep => ep.2 <> UpSslFree ssl) tr ->
  e_ring e 36 = Some mem ->
  let s1 := fire_all tr s in
  let s2 := fire e (UpSslFree ssl) s1 in
  exists c, events s2 = events s1 ++ [EvClose c]
    /\ ce_ssl c = ssl /\ ce_fd c = s_fd st
    /\ ce_ptx c = wrap 64 (s_ptx st + trace_sum (fun _ p _ => written ssl p) tr s)
    /\ ce_prx c = wrap 64 (s_prx st + trace_sum (read_back ssl) tr s)
    /\ ssl_stats s2 = delete ssl (ssl_stats s1) /\ ssl_fds s2 = delete ssl (ssl_fds s1).
Proof.
  intros Hst Hw Htr Hm s1 s2.
  destruct (trace_stat tr s ssl st) as (st1 & Hst1 & (Htx & Hrx & _ & Hfd)); [|done..|].
  { unfold ssl_stat_wf in Hw. split; tauto. }
  subst s2. cbn [fire]. unfold u_ssl_free. fold s1 in Hst1. rewrite Hst1, Hm.
  eexists. split; [done|]. cbn. rewrite Htx, Hrx, Hfd. split_and!; done.
Qed.

Lemma ssl_free_totals_witness :
  exists c, events (fire (demo_env 5 []) (UpSslFree 77)
    (fire_all [(demo_env 5 [], UpSslWrite 77 9 10); (demo_env 5 [], UpSslWrite 77 9 32)]
      (fire (demo_env 5 []) (UpSslWrite 77 9 1) bpf_init))) = [EvClose c] /\ ce_ptx c = 43.
Proof.
  destruct (ssl_free_totals [(demo_env 5 [], UpSslWrite 77 9 10); (demo_env 5 [], UpSslWrite 77 9 32)]
    (demo_env 5 []) 77 (fire (demo_env 5 []) (UpSslWrite 77 9 1) bpf_init)
    (mk_ssl_stat 1 0 0 (-1)) (replicate 36 0)) as (c & He & _ & _ & Hp & _).
  - reflexivity.
  - unfold ssl_stat_wf, in_width, in_s32; cbn; lia.
  - repeat constructor; done.
  - reflexivity.
  - exists c. split; [exact He|]. rewrite Hp. reflexivity.
Defined.

(** C13: the connection-state tracepoint, on every branch.  Only TCP transitions
    count; ESTABLISHED creates or updates the entry and records the direction
    (inbound exactly when the old state is SYN_RECV), CLOSE and CLOSE_WAIT mark a
    known flow closed and create nothing, every other transition changes nothing. *)
Theorem set_state_transitions {K} `{KernelView K} (e : env K) proto sk old new s :
  let s' := tp_inet_sock_set_state e proto sk old new s in
  (proto <> IPPROTO_TCP -> s' = s)
  /\ (proto = IPPROTO_TCP -> new = TCP_ESTABLISHED ->
        (is_Some (flows s !! sk) \/ (e_room e = true /\ Z.of_nat (size (flows s)) < flows_max)) ->
        let f := default flow_zero (flows s !! sk) in
        flows s' = <[sk := flow_set_direction (if old =? TCP_SYN_RECV then DIR_IN else DIR_OUT) f]>
                     (flows s) /\ events s' = events s)
  /\ (proto = IPPROTO_TCP -> new = TCP_CLOSE \/ new = TCP_CLOSE_WAIT ->
        flows s' = alter flow_set_closed sk (flows s) /\ events s' = events s)
  /\ (new <> TCP_ESTABLISHED -> new <> TCP_CLOSE -> new <> TCP_CLOSE_WAIT -> s' = s).
Proof.
  unfold tp_inet_sock_set_state. split_and!.
  - intros Hp. by destruct (Z.eqb_spec proto IPPROTO_TCP).
  - intros -> -> Hroom. cbn. unfold map_update_elem. destruct (flows s !! sk) as [f|] eqn:E.
    + rewrite E. done.
    + destruct Hroom as [[]|[-> Hsz]]; [done|].
      destruct (Z.ltb_spec (Z.of_nat (size (flows s))) flows_max); [|lia]. cbn.
      rewrite lookup_insert_eq. cbn. by rewrite insert_insert_eq.
  - intros -> Hn. cbn.
    destruct (Z.eqb_spec new TCP_ESTABLISHED) as [->|]; [destruct Hn; done|].
    assert ((new =? TCP_CLOSE) || (new =? TCP_CLOSE_WAIT) = true) as ->
      by (destruct Hn as [-> | ->]; done).
    destruct (flows s !! sk) as [f|] eqn:E; cbn; split; try done.
    + apply map_eq. intros i. rewrite lookup_insert, lookup_alter.
      case_decide; [subst; by rewrite E|done].
    + apply map_eq. intros i. rewrite lookup_alter. case_decide; [subst; by rewrite E|done].
  - intros H1 H2 H3. destruct (proto =? IPPROTO_TCP); [|done]. cbn.
    destruct (Z.eqb_spec new TCP_ESTABLISHED), (Z.eqb_spec new TCP_CLOSE),
      (Z.eqb_spec new TCP_CLOSE_WAIT); done.
Qed.

Lemma set_state_transitions_witness :
  flows (tp_inet_sock_set_state (demo_env 1 []) IPPROTO_TCP 7 3 TCP_ESTABLISHED bpf_init) !! 7
  = Some (flow_set_direction DIR_IN flow_zero).
Proof.
  destruct (set_state_transitions (demo_env 1 []) IPPROTO_TCP 7 3 TCP_ESTABLISHED bpf_init)
    as (_ & H2 & _).
  destruct (H2 eq_refl eq_refl) as [-> _]; [right; split; [reflexivity|done]|]. reflexivity.
Defined.

(** What process context leaves in an entry it found: an unowned one is given the firing
    process, its command and the kernel's 4-tuple, an owned one keeps what it has. *)
Definition identified {K} `{KernelView K} (e : env K) (sk : Z) (f f' : flow) : Prop :=
  if f_pid f =? 0
  then f_pid f' = tgid_of (e_pid_tgid e) /\ f_comm f' = e_comm e
       /\ f_sport f' = skc_num (e_kmem e) sk /\ f_dport f' = ntohs (skc_dport (e_kmem e) sk)
       /\ (f_is_ipv6 f' = 1 <-> skc_family (e_kmem e) sk = AF_INET6)
       /\ (f_is_ipv6 f' = 1 ->
           f_saddr f' = skc_v6_rcv_saddr (e_kmem e) sk /\ f_daddr f' = skc_v6_daddr (e_kmem e) sk)
       /\ (f_is_ipv6 f' <> 1 -> f_saddr f' = <[0%nat := skc_rcv_saddr (e_kmem e) sk]> (f_saddr f)
           /\ f_daddr f' = <[0%nat := skc_daddr (e_kmem e) sk]> (f_daddr f))
  else flow_ident f' = flow_ident f.

Lemma backfill_identified {K} `{KernelView K} (e : env K) sk f f' :
  flow_ident f' = flow_ident (backfill e sk f) -> identified e sk f f'.
Proof.
  intros Hi. unfold identified, backfill, read_tuple, flow_ident in *. destruct (f_pid f =? 0); [|done].
  destruct (Z.eqb_spec (skc_family (e_kmem e) sk) AF_INET6); cbn in Hi;
    injection Hi as ? ? ? ? ? ? ?; split_and!; try done; try split; congruence.
Qed.

Lemma count_and_capture_identified {K} `{KernelView K} (e : env K) sk buf n dir upd s f :
  (forall f, flow_ident (upd f) = flow_ident f) -> flows s !! sk = Some f ->
  exists f', flows (count_and_capture e sk buf n dir upd s) !! sk = Some f' /\ identified e sk f f'.
Proof.
  intros Hupd Hf. destruct (count_and_capture_at e sk buf n dir upd s f Hf) as (f' & Hf' & Hu).
  exists f'. split; [done|]. apply backfill_identified. rewrite <- (Hupd (backfill e sk f)).
  by destruct Hu as [-> | [-> | [-> | ->]]]; unfold wire_cnt_incr; try destruct (dir =? DIR_OUT).
Qed.

(** C14: who owns a flow.  A send on a socket whose entry has no pid, and likewise the
    return of a receive that this thread entered on it and that delivered bytes, fills
    in the firing process, its command and the kernel's 4-tuple (the remote port
    converted to host order); either leaves the identity of an owned entry as it is.
    Nothing else does: entering a receive and a receive that delivers nothing leave the
    flows alone, and the tracepoint never touches an identity, so an entry created in
    interrupt context stays unowned until process context sees it. *)
Theorem identity_backfilled {K} `{KernelView K} (e : env K) sk s f :
  flows s !! sk = Some f ->
  (forall msg size, exists f', flows (k_tcp_sendmsg e sk msg size s) !! sk = Some f' /\ identified e sk f f')
  /\ (forall base ret, recv_ctxs s !! e_pid_tgid e = Some (mk_recv_ctx sk base) -> sk <> 0 -> 0 < ret ->
        exists f', flows (kr_tcp_recvmsg e ret s) !! sk = Some f' /\ identified e sk f f')
  /\ (forall sk' msg, flows (k_tcp_recvmsg e sk' msg s) = flows s)
  /\ (forall ret, ret <= 0 -> flows (kr_tcp_recvmsg e ret s) = flows s)
  /\ (forall proto old new f',
        flows (tp_inet_sock_set_state e proto sk old new s) !! sk = Some f' ->
        flow_ident f' = flow_ident f).
Proof.
  intros Hf. split_and!.
  - intros msg size. rewrite k_tcp_sendmsg_eq. by apply count_and_capture_identified.
  - intros base ret Hrc Hsk Hr. rewrite kr_tcp_recvmsg_eq, Hrc. cbn [rc_sk rc_base].
    destruct (Z.leb_spec ret 0), (Z.eqb_spec sk 0); try lia. by apply count_and_capture_identified.
  - done.
  - intros ret Hr. rewrite kr_tcp_recvmsg_eq. destruct (recv_ctxs s !! _); [|done].
    destruct (Z.leb_spec ret 0); [done|lia].
  - intros proto old new f'. unfold tp_inet_sock_set_state. repeat case_match;
      rewrite ?put_flow_lookup, ?decide_True by done; cbn; try rewrite ?lookup_insert_eq; naive_solver.
Qed.

(** Both ways an unowned entry gets its owner: by a send, and by a receive that returns. *)
Lemma identity_backfilled_witness :
  let e := demo_env (2 ^ 32 * 100 + 101) [] in
  let entered := k_tcp_recvmsg e 7 9 demo_state in
  (exists f', flows (k_tcp_sendmsg e 7 9 0 demo_state) !! 7 = Some f' /\ f_pid f' = 100 /\ f_dport f' = 443)
  /\ (exists f', flows (kr_tcp_recvmsg e 5 entered) !! 7 = Some f' /\ f_pid f' = 100 /\ f_dport f' = 443).
Proof.
  intros e entered. split.
  - destruct (identity_backfilled e 7 demo_state
      (flow_set_direction DIR_OUT flow_zero)) as [Hs _]; [reflexivity|].
    destruct (Hs 9 0) as (f' & Hf' & Hi). exists f'. split; [exact Hf'|]. cbn in Hi.
    destruct Hi as (Hp & _ & _ & Hd & _). split; [rewrite Hp|rewrite Hd]; reflexivity.
  - destruct (identity_backfilled e 7 entered
      (flow_set_direction DIR_OUT flow_zero)) as (_ & Hr & _); [reflexivity|].
    destruct (Hr 9 5) as (f' & Hf' & Hi); [vm_compute; reflexivity|lia|lia|].
    exists f'. split; [exact Hf'|]. cbn in Hi.
    destruct Hi as (Hp & _ & _ & Hd & _). split; [rewrite Hp|rewrite Hd]; reflexivity.
Defined.
