(* ===== verification/Loader.v ===== *)
(** internal/loader/loader.go: decoding ring buffer records and map snapshots.

    Attaching programs, the ring reader and the map iterators are the eBPF library;
    here are the functions that turn what they deliver into the exported structs. *)
From S2P Require Import Prelude Abi Bpf BpfInv.

(** ** Exported structs *)

Record Flow := mkFlow {
  fl_Sock : Z; fl_Pid : Z; fl_Saddr : list Z; fl_Daddr : list Z;
  fl_Sport : Z; fl_Dport : Z; fl_IsIPv6 : bool; fl_Direction : Z;
  fl_IsTLS : bool; fl_Closed : bool; fl_Comm : string; fl_Tx : Z; fl_Rx : Z }.

Record SSLStat := mkSSLStat { st_SSL : Z; st_Ptx : Z; st_Prx : Z; st_Pid : Z; st_Fd : Z }.

Record WireEvent := mkWireEvent { w_Dir : Z; w_Sock : Z; w_Data : list Z }.

Record DataEvent := mkDataEvent {
  d_Dir : Z; d_Pid : Z; d_Tid : Z; d_Fd : Z; d_SSL : Z; d_Data : list Z }.

Record CloseEvent := mkCloseEvent { c_Pid : Z; c_Fd : Z; c_SSL : Z; c_Ptx : Z; c_Prx : Z }.

(** ** Little-endian loads *)

Definition le16 (b : list Z) : go Z :=
  do! b0 <- byte_at b 0; do! b1 <- byte_at b 1;
  Ok (Z.lor b0 (wrap 16 (Z.shiftl b1 8))).

Definition le32 (b : list Z) : go Z :=
  do! b0 <- byte_at b 0; do! b1 <- byte_at b 1; do! b2 <- byte_at b 2; do! b3 <- byte_at b 3;
  Ok (Z.lor (Z.lor (Z.lor b0 (wrap 32 (Z.shiftl b1 8))) (wrap 32 (Z.shiftl b2 16)))
        (wrap 32 (Z.shiftl b3 24))).

Definition le64 (b : list Z) : go Z :=
  do! lo <- le32 b; do! b4 <- subslice b 4 (zlen b); do! hi <- le32 b4;
  Ok (Z.lor lo (wrap 64 (Z.shiftl hi 32))).

(** [le32(b[i:])] and the like. *)
Definition at_off {A} (load : list Z -> go A) (b : list Z) (i : Z) : go A :=
  do! t <- subslice b i (zlen b); load t.

(** ** ReadEvent *)

(** The three pointer results; the [error] is the ring reader's. *)
Definition event_ptrs : Type := option WireEvent * option DataEvent * option CloseEvent.

Definition no_event : event_ptrs := (None, None, None).

Definition decode_wire (b : list Z) : go event_ptrs :=
  if zlen b <? 12 then Ok no_event
  else
    do! dir <- byte_at b 1;
    do! sock <- at_off le64 b 4;
    do! n <- at_off le16 b 2;
    if 12 + n <=? zlen b then
      do! data <- subslice b 12 (12 + n);
      Ok (Some (mkWireEvent dir sock data), None, None)
    else Ok (Some (mkWireEvent dir sock []), None, None).

Definition decode_data (b : list Z) : go event_ptrs :=
  if zlen b <? 24 then Ok no_event
  else
    do! dir <- byte_at b 1;
    do! pid <- at_off le32 b 4;
    do! tid <- at_off le32 b 8;
    do! fd <- at_off le32 b 12;
    do! ssl <- at_off le64 b 16;
    do! n <- at_off le16 b 2;
    if 24 + n <=? zlen b then
      do! data <- subslice b 24 (24 + n);
      Ok (None, Some (mkDataEvent dir pid tid (swrap 32 fd) ssl data), None)
    else Ok (None, Some (mkDataEvent dir pid tid (swrap 32 fd) ssl []), None).

Definition decode_close (b : list Z) : go event_ptrs :=
  if zlen b <? 36 then Ok no_event
  else
    do! pid <- at_off le32 b 4;
    do! fd <- at_off le32 b 8;
    do! ssl <- at_off le64 b 12;
    do! ptx <- at_off le64 b 20;
    do! prx <- at_off le64 b 28;
    Ok (None, None, Some (mkCloseEvent pid (swrap 32 fd) ssl ptx prx)).

(** [ReadEvent] on the raw sample the ring reader returned. *)
Definition ReadEvent (b : list Z) : go event_ptrs :=
  if zlen b <? 1 then Ok no_event
  else
    do! tag <- byte_at b 0;
    if tag =? 1 then decode_wire b
    else if tag =? 2 then decode_data b
    else if tag =? 3 then decode_close b
    else Ok no_event.

(** ** Map snapshots *)

(** Bytes of an [int8] array up to the first zero. *)
Fixpoint cstr_bytes (b : list Z) : list Z :=
  match b with
  | [] => []
  | c :: b => if c =? 0 then [] else wrap 8 c :: cstr_bytes b
  end.
Definition cstr (b : list Z) : string := string_of_bytes (cstr_bytes b).

Definition flow_of (k : Z) (v : flow) : Flow :=
  mkFlow k (f_pid v) (f_saddr v) (f_daddr v) (f_sport v) (f_dport v)
    (negb (f_is_ipv6 v =? 0)) (f_direction v) (negb (f_is_tls v =? 0))
    (negb (f_closed v =? 0)) (cstr (map (swrap 8) (f_comm v))) (f_tx v) (f_rx v).

(** [Flows] and [SSLStats] over what the map iterator yields. *)
Definition Flows (it : list (Z * flow)) : list Flow := map (fun kv => flow_of kv.1 kv.2) it.

Definition SSLStats (it : list (Z * ssl_stat)) : list SSLStat :=
  map (fun kv => mkSSLStat kv.1 (s_ptx kv.2) (s_prx kv.2) (s_pid kv.2) (s_fd kv.2)) it.

Definition DeleteFlow (sock : Z) (s : bpf) : bpf := set_flows (delete sock (flows s)) s.

(** ** Loads are the inverse of the packed layout *)

Lemma le16_bytes b0 b1 rest :
  is_byte b0 -> is_byte b1 -> le16 (b0 :: b1 :: rest) = Ok (le_word [b0; b1]).
Proof.
  intros H0 H1. unfold is_byte in *. unfold le16. byte_at_eval. cbn [le_word].
  rewrite wrap_small by (unfold in_width; rewrite Z.shiftl_mul_pow2 by lia; lia).
  rewrite lor_shiftl_add by lia. f_equal. lia.
Qed.

Lemma le32_bytes b0 b1 b2 b3 rest :
  is_byte b0 -> is_byte b1 -> is_byte b2 -> is_byte b3 ->
  le32 (b0 :: b1 :: b2 :: b3 :: rest) = Ok (le_word [b0; b1; b2; b3]).
Proof.
  intros H0 H1 H2 H3. unfold is_byte in *. unfold le32. byte_at_eval. cbn [le_word].
  rewrite !wrap_small by (unfold in_width; rewrite Z.shiftl_mul_pow2 by lia; lia).
  rewrite (lor_shiftl_add b0 b1 8) by lia.
  rewrite (lor_shiftl_add _ b2 16) by lia.
  rewrite (lor_shiftl_add _ b3 24) by lia. f_equal. lia.
Qed.

(** A word at the head of a slice, whatever follows. *)
Lemma le16_head z rest : in_width 16 z -> le16 (le_bytes 2 z ++ rest) = Ok z.
Proof.
  intros Hz. pose proof (le_bytes_is_byte 2 z) as Hb.
  destruct (le_bytes 2 z) as [|b0 [|b1 [|]]] eqn:E; try (by apply (f_equal length) in E).
  rewrite !Forall_cons in Hb. destruct Hb as (? & ? & _). cbn [app].
  rewrite le16_bytes, <- E by done. by rewrite le_word_bytes_small.
Qed.

Lemma le32_head z rest : le32 (le_bytes 4 z ++ rest) = Ok (wrap 32 z).
Proof.
  pose proof (le_bytes_is_byte 4 z) as Hb.
  destruct (le_bytes 4 z) as [|b0 [|b1 [|b2 [|b3 [|]]]]] eqn:E; try (by apply (f_equal length) in E).
  rewrite !Forall_cons in Hb. destruct Hb as (? & ? & ? & ? & _). cbn [app].
  rewrite le32_bytes, <- E by done. by rewrite le_word_bytes.
Qed.

Lemma le_bytes_app n m z : le_bytes (n + m) z = le_bytes n z ++ le_bytes m (z / 2 ^ (8 * Z.of_nat n)).
Proof.
  revert z. induction n as [|n IH]; intros z; cbn [Nat.add le_bytes app].
  - by rewrite Z.div_1_r.
  - rewrite IH, Z.div_div by lia. do 4 f_equal.
    replace (8 * Z.of_nat (S n)) with (8 + 8 * Z.of_nat n) by lia. by rewrite Z.pow_add_r by lia.
Qed.

Lemma le64_head z rest : in_width 64 z -> le64 (le_bytes 8 z ++ rest) = Ok z.
Proof.
  intros Hz. unfold in_width in Hz. change 8%nat with (4 + 4)%nat.
  rewrite le_bytes_app, <- app_assoc. unfold le64. rewrite le32_head. cbn [go_bind].
  rewrite subslice_tail by apply zlen_le_bytes. cbn [go_bind].
  rewrite le32_head. cbn [go_bind]. change (8 * Z.of_nat 4) with 32.
  rewrite (wrap_small 32 (z / 2 ^ 32)).
  2:{ split; [apply Z.div_pos; lia|apply Z.div_lt_upper_bound; lia]. }
  rewrite (wrap_small 64).
  2:{ unfold in_width. rewrite Z.shiftl_mul_pow2 by lia.
      pose proof (Z.mul_div_le z (2 ^ 32) ltac:(lia)).
      assert (0 <= z / 2 ^ 32) by (apply Z.div_pos; lia). lia. }
  rewrite lor_shiftl_add by (try apply wrap_range; lia).
  unfold wrap. pose proof (Z.div_mod z (2 ^ 32) ltac:(lia)). f_equal. lia.
Qed.

(** A load at an offset that is the length of a prefix. *)
Lemma at_off_app {A} (load : list Z -> go A) (p q : list Z) :
  at_off load (p ++ q) (zlen p) = load q.
Proof.
  unfold at_off. by rewrite subslice_tail by done.
Qed.

Lemma swrap_s32 z : in_s32 z -> swrap 32 (wrap 32 z) = z.
Proof.
  intros Hz. unfold swrap. rewrite wrap_wrap by lia. apply (swrap_small 32); [lia|].
  unfold in_s32 in Hz. lia.
Qed.

(** Reads at fixed offsets never leave a record that is long enough. *)
Lemma le16_total b : 2 <= zlen b -> is_ok (le16 b).
Proof.
  intros. repeat (apply go_bind_ok; [apply byte_at_ok; lia|intros ? _]). by eexists.
Qed.
Lemma le32_total b : 4 <= zlen b -> is_ok (le32 b).
Proof.
  intros. repeat (apply go_bind_ok; [apply byte_at_ok; lia|intros ? _]). by eexists.
Qed.
Lemma at_off_total {A} (load : list Z -> go A) b i k :
  (forall t, k <= zlen t -> is_ok (load t)) -> 0 <= i -> i + k <= zlen b -> 0 <= k ->
  is_ok (at_off load b i).
Proof.
  intros Hl Hi Hk H0. unfold at_off. rewrite subslice_ok by lia. cbn [go_bind]. apply Hl.
  rewrite ztake_ge; rewrite zlen_zdrop; lia.
Qed.
Lemma le64_total b : 8 <= zlen b -> is_ok (le64 b).
Proof.
  intros. apply go_bind_ok; [apply le32_total; lia|intros ? _].
  rewrite subslice_ok by lia. cbn [go_bind]. apply go_bind_ok; [|intros ? _; by eexists].
  apply le32_total. rewrite ztake_ge; rewrite zlen_zdrop; lia.
Qed.
#[export] Hint Resolve le16_total le32_total le64_total : tlstat.

(** A decoded 16-bit length is never negative. *)
Lemma at_off_le16_nonneg b i n : Forall is_byte b -> at_off le16 b i = Ok n -> 0 <= n.
Proof.
  intros Hb (t & Ht & Hn)%go_bind_inv.
  assert (Forall is_byte t) as Hbt.
  { unfold subslice in Ht. case_match; [|done]. injection Ht as <-. by apply Forall_take, Forall_drop. }
  apply go_bind_inv in Hn as (b0 & H0 & Hn). apply go_bind_inv in Hn as (b1 & H1 & Hn).
  injection Hn as <-. apply Z.lor_nonneg. split.
  - apply byte_at_byte in H0; [|done]. unfold is_byte in H0. lia.
  - apply wrap_range. lia.
Qed.

Definition ptr_count (r : event_ptrs) : nat :=
  let '(w, d, c) := r in
  (if w is Some _ then 1 else 0) + (if d is Some _ then 1 else 0)
  + (if c is Some _ then 1 else 0).

(** What the Go side is meant to see of a record. *)
Definition event_view (ev : event) : event_ptrs :=
  match ev with
  | EvWire e => (Some (mkWireEvent (we_direction e) (we_sk e) (ztake (we_len e) (we_data e))), None, None)
  | EvData e =>
      (None, Some (mkDataEvent (de_direction e) (de_pid e) (de_tid e) (de_fd e) (de_ssl e)
                     (ztake (de_len e) (de_data e))), None)
  | EvClose e => (None, None, Some (mkCloseEvent (ce_pid e) (ce_fd e) (ce_ssl e) (ce_ptx e) (ce_prx e)))
  end.

(** *** Reading a field of a packed image *)

Lemma byte_at_le1 z rest i p :
  zlen p = i -> in_width 8 z -> byte_at (p ++ le_bytes 1 z ++ rest) i = Ok z.
Proof.
  intros <- Hz. pose proof (zlen_nonneg p).
  rewrite <- (Z.add_0_r (zlen p)), <- byte_at_zdrop by lia. rewrite zdrop_app. cbn [le_bytes app].
  rewrite byte_at_0. f_equal. by apply Z.mod_small.
Qed.

Lemma byte_at_tag z rest : in_width 8 z -> byte_at (le_bytes 1 z ++ rest) 0 = Ok z.
Proof. by apply (byte_at_le1 z rest 0 []). Qed.

Lemma at_off_field {A} (load : list Z -> go A) (p q : list Z) i :
  zlen p = i -> at_off load (p ++ q) i = load q.
Proof. intros <-. apply at_off_app. Qed.

(** Walk over the fields before the one that is read. *)
Lemma at_off_skip {A} (load : list Z -> go A) (p q : list Z) i :
  zlen p <= i -> i <= zlen p + zlen q -> at_off load (p ++ q) i = at_off load q (i - zlen p).
Proof.
  intros Hi Hq. pose proof (zlen_nonneg p). unfold at_off.
  rewrite !subslice_ok; rewrite ?zlen_app; try lia. cbn [go_bind]. f_equal.
  assert (zdrop i (p ++ q) = zdrop (i - zlen p) q) as ->.
  { rewrite <- (zdrop_app p q) at 2. rewrite zdrop_zdrop by lia. f_equal; lia. }
  f_equal; lia.
Qed.

Lemma at_off_0 {A} (load : list Z -> go A) (q : list Z) : at_off load q 0 = load q.
Proof. apply (at_off_app load [] q). Qed.

(** Payloads sit at the end of the record. *)
Lemma payload_slice (hdr data : list Z) k n :
  zlen hdr = k -> 0 <= n <= zlen data -> subslice (hdr ++ data) k (k + n) = Ok (ztake n data).
Proof.
  intros <- Hn. pose proof (zlen_nonneg hdr). rewrite subslice_ok; [|lia|rewrite zlen_app; lia].
  rewrite zdrop_app. do 2 f_equal. lia.
Qed.

Ltac flat := rewrite ?zlen_app, ?zlen_le_bytes, ?zlen_nil; try reflexivity; try lia.

(** [0 <= zlen l] for the lists the goal measures. *)
Ltac pose_nonneg :=
  repeat match goal with
  | |- context [zlen ?l] =>
      lazymatch l with
      | _ ++ _ => fail
      | le_bytes _ _ => fail
      | _ => lazymatch goal with
             | _ : 0 <= zlen l |- _ => fail
             | _ => pose proof (zlen_nonneg l)
             end
      end
  end.

(** Reads the field at a constant offset of a packed image. *)
Ltac field :=
  repeat (rewrite at_off_skip;
    [|rewrite ?zlen_le_bytes; lia|rewrite ?zlen_app, ?zlen_le_bytes; pose_nonneg; lia];
    rewrite ?zlen_le_bytes; cbn [Z.sub Z.opp Z.of_nat Z.add]);
  match goal with |- context [at_off ?l ?q ?i] => replace i with 0 by lia end;
  rewrite at_off_0.

Lemma decode_wire_bytes e :
  wire_event_wf e -> decode_wire (wire_event_bytes e) = Ok (event_view (EvWire e)).
Proof.
  intros Hwf. pose proof (wire_event_size e Hwf) as Hsz.
  destruct Hwf as (Ht & Hdir & Hlen & Hsk & Hdl & _). unfold decode_wire. rewrite Hsz.
  change (1036 <? 12) with false. cbn iota. unfold wire_event_bytes, WIRE_CAP in *.
  rewrite (byte_at_le1 (we_direction e) _ 1 (le_bytes 1 (we_type e))) by
    (flat || by destruct Hdir as [-> | ->]).
  cbn [go_bind]. field. rewrite le64_head by done. cbn [go_bind].
  field. rewrite le16_head by (unfold in_width; lia). cbn [go_bind].
  destruct (Z.leb_spec (12 + we_len e) 1036); [|lia].
  rewrite !app_assoc, payload_slice by (flat || lia). done.
Qed.

Lemma decode_data_bytes e :
  data_event_wf e -> decode_data (data_event_bytes e) = Ok (event_view (EvData e)).
Proof.
  intros Hwf. pose proof (data_event_size e Hwf) as Hsz.
  destruct Hwf as (Ht & Hdir & Hlen & Hpid & Htid & Hfd & Hssl & Hdl & _).
  unfold decode_data. rewrite Hsz.
  change (1048 <? 24) with false. cbn iota. unfold data_event_bytes, DATA_CAP in *.
  rewrite (byte_at_le1 (de_direction e) _ 1 (le_bytes 1 (de_type e))) by
    (flat || by destruct Hdir as [-> | ->]).
  cbn [go_bind].
  do 3 (field; rewrite le32_head; cbn [go_bind]).
  field. rewrite le64_head by done. cbn [go_bind].
  field. rewrite le16_head by (unfold in_width; lia). cbn [go_bind].
  destruct (Z.leb_spec (24 + de_len e) 1048); [|lia].
  rewrite !app_assoc, payload_slice by (flat || lia). cbn [go_bind].
  by rewrite swrap_s32, !wrap_small.
Qed.

Lemma decode_close_bytes e :
  close_event_wf e -> decode_close (close_event_bytes e) = Ok (event_view (EvClose e)).
Proof.
  intros Hwf. pose proof (close_event_size e Hwf) as Hsz.
  destruct Hwf as (Ht & [Hpad _] & Hpid & Hfd & Hssl & Hptx & Hprx).
  assert (zlen (ce_pad e) = 3) as Hp by (unfold zlen; by rewrite Hpad).
  unfold decode_close. rewrite Hsz. change (36 <? 36) with false. cbn iota. unfold close_event_bytes.
  rewrite (app_assoc (le_bytes 1 (ce_type e))).
  set (hd := le_bytes 1 (ce_type e) ++ ce_pad e).
  assert (zlen hd = 4) as Hhd by (unfold hd; flat; lia).
  rewrite (at_off_field le32 hd) by done. rewrite le32_head. cbn [go_bind].
  rewrite <- (app_nil_r (le_bytes 8 (ce_prx e))).
  rewrite !(at_off_skip _ hd) by (rewrite ?Hhd, ?zlen_app, ?zlen_le_bytes, ?zlen_nil; lia).
  rewrite Hhd. cbn [Z.sub Z.opp Z.pos_sub Z.add Pos.pred_double Z.double Z.succ_double Z.pred_double].
  field. rewrite le32_head. cbn [go_bind].
  do 3 (field; rewrite le64_head by done; cbn [go_bind]).
  by rewrite swrap_s32, wrap_small.
Qed.
