(* ===== verification/LoaderProps.v ===== *)
(** Properties of the record decoder, on its own and against the kernel side. *)
From S2P Require Import Prelude Abi Bpf BpfInv BpfProps Loader.

Lemma decode_wire_total b : Forall is_byte b -> exists r, decode_wire b = Ok r /\ (ptr_count r <= 1)%nat.
Proof.
  intros Hb. unfold decode_wire. destruct (Z.ltb_spec (zlen b) 12); [exists no_event; auto|].
  destruct (byte_at_ok b 1) as [dir ->]; [lia|]. cbn [go_bind].
  destruct (at_off_total le64 b 4 8) as [sock ->]; [auto with tlstat|lia|lia|lia|]. cbn [go_bind].
  destruct (at_off_total le16 b 2 2) as [n Hn]; [auto with tlstat|lia|lia|lia|]. rewrite Hn. cbn [go_bind].
  apply at_off_le16_nonneg in Hn; [|done].
  destruct (Z.leb_spec (12 + n) (zlen b)); [|eauto].
  rewrite subslice_ok by lia. cbn [go_bind]. eauto.
Qed.

Lemma decode_data_total b : Forall is_byte b -> exists r, decode_data b = Ok r /\ (ptr_count r <= 1)%nat.
Proof.
  intros Hb. unfold decode_data. destruct (Z.ltb_spec (zlen b) 24); [exists no_event; auto|].
  destruct (byte_at_ok b 1) as [dir ->]; [lia|]. cbn [go_bind].
  destruct (at_off_total le32 b 4 4) as [pid ->]; [auto with tlstat|lia|lia|lia|]. cbn [go_bind].
  destruct (at_off_total le32 b 8 4) as [tid ->]; [auto with tlstat|lia|lia|lia|]. cbn [go_bind].
  destruct (at_off_total le32 b 12 4) as [fd ->]; [auto with tlstat|lia|lia|lia|]. cbn [go_bind].
  destruct (at_off_total le64 b 16 8) as [ssl ->]; [auto with tlstat|lia|lia|lia|]. cbn [go_bind].
  destruct (at_off_total le16 b 2 2) as [n Hn]; [auto with tlstat|lia|lia|lia|]. rewrite Hn. cbn [go_bind].
  apply at_off_le16_nonneg in Hn; [|done].
  destruct (Z.leb_spec (24 + n) (zlen b)); [|eauto].
  rewrite subslice_ok by lia. cbn [go_bind]. eauto.
Qed.

Lemma decode_close_total b : exists r, decode_close b = Ok r /\ (ptr_count r <= 1)%nat.
Proof.
  unfold decode_close. destruct (Z.ltb_spec (zlen b) 36); [exists no_event; auto|].
  destruct (at_off_total le32 b 4 4) as [pid ->]; [auto with tlstat|lia|lia|lia|]. cbn [go_bind].
  destruct (at_off_total le32 b 8 4) as [fd ->]; [auto with tlstat|lia|lia|lia|]. cbn [go_bind].
  destruct (at_off_total le64 b 12 8) as [ssl ->]; [auto with tlstat|lia|lia|lia|]. cbn [go_bind].
  destruct (at_off_total le64 b 20 8) as [ptx ->]; [auto with tlstat|lia|lia|lia|]. cbn [go_bind].
  destruct (at_off_total le64 b 28 8) as [prx ->]; [auto with tlstat|lia|lia|lia|]. cbn [go_bind].
  eauto.
Qed.

Lemma ReadEvent_event ev : event_wf ev -> ReadEvent (event_bytes ev) = Ok (event_view ev).
Proof.
  intros Hev. unfold ReadEvent. destruct ev as [e|e|e]; cbn [event_bytes event_wf] in *.
  - rewrite (wire_event_size e Hev). change (1036 <? 1) with false. cbn iota.
    unfold wire_event_bytes at 1. rewrite (byte_at_tag (we_type e)) by by rewrite (proj1 Hev). cbn [go_bind].
    rewrite (proj1 Hev). by apply decode_wire_bytes.
  - rewrite (data_event_size e Hev). change (1048 <? 1) with false. cbn iota.
    unfold data_event_bytes at 1. rewrite (byte_at_tag (de_type e)) by by rewrite (proj1 Hev). cbn [go_bind].
    rewrite (proj1 Hev). by apply decode_data_bytes.
  - rewrite (close_event_size e Hev). change (36 <? 1) with false. cbn iota.
    unfold close_event_bytes at 1. rewrite (byte_at_tag (ce_type e)) by by rewrite (proj1 Hev). cbn [go_bind].
    rewrite (proj1 Hev). by apply decode_close_bytes.
Qed.

(** C26: the two sides of the ring agree.  Every record the eBPF programs can ever
    have submitted, laid out as the packed C struct, is decoded by [ReadEvent] to
    exactly the event it stands for: all fields, and the payload cut to the captured
    length - the uninitialised tail of the buffer and the padding never show. *)
Theorem ring_roundtrip {K} `{KernelViewOk K} s ev :
  rtc (kstep (K := K)) bpf_init s -> ev ∈ events s ->
  ReadEvent (event_bytes ev) = Ok (event_view ev) /\ ptr_count (event_view ev) = 1%nat.
Proof.
  intros Hr Hev. split; [|by destruct ev].
  apply ReadEvent_event. pose proof (reachable_wf _ _ Hr bpf_init_wf) as [Hwf _ _ _ _ _ _].
  rewrite Forall_forall in Hwf. by apply Hwf.
Qed.

Lemma ring_roundtrip_witness :
  let s := fire (demo_env 1 demo_record) (KpSendmsg 7 9 (zlen demo_record)) bpf_init in
  exists ev, events s = [ev] /\
    ReadEvent (event_bytes ev) = Ok (Some (mkWireEvent DIR_OUT 7 demo_record), None, None).
Proof.
  cbn zeta. eexists. split; [reflexivity|].
  refine (proj1 (ring_roundtrip (K := unit)
    (fire (demo_env 1 demo_record) (KpSendmsg 7 9 (zlen demo_record)) bpf_init) _ _ _)).
  - eapply rtc_l; [|apply rtc_refl].
    apply kstep_fire; [apply demo_env_ok; [done|by repeat constructor]|cbn; by split_and!].
  - apply list_elem_of_singleton. reflexivity.
Defined.

(** C27: [ReadEvent] is total.  On any sequence of bytes at all - short, truncated,
    lying about its length - it returns without an index or slice panic, and at most
    one of the three results is non-nil. *)
Theorem ReadEvent_total b :
  Forall is_byte b -> exists r, ReadEvent b = Ok r /\ (ptr_count r <= 1)%nat.
Proof.
  intros Hb. unfold ReadEvent. destruct (Z.ltb_spec (zlen b) 1); [exists no_event; auto|].
  destruct (byte_at_ok b 0) as [t ->]; [lia|]. cbn [go_bind].
  repeat case_match; auto using decode_wire_total, decode_data_total, decode_close_total.
  exists no_event. auto.
Qed.

Lemma ReadEvent_total_witness :
  exists r, ReadEvent ([1; 2; 255; 255] ++ replicate 8 0) = Ok r /\ (ptr_count r <= 1)%nat.
Proof. apply (ReadEvent_total ([1; 2; 255; 255] ++ replicate 8 0)). repeat constructor; done. Defined.
