(* ===== verification/Smp.v ===== *)
(** bpf/tlstat.bpf.c again, one memory access at a time.

    Programs that fire on several processors at once interleave between any two
    accesses: a map helper, a load or a store of one field through a pointer, or a call
    that reserves or publishes a ring record.  Here a program is a tree of accesses
    ([prog]) with the rest of it as a function of what the access yields; [+=] is a load
    and a store, as in C.  A whole value copied by a helper ([bpf_map_update_elem],
    [bpf_get_current_comm], an address read by BPF_CORE_READ_INTO) is one access.

    A pointer that [bpf_map_lookup_elem] returned is a number that tells it from the
    others looked up under the same key; where it points is up to the memory.  In the
    memory [smp] of this file it designates an element that stays what it is when the key
    is removed or given a new element.  Pool has the memory the kernel has, in which the
    space of a removed element goes to other keys while pointers to it are still held.
    What the helpers return is the same [env] as in Bpf; [e_room] is whether an element
    can be allocated, the capacity included. *)
From S2P Require Import Prelude Abi Bpf.

(** ** Shared memory *)

(** The hash maps and the types of their values. *)
Inductive map_id : Set := Flows | Stats | Fds | Recvs | Ctxs.

#[export] Instance map_id_eq_dec : EqDecision map_id.
Proof. solve_decision. Defined.

Definition value (j : map_id) : Set :=
  match j with Flows => flow | Stats => ssl_stat | Fds => Z | Recvs => recv_ctx | Ctxs => ssl_ctx end.

Definition zero_value (j : map_id) : value j :=
  match j with
  | Flows => flow_zero | Stats => ssl_stat_zero | Fds => 0 | Recvs => mk_recv_ctx 0 0 | Ctxs => mk_ssl_ctx 0 0
  end.

(** A position in the ring buffer, from its reservation on. *)
Inductive slot : Type :=
| Busy
| Ready (ev : event)
| Discarded.

(** The five maps, each in the form [F] of its values, and the ring. *)
Record memory (F : Set -> Type) := Memory {
  m_flows : F flow;
  m_stats : F ssl_stat;
  m_fds : F Z;
  m_recv : F recv_ctx;
  m_ctxs : F ssl_ctx;
  m_ring : list slot }.
Arguments Memory {F}.
Arguments m_flows {F}.
Arguments m_stats {F}.
Arguments m_fds {F}.
Arguments m_recv {F}.
Arguments m_ctxs {F}.
Arguments m_ring {F}.

Definition get_map {F} (j : map_id) (m : memory F) : F (value j) :=
  match j with Flows => m_flows m | Stats => m_stats m | Fds => m_fds m | Recvs => m_recv m | Ctxs => m_ctxs m end.

Definition set_map {F} (j : map_id) (x : F (value j)) (m : memory F) : memory F :=
  match j return F (value j) -> memory F with
  | Flows => fun x => Memory x (m_stats m) (m_fds m) (m_recv m) (m_ctxs m) (m_ring m)
  | Stats => fun x => Memory (m_flows m) x (m_fds m) (m_recv m) (m_ctxs m) (m_ring m)
  | Fds => fun x => Memory (m_flows m) (m_stats m) x (m_recv m) (m_ctxs m) (m_ring m)
  | Recvs => fun x => Memory (m_flows m) (m_stats m) (m_fds m) x (m_ctxs m) (m_ring m)
  | Ctxs => fun x => Memory (m_flows m) (m_stats m) (m_fds m) (m_recv m) x (m_ring m)
  end x.

Definition set_ring {F} (x : list slot) (m : memory F) : memory F :=
  Memory (m_flows m) (m_stats m) (m_fds m) (m_recv m) (m_ctxs m) x.

Lemma get_set_map {F} j (x : F (value j)) m : get_map j (set_map j x m) = x.
Proof. by destruct j. Qed.
Lemma get_set_map_ne {F} j j' (x : F (value j)) m : j <> j' -> get_map j' (set_map j x m) = get_map j' m.
Proof. by destruct j, j'. Qed.
Lemma set_map_set {F} j (x y : F (value j)) m : set_map j x (set_map j y m) = set_map j x m.
Proof. by destruct j. Qed.
Lemma set_map_comm {F} j j' (x : F (value j)) (y : F (value j')) m :
  j <> j' -> set_map j x (set_map j' y m) = set_map j' y (set_map j x m).
Proof. by destruct j, j'. Qed.
Lemma set_map_get {F} j (m : memory F) : set_map j (get_map j m) m = m.
Proof. by destruct m, j. Qed.
Lemma ring_set_map {F} j (x : F (value j)) m : m_ring (set_map j x m) = m_ring m.
Proof. by destruct j. Qed.
Lemma get_set_ring {F} j x (m : memory F) : get_map j (set_ring x m) = get_map j m.
Proof. by destruct j. Qed.
Lemma set_ring_map {F} j (x : F (value j)) l m : set_ring l (set_map j x m) = set_map j x (set_ring l m).
Proof. by destruct j. Qed.

(** ** Accesses *)

(** What a program does to a map at one key: the helpers [bpf_map_lookup_elem],
    [bpf_map_update_elem] and [bpf_map_delete_elem], and a load and a store through a
    pointer that a lookup returned. *)
Inductive elem_op (j : map_id) : Set -> Type :=
| MapLookup : elem_op j (option nat)
| MapUpdate (room : bool) (flags : Z) (v : value j) : elem_op j unit
| MapDelete : elem_op j unit
| PtrLoad {A : Set} (p : nat) (get : value j -> A) : elem_op j A
| PtrStore (p : nat) (put : value j -> value j) : elem_op j unit.
Arguments MapLookup {j}.
Arguments MapUpdate {j} & room flags v.
Arguments MapDelete {j}.
Arguments PtrLoad {j A} & p get.
Arguments PtrStore {j} & p put.

(** The elements a key has had, and which one the map holds. *)
Record elem (V : Set) := Elem { cur : option nat; cells : list V }.
Arguments Elem {V}.
Arguments cur {V}.
Arguments cells {V}.

Definition no_elem {V : Set} : elem V := Elem None [].

(** Does an update make a new element? *)
Definition makes_elem (o : option nat) (room : bool) (flags : Z) : bool :=
  match o with Some _ => negb (flags =? BPF_NOEXIST) | None => room end.

(** An update replaces the element. *)
Definition do_elem {j : map_id} {A : Set} (o : elem_op j A) (x : elem (value j)) : elem (value j) * A :=
  match o in elem_op _ A return elem (value j) * A with
  | MapLookup => (x, cur x)
  | MapUpdate room flags v =>
      (if makes_elem (cur x) room flags then Elem (Some (length (cells x))) (cells x ++ [v]) else x, tt)
  | MapDelete => (Elem None (cells x), tt)
  | PtrLoad p get => (x, get (nth p (cells x) (zero_value j)))
  | PtrStore p put => (Elem (cur x) (alter put p (cells x)), tt)
  end.

Definition smp : Type := memory (fun V => gmap Z (elem V)).

Definition smp_init : smp := @Memory (fun V => gmap Z (elem V)) ∅ ∅ ∅ ∅ ∅ [].

Definition elem_at (m : smp) (j : map_id) (k : Z) : elem (value j) := default no_elem (get_map j m !! k).
Definition set_elem (j : map_id) (k : Z) (x : elem (value j)) (m : smp) : smp := set_map j (<[k := x]> (get_map j m)) m.

(** ** Programs *)

Inductive prog : Type :=
| Done
| On (j : map_id) (k : Z) {A : Set} (o : elem_op j A) (c : A -> prog)
| Reserve (c : nat -> prog)
| Publish (i : nat) (s : slot) (c : prog).

(** One access. *)
Definition step (r : prog) (m : smp) : prog * smp :=
  match r with
  | Done => (Done, m)
  | On j k o c => let '(x, a) := do_elem o (elem_at m j k) in (c a, set_elem j k x m)
  | Reserve c => (c (length (m_ring m)), set_ring (m_ring m ++ [Busy]) m)
  | Publish i s c => (c, set_ring (<[i := s]> (m_ring m)) m)
  end.

(** All of a program, nothing in between. *)
Fixpoint run (r : prog) (m : smp) : smp :=
  match r with
  | Done => m
  | On j k o c => let '(x, a) := do_elem o (elem_at m j k) in run (c a) (set_elem j k x m)
  | Reserve c => run (c (length (m_ring m))) (set_ring (m_ring m ++ [Busy]) m)
  | Publish i s c => run c (set_ring (<[i := s]> (m_ring m)) m)
  end.

(** The fields that are assigned. *)
Inductive flow_store : Type :=
| StTx (v : Z) | StRx (v : Z) | StPid (v : Z) | StComm (c : list Z)
| StSport (v : Z) | StDport (v : Z) | StIsIpv6 (v : Z)
| StSaddr (a : list Z) | StDaddr (a : list Z) | StSaddr0 (v : Z) | StDaddr0 (v : Z)
| StDirection (v : Z) | StIsTls | StClosed | StWire (dir v : Z).

Definition put_field (st : flow_store) (f : flow) : flow :=
  let tuple sa da sp dp v6 := flow_set_tuple sa da sp dp v6 f in
  match st with
  | StTx v =>
      mk_flow v (f_rx f) (f_pid f) (f_saddr f) (f_daddr f) (f_sport f) (f_dport f) (f_is_ipv6 f)
        (f_direction f) (f_is_tls f) (f_closed f) (f_wire_out f) (f_wire_in f) (f_comm f)
  | StRx v =>
      mk_flow (f_tx f) v (f_pid f) (f_saddr f) (f_daddr f) (f_sport f) (f_dport f) (f_is_ipv6 f)
        (f_direction f) (f_is_tls f) (f_closed f) (f_wire_out f) (f_wire_in f) (f_comm f)
  | StPid v => flow_set_ident v (f_comm f) f
  | StComm c => flow_set_ident (f_pid f) c f
  | StSport v => tuple (f_saddr f) (f_daddr f) v (f_dport f) (f_is_ipv6 f)
  | StDport v => tuple (f_saddr f) (f_daddr f) (f_sport f) v (f_is_ipv6 f)
  | StIsIpv6 v => tuple (f_saddr f) (f_daddr f) (f_sport f) (f_dport f) v
  | StSaddr a => tuple a (f_daddr f) (f_sport f) (f_dport f) (f_is_ipv6 f)
  | StDaddr a => tuple (f_saddr f) a (f_sport f) (f_dport f) (f_is_ipv6 f)
  | StSaddr0 v => tuple (<[0%nat := v]> (f_saddr f)) (f_daddr f) (f_sport f) (f_dport f) (f_is_ipv6 f)
  | StDaddr0 v => tuple (f_saddr f) (<[0%nat := v]> (f_daddr f)) (f_sport f) (f_dport f) (f_is_ipv6 f)
  | StDirection v => flow_set_direction v f
  | StIsTls => flow_set_tls f
  | StClosed => flow_set_closed f
  | StWire dir v =>
      if dir =? DIR_OUT then
        mk_flow (f_tx f) (f_rx f) (f_pid f) (f_saddr f) (f_daddr f) (f_sport f) (f_dport f) (f_is_ipv6 f)
          (f_direction f) (f_is_tls f) (f_closed f) v (f_wire_in f) (f_comm f)
      else
        mk_flow (f_tx f) (f_rx f) (f_pid f) (f_saddr f) (f_daddr f) (f_sport f) (f_dport f) (f_is_ipv6 f)
          (f_direction f) (f_is_tls f) (f_closed f) (f_wire_out f) v (f_comm f)
  end.

Definition put_total (dir v : Z) (st : ssl_stat) : ssl_stat :=
  if dir =? DIR_OUT then mk_ssl_stat v (s_prx st) (s_pid st) (s_fd st)
  else mk_ssl_stat (s_ptx st) v (s_pid st) (s_fd st).
Definition get_total (dir : Z) (st : ssl_stat) : Z := if dir =? DIR_OUT then s_ptx st else s_prx st.

Notation "'let!' x := m 'in' k" := (m (fun x => k))
  (at level 200, x name, m at level 69, k at level 200).
Notation "m ';!' k" := (m (fun _ : unit => k)) (at level 199, k at level 200, right associativity).

(** [f->field] and [f->field = ...]. *)
Definition load (sk : Z) (p : nat) (get : flow -> Z) (c : Z -> prog) : prog := On Flows sk (PtrLoad p get) c.
Definition store (sk : Z) (p : nat) (st : flow_store) (c : unit -> prog) : prog :=
  On Flows sk (PtrStore p (put_field st)) c.

Section Programs.
Context {K : Type} `{KernelView K} (e : env K).

Definition c_read_tuple (sk : Z) (p : nat) (c : unit -> prog) : prog :=
  let k := e_kmem e in
  let family := skc_family k sk in
  store sk p (StSport (skc_num k sk)) ;!
  store sk p (StDport (ntohs (skc_dport k sk))) ;!
  if family =? AF_INET6 then
    store sk p (StIsIpv6 1) ;!
    store sk p (StSaddr (skc_v6_rcv_saddr k sk)) ;!
    store sk p (StDaddr (skc_v6_daddr k sk)) c
  else
    store sk p (StIsIpv6 0) ;!
    store sk p (StSaddr0 (skc_rcv_saddr k sk)) ;!
    store sk p (StDaddr0 (skc_daddr k sk)) c.

(** The part of flow_get after the element is there. *)
Definition c_identify (sk : Z) (p : nat) (c : option nat -> prog) : prog :=
  let! pid := load sk p f_pid in
  if pid =? 0 then
    store sk p (StPid (tgid_of (e_pid_tgid e))) ;!
    store sk p (StComm (e_comm e)) ;!
    c_read_tuple sk p ;!
    c (Some p)
  else c (Some p).

Definition c_flow_get (sk : Z) (c : option nat -> prog) : prog :=
  let! f := On Flows sk MapLookup in
  match f with
  | Some p => c_identify sk p c
  | None =>
      On Flows sk (MapUpdate (e_room e) BPF_ANY flow_zero) ;!
      let! f := On Flows sk MapLookup in
      match f with
      | Some p => c_identify sk p c
      | None => c None
      end
  end.

(** From the reservation to the submission. *)
Definition c_emit_wire (sk : Z) (p : nat) (buf n dir : Z) : prog :=
  match e_ring e 1036 with
  | None => Done
  | Some mem =>
      let! i := Reserve in
      let cap := clamp_cap WIRE_CAP n in
      match e_user e buf cap with
      | None => Publish i Discarded Done
      | Some bs =>
          let data := bs ++ zdrop (12 + cap) mem in
          let! cnt := load sk p (wire_cnt dir) in
          store sk p (StWire dir (wrap 8 (cnt + 1))) ;!
          Publish i (Ready (EvWire (mk_wire_event EVENT_WIRE dir cap sk data))) Done
      end
  end.

Definition c_capture_wire (sk : Z) (p : nat) (buf n dir : Z) : prog :=
  if (buf =? 0) || (n <? 1) then Done
  else
    let! cnt := load sk p (wire_cnt dir) in
    if MAX_WIRE_EVENTS <=? cnt then Done
    else
      let! cnt := load sk p (wire_cnt dir) in
      if cnt =? 0 then
        if n <? 5 then Done
        else
          match e_user e buf 5 with
          | None => Done
          | Some hdr =>
              if negb (looks_like_tls hdr) then Done
              else
                store sk p StIsTls ;!
                c_emit_wire sk p buf n dir
          end
      else c_emit_wire sk p buf n dir.

Definition c_tcp_sendmsg (sk msg size : Z) : prog :=
  let! f := c_flow_get sk in
  match f with
  | None => Done
  | Some p =>
      let! tx := load sk p f_tx in
      store sk p (StTx (wrap 64 (tx + size))) ;!
      let base := iter_base (e_kmem e) (msg_iter msg) in
      c_capture_wire sk p base size DIR_OUT
  end.

Definition c_tcp_recvmsg (sk msg : Z) : prog :=
  let rc := mk_recv_ctx sk (iter_base (e_kmem e) (msg_iter msg)) in
  On Recvs (e_pid_tgid e) (MapUpdate (e_room e) BPF_ANY rc) ;! Done.

Definition c_ret_tcp_recvmsg (ret : Z) : prog :=
  let id := e_pid_tgid e in
  let! rc := On Recvs id MapLookup in
  match rc with
  | None => Done
  | Some q =>
      let! sk := On Recvs id (PtrLoad q rc_sk) in
      let! base := On Recvs id (PtrLoad q rc_base) in
      On Recvs id MapDelete ;!
      if (ret <=? 0) || (sk =? 0) then Done
      else
        let! f := c_flow_get sk in
        match f with
        | None => Done
        | Some p =>
            let! rx := load sk p f_rx in
            store sk p (StRx (wrap 64 (rx + ret))) ;!
            c_capture_wire sk p base ret DIR_IN
        end
  end.

Definition c_inet_sock_set_state (protocol skaddr oldstate newstate : Z) : prog :=
  if negb (protocol =? IPPROTO_TCP) then Done
  else if newstate =? TCP_ESTABLISHED then
    let d := if oldstate =? TCP_SYN_RECV then DIR_IN else DIR_OUT in
    let! f := On Flows skaddr MapLookup in
    match f with
    | Some p => store skaddr p (StDirection d) ;! Done
    | None =>
        On Flows skaddr (MapUpdate (e_room e) BPF_NOEXIST flow_zero) ;!
        let! f := On Flows skaddr MapLookup in
        match f with
        | None => Done
        | Some p => store skaddr p (StDirection d) ;! Done
        end
    end
  else if (newstate =? TCP_CLOSE) || (newstate =? TCP_CLOSE_WAIT) then
    let! f := On Flows skaddr MapLookup in
    match f with
    | None => Done
    | Some p => store skaddr p StClosed ;! Done
    end
  else Done.

(** The part of ssl_stat_get after the descriptor is known. *)
Definition c_make_stat (ssl fd : Z) (c : option nat -> prog) : prog :=
  On Stats ssl (MapUpdate (e_room e) BPF_ANY (mk_ssl_stat 0 0 (tgid_of (e_pid_tgid e)) fd)) ;!
  On Stats ssl MapLookup c.

Definition c_ssl_stat_get (ssl : Z) (c : option nat -> prog) : prog :=
  let! s := On Stats ssl MapLookup in
  match s with
  | Some p => c (Some p)
  | None =>
      let! fd := On Fds ssl MapLookup in
      match fd with
      | Some q => let! v := On Fds ssl (PtrLoad q id) in c_make_stat ssl v c
      | None => c_make_stat ssl (-1) c
      end
  end.

Definition c_emit_plaintext (ssl buf n dir : Z) : prog :=
  if (buf =? 0) || (n =? 0) then Done
  else
    let! s := c_ssl_stat_get ssl in
    match s with
    | None => Done
    | Some p =>
        let! total := On Stats ssl (PtrLoad p (get_total dir)) in
        On Stats ssl (PtrStore p (put_total dir (wrap 64 (total + n)))) ;!
        match e_ring e 1048 with
        | None => Done
        | Some mem =>
            let! i := Reserve in
            let id := e_pid_tgid e in
            let! fd := On Stats ssl (PtrLoad p s_fd) in
            let cap := clamp_cap DATA_CAP n in
            match e_user e buf cap with
            | None => Publish i Discarded Done
            | Some bs =>
                let data := bs ++ zdrop (24 + cap) mem in
                Publish i (Ready (EvData (mk_data_event EVENT_DATA dir cap (tgid_of id) (wrap 32 id) fd ssl data))) Done
            end
        end
    end.

Definition c_ssl_free (ssl : Z) : prog :=
  let! s := On Stats ssl MapLookup in
  match s with
  | None => On Fds ssl MapDelete ;! Done
  | Some p =>
      match e_ring e 36 with
      | None =>
          On Stats ssl MapDelete ;!
          On Fds ssl MapDelete ;! Done
      | Some mem =>
          let! i := Reserve in
          let! fd := On Stats ssl (PtrLoad p s_fd) in
          let! ptx := On Stats ssl (PtrLoad p s_ptx) in
          let! prx := On Stats ssl (PtrLoad p s_prx) in
          Publish i (Ready (EvClose (mk_close_event EVENT_CLOSE (ztake 3 (zdrop 1 mem)) (tgid_of (e_pid_tgid e))
                                       fd ssl ptx prx)))
            (On Stats ssl MapDelete ;!
             On Fds ssl MapDelete ;! Done)
      end
  end.

Definition c_ssl_set_fd (ssl fd : Z) : prog := On Fds ssl (MapUpdate (e_room e) BPF_ANY fd) ;! Done.

Definition c_ssl_write (ssl buf num : Z) : prog := if 0 <? num then c_emit_plaintext ssl buf num DIR_OUT else Done.

Definition c_ssl_read (ssl buf : Z) : prog :=
  On Ctxs (e_pid_tgid e) (MapUpdate (e_room e) BPF_ANY (mk_ssl_ctx ssl buf)) ;! Done.

Definition c_ret_ssl_read (ret : Z) : prog :=
  let id := e_pid_tgid e in
  let! c := On Ctxs id MapLookup in
  match c with
  | None => Done
  | Some q =>
      let! ssl := On Ctxs id (PtrLoad q sc_ssl) in
      let! buf := On Ctxs id (PtrLoad q sc_buf) in
      On Ctxs id MapDelete ;!
      if 0 <? ret then c_emit_plaintext ssl buf ret DIR_IN else Done
  end.

Definition program (p : probe) : prog :=
  match p with
  | KpSendmsg sk msg size => c_tcp_sendmsg sk msg size
  | KpRecvmsg sk msg => c_tcp_recvmsg sk msg
  | KrRecvmsg ret => c_ret_tcp_recvmsg ret
  | TpSetState p sk o n => c_inet_sock_set_state p sk o n
  | UpSslFree ssl => c_ssl_free ssl
  | UpSslSetFd ssl fd => c_ssl_set_fd ssl fd
  | UpSslWrite ssl buf num => c_ssl_write ssl buf num
  | UpSslRead ssl buf => c_ssl_read ssl buf
  | UrSslRead ret => c_ret_ssl_read ret
  end.
End Programs.

(** What happens on a processor: a program fires, or user space deletes a flow. *)
Inductive work (K : Type) : Type :=
| Firing (e : env K) (p : probe)
| Deletion (sk : Z).
Arguments Firing {K}.
Arguments Deletion {K}.

Definition work_prog {K} `{KernelView K} (w : work K) : prog :=
  match w with
  | Firing e p => program e p
  | Deletion sk => On Flows sk MapDelete ;! Done
  end.

Definition work_atomic {K} `{KernelView K} (w : work K) (s : bpf) : bpf :=
  match w with
  | Firing e p => fire e p s
  | Deletion sk => set_flows (delete sk (flows s)) s
  end.
