(* ===== verification/SmpRefine.v ===== *)
(** A program run without interruption does what the atomic model says: the two models
    of bpf/tlstat.bpf.c agree. *)
From S2P Require Import Prelude Abi Bpf Smp.

(** ** The maps a shared memory stands for *)

Definition the_map (j : map_id) (s : bpf) : gmap Z (value j) :=
  match j with
  | Flows => flows s | Stats => ssl_stats s | Fds => ssl_fds s | Recvs => recv_ctxs s | Ctxs => ssl_ctxs s
  end.

Definition with_map (j : map_id) (x : gmap Z (value j)) (s : bpf) : bpf :=
  match j return gmap Z (value j) -> bpf with
  | Flows => fun x => set_flows x s
  | Stats => fun x => set_ssl_stats x s
  | Fds => fun x => set_ssl_fds x s
  | Recvs => fun x => set_recv_ctxs x s
  | Ctxs => fun x => set_ssl_ctxs x s
  end x.

Definition map_max (j : map_id) : Z :=
  match j with
  | Flows => flows_max | Stats => ssl_stats_max | Fds => ssl_fds_max | Recvs => recv_ctxs_max | Ctxs => ssl_ctxs_max
  end.

Lemma the_with_map j x s : the_map j (with_map j x s) = x.
Proof. by destruct j. Qed.
Lemma the_with_map_ne j j' x s : j <> j' -> the_map j' (with_map j x s) = the_map j' s.
Proof. by destruct j, j'. Qed.
Lemma with_the_map j s : with_map j (the_map j s) s = s.
Proof. by destruct s, j. Qed.
Lemma with_with_map j x y s : with_map j x (with_map j y s) = with_map j x s.
Proof. by destruct j. Qed.
Lemma events_with_map j x s : events (with_map j x s) = events s.
Proof. by destruct j. Qed.

Lemma the_map_events j l s : the_map j (set_events l s) = the_map j s.
Proof. by destruct j. Qed.

Definition deref {V : Set} (x : elem V) : option V := p ← cur x; cells x !! p.

Definition slot_event (s : slot) : option event := match s with Ready ev => Some ev | _ => None end.
Definition ready (ring : list slot) : list event := omap slot_event ring.

(** A map points at elements that exist. *)
Definition elem_ok {V : Set} (x : elem V) : Prop := forall p, cur x = Some p -> (p < length (cells x))%nat.

Record reps (m : smp) (s : bpf) : Prop := {
  rp_maps j k : the_map j s !! k = deref (elem_at m j k);
  rp_events : events s = ready (m_ring m);
  rp_ok j k : elem_ok (elem_at m j k) }.

(** No map is full when an element can be allocated. *)
Definition not_full (s : bpf) : Prop := forall j, Z.of_nat (size (the_map j s)) < map_max j.

Lemma reps_init : reps smp_init bpf_init.
Proof. split; [by intros []|done|by intros []]. Qed.

(** ** Elements *)

Lemma elem_at_set j k x m : elem_at (set_elem j k x m) j k = x.
Proof. unfold elem_at, set_elem. by rewrite get_set_map, lookup_insert_eq. Qed.

Lemma elem_at_set_ne j k x m j' k' : (j, k) <> (j', k') -> elem_at (set_elem j k x m) j' k' = elem_at m j' k'.
Proof.
  intros Hn. unfold elem_at, set_elem. destruct (decide (j = j')) as [<-|].
  - rewrite get_set_map, lookup_insert_ne by congruence. done.
  - by rewrite get_set_map_ne.
Qed.

(** Putting an element where it is. *)
Lemma set_elem_id j k m : elem_at m j k <> no_elem -> set_elem j k (elem_at m j k) m = m.
Proof.
  unfold elem_at, set_elem. intros Hx. rewrite insert_id, set_map_get; [done|]. by destruct (get_map j m !! k).
Qed.

(** The map holds the element [p], with this value. *)
Definition at_elem {V : Set} (x : elem V) (p : nat) (v : V) : Prop := cur x = Some p /\ cells x !! p = Some v.

Section Elements.
Context {V : Set}.
Implicit Types (x : elem V) (v : V).

Lemma deref_at x v : deref x = Some v -> exists p, at_elem x p v.
Proof. unfold deref. destruct (cur x) as [p|] eqn:E; [|done]. intros Hv. by exists p. Qed.

Lemma at_deref x p v : at_elem x p v -> deref x = Some v.
Proof. intros [E Hv]. unfold deref. by rewrite E. Qed.

Lemma deref_none x : elem_ok x -> deref x = None -> cur x = None.
Proof.
  unfold deref. intros Ho E. destruct (cur x) as [p|] eqn:Ep; [|done].
  apply lookup_ge_None in E. specialize (Ho p Ep). lia.
Qed.

(** The element an allocation yields. *)
Lemma at_new (l : list V) v : at_elem (Elem (Some (length l)) (l ++ [v])) (length l) v.
Proof. split; [done|]. cbn. by apply list_lookup_middle. Qed.

Lemma at_ok x p v : at_elem x p v -> elem_ok x.
Proof. intros [E Hv] q Eq. rewrite E in Eq. injection Eq as <-. by apply lookup_lt_Some in Hv. Qed.

Lemma at_store x p v put : at_elem x p v -> at_elem (Elem (cur x) (alter put p (cells x))) p (put v).
Proof. intros [E Hv]. split; [done|]. cbn. by rewrite list_lookup_alter_eq, Hv. Qed.

Lemma at_nonempty x p v : at_elem x p v -> x <> no_elem.
Proof. intros [E _] ->. done. Qed.
End Elements.

(** An update of the element, and of the map it is in. *)
Lemma update_ok {j} (x : elem (value j)) room fl v :
  elem_ok x -> let x' := (do_elem (MapUpdate room fl v) x).1 in
  elem_ok x' /\ deref x' = if makes_elem (cur x) room fl then Some v else deref x.
Proof.
  intros Hx. cbn. destruct (makes_elem _ _ _); [|done]. split; [eapply at_ok, at_new|eapply at_deref, at_new].
Qed.

(** ** Representation, one change at a time *)

Lemma reps_set m s j k x v :
  reps m s -> elem_ok x -> deref x = v ->
  reps (set_elem j k x m) (with_map j (partial_alter (fun _ => v) k (the_map j s)) s).
Proof.
  intros [R1 R2 R3] Hx Hv. split.
  - intros j' k'. destruct (decide ((j, k) = (j', k'))) as [E|Hn].
    + simplify_eq. by rewrite elem_at_set, the_with_map, lookup_partial_alter_eq.
    + rewrite elem_at_set_ne by done. destruct (decide (j = j')) as [<-|Hj].
      * rewrite the_with_map, lookup_partial_alter_ne by congruence. apply R1.
      * rewrite the_with_map_ne by done. apply R1.
  - rewrite events_with_map. unfold set_elem. by rewrite ring_set_map.
  - intros j' k'. destruct (decide ((j, k) = (j', k'))) as [E|Hn]; [simplify_eq; by rewrite elem_at_set|].
    by rewrite elem_at_set_ne.
Qed.

(** An element that stands for the same value. *)
Lemma reps_same m s j k x : reps m s -> elem_ok x -> deref x = the_map j s !! k -> reps (set_elem j k x m) s.
Proof.
  intros Hr Hx Hv. pose proof (reps_set m s j k x _ Hr Hx Hv) as H.
  replace (partial_alter _ k (the_map j s)) with (the_map j s) in H; [by rewrite with_the_map in H|].
  apply map_eq. intros k'. destruct (decide (k = k')) as [<-|]; [by rewrite lookup_partial_alter_eq|by rewrite lookup_partial_alter_ne].
Qed.

Lemma reps_delete m s j k : reps m s -> reps (set_elem j k (do_elem MapDelete (elem_at m j k)).1 m) (with_map j (delete k (the_map j s)) s).
Proof. intros Hr. by apply (reps_set m s j k _ None). Qed.

Lemma reps_update m s j k room fl v :
  reps m s -> (room = true -> Z.of_nat (size (the_map j s)) < map_max j) ->
  reps (set_elem j k (do_elem (MapUpdate room fl v) (elem_at m j k)).1 m)
    (with_map j (map_update_elem (map_max j) room fl k v (the_map j s)) s).
Proof.
  intros Hr Hroom. destruct (update_ok (elem_at m j k) room fl v (rp_ok _ _ Hr j k)) as [Ho Hd]. cbv zeta in *.
  rewrite <- (rp_maps _ _ Hr) in Hd. unfold map_update_elem. destruct (the_map j s !! k) as [w|] eqn:E.
  - assert (exists p, cur (elem_at m j k) = Some p) as [p Ep].
    { rewrite (rp_maps _ _ Hr) in E. unfold deref in E. destruct (cur (elem_at m j k)) as [p|]; [by exists p|done]. }
    rewrite Ep in Hd. cbn in Hd. destruct (fl =? BPF_NOEXIST); cbn in Hd.
    + rewrite with_the_map. apply reps_same; [done|done|]. by etrans; [exact Hd|].
    + by apply (reps_set m s j k _ (Some v)).
  - rewrite (deref_none _ (rp_ok _ _ Hr j k)) in Hd by (by rewrite <- (rp_maps _ _ Hr)). cbn in Hd.
    destruct room; cbn [andb].
    + rewrite (proj2 (Z.ltb_lt _ _)) by auto. by apply (reps_set m s j k _ (Some v)).
    + rewrite with_the_map. apply reps_same; [done|done|]. by etrans; [exact Hd|].
Qed.

(** ** Runs *)

Section Runs.
Context {K : Type} `{KernelView K} (e : env K).
Implicit Types (m : smp) (s : bpf).

Definition at_ptr m j k p v : Prop := at_elem (elem_at m j k) p v.

Lemma run_load m j k p v {A : Set} (get : value j -> A) c :
  at_ptr m j k p v -> run (On j k (PtrLoad p get) c) m = run (c (get v)) m.
Proof.
  intros Ha. cbn. rewrite set_elem_id by by eapply at_nonempty. by rewrite (nth_lookup_Some _ _ _ _ (proj2 Ha)).
Qed.

Definition put_at j k (v : value j) s : bpf := with_map j (<[k := v]> (the_map j s)) s.

Lemma put_put_at j k v w s : put_at j k v (put_at j k w s) = put_at j k v s.
Proof. unfold put_at. by rewrite the_with_map, with_with_map, insert_insert_eq. Qed.

Lemma run_store m s j k p v put c :
  reps m s -> at_ptr m j k p v ->
  exists m', run (On j k (PtrStore p put) c) m = run (c tt) m' /\ reps m' (put_at j k (put v) s)
    /\ at_ptr m' j k p (put v) /\ m_ring m' = m_ring m.
Proof.
  intros Hr Ha. apply (at_store _ _ _ put) in Ha. eexists. split; [reflexivity|]. split; [|split].
  - by apply (reps_set _ _ _ _ _ (Some (put v))); [|eapply at_ok|eapply at_deref].
  - unfold at_ptr. by rewrite elem_at_set.
  - unfold set_elem. by rewrite ring_set_map.
Qed.

(** Looking up what is there, and what is not. *)
Lemma run_lookup m s j k c (o : option (value j)) :
  reps m s -> the_map j s !! k = o ->
  match o with
  | Some v => exists p, run (On j k MapLookup c) m = run (c (Some p)) m /\ at_ptr m j k p v
  | None => exists m', run (On j k MapLookup c) m = run (c None) m' /\ reps m' s /\ m_ring m' = m_ring m
  end.
Proof.
  intros Hr E. pose proof (rp_maps _ _ Hr j k) as Hd. rewrite E in Hd. destruct o as [v|].
  - symmetry in Hd. apply deref_at in Hd as [p Ha]. exists p. split; [|done]. cbn.
    rewrite set_elem_id by by eapply at_nonempty. by rewrite (proj1 Ha).
  - exists (set_elem j k (elem_at m j k) m). split; [|split].
    + cbn. by rewrite (deref_none _ (rp_ok _ _ Hr j k)).
    + apply reps_same; [done|apply (rp_ok _ _ Hr)|]. by rewrite E, Hd.
    + unfold set_elem. by rewrite ring_set_map.
Qed.

Lemma run_update m s j k fl v c :
  reps m s -> (e_room e = true -> not_full s) ->
  exists m', run (On j k (MapUpdate (e_room e) fl v) c) m = run (c tt) m'
    /\ reps m' (with_map j (map_update_elem (map_max j) (e_room e) fl k v (the_map j s)) s) /\ m_ring m' = m_ring m.
Proof.
  intros Hr Hroom. eexists. split; [reflexivity|]. split.
  - apply (reps_update m s j k); [done|]. intros E. by apply Hroom.
  - unfold set_elem. by rewrite ring_set_map.
Qed.

Lemma run_delete m s j k c :
  reps m s ->
  exists m', run (On j k MapDelete c) m = run (c tt) m' /\ reps m' (with_map j (delete k (the_map j s)) s)
    /\ m_ring m' = m_ring m.
Proof.
  intros Hr. eexists. split; [reflexivity|]. split; [by apply (reps_delete m s j k)|].
  unfold set_elem. by rewrite ring_set_map.
Qed.

(** The next access of a run, and the ring it leaves alone. *)
Ltac exec_store :=
  cbv beta; match goal with
  | Hr : reps ?m ?s, Ha : at_ptr ?m ?j ?k ?p ?f |- context [run (On ?j ?k (PtrStore ?p ?put) ?c) ?m] =>
      let m' := fresh "m" in let Hr' := fresh "Hr" in let Ha' := fresh "Ha" in let Eg := fresh "Eg" in
      destruct (run_store m s j k p f put c Hr Ha) as (m' & -> & Hr' & Ha' & Eg); clear Hr Ha
  end.

Ltac exec_lookup o :=
  cbv beta; match goal with
  | Hr : reps ?m ?s |- context [run (On ?j ?k MapLookup ?c) ?m] => pose proof (run_lookup m s j k c o Hr eq_refl) as Hl
  end.

Ltac exec_update :=
  cbv beta; match goal with
  | Hr : reps ?m ?s, Hroom : e_room e = true -> not_full ?s |- context [run (On ?j ?k (MapUpdate _ ?fl ?v) ?c) ?m] =>
      let m' := fresh "m" in let Hr' := fresh "Hr" in let Eg := fresh "Eg" in
      destruct (run_update m s j k fl v c Hr Hroom) as (m' & -> & Hr' & Eg); clear Hr
  end.

Ltac exec_delete :=
  cbv beta; match goal with
  | Hr : reps ?m ?s |- context [run (On ?j ?k MapDelete ?c) ?m] =>
      let m' := fresh "m" in let Hr' := fresh "Hr" in let Eg := fresh "Eg" in
      destruct (run_delete m s j k c Hr) as (m' & -> & Hr' & Eg); clear Hr
  end.

Lemma run_identify m s sk p f c :
  reps m s -> at_ptr m Flows sk p f ->
  let f' := if f_pid f =? 0 then
      read_tuple (e_kmem e) sk (flow_set_ident (tgid_of (e_pid_tgid e)) (e_comm e) f) else f in
  exists m', run (c_identify e sk p c) m = run (c (Some p)) m'
    /\ reps m' (if f_pid f =? 0 then put_flow sk f' s else s) /\ at_ptr m' Flows sk p f' /\ m_ring m' = m_ring m.
Proof.
  intros Hr Ha. cbv zeta. unfold c_identify, load. rewrite (run_load _ _ _ _ _ _ _ Ha).
  destruct (f_pid f =? 0); [|by exists m]. unfold c_read_tuple, store. do 4 exec_store.
  unfold read_tuple. destruct (_ =? AF_INET6); do 3 exec_store; rewrite !put_put_at in *;
    eexists; (split; [reflexivity|]); (split; [eassumption|]); (split; [eassumption|]); congruence.
Qed.

Lemma run_flow_get m s sk c :
  reps m s -> (e_room e = true -> not_full s) ->
  let '(s', o) := flow_get e sk s in
  match o with
  | Some f => exists p m', run (c_flow_get e sk c) m = run (c (Some p)) m' /\ reps m' s' /\ at_ptr m' Flows sk p f
  | None => exists m', run (c_flow_get e sk c) m = run (c None) m' /\ reps m' s'
  end.
Proof.
  intros Hr Hroom. unfold flow_get, c_flow_get. exec_lookup (flows s !! sk).
  destruct (flows s !! sk) as [f|] eqn:Ef.
  - destruct Hl as (p & -> & Ha). rewrite Ef.
    destruct (run_identify m s sk p f c Hr Ha) as (m' & -> & Hr' & Ha' & _).
    destruct (f_pid f =? 0); exists p, m'; by split_and!.
  - destruct Hl as (m1 & -> & Hr1 & _). clear Hr. exec_update. clear Hroom.
    cbn [the_map with_map map_max] in *. set (s1 := set_flows _ s) in *. exec_lookup (flows s1 !! sk).
    destruct (flows s1 !! sk) as [f|] eqn:Ef1.
    + destruct Hl as (p & -> & Ha). destruct (run_identify m0 s1 sk p f c Hr Ha) as (m2 & -> & Hr2 & Ha2 & _).
      destruct (f_pid f =? 0); exists p, m2; by split_and!.
    + destruct Hl as (m2 & -> & Hr2 & _). by exists m2.
Qed.

(** ** The ring *)

Lemma elem_at_ring m j k ring : elem_at (set_ring ring m) j k = elem_at m j k.
Proof. unfold elem_at. by rewrite get_set_ring. Qed.

Lemma reps_ring m s ring : reps m s -> ready ring = events s -> reps (set_ring ring m) s.
Proof. intros [R1 R2 R3] E. split; [|done|]; intros j k; rewrite elem_at_ring; auto. Qed.

Lemma ready_app a b : ready (a ++ b) = ready a ++ ready b.
Proof. apply omap_app. Qed.

(** Filling the slot reserved last. *)
Lemma fill_last ring x : <[length ring := x]> (ring ++ [Busy]) = ring ++ [x].
Proof. by rewrite insert_app_r_alt, Nat.sub_diag by done. Qed.

Lemma reps_publish m s ring ev :
  reps m s -> m_ring m = ring ++ [Busy] ->
  reps (set_ring (<[length ring := Ready ev]> (m_ring m)) m) (set_events (events s ++ [ev]) s).
Proof.
  intros Hr E. rewrite E, fill_last. pose proof (rp_events _ _ Hr) as He. rewrite E, ready_app, app_nil_r in He.
  destruct Hr as [R1 R2 R3]. split; cbn.
  - intros j k. rewrite elem_at_ring, the_map_events. apply R1.
  - by rewrite ready_app, He.
  - intros j k. by rewrite elem_at_ring.
Qed.

Lemma reps_discard m s ring :
  reps m s -> m_ring m = ring ++ [Busy] -> reps (set_ring (<[length ring := Discarded]> (m_ring m)) m) s.
Proof.
  intros Hr E. apply reps_ring; [done|]. rewrite (rp_events _ _ Hr), E, fill_last, !ready_app. done.
Qed.

Lemma run_reserve m s c :
  reps m s -> exists m', run (Reserve c) m = run (c (length (m_ring m))) m' /\ reps m' s
    /\ m_ring m' = m_ring m ++ [Busy] /\ (forall j k p v, at_ptr m j k p v -> at_ptr m' j k p v).
Proof.
  intros Hr. eexists. split; [reflexivity|]. split; [|split; [done|]].
  - apply reps_ring; [done|]. by rewrite (rp_events _ _ Hr), ready_app, app_nil_r.
  - intros j k p v Ha. unfold at_ptr. by rewrite elem_at_ring.
Qed.

Ltac exec_reserve :=
  cbv beta; match goal with
  | Hr : reps ?m ?s |- context [run (Reserve ?c) ?m] =>
      let m' := fresh "m" in let Hr' := fresh "Hr" in let Eg := fresh "Eg" in let Hat := fresh "Hat" in
      destruct (run_reserve m s c Hr) as (m' & -> & Hr' & Eg & Hat); clear Hr;
      repeat match goal with Ha : at_ptr m _ _ _ _ |- _ => apply Hat in Ha end; clear Hat
  end.

Lemma put_wire dir f : put_field (StWire dir (wrap 8 (wire_cnt dir f + 1))) f = wire_cnt_incr dir f.
Proof. unfold put_field, wire_cnt_incr, wire_cnt. by destruct (dir =? DIR_OUT). Qed.

Lemma run_emit_wire m s sk p f buf n dir :
  reps m s -> at_ptr m Flows sk p f -> reps (run (c_emit_wire e sk p buf n dir) m) (emit_wire e sk f buf n dir s).
Proof.
  intros Hr Ha. unfold c_emit_wire, emit_wire, load, store. destruct (e_ring e 1036) as [mem|]; [|done].
  exec_reserve. cbv zeta. destruct (e_user e buf _) as [bs|]; cycle 1.
  { cbn [run]. by apply reps_discard. }
  rewrite (run_load _ _ _ _ _ _ _ Ha). exec_store. rewrite put_wire in *.
  cbn [run]. apply (reps_publish _ (put_flow sk _ s)); [done|congruence].
Qed.

Lemma run_capture_wire m s sk p f buf n dir :
  reps m s -> at_ptr m Flows sk p f -> reps (run (c_capture_wire e sk p buf n dir) m) (capture_wire e sk f buf n dir s).
Proof.
  intros Hr Ha. unfold c_capture_wire, capture_wire, load. destruct ((buf =? 0) || (n <? 1)); [done|].
  rewrite (run_load _ _ _ _ _ _ _ Ha). destruct (MAX_WIRE_EVENTS <=? _); [done|].
  rewrite (run_load _ _ _ _ _ _ _ Ha). destruct (_ =? 0); [|by apply run_emit_wire].
  destruct (n <? 5); [done|]. destruct (e_user e buf 5) as [hdr|]; [|done].
  destruct (negb _); [done|]. unfold store. exec_store. by apply (run_emit_wire _ (put_flow sk _ s)).
Qed.

(** ** Sockets *)

Lemma run_sendmsg m s sk msg size :
  reps m s -> (e_room e = true -> not_full s) ->
  reps (run (c_tcp_sendmsg e sk msg size) m) (k_tcp_sendmsg e sk msg size s).
Proof.
  intros Hr Hroom. unfold c_tcp_sendmsg, k_tcp_sendmsg.
  match goal with |- context [c_flow_get e sk ?c] => pose proof (run_flow_get m s sk c Hr Hroom) as Hg end.
  destruct (flow_get e sk s) as [s1 [f|]].
  - destruct Hg as (p & m1 & -> & Hr1 & Ha). unfold load, store. rewrite (run_load _ _ _ _ _ _ _ Ha). clear Hr. exec_store.
    by apply (run_capture_wire _ (put_flow sk _ s1)).
  - by destruct Hg as (m1 & -> & Hr1).
Qed.

Lemma run_set_state m s protocol sk old new :
  reps m s -> (e_room e = true -> not_full s) ->
  reps (run (c_inet_sock_set_state e protocol sk old new) m) (tp_inet_sock_set_state e protocol sk old new s).
Proof.
  intros Hr Hroom. unfold c_inet_sock_set_state, tp_inet_sock_set_state, store.
  destruct (negb _); [done|]. destruct (new =? TCP_ESTABLISHED); [|destruct (_ || _); [|done]].
  - exec_lookup (flows s !! sk). destruct (flows s !! sk) as [f|] eqn:Ef.
    + destruct Hl as (p & -> & Ha). rewrite Ef. by exec_store.
    + destruct Hl as (m1 & -> & Hr1 & _). clear Hr. exec_update. clear Hroom.
      cbn [the_map with_map map_max] in *. set (s1 := set_flows _ s) in *. exec_lookup (flows s1 !! sk).
      destruct (flows s1 !! sk) as [f|].
      * destruct Hl as (p & -> & Ha). by exec_store.
      * by destruct Hl as (m2 & -> & Hr2 & _).
  - exec_lookup (flows s !! sk). destruct (flows s !! sk) as [f|] eqn:Ef.
    + destruct Hl as (p & -> & Ha). by exec_store.
    + by destruct Hl as (m1 & -> & Hr1 & _).
Qed.

Lemma not_full_delete s j k : not_full s -> not_full (with_map j (delete k (the_map j s)) s).
Proof.
  intros Hs j'. specialize (Hs j'). destruct (decide (j = j')) as [<-|].
  - rewrite the_with_map. pose proof (map_subseteq_size _ _ (delete_subseteq (the_map j s) k)). lia.
  - by rewrite the_with_map_ne.
Qed.

Lemma run_recvmsg m s sk msg :
  reps m s -> (e_room e = true -> not_full s) -> reps (run (c_tcp_recvmsg e sk msg) m) (k_tcp_recvmsg e sk msg s).
Proof. intros Hr Hroom. unfold c_tcp_recvmsg, k_tcp_recvmsg. cbv zeta. by exec_update. Qed.

Lemma run_ret_recvmsg m s ret :
  reps m s -> (e_room e = true -> not_full s) -> reps (run (c_ret_tcp_recvmsg e ret) m) (kr_tcp_recvmsg e ret s).
Proof.
  intros Hr Hroom. unfold c_ret_tcp_recvmsg, kr_tcp_recvmsg. set (id := e_pid_tgid e). cbv zeta.
  exec_lookup (recv_ctxs s !! id). destruct (recv_ctxs s !! id) as [rc|] eqn:Er; cycle 1.
  { by destruct Hl as (m1 & -> & Hr1 & _). }
  destruct Hl as (q & -> & Ha). rewrite !(run_load _ _ _ _ _ _ _ Ha). clear Ha. exec_delete.
  assert (e_room e = true -> not_full (with_map Recvs (delete id (the_map Recvs s)) s)) as Hroom1
    by (intros E; by apply not_full_delete, Hroom).
  cbn [with_map the_map] in *. set (s1 := set_recv_ctxs _ s) in *.
  destruct ((ret <=? 0) || (rc_sk rc =? 0)); [done|].
  match goal with Hr : reps ?m s1 |- context [c_flow_get e ?sk ?c] => pose proof (run_flow_get m s1 sk c Hr Hroom1) as Hg end.
  destruct (flow_get e (rc_sk rc) s1) as [s2 [f|]].
  - destruct Hg as (p & m2 & -> & Hr2 & Ha). unfold load, store. rewrite (run_load _ _ _ _ _ _ _ Ha). clear Hr0. exec_store.
    by apply (run_capture_wire _ (put_flow _ _ s2)).
  - by destruct Hg as (m2 & -> & Hr2).
Qed.

(** ** Sessions *)

Lemma run_make_stat m s ssl fd c :
  reps m s -> (e_room e = true -> not_full s) ->
  let s' := set_ssl_stats (map_update_elem ssl_stats_max (e_room e) BPF_ANY ssl
    (mk_ssl_stat 0 0 (tgid_of (e_pid_tgid e)) fd) (ssl_stats s)) s in
  match ssl_stats s' !! ssl with
  | Some st => exists p m', run (c_make_stat e ssl fd c) m = run (c (Some p)) m' /\ reps m' s' /\ at_ptr m' Stats ssl p st
  | None => exists m', run (c_make_stat e ssl fd c) m = run (c None) m' /\ reps m' s'
  end.
Proof.
  intros Hr Hroom. cbv zeta. unfold c_make_stat. exec_update. clear Hroom. cbn [the_map with_map map_max] in *.
  set (s1 := set_ssl_stats _ s) in *. exec_lookup (ssl_stats s1 !! ssl). destruct (ssl_stats s1 !! ssl) as [st|].
  - destruct Hl as (p & -> & Ha). by exists p, m0.
  - destruct Hl as (m1 & -> & Hr1 & _). by exists m1.
Qed.

Lemma run_ssl_stat_get m s ssl c :
  reps m s -> (e_room e = true -> not_full s) ->
  let '(s', o) := ssl_stat_get e ssl s in
  match o with
  | Some st => exists p m', run (c_ssl_stat_get e ssl c) m = run (c (Some p)) m' /\ reps m' s' /\ at_ptr m' Stats ssl p st
  | None => exists m', run (c_ssl_stat_get e ssl c) m = run (c None) m' /\ reps m' s'
  end.
Proof.
  intros Hr Hroom. unfold ssl_stat_get, c_ssl_stat_get. exec_lookup (ssl_stats s !! ssl).
  destruct (ssl_stats s !! ssl) as [st|].
  - destruct Hl as (p & -> & Ha). by exists p, m.
  - destruct Hl as (m1 & -> & Hr1 & _). clear Hr. cbv zeta. exec_lookup (ssl_fds s !! ssl).
    destruct (ssl_fds s !! ssl) as [fd|].
    + destruct Hl as (q & -> & Ha). rewrite (run_load _ _ _ _ _ _ _ Ha). by apply run_make_stat.
    + destruct Hl as (m2 & -> & Hr2 & _). by apply run_make_stat.
Qed.

Lemma put_total_add dir n st : put_total dir (wrap 64 (get_total dir st + n)) st = stat_add dir n st.
Proof. unfold put_total, get_total, stat_add. by destruct (dir =? DIR_OUT). Qed.

Lemma run_emit_plaintext m s ssl buf n dir :
  reps m s -> (e_room e = true -> not_full s) ->
  reps (run (c_emit_plaintext e ssl buf n dir) m) (emit_plaintext e ssl buf n dir s).
Proof.
  intros Hr Hroom. unfold c_emit_plaintext, emit_plaintext. destruct (_ || _); [done|].
  match goal with |- context [c_ssl_stat_get e ssl ?c] => pose proof (run_ssl_stat_get m s ssl c Hr Hroom) as Hg end.
  destruct (ssl_stat_get e ssl s) as [s1 [st|]]; cycle 1.
  { by destruct Hg as (m1 & -> & Hr1). }
  destruct Hg as (p & m1 & -> & Hr1 & Ha). rewrite (run_load _ _ _ _ _ _ _ Ha). clear Hr. exec_store.
  rewrite put_total_add in *. destruct (e_ring e 1048) as [mem|]; [|done]. exec_reserve.
  match goal with Ha : at_ptr _ _ _ _ _ |- _ => rewrite (run_load _ _ _ _ _ _ _ Ha) end.
  cbv zeta. destruct (e_user e buf _) as [bs|]; cbn [run]; [by apply (reps_publish _ (put_stat ssl _ s1))|by apply reps_discard].
Qed.

Lemma run_drop_stat m s ssl :
  reps m s -> reps (run (On Stats ssl MapDelete ;! On Fds ssl MapDelete ;! Done) m)
    (set_ssl_fds (delete ssl (ssl_fds s)) (set_ssl_stats (delete ssl (ssl_stats s)) s)).
Proof. intros Hr. exec_delete. by exec_delete. Qed.

Lemma run_ssl_free m s ssl : reps m s -> reps (run (c_ssl_free e ssl) m) (u_ssl_free e ssl s).
Proof.
  intros Hr. unfold c_ssl_free, u_ssl_free. exec_lookup (ssl_stats s !! ssl).
  destruct (ssl_stats s !! ssl) as [st|]; cycle 1.
  { destruct Hl as (m1 & -> & Hr1 & _). clear Hr. by exec_delete. }
  destruct Hl as (p & -> & Ha). destruct (e_ring e 36) as [mem|]; [|exact (run_drop_stat m s ssl Hr)].
  exec_reserve. rewrite !(run_load _ _ _ _ _ _ _ Ha).
  change (run (Publish ?i ?x ?k) ?m1) with (run k (set_ring (<[i := x]> (m_ring m1)) m1)).
  exact (run_drop_stat _ _ ssl (reps_publish _ _ _ _ Hr0 Eg)).
Qed.

Lemma run_put_fd m s ssl fd :
  reps m s -> (e_room e = true -> not_full s) -> reps (run (c_ssl_set_fd e ssl fd) m) (u_ssl_set_fd e ssl fd s).
Proof. intros Hr Hroom. unfold c_ssl_set_fd, u_ssl_set_fd. by exec_update. Qed.

Lemma run_ssl_read m s ssl buf :
  reps m s -> (e_room e = true -> not_full s) -> reps (run (c_ssl_read e ssl buf) m) (u_ssl_read e ssl buf s).
Proof. intros Hr Hroom. unfold c_ssl_read, u_ssl_read. by exec_update. Qed.

Lemma run_ret_ssl_read m s ret :
  reps m s -> (e_room e = true -> not_full s) -> reps (run (c_ret_ssl_read e ret) m) (ur_ssl_read e ret s).
Proof.
  intros Hr Hroom. unfold c_ret_ssl_read, ur_ssl_read. set (id := e_pid_tgid e). cbv zeta.
  exec_lookup (ssl_ctxs s !! id). destruct (ssl_ctxs s !! id) as [c|]; cycle 1.
  { by destruct Hl as (m1 & -> & Hr1 & _). }
  destruct Hl as (q & -> & Ha). rewrite !(run_load _ _ _ _ _ _ _ Ha). exec_delete.
  destruct (0 <? ret); [|done]. apply run_emit_plaintext; [done|]. intros E. by apply (not_full_delete s Ctxs), Hroom.
Qed.

(** Any program. *)
Lemma run_program m s p :
  reps m s -> (e_room e = true -> not_full s) -> reps (run (program e p) m) (fire e p s).
Proof.
  intros Hr Hroom. destruct p; cbn [program fire];
    auto using run_sendmsg, run_recvmsg, run_ret_recvmsg, run_set_state, run_ssl_free, run_put_fd, run_ssl_read, run_ret_ssl_read.
  unfold c_ssl_write, u_ssl_write. destruct (0 <? num); [by apply run_emit_plaintext|done].
Qed.
End Runs.

(** ** Any work *)

Definition work_room {K} (w : work K) (s : bpf) : Prop :=
  match w with Firing e _ => e_room e = true -> not_full s | Deletion _ => True end.

Lemma run_work {K} `{KernelView K} (w : work K) m s :
  reps m s -> work_room w s -> reps (run (work_prog w) m) (work_atomic w s).
Proof.
  intros Hr Hw. destruct w as [e p|sk]; cbn [work_prog work_atomic].
  - by apply run_program.
  - by apply (reps_delete m s Flows sk).
Qed.
