(* ===== verification/SmpSerial.v ===== *)
(** Programs of bpf/tlstat.bpf.c in flight at once on several processors: when no two of
    them touch the same socket, session or thread context, the outcome is that of firing
    them one after another in some order. *)
From stdpp Require Import relations.
From S2P Require Import Prelude Abi Bpf Smp SmpRefine.

(** ** What an access touches *)

(** A session is an SSL pointer's entries in ssl_stats and ssl_fds. *)
Inductive shared : Set :=
| RSock (sk : Z)
| RSess (ssl : Z)
| RRecv (id : Z)
| RCtx (id : Z).

#[export] Instance shared_eq_dec : EqDecision shared.
Proof. solve_decision. Defined.

Inductive label : Set :=
| Acc (x : shared)
| Rsv (i : nat)
| Pub (i : nat).

Definition resource (j : map_id) (k : Z) : shared :=
  match j with Flows => RSock k | Stats | Fds => RSess k | Recvs => RRecv k | Ctxs => RCtx k end.

(** The access a program is at. *)
Definition access {F} (r : prog) (m : memory F) : option label :=
  match r with
  | Done => None
  | On j k _ _ => Some (Acc (resource j k))
  | Reserve _ => Some (Rsv (length (m_ring m)))
  | Publish i _ _ => Some (Pub i)
  end.

Definition lstep (r : prog) (l : label) (r' : prog) (m m' : smp) : Prop :=
  access r m = Some l /\ step r m = (r', m').

(** ** Executions *)

(** A program that was started: the work it does, what is left of it, what it has
    touched, the slot it reserved, and the programs that had ended by then. *)
Record task (K : Type) := Task {
  t_work : work K;
  t_prog : prog;
  t_held : list shared;
  t_slot : option nat;
  t_after : list nat }.
Arguments Task {K}.
Arguments t_work {K}.
Arguments t_prog {K}.
Arguments t_held {K}.
Arguments t_slot {K}.
Arguments t_after {K}.

Record conf (M K : Type) := Conf { tasks : list (task K); mem : M }.
Arguments Conf {M K}.
Arguments tasks {M K}.
Arguments mem {M K}.

Definition is_done {K} (t : task K) : bool := match t_prog t with Done => true | _ => false end.

(** The tasks that have ended. *)
Definition ended {K} (ts : list (task K)) : list nat :=
  filter (fun i => match ts !! i with Some t => is_done t | None => false end = true) (seq 0 (length ts)).

Definition advance {K} (l : label) (r : prog) (t : task K) : task K :=
  Task (t_work t) r
    (match l with Acc x => x :: t_held t | _ => t_held t end)
    (match l with Rsv i => Some i | _ => t_slot t end)
    (t_after t).

(** No other program in flight has touched what this access touches. *)
Definition apart {K} (ts : list (task K)) (i : nat) (l : label) : Prop :=
  forall x j t, l = Acc x -> ts !! j = Some t -> is_done t = false -> j <> i -> x ∉ t_held t.

(** Any number of programs on a memory with the accesses [ls]; with [free], only accesses
    that are apart. *)
Inductive cstep {M K} `{KernelView K} (ls : prog -> label -> prog -> M -> M -> Prop) (free : bool) : conf M K -> conf M K -> Prop :=
| cstep_start ts m w :
    cstep ls free (Conf ts m) (Conf (ts ++ [Task w (work_prog w) [] None (ended ts)]) m)
| cstep_access ts m i t l r m' :
    ts !! i = Some t -> ls (t_prog t) l r m m' -> (free = true -> apart ts i l) ->
    cstep ls free (Conf ts m) (Conf (<[i := advance l r t]> ts) m').

Definition quiet {M K} (c : conf M K) : Prop := Forall (fun t => is_done t = true) (tasks c).

(** ** Accesses that commute *)

Definition indep (a b : label) : Prop :=
  match a, b with
  | Acc x, Acc y => x <> y
  | Acc _, _ | _, Acc _ => True
  | Rsv _, Rsv _ => False
  | Rsv i, Pub j | Pub i, Rsv j | Pub i, Pub j => i <> j
  end.

Lemma insert_last_other {A} (l : list A) i x y : i <> length l -> <[i := x]> (l ++ [y]) = <[i := x]> l ++ [y].
Proof.
  intros Hi. destruct (decide (i < length l)%nat).
  - by rewrite insert_app_l.
  - rewrite !list_insert_ge; [done|lia|rewrite length_app; cbn; lia].
Qed.

(** Accesses to different keys. *)
Lemma set_elem_comm j k x j' k' x' m :
  (j, k) <> (j', k') -> set_elem j k x (set_elem j' k' x' m) = set_elem j' k' x' (set_elem j k x m).
Proof.
  intros Hn. unfold set_elem. destruct (decide (j = j')) as [<-|Hj].
  - by rewrite !get_set_map, !set_map_set, insert_insert_ne by congruence.
  - by rewrite !get_set_map_ne, set_map_comm by congruence.
Qed.

Lemma ring_set_elem j k x m : m_ring (set_elem j k x m) = m_ring m.
Proof. apply ring_set_map. Qed.
Lemma set_ring_elem j k x l m : set_ring l (set_elem j k x m) = set_elem j k x (set_ring l m).
Proof. unfold set_elem. by rewrite get_set_ring, set_ring_map. Qed.

Lemma resource_ne j k j' k' : resource j k <> resource j' k' -> (j, k) <> (j', k').
Proof. congruence. Qed.

Lemma lstep_swap r l r1 q l' q1 m m1 m2 :
  lstep r l r1 m m1 -> lstep q l' q1 m1 m2 -> indep l l' ->
  exists m1', lstep q l' q1 m m1' /\ lstep r l r1 m1' m2.
Proof.
  intros [Ea Es] [Eb Et] Hi. unfold lstep.
  destruct r as [|j k A o c| |], q as [|j' k' B o' c'| |]; cbn in Ea, Eb; simplify_eq; cbn in Hi, Es, Et |- *;
    repeat match goal with
    | H : (let '(_, _) := ?x in _) = _ |- _ => let E := fresh "E" in destruct x eqn:E
    end; simplify_eq; rewrite ?elem_at_ring, ?ring_set_elem in *;
    try match goal with H : resource _ _ <> _ |- _ => apply resource_ne in H; rename H into Hn end; try done.
  { rewrite elem_at_set_ne in E by done. eexists. split; [split; [done|by rewrite E]|]. split; [done|].
    rewrite elem_at_set_ne by done. rewrite E0. f_equal. by apply set_elem_comm. }
  all: try (eexists; (split; [split; [done|by rewrite ?E]|]); (split; [by rewrite ?ring_set_elem|]);
    by rewrite ?elem_at_ring, ?E, ?ring_set_elem, ?set_ring_elem).
  all: cbn in *; rewrite ?length_insert in *; eexists; (split; [split; reflexivity|]); cbn; rewrite ?length_insert.
  all: rewrite ?insert_last_other, ?(list_insert_insert_ne _ i i0) by congruence; split; reflexivity.
Qed.

(** What an access does to the ring. *)
Definition ring_step (l : label) (a b : list slot) : Prop :=
  match l with
  | Acc _ => b = a
  | Rsv i => i = length a /\ b = a ++ [Busy]
  | Pub i => exists s, b = <[i := s]> a
  end.

Lemma lstep_ring r l r' m m' : lstep r l r' m m' -> ring_step l (m_ring m) (m_ring m').
Proof.
  intros [Ea Es]. destruct r as [|j k A o c| |]; cbn in *; simplify_eq; cbn; [|done|by eexists].
  destruct (do_elem o (elem_at m j k)). simplify_eq. apply ring_set_elem.
Qed.

Lemma ring_step_length l a b : ring_step l a b -> (length a <= length b)%nat.
Proof.
  destruct l; cbn; [by intros ->|intros [_ ->]; rewrite length_app; lia|intros [s ->]; by rewrite length_insert].
Qed.

(** ** Replays *)

Record move := Move { mv_from : prog; mv_label : label; mv_to : prog }.

Inductive replay : list move -> smp -> smp -> Prop :=
| replay_nil m : replay [] m m
| replay_cons v l m m1 m2 : lstep (mv_from v) (mv_label v) (mv_to v) m m1 -> replay l m1 m2 -> replay (v :: l) m m2.

Lemma replay_app a b m m2 : replay (a ++ b) m m2 <-> exists m1, replay a m m1 /\ replay b m1 m2.
Proof.
  split.
  - revert m. induction a as [|v a IH]; intros m Hr; [exists m; split; [constructor|done]|].
    inversion Hr as [|? ? ? m1 ? Hs Hl]; subst. destruct (IH _ Hl) as (m3 & H1 & H2).
    exists m3. split; [by econstructor|done].
  - intros (m1 & Ha & Hb). induction Ha; [done|]. econstructor; [done|auto].
Qed.

Lemma replay_one v m m1 : lstep (mv_from v) (mv_label v) (mv_to v) m m1 -> replay [v] m m1.
Proof. intros Hs. econstructor; [done|constructor]. Qed.

Lemma replay_later v b m m2 :
  (forall y, y ∈ b -> indep (mv_label v) (mv_label y)) -> replay (v :: b) m m2 -> replay (b ++ [v]) m m2.
Proof.
  revert m. induction b as [|y b IH]; intros m Hi Hr; [done|].
  inversion Hr as [|? ? ? m1 ? Hv Hl]; subst. inversion Hl as [|? ? ? m3 ? Hy Hb]; subst.
  destruct (lstep_swap _ _ _ _ _ _ _ _ _ Hv Hy) as (m4 & Hy' & Hv'); [apply Hi; set_solver|].
  cbn. econstructor; [exact Hy'|]. apply IH; [set_solver|]. by econstructor.
Qed.

(** Independent parts of a replay change places. *)
Lemma replay_swap a b m m2 :
  (forall x y, x ∈ a -> y ∈ b -> indep (mv_label x) (mv_label y)) -> replay (a ++ b) m m2 -> replay (b ++ a) m m2.
Proof.
  revert m. induction a as [|v a IH]; intros m Hi Hr; [by rewrite app_nil_r|].
  inversion Hr as [|? ? ? m1 ? Hv Hl]; subst. apply IH in Hl; [|set_solver].
  replace (b ++ v :: a) with ((b ++ [v]) ++ a) by by rewrite <- app_assoc.
  apply replay_app in Hl as (m3 & Hb & Ha). apply replay_app. exists m3. split; [|done].
  apply replay_later; [set_solver|by econstructor].
Qed.

(** The moves of one program, from [r] to [r']. *)
Fixpoint path (r : prog) (l : list move) (r' : prog) : Prop :=
  match l with
  | [] => r = r'
  | v :: l => mv_from v = r /\ path (mv_to v) l r'
  end.

Lemma path_snoc r l r1 a r2 : path r l r1 -> path r (l ++ [Move r1 a r2]) r2.
Proof. revert r. induction l as [|v l IH]; intros r; cbn; [done|]. intros [E Hp]. auto. Qed.

Lemma run_step r m r' m' : step r m = (r', m') -> run r m = run r' m'.
Proof.
  destruct r; cbn; intros E; repeat case_match; by simplify_eq.
Qed.

Lemma run_path r l m m' : path r l Done -> replay l m m' -> run r m = m'.
Proof.
  intros Hp Hr. revert r Hp. induction Hr as [|v l m m1 m2 [_ Hs] Hr IH]; intros r; cbn.
  - by intros ->.
  - intros [<- Hp]. rewrite (run_step _ _ _ _ Hs). auto.
Qed.

(** ** Programs reserve late *)

(** After its reservation a program stays with what it has touched and its slot. *)
Fixpoint tail (h : list shared) (i : nat) (r : prog) : Prop :=
  match r with
  | Done => True
  | On j k _ c => resource j k ∈ h /\ forall a, tail h i (c a)
  | Reserve _ => False
  | Publish j _ c => j = i /\ tail h i c
  end.

Fixpoint two_phase (h : list shared) (r : prog) : Prop :=
  match r with
  | Done => True
  | On j k _ c => forall a, two_phase (resource j k :: h) (c a)
  | Reserve c => forall i, tail h i (c i)
  | Publish _ _ _ => False
  end.

Lemma tail_step h i r l m r' m' :
  tail h i r -> lstep r l r' m m' ->
  tail h i r' /\ match l with Acc x => x ∈ h | Rsv _ => False | Pub j => j = i end.
Proof.
  intros Ht [Ea Es]. destruct r; cbn in *; simplify_eq; repeat case_match; simplify_eq; naive_solver.
Qed.

Lemma two_phase_step h r l m r' m' :
  two_phase h r -> lstep r l r' m m' ->
  match l with Acc x => two_phase (x :: h) r' | Rsv i => tail h i r' | Pub _ => False end.
Proof.
  intros Ht [Ea Es]. destruct r; cbn in *; simplify_eq; repeat case_match; simplify_eq; naive_solver.
Qed.

Lemma tail_mono h h' i r : h ⊆ h' -> tail h i r -> tail h' i r.
Proof. intros Hh. induction r as [|j k A o c IH| |]; cbn; [done|intros [? ?]; split; auto|done|naive_solver]. Qed.

(** [two_phase] of a continuation that holds more is what the programs' parts need. *)
Section Programs.
Context {K : Type} `{KernelView K} (e : env K).

Lemma tp_read_tuple h sk p c : RSock sk ∈ h ->
  (forall h', h ⊆ h' -> two_phase h' (c tt)) -> two_phase h (c_read_tuple e sk p c).
Proof.
  intros Hs Hc. unfold c_read_tuple. cbn. intros [] []. case_match; cbn; intros [] [] []; apply Hc; set_solver.
Qed.

Lemma tp_identify h sk p c : RSock sk ∈ h ->
  (forall h', h ⊆ h' -> two_phase h' (c (Some p))) -> two_phase h (c_identify e sk p c).
Proof.
  intros Hs Hc. cbn. intros pid. case_match; [|apply Hc; set_solver]. cbn. intros [] [].
  apply tp_read_tuple; [set_solver|]. intros h' Hh. apply Hc. set_solver.
Qed.

Lemma tp_flow_get h sk c :
  (forall h' o, RSock sk ∈ h' -> two_phase h' (c o)) -> two_phase h (c_flow_get e sk c).
Proof.
  intros Hc. cbn. intros [p|]; [apply tp_identify; [set_solver|]; intros h' Hh; apply Hc; set_solver|].
  cbn. intros [] [p|]; [|apply Hc; set_solver]. apply tp_identify; [set_solver|]. intros h' Hh. apply Hc. set_solver.
Qed.

Lemma tp_emit_wire h sk p buf n dir : RSock sk ∈ h -> two_phase h (c_emit_wire e sk p buf n dir).
Proof.
  intros Hs. unfold c_emit_wire. case_match; [|done]. cbn. intros i. case_match; [|done]. by cbn.
Qed.

Lemma tp_capture_wire h sk p buf n dir : two_phase h (c_capture_wire e sk p buf n dir).
Proof.
  unfold c_capture_wire. case_match; [done|]. cbn. intros cnt. case_match; [done|]. cbn. intros cnt'.
  repeat case_match; try done; cbn; try intros []; apply tp_emit_wire; set_solver.
Qed.

Lemma tp_make_stat h ssl fd c :
  (forall h' o, RSess ssl ∈ h' -> two_phase h' (c o)) -> two_phase h (c_make_stat e ssl fd c).
Proof. intros Hc. cbn. intros [] o. apply Hc. set_solver. Qed.

Lemma tp_ssl_stat_get h ssl c :
  (forall h' o, RSess ssl ∈ h' -> two_phase h' (c o)) -> two_phase h (c_ssl_stat_get e ssl c).
Proof.
  intros Hc. cbn. intros [p|]; [apply Hc; set_solver|]. cbn. intros [q|]; [intros v|]; by apply tp_make_stat.
Qed.

Lemma tp_emit_plaintext h ssl buf n dir : two_phase h (c_emit_plaintext e ssl buf n dir).
Proof.
  unfold c_emit_plaintext. case_match; [done|]. apply tp_ssl_stat_get. intros h' [p|] Hs; [|done].
  cbn. intros total []. case_match; [|done]. cbn. intros i. split; [set_solver|]. intros fd. by case_match.
Qed.

Lemma tp_ssl_free h ssl : two_phase h (c_ssl_free e ssl).
Proof.
  cbn. intros [p|]; [|done]. case_match; [|done]. cbn. intros i.
  repeat (split; [set_solver|]; intros ?). split; [done|]. repeat (split; [set_solver|]; intros ?). done.
Qed.
End Programs.

Lemma tp_work {K} `{KernelView K} (w : work K) : two_phase [] (work_prog w).
Proof.
  destruct w as [e p|sk]; [|done]. cbn [work_prog]. destruct p; cbn [program].
  - apply tp_flow_get. intros h [q|] Hs; [|done]. cbn. intros tx []. apply tp_capture_wire.
  - done.
  - cbn. intros [q|]; [|done]. cbn. intros sk base []. case_match; [done|]. apply tp_flow_get.
    intros h [p|] Hs; [|done]. cbn. intros rx []. apply tp_capture_wire.
  - unfold c_inet_sock_set_state. repeat case_match; try done; cbn; intros [q|]; try done; by intros [] [q|].
  - apply tp_ssl_free.
  - done.
  - unfold c_ssl_write. case_match; [apply tp_emit_plaintext|done].
  - done.
  - cbn. intros [q|]; [|done]. cbn. intros ssl buf []. case_match; [apply tp_emit_plaintext|done].
Qed.

(** ** An execution and a sequence *)

Section Serial.
Context {K : Type} `{KernelView K}.
Implicit Types (t : task K) (ts : list (task K)) (l : list move).

(** A block is a task's number and the moves it has made. *)
Definition block : Type := nat * list move.

Record block_ok t l : Prop := {
  bo_path : path (work_prog (t_work t)) l (t_prog t);
  bo_held x : x ∈ t_held t <-> exists v, v ∈ l /\ mv_label v = Acc x;
  bo_ring v : v ∈ l -> match mv_label v with Acc _ => True | Rsv i | Pub i => t_slot t = Some i end;
  bo_phase : match t_slot t with None => two_phase (t_held t) (t_prog t) | Some i => tail (t_held t) i (t_prog t) end }.

Definition clear (h : list shared) l : Prop := forall v x, v ∈ l -> mv_label v = Acc x -> x ∉ h.

(** [a] may come before [b]: what comes after a program in flight has not touched what
    the program has, and what had ended when [a] started does not come after it. *)
Definition before ts (a b : block) : Prop :=
  forall t, ts !! a.1 = Some t -> (is_done t = false -> clear (t_held t) b.2) /\ b.1 ∉ t_after t.

Definition moves (bs : list block) : list move := concat (map snd bs).

Record serial (m0 : smp) ts (m : smp) (bs : list block) : Prop := {
  se_perm : map fst bs ≡ₚ seq 0 (length ts);
  se_replay : replay (moves bs) m0 m;
  se_block b : b ∈ bs -> exists t, ts !! b.1 = Some t /\ block_ok t b.2;
  se_order : StronglySorted (before ts) bs;
  se_ended i t j : ts !! i = Some t -> j ∈ t_after t -> exists t', ts !! j = Some t' /\ is_done t' = true;
  se_past i t j : ts !! i = Some t -> j ∈ t_after t -> (j < i)%nat;
  se_slot i t s : ts !! i = Some t -> t_slot t = Some s -> (s < length (m_ring m))%nat;
  se_distinct i j t t' s : ts !! i = Some t -> ts !! j = Some t' -> t_slot t = Some s -> t_slot t' = Some s -> i = j }.

Lemma moves_app a b : moves (a ++ b) = moves a ++ moves b.
Proof. unfold moves. by rewrite map_app, concat_app. Qed.

Lemma moves_cons i l b : moves ((i, l) :: b) = l ++ moves b.
Proof. done. Qed.

Lemma elem_of_moves v bs : v ∈ moves bs <-> exists b, b ∈ bs /\ v ∈ b.2.
Proof.
  unfold moves. induction bs as [|b bs IH]; cbn; [set_solver|]. rewrite elem_of_app, IH. set_solver.
Qed.

(** One more move of a task. *)
Lemma advance_ok t l lab r m m' :
  block_ok t l -> lstep (t_prog t) lab r m m' -> block_ok (advance lab r t) (l ++ [Move (t_prog t) lab r]).
Proof.
  intros [Hp Hh Hr Hf] Hs. split.
  - by apply path_snoc.
  - intros x. transitivity (lab = Acc x \/ x ∈ t_held t).
    + destruct lab; cbn; set_solver.
    + rewrite Hh. setoid_rewrite elem_of_app. setoid_rewrite list_elem_of_singleton. naive_solver.
  - intros v Hv. apply elem_of_app in Hv as [Hv| ->%list_elem_of_singleton].
    + specialize (Hr v Hv). destruct lab; cbn; try done. destruct (t_slot t) as [s|].
      * by destruct (tail_step _ _ _ _ _ _ _ Hf Hs).
      * by destruct (mv_label v).
    + cbn. destruct lab; try done. cbn. destruct (t_slot t) as [s|].
      * destruct (tail_step _ _ _ _ _ _ _ Hf Hs) as [_ ->]. done.
      * by apply (two_phase_step _ _ _ _ _ _ Hf) in Hs.
  - destruct (t_slot t) as [s|] eqn:E.
    + destruct (tail_step _ _ _ _ _ _ _ Hf Hs) as [Ht Hl]. destruct lab; cbn; rewrite ?E; try done.
      eapply tail_mono; [|exact Ht]. set_solver.
    + pose proof (two_phase_step _ _ _ _ _ _ Hf Hs). destruct lab; cbn; rewrite ?E; done.
Qed.

(** Moves that lie within what a task touched or its slot, against those of others. *)
Lemma indep_held (h : list shared) (s : option nat) (a b : label) :
  match a with Acc x => x ∈ h | Pub i => s = Some i | Rsv _ => False end ->
  match b with Acc y => y ∉ h | Rsv j | Pub j => s <> Some j end -> indep a b.
Proof. destruct a, b; cbn; intros Ha Hb; try done; intros ->; congruence. Qed.

Lemma indep_sym a b : indep a b -> indep b a.
Proof. destruct a, b; cbn; auto. Qed.

Section Advance.
Context (m0 : smp) ts (m m' : smp) (i : nat) t (lab : label) (r : prog) (A B : list block) l.
Context (Hs : serial m0 ts m (A ++ (i, l) :: B)).
Context (Ht : ts !! i = Some t) (Hl : lstep (t_prog t) lab r m m') (Ha : apart ts i lab).

Let t' := advance lab r t.
Let ts' := <[i := t']> ts.
Let v := Move (t_prog t) lab r.

Lemma sa_nodup : NoDup (map fst (A ++ (i, l) :: B)).
Proof. rewrite (se_perm _ _ _ _ Hs). apply NoDup_seq. Qed.

Lemma sa_other b : b ∈ A \/ b ∈ B -> b.1 <> i.
Proof.
  intros Hb E. pose proof sa_nodup as Hn. rewrite map_app in Hn. cbn in Hn.
  apply NoDup_app in Hn as (_ & Hd & Hn). apply NoDup_cons in Hn as [Hn _]. destruct Hb as [Hb|Hb].
  - apply (Hd i); [|set_solver]. rewrite <- E. by apply list_elem_of_fmap_2.
  - apply Hn. rewrite <- E. by apply list_elem_of_fmap_2.
Qed.

Lemma sa_active : is_done t = false.
Proof. destruct Hl as [E _]. unfold is_done. by destruct (t_prog t). Qed.

Lemma sa_ok : block_ok t l.
Proof. destruct (se_block _ _ _ _ Hs (i, l)) as (u & Hu & Ho); [set_solver|]. cbn in *. by simplify_eq. Qed.

Lemma sa_block b : b ∈ A \/ b ∈ B -> exists u, ts !! b.1 = Some u /\ block_ok u b.2.
Proof. intros Hb. apply (se_block _ _ _ _ Hs). set_solver. Qed.

Lemma sa_before a b : a.1 <> i -> before ts' a b <-> before ts a b.
Proof. intros Hi. unfold before, ts'. by rewrite list_lookup_insert_ne. Qed.

(** What may come before the task may come before it after the move. *)
Lemma sa_grow a : a.1 <> i -> before ts a (i, l) -> before ts' a (i, l ++ [v]).
Proof.
  intros Hi Hb. apply sa_before; [done|]. intros u Hu. destruct (Hb u Hu) as [Hc Hn]. split; [|done].
  intros Hd w x Hw Hx. cbn in Hw. apply elem_of_app in Hw as [Hw| ->%list_elem_of_singleton].
  - by apply (Hc Hd w).
  - eapply (Ha x); eauto.
Qed.

Lemma sa_order : StronglySorted (before ts) A /\ StronglySorted (before ts) B
  /\ (forall a, a ∈ A -> before ts a (i, l)) /\ (forall a b, a ∈ A -> b ∈ B -> before ts a b)
  /\ (forall b, b ∈ B -> before ts (i, l) b).
Proof.
  pose proof (se_order _ _ _ _ Hs) as Ho. apply StronglySorted_app in Ho as (Hab & HA & HB).
  apply StronglySorted_cons in HB as [Hi HB]. rewrite Forall_forall in Hi. set_solver.
Qed.

Lemma sa_sorted bs : StronglySorted (before ts) bs -> (forall b, b ∈ bs -> b.1 <> i) -> StronglySorted (before ts') bs.
Proof.
  induction 1 as [|a bs _ IH Hf]; intros Hn; constructor.
  - apply IH. set_solver.
  - rewrite Forall_forall in *. intros b Hb. apply sa_before; set_solver.
Qed.

(** What follows the task is independent of what it has done. *)
Lemma sa_clear b w x : b ∈ B -> w ∈ b.2 -> mv_label w = Acc x -> x ∉ t_held t.
Proof.
  intros Hb Hw Hx. destruct sa_order as (_ & _ & _ & _ & Hi). destruct (Hi b Hb t Ht) as [Hc _].
  by apply (Hc sa_active w).
Qed.

Lemma sa_slots b w j : b ∈ A \/ b ∈ B -> w ∈ b.2 -> mv_label w = Rsv j \/ mv_label w = Pub j -> t_slot t <> Some j.
Proof.
  intros Hb Hw Hj Es. destruct (sa_block b Hb) as (u & Hu & Ho). pose proof (bo_ring _ _ Ho w Hw) as Hr.
  apply (sa_other b Hb). eapply (se_distinct _ _ _ _ Hs); [exact Hu|exact Ht| |exact Es].
  destruct Hj as [E|E]; by rewrite E in Hr.
Qed.

(** A new order of the blocks, the task's with its move. *)
Lemma sa_serial bs :
  bs ≡ₚ A ++ (i, l ++ [v]) :: B -> replay (moves bs) m0 m' -> StronglySorted (before ts') bs -> serial m0 ts' m' bs.
Proof.
  intros Hp Hr Ho. pose proof sa_active as Hact. assert (length (m_ring m) <= length (m_ring m'))%nat as Hring.
  { by eapply ring_step_length, lstep_ring. }
  assert (forall j u, ts' !! j = Some u -> (j = i /\ u = t') \/ (j <> i /\ ts !! j = Some u)) as Hts.
  { intros j u. unfold ts'. destruct (decide (j = i)) as [->|Hj].
    - rewrite list_lookup_insert_eq by (by eapply lookup_lt_Some). naive_solver.
    - rewrite list_lookup_insert_ne by done. auto. }
  assert (forall s, t_slot t' = Some s -> t_slot t = Some s \/ (lab = Rsv s /\ s = length (m_ring m) /\ length (m_ring m') = S s)) as Hslot.
  { intros s. cbn. destruct lab; auto. intros [= ->]. right. apply lstep_ring in Hl as [-> Hl]. rewrite Hl, length_app. cbn. auto with lia. }
  split; try done.
  - rewrite Hp. unfold ts'. rewrite length_insert, <- (se_perm _ _ _ _ Hs), !map_app. done.
  - intros b. rewrite Hp, elem_of_app, elem_of_cons. intros Hb.
    assert (b = (i, l ++ [v]) \/ (b ∈ A \/ b ∈ B)) as [->|Hb'] by naive_solver.
    + exists t'. cbn. unfold ts'. rewrite list_lookup_insert_eq by (by eapply lookup_lt_Some).
      split; [done|]. by apply (advance_ok _ _ _ _ m m'); [apply sa_ok|].
    + destruct (sa_block b Hb') as (u & Hu & Hok).
      exists u. unfold ts'. by rewrite list_lookup_insert_ne by (by apply not_eq_sym, sa_other).
  - intros j u k Hj Hk. assert (exists w, ts !! k = Some w /\ is_done w = true) as (w & Hw & Hd).
    { destruct (Hts _ _ Hj) as [[-> ->]|[_ Hj']]; [by apply (se_ended _ _ _ _ Hs i t)|by apply (se_ended _ _ _ _ Hs j u)]. }
    exists w. split; [|done]. unfold ts'. rewrite list_lookup_insert_ne; [done|]. intros <-.
    rewrite Ht in Hw. injection Hw as <-. congruence.
  - intros j u k Hj Hk. destruct (Hts _ _ Hj) as [[-> ->]|[_ Hj']]; [by apply (se_past _ _ _ _ Hs i t)|by apply (se_past _ _ _ _ Hs j u)].
  - intros j u s Hj Es. destruct (Hts _ _ Hj) as [[-> ->]|[_ Hj']].
    + destruct (Hslot s Es) as [E|(_ & _ & ->)]; [|lia]. pose proof (se_slot _ _ _ _ Hs _ _ _ Ht E). lia.
    + pose proof (se_slot _ _ _ _ Hs _ _ _ Hj' Es). lia.
  - assert (forall j u s, ts !! j = Some u -> t_slot u = Some s -> t_slot t' = Some s -> i = j) as Hnew.
    { intros j u s Hj Eu Es. destruct (Hslot s Es) as [E|(_ & -> & _)].
      - by eapply (se_distinct _ _ _ _ Hs).
      - pose proof (se_slot _ _ _ _ Hs _ _ _ Hj Eu). lia. }
    intros j k u w s Hj Hk Eu Ew. destruct (Hts _ _ Hj) as [[-> ->]|[_ Hj']], (Hts _ _ Hk) as [[-> ->]|[_ Hk']].
    + done.
    + by eapply Hnew.
    + symmetry. by eapply Hnew.
    + by eapply (se_distinct _ _ _ _ Hs).
Qed.

Lemma sa_moves : replay (moves A ++ (l ++ moves B) ++ [v]) m0 m'.
Proof.
  pose proof (se_replay _ _ _ _ Hs) as Hr. rewrite moves_app, moves_cons in Hr.
  rewrite app_assoc. apply replay_app. exists m. split; [done|]. by apply replay_one.
Qed.

(** A task that has no slot yet goes to the end. *)
Lemma sa_late : t_slot t = None -> exists bs, serial m0 ts' m' bs.
Proof.
  intros Es. exists (A ++ B ++ [(i, l ++ [v])]). destruct sa_order as (HA & HB & HAi & HAB & HiB).
  apply sa_serial.
  - apply Permutation_app_head. by rewrite Permutation_app_comm.
  - rewrite !moves_app, moves_cons, app_nil_r. pose proof sa_moves as Hm. apply replay_app in Hm as (m1 & H1 & H2).
    apply replay_app. exists m1. split; [done|]. apply replay_app in H2 as (m2 & H2 & H3).
    apply replay_swap in H2.
    + rewrite app_assoc. apply replay_app. by exists m2.
    + intros x y Hx Hy. apply elem_of_moves in Hy as (b & Hb & Hy). apply (indep_held (t_held t) (t_slot t)).
      * pose proof (bo_ring _ _ sa_ok x Hx) as Hr. rewrite Es in *. destruct (mv_label x) eqn:E; try done.
        apply (bo_held _ _ sa_ok). eauto.
      * rewrite Es. destruct (mv_label y) eqn:E; try done. by apply (sa_clear b y).
  - apply StronglySorted_app_2; [|apply sa_sorted; [done|]; intros; apply sa_other; auto|].
    + intros a b Hx Hy. apply elem_of_app in Hy as [Hy| ->%list_elem_of_singleton].
      * apply sa_before; [apply sa_other; auto|auto].
      * apply sa_grow; [apply sa_other; auto|auto].
    + apply StronglySorted_app_2; [|apply sa_sorted; [done|]; intros; apply sa_other; auto|by repeat constructor].
      intros b x Hb ->%list_elem_of_singleton. apply sa_grow; [apply sa_other; auto|]. intros u Hu. cbn. split.
      * intros Hd w x Hw Hx Hin. destruct (sa_block b (or_intror Hb)) as (u' & Hu' & Hok). simplify_eq.
        apply (bo_held _ _ Hok) in Hin as (w' & Hw' & Hx'). apply (sa_clear b w' x Hb Hw' Hx').
        apply (bo_held _ _ sa_ok). eauto.
      * intros Hin. destruct (se_ended _ _ _ _ Hs _ _ _ Hu Hin) as (u' & Hu' & Hd).
        pose proof sa_active. congruence.
Qed.

(** A task that has its slot stays where it is. *)
Lemma sa_stay s : t_slot t = Some s -> exists bs, serial m0 ts' m' bs.
Proof.
  intros Es. exists (A ++ (i, l ++ [v]) :: B). destruct sa_order as (HA & HB & HAi & HAB & HiB).
  pose proof (bo_phase _ _ sa_ok) as Hp. rewrite Es in Hp. apply (tail_step _ _ _ _ _ _ _ Hp) in Hl as Hlab.
  destruct Hlab as [_ Hlab]. apply sa_serial.
  - done.
  - rewrite moves_app, moves_cons. pose proof sa_moves as Hm. rewrite <- app_assoc in Hm.
    apply replay_app in Hm as (m1 & H1 & H2). apply replay_app. exists m1. split; [done|]. rewrite <- app_assoc.
    apply replay_app in H2 as (m2 & H2 & H3). apply replay_app. exists m2. split; [done|].
    apply replay_swap; [|done]. intros x y Hx ->%list_elem_of_singleton. apply indep_sym.
    apply elem_of_moves in Hx as (b & Hb & Hx). apply (indep_held (t_held t) (t_slot t)).
    + cbn. destruct lab; try done. by subst.
    + destruct (mv_label x) eqn:E; [by apply (sa_clear b x)| |]; apply (sa_slots b x); auto.
  - apply StronglySorted_app_2; [|apply sa_sorted; [done|]; intros; apply sa_other; auto|].
    + intros a b Hx Hy. apply elem_of_cons in Hy as [->|Hy].
      * apply sa_grow; [apply sa_other; auto|auto].
      * apply sa_before; [apply sa_other; auto|auto].
    + apply StronglySorted_cons. split; [|apply sa_sorted; [done|]; intros; apply sa_other; auto].
      apply Forall_forall. intros b Hb u Hu. cbn in Hu. unfold ts' in Hu.
      rewrite list_lookup_insert_eq in Hu by (by eapply lookup_lt_Some). injection Hu as <-. split.
      * intros _ w x Hw Hx Hin. apply (sa_clear b w x Hb Hw Hx). cbn in Hin. destruct lab; try done.
        apply elem_of_cons in Hin as [->|Hin]; done.
      * cbn. by apply (HiB b Hb t Ht).
Qed.
End Advance.

Lemma serial_access m0 ts m bs i t lab r m' :
  serial m0 ts m bs -> ts !! i = Some t -> lstep (t_prog t) lab r m m' -> apart ts i lab ->
  exists bs', serial m0 (<[i := advance lab r t]> ts) m' bs'.
Proof.
  intros Hs Ht Hl Ha. assert (i ∈ map fst bs) as Hi.
  { rewrite (se_perm _ _ _ _ Hs). apply elem_of_seq. apply lookup_lt_Some in Ht. lia. }
  apply list_elem_of_fmap in Hi as ([j l] & E & Hb). cbn in E. subst j.
  apply list_elem_of_split in Hb as (A & B & ->). destruct (t_slot t) as [s|] eqn:Es.
  - by eapply sa_stay.
  - by eapply sa_late.
Qed.

Lemma elem_of_ended ts j : j ∈ ended ts <-> exists t, ts !! j = Some t /\ is_done t = true.
Proof.
  unfold ended. rewrite list_elem_of_filter, elem_of_seq. split.
  - destruct (ts !! j) as [t|]; [|by intros [? _]]. intros [Hd _]. eauto.
  - intros (t & Ht & Hd). rewrite Ht. apply lookup_lt_Some in Ht. split; [done|lia].
Qed.

Lemma sorted_start ts t bs :
  (forall b, b ∈ bs -> exists u, ts !! b.1 = Some u) ->
  StronglySorted (before ts) bs -> StronglySorted (before (ts ++ [t])) bs.
Proof.
  intros Hin. induction 1 as [|a bs _ IH Hf]; constructor.
  - apply IH. intros b Hb. apply Hin. by right.
  - rewrite Forall_forall in *. intros b Hb u Hu. destruct (Hin a) as [u' Hu']; [by left|].
    rewrite (lookup_app_l_Some _ _ _ _ Hu') in Hu. injection Hu as <-. by apply Hf.
Qed.

Lemma serial_start m0 ts m bs w :
  serial m0 ts m bs -> serial m0 (ts ++ [Task w (work_prog w) [] None (ended ts)]) m (bs ++ [(length ts, [])]).
Proof.
  intros Hs. set (t := Task _ _ _ _ _).
  assert (forall j u, (ts ++ [t]) !! j = Some u -> ts !! j = Some u \/ (j = length ts /\ u = t)) as Hts.
  { intros j u Hu. apply lookup_snoc_Some in Hu as [[? ?]|[? ?]]; auto. }
  assert (forall j u, ts !! j = Some u -> (ts ++ [t]) !! j = Some u) as Hkeep.
  { intros j u Hu. by apply lookup_app_l_Some. }
  split.
  - rewrite map_app, length_app, seq_app, (se_perm _ _ _ _ Hs). done.
  - rewrite moves_app, moves_cons, !app_nil_r. apply (se_replay _ _ _ _ Hs).
  - intros b [Hb| ->%list_elem_of_singleton]%elem_of_app.
    + destruct (se_block _ _ _ _ Hs b Hb) as (u & Hu & Hok). eauto.
    + exists t. cbn. rewrite list_lookup_middle by done. split; [done|]. split; cbn; try set_solver. apply tp_work.
  - apply StronglySorted_app_2; [| |by repeat constructor].
    + intros a b Ha ->%list_elem_of_singleton u Hu. cbn. split; [intros _ w' x Hw; set_solver|].
      destruct (Hts _ _ Hu) as [Hu'|[_ ->]].
      * intros Hin. destruct (se_ended _ _ _ _ Hs _ _ _ Hu' Hin) as (u' & Hl & _). apply lookup_lt_Some in Hl. lia.
      * intros Hin. apply elem_of_ended in Hin as (u' & Hl & _). apply lookup_lt_Some in Hl. lia.
    + apply sorted_start; [|apply (se_order _ _ _ _ Hs)].
      intros b Hb. destruct (se_block _ _ _ _ Hs b Hb) as (u & Hu & _). eauto.
  - intros i u j Hu Hj. destruct (Hts _ _ Hu) as [Hu'|[_ ->]].
    + destruct (se_ended _ _ _ _ Hs _ _ _ Hu' Hj) as (u' & ? & ?). eauto.
    + apply elem_of_ended in Hj as (u' & ? & ?). eauto.
  - intros i u j Hu Hj. destruct (Hts _ _ Hu) as [Hu'|[-> ->]]; [by eapply (se_past _ _ _ _ Hs)|].
    apply elem_of_ended in Hj as (u' & Hl & _). by apply lookup_lt_Some in Hl.
  - intros i u s Hu Eu. destruct (Hts _ _ Hu) as [Hu'|[_ ->]]; [by eapply (se_slot _ _ _ _ Hs)|done].
  - intros i j u u' s Hu Hu' Eu Eu'. destruct (Hts _ _ Hu) as [?|[_ ->]], (Hts _ _ Hu') as [?|[_ ->]]; try done.
    by eapply (se_distinct _ _ _ _ Hs).
Qed.

Lemma serial_exec m0 (c : conf smp K) :
  rtc (cstep lstep true) (Conf [] m0) c -> exists bs, serial m0 (tasks c) (mem c) bs.
Proof.
  intros Hr. revert c Hr. apply (rtc_ind_r (fun c => exists bs, serial m0 (tasks c) (mem c) bs)).
  - exists []. split; cbn; try done; try apply replay_nil; try constructor. set_solver.
  - intros x y _ Hst [bs Hs]. destruct Hst as [ts m w|ts m i t l r m' Ht Hls Hf]; cbn in *.
    + eexists. by apply serial_start.
    + eapply serial_access; eauto.
Qed.

(** The tasks of the blocks, in order, and the memory they leave when all have ended. *)
Lemma replay_runs ts bs m0 m :
  (forall b, b ∈ bs -> exists t, ts !! b.1 = Some t /\ is_done t = true /\ block_ok t b.2) -> replay (moves bs) m0 m ->
  exists us, Forall2 (fun b t => ts !! b.1 = Some t) bs us /\ fold_left (fun m t => run (work_prog (t_work t)) m) us m0 = m.
Proof.
  revert m0. induction bs as [|[i l] bs IH]; intros m0 Hb Hr.
  - exists []. split; [constructor|]. by inversion Hr.
  - rewrite moves_cons in Hr. apply replay_app in Hr as (m1 & H1 & H2).
    destruct (IH m1) as (us & Hus & Hf); [set_solver|done|].
    destruct (Hb (i, l)) as (t & Ht & Hd & Hok); [set_solver|]. exists (t :: us). split; [by constructor|].
    cbn. rewrite (run_path _ l m0 m1); [done| |done]. pose proof (bo_path _ _ Hok) as Hp. unfold is_done in Hd.
    by destruct (t_prog t).
Qed.

(** What had ended when a task started comes before it. *)
Lemma serial_precedence m0 ts m bs :
  serial m0 ts m bs -> forall a i b t, map fst bs = a ++ i :: b -> ts !! i = Some t -> t_after t ⊆ a.
Proof.
  intros Hs a i b t E Ht j Hj. destruct (se_ended _ _ _ _ Hs _ _ _ Ht Hj) as (u & Hu & _).
  assert (j ∈ map fst bs) as Hin.
  { rewrite (se_perm _ _ _ _ Hs). apply elem_of_seq. apply lookup_lt_Some in Hu. lia. }
  rewrite E in Hin. apply elem_of_app in Hin as [Hin|Hin]; [done|]. exfalso.
  apply map_eq_app in E as (x & y & -> & <- & E). apply map_eq_cons in E as (z & y' & -> & <- & <-).
  pose proof (se_order _ _ _ _ Hs) as Ho. apply StronglySorted_app in Ho as (_ & _ & Ho).
  apply StronglySorted_cons in Ho as [Hz _]. rewrite Forall_forall in Hz.
  apply elem_of_cons in Hin as [->|Hin].
  - pose proof (se_past _ _ _ _ Hs _ _ _ Ht Hj). lia.
  - apply list_elem_of_fmap in Hin as (w & -> & Hw). by destruct (Hz w Hw t Ht).
Qed.
End Serial.
