(* ===== verification/SmpPool.v ===== *)
(** The memory of the kernel's hash maps, where the programs of Smp really run: the space
    of an element that is removed or replaced can be given to another key at once, while
    programs in flight still hold pointers to it.

    Each map has a pool of value slots.  A key's entry is at one of them; a pointer that a
    lookup returned is the slot's address, whoever has the slot by then.  An update that
    makes an element puts it at any slot that is no key's at that moment, used before or
    not. *)
From S2P Require Import Prelude Abi Bpf Smp SmpRefine SmpSerial.

(** ** Pools *)

(** Of each key, the addresses its pointers designate and which one the map holds. *)
Record pool (V : Set) := Pool { keys : gmap Z (elem nat); space : list V }.
Arguments Pool {V}.
Arguments keys {V}.
Arguments space {V}.

Definition pool_init : memory pool :=
  Memory (Pool ∅ []) (Pool ∅ []) (Pool ∅ []) (Pool ∅ []) (Pool ∅ []) [].

Section Pools.
Context {V : Set}.
Implicit Types (h : pool V).

Definition key_at h (k : Z) : elem nat := default no_elem (keys h !! k).

Definition set_key (k : Z) (x : elem nat) h : pool V := Pool (<[k := x]> (keys h)) (space h).

(** The slot of a key's entry. *)
Definition slot_of h (k : Z) : option nat := deref (key_at h k).

(** A slot no key has, or the next new one. *)
Definition free h (a : nat) : Prop := (a <= length (space h))%nat /\ forall k, slot_of h k <> Some a.

Definition put_slot (a : nat) (v : V) (l : list V) : list V := if (a =? length l)%nat then l ++ [v] else <[a := v]> l.

Lemma key_at_set k x h : key_at (set_key k x h) k = x.
Proof. unfold key_at. cbn. by rewrite lookup_insert_eq. Qed.
Lemma key_at_set_ne k x h k' : k <> k' -> key_at (set_key k x h) k' = key_at h k'.
Proof. intros Hk. unfold key_at. cbn. by rewrite lookup_insert_ne. Qed.

Lemma put_slot_eq a v l : (a <= length l)%nat -> put_slot a v l !! a = Some v.
Proof.
  intros Ha. unfold put_slot. destruct (Nat.eqb_spec a (length l)) as [->|]; [by apply list_lookup_middle|].
  rewrite list_lookup_insert_eq; [done|lia].
Qed.
Lemma put_slot_ne a b v l w : a <> b -> l !! b = Some w -> put_slot a v l !! b = Some w.
Proof.
  intros Hn Hb. unfold put_slot. destruct (_ =? _)%nat; [by apply lookup_app_l_Some|by rewrite list_lookup_insert_ne].
Qed.
Lemma put_slot_length a v l : (length l <= length (put_slot a v l))%nat.
Proof. unfold put_slot. destruct (_ =? _)%nat; rewrite ?length_app, ?length_insert; lia. Qed.
End Pools.

(** An access; [a] is the slot an update takes. *)
Definition do_pool {j : map_id} {A : Set} (a : nat) (o : elem_op j A) (k : Z) (h : pool (value j)) : pool (value j) * A :=
  let x := key_at h k in
  match o in elem_op _ A return pool (value j) * A with
  | MapLookup => (h, cur x)
  | MapUpdate room flags v =>
      (if makes_elem (cur x) room flags then
         Pool (<[k := Elem (Some (length (cells x))) (cells x ++ [a])]> (keys h)) (put_slot a v (space h))
       else h, tt)
  | MapDelete => (set_key k (Elem None (cells x)) h, tt)
  | PtrLoad p get =>
      (h, get (match cells x !! p with Some a => nth a (space h) (zero_value j) | None => zero_value j end))
  | PtrStore p put =>
      (match cells x !! p with Some a => Pool (keys h) (alter put a (space h)) | None => h end, tt)
  end.

Definition pool_step (a : nat) (r : prog) (h : memory pool) : prog * memory pool :=
  match r with
  | Done => (Done, h)
  | On j k o c => let '(x, b) := do_pool a o k (get_map j h) in (c b, set_map j x h)
  | Reserve c => (c (length (m_ring h)), set_ring (m_ring h ++ [Busy]) h)
  | Publish i s c => (c, set_ring (<[i := s]> (m_ring h)) h)
  end.

Definition takes (a : nat) (r : prog) (h : memory pool) : Prop :=
  match r with On j _ _ _ => free (get_map j h) a | _ => True end.

(** One access, with any free slot. *)
Definition pstep (r : prog) (l : label) (r' : prog) (h h' : memory pool) : Prop :=
  access r h = Some l /\ exists a, takes a r h /\ pool_step a r h = (r', h').

Lemma pstep_ring r l r' h h' : pstep r l r' h h' -> ring_step l (m_ring h) (m_ring h').
Proof.
  intros (Ea & a & _ & Es). destruct r as [|j k A o c| |]; cbn in *; simplify_eq; cbn; [|done|by eexists].
  destruct (do_pool a o k (get_map j h)). simplify_eq. apply ring_set_map.
Qed.

(** ** The maps a pool memory stands for *)

Record stands (h : memory pool) (s : bpf) : Prop := {
  sd_maps j k : the_map j s !! k = a ← slot_of (get_map j h) k; space (get_map j h) !! a;
  sd_events : events s = ready (m_ring h);
  sd_here j k p : cur (key_at (get_map j h) k) = Some p ->
    exists a v, cells (key_at (get_map j h) k) !! p = Some a /\ space (get_map j h) !! a = Some v;
  sd_own j k k' a : slot_of (get_map j h) k = Some a -> slot_of (get_map j h) k' = Some a -> k = k' }.

Lemma stands_init : stands pool_init bpf_init.
Proof. split; [by intros []|done|by intros []|by intros []]. Qed.

(** ** Pools and elements

    As long as programs use pointers to current elements only, it makes no difference where
    the elements are. *)

Record mirrors {V : Set} (h : pool V) (f : Z -> elem V) : Prop := {
  mi_cur k : cur (key_at h k) = cur (f k);
  mi_length k : length (cells (key_at h k)) = length (cells (f k));
  mi_value k p : cur (f k) = Some p ->
    exists a v, cells (key_at h k) !! p = Some a /\ space h !! a = Some v /\ cells (f k) !! p = Some v;
  mi_own k k' a : slot_of h k = Some a -> slot_of h k' = Some a -> k = k' }.

(** The access is a helper's or through a pointer to the current element. *)
Definition on_current {j : map_id} {A : Set} (o : elem_op j A) (x : elem (value j)) : Prop :=
  match o with PtrLoad p _ | PtrStore p _ => cur x = Some p | _ => True end.

Lemma slot_of_cur {V : Set} (h : pool V) k p a :
  cur (key_at h k) = Some p -> cells (key_at h k) !! p = Some a -> slot_of h k = Some a.
Proof. intros Ep Ea. unfold slot_of, deref. by rewrite Ep. Qed.

Lemma slot_of_Some {V : Set} (h : pool V) k a :
  slot_of h k = Some a -> exists p, cur (key_at h k) = Some p /\ cells (key_at h k) !! p = Some a.
Proof. unfold slot_of, deref. destruct (cur (key_at h k)) as [p|]; [|done]. intros Ha. by exists p. Qed.

Section Mirrors.
Context {j : map_id}.
Implicit Types (h : pool (value j)) (f g : Z -> elem (value j)).

Lemma mirrors_ext h f g : mirrors h f -> (forall k, g k = f k) -> mirrors h g.
Proof. intros [M1 M2 M3 M4] E. split; intros k; rewrite ?E; auto. apply M4. Qed.

(** A changed key [k]; the rest of the space is as it was for the others. *)
Lemma mirrors_key h h' f k x y :
  mirrors h f -> key_at h' k = x -> (forall k', k' <> k -> key_at h' k' = key_at h k') ->
  cur x = cur y -> length (cells x) = length (cells y) ->
  (forall p, cur y = Some p -> exists a v, cells x !! p = Some a /\ space h' !! a = Some v /\ cells y !! p = Some v) ->
  (forall a, deref x = Some a -> forall k', k' <> k -> slot_of h k' <> Some a) ->
  (forall k' a v, k' <> k -> slot_of h k' = Some a -> space h !! a = Some v -> space h' !! a = Some v) ->
  forall g, g k = y -> (forall k', k' <> k -> g k' = f k') -> mirrors h' g.
Proof.
  intros [M1 M2 M3 M4] Ex Hk Hc Hl Hv Hown Hsp g Ey Hg.
  assert (forall k', k' <> k -> slot_of h' k' = slot_of h k') as Hs by (intros k' Hn; unfold slot_of; by rewrite Hk).
  assert (slot_of h' k = deref x) as Hsk by (unfold slot_of; by rewrite Ex).
  split.
  - intros k'. destruct (decide (k' = k)) as [->|Hn]; [by rewrite Ex, Ey|by rewrite Hk, Hg].
  - intros k'. destruct (decide (k' = k)) as [->|Hn]; [by rewrite Ex, Ey|by rewrite Hk, Hg].
  - intros k' p. destruct (decide (k' = k)) as [->|Hn]; [rewrite Ex, Ey; auto|]. rewrite Hk, Hg by done. intros Ep.
    destruct (M3 k' p Ep) as (a & v & Ha & Hv' & Hc'). exists a, v. split_and!; try done.
    apply (Hsp k'); [done| |done]. eapply slot_of_cur; [|exact Ha]. by rewrite M1.
  - intros k1 k2 a. destruct (decide (k1 = k)) as [->|H1], (decide (k2 = k)) as [->|H2]; try done.
    + rewrite Hsk, Hs by done. intros Ha Hb. by destruct (Hown a Ha k2 H2).
    + rewrite Hsk, Hs by done. intros Ha Hb. by destruct (Hown a Hb k1 H1).
    + rewrite !Hs by done. apply M4.
Qed.

(** One access, in both memories. *)
Lemma mirrors_step {A : Set} a (o : elem_op j A) k h f :
  mirrors h f -> free h a -> on_current o (f k) ->
  (do_pool a o k h).2 = (do_elem o (f k)).2
  /\ forall g, g k = (do_elem o (f k)).1 -> (forall k', k' <> k -> g k' = f k') -> mirrors (do_pool a o k h).1 g.
Proof.
  intros Hm [Hlen Hfree] Ho.
  assert (forall g, g k = f k -> (forall k', k' <> k -> g k' = f k') -> mirrors h g) as Hsame.
  { intros g Hg Hg'. apply (mirrors_ext h f); [done|]. intros k'. destruct (decide (k' = k)) as [->|]; auto. }
  pose proof Hm as [M1 M2 M3 M4]. destruct o as [|room flags v| |B p get|p put]; cbn in Ho |- *.
  - auto.
  - split; [done|]. rewrite M1. destruct (makes_elem _ _ _); [|done].
    apply (mirrors_key h _ f k (Elem (Some (length (cells (key_at h k)))) (cells (key_at h k) ++ [a]))
             (Elem (Some (length (cells (f k)))) (cells (f k) ++ [v]))); cbn.
    + done.
    + by apply key_at_set.
    + intros k' Hk. by apply key_at_set_ne.
    + by rewrite M2.
    + by rewrite !length_app, M2.
    + intros p [= <-]. exists a, v. split_and!; [rewrite <- M2; by apply list_lookup_middle|by apply put_slot_eq|].
      by apply list_lookup_middle.
    + intros b. unfold deref. cbn. rewrite list_lookup_middle by done. intros [= <-] k' Hk. apply Hfree.
    + intros k' b w Hk Hb. apply put_slot_ne. intros <-. by apply (Hfree k').
  - split; [done|].
    apply (mirrors_key h _ f k (Elem None (cells (key_at h k))) (Elem None (cells (f k)))); cbn; try done.
    + by apply key_at_set.
    + intros k' Hk. by apply key_at_set_ne.
  - destruct (M3 k p Ho) as (b & v & Hb & Hv & Hc). split; [|auto].
    by rewrite Hb, (nth_lookup_Some _ _ _ _ Hv), (nth_lookup_Some _ _ _ _ Hc).
  - destruct (M3 k p Ho) as (b & v & Hb & Hv & Hc). split; [done|]. rewrite Hb.
    apply (mirrors_key h _ f k (key_at h k) (Elem (cur (f k)) (alter put p (cells (f k))))); cbn; try done.
    + by rewrite length_alter.
    + intros q Eq. rewrite Ho in Eq. injection Eq as <-. exists b, (put v). split_and!; [done|..].
      * by rewrite list_lookup_alter_eq, Hv.
      * by rewrite list_lookup_alter_eq, Hc.
    + intros c Ec k' Hk Ek. by apply Hk, (M4 _ _ c).
    + intros k' c w Hk Ek Hw. rewrite list_lookup_alter_ne; [done|]. intros ->. apply Hk, (M4 _ _ c); [done|].
      apply (slot_of_cur h k p); [by rewrite M1|done].
Qed.
End Mirrors.
