(* ===== verification/SmpCareful.v ===== *)
(** Programs that keep apart use no pointer that has gone stale, so that on the kernel's
    memory (SmpPool) they do what they do on elements that are never reused (Smp). *)
From stdpp Require Import relations.
From S2P Require Import Prelude Abi Bpf Smp SmpRefine SmpSerial SmpPool.

(** ** What a program knows of the maps *)

(** Entries it looked up and has neither replaced nor removed. *)
Definition known : Type := list (map_id * Z * nat).

Definition forget (j : map_id) (k : Z) (kn : known) : known := filter (fun x => x.1 <> (j, k)) kn.

Definition learn {A : Set} (j : map_id) (k : Z) (o : elem_op j A) (kn : known) : A -> known :=
  match o in elem_op _ A return A -> known with
  | MapLookup => fun r => match r with Some p => (j, k, p) :: forget j k kn | None => forget j k kn end
  | MapUpdate _ _ _ | MapDelete => fun _ => forget j k kn
  | PtrLoad _ _ => fun _ => kn
  | PtrStore _ _ => fun _ => kn
  end.

Definition uses {A : Set} (j : map_id) (k : Z) (o : elem_op j A) (kn : known) : Prop :=
  match o with PtrLoad p _ | PtrStore p _ => (j, k, p) ∈ kn | _ => True end.

(** A program that uses only pointers to what it knows to be there. *)
Fixpoint careful (kn : known) (r : prog) : Prop :=
  match r with
  | Done => True
  | On j k o c => uses j k o kn /\ forall a, careful (learn j k o kn a) (c a)
  | Reserve c => forall i, careful kn (c i)
  | Publish _ _ c => careful kn c
  end.

Lemma elem_of_forget j k kn x : x ∈ forget j k kn <-> x ∈ kn /\ x.1 <> (j, k).
Proof. unfold forget. rewrite list_elem_of_filter. tauto. Qed.

Section Programs.
Context {K : Type} `{KernelView K} (e : env K).
Implicit Types (kn : known).

Lemma careful_store kn j k p put c : (j, k, p) ∈ kn -> careful kn (c tt) -> careful kn (On j k (PtrStore p put) c).
Proof. intros Hp Hc. split; [done|]. by intros []. Qed.

Lemma careful_load {A : Set} kn j k p (get : value j -> A) c :
  (j, k, p) ∈ kn -> (forall v, careful kn (c v)) -> careful kn (On j k (PtrLoad p get) c).
Proof. intros Hp Hc. by split. Qed.

Lemma careful_publish kn i s c : careful kn c -> careful kn (Publish i s c).
Proof. done. Qed.

Lemma careful_lookup kn j k c :
  (forall kn' p, (j, k, p) ∈ kn' -> careful kn' (c (Some p))) -> (forall kn', careful kn' (c None)) ->
  careful kn (On j k MapLookup c).
Proof. intros Hs Hn. split; [done|]. intros [p|]; [apply Hs; by left|apply Hn]. Qed.

Lemma careful_update kn j k room fl v c : (forall kn', careful kn' (c tt)) -> careful kn (On j k (MapUpdate room fl v) c).
Proof. intros Hc. split; [done|]. intros []. apply Hc. Qed.

Lemma careful_delete kn j k c : (forall kn', careful kn' (c tt)) -> careful kn (On j k MapDelete c).
Proof. intros Hc. split; [done|]. intros []. apply Hc. Qed.

Lemma careful_identify kn sk p c :
  (Flows, sk, p) ∈ kn -> careful kn (c (Some p)) -> careful kn (c_identify e sk p c).
Proof.
  intros Hp Hc. apply careful_load; [done|]. intros pid. case_match; [|done]. unfold c_read_tuple.
  do 4 (apply careful_store; [done|]). case_match; do 3 (apply careful_store; [done|]); done.
Qed.

Lemma careful_flow_get kn sk c :
  (forall kn' p, (Flows, sk, p) ∈ kn' -> careful kn' (c (Some p))) -> (forall kn', careful kn' (c None)) ->
  careful kn (c_flow_get e sk c).
Proof.
  intros Hs Hn. apply careful_lookup; [intros kn' p Hp; apply careful_identify; auto|]. intros kn'.
  apply careful_update. intros kn2. apply careful_lookup; [intros kn3 p Hp; apply careful_identify; auto|done].
Qed.

Lemma careful_emit_wire kn sk p buf n dir : (Flows, sk, p) ∈ kn -> careful kn (c_emit_wire e sk p buf n dir).
Proof.
  intros Hp. unfold c_emit_wire. case_match; [|done]. intros i. case_match; [|done].
  apply careful_load; [done|]. intros cnt. by apply careful_store.
Qed.

Lemma careful_capture_wire kn sk p buf n dir : (Flows, sk, p) ∈ kn -> careful kn (c_capture_wire e sk p buf n dir).
Proof.
  intros Hp. unfold c_capture_wire. case_match; [done|]. apply careful_load; [done|]. intros cnt. case_match; [done|].
  apply careful_load; [done|]. intros cnt'.
  repeat case_match; try done; try (apply careful_store; [done|]); by apply careful_emit_wire.
Qed.

Lemma careful_ssl_stat_get kn ssl c :
  (forall kn' p, (Stats, ssl, p) ∈ kn' -> careful kn' (c (Some p))) -> (forall kn', careful kn' (c None)) ->
  careful kn (c_ssl_stat_get e ssl c).
Proof.
  intros Hs Hn. assert (forall kn' fd, careful kn' (c_make_stat e ssl fd c)) as Hm.
  { intros kn' fd. apply careful_update. intros kn2. by apply careful_lookup. }
  apply careful_lookup; [done|]. intros kn'. apply careful_lookup; [|auto].
  intros kn2 q Hq. split; [done|]. intros v. apply Hm.
Qed.

Lemma careful_emit_plaintext kn ssl buf n dir : careful kn (c_emit_plaintext e ssl buf n dir).
Proof.
  unfold c_emit_plaintext. case_match; [done|]. apply careful_ssl_stat_get; [|done]. intros kn' p Hp.
  split; [done|]. intros total. split; [done|]. intros []. case_match; [|done]. intros i. split; [done|].
  intros fd. by case_match.
Qed.

Lemma careful_ssl_free kn ssl : careful kn (c_ssl_free e ssl).
Proof.
  apply careful_lookup; [|intros kn'; by apply careful_delete]. intros kn' p Hp.
  case_match; [|apply careful_delete; intros; by apply careful_delete]. intros i.
  do 3 (apply careful_load; [done|]; intros ?). apply careful_publish, careful_delete. intros. by apply careful_delete.
Qed.
End Programs.

Lemma careful_work {K} `{KernelView K} (w : work K) kn : careful kn (work_prog w).
Proof.
  destruct w as [e p|sk]; [|by apply careful_delete]. cbn [work_prog]. destruct p; cbn [program].
  - apply careful_flow_get; [|done]. intros kn' p Hp. apply careful_load; [done|]. intros tx.
    apply careful_store; [done|]. by apply careful_capture_wire.
  - by apply careful_update.
  - apply careful_lookup; [|done]. intros kn' q Hq. do 2 (apply careful_load; [done|]; intros ?). apply careful_delete. intros kn2.
    case_match; [done|]. apply careful_flow_get; [|done]. intros kn3 p Hp. apply careful_load; [done|]. intros rx.
    apply careful_store; [done|]. by apply careful_capture_wire.
  - unfold c_inet_sock_set_state.
    assert (forall kn p st, (Flows, skaddr, p) ∈ kn -> careful kn (store skaddr p st ;! Done)) as Hst
      by (intros; by apply careful_store).
    repeat case_match; try done; (apply careful_lookup; [by auto|]); try done.
    all: intros kn'; apply careful_update; intros kn2; apply careful_lookup; [by auto|done].
  - apply careful_ssl_free.
  - by apply careful_update.
  - unfold c_ssl_write. case_match; [apply careful_emit_plaintext|done].
  - by apply careful_update.
  - apply careful_lookup; [|done]. intros kn' q Hq. do 2 (apply careful_load; [done|]; intros ?). apply careful_delete. intros kn2.
    case_match; [apply careful_emit_plaintext|done].
Qed.

(** ** Both executions, step by step *)

Section Alike.
Context {K : Type} `{KernelView K}.

(** What a task knows is so, and nobody else has touched it. *)
Definition knows (m : smp) (held : list shared) (kn : known) : Prop :=
  forall j k p, (j, k, p) ∈ kn -> resource j k ∈ held /\ cur (elem_at m j k) = Some p.

Record alike (c : conf (memory pool) K) (d : conf smp K) : Prop := {
  al_tasks : tasks c = tasks d;
  al_ring : m_ring (mem c) = m_ring (mem d);
  al_maps j : mirrors (get_map j (mem c)) (elem_at (mem d) j);
  al_known i t : tasks c !! i = Some t -> is_done t = false ->
    exists kn, careful kn (t_prog t) /\ knows (mem d) (t_held t) kn }.

Lemma knows_ring m x h kn : knows m h kn -> knows (set_ring x m) h kn.
Proof. intros Hk j k p Hp. rewrite elem_at_ring. auto. Qed.

(** After the task's own access. *)
Lemma knows_learn {A : Set} m h kn j k (o : elem_op j A) :
  knows m h kn ->
  knows (set_elem j k (do_elem o (elem_at m j k)).1 m) (resource j k :: h) (learn j k o kn (do_elem o (elem_at m j k)).2).
Proof.
  intros Hk. set (y := (do_elem o (elem_at m j k)).1).
  assert (knows (set_elem j k y m) (resource j k :: h) (forget j k kn)) as Hf.
  { intros j' k' p [Hp Hn]%elem_of_forget. cbn in Hn. destruct (Hk _ _ _ Hp) as [Hh Hc].
    split; [by right|]. by rewrite elem_at_set_ne by congruence. }
  assert (cur y = cur (elem_at m j k) -> knows (set_elem j k y m) (resource j k :: h) kn) as Hs.
  { intros Ey j' k' p Hp. destruct (Hk _ _ _ Hp) as [Hh Hc]. split; [by right|].
    destruct (decide ((j, k) = (j', k'))) as [E|]; [|by rewrite elem_at_set_ne]. simplify_eq. by rewrite elem_at_set, Ey. }
  destruct o; cbn in *; auto. destruct (cur (elem_at m j k)) as [p|] eqn:Ep; [|done].
  intros j' k' q [E|Hq]%elem_of_cons; [|by apply Hf]. simplify_eq. split; [by left|]. by rewrite elem_at_set.
Qed.

(** After the access of another task, on something this one has not touched. *)
Lemma knows_other m h kn j k x : knows m h kn -> resource j k ∉ h -> knows (set_elem j k x m) h kn.
Proof.
  intros Hk Hn j' k' p Hp. destruct (Hk _ _ _ Hp) as [Hh Hc]. split; [done|].
  rewrite elem_at_set_ne; [done|]. intros E. by simplify_eq.
Qed.

Lemma knows_on_current {A : Set} m h kn j k (o : elem_op j A) : knows m h kn -> uses j k o kn -> on_current o (elem_at m j k).
Proof. intros Hk. destruct o; cbn; try done; intros Hp; by apply Hk. Qed.

Lemma alike_access c d i t l r h' :
  alike c d -> tasks c !! i = Some t -> pstep (t_prog t) l r (mem c) h' -> apart (tasks c) i l ->
  exists m', lstep (t_prog t) l r (mem d) m' /\ alike (Conf (<[i := advance l r t]> (tasks c)) h') (Conf (<[i := advance l r t]> (tasks d)) m').
Proof.
  intros [Et Eg Hmap Hkn] Ht (Ea & a & Hfree & Es) Hap.
  assert (is_done t = false) as Hact by (unfold is_done; by destruct (t_prog t)).
  destruct (Hkn i t Ht Hact) as (kn & Hcare & Hk).
  assert (forall m', (exists kn, careful kn r /\ knows m' (t_held (advance l r t)) kn) ->
    (forall (u : task K) kn, (forall x, l = Acc x -> x ∉ t_held u) -> knows (mem d) (t_held u) kn -> knows m' (t_held u) kn) ->
    forall i' u, <[i := advance l r t]> (tasks c) !! i' = Some u -> is_done u = false ->
      exists kn, careful kn (t_prog u) /\ knows m' (t_held u) kn) as Hall.
  { intros m' Hself Hothers i' u Hu Hd. apply list_lookup_insert_Some in Hu as [(<- & <- & _)|[Hne Hu]]; [done|].
    destruct (Hkn i' u Hu Hd) as (kn' & Hc' & Hk'). exists kn'. split; [done|]. apply Hothers; [|done].
    intros x ->. by apply (Hap x i' u). }
  unfold lstep. destruct (t_prog t) as [|j k A o f|f|s ev f]; cbn in Ea, Es, Hfree, Hcare |- *; simplify_eq.
  - destruct (do_pool a o k (get_map j (mem c))) as [x b] eqn:Ep. simplify_eq. destruct Hcare as [Hu Hcare].
    destruct (mirrors_step a o k _ _ (Hmap j) Hfree (knows_on_current _ _ _ _ _ _ Hk Hu)) as [Eb Hm].
    rewrite Ep in Eb, Hm. cbn in Eb, Hm. pose proof (knows_learn _ _ _ j k o Hk) as Hl.
    destruct (do_elem o (elem_at (mem d) j k)) as [y b'] eqn:Ey. cbn in Eb, Hm, Hl. subst b'.
    exists (set_elem j k y (mem d)). split; [done|]. split; cbn.
    + by rewrite Et.
    + by rewrite ring_set_map, ring_set_elem.
    + intros j'. destruct (decide (j = j')) as [<-|Hj].
      * rewrite get_set_map. apply Hm; [apply elem_at_set|]. intros k' Hne. apply elem_at_set_ne. congruence.
      * rewrite get_set_map_ne by done. eapply mirrors_ext; [apply Hmap|]. intros k'. cbn. apply elem_at_set_ne. congruence.
    + apply Hall; [by eexists|]. intros u kn' Hn Hk'. apply knows_other; [done|]. by apply Hn.
  - exists (set_ring (m_ring (mem d) ++ [Busy]) (mem d)). rewrite <- Eg. split; [done|]. split; cbn.
    + by rewrite Et.
    + done.
    + intros j. rewrite get_set_ring. eapply mirrors_ext; [apply Hmap|]. intros k. apply elem_at_ring.
    + apply Hall; [exists kn; split; [apply Hcare|by apply knows_ring]|]. intros. by apply knows_ring.
  - exists (set_ring (<[s := ev]> (m_ring (mem d))) (mem d)). split; [done|]. split; cbn.
    + by rewrite Et.
    + by rewrite Eg.
    + intros j. rewrite get_set_ring. eapply mirrors_ext; [apply Hmap|]. intros k. apply elem_at_ring.
    + apply Hall; [exists kn; split; [done|by apply knows_ring]|]. intros. by apply knows_ring.
Qed.

Lemma alike_step c c' d :
  alike c d -> cstep pstep true c c' -> exists d', cstep lstep true d d' /\ alike c' d'.
Proof.
  intros Ha Hs. destruct Hs as [ts m w|ts m i t l r m' Ht Hp Hap].
  - destruct Ha as [Et Eg Hm Hk]. destruct d as [us n]. cbn in *. subst us. eexists. split; [apply cstep_start|].
    split; cbn; try done. intros i t Ht Hd. apply lookup_snoc_Some in Ht as [[_ Ht]|[_ <-]]; [eauto|].
    exists []. split; [apply careful_work|]. intros ? ? ? Hin. by apply elem_of_nil in Hin.
  - destruct (alike_access _ _ _ _ _ _ _ Ha Ht Hp (Hap eq_refl)) as (n' & Hl & Ha').
    pose proof (al_tasks _ _ Ha) as Et. destruct d as [us n]. cbn in *. subst us.
    eexists. split; [|exact Ha']. by eapply cstep_access.
Qed.

Lemma alike_exec c c' d :
  alike c d -> rtc (cstep pstep true) c c' -> exists d', rtc (cstep lstep true) d d' /\ alike c' d'.
Proof.
  intros Ha Hr. revert d Ha. induction Hr as [c|c c1 c2 Hs Hr IH]; intros d Ha; [exists d; split; [apply rtc_refl|done]|].
  destruct (alike_step _ _ _ Ha Hs) as (d1 & Hs1 & Ha1). destruct (IH _ Ha1) as (d2 & Hs2 & Ha2).
  exists d2. split; [by eapply rtc_l|done].
Qed.
End Alike.

(** ** What both stand for *)

(** The elements at a map's addresses. *)
Definition elems_of (j : map_id) (h : pool (value j)) : gmap Z (elem (value j)) :=
  (fun x => Elem (cur x) ((fun a => nth a (space h) (zero_value j)) <$> cells x)) <$> keys h.

Definition smp_of (h : memory pool) : smp :=
  @Memory (fun V => gmap Z (elem V)) (elems_of Flows (m_flows h)) (elems_of Stats (m_stats h)) (elems_of Fds (m_fds h))
    (elems_of Recvs (m_recv h)) (elems_of Ctxs (m_ctxs h)) (m_ring h).

Lemma elem_at_of h j k :
  elem_at (smp_of h) j k = Elem (cur (key_at (get_map j h) k))
    ((fun a => nth a (space (get_map j h)) (zero_value j)) <$> cells (key_at (get_map j h) k)).
Proof.
  unfold elem_at, key_at. assert (get_map j (smp_of h) = elems_of j (get_map j h)) as -> by by destruct j.
  unfold elems_of. rewrite lookup_fmap. by destruct (keys (get_map j h) !! k).
Qed.

Lemma mirrors_of h s j : stands h s -> mirrors (get_map j h) (elem_at (smp_of h) j).
Proof.
  intros [S1 S2 S3 S4]. split.
  - intros k. by rewrite elem_at_of.
  - intros k. rewrite elem_at_of. cbn. by rewrite length_fmap.
  - intros k p. rewrite elem_at_of. cbn. intros Ep. destruct (S3 j k p Ep) as (a & v & Ha & Hv). exists a, v.
    split_and!; [done|done|]. rewrite list_lookup_fmap, Ha. cbn. by rewrite (nth_lookup_Some _ _ _ _ Hv).
  - apply S4.
Qed.

Lemma deref_mirrors {V : Set} (h : pool V) f k :
  mirrors h f -> deref (f k) = a ← slot_of h k; space h !! a.
Proof.
  intros [M1 M2 M3 M4]. unfold slot_of, deref. rewrite M1. destruct (cur (f k)) as [p|] eqn:Ep; [|done]. cbn.
  destruct (M3 k p Ep) as (a & v & Ha & Hv & Hc). by rewrite Ha, Hc.
Qed.

Lemma reps_of h s : stands h s -> reps (smp_of h) s.
Proof.
  intros Hs. split.
  - intros j k. rewrite (deref_mirrors _ _ _ (mirrors_of h s j Hs)). apply Hs.
  - apply Hs.
  - intros j k p Ep. destruct (mi_value _ _ (mirrors_of h s j Hs) k p Ep) as (a & v & _ & _ & Hc).
    by apply lookup_lt_Some in Hc.
Qed.

Lemma stands_of (h : memory pool) m s :
  (forall j, mirrors (get_map j h) (elem_at m j)) -> m_ring h = m_ring m -> reps m s -> stands h s.
Proof.
  intros Hm Eg [R1 R2 R3]. split.
  - intros j k. by rewrite R1, (deref_mirrors _ _ _ (Hm j)).
  - by rewrite Eg.
  - intros j k p. rewrite (mi_cur _ _ (Hm j)). intros Ep. destruct (mi_value _ _ (Hm j) k p Ep) as (a & v & Ha & Hv & _). eauto.
  - intros j. apply (mi_own _ _ (Hm j)).
Qed.

Lemma alike_init {K} `{KernelView K} h s : stands h s -> alike (Conf [] h : conf (memory pool) K) (Conf [] (smp_of h)).
Proof. intros Hs. split; cbn; try done. intros j. by eapply mirrors_of. Qed.
