(* ===== verification/SmpTypes.v ===== *)
(** Whatever way the programs of bpf/tlstat.bpf.c interleave, races and stale pointers into
    reused space included: the maps' values keep their types, the ring's records are well
    formed and final, and no reservation is left behind. *)
From stdpp Require Import relations.
From S2P Require Import Prelude Abi Bpf BpfInv Smp SmpRefine SmpSerial SmpPool.

(** ** Types *)

(** [flow_wf] without the bound on the captures, which racing programs can pass. *)
Definition flow_in_width (f : flow) : Prop :=
  in_width 64 (f_tx f) /\ in_width 64 (f_rx f) /\ in_width 32 (f_pid f)
  /\ (length (f_saddr f) = 4%nat /\ Forall (in_width 32) (f_saddr f))
  /\ (length (f_daddr f) = 4%nat /\ Forall (in_width 32) (f_daddr f))
  /\ in_width 16 (f_sport f) /\ in_width 16 (f_dport f)
  /\ in_width 8 (f_is_ipv6 f) /\ in_width 8 (f_direction f)
  /\ in_width 8 (f_is_tls f) /\ in_width 8 (f_closed f)
  /\ in_width 8 (f_wire_out f) /\ in_width 8 (f_wire_in f)
  /\ (length (f_comm f) = 16%nat /\ Forall is_byte (f_comm f)).

Definition typed (j : map_id) : value j -> Prop :=
  match j with
  | Flows => flow_in_width
  | Stats => ssl_stat_wf
  | Fds => in_s32
  | Recvs => fun rc => in_width 64 (rc_sk rc)
  | Ctxs => fun c => in_width 64 (sc_ssl c)
  end.

(** A slot is filled for good. *)
Definition slot_filled (s : slot) : Prop :=
  match s with Busy => False | Ready ev => event_wf ev | Discarded => True end.

Record pool_typed (h : memory pool) : Prop := {
  ty_maps j : Forall (typed j) (space (get_map j h));
  ty_ring s : s ∈ m_ring h -> s = Busy \/ slot_filled s }.

(** What an access writes is typed, and what it may yield from typed values. *)
Definition op_typed {j : map_id} {A : Set} (o : elem_op j A) : Prop :=
  match o with
  | MapUpdate _ _ v => typed j v
  | PtrStore _ put => forall v, typed j v -> typed j (put v)
  | _ => True
  end.

Definition answer {j : map_id} {A : Set} (o : elem_op j A) : A -> Prop :=
  match o in elem_op _ A return A -> Prop with
  | PtrLoad _ get => fun a => exists v, typed j v /\ a = get v
  | _ => fun _ => True
  end.

(** A program that keeps the types whatever typed values it finds, owing slot [o]. *)
Fixpoint sound (o : option nat) (r : prog) : Prop :=
  match r with
  | Done => o = None
  | On j k op c => op_typed op /\ forall a, answer op a -> sound o (c a)
  | Reserve c => o = None /\ forall i, sound (Some i) (c i)
  | Publish i s c => o = Some i /\ slot_filled s /\ sound None c
  end.

(** ** Accesses *)

Lemma flow_zero_in_width : flow_in_width flow_zero.
Proof. unfold flow_in_width. cbn. repeat split; try done; by repeat constructor. Qed.

Lemma ssl_stat_zero_wf : ssl_stat_wf ssl_stat_zero.
Proof. done. Qed.

Lemma zero_typed j : typed j (zero_value j).
Proof. destruct j; cbn; try done. apply flow_zero_in_width. Qed.

Lemma nth_Forall {V} (P : V -> Prop) (l : list V) p d : Forall P l -> P d -> P (nth p l d).
Proof. intros Hl Hd. revert p. induction Hl; intros [|p]; cbn; auto. Qed.

Lemma sound_ptr_load o j k p {A : Set} (get : value j -> A) c :
  (forall v, typed j v -> sound o (c (get v))) -> sound o (On j k (PtrLoad p get) c).
Proof. intros Hc. split; [done|]. intros a (v & Hv & ->). auto. Qed.

Lemma sound_ptr_store o j k p put c :
  (forall v, typed j v -> typed j (put v)) -> sound o (c tt) -> sound o (On j k (PtrStore p put) c).
Proof. intros Hp Hc. split; [done|]. by intros []. Qed.

Lemma sound_load o sk p get c : (forall f, flow_in_width f -> sound o (c (get f))) -> sound o (load sk p get c).
Proof. apply (sound_ptr_load o Flows). Qed.

Lemma sound_store o sk p st c :
  (forall f, flow_in_width f -> flow_in_width (put_field st f)) -> sound o (c tt) -> sound o (store sk p st c).
Proof. apply (sound_ptr_store o Flows). Qed.

Lemma sound_lookup o j k c : (forall p, sound o (c p)) -> sound o (On j k MapLookup c).
Proof. intros Hc. split; [done|]. auto. Qed.

Lemma sound_update o j k room fl v c : typed j v -> sound o (c tt) -> sound o (On j k (MapUpdate room fl v) c).
Proof. intros Hv Hc. split; [done|]. by intros []. Qed.

Lemma sound_delete o j k c : sound o (c tt) -> sound o (On j k MapDelete c).
Proof. intros Hc. split; [done|]. by intros []. Qed.

Lemma sound_publish i s c : slot_filled s -> sound None c -> sound (Some i) (Publish i s c).
Proof. done. Qed.

(** ** Programs *)

Section Sound.
Context {K : Type} `{KernelViewOk K} (e : env K) (He : env_ok e).

(** A store of a typed value. *)
Ltac stored := intros; unfold flow_in_width, put_field, flow_set_ident, flow_set_tuple, flow_set_direction,
  flow_set_tls, flow_set_closed in *; cbn in *; repeat case_match; cbn; tauto.

Lemma sound_read_tuple o sk p c : sound o (c tt) -> sound o (c_read_tuple e sk p c).
Proof.
  intros Hc. unfold c_read_tuple. set (k := e_kmem e).
  pose proof (skc_num_ok k sk). pose proof (ntohs_range _ (skc_dport_ok k sk)).
  pose proof (skc_v6_rcv_saddr_ok k sk). pose proof (skc_v6_daddr_ok k sk).
  pose proof (fun f => insert_tuple_wf (f_saddr f)) as Hsa. pose proof (fun f => insert_tuple_wf (f_daddr f)) as Hda.
  pose proof (skc_rcv_saddr_ok k sk). pose proof (skc_daddr_ok k sk).
  assert (in_width 8 0 /\ in_width 8 1) by (unfold in_width; lia).
  do 2 (apply sound_store; [stored|]). case_match.
  - do 3 (apply sound_store; [stored|]). done.
  - do 3 (apply sound_store; [intros f; specialize (Hsa f (skc_rcv_saddr k sk)); specialize (Hda f (skc_daddr k sk)); stored|]).
    done.
Qed.

Lemma sound_identify o sk p c : sound o (c (Some p)) -> sound o (c_identify e sk p c).
Proof.
  intros Hc. apply sound_load. intros f _. case_match; [|done]. destruct He as (_ & Hcomm & _).
  pose proof (tgid_of_range (e_pid_tgid e)). do 2 (apply sound_store; [stored|]). by apply sound_read_tuple.
Qed.

Lemma sound_flow_get o sk c : (forall p, sound o (c p)) -> sound o (c_flow_get e sk c).
Proof.
  intros Hc. apply sound_lookup. intros [p|]; [by apply sound_identify|].
  apply sound_update; [apply flow_zero_in_width|]. apply sound_lookup. intros [p|]; [by apply sound_identify|done].
Qed.

Lemma sound_emit_wire sk p buf n dir :
  in_width 64 sk -> dir = DIR_OUT \/ dir = DIR_IN -> sound None (c_emit_wire e sk p buf n dir).
Proof.
  intros Hsk Hdir. unfold c_emit_wire. destruct (e_ring e 1036) as [mem|] eqn:Hmem; [|done].
  cbn [sound]. split; [done|]. intros i. destruct (e_user e buf _) as [bs|] eqn:Hbs; [|done].
  destruct (payload_wf e buf n 1036 mem bs) as [Hl Hb]; auto.
  apply sound_load. intros f _. pose proof (wrap_range 8 (wire_cnt dir f + 1) ltac:(lia)).
  apply sound_store; [stored|]. cbn. repeat split; auto; apply clamp_cap_range || apply Hsk.
Qed.

Lemma sound_capture_wire sk p buf n dir :
  in_width 64 sk -> dir = DIR_OUT \/ dir = DIR_IN -> sound None (c_capture_wire e sk p buf n dir).
Proof.
  intros Hsk Hdir. unfold c_capture_wire. case_match; [done|]. apply sound_load. intros f _.
  case_match; [done|]. apply sound_load. intros f' _. case_match; [|by apply sound_emit_wire].
  repeat (case_match; [done|]). case_match; [|done]. case_match; [done|].
  assert (in_width 8 1) by (unfold in_width; lia). apply sound_store; [stored|]. by apply sound_emit_wire.
Qed.

(** Adding to a total, then the capture. *)
Lemma sound_count sk p get (st : Z -> flow_store) n buf dir :
  in_width 64 sk -> dir = DIR_OUT \/ dir = DIR_IN ->
  (forall v f, in_width 64 v -> flow_in_width f -> flow_in_width (put_field (st v) f)) ->
  sound None (let! v := load sk p get in store sk p (st (wrap 64 (v + n))) ;! c_capture_wire e sk p buf n dir).
Proof.
  intros Hsk Hdir Hst. apply sound_load. intros f _. apply sound_store; [|by apply sound_capture_wire].
  intros g. apply Hst. apply wrap_range. lia.
Qed.

Lemma sound_make_stat o ssl fd c : in_s32 fd -> (forall p, sound o (c p)) -> sound o (c_make_stat e ssl fd c).
Proof.
  intros Hfd Hc. apply sound_update; [|by apply sound_lookup]. pose proof (tgid_of_range (e_pid_tgid e)).
  cbn. unfold ssl_stat_wf. by cbn.
Qed.

Lemma sound_ssl_stat_get o ssl c : (forall p, sound o (c p)) -> sound o (c_ssl_stat_get e ssl c).
Proof.
  intros Hc. apply sound_lookup. intros [p|]; [done|]. apply sound_lookup.
  intros [q|]; [apply sound_ptr_load; intros v Hv|]; by apply sound_make_stat.
Qed.

Lemma sound_emit_plaintext ssl buf n dir :
  in_width 64 ssl -> dir = DIR_OUT \/ dir = DIR_IN -> sound None (c_emit_plaintext e ssl buf n dir).
Proof.
  intros Hssl Hdir. unfold c_emit_plaintext. case_match; [done|]. apply sound_ssl_stat_get. intros [p|]; [|done].
  apply sound_ptr_load. intros v _. apply sound_ptr_store.
  { intros st Hst. pose proof (wrap_range 64 (get_total dir v + n) ltac:(lia)). cbn in *. unfold put_total, ssl_stat_wf in *.
    case_match; cbn; tauto. }
  destruct (e_ring e 1048) as [mem|] eqn:Hmem; [|done]. split; [done|]. intros i. apply sound_ptr_load. intros st Hst.
  cbv zeta. destruct (e_user e buf _) as [bs|] eqn:Hbs; [|done].
  destruct (payload_wf e buf n 1048 mem bs) as [Hl Hb]; auto. apply sound_publish; [|done].
  destruct Hst as (_ & _ & _ & Hfd). pose proof (clamp_cap_range n). pose proof (tgid_of_range (e_pid_tgid e)).
  pose proof (wrap_range 32 (e_pid_tgid e) ltac:(lia)). cbn. unfold data_event_wf; cbn. unfold DATA_CAP in *. tauto.
Qed.

Lemma sound_ssl_free ssl : in_width 64 ssl -> sound None (c_ssl_free e ssl).
Proof.
  intros Hssl. assert (forall o, o = None -> sound o (On Stats ssl MapDelete ;! On Fds ssl MapDelete ;! Done)) as Hdrop
    by (intros; do 2 apply sound_delete; done).
  apply sound_lookup. intros [p|]; [|by apply sound_delete]. destruct (e_ring e 36) as [mem|] eqn:Hm; [|by apply Hdrop].
  split; [done|]. intros i. do 3 (apply sound_ptr_load; intros ? (? & ? & ? & ?)). apply sound_publish; [|by apply Hdrop].
  destruct He as (_ & _ & _ & Hr). destruct (Hr _ _ Hm).
  assert (zlen (ztake 3 (zdrop 1 mem)) = 3) by (rewrite zlen_ztake; rewrite ?zlen_zdrop; lia).
  assert (length (ztake 3 (zdrop 1 mem)) = 3%nat) by (unfold zlen in *; lia).
  assert (Forall is_byte (ztake 3 (zdrop 1 mem))) by (by apply Forall_take, Forall_drop).
  pose proof (tgid_of_range (e_pid_tgid e)). cbn. unfold close_event_wf; cbn. tauto.
Qed.

Lemma sound_program p : probe_ok p -> sound None (program e p).
Proof.
  intros Hp. destruct p; cbn [program probe_ok] in *.
  - apply sound_flow_get. intros [q|]; [|done]. apply (sound_count _ _ _ StTx); [apply Hp|by left|]. stored.
  - apply sound_update; [apply Hp|done].
  - apply sound_lookup. intros [q|]; [|done]. apply sound_ptr_load. intros v Hv. apply sound_ptr_load. intros v' _.
    apply sound_delete. case_match; [done|]. apply sound_flow_get. intros [p|]; [|done].
    apply (sound_count _ _ _ StRx); [exact Hv|by right|]. stored.
  - assert (in_width 8 0 /\ in_width 8 1) by (unfold in_width; lia).
    assert (in_width 8 (if oldstate =? TCP_SYN_RECV then DIR_IN else DIR_OUT)) by (by case_match).
    unfold c_inet_sock_set_state. destruct (negb _); [done|]. destruct (newstate =? TCP_ESTABLISHED); [|destruct (_ || _); [|done]].
    + apply sound_lookup. intros [q|]; [apply sound_store; [stored|done]|]. apply sound_update; [apply flow_zero_in_width|].
      apply sound_lookup. intros [q|]; [apply sound_store; [stored|done]|done].
    + apply sound_lookup. intros [q|]; [apply sound_store; [stored|done]|done].
  - by apply sound_ssl_free.
  - apply sound_update; [apply Hp|done].
  - unfold c_ssl_write. case_match; [|done]. apply sound_emit_plaintext; [apply Hp|by left].
  - apply sound_update; [apply Hp|done].
  - apply sound_lookup. intros [q|]; [|done]. apply sound_ptr_load. intros v Hv. apply sound_ptr_load. intros v' _.
    apply sound_delete. case_match; [|done]. apply sound_emit_plaintext; [exact Hv|by right].
Qed.
End Sound.

Definition work_ok {K} (w : work K) : Prop :=
  match w with Firing e p => env_ok e /\ probe_ok p | Deletion _ => True end.

Lemma sound_work {K} `{KernelViewOk K} (w : work K) : work_ok w -> sound None (work_prog w).
Proof. destruct w as [e p|sk]; [intros [He Hp]; by apply sound_program|]. intros _. cbn. auto. Qed.

(** ** Steps *)

Lemma pool_typed_init : pool_typed pool_init.
Proof. split; [by intros []|]. intros s Hs. by apply elem_of_nil in Hs. Qed.

(** One access in a pool of typed values, wherever the pointer has come to point. *)
Lemma do_pool_typed {j : map_id} {A : Set} a (o : elem_op j A) k (h : pool (value j)) :
  op_typed o -> Forall (typed j) (space h) ->
  Forall (typed j) (space (do_pool a o k h).1) /\ answer o (do_pool a o k h).2.
Proof.
  intros Ho Hh. destruct o as [|room fl v| |B p get|p put]; cbn in *; try done.
  - split; [|done]. destruct (makes_elem _ _ _); [|done]. cbn. unfold put_slot.
    destruct (_ =? _)%nat; [apply Forall_app; split; [done|by repeat constructor]|by apply Forall_insert].
  - split; [done|]. eexists. split; [|reflexivity]. case_match; [|apply zero_typed]. apply nth_Forall; [done|apply zero_typed].
  - split; [|done]. case_match; [|done]. cbn. apply Forall_alter; auto.
Qed.

(** One access of a sound program: types are kept, and what it owes changes with its
    reservations. *)
Lemma step_typed o r m l r' m' :
  sound o r -> pool_typed m -> pstep r l r' m m' ->
  pool_typed m' /\ sound (match l with Acc _ => o | Rsv i => Some i | Pub _ => None end) r'.
Proof.
  intros Hr [T1 T2] (Ea & a & _ & Es). destruct r as [|j k A op c| |]; cbn in Ea, Es, Hr; simplify_eq.
  - destruct Hr as [Ho Hc]. destruct (do_pool_typed a op k _ Ho (T1 j)) as [Hx Ha].
    destruct (do_pool a op k (get_map j m)) as [x b]. simplify_eq. split; [|by apply Hc]. split.
    + intros j'. destruct (decide (j = j')) as [<-|]; [by rewrite get_set_map|by rewrite get_set_map_ne].
    + rewrite ring_set_map. done.
  - destruct Hr as [_ Hc]. split; [|apply Hc]. split; cbn; [intros j; rewrite get_set_ring; auto|]. intros s Hs.
    apply elem_of_app in Hs as [Hs| ->%list_elem_of_singleton]; auto.
  - destruct Hr as (_ & Hs & Hc). split; [|done]. split; cbn; [intros j; rewrite get_set_ring; auto|]. intros s' Hs'.
    apply list_elem_of_lookup in Hs' as [j Hj]. apply list_lookup_insert_Some in Hj as [(-> & -> & _)|[_ Hj]]; [by right|].
    by apply T2, list_elem_of_lookup_2 with j.
Qed.

(** A sound program publishes the slot it owes, and reserves when it owes none. *)
Lemma sound_label o r l r' m m' :
  sound o r -> pstep r l r' m m' -> match l with Acc _ => True | Rsv _ => o = None | Pub i => o = Some i end.
Proof. intros Hr [Ea _]. destruct r; cbn in *; simplify_eq; naive_solver. Qed.

(** ** Executions *)

(** What the reader can take: the records before the first that is still reserved. *)
Fixpoint consumable (ring : list slot) : list event :=
  match ring with
  | [] => []
  | Busy :: _ => []
  | Ready ev :: ring => ev :: consumable ring
  | Discarded :: ring => consumable ring
  end.

Lemma consumable_ready ring : Busy ∉ ring -> consumable ring = ready ring.
Proof.
  induction ring as [|[|ev|] ring IH]; intros Hb; cbn; [done|set_solver| |].
  - by rewrite IH by set_solver.
  - apply IH. set_solver.
Qed.

(** Filled slots that stay. *)
Definition ring_grows (a b : list slot) : Prop := forall i s, a !! i = Some s -> s <> Busy -> b !! i = Some s.

Lemma consumable_grows a b : ring_grows a b -> consumable a `prefix_of` consumable b.
Proof.
  revert b. induction a as [|x a IH]; intros b Hg; [apply prefix_nil|].
  assert (x = Busy \/ (x <> Busy /\ exists b', b = x :: b' /\ ring_grows a b')) as [->|(Hx & b' & -> & Hg')].
  { destruct x as [|ev|]; [by left| |]; right; (split; [done|]).
    all: pose proof (Hg 0%nat _ eq_refl ltac:(done)) as H0; destruct b as [|y b]; cbn in H0; [done|].
    all: injection H0 as ->; exists b; split; [done|]; intros i s; apply (Hg (S i)). }
  - apply prefix_nil.
  - destruct x; cbn; [done| |]; auto. by apply prefix_cons, IH.
Qed.

Section Races.
Context {K : Type} `{KernelViewOk K}.
Implicit Types (c : conf (memory pool) K) (ts : list (task K)).

Definition works_ok c : Prop := Forall (fun t => work_ok (t_work t)) (tasks c).

(** [os] is what each task owes. *)
Record races_inv c (os : list (option nat)) : Prop := {
  ri_typed : pool_typed (mem c);
  ri_sound : Forall2 (fun t o => sound o (t_prog t)) (tasks c) os;
  ri_owed i : m_ring (mem c) !! i = Some Busy <-> Some i ∈ os;
  ri_distinct a b i : os !! a = Some (Some i) -> os !! b = Some (Some i) -> a = b }.

Lemma races_start ts m w os af :
  work_ok w -> races_inv (Conf ts m) os -> races_inv (Conf (ts ++ [Task w (work_prog w) [] None af]) m) (os ++ [None]).
Proof.
  intros Hw [H1 H2 H3 H4]. split; cbn in *.
  - done.
  - apply Forall2_app; [done|]. constructor; [by apply sound_work|constructor].
  - intros i. rewrite H3, elem_of_app, list_elem_of_singleton. naive_solver.
  - intros a b i Ha Hb. apply lookup_snoc_Some in Ha as [[_ Ha]|[_ Ha]]; [|done].
    apply lookup_snoc_Some in Hb as [[_ Hb]|[_ Hb]]; [|done]. eauto.
Qed.

(** Changing what one task owes. *)
Lemma owed_insert (os : list (option nat)) a o' i :
  (a < length os)%nat -> (forall o, os !! a = Some o -> o <> Some i) -> Some i ∈ <[a := o']> os <-> o' = Some i \/ Some i ∈ os.
Proof.
  intros Ha Ho. rewrite !list_elem_of_lookup. split.
  - intros [b Hb]. apply list_lookup_insert_Some in Hb as [(-> & <- & _)|[_ Hb]]; eauto.
  - intros [->|[b Hb]]; [exists a; by apply list_lookup_insert_eq|]. exists b. rewrite list_lookup_insert_ne; [done|].
    intros <-. by apply (Ho _ Hb).
Qed.

Lemma races_access ts m os i t l r m' :
  races_inv (Conf ts m) os -> ts !! i = Some t -> pstep (t_prog t) l r m m' ->
  ring_grows (m_ring m) (m_ring m') /\ exists os', races_inv (Conf (<[i := advance l r t]> ts) m') os'.
Proof.
  intros [H1 H2 H3 H4] Ht Hl. cbn in *. destruct (Forall2_lookup_l _ _ _ _ _ H2 Ht) as (o & Ho & Hr).
  destruct (step_typed _ _ _ _ _ _ Hr H1 Hl) as [Hm Hs]. pose proof (pstep_ring _ _ _ _ _ Hl) as Hg.
  pose proof (sound_label _ _ _ _ _ _ Hr Hl) as Hlab. pose proof (lookup_lt_Some _ _ _ Ho) as Hi.
  set (o' := match l with Acc _ => o | Rsv i => Some i | Pub _ => None end) in *.
  assert (Forall2 (fun t o => sound o (t_prog t)) (<[i := advance l r t]> ts) (<[i := o']> os)) as H2'.
  { by apply Forall2_insert. }
  destruct l as [x|j|j]; subst o'.
  - rewrite Hg in *. split; [by intros k s|]. exists os. rewrite (list_insert_id os i o) in H2' by done. by split; cbn; rewrite ?Hg.
  - destruct Hg as [-> Hg]. subst o. split.
    { intros k s Hk _. rewrite Hg. by apply lookup_app_l_Some. }
    eexists. split; [done|exact H2'| |]; cbn.
    + intros k. rewrite owed_insert, <- H3, Hg, lookup_snoc_Some; [|done|by intros o Ho'; simplify_eq]. split.
      * intros [[_ Hk]|[-> _]]; auto.
      * intros [[= ->]|Hk]; [by right|left]. split; [by eapply lookup_lt_Some|done].
    + intros a b k Ha Hb. apply list_lookup_insert_Some in Ha as [(<- & Ea & _)|[Hna Ha]];
        apply list_lookup_insert_Some in Hb as [(<- & Eb & _)|[Hnb Hb']]; try done.
      * injection Ea as <-. apply list_elem_of_lookup_2, H3, lookup_lt_Some in Hb'. lia.
      * injection Eb as <-. apply list_elem_of_lookup_2, H3, lookup_lt_Some in Ha. lia.
      * eauto.
  - destruct Hg as [s Hg]. subst o. assert (m_ring m !! j = Some Busy) as Hj by (apply H3; by eapply list_elem_of_lookup_2).
    split.
    { intros k s' Hk Hs'. rewrite Hg, list_lookup_insert_ne; [done|]. congruence. }
    assert (s <> Busy) as Hsb.
    { destruct Hl as (Ea & a & _ & Es). destruct (t_prog t); cbn in Ea, Es, Hr; simplify_eq. destruct Hr as (_ & Hok & _).
      cbn in Hg. apply (f_equal (fun l => l !! j)) in Hg. pose proof (lookup_lt_Some _ _ _ Hj) as Hlt.
      rewrite !list_lookup_insert_eq in Hg by done. intros ->. by simplify_eq. }
    eexists. split; [done|exact H2'| |]; cbn.
    + intros k. rewrite Hg. destruct (decide (k = j)) as [->|Hk].
      * rewrite list_lookup_insert_eq by (by eapply lookup_lt_Some). split; [congruence|]. intros Hin.
        apply list_elem_of_lookup in Hin as [b Hb]. apply list_lookup_insert_Some in Hb as [(_ & ? & _)|[Hne Hb]]; [done|].
        by destruct (Hne (H4 _ _ _ Ho Hb)).
      * rewrite list_lookup_insert_ne by done. rewrite owed_insert, H3; [naive_solver|done|].
        intros o' Ho'. rewrite Ho in Ho'. congruence.
    + intros a b k Ha Hb. apply list_lookup_insert_Some in Ha as [(_ & ? & _)|[_ Ha]]; [done|].
      apply list_lookup_insert_Some in Hb as [(_ & ? & _)|[_ Hb]]; [done|]. eauto.
Qed.

Lemma works_ok_back free c c' : cstep pstep free c c' -> works_ok c' -> works_ok c.
Proof.
  unfold works_ok. intros [ts m w|ts m i t l r m' Ht _ _]; cbn; rewrite !Forall_forall.
  - intros Hw t Ht. apply Hw. set_solver.
  - intros Hw u Hu. apply list_elem_of_lookup in Hu as [j Hj]. destruct (decide (i = j)) as [->|].
    + rewrite Ht in Hj. injection Hj as <-. apply (Hw (advance l r t)). apply list_elem_of_lookup. exists j.
      apply list_lookup_insert_eq. by eapply lookup_lt_Some.
    + apply Hw, list_elem_of_lookup. exists j. by rewrite list_lookup_insert_ne.
Qed.

Lemma races_step free c c' os :
  cstep pstep free c c' -> works_ok c' -> races_inv c os ->
  ring_grows (m_ring (mem c)) (m_ring (mem c')) /\ exists os', races_inv c' os'.
Proof.
  intros [ts m w|ts m i t l r m' Ht Hl _] Hw Hi; cbn.
  - split; [by intros i s|]. eexists. apply races_start; [|done]. unfold works_ok in Hw. cbn in Hw.
    apply Forall_app in Hw as [_ Hw]. by inversion Hw.
  - eapply races_access; eauto.
Qed.

Lemma works_ok_exec free c c' : rtc (cstep pstep free) c c' -> works_ok c' -> works_ok c.
Proof. induction 1 as [|x y z Hs _ IH]; [done|]. intros Hw. eapply works_ok_back; [exact Hs|auto]. Qed.

Lemma races_exec free c c' os :
  rtc (cstep pstep free) c c' -> works_ok c' -> races_inv c os ->
  works_ok c /\ ring_grows (m_ring (mem c)) (m_ring (mem c')) /\ exists os', races_inv c' os'.
Proof.
  intros Hr. revert os. induction Hr as [c|c c1 c2 Hs Hr IH]; intros os Hw Hi.
  { split; [done|]. split; [by intros i s|by exists os]. }
  pose proof (works_ok_exec _ _ _ Hr Hw) as Hw1.
  destruct (races_step _ _ _ _ Hs Hw1 Hi) as [Hg [os1 Hi1]]. destruct (IH os1 Hw Hi1) as (_ & Hg2 & Hi2).
  split; [by eapply works_ok_back|]. split; [|done]. intros i s Hl Hne. apply Hg2; [by apply Hg|done].
Qed.

Lemma races_init : races_inv (Conf [] pool_init) [].
Proof. split; cbn; [apply pool_typed_init|constructor| |done]. intros i. split; [done|]. intros Hi. by apply elem_of_nil in Hi. Qed.

(** Nothing is owed when nothing is in flight. *)
Lemma quiet_filled c os : races_inv c os -> quiet c -> Busy ∉ m_ring (mem c).
Proof.
  intros [_ H2 H3 _] Hq Hb. apply list_elem_of_lookup in Hb as [i Hi]. apply H3, list_elem_of_lookup in Hi as [j Hj].
  destruct (Forall2_lookup_r _ _ _ _ _ H2 Hj) as (t & Ht & Hs). unfold quiet in Hq. rewrite Forall_lookup in Hq.
  specialize (Hq _ _ Ht). unfold is_done in Hq. by destruct (t_prog t).
Qed.
End Races.
