(* ===== verification/SmpProps.v ===== *)
(** Properties of the eBPF programs on several processors: without overlaps on a socket,
    session or thread the concurrent model refines the atomic one; with any overlap the
    types and the ring's records hold; and what an overlap can cost. *)
From stdpp Require Import relations.
From S2P Require Import Prelude Abi Bpf BpfInv BpfFrame BpfProps Loader LoaderProps Smp SmpRefine SmpSerial SmpPool SmpCareful SmpTypes.

(** ** Room *)

(** [n] more entries fit into every map. *)
Definition spare (s : bpf) (n : nat) : Prop := forall j, Z.of_nat (size (the_map j s)) + Z.of_nat n <= map_max j.

(** Maps that differ at one key at most. *)
Definition near {V} (a b : gmap Z V) : Prop := exists k, forall k', k' <> k -> b !! k' = a !! k'.

Lemma near_refl {V} (a : gmap Z V) : near a a.
Proof. by exists 0. Qed.
Lemma near_eq {V} (a b : gmap Z V) : b = a -> near a b.
Proof. intros ->. apply near_refl. Qed.
Lemma near_delete {V} k (a : gmap Z V) : near a (delete k a).
Proof. exists k. intros k' Hk. by rewrite lookup_delete_ne. Qed.
Lemma near_update {V} max room fl k (v : V) a : near a (map_update_elem max room fl k v a).
Proof. exists k. intros k' Hk. by rewrite map_update_elem_ne. Qed.
#[local] Hint Resolve near_refl near_eq near_delete near_update : core.

Lemma near_size {V} (a b : gmap Z V) : near a b -> (size b <= S (size a))%nat.
Proof.
  intros [k Hk]. transitivity (size (partial_alter (fun _ => b !! k) k a)).
  - apply Nat.eq_le_incl. f_equal. apply map_eq. intros k'. destruct (decide (k' = k)) as [->|].
    + by rewrite lookup_partial_alter_eq.
    + by rewrite lookup_partial_alter_ne, Hk by done.
  - destruct (b !! k) as [v|].
    + change (partial_alter _ k a) with (<[k := v]> a). rewrite map_size_insert. case_match; unfold id; lia.
    + change (partial_alter _ k a) with (delete k a). pose proof (size_delete_le a k). lia.
Qed.

Section Room.
Context {K : Type} `{KernelView K}.

Lemma emit_plaintext_ctxs (e : env K) ssl buf n dir s : ssl_ctxs (emit_plaintext e ssl buf n dir s) = ssl_ctxs s.
Proof.
  unfold emit_plaintext, ssl_stat_get. case_match; [done|].
  destruct (ssl_stats s !! ssl); cbn; repeat case_match; done.
Qed.

Definition all_near (s s' : bpf) : Prop :=
  near (flows s) (flows s') /\ near (ssl_stats s) (ssl_stats s') /\ near (ssl_fds s) (ssl_fds s')
  /\ near (recv_ctxs s) (recv_ctxs s') /\ near (ssl_ctxs s) (ssl_ctxs s').

Lemma all_near_count (e : env K) sk buf n dir upd s : all_near s (count_and_capture e sk buf n dir upd s).
Proof.
  destruct (count_and_capture_frame e sk buf n dir upd s) as (Hf & _ & Hr & Hs & Hd & Hc).
  repeat split; auto. by exists sk.
Qed.

Lemma all_near_plain (e : env K) ssl buf n dir s : all_near s (emit_plaintext e ssl buf n dir s).
Proof.
  destruct (emit_plaintext_frame e ssl buf n dir s) as (Hf & Hr & Hd & _ & Hs).
  repeat split; auto using emit_plaintext_ctxs. by exists ssl.
Qed.

Lemma all_near_work (w : work K) s : all_near s (work_atomic w s).
Proof.
  destruct w as [e p|sk]; [|by repeat split; cbn; auto]. destruct p; cbn [work_atomic fire].
  - rewrite k_tcp_sendmsg_eq. apply all_near_count.
  - repeat split; cbn; auto.
  - rewrite kr_tcp_recvmsg_eq. destruct (recv_ctxs s !! _) as [rc|]; [|by repeat split; auto]. cbv zeta.
    case_match; [by repeat split; cbn; auto|].
    match goal with |- context [count_and_capture e ?sk ?b ?n ?d ?u ?s1] =>
      destruct (count_and_capture_frame e sk b n d u s1) as (Hf & _ & Hr & Hs & Hd & Hc) end.
    repeat split; rewrite ?Hr, ?Hs, ?Hd, ?Hc; cbn; auto. by exists (rc_sk rc).
  - unfold tp_inet_sock_set_state. repeat case_match; repeat split; cbn; auto; exists skaddr; intros k Hk;
      rewrite ?lookup_insert_ne, ?map_update_elem_ne by done; done.
  - unfold u_ssl_free. destruct (ssl_stats s !! ssl) as [st|]; [case_match|]; repeat split; cbn; auto.
  - repeat split; cbn; auto.
  - unfold u_ssl_write. case_match; [apply all_near_plain|by repeat split; auto].
  - repeat split; cbn; auto.
  - unfold ur_ssl_read. destruct (ssl_ctxs s !! _) as [c|]; [|by repeat split; auto]. cbv zeta.
    case_match; [|by repeat split; cbn; auto].
    match goal with |- context [emit_plaintext e ?a ?b ?n ?d ?s1] =>
      pose proof (emit_plaintext_ctxs e a b n d s1) as Hc; destruct (emit_plaintext_frame e a b n d s1) as (Hf & Hr & Hd & _ & Hs) end.
    repeat split; rewrite ?Hf, ?Hr, ?Hd, ?Hc; cbn; auto. by exists (sc_ssl c).
Qed.

Lemma spare_work (w : work K) s n : spare s (S n) -> spare (work_atomic w s) n.
Proof.
  destruct (all_near_work w s) as (H1%near_size & H2%near_size & H3%near_size & H4%near_size & H5%near_size).
  intros Hs j. specialize (Hs j). destruct j; cbn in *; lia.
Qed.

Lemma spare_room (w : work K) s n : spare s (S n) -> work_room w s.
Proof. intros Hs. destruct w; [|done]. intros _ j. specialize (Hs j). lia. Qed.

(** Runs one after another. *)
Lemma runs_refine (us : list (task K)) m s :
  reps m s -> spare s (length us) ->
  reps (fold_left (fun m t => run (work_prog (t_work t)) m) us m) (fold_left (fun s t => work_atomic (t_work t) s) us s).
Proof.
  revert m s. induction us as [|t us IH]; intros m s Hr Hs; cbn; [done|].
  apply IH; [|by apply spare_work]. apply run_work; [done|by eapply spare_room].
Qed.
End Room.

(** ** Schedules, for concrete executions *)

Inductive choice (K : Type) : Type :=
| Start (w : work K)
| Go (i : nat).
Arguments Start {K}.
Arguments Go {K}.

Definition apartb {K} (ts : list (task K)) (i : nat) (l : label) : bool :=
  match l with
  | Acc x => forallb (fun j => match ts !! j with
      | Some t => (j =? i)%nat || is_done t || negb (bool_decide (x ∈ t_held t))
      | None => true end) (seq 0 (length ts))
  | _ => true
  end.

Lemma apartb_apart {K} (ts : list (task K)) i l : apartb ts i l = true -> apart ts i l.
Proof.
  intros Ha x j t -> Ht Hd Hj. cbn in Ha. rewrite forallb_forall in Ha.
  specialize (Ha j). rewrite Ht in Ha. pose proof (lookup_lt_Some _ _ _ Ht).
  assert (In j (seq 0 (length ts))) as Hin by (apply in_seq; lia). specialize (Ha Hin).
  rewrite Hd, orb_false_r in Ha. rewrite (proj2 (Nat.eqb_neq _ _)) in Ha by done. cbn in Ha.
  apply negb_true_iff in Ha. by apply bool_decide_eq_false in Ha.
Qed.

(** The first free slot: space is reused as soon as it can be. *)
Definition taken {V : Set} (h : pool V) : list nat := omap (fun kx => deref kx.2) (map_to_list (keys h)).
Definition pick {V : Set} (h : pool V) : option nat :=
  head (filter (fun a => a ∉ taken h) (seq 0 (S (length (space h))))).

Lemma taken_slot {V : Set} (h : pool V) k a : slot_of h k = Some a -> a ∈ taken h.
Proof.
  unfold slot_of, key_at. destruct (keys h !! k) as [x|] eqn:E; [|done]. intros Ea. apply list_elem_of_omap.
  exists (k, x). split; [by apply elem_of_map_to_list|done].
Qed.

Lemma pick_free {V : Set} (h : pool V) a : pick h = Some a -> free h a.
Proof.
  intros Ha. apply head_Some_elem_of, list_elem_of_filter in Ha as [Hn Hs]. apply elem_of_seq in Hs.
  split; [lia|]. intros k Hk. by apply Hn, (taken_slot _ k).
Qed.

Definition pick_for (r : prog) (h : memory pool) : option nat :=
  match r with On j _ _ _ => pick (get_map j h) | _ => Some 0%nat end.

Lemma pick_takes r h a : pick_for r h = Some a -> takes a r h.
Proof. destruct r; cbn; try done. apply pick_free. Qed.

(** A choice that cannot be made, or with [free] not apart, is left out. *)
Definition choose {K} `{KernelView K} (free : bool) (c : conf (memory pool) K) (ch : choice K) : conf (memory pool) K :=
  match ch with
  | Start w => Conf (tasks c ++ [Task w (work_prog w) [] None (ended (tasks c))]) (mem c)
  | Go i =>
      match tasks c !! i with
      | None => c
      | Some t =>
          match access (t_prog t) (mem c), pick_for (t_prog t) (mem c) with
          | Some l, Some a =>
              if negb free || apartb (tasks c) i l then
                let '(r, m) := pool_step a (t_prog t) (mem c) in Conf (<[i := advance l r t]> (tasks c)) m
              else c
          | _, _ => c
          end
      end
  end.

Definition schedule {K} `{KernelView K} (free : bool) (chs : list (choice K)) (c : conf (memory pool) K) : conf (memory pool) K :=
  fold_left (choose free) chs c.

Lemma schedule_exec {K} `{KernelView K} free (chs : list (choice K)) c : rtc (cstep pstep free) c (schedule free chs c).
Proof.
  revert c. induction chs as [|ch chs IH]; intros c; [apply rtc_refl|].
  transitivity (choose free c ch); [|apply IH]. destruct ch as [w|i]; cbn.
  - apply rtc_once. destruct c. apply cstep_start.
  - destruct (tasks c !! i) as [t|] eqn:Et; [|apply rtc_refl].
    destruct (access _ _) as [l|] eqn:Ea; [|apply rtc_refl]. destruct (pick_for _ _) as [a|] eqn:Ep; [|apply rtc_refl].
    case_match eqn:Eb; [|apply rtc_refl].
    destruct (pool_step _ _ _) as [r m] eqn:Es. apply rtc_once. destruct c. eapply cstep_access; eauto.
    + split; [exact Ea|]. exists a. split; [by apply pick_takes|done].
    + intros ->. by apply apartb_apart.
Qed.

(** ** Refinement *)

Definition in_order {K} (ts : list (task K)) (order : list nat) : list (task K) := omap (fun i => ts !! i) order.

(** One after another, as the atomic model has them. *)
Definition one_by_one {K} `{KernelView K} (us : list (task K)) (s : bpf) : bpf :=
  fold_left (fun s t => work_atomic (t_work t) s) us s.

(** On elements that are never reused. *)
Lemma serial_order {K} `{KernelView K} m0 s0 (c : conf smp K) :
  reps m0 s0 -> spare s0 (length (tasks c)) -> rtc (cstep lstep true) (Conf [] m0) c -> quiet c ->
  exists order,
    order ≡ₚ seq 0 (length (tasks c))
    /\ (forall a i b t, order = a ++ i :: b -> tasks c !! i = Some t -> t_after t ⊆ a)
    /\ reps (mem c) (one_by_one (in_order (tasks c) order) s0).
Proof.
  intros Hr Hs He Hq. destruct (serial_exec m0 c He) as [bs Hb]. exists (map fst bs).
  split; [apply (se_perm _ _ _ _ Hb)|]. split; [by apply (serial_precedence m0 _ (mem c))|].
  assert (forall b, b ∈ bs -> exists t, tasks c !! b.1 = Some t /\ is_done t = true /\ block_ok t b.2) as Hok.
  { intros b Hin. destruct (se_block _ _ _ _ Hb b Hin) as (t & Ht & Hok). exists t. split; [done|]. split; [|done].
    unfold quiet in Hq. rewrite Forall_lookup in Hq. by apply (Hq b.1). }
  destruct (replay_runs _ _ _ _ Hok (se_replay _ _ _ _ Hb)) as (us & Hus & <-).
  assert (in_order (tasks c) (map fst bs) = us) as ->.
  { clear -Hus. unfold in_order. induction Hus as [|b t bs us Ht _ IH]; cbn; [done|]. by rewrite Ht, IH. }
  apply runs_refine; [done|]. rewrite <- (Forall2_length _ _ _ Hus), <- (length_map fst), (se_perm _ _ _ _ Hb), length_seq. done.
Qed.

(** C6: programs in flight at once do what they do one after another.  Let any number of
    programs and flow deletions interleave access by access - map helpers, loads and
    stores of single fields, reservations and submissions of ring records - such that no
    access is to a socket, session or thread context that another program still in flight
    has touched.  When all have ended, the maps and the ring hold what the atomic programs
    leave when they fire in some order, which keeps every pair that did not overlap in time
    as it was - wherever the kernel put new entries, the space of removed ones included,
    which programs in flight may still have pointers to. *)
Theorem concurrent_refines {K} `{KernelView K} h0 s0 (c : conf (memory pool) K) :
  stands h0 s0 -> spare s0 (length (tasks c)) -> rtc (cstep pstep true) (Conf [] h0) c -> quiet c ->
  exists order,
    order ≡ₚ seq 0 (length (tasks c))
    /\ (forall a i b t, order = a ++ i :: b -> tasks c !! i = Some t -> t_after t ⊆ a)
    /\ stands (mem c) (one_by_one (in_order (tasks c) order) s0).
Proof.
  intros Hd Hs He Hq. destruct (alike_exec _ _ _ (alike_init h0 s0 Hd) He) as (d & Hed & [Et Eg Hm _]).
  rewrite Et in *. unfold quiet in Hq. rewrite Et in Hq.
  destruct (serial_order _ s0 d (reps_of h0 s0 Hd) Hs Hed Hq) as (order & H1 & H2 & H3).
  exists order. split; [done|]. split; [done|]. by apply (stands_of _ (mem d)).
Qed.

(** A thread of process [n]. *)
Definition smp_thread (n : Z) : env unit := demo_env (2 ^ 32 * n + n) demo_record.

(** Two sends on two sockets and a deletion of a third, in step. *)
Definition demo_sends : list (choice unit) :=
  [Start (Firing (smp_thread 5) (KpSendmsg 7 9 9)); Start (Firing (smp_thread 6) (KpSendmsg 8 9 7));
   Start (Deletion 3)] ++ concat (replicate 30 [Go 0; Go 1; Go 2]).

Lemma concurrent_refines_witness :
  let c := schedule true demo_sends (Conf [] pool_init) in
  exists order, order ≡ₚ [0; 1; 2]%nat /\ stands (mem c) (one_by_one (in_order (tasks c) order) bpf_init).
Proof.
  cbv zeta. destruct (concurrent_refines pool_init bpf_init (schedule true demo_sends (Conf [] pool_init))) as (order & Ho & _ & Hr).
  - apply stands_init.
  - intros []; vm_compute; intros E; discriminate E.
  - apply schedule_exec.
  - vm_compute. by repeat constructor.
  - by exists order.
Defined.

(** ** Any overlap *)

(** C15: what no interleaving can break.  Whatever accesses the programs make in whatever
    order, races on one socket or session included, and pointers into space that another
    entry has by now, every value in the maps stays within its C type; every submitted record is well formed, so that [ReadEvent] decodes it to
    the event it stands for; a submitted record never changes, so what the reader has
    taken is the beginning of what it will ever take; and when no program is in flight no
    reservation is left that would hold the reader up. *)
Theorem races_typed {K} `{KernelViewOk K} free (c c' : conf (memory pool) K) :
  rtc (cstep pstep free) (Conf [] pool_init) c -> rtc (cstep pstep free) c c' -> works_ok c' ->
  pool_typed (mem c)
  /\ (forall ev, Ready ev ∈ m_ring (mem c) -> ReadEvent (event_bytes ev) = Ok (event_view ev))
  /\ consumable (m_ring (mem c)) `prefix_of` consumable (m_ring (mem c'))
  /\ (quiet c' -> consumable (m_ring (mem c')) = ready (m_ring (mem c'))).
Proof.
  intros Hr Hr' Hw. assert (rtc (cstep pstep free) (Conf [] pool_init) c') as Hr0 by by transitivity c.
  destruct (races_exec _ _ _ _ Hr0 Hw races_init) as (_ & _ & os' & Hi').
  pose proof (works_ok_exec _ _ _ Hr' Hw) as Hwc.
  destruct (races_exec _ _ _ _ Hr Hwc races_init) as (_ & _ & os & Hi).
  destruct (races_exec _ _ _ _ Hr' Hw Hi) as (_ & Hg & _). pose proof (ri_typed _ _ Hi) as Ht.
  split; [done|]. split; [|split; [by apply consumable_grows|]].
  - intros ev Hev. apply ReadEvent_event. by destruct (ty_ring _ Ht _ Hev) as [?|?].
  - intros Hq. eapply consumable_ready, quiet_filled; eauto.
Qed.

(** Two sends on one socket, one access each in turn. *)
Definition demo_overlap : list (choice unit) :=
  [Start (Firing (smp_thread 5) (KpSendmsg 7 9 9)); Start (Firing (smp_thread 6) (KpSendmsg 7 9 7))]
  ++ concat (replicate 40 [Go 0; Go 1]).

Lemma smp_send_ok id sk n : in_width 32 id -> in_width 64 sk -> in_width 64 n -> work_ok (Firing (smp_thread id) (KpSendmsg sk 9 n)).
Proof.
  unfold in_width. intros. split; [apply demo_env_ok; [unfold in_width; lia|by repeat constructor]|]. by split_and!.
Qed.

(** The works of a schedule are those it starts. *)
Fixpoint started {K} (chs : list (choice K)) : list (work K) :=
  match chs with
  | [] => []
  | Start w :: chs => w :: started chs
  | Go _ :: chs => started chs
  end.

Lemma choose_works {K} `{KernelView K} free (c : conf (memory pool) K) ch :
  t_work <$> tasks (choose free c ch) = (t_work <$> tasks c) ++ started [ch].
Proof.
  destruct ch as [w|i]; cbn; [by rewrite fmap_app|]. rewrite app_nil_r.
  destruct (tasks c !! i) as [t|] eqn:Et; [|done]. destruct (access _ _) as [l|]; [|done]. destruct (pick_for _ _) as [a|]; [|done]. case_match; [|done].
  destruct (pool_step _ _ _) as [r m]. cbn. rewrite list_fmap_insert. apply list_insert_id. by rewrite list_lookup_fmap, Et.
Qed.

Lemma schedule_works {K} `{KernelView K} free (chs : list (choice K)) c :
  t_work <$> tasks (schedule free chs c) = (t_work <$> tasks c) ++ started chs.
Proof.
  revert c. induction chs as [|ch chs IH]; intros c; [by rewrite app_nil_r|].
  change (schedule free (ch :: chs) c) with (schedule free chs (choose free c ch)). rewrite IH, choose_works, <- app_assoc. by destruct ch.
Qed.

Lemma schedule_ok {K} `{KernelViewOk K} free (chs : list (choice K)) :
  Forall work_ok (started chs) -> works_ok (schedule free chs (Conf [] pool_init)).
Proof.
  intros Hw. apply (Forall_fmap t_work work_ok). by rewrite schedule_works.
Qed.

Lemma races_typed_witness :
  consumable (m_ring (mem (schedule false demo_overlap (Conf [] pool_init))))
  = ready (m_ring (mem (schedule false demo_overlap (Conf [] pool_init)))).
Proof.
  refine (proj2 (proj2 (proj2 (races_typed false _ _ (schedule_exec false demo_overlap _) (rtc_refl _ _) _))) _).
  - apply schedule_ok. change (started demo_overlap) with [Firing (smp_thread 5) (KpSendmsg 7 9 9); Firing (smp_thread 6) (KpSendmsg 7 9 7)].
    do 2 (apply Forall_cons; split; [by apply smp_send_ok|]). constructor.
  - vm_compute. by repeat constructor.
Defined.

(** ** What an overlap can cost *)

(** The bytes sent on a socket, and the records submitted, when nothing is in flight. *)
Definition flow_outcome (c : conf (memory pool) unit) (sk : Z) : option (Z * Z) :=
  if forallb is_done (tasks c) then (fun f => (f_tx f, f_wire_out f)) <$> (a ← slot_of (m_flows (mem c)) sk; space (m_flows (mem c)) !! a) else None.

(** One after another the two sends count 16 bytes and are two captures. *)
Example sends_apart : flow_outcome (schedule true demo_overlap (Conf [] pool_init)) 7 = Some (16, 2).
Proof. vm_compute. reflexivity. Qed.

(** In step, the second creates the element anew and the first counts in one that is gone. *)
Example creations_overlap : flow_outcome (schedule false demo_overlap (Conf [] pool_init)) 7 = Some (7, 1).
Proof. vm_compute. reflexivity. Qed.

(** The socket known before: both load the total, and the captures, before either
    stores them: two records, one counted. *)
Definition demo_known (chs : list (choice unit)) : list (choice unit) :=
  Start (Firing (smp_thread 5) (TpSetState IPPROTO_TCP 7 2 TCP_ESTABLISHED)) :: replicate 20 (Go 0)
  ++ Start (Firing (smp_thread 5) (KpSendmsg 7 9 9)) :: Start (Firing (smp_thread 6) (KpSendmsg 7 9 7)) :: chs.

Example totals_overlap :
  flow_outcome (schedule false (demo_known (concat (replicate 40 [Go 1; Go 2]))) (Conf [] pool_init)) 7 = Some (7, 1).
Proof. vm_compute. reflexivity. Qed.

(** Fifteen sends, then two that both pass the test against [MAX_WIRE_EVENTS]. *)
Definition demo_seventeen : list (choice unit) :=
  concat ((fun i => Start (Firing (smp_thread 5) (KpSendmsg 7 9 9)) :: replicate 40 (Go i)) <$> seq 0 15)
  ++ Start (Firing (smp_thread 5) (KpSendmsg 7 9 9)) :: Start (Firing (smp_thread 6) (KpSendmsg 7 9 9))
  :: replicate 7 (Go 15) ++ replicate 40 (Go 16) ++ replicate 40 (Go 15).

Example captures_overlap :
  (fun o => o.2) <$> flow_outcome (schedule false demo_seventeen (Conf [] pool_init)) 7 = Some 17.
Proof. vm_compute. reflexivity. Qed.

(** User space deletes the flow of socket 7 while a send on it has loaded its total; the
    next connection, socket 8, gets its space.  The send then stores what it has into the
    flow of socket 8, which has sent 7 bytes and shows 9, and counts its capture there. *)
Definition demo_stray : list (choice unit) :=
  Start (Firing (smp_thread 5) (TpSetState IPPROTO_TCP 7 2 TCP_ESTABLISHED)) :: replicate 20 (Go 0)
  ++ Start (Firing (smp_thread 5) (KpSendmsg 7 9 9)) :: replicate 10 (Go 1)
  ++ Start (Deletion 7) :: replicate 2 (Go 2)
  ++ Start (Firing (smp_thread 6) (KpSendmsg 8 9 7)) :: replicate 40 (Go 3) ++ replicate 40 (Go 1).

Example deletion_overlap :
  let c := schedule false demo_stray (Conf [] pool_init) in flow_outcome c 7 = None /\ flow_outcome c 8 = Some (9, 2).
Proof. vm_compute. auto. Qed.
