(* ===== verification/TlsParse.v ===== *)
(** internal/tlsparse/parse.go: the handshake parser.

    Slices are lists of bytes; the cursor [reader] and the accumulator [Info] are
    passed along; a run-time panic is [Panic].  Every loop takes fuel, and its entry
    point supplies one more than the bytes it can consume.  [x509.ParseCertificate]
    is the one function the code takes from elsewhere: the class [X509]. *)
From S2P Require Import Prelude.

(** ** Data *)

Record Info := mkInfo {
  HasClientHello : bool; HasServerHello : bool; HasCert : bool;
  SNI : string; ALPN : list string; ClientVersion : Z;
  NegVersion : Z; CipherSuite : Z; Group : Z; OfferedSigs : list Z;
  CertSubject : string; CertIssuer : string; CertSANs : list string; CertSigAlg : string }.

(** The zero [Info]. *)
Definition Info_zero : Info :=
  mkInfo false false false EmptyString [] 0 0 0 0 [] EmptyString EmptyString [] EmptyString.

Definition ctHandshake : Z := 22.
Definition hsClientHello : Z := 1.
Definition hsServerHello : Z := 2.
Definition hsCertificate : Z := 11.

(** Assignments to the fields of [*info]. *)
Definition set_client_hello (ver : Z) (i : Info) : Info :=
  mkInfo true (HasServerHello i) (HasCert i) (SNI i) (ALPN i) ver
    (if NegVersion i =? 0 then ver else NegVersion i) (CipherSuite i) (Group i) (OfferedSigs i)
    (CertSubject i) (CertIssuer i) (CertSANs i) (CertSigAlg i).
Definition set_server_hello (ver : Z) (i : Info) : Info :=
  mkInfo (HasClientHello i) true (HasCert i) (SNI i) (ALPN i) (ClientVersion i)
    ver (CipherSuite i) (Group i) (OfferedSigs i)
    (CertSubject i) (CertIssuer i) (CertSANs i) (CertSigAlg i).
Definition set_CipherSuite (cs : Z) (i : Info) : Info :=
  mkInfo (HasClientHello i) (HasServerHello i) (HasCert i) (SNI i) (ALPN i) (ClientVersion i)
    (NegVersion i) cs (Group i) (OfferedSigs i)
    (CertSubject i) (CertIssuer i) (CertSANs i) (CertSigAlg i).
Definition set_NegVersion (v : Z) (i : Info) : Info :=
  mkInfo (HasClientHello i) (HasServerHello i) (HasCert i) (SNI i) (ALPN i) (ClientVersion i)
    v (CipherSuite i) (Group i) (OfferedSigs i)
    (CertSubject i) (CertIssuer i) (CertSANs i) (CertSigAlg i).
Definition set_SNI (s : string) (i : Info) : Info :=
  mkInfo (HasClientHello i) (HasServerHello i) (HasCert i) s (ALPN i) (ClientVersion i)
    (NegVersion i) (CipherSuite i) (Group i) (OfferedSigs i)
    (CertSubject i) (CertIssuer i) (CertSANs i) (CertSigAlg i).
Definition set_OfferedSigs (l : list Z) (i : Info) : Info :=
  mkInfo (HasClientHello i) (HasServerHello i) (HasCert i) (SNI i) (ALPN i) (ClientVersion i)
    (NegVersion i) (CipherSuite i) (Group i) l
    (CertSubject i) (CertIssuer i) (CertSANs i) (CertSigAlg i).
Definition set_ALPN (l : list string) (i : Info) : Info :=
  mkInfo (HasClientHello i) (HasServerHello i) (HasCert i) (SNI i) l (ClientVersion i)
    (NegVersion i) (CipherSuite i) (Group i) (OfferedSigs i)
    (CertSubject i) (CertIssuer i) (CertSANs i) (CertSigAlg i).
Definition set_Group (g : Z) (i : Info) : Info :=
  mkInfo (HasClientHello i) (HasServerHello i) (HasCert i) (SNI i) (ALPN i) (ClientVersion i)
    (NegVersion i) (CipherSuite i) g (OfferedSigs i)
    (CertSubject i) (CertIssuer i) (CertSANs i) (CertSigAlg i).
Definition set_cert (subj iss : string) (sans : list string) (alg : string) (i : Info) : Info :=
  mkInfo (HasClientHello i) (HasServerHello i) true (SNI i) (ALPN i) (ClientVersion i)
    (NegVersion i) (CipherSuite i) (Group i) (OfferedSigs i) subj iss sans alg.

(** The fields of a parsed certificate the code uses. *)
Record Certificate := mkCertificate {
  Subject_CommonName : string; Subject_Organization : list string;
  Issuer_CommonName : string; DNSNames : list string; SignatureAlgorithm : string }.

Class X509 := ParseCertificate : list Z -> option Certificate.

(** ** reader *)

Record reader := mkReader { rb : list Z; off : Z }.

(** [uint16(hi)<<8 | uint16(lo)] *)
Definition be16 (hi lo : Z) : Z := Z.lor (wrap 16 (Z.shiftl hi 8)) lo.
(** [uint32(a)<<16 | uint32(b)<<8 | uint32(c)] *)
Definition be24 (a b c : Z) : Z :=
  Z.lor (Z.lor (wrap 32 (Z.shiftl a 16)) (wrap 32 (Z.shiftl b 8))) c.

(** A read returns [None] where the Go method returns [ok = false]. *)
Definition u8 (r : reader) : go (option Z * reader) :=
  if zlen (rb r) <? off r + 1 then Ok (None, r)
  else do! v <- byte_at (rb r) (off r); Ok (Some v, mkReader (rb r) (off r + 1)).

Definition u16 (r : reader) : go (option Z * reader) :=
  if zlen (rb r) <? off r + 2 then Ok (None, r)
  else
    do! a <- byte_at (rb r) (off r);
    do! b <- byte_at (rb r) (off r + 1);
    Ok (Some (be16 a b), mkReader (rb r) (off r + 2)).

Definition u24 (r : reader) : go (option Z * reader) :=
  if zlen (rb r) <? off r + 3 then Ok (None, r)
  else
    do! a <- byte_at (rb r) (off r);
    do! b <- byte_at (rb r) (off r + 1);
    do! c <- byte_at (rb r) (off r + 2);
    Ok (Some (be24 a b c), mkReader (rb r) (off r + 3)).

Definition bytes (n : Z) (r : reader) : go (option (list Z) * reader) :=
  if (n <? 0) || (zlen (rb r) <? off r + n) then Ok (None, r)
  else
    do! v <- subslice (rb r) (off r) (off r + n);
    Ok (Some v, mkReader (rb r) (off r + n)).

Definition skip (n : Z) (r : reader) : bool * reader :=
  if (n <? 0) || (zlen (rb r) <? off r + n) then (false, mkReader (rb r) (zlen (rb r)))
  else (true, mkReader (rb r) (off r + n)).

Definition skipVec8 (r : reader) : go (bool * reader) :=
  do! (l, r) <- u8 r;
  match l with
  | None => Ok (false, r)
  | Some l => Ok (skip l r)
  end.

(** The value of a read whose [ok] the caller drops. *)
Definition val (o : option Z) : Z := match o with Some v => v | None => 0 end.

(** ** Records *)

Fixpoint collect_loop (fuel : nat) (buf : list Z) (p : Z) (out : list Z) : go (list Z) :=
  match fuel with
  | O => NoFuel
  | S fuel =>
      if p + 5 <=? zlen buf then
        do! ct <- byte_at buf p;
        do! l3 <- byte_at buf (p + 3);
        do! l4 <- byte_at buf (p + 4);
        let length := Z.lor (Z.shiftl l3 8) l4 in
        if negb (ct =? ctHandshake) then Ok out
        else
          let start := p + 5 in
          let end_ := start + length in
          let end_ := if zlen buf <? end_ then zlen buf else end_ in
          do! payload <- subslice buf start end_;
          let out := out ++ payload in
          if negb (end_ =? start + length) then Ok out
          else collect_loop fuel buf end_ out
      else Ok out
  end.

Definition collectHandshake (buf : list Z) : go (list Z) :=
  collect_loop (S (length buf)) buf 0 [].

(** ** Extension bodies *)

Fixpoint sni_loop (fuel : nat) (r : reader) (end_ : Z) : go string :=
  match fuel with
  | O => NoFuel
  | S fuel =>
      if (off r + 3 <=? end_) && (off r + 3 <=? zlen (rb r)) then
        do! (ntype, r) <- u8 r;
        do! (nlen, r) <- u16 r;
        do! (name, r) <- bytes (val nlen) r;
        match name with
        | None => Ok EmptyString
        | Some name => if val ntype =? 0 then Ok (string_of_bytes name) else sni_loop fuel r end_
        end
      else Ok EmptyString
  end.

Definition parseSNI (b : list Z) : go string :=
  if zlen b <? 2 then Ok EmptyString
  else
    do! (listLen, r) <- u16 (mkReader b 0);
    sni_loop (S (length b)) r (off r + val listLen).

Fixpoint alpn_loop (fuel : nat) (r : reader) (end_ : Z) (out : list string) : go (list string) :=
  match fuel with
  | O => NoFuel
  | S fuel =>
      if (off r + 1 <=? end_) && (off r <? zlen (rb r)) then
        do! (l, r) <- u8 r;
        do! (name, r) <- bytes (val l) r;
        match name with
        | None => Ok out
        | Some name => alpn_loop fuel r end_ (out ++ [string_of_bytes name])
        end
      else Ok out
  end.

Definition parseALPN (b : list Z) : go (list string) :=
  if zlen b <? 2 then Ok []
  else
    do! (listLen, r) <- u16 (mkReader b 0);
    alpn_loop (S (length b)) r (off r + val listLen) [].

Fixpoint u16list_loop (fuel : nat) (r : reader) (end_ : Z) (out : list Z) : go (list Z) :=
  match fuel with
  | O => NoFuel
  | S fuel =>
      if (off r + 2 <=? end_) && (off r + 2 <=? zlen (rb r)) then
        do! (v, r) <- u16 r;
        u16list_loop fuel r end_ (out ++ [val v])
      else Ok out
  end.

Definition parseU16List (b : list Z) : go (list Z) :=
  if zlen b <? 2 then Ok []
  else
    do! (l, r) <- u16 (mkReader b 0);
    u16list_loop (S (length b)) r (off r + val l) [].

(** ** Extensions *)

(** The first two bytes of [data] as a word, where there are two. *)
Definition head16 (data : list Z) : go Z :=
  do! a <- byte_at data 0; do! b <- byte_at data 1; Ok (be16 a b).

Definition handleExtension (etype : Z) (data : list Z) (info : Info) (server : bool) : go Info :=
  if etype =? 0 then
    if negb server then
      do! s <- parseSNI data;
      if String.eqb s EmptyString then Ok info else Ok (set_SNI s info)
    else Ok info
  else if etype =? 13 then
    if negb server then do! l <- parseU16List data; Ok (set_OfferedSigs l info)
    else Ok info
  else if etype =? 16 then
    do! l <- parseALPN data; Ok (set_ALPN l info)
  else if etype =? 43 then
    if server && (2 <=? zlen data) then do! v <- head16 data; Ok (set_NegVersion v info)
    else Ok info
  else if etype =? 51 then
    if server && (2 <=? zlen data) then do! v <- head16 data; Ok (set_Group v info)
    else Ok info
  else Ok info.

Fixpoint ext_loop (fuel : nat) (r : reader) (end_ : Z) (info : Info) (server : bool) : go Info :=
  match fuel with
  | O => NoFuel
  | S fuel =>
      if (off r + 4 <=? end_) && (off r + 4 <=? zlen (rb r)) then
        do! (etype, r) <- u16 r;
        do! (elen, r) <- u16 r;
        do! (data, r) <- bytes (val elen) r;
        match data with
        | None =>
            do! rest <- subslice (rb r) (off r) (zlen (rb r));
            handleExtension (val etype) rest info server
        | Some data =>
            do! info <- handleExtension (val etype) data info server;
            ext_loop fuel r end_ info server
        end
      else Ok info
  end.

Definition parseExtensions (r : reader) (info : Info) (server : bool) : go Info :=
  do! (extLen, r) <- u16 r;
  match extLen with
  | None => Ok info
  | Some extLen => ext_loop (S (length (rb r))) r (off r + extLen) info server
  end.

(** ** Handshake messages *)

Definition parseClientHello (b : list Z) (info : Info) : go Info :=
  do! (ver, r) <- u16 (mkReader b 0);
  match ver with
  | None => Ok info
  | Some ver =>
      let info := set_client_hello ver info in
      let '(ok, r) := skip 32 r in
      if negb ok then Ok info
      else
        do! (ok, r) <- skipVec8 r;
        if negb ok then Ok info
        else
          do! (csLen, r) <- u16 r;
          match csLen with
          | None => Ok info
          | Some csLen =>
              let '(_, r) := skip csLen r in
              do! (ok, r) <- skipVec8 r;
              if negb ok then Ok info else parseExtensions r info false
          end
  end.

Definition isTLS13Cipher (c : Z) : bool := (0x1301 <=? c) && (c <=? 0x1305).

Definition parseServerHello (b : list Z) (info : Info) : go Info :=
  do! (ver, r) <- u16 (mkReader b 0);
  match ver with
  | None => Ok info
  | Some ver =>
      let info := set_server_hello ver info in
      let '(ok, r) := skip 32 r in
      if negb ok then Ok info
      else
        do! (ok, r) <- skipVec8 r;
        if negb ok then Ok info
        else
          do! (cs, r) <- u16 r;
          match cs with
          | None => Ok info
          | Some cs =>
              let info := set_CipherSuite cs info in
              do! (cm, r) <- u8 r;
              match cm with
              | None => Ok info
              | Some _ =>
                  do! info <- parseExtensions r info true;
                  if (NegVersion info <? 0x0304) && isTLS13Cipher cs
                  then Ok (set_NegVersion 0x0304 info) else Ok info
              end
          end
  end.

(** [strings.TrimSuffix(s, "-")] *)
Definition trim_dash (s : string) : string :=
  match rev (bytes_of_string s) with
  | 45 :: t => string_of_bytes (rev t)
  | _ => s
  end.

Definition cert_subject (c : Certificate) : string :=
  if String.eqb (Subject_CommonName c) EmptyString then
    match Subject_Organization c with
    | o :: _ => o
    | [] => Subject_CommonName c
    end
  else Subject_CommonName c.

Definition parseCertificate `{X509} (b : list Z) (info : Info) : go Info :=
  if zlen b <? 3 then Ok info
  else
    do! (total, r) <- u24 (mkReader b 0);
    let end_ := off r + val total in
    let end_ := if zlen b <? end_ then zlen b else end_ in
    if end_ <? off r + 3 then Ok info
    else
      do! (clen, r) <- u24 r;
      do! (der, r) <- bytes (val clen) r;
      match der with
      | None => Ok info
      | Some der =>
          if zlen der =? 0 then Ok info
          else
            match ParseCertificate der with
            | None => Ok info
            | Some cert =>
                Ok (set_cert (cert_subject cert) (Issuer_CommonName cert) (DNSNames cert)
                      (trim_dash (SignatureAlgorithm cert)) info)
            end
      end.

(** ** The handshake stream *)

Fixpoint stream_loop `{X509} (fuel : nat) (s : list Z) (p : Z) (info : Info) : go Info :=
  match fuel with
  | O => NoFuel
  | S fuel =>
      if p + 4 <=? zlen s then
        do! mtype <- byte_at s p;
        do! m1 <- byte_at s (p + 1);
        do! m2 <- byte_at s (p + 2);
        do! m3 <- byte_at s (p + 3);
        let mlen := Z.lor (Z.lor (Z.shiftl m1 16) (Z.shiftl m2 8)) m3 in
        do! body <- subslice s (p + 4) (zlen s);
        let mlen := if zlen body <? mlen then zlen body else mlen in
        do! body <- subslice body 0 mlen;
        do! info <-
          (if mtype =? hsClientHello then parseClientHello body info
           else if mtype =? hsServerHello then parseServerHello body info
           else if mtype =? hsCertificate then parseCertificate body info
           else Ok info);
        stream_loop fuel s (p + (4 + mlen)) info
      else Ok info
  end.

Definition parseHandshakeStream `{X509} (s : list Z) (info : Info) : go Info :=
  stream_loop (S (length s)) s 0 info.

Definition Parse `{X509} (buf : list Z) (info : Info) : go Info :=
  do! stream <- collectHandshake buf;
  if zlen stream =? 0 then Ok info else parseHandshakeStream stream info.
