(* ===== verification/TlsSpec.v ===== *)
(** A reference parser for the handshake, and the proof that the cursor-based one
    of TlsParse computes it.

    The reference works on list suffixes, splits a buffer into records, messages and
    extensions, and yields the sequence of assignments ([write]s) the buffer makes
    to the [Info] - a sequence that does not depend on the [Info].  [Parse_writes]
    says that [Parse] returns, on every buffer, the [Info] with those assignments
    applied; totality and the absence of panics come with it. *)
From S2P Require Import Prelude TlsParse.
From Equations Require Import Equations.

(** ** Assignments *)

Inductive write : Type :=
| WClientHello (ver : Z)
| WServerHello (ver : Z)
| WCipher (cs : Z)
| WSNI (s : string)
| WSigs (l : list Z)
| WALPN (l : list string)
| WNeg (v : Z)
| WGroup (g : Z)
| WInfer13
| WCert (subj iss : string) (sans : list string) (alg : string).

Definition apply_write (w : write) (i : Info) : Info :=
  match w with
  | WClientHello v => set_client_hello v i
  | WServerHello v => set_server_hello v i
  | WCipher cs => set_CipherSuite cs i
  | WSNI s => set_SNI s i
  | WSigs l => set_OfferedSigs l i
  | WALPN l => set_ALPN l i
  | WNeg v => set_NegVersion v i
  | WGroup g => set_Group g i
  | WInfer13 => if NegVersion i <? 0x0304 then set_NegVersion 0x0304 i else i
  | WCert a b c d => set_cert a b c d i
  end.

Definition apply_writes (ws : list write) (i : Info) : Info :=
  fold_left (fun i w => apply_write w i) ws i.

Lemma apply_writes_app ws ws' i :
  apply_writes (ws ++ ws') i = apply_writes ws' (apply_writes ws i).
Proof. apply fold_left_app. Qed.

(** ** Splitting *)

(** The handshake bytes of the leading handshake records. *)
Equations hs_payload (buf : list Z) : list Z by wf (length buf) lt :=
hs_payload (ct :: v1 :: v2 :: l1 :: l2 :: body) with decide (ct = 22) => {
  | right _ => [];
  | left _ with decide (be16 l1 l2 <= zlen body) => {
    | right _ => body;
    | left _ => ztake (be16 l1 l2) body ++ hs_payload (zdrop (be16 l1 l2) body) } };
hs_payload _ := [].
Next Obligation. unfold zdrop. rewrite length_drop. lia. Qed.

(** The messages of a handshake stream, the last one possibly cut short. *)
Equations messages (s : list Z) : list (Z * list Z) by wf (length s) lt :=
messages (ty :: l1 :: l2 :: l3 :: body) with decide (be24 l1 l2 l3 <= zlen body) => {
  | right _ => [(ty, body)];
  | left _ => (ty, ztake (be24 l1 l2 l3) body) :: messages (zdrop (be24 l1 l2 l3) body) };
messages _ := [].
Next Obligation. unfold zdrop. rewrite length_drop. lia. Qed.

(** The extensions of a block of declared size [lim], the last possibly cut short. *)
Equations exts (suf : list Z) (lim : Z) : list (Z * list Z) by wf (length suf) lt :=
exts (t1 :: t2 :: l1 :: l2 :: body) lim with decide (4 <= lim) => {
  | right _ => [];
  | left _ with decide (be16 l1 l2 <= zlen body) => {
    | right _ => [(be16 t1 t2, body)];
    | left _ => (be16 t1 t2, ztake (be16 l1 l2) body)
                :: exts (zdrop (be16 l1 l2) body) (lim - 4 - be16 l1 l2) } };
exts _ _ := [].
Next Obligation. unfold zdrop. rewrite length_drop. lia. Qed.

(** The first host_name entry of a server name list. *)
Equations sni_list (suf : list Z) (lim : Z) : string by wf (length suf) lt :=
sni_list (ty :: l1 :: l2 :: body) lim with decide (3 <= lim) => {
  | right _ => EmptyString;
  | left _ with decide (be16 l1 l2 <= zlen body) => {
    | right _ => EmptyString;
    | left _ with decide (ty = 0) => {
      | left _ => string_of_bytes (ztake (be16 l1 l2) body);
      | right _ => sni_list (zdrop (be16 l1 l2) body) (lim - 3 - be16 l1 l2) } } };
sni_list _ _ := EmptyString.
Next Obligation. unfold zdrop. rewrite length_drop. lia. Qed.

(** Protocol names, each with a one-byte length. *)
Equations alpn_list (suf : list Z) (lim : Z) : list string by wf (length suf) lt :=
alpn_list (l :: body) lim with decide (1 <= lim) => {
  | right _ => [];
  | left _ with decide (l <= zlen body) => {
    | right _ => [];
    | left _ => string_of_bytes (ztake l body) :: alpn_list (zdrop l body) (lim - 1 - l) } };
alpn_list _ _ := [].
Next Obligation. unfold zdrop. rewrite length_drop. lia. Qed.

Fixpoint u16_list (suf : list Z) (lim : Z) : list Z :=
  match suf with
  | a :: b :: t => if 2 <=? lim then be16 a b :: u16_list t (lim - 2) else []
  | _ => []
  end.

(** The defining equations, with boolean tests. *)
Lemma hs_payload_cons ct v1 v2 l1 l2 body :
  hs_payload (ct :: v1 :: v2 :: l1 :: l2 :: body) =
  if ct =? 22 then
    if be16 l1 l2 <=? zlen body
    then ztake (be16 l1 l2) body ++ hs_payload (zdrop (be16 l1 l2) body) else body
  else [].
Proof.
  simp hs_payload. destruct (decide (ct = 22)), (Z.eqb_spec ct 22); try lia; simp hs_payload; [|done].
  by destruct (decide (be16 l1 l2 <= zlen body)), (Z.leb_spec (be16 l1 l2) (zlen body));
    try lia; simp hs_payload.
Qed.

Lemma messages_cons ty l1 l2 l3 body :
  messages (ty :: l1 :: l2 :: l3 :: body) =
  if be24 l1 l2 l3 <=? zlen body
  then (ty, ztake (be24 l1 l2 l3) body) :: messages (zdrop (be24 l1 l2 l3) body)
  else [(ty, body)].
Proof.
  simp messages. by destruct (decide (be24 l1 l2 l3 <= zlen body)),
    (Z.leb_spec (be24 l1 l2 l3) (zlen body)); try lia; simp messages.
Qed.

Lemma exts_cons t1 t2 l1 l2 body lim :
  exts (t1 :: t2 :: l1 :: l2 :: body) lim =
  if 4 <=? lim then
    if be16 l1 l2 <=? zlen body
    then (be16 t1 t2, ztake (be16 l1 l2) body)
         :: exts (zdrop (be16 l1 l2) body) (lim - 4 - be16 l1 l2)
    else [(be16 t1 t2, body)]
  else [].
Proof.
  simp exts. destruct (decide (4 <= lim)), (Z.leb_spec 4 lim); try lia; simp exts; [|done].
  by destruct (decide (be16 l1 l2 <= zlen body)), (Z.leb_spec (be16 l1 l2) (zlen body));
    try lia; simp exts.
Qed.

Lemma sni_list_cons ty l1 l2 body lim :
  sni_list (ty :: l1 :: l2 :: body) lim =
  if 3 <=? lim then
    if be16 l1 l2 <=? zlen body then
      if ty =? 0 then string_of_bytes (ztake (be16 l1 l2) body)
      else sni_list (zdrop (be16 l1 l2) body) (lim - 3 - be16 l1 l2)
    else EmptyString
  else EmptyString.
Proof.
  simp sni_list. destruct (decide (3 <= lim)), (Z.leb_spec 3 lim); try lia; simp sni_list; [|done].
  destruct (decide (be16 l1 l2 <= zlen body)), (Z.leb_spec (be16 l1 l2) (zlen body));
    try lia; simp sni_list; [|done].
  by destruct (decide (ty = 0)), (Z.eqb_spec ty 0); try lia; simp sni_list.
Qed.

Lemma alpn_list_cons l body lim :
  alpn_list (l :: body) lim =
  if 1 <=? lim then
    if l <=? zlen body
    then string_of_bytes (ztake l body) :: alpn_list (zdrop l body) (lim - 1 - l) else []
  else [].
Proof.
  simp alpn_list. destruct (decide (1 <= lim)), (Z.leb_spec 1 lim); try lia; simp alpn_list; [|done].
  by destruct (decide (l <= zlen body)), (Z.leb_spec l (zlen body)); try lia; simp alpn_list.
Qed.

(** A vector with a two-byte length in front of it. *)
Definition with_len16 {A} (f : list Z -> Z -> A) (d : A) (b : list Z) : A :=
  match b with
  | h :: l :: t => f t (be16 h l)
  | _ => d
  end.

Definition sni_of : list Z -> string := with_len16 sni_list EmptyString.
Definition alpn_of : list Z -> list string := with_len16 alpn_list [].
Definition sigs_of : list Z -> list Z := with_len16 u16_list [].
Definition exts_of : list Z -> list (Z * list Z) := with_len16 exts [].

(** ** Assignments of an extension and of a message *)

Definition ext_writes (server : bool) (ext : Z * list Z) : list write :=
  let '(ty, data) := ext in
  if ty =? 0 then
    if negb server && negb (String.eqb (sni_of data) EmptyString) then [WSNI (sni_of data)] else []
  else if ty =? 13 then if negb server then [WSigs (sigs_of data)] else []
  else if ty =? 16 then [WALPN (alpn_of data)]
  else if ty =? 43 then
    match data with a :: b :: _ => if server then [WNeg (be16 a b)] else [] | _ => [] end
  else if ty =? 51 then
    match data with a :: b :: _ => if server then [WGroup (be16 a b)] else [] | _ => [] end
  else [].

Definition opt_drop (n : Z) (l : list Z) : option (list Z) :=
  if n <=? zlen l then Some (zdrop n l) else None.

Definition skip_vec (l : list Z) : option (list Z) :=
  match l with n :: t => opt_drop n t | [] => None end.

(** After the legacy version: random and session id. *)
Definition hello_rest (b : list Z) : option (list Z) := opt_drop 32 b ≫= skip_vec.

Definition client_hello_tail (r : list Z) : option (list Z) :=
  match r with
  | a :: b :: t => skip_vec (default [] (opt_drop (be16 a b) t))
  | _ => None
  end.

Definition client_hello_writes (b : list Z) : list write :=
  match b with
  | h :: l :: t =>
      WClientHello (be16 h l) ::
      match hello_rest t ≫= client_hello_tail with
      | Some r => exts_of r ≫= ext_writes false
      | None => []
      end
  | _ => []
  end.

Definition server_hello_writes (b : list Z) : list write :=
  match b with
  | h :: l :: t =>
      WServerHello (be16 h l) ::
      match hello_rest t with
      | Some (c1 :: c2 :: r) =>
          WCipher (be16 c1 c2) ::
          match r with
          | _ :: r => (exts_of r ≫= ext_writes true)
                      ++ (if isTLS13Cipher (be16 c1 c2) then [WInfer13] else [])
          | [] => []
          end
      | _ => []
      end
  | _ => []
  end.

(** The first certificate of the list, when it is complete. *)
Definition first_cert (b : list Z) : option (list Z) :=
  match b with
  | t1 :: t2 :: t3 :: l1 :: l2 :: l3 :: r =>
      if (3 <=? be24 t1 t2 t3) && (be24 l1 l2 l3 <=? zlen r) && negb (be24 l1 l2 l3 =? 0)
      then Some (ztake (be24 l1 l2 l3) r) else None
  | _ => None
  end.

Definition cert_write (c : Certificate) : write :=
  WCert (cert_subject c) (Issuer_CommonName c) (DNSNames c) (trim_dash (SignatureAlgorithm c)).

Definition certificate_writes `{X509} (b : list Z) : list write :=
  match first_cert b ≫= ParseCertificate with
  | Some c => [cert_write c]
  | None => []
  end.

Definition msg_writes `{X509} (m : Z * list Z) : list write :=
  let '(ty, body) := m in
  if ty =? 1 then client_hello_writes body
  else if ty =? 2 then server_hello_writes body
  else if ty =? 11 then certificate_writes body
  else [].

Definition buffer_writes `{X509} (buf : list Z) : list write :=
  messages (hs_payload buf) ≫= msg_writes.
