(* ===== verification/TlsEquiv.v ===== *)
(** [Parse] computes the reference parser of TlsSpec. *)
From S2P Require Import Prelude TlsParse TlsSpec.
From Equations Require Import Equations.

(** ** Words *)

Lemma be16_val a b : is_byte a -> is_byte b -> be16 a b = 256 * a + b.
Proof.
  unfold is_byte, be16. intros.
  rewrite wrap_small by (unfold in_width; rewrite Z.shiftl_mul_pow2 by lia; lia).
  rewrite Z.lor_comm, lor_shiftl_add by lia. lia.
Qed.

Lemma be16_int a b : is_byte a -> is_byte b -> Z.lor (Z.shiftl a 8) b = be16 a b.
Proof.
  intros. rewrite be16_val by done. unfold is_byte in *.
  rewrite Z.lor_comm, lor_shiftl_add by lia. lia.
Qed.

Lemma be24_int a b c : is_byte a -> is_byte b -> is_byte c ->
  Z.lor (Z.lor (Z.shiftl a 16) (Z.shiftl b 8)) c = be24 a b c.
Proof.
  unfold is_byte, be24. intros.
  rewrite !wrap_small by (unfold in_width; rewrite Z.shiftl_mul_pow2 by lia; lia). done.
Qed.

Lemma be24_val a b c : is_byte a -> is_byte b -> is_byte c -> be24 a b c = 65536 * a + 256 * b + c.
Proof.
  intros. rewrite <- be24_int by done. unfold is_byte in *.
  rewrite (Z.lor_comm (Z.shiftl a 16)), lor_shiftl_add.
  - rewrite Z.lor_comm. rewrite (Z.shiftl_mul_pow2 b) by lia.
    replace (b * 2 ^ 8 + 2 ^ 16 * a) with (Z.shiftl (b + 256 * a) 8)
      by (rewrite Z.shiftl_mul_pow2 by lia; lia).
    rewrite lor_shiftl_add by lia. lia.
  - lia.
  - rewrite Z.shiftl_mul_pow2 by lia. lia.
Qed.

Lemma be16_range a b : is_byte a -> is_byte b -> 0 <= be16 a b < 65536.
Proof. intros. rewrite be16_val by done. unfold is_byte in *. lia. Qed.
Lemma be24_range a b c : is_byte a -> is_byte b -> is_byte c -> 0 <= be24 a b c < 16777216.
Proof. intros. rewrite be24_val by done. unfold is_byte in *. lia. Qed.

(** ** The cursor between what it has read and what it has not *)

Definition at_ (pre suf : list Z) : reader := mkReader (pre ++ suf) (zlen pre).

Lemma at_start b : mkReader b 0 = at_ [] b.
Proof. done. Qed.

Lemma byte_at_app pre suf i : 0 <= i -> byte_at (pre ++ suf) (zlen pre + i) = byte_at suf i.
Proof.
  intros. pose proof (zlen_nonneg pre). rewrite <- byte_at_zdrop, zdrop_app by lia. done.
Qed.

Lemma at_snoc pre n x suf : zlen n = x -> mkReader (pre ++ n ++ suf) (zlen pre + x) = at_ (pre ++ n) suf.
Proof. intros <-. unfold at_. by rewrite <- app_assoc, zlen_app. Qed.

Lemma u8_cons pre x suf : u8 (at_ pre (x :: suf)) = Ok (Some x, at_ (pre ++ [x]) suf).
Proof.
  unfold u8. cbn [rb off at_]. pose proof (zlen_nonneg suf). rewrite zlen_app, zlen_cons.
  destruct (Z.ltb_spec (zlen pre + (1 + zlen suf)) (zlen pre + 1)); [lia|].
  rewrite <- (Z.add_0_r (zlen pre)) at 1. rewrite byte_at_app, byte_at_0 by lia. cbn [go_bind].
  do 2 f_equal. by apply (at_snoc pre [x] 1 suf).
Qed.

Lemma u8_nil pre : u8 (at_ pre []) = Ok (None, at_ pre []).
Proof.
  unfold u8. cbn [rb off at_]. rewrite zlen_app, zlen_nil.
  destruct (Z.ltb_spec (zlen pre + 0) (zlen pre + 1)); [done|lia].
Qed.

Lemma u16_cons pre x y suf :
  u16 (at_ pre (x :: y :: suf)) = Ok (Some (be16 x y), at_ (pre ++ [x; y]) suf).
Proof.
  unfold u16. cbn [rb off at_]. pose proof (zlen_nonneg suf). rewrite zlen_app, !zlen_cons.
  destruct (Z.ltb_spec (zlen pre + (1 + (1 + zlen suf))) (zlen pre + 2)); [lia|].
  rewrite <- (Z.add_0_r (zlen pre)) at 1. rewrite !byte_at_app by lia. byte_at_eval.
  do 2 f_equal. by apply (at_snoc pre [x; y] 2 suf).
Qed.

Lemma u16_short pre suf : zlen suf < 2 -> u16 (at_ pre suf) = Ok (None, at_ pre suf).
Proof.
  intros. unfold u16. cbn [rb off at_]. rewrite zlen_app.
  destruct (Z.ltb_spec (zlen pre + zlen suf) (zlen pre + 2)); [done|lia].
Qed.

Lemma u24_cons pre x y z suf :
  u24 (at_ pre (x :: y :: z :: suf)) = Ok (Some (be24 x y z), at_ (pre ++ [x; y; z]) suf).
Proof.
  unfold u24. cbn [rb off at_]. pose proof (zlen_nonneg suf). rewrite zlen_app, !zlen_cons.
  destruct (Z.ltb_spec (zlen pre + (1 + (1 + (1 + zlen suf)))) (zlen pre + 3)); [lia|].
  rewrite <- (Z.add_0_r (zlen pre)) at 1. rewrite !byte_at_app by lia. byte_at_eval.
  do 2 f_equal. by apply (at_snoc pre [x; y; z] 3 suf).
Qed.

Lemma bytes_spec pre suf n :
  0 <= n ->
  bytes n (at_ pre suf) =
  if n <=? zlen suf then Ok (Some (ztake n suf), at_ (pre ++ ztake n suf) (zdrop n suf))
  else Ok (None, at_ pre suf).
Proof.
  intros Hn. unfold bytes. cbn [rb off at_]. rewrite zlen_app. pose proof (zlen_nonneg pre).
  destruct (Z.ltb_spec n 0); [lia|]. cbn [orb].
  destruct (Z.ltb_spec (zlen pre + zlen suf) (zlen pre + n)), (Z.leb_spec n (zlen suf)); try lia; [done|].
  rewrite subslice_ok; [|lia|rewrite zlen_app; lia]. rewrite zdrop_app.
  replace (zlen pre + n - zlen pre) with n by lia. cbn [go_bind]. do 2 f_equal.
  rewrite <- (ztake_zdrop n suf) at 1. apply at_snoc. by apply zlen_ztake.
Qed.

Lemma skip_spec pre suf n :
  0 <= n ->
  skip n (at_ pre suf) =
  match opt_drop n suf with
  | Some suf' => (true, at_ (pre ++ ztake n suf) suf')
  | None => (false, at_ (pre ++ suf) [])
  end.
Proof.
  intros Hn. unfold skip, opt_drop. cbn [rb off at_]. rewrite zlen_app. pose proof (zlen_nonneg pre).
  destruct (Z.ltb_spec n 0); [lia|]. cbn [orb].
  destruct (Z.ltb_spec (zlen pre + zlen suf) (zlen pre + n)), (Z.leb_spec n (zlen suf)); try lia.
  - unfold at_. by rewrite zlen_app, app_nil_r.
  - f_equal. rewrite <- (ztake_zdrop n suf) at 1. apply at_snoc. by apply zlen_ztake.
Qed.

Lemma skipVec8_spec pre suf :
  Forall is_byte suf ->
  exists pre',
  skipVec8 (at_ pre suf) =
  Ok (match skip_vec suf with Some suf' => (true, at_ pre' suf') | None => (false, at_ pre' []) end).
Proof.
  intros Hb. unfold skipVec8. destruct suf as [|n t].
  - exists pre. by rewrite u8_nil.
  - rewrite u8_cons. cbn [go_bind skip_vec]. inversion Hb as [|? ? Hn _]; subst.
    rewrite skip_spec by (unfold is_byte in Hn; lia).
    destruct (opt_drop n t) as [t'|]; eexists; done.
Qed.

(** ** Byte-ness of what is left *)

Lemma Forall_ztake {P : Z -> Prop} n l : Forall P l -> Forall P (ztake n l).
Proof. apply Forall_take. Qed.
Lemma Forall_zdrop {P : Z -> Prop} n l : Forall P l -> Forall P (zdrop n l).
Proof. apply Forall_drop. Qed.
#[export] Hint Resolve Forall_ztake Forall_zdrop be16_range be24_range : tlstat.

Lemma length_zdrop_le {A} n (l : list A) : (length (zdrop n l) <= length l)%nat.
Proof. unfold zdrop. rewrite length_drop. lia. Qed.

Lemma opt_drop_byte n l l' : Forall is_byte l -> opt_drop n l = Some l' -> Forall is_byte l'.
Proof. unfold opt_drop. intros Hl. case_match; [intros [= <-]; by apply Forall_zdrop|done]. Qed.

Lemma skip_vec_byte l l' : Forall is_byte l -> skip_vec l = Some l' -> Forall is_byte l'.
Proof. intros Hl. destruct Hl; cbn; [done|]. by apply opt_drop_byte. Qed.

(** ** Loops *)

(** The condition [r.off+k <= end && r.off+k <= len(r.b)] at a cursor. *)
Lemma loop_cond pre suf lim k :
  (off (at_ pre suf) + k <=? zlen pre + lim) && (off (at_ pre suf) + k <=? zlen (rb (at_ pre suf)))
  = (k <=? lim) && (k <=? zlen suf).
Proof.
  cbn [off rb at_]. rewrite zlen_app.
  destruct (Z.leb_spec (zlen pre + k) (zlen pre + lim)), (Z.leb_spec k lim); try lia;
  destruct (Z.leb_spec (zlen pre + k) (zlen pre + zlen suf)), (Z.leb_spec k (zlen suf)); try lia; done.
Qed.

(** The test on the bytes left, once the head of the suffix is explicit. *)
Ltac long_enough :=
  match goal with |- context [?k <=? zlen ?l] =>
    replace (k <=? zlen l) with true
      by (symmetry; apply Z.leb_le; rewrite ?zlen_cons;
          match goal with |- context [zlen ?t] => pose proof (zlen_nonneg t); lia end)
  end; rewrite ?andb_true_r.

Ltac too_short := rewrite andb_false_r; done.

Lemma sni_loop_spec fuel pre suf lim :
  Forall is_byte suf -> (length suf < fuel)%nat ->
  sni_loop fuel (at_ pre suf) (zlen pre + lim) = Ok (sni_list suf lim).
Proof.
  revert pre suf lim. induction fuel as [|fuel IH]; intros pre suf lim Hb Hf; [lia|].
  cbn [sni_loop]. rewrite loop_cond.
  destruct suf as [|ty [|l1 [|l2 body]]]; [too_short..|].
  rewrite !Forall_cons in Hb. destruct Hb as (Ht & H1 & H2 & Hb). long_enough.
  rewrite sni_list_cons. destruct (Z.leb_spec 3 lim); [|done].
  rewrite u8_cons. cbn [go_bind]. rewrite u16_cons. cbn [go_bind val].
  rewrite bytes_spec by (by apply be16_range).
  destruct (Z.leb_spec (be16 l1 l2) (zlen body)); cbn [go_bind]; [|done].
  destruct (Z.eqb_spec ty 0); [done|].
  set (len := be16 l1 l2) in *. replace (zlen pre + lim) with
    (zlen (((pre ++ [ty]) ++ [l1; l2]) ++ ztake len body) + (lim - 3 - len)).
  - apply IH; [by apply Forall_zdrop|]. pose proof (length_zdrop_le len body). cbn in Hf. lia.
  - rewrite !zlen_app, zlen_ztake; [unfold zlen; cbn; lia|]. pose proof (be16_range l1 l2 H1 H2). lia.
Qed.

Lemma alpn_loop_spec fuel pre suf lim out :
  Forall is_byte suf -> (length suf < fuel)%nat ->
  alpn_loop fuel (at_ pre suf) (zlen pre + lim) out = Ok (out ++ alpn_list suf lim).
Proof.
  revert pre suf lim out. induction fuel as [|fuel IH]; intros pre suf lim out Hb Hf; [lia|].
  cbn [alpn_loop].
  replace (off (at_ pre suf) <? zlen (rb (at_ pre suf)))
    with (off (at_ pre suf) + 1 <=? zlen (rb (at_ pre suf)))
    by (destruct (Z.ltb_spec (off (at_ pre suf)) (zlen (rb (at_ pre suf))));
        destruct (Z.leb_spec (off (at_ pre suf) + 1) (zlen (rb (at_ pre suf)))); lia || done).
  rewrite loop_cond. destruct suf as [|n body].
  { rewrite andb_false_r. simp alpn_list. by rewrite app_nil_r. }
  rewrite !Forall_cons in Hb. destruct Hb as (Hn & Hb). long_enough.
  rewrite alpn_list_cons. destruct (Z.leb_spec 1 lim); [|by rewrite app_nil_r].
  unfold is_byte in Hn. rewrite u8_cons. cbn [go_bind val]. rewrite bytes_spec by lia.
  destruct (Z.leb_spec n (zlen body)); cbn [go_bind]; [|by rewrite app_nil_r].
  replace (zlen pre + lim) with (zlen ((pre ++ [n]) ++ ztake n body) + (lim - 1 - n)).
  - rewrite IH; [by rewrite <- app_assoc|by apply Forall_zdrop|].
    pose proof (length_zdrop_le n body). cbn in Hf. lia.
  - rewrite !zlen_app, zlen_ztake; [unfold zlen; cbn; lia|lia].
Qed.

Lemma u16list_loop_spec fuel pre suf lim out :
  (length suf < fuel)%nat ->
  u16list_loop fuel (at_ pre suf) (zlen pre + lim) out = Ok (out ++ u16_list suf lim).
Proof.
  revert pre suf lim out. induction fuel as [|fuel IH]; intros pre suf lim out Hf; [lia|].
  cbn [u16list_loop]. rewrite loop_cond.
  destruct suf as [|a [|b t]]; [rewrite andb_false_r; cbn; by rewrite app_nil_r..|].
  long_enough. cbn [u16_list]. destruct (Z.leb_spec 2 lim); [|by rewrite app_nil_r].
  rewrite u16_cons. cbn [go_bind val].
  replace (zlen pre + lim) with (zlen (pre ++ [a; b]) + (lim - 2))
    by (rewrite zlen_app; unfold zlen; cbn; lia).
  rewrite IH by (cbn in Hf; lia). by rewrite <- app_assoc.
Qed.

(** A slice has fewer than two bytes, or shows its first two. *)
Ltac two_bytes b Hb :=
  destruct b as [|? [|? b]];
  [done|done|
   match goal with |- context [zlen (?x :: ?y :: ?t) <? 2] =>
     replace (zlen (x :: y :: t) <? 2) with false
       by (symmetry; apply Z.ltb_ge; rewrite !zlen_cons; pose proof (zlen_nonneg t); lia)
   end; rewrite !Forall_cons in Hb; destruct Hb as (? & ? & Hb);
   rewrite at_start, u16_cons; cbn [go_bind val]].

Lemma parseSNI_spec b : Forall is_byte b -> parseSNI b = Ok (sni_of b).
Proof.
  intros Hb. unfold parseSNI. two_bytes b Hb. apply sni_loop_spec; [done|cbn; lia].
Qed.

Lemma parseALPN_spec b : Forall is_byte b -> parseALPN b = Ok (alpn_of b).
Proof.
  intros Hb. unfold parseALPN. two_bytes b Hb.
  etransitivity; [apply alpn_loop_spec; [done|cbn; lia]|done].
Qed.

Lemma parseU16List_spec b : Forall is_byte b -> parseU16List b = Ok (sigs_of b).
Proof.
  intros Hb. unfold parseU16List. two_bytes b Hb.
  etransitivity; [apply u16list_loop_spec; cbn; lia|done].
Qed.

Lemma handleExtension_spec ty data info server :
  Forall is_byte data ->
  handleExtension ty data info server = Ok (apply_writes (ext_writes server (ty, data)) info).
Proof.
  intros Hb. unfold handleExtension, ext_writes.
  destruct (ty =? 0).
  { destruct server; cbn [negb andb]; [done|]. rewrite parseSNI_spec by done. cbn [go_bind].
    by destruct (String.eqb _ _). }
  destruct (ty =? 13).
  { destruct server; cbn [negb]; [done|]. by rewrite parseU16List_spec. }
  destruct (ty =? 16); [by rewrite parseALPN_spec|].
  destruct (ty =? 43); [|destruct (ty =? 51); [|done]].
  all: destruct data as [|a [|b t]]; [by destruct server..|];
    destruct server; cbn [andb]; [|done];
    replace (2 <=? zlen (a :: b :: t)) with true
      by (symmetry; apply Z.leb_le; rewrite !zlen_cons; pose proof (zlen_nonneg t); lia);
    unfold head16; by byte_at_eval.
Qed.

Lemma ext_loop_spec fuel pre suf lim info server :
  Forall is_byte suf -> (length suf < fuel)%nat ->
  ext_loop fuel (at_ pre suf) (zlen pre + lim) info server
  = Ok (apply_writes (exts suf lim ≫= ext_writes server) info).
Proof.
  revert pre suf lim info. induction fuel as [|fuel IH]; intros pre suf lim info Hb Hf; [lia|].
  cbn [ext_loop]. rewrite loop_cond.
  destruct suf as [|t1 [|t2 [|l1 [|l2 body]]]]; [too_short..|].
  rewrite !Forall_cons in Hb. destruct Hb as (Ht1 & Ht2 & H1 & H2 & Hb). long_enough.
  rewrite exts_cons. destruct (Z.leb_spec 4 lim); [|done].
  rewrite u16_cons. cbn [go_bind]. rewrite u16_cons. cbn [go_bind val].
  rewrite bytes_spec by (by apply be16_range).
  destruct (Z.leb_spec (be16 l1 l2) (zlen body)); cbn [go_bind].
  - rewrite handleExtension_spec by (by apply Forall_ztake). cbn [go_bind mbind list_bind].
    set (len := be16 l1 l2) in *. rewrite apply_writes_app.
    replace (zlen pre + lim) with
      (zlen (((pre ++ [t1; t2]) ++ [l1; l2]) ++ ztake len body) + (lim - 4 - len)).
    + apply IH; [by apply Forall_zdrop|]. pose proof (length_zdrop_le len body). cbn in Hf. lia.
    + pose proof (be16_range l1 l2 H1 H2). rewrite !zlen_app, zlen_ztake by lia. unfold zlen; cbn; lia.
  - cbn [rb off at_]. rewrite subslice_tail by done. cbn [go_bind].
    rewrite handleExtension_spec by done. cbn [mbind list_bind]. by rewrite app_nil_r.
Qed.

Lemma parseExtensions_spec pre suf info server :
  Forall is_byte suf ->
  parseExtensions (at_ pre suf) info server
  = Ok (apply_writes (exts_of suf ≫= ext_writes server) info).
Proof.
  intros Hb. unfold parseExtensions, exts_of, with_len16.
  destruct suf as [|h [|l t]]; [rewrite u16_short by (unfold zlen; cbn; lia); done..|].
  rewrite u16_cons. cbn [go_bind off at_]. rewrite !Forall_cons in Hb. destruct Hb as (_ & _ & Hb).
  apply ext_loop_spec; [done|]. cbn [rb at_]. rewrite !length_app. lia.
Qed.

(** The common prefix of both hellos: random and session id. *)
Lemma hello_rest_spec pre t {A} (k : bool -> reader -> go A) :
  Forall is_byte t ->
  exists pre',
  (let '(ok, r) := skip 32 (at_ pre t) in
   if negb ok then k false r else do! (ok, r) <- skipVec8 r; k ok r)
  = match hello_rest t with Some t' => k true (at_ pre' t') | None => k false (at_ pre' []) end.
Proof.
  intros Hb. rewrite skip_spec by lia. unfold hello_rest.
  destruct (opt_drop 32 t) as [t1|] eqn:E; cbn [mbind option_bind negb].
  - pose proof (opt_drop_byte _ _ _ Hb E) as Hb1.
    destruct (skipVec8_spec (pre ++ ztake 32 t) t1 Hb1) as [pre' ->]. exists pre'. cbn [go_bind].
    by destruct (skip_vec t1).
  - by exists (pre ++ t).
Qed.

Lemma hello_rest_byte t t' : Forall is_byte t -> hello_rest t = Some t' -> Forall is_byte t'.
Proof.
  unfold hello_rest. intros Hb. destruct (opt_drop 32 t) as [t1|] eqn:E; cbn; [|done].
  apply skip_vec_byte. by eapply opt_drop_byte.
Qed.

Lemma parseClientHello_spec b info :
  Forall is_byte b -> parseClientHello b info = Ok (apply_writes (client_hello_writes b) info).
Proof.
  intros Hb. unfold parseClientHello, client_hello_writes. rewrite at_start.
  destruct b as [|h [|l t]]; [rewrite u16_short by (unfold zlen; cbn; lia); done..|].
  rewrite !Forall_cons in Hb. destruct Hb as (Hh & Hl & Hb).
  rewrite u16_cons. cbn [go_bind apply_writes fold_left apply_write].
  set (info1 := set_client_hello (be16 h l) info).
  destruct (hello_rest_spec ([] ++ [h; l]) t (fun ok r => if negb ok then Ok info1 else
    do! (csLen, r) <- u16 r;
    match csLen with
    | None => Ok info1
    | Some csLen =>
        let '(_, r) := skip csLen r in
        do! (ok, r) <- skipVec8 r;
        if negb ok then Ok info1 else parseExtensions r info1 false
    end) Hb) as [pre' E].
  etransitivity; [|etransitivity; [exact E|]].
  { destruct (skip 32 _) as [[] r]; cbn [negb]; [|done].
    destruct (skipVec8 r) as [[[] ?]| |]; done. }
  clear E. destruct (hello_rest t) as [t'|] eqn:E; cbn [negb mbind option_bind]; [|done].
  pose proof (hello_rest_byte _ _ Hb E) as Hb'. unfold client_hello_tail.
  destruct t' as [|c1 [|c2 r]]; [rewrite u16_short by (unfold zlen; cbn; lia); done..|].
  rewrite !Forall_cons in Hb'. destruct Hb' as (Hc1 & Hc2 & Hr).
  rewrite u16_cons. cbn [go_bind]. rewrite skip_spec by (by apply be16_range).
  assert (exists pre2, (match opt_drop (be16 c1 c2) r with
    | Some suf' => (true, at_ ((pre' ++ [c1; c2]) ++ ztake (be16 c1 c2) r) suf')
    | None => (false, at_ ((pre' ++ [c1; c2]) ++ r) []) end).2
    = at_ pre2 (default [] (opt_drop (be16 c1 c2) r))) as [pre2 E2].
  { destruct (opt_drop _ r); eexists; done. }
  destruct (match opt_drop _ r with Some _ => _ | None => _ end) as [? r2]. cbn [snd] in E2. subst r2.
  assert (Forall is_byte (default [] (opt_drop (be16 c1 c2) r))) as Hd.
  { destruct (opt_drop _ r) eqn:D; cbn; [by eapply opt_drop_byte|constructor]. }
  destruct (skipVec8_spec pre2 _ Hd) as [pre3 ->]. cbn [go_bind].
  destruct (skip_vec _) as [t3|] eqn:E3; cbn [negb]; [|done].
  rewrite parseExtensions_spec by (by eapply skip_vec_byte). done.
Qed.

Lemma parseServerHello_spec b info :
  Forall is_byte b -> parseServerHello b info = Ok (apply_writes (server_hello_writes b) info).
Proof.
  intros Hb. unfold parseServerHello, server_hello_writes. rewrite at_start.
  destruct b as [|h [|l t]]; [rewrite u16_short by (unfold zlen; cbn; lia); done..|].
  rewrite !Forall_cons in Hb. destruct Hb as (Hh & Hl & Hb).
  rewrite u16_cons. cbn [go_bind apply_writes fold_left apply_write].
  set (info1 := set_server_hello (be16 h l) info).
  destruct (hello_rest_spec ([] ++ [h; l]) t (fun ok r => if negb ok then Ok info1 else
    do! (cs, r) <- u16 r;
    match cs with
    | None => Ok info1
    | Some cs =>
        let info := set_CipherSuite cs info1 in
        do! (cm, r) <- u8 r;
        match cm with
        | None => Ok info
        | Some _ =>
            do! info <- parseExtensions r info true;
            if (NegVersion info <? 0x0304) && isTLS13Cipher cs
            then Ok (set_NegVersion 0x0304 info) else Ok info
        end
    end) Hb) as [pre' E].
  etransitivity; [|etransitivity; [exact E|]].
  { destruct (skip 32 _) as [[] r]; cbn [negb]; [|done].
    destruct (skipVec8 r) as [[[] ?]| |]; done. }
  clear E. destruct (hello_rest t) as [t'|] eqn:E; cbn [negb]; [|done].
  pose proof (hello_rest_byte _ _ Hb E) as Hb'.
  destruct t' as [|c1 [|c2 r]]; [rewrite u16_short by (unfold zlen; cbn; lia); done..|].
  rewrite !Forall_cons in Hb'. destruct Hb' as (Hc1 & Hc2 & Hr).
  rewrite u16_cons. cbn [go_bind]. destruct r as [|cm r]; [by rewrite u8_nil|].
  rewrite Forall_cons in Hr. destruct Hr as [_ Hr].
  rewrite u8_cons. cbn [go_bind]. rewrite parseExtensions_spec by done. cbn [go_bind fold_left].
  change (fold_left (fun i w => apply_write w i) ?l ?i) with (apply_writes l i).
  rewrite apply_writes_app. cbn [apply_write].
  destruct (isTLS13Cipher _); [|by rewrite andb_false_r].
  rewrite andb_true_r. cbn [apply_writes fold_left apply_write].
  change (fold_left (fun i w => apply_write w i) ?l ?i) with (apply_writes l i).
  by destruct (_ <? _).
Qed.

Lemma cut_min a b : (if a <? b then a else b) = Z.min a b.
Proof. destruct (Z.ltb_spec a b); lia. Qed.

Lemma parseCertificate_spec `{X509} b info :
  Forall is_byte b -> parseCertificate b info = Ok (apply_writes (certificate_writes b) info).
Proof.
  intros Hb. unfold parseCertificate, certificate_writes, first_cert.
  destruct b as [|t1 [|t2 [|t3 b]]]; [done..|].
  rewrite !Forall_cons in Hb. destruct Hb as (H1 & H2 & H3 & Hb). pose proof (zlen_nonneg b).
  rewrite !zlen_cons. destruct (Z.ltb_spec (1 + (1 + (1 + zlen b))) 3); [lia|].
  rewrite at_start, u24_cons. cbn [go_bind val off at_ app]. change (zlen [t1; t2; t3]) with 3.
  pose proof (be24_range t1 t2 t3 H1 H2 H3).
  rewrite cut_min.
  destruct b as [|l1 [|l2 [|l3 r]]].
  1-3: rewrite ?zlen_cons, ?zlen_nil;
    match goal with |- context [?c <? 3 + 3] => destruct (Z.ltb_spec c (3 + 3)) end; [done|lia].
  rewrite !Forall_cons in Hb. destruct Hb as (G1 & G2 & G3 & Hr). rewrite !zlen_cons.
  pose proof (zlen_nonneg r). pose proof (be24_range l1 l2 l3 G1 G2 G3).
  match goal with |- context [?c <? 3 + 3] => destruct (Z.ltb_spec c (3 + 3)) end;
    destruct (Z.leb_spec 3 (be24 t1 t2 t3)); cbn [andb]; try lia; [done|].
  rewrite (u24_cons [t1; t2; t3]). cbn [go_bind val]. rewrite bytes_spec by lia.
  destruct (Z.leb_spec (be24 l1 l2 l3) (zlen r)); cbn [go_bind andb]; [|done].
  rewrite zlen_ztake by lia. destruct (be24 l1 l2 l3 =? 0); cbn [negb]; [done|].
  cbn [mbind option_bind]. by destruct (ParseCertificate _).
Qed.

(** ** Streams *)

Lemma msg_spec `{X509} ty body info :
  Forall is_byte body ->
  (if ty =? hsClientHello then parseClientHello body info
   else if ty =? hsServerHello then parseServerHello body info
   else if ty =? hsCertificate then parseCertificate body info
   else Ok info) = Ok (apply_writes (msg_writes (ty, body)) info).
Proof.
  intros Hb. unfold msg_writes, hsClientHello, hsServerHello, hsCertificate.
  destruct (ty =? 1); [by apply parseClientHello_spec|].
  destruct (ty =? 2); [by apply parseServerHello_spec|].
  destruct (ty =? 11); [by apply parseCertificate_spec|done].
Qed.

Lemma stream_loop_spec `{X509} fuel pre suf info :
  Forall is_byte suf -> (length suf < fuel)%nat ->
  stream_loop fuel (pre ++ suf) (zlen pre) info
  = Ok (apply_writes (messages suf ≫= msg_writes) info).
Proof.
  revert pre suf info. induction fuel as [|fuel IH]; intros pre suf info Hb Hf; [lia|].
  cbn [stream_loop].
  assert ((zlen pre + 4 <=? zlen (pre ++ suf)) = (4 <=? zlen suf)) as ->.
  { rewrite zlen_app. destruct (Z.leb_spec (zlen pre + 4) (zlen pre + zlen suf)),
      (Z.leb_spec 4 (zlen suf)); lia || done. }
  destruct suf as [|ty [|l1 [|l2 [|l3 body]]]]; [done..|].
  rewrite !Forall_cons in Hb. destruct Hb as (Hty & H1 & H2 & H3 & Hb). long_enough.
  rewrite <- (Z.add_0_r (zlen pre)) at 1. rewrite !byte_at_app by lia. byte_at_eval.
  rewrite be24_int by done.
  change (ty :: l1 :: l2 :: l3 :: body) with ([ty; l1; l2; l3] ++ body).
  rewrite app_assoc, subslice_tail by (rewrite zlen_app; done). cbn [go_bind].
  pose proof (be24_range l1 l2 l3 H1 H2 H3). pose proof (zlen_nonneg body).
  rewrite cut_min. set (len := Z.min (zlen body) (be24 l1 l2 l3)).
  rewrite subslice_ok by lia. rewrite Z.sub_0_r, zdrop_0. cbn [go_bind].
  rewrite msg_spec by (by apply Forall_ztake). cbn [go_bind].
  assert (messages ([ty; l1; l2; l3] ++ body) = (ty, ztake len body) :: messages (zdrop len body)) as ->.
  { cbn [app]. rewrite messages_cons. destruct (Z.leb_spec (be24 l1 l2 l3) (zlen body)).
    - by replace len with (be24 l1 l2 l3) by lia.
    - replace len with (zlen body) by lia. rewrite zdrop_all, ztake_all. by simp messages. }
  cbn [mbind list_bind]. rewrite apply_writes_app.
  replace ((pre ++ [ty; l1; l2; l3]) ++ body)
    with (((pre ++ [ty; l1; l2; l3]) ++ ztake len body) ++ zdrop len body)
    by (rewrite <- app_assoc; by rewrite ztake_zdrop).
  replace (zlen pre + (4 + len)) with (zlen ((pre ++ [ty; l1; l2; l3]) ++ ztake len body))
    by (rewrite !zlen_app, zlen_ztake by lia; unfold zlen; cbn; lia).
  apply IH; [by apply Forall_zdrop|]. pose proof (length_zdrop_le len body). cbn in Hf. lia.
Qed.

Lemma collect_loop_spec fuel pre suf out :
  Forall is_byte suf -> (length suf < fuel)%nat ->
  collect_loop fuel (pre ++ suf) (zlen pre) out = Ok (out ++ hs_payload suf).
Proof.
  revert pre suf out. induction fuel as [|fuel IH]; intros pre suf out Hb Hf; [lia|].
  cbn [collect_loop].
  assert ((zlen pre + 5 <=? zlen (pre ++ suf)) = (5 <=? zlen suf)) as ->.
  { rewrite zlen_app. destruct (Z.leb_spec (zlen pre + 5) (zlen pre + zlen suf)),
      (Z.leb_spec 5 (zlen suf)); lia || done. }
  destruct suf as [|ct [|v1 [|v2 [|l1 [|l2 body]]]]];
    [simp hs_payload; rewrite (app_nil_r out); done..|].
  rewrite !Forall_cons in Hb. destruct Hb as (Hct & Hv1 & Hv2 & H1 & H2 & Hb). long_enough.
  rewrite <- (Z.add_0_r (zlen pre)) at 1. rewrite !byte_at_app by lia. byte_at_eval.
  rewrite be16_int by done. rewrite hs_payload_cons. unfold ctHandshake.
  destruct (ct =? 22); cbn [negb]; [|by rewrite app_nil_r].
  change (ct :: v1 :: v2 :: l1 :: l2 :: body) with ([ct; v1; v2; l1; l2] ++ body).
  rewrite app_assoc. set (pre5 := pre ++ [ct; v1; v2; l1; l2]).
  assert (zlen pre + 5 = zlen pre5) as -> by (unfold pre5; by rewrite zlen_app).
  pose proof (be16_range l1 l2 H1 H2). pose proof (zlen_nonneg body). pose proof (zlen_nonneg pre5).
  set (len := be16 l1 l2) in *. rewrite zlen_app.
  destruct (Z.leb_spec len (zlen body)).
  - destruct (Z.ltb_spec (zlen pre5 + zlen body) (zlen pre5 + len)); [lia|].
    rewrite subslice_ok by (rewrite ?zlen_app; lia). cbn [go_bind]. rewrite Z.eqb_refl. cbn [negb].
    rewrite zdrop_app. replace (zlen pre5 + len - zlen pre5) with len by lia.
    rewrite <- (ztake_zdrop len body) at 1. rewrite app_assoc.
    replace (zlen pre5 + len) with (zlen (pre5 ++ ztake len body))
      by (rewrite zlen_app, zlen_ztake by lia; done).
    rewrite IH; [by rewrite <- app_assoc|by apply Forall_zdrop|].
    pose proof (length_zdrop_le len body). cbn in Hf. lia.
  - destruct (Z.ltb_spec (zlen pre5 + zlen body) (zlen pre5 + len)); [|lia].
    rewrite <- zlen_app, subslice_tail by done. cbn [go_bind]. rewrite zlen_app.
    destruct (Z.eqb_spec (zlen pre5 + zlen body) (zlen pre5 + len)); [lia|done].
Qed.

Lemma hs_payload_byte buf : Forall is_byte buf -> Forall is_byte (hs_payload buf).
Proof.
  remember (length buf) as n eqn:Hn. revert buf Hn.
  induction n as [n IH] using lt_wf_ind. intros buf -> Hb.
  destruct buf as [|ct [|v1 [|v2 [|l1 [|l2 body]]]]]; [simp hs_payload; by constructor..|].
  rewrite hs_payload_cons. rewrite !Forall_cons in Hb. destruct Hb as (_ & _ & _ & _ & _ & Hb).
  repeat case_match; [|done|constructor]. apply Forall_app. split; [by apply Forall_ztake|].
  eapply IH; [|done|by apply Forall_zdrop].
  pose proof (length_zdrop_le (be16 l1 l2) body). cbn. lia.
Qed.

(** [Parse] never panics, always ends, and makes exactly the reference assignments. *)
Lemma Parse_writes `{X509} buf info :
  Forall is_byte buf -> Parse buf info = Ok (apply_writes (buffer_writes buf) info).
Proof.
  intros Hb. unfold Parse, collectHandshake, buffer_writes.
  pose proof (collect_loop_spec (S (length buf)) [] buf [] Hb ltac:(lia)) as E0.
  cbn [app] in E0. rewrite zlen_nil in E0. rewrite E0. cbn [go_bind app].
  destruct (Z.eqb_spec (zlen (hs_payload buf)) 0) as [E|].
  - destruct (hs_payload buf); [by simp messages|]. rewrite zlen_cons in E.
    pose proof (zlen_nonneg l). lia.
  - apply (stream_loop_spec (S (length (hs_payload buf))) [] (hs_payload buf)); [|lia].
    by apply hs_payload_byte.
Qed.
