(* ===== verification/TlsReparse.v ===== *)
(** Re-parsing: the assignments of a truncated capture are absorbed by those of the
    longer one.

    [cut] relates the records, messages or extensions of a prefix to those of the
    whole; [covers] is the resulting relation on assignment sequences; and
    [covers_absorb] shows that covered assignments leave no trace. *)
From S2P Require Import Prelude TlsParse TlsSpec TlsEquiv.
From Equations Require Import Equations.

(** ** Assignments by field *)

Definition kind (w : write) : nat :=
  match w with
  | WClientHello _ => 0 | WServerHello _ => 1 | WCipher _ => 2 | WSNI _ => 3 | WSigs _ => 4
  | WALPN _ => 5 | WNeg _ => 6 | WGroup _ => 7 | WInfer13 => 8 | WCert _ _ _ _ => 9
  end%nat.

Definition kinds (ws : list write) : list nat := kind <$> ws.

Definition hello_version (w : write) : option Z :=
  match w with WClientHello v => Some v | _ => None end.
Definition hello_versions (ws : list write) : list Z := omap hello_version ws.

(** [wp] assigns no field that [wf] does not, and saw a prefix of its hellos. *)
Record covers (wp wf : list write) : Prop := {
  cov_kinds : kinds wp ⊆ kinds wf;
  cov_hello : hello_versions wp `prefix_of` hello_versions wf }.

(** The inference of TLS 1.3 only follows a ServerHello. *)
Definition guarded (ws : list write) : Prop := 8%nat ∈ kinds ws -> 1%nat ∈ kinds ws.

Lemma kinds_app a b : kinds (a ++ b) = kinds a ++ kinds b.
Proof. apply fmap_app. Qed.
Lemma hello_versions_app a b : hello_versions (a ++ b) = hello_versions a ++ hello_versions b.
Proof. apply omap_app. Qed.

Lemma covers_refl ws : covers ws ws.
Proof. by split. Qed.
Lemma covers_nil ws : covers [] ws.
Proof. split; [apply list_subseteq_nil|apply prefix_nil]. Qed.
Lemma covers_app_r wp wf r : covers wp wf -> covers wp (wf ++ r).
Proof.
  intros []. split; [rewrite kinds_app; by apply list_subseteq_app_l|].
  rewrite hello_versions_app. by apply prefix_app_r.
Qed.
Lemma covers_cons w wp wf : covers wp wf -> covers (w :: wp) (w :: wf).
Proof.
  intros [Hk Hh]. split; [by apply list_subseteq_skip|]. unfold hello_versions; cbn [omap list_omap].
  destruct (hello_version w); [by apply prefix_cons|done].
Qed.
Lemma covers_app_l c wp wf : covers wp wf -> covers (c ++ wp) (c ++ wf).
Proof. induction c; cbn; auto using covers_cons. Qed.

(** *** One field *)

(** The last value [ws] assigns to a field, [u] telling what each write assigns. *)
Definition last_upd {T} (u : write -> option T) (ws : list write) : option T :=
  last (omap u ws).

Lemma field_value {T} (g : Info -> T) (u : write -> option T) ws i :
  (forall w i, g (apply_write w i) = default (g i) (u w)) ->
  g (apply_writes ws i) = default (g i) (last_upd u ws).
Proof.
  intros Hg. unfold last_upd. revert i. induction ws as [|w ws IH] using rev_ind; intros i; [done|].
  rewrite apply_writes_app, omap_app. cbn [apply_writes fold_left omap list_omap].
  change (fold_left _ ws i) with (apply_writes ws i).
  rewrite Hg, IH. destruct (u w); cbn; [by rewrite last_snoc|by rewrite app_nil_r].
Qed.

Lemma last_upd_kind {T} (u : write -> option T) k ws :
  (forall w, is_Some (u w) <-> kind w = k) -> (is_Some (last_upd u ws) <-> k ∈ kinds ws).
Proof.
  intros Hu. unfold last_upd, kinds. rewrite last_is_Some. split.
  - intros Hne. destruct (omap u ws) as [|x l] eqn:E; [done|].
    assert (x ∈ omap u ws) as Hx by (rewrite E; left).
    apply list_elem_of_omap in Hx as (w & Hw & Hx). apply list_elem_of_fmap.
    exists w. split; [|done]. symmetry. apply Hu. eauto.
  - intros Hk. apply list_elem_of_fmap in Hk as (w & Hk & Hw).
    destruct (proj2 (Hu w) (eq_sym Hk)) as [x Hx]. intros E.
    assert (x ∈ omap u ws) as Hin by (apply list_elem_of_omap; eauto). rewrite E in Hin.
    by apply not_elem_of_nil in Hin.
Qed.

Lemma field_between {T} (g : Info -> T) (u : write -> option T) k wp wo wf i :
  (forall w i, g (apply_write w i) = default (g i) (u w)) ->
  (forall w, is_Some (u w) <-> kind w = k) ->
  kinds wp ⊆ kinds wf ->
  g (apply_writes wf (apply_writes wo (apply_writes wp i))) = g (apply_writes wf (apply_writes wo i)).
Proof.
  intros Hg Hu Hk. rewrite !(field_value g u) by done.
  destruct (last_upd u wf) eqn:E; [done|]. cbn.
  destruct (last_upd u wp) eqn:E'; [|done]. exfalso.
  assert (k ∈ kinds wf) as Hin.
  { apply Hk. apply (last_upd_kind u k wp Hu). rewrite E'. eauto. }
  apply (last_upd_kind u k wf Hu) in Hin. rewrite E in Hin. by destruct Hin.
Qed.

(** *** The negotiated version *)

Definition neg_write (w : write) (v : Z) : Z :=
  match w with
  | WClientHello x => if v =? 0 then x else v
  | WServerHello x => x
  | WNeg x => x
  | WInfer13 => if v <? 0x0304 then 0x0304 else v
  | _ => v
  end.
Definition neg_writes (ws : list write) (v : Z) : Z := fold_left (fun v w => neg_write w v) ws v.

Lemma NegVersion_writes ws i : NegVersion (apply_writes ws i) = neg_writes ws (NegVersion i).
Proof.
  unfold apply_writes, neg_writes. revert i.
  induction ws as [|w ws IH]; intros i; [done|]. cbn [fold_left]. rewrite IH. f_equal.
  destruct w; try done. cbn. by destruct (_ <? _).
Qed.

Lemma neg_writes_server ws v v' : 1%nat ∈ kinds ws -> neg_writes ws v = neg_writes ws v'.
Proof.
  unfold neg_writes. revert v v'. induction ws as [|w ws IH]; intros v v' Hin.
  - by apply not_elem_of_nil in Hin.
  - cbn [fold_left]. destruct w; cbn in Hin; try done.
    all: apply elem_of_cons in Hin as [?|Hin]; [done|by apply IH].
Qed.

(** Without a ServerHello the version is the first non-zero hello version. *)
Definition first_nonzero (l : list Z) (v : Z) : Z :=
  fold_left (fun v x => if v =? 0 then x else v) l v.

Lemma neg_writes_client ws v :
  1%nat ∉ kinds ws -> 6%nat ∉ kinds ws -> 8%nat ∉ kinds ws ->
  neg_writes ws v = first_nonzero (hello_versions ws) v.
Proof.
  unfold neg_writes, first_nonzero, hello_versions. revert v.
  induction ws as [|w ws IH]; intros v H1 H6 H8; [done|]. cbn in H1, H6, H8.
  rewrite not_elem_of_cons in H1, H6, H8. cbn [fold_left].
  rewrite IH by tauto. destruct w; cbn in *; try done; lia || tauto.
Qed.

Lemma first_nonzero_nz l v : v <> 0 -> first_nonzero l v = v.
Proof.
  unfold first_nonzero. revert v. induction l as [|x l IH]; intros v Hv; [done|]. cbn.
  destruct (Z.eqb_spec v 0); [done|by apply IH].
Qed.

Lemma first_nonzero_prefix l l' v :
  l `prefix_of` l' -> first_nonzero l' (first_nonzero l v) = first_nonzero l' v.
Proof.
  intros [k ->]. unfold first_nonzero at 1 3. rewrite !fold_left_app.
  fold (first_nonzero l (first_nonzero l v)). fold (first_nonzero l v). f_equal.
  destruct (decide (first_nonzero l v = 0)) as [E|]; [|by apply first_nonzero_nz].
  rewrite E. destruct (decide (v = 0)) as [->|Hv]; [done|].
  by rewrite first_nonzero_nz in E.
Qed.

Lemma neg_absorbed wp wf v :
  covers wp wf -> guarded wf -> (6%nat ∈ kinds wf -> 1%nat ∈ kinds wf) ->
  neg_writes wf (neg_writes wp v) = neg_writes wf v.
Proof.
  intros [Hk Hh] Hg H6. destruct (decide (1%nat ∈ kinds wf)) as [H1|H1].
  - by apply neg_writes_server.
  - assert ((6%nat ∉ kinds wf) /\ (8%nat ∉ kinds wf)) as [H6' H8'] by (unfold guarded in Hg; tauto).
    rewrite !(neg_writes_client wf) by done.
    rewrite (neg_writes_client wp) by (intros Hin; apply Hk in Hin; tauto).
    by apply first_nonzero_prefix.
Qed.

(** *** All fields at once *)

(** What each field reads off an assignment, and the kind of assignment that sets it. *)
Definition upd_bool (k : nat) (w : write) : option bool := if decide (kind w = k) then Some true else None.
Definition upd_str (w : write) : option string := match w with WSNI s => Some s | _ => None end.
Definition upd_alpn (w : write) : option (list string) := match w with WALPN l => Some l | _ => None end.
Definition upd_hello (w : write) : option Z := match w with WClientHello v => Some v | _ => None end.
Definition upd_cipher (w : write) : option Z := match w with WCipher v => Some v | _ => None end.
Definition upd_group (w : write) : option Z := match w with WGroup v => Some v | _ => None end.
Definition upd_sigs (w : write) : option (list Z) := match w with WSigs l => Some l | _ => None end.
Definition upd_subject (w : write) : option string := match w with WCert s _ _ _ => Some s | _ => None end.
Definition upd_issuer (w : write) : option string := match w with WCert _ s _ _ => Some s | _ => None end.
Definition upd_sans (w : write) : option (list string) := match w with WCert _ _ l _ => Some l | _ => None end.
Definition upd_alg (w : write) : option string := match w with WCert _ _ _ s => Some s | _ => None end.

(** A field [g] of [Info] that only assignments of kind [k] set, to what [u] says. *)
Class Field {T} (g : Info -> T) (u : write -> option T) (k : nat) : Prop := {
  field_apply w i : g (apply_write w i) = default (g i) (u w);
  field_kind w : is_Some (u w) <-> kind w = k }.

Ltac solve_field :=
  split; [intros w i; destruct w; try exact eq_refl; cbn; destruct (NegVersion i <? 772); exact eq_refl
         |intros w; destruct w; cbn; split; intros Hs;
          first [discriminate Hs|destruct Hs; discriminate|reflexivity|eexists; reflexivity]].

#[export] Instance field_client_hello : Field HasClientHello (upd_bool 0) 0.
Proof. solve_field. Qed.
#[export] Instance field_server_hello : Field HasServerHello (upd_bool 1) 1.
Proof. solve_field. Qed.
#[export] Instance field_has_cert : Field HasCert (upd_bool 9) 9.
Proof. solve_field. Qed.
#[export] Instance field_sni : Field SNI upd_str 3.
Proof. solve_field. Qed.
#[export] Instance field_alpn : Field ALPN upd_alpn 5.
Proof. solve_field. Qed.
#[export] Instance field_client_version : Field ClientVersion upd_hello 0.
Proof. solve_field. Qed.
#[export] Instance field_cipher : Field CipherSuite upd_cipher 2.
Proof. solve_field. Qed.
#[export] Instance field_group : Field Group upd_group 7.
Proof. solve_field. Qed.
#[export] Instance field_sigs : Field OfferedSigs upd_sigs 4.
Proof. solve_field. Qed.
#[export] Instance field_subject : Field CertSubject upd_subject 9.
Proof. solve_field. Qed.
#[export] Instance field_issuer : Field CertIssuer upd_issuer 9.
Proof. solve_field. Qed.
#[export] Instance field_sans : Field CertSANs upd_sans 9.
Proof. solve_field. Qed.
#[export] Instance field_alg : Field CertSigAlg upd_alg 9.
Proof. solve_field. Qed.

Lemma fields_between {T} (g : Info -> T) u k `{Field T g u k} wp wo wf i :
  kinds wp ⊆ kinds wf ->
  g (apply_writes wf (apply_writes wo (apply_writes wp i))) = g (apply_writes wf (apply_writes wo i)).
Proof. intros. eapply field_between; [apply field_apply|apply field_kind|done]. Qed.

Lemma Info_eta i j :
  HasClientHello i = HasClientHello j -> HasServerHello i = HasServerHello j ->
  HasCert i = HasCert j -> SNI i = SNI j -> ALPN i = ALPN j ->
  ClientVersion i = ClientVersion j -> NegVersion i = NegVersion j ->
  CipherSuite i = CipherSuite j -> Group i = Group j -> OfferedSigs i = OfferedSigs j ->
  CertSubject i = CertSubject j -> CertIssuer i = CertIssuer j ->
  CertSANs i = CertSANs j -> CertSigAlg i = CertSigAlg j -> i = j.
Proof. destruct i, j; cbn. intros. f_equal; assumption. Qed.

(** Two assignment sequences to the [Info] that differ by [wp] before [wo], then [wf]. *)
Lemma between_absorb wp wo wf i :
  kinds wp ⊆ kinds wf ->
  neg_writes wf (neg_writes wo (neg_writes wp (NegVersion i))) = neg_writes wf (neg_writes wo (NegVersion i)) ->
  apply_writes wf (apply_writes wo (apply_writes wp i)) = apply_writes wf (apply_writes wo i).
Proof.
  intros Hk Hneg. apply Info_eta.
  - by apply (fields_between HasClientHello (upd_bool 0) 0).
  - by apply (fields_between HasServerHello (upd_bool 1) 1).
  - by apply (fields_between HasCert (upd_bool 9) 9).
  - by apply (fields_between SNI upd_str 3).
  - by apply (fields_between ALPN upd_alpn 5).
  - by apply (fields_between ClientVersion upd_hello 0).
  - by rewrite !NegVersion_writes.
  - by apply (fields_between CipherSuite upd_cipher 2).
  - by apply (fields_between Group upd_group 7).
  - by apply (fields_between OfferedSigs upd_sigs 4).
  - by apply (fields_between CertSubject upd_subject 9).
  - by apply (fields_between CertIssuer upd_issuer 9).
  - by apply (fields_between CertSANs upd_sans 9).
  - by apply (fields_between CertSigAlg upd_alg 9).
Qed.

Lemma covers_absorb wp wf i :
  covers wp wf -> guarded wf -> (6%nat ∈ kinds wf -> 1%nat ∈ kinds wf) ->
  apply_writes wf (apply_writes wp i) = apply_writes wf i.
Proof.
  intros Hc Hg H6. apply (between_absorb wp [] wf i); [apply Hc|]. cbn. by apply neg_absorbed.
Qed.

(** ** Truncated captures

    [cut c c']: the elements of a truncated sequence [c]; the last one of them may
    itself be truncated. *)

Inductive cut : list (Z * list Z) -> list (Z * list Z) -> Prop :=
| cut_nil c : cut [] c
| cut_last t b b' c : b `prefix_of` b' -> cut [(t, b)] ((t, b') :: c)
| cut_cons m c c' : cut c c' -> cut (m :: c) (m :: c').

Lemma covers_bind (f : Z * list Z -> list write) c c' :
  (forall t b b', b `prefix_of` b' -> covers (f (t, b)) (f (t, b'))) ->
  cut c c' -> covers (c ≫= f) (c' ≫= f).
Proof.
  intros Hf. induction 1 as [c|t b b' c Hb|m c c' _ IH]; cbn.
  - apply covers_nil.
  - rewrite app_nil_r. by apply covers_app_r, Hf.
  - by apply covers_app_l.
Qed.

(** Splitting a longer byte sequence. *)
Lemma ztake_app_le {A} n (l k : list A) : n <= zlen l -> ztake n (l ++ k) = ztake n l.
Proof. unfold ztake, zlen. intros. apply take_app_le. lia. Qed.
Lemma zdrop_app_le {A} n (l k : list A) : n <= zlen l -> zdrop n (l ++ k) = zdrop n l ++ k.
Proof. unfold zdrop, zlen. intros. apply drop_app_le. lia. Qed.

Lemma opt_drop_app n l k r : opt_drop n l = Some r -> opt_drop n (l ++ k) = Some (r ++ k).
Proof.
  unfold opt_drop. pose proof (zlen_nonneg k). rewrite zlen_app.
  destruct (Z.leb_spec n (zlen l)), (Z.leb_spec n (zlen l + zlen k)); try lia; [|done..].
  intros [= <-]. by rewrite zdrop_app_le.
Qed.

Lemma skip_vec_app l k r : skip_vec l = Some r -> skip_vec (l ++ k) = Some (r ++ k).
Proof. destruct l; [done|]. apply opt_drop_app. Qed.

Lemma hello_rest_app l k r : hello_rest l = Some r -> hello_rest (l ++ k) = Some (r ++ k).
Proof.
  unfold hello_rest. intros (t & Ht & Hr)%bind_Some.
  apply bind_Some. exists (t ++ k). split; [by apply opt_drop_app|by apply skip_vec_app].
Qed.

Lemma client_hello_tail_app l k r :
  client_hello_tail l = Some r -> client_hello_tail (l ++ k) = Some (r ++ k).
Proof.
  destruct l as [|a [|b l]]; [done|done|]. cbn [client_hello_tail app].
  destruct (opt_drop (be16 a b) l) as [t|] eqn:E; cbn [default]; [|done].
  rewrite (opt_drop_app _ _ _ _ E). apply skip_vec_app.
Qed.

Lemma prefix_ztake {A} n (l k : list A) : zlen l <= n -> l `prefix_of` ztake n (l ++ k).
Proof.
  unfold ztake, zlen. intros. rewrite take_app_ge by lia. by exists (take (Z.to_nat n - length l) k).
Qed.

Lemma hs_payload_app p k : hs_payload p `prefix_of` hs_payload (p ++ k).
Proof.
  induction p as [p IH] using (well_founded_induction (well_founded_ltof _ (@length Z))).
  destruct p as [|ct [|v1 [|v2 [|l1 [|l2 body]]]]]; try (simp hs_payload; apply prefix_nil).
  cbn [app]. rewrite !hs_payload_cons. destruct (ct =? 22); [|done].
  rewrite zlen_app. pose proof (zlen_nonneg k).
  destruct (Z.leb_spec (be16 l1 l2) (zlen body)) as [H1|H1].
  - rewrite (proj2 (Z.leb_le _ _)) by lia.
    rewrite ztake_app_le, zdrop_app_le by done. apply prefix_app, IH.
    unfold ltof, zdrop. rewrite length_drop. cbn. lia.
  - destruct (be16 l1 l2 <=? _); [|by exists k].
    apply prefix_app_r, prefix_ztake. lia.
Qed.

Lemma messages_app s k : cut (messages s) (messages (s ++ k)).
Proof.
  induction s as [s IH] using (well_founded_induction (well_founded_ltof _ (@length Z))).
  destruct s as [|ty [|l1 [|l2 [|l3 body]]]]; try (simp messages; apply cut_nil).
  cbn [app]. rewrite !messages_cons, zlen_app. pose proof (zlen_nonneg k).
  destruct (Z.leb_spec (be24 l1 l2 l3) (zlen body)) as [H1|H1].
  - rewrite (proj2 (Z.leb_le _ _)) by lia.
    rewrite ztake_app_le, zdrop_app_le by done. apply cut_cons, IH.
    unfold ltof, zdrop. rewrite length_drop. cbn. lia.
  - destruct (be24 l1 l2 l3 <=? _); apply cut_last; [|by exists k].
    apply prefix_ztake. lia.
Qed.

Lemma exts_app s k lim : cut (exts s lim) (exts (s ++ k) lim).
Proof.
  revert lim.
  induction s as [s IH] using (well_founded_induction (well_founded_ltof _ (@length Z))); intros lim.
  destruct s as [|t1 [|t2 [|l1 [|l2 body]]]]; try (simp exts; apply cut_nil).
  cbn [app]. rewrite !exts_cons, zlen_app. pose proof (zlen_nonneg k).
  destruct (4 <=? lim); [|apply cut_nil].
  destruct (Z.leb_spec (be16 l1 l2) (zlen body)) as [H1|H1].
  - rewrite (proj2 (Z.leb_le _ _)) by lia.
    rewrite ztake_app_le, zdrop_app_le by done. apply cut_cons, IH.
    unfold ltof, zdrop. rewrite length_drop. cbn. lia.
  - destruct (be16 l1 l2 <=? _); apply cut_last; [|by exists k].
    apply prefix_ztake. lia.
Qed.

Lemma exts_of_app b k : cut (exts_of b) (exts_of (b ++ k)).
Proof. destruct b as [|h [|l b]]; [apply cut_nil..|]. apply exts_app. Qed.

Lemma sni_list_app s k lim :
  sni_list s lim <> EmptyString -> sni_list (s ++ k) lim = sni_list s lim.
Proof.
  revert lim.
  induction s as [s IH] using (well_founded_induction (well_founded_ltof _ (@length Z))); intros lim.
  destruct s as [|ty [|l1 [|l2 body]]]; try (simp sni_list; done).
  cbn [app]. rewrite !sni_list_cons, zlen_app. pose proof (zlen_nonneg k).
  destruct (3 <=? lim); [|done].
  destruct (Z.leb_spec (be16 l1 l2) (zlen body)) as [H1|H1]; [|done].
  rewrite (proj2 (Z.leb_le _ _)) by lia. rewrite ztake_app_le, zdrop_app_le by done.
  destruct (ty =? 0); [done|]. apply IH. unfold ltof, zdrop. rewrite length_drop. cbn. lia.
Qed.

Lemma sni_of_app b k : sni_of b <> EmptyString -> sni_of (b ++ k) = sni_of b.
Proof. destruct b as [|h [|l b]]; [done..|]. apply sni_list_app. Qed.

Lemma first_cert_app b k d : first_cert b = Some d -> first_cert (b ++ k) = Some d.
Proof.
  destruct b as [|t1 [|t2 [|t3 [|l1 [|l2 [|l3 r]]]]]]; try done. cbn [first_cert app].
  rewrite zlen_app. pose proof (zlen_nonneg k).
  destruct (3 <=? be24 t1 t2 t3); [|done]. cbn [andb].
  destruct (Z.leb_spec (be24 l1 l2 l3) (zlen r)); [|done].
  rewrite (proj2 (Z.leb_le _ _)) by lia. by rewrite ztake_app_le.
Qed.

(** ** Assignments of a truncated message *)

Lemma ext_writes_hello server e : hello_versions (ext_writes server e) = [].
Proof. destruct e as [ty d]. unfold ext_writes. by repeat case_match. Qed.

Lemma covers_no_hello wp wf : hello_versions wp = [] -> kinds wp ⊆ kinds wf -> covers wp wf.
Proof. intros E. split; [done|]. rewrite E. apply prefix_nil. Qed.

Lemma ext_writes_covers server t b b' :
  b `prefix_of` b' -> covers (ext_writes server (t, b)) (ext_writes server (t, b')).
Proof.
  intros [k ->]. apply covers_no_hello; [apply ext_writes_hello|]. unfold ext_writes.
  destruct (t =? 0).
  { destruct server; [done|]. cbn [negb andb].
    destruct (String.eqb_spec (sni_of b) EmptyString) as [|Hne]; [apply list_subseteq_nil|].
    rewrite sni_of_app by done. by rewrite (proj2 (String.eqb_neq _ _) Hne). }
  destruct (t =? 13); [by destruct server|]. destruct (t =? 16); [done|].
  destruct (t =? 43); [|destruct (t =? 51); [|done]];
    (destruct b as [|? [|? b]]; [apply list_subseteq_nil..|]; by destruct server).
Qed.

Lemma exts_writes_covers server b k :
  covers (exts_of b ≫= ext_writes server) (exts_of (b ++ k) ≫= ext_writes server).
Proof. apply covers_bind; [apply ext_writes_covers|apply exts_of_app]. Qed.

Lemma exts_writes_hello server es : hello_versions (es ≫= ext_writes server) = [].
Proof.
  induction es as [|e es IH]; [done|]. cbn. by rewrite hello_versions_app, ext_writes_hello.
Qed.

Lemma client_hello_covers b k : covers (client_hello_writes b) (client_hello_writes (b ++ k)).
Proof.
  destruct b as [|h [|l t]]; [apply covers_nil..|]. cbn [client_hello_writes app].
  apply covers_cons.
  destruct (hello_rest t ≫= client_hello_tail) as [r|] eqn:E; [|apply covers_nil].
  apply bind_Some in E as (u & Hu & Hr).
  rewrite (hello_rest_app _ k _ Hu). cbn [mbind option_bind].
  rewrite (client_hello_tail_app _ k _ Hr). apply exts_writes_covers.
Qed.

Lemma server_hello_covers b k : covers (server_hello_writes b) (server_hello_writes (b ++ k)).
Proof.
  destruct b as [|h [|l t]]; [apply covers_nil..|]. cbn [server_hello_writes app].
  apply covers_cons.
  destruct (hello_rest t) as [r|] eqn:E; [|apply covers_nil]. rewrite (hello_rest_app _ k _ E).
  destruct r as [|c1 [|c2 r]]; [apply covers_nil..|]. cbn [app]. apply covers_cons.
  destruct r as [|cm r]; [apply covers_nil|]. cbn [app].
  apply covers_no_hello.
  - rewrite hello_versions_app, exts_writes_hello. by destruct (isTLS13Cipher _).
  - rewrite !kinds_app. apply list_subseteq_app_iff_l. split.
    + apply list_subseteq_app_l, exts_writes_covers.
    + by apply list_subseteq_app_r.
Qed.

Lemma certificate_covers `{X509} b k :
  covers (certificate_writes b) (certificate_writes (b ++ k)).
Proof.
  unfold certificate_writes. destruct (first_cert b) as [d|] eqn:E; [|apply covers_nil].
  by rewrite (first_cert_app _ _ _ E).
Qed.

Lemma msg_writes_covers `{X509} t b b' :
  b `prefix_of` b' -> covers (msg_writes (t, b)) (msg_writes (t, b')).
Proof.
  intros [k ->]. unfold msg_writes. destruct (t =? 1); [apply client_hello_covers|].
  destruct (t =? 2); [apply server_hello_covers|].
  destruct (t =? 11); [apply certificate_covers|done].
Qed.

Lemma buffer_writes_covers `{X509} p q :
  p `prefix_of` q -> covers (buffer_writes p) (buffer_writes q).
Proof.
  intros [k ->]. unfold buffer_writes. destruct (hs_payload_app p k) as [r ->].
  apply covers_bind; [apply msg_writes_covers|apply messages_app].
Qed.

(** ** Version assignments only follow a ServerHello *)

Definition versioned (ws : list write) : Prop :=
  6%nat ∈ kinds ws \/ 8%nat ∈ kinds ws -> 1%nat ∈ kinds ws.

Lemma versioned_app a b : versioned a -> versioned b -> versioned (a ++ b).
Proof. unfold versioned. rewrite !kinds_app, !elem_of_app. tauto. Qed.
Lemma versioned_nil : versioned [].
Proof. by intros [?%not_elem_of_nil|?%not_elem_of_nil]. Qed.
Lemma versioned_server v ws : versioned (WServerHello v :: ws).
Proof. intros _. left. Qed.
Lemma versioned_cons w ws : kind w <> 6%nat -> kind w <> 8%nat -> versioned ws -> versioned (w :: ws).
Proof. unfold versioned. cbn. rewrite !elem_of_cons. intros ?? Hv [[]|[]]; naive_solver. Qed.
Lemma versioned_bind {A} (f : A -> list write) c : (forall m, versioned (f m)) -> versioned (c ≫= f).
Proof.
  intros Hf. induction c as [|m c IH]; [apply versioned_nil|]. by apply versioned_app.
Qed.

Lemma ext_writes_client_versioned e : versioned (ext_writes false e).
Proof.
  destruct e as [t b]. unfold ext_writes. cbn [negb andb].
  repeat case_match; try apply versioned_nil; by apply versioned_cons, versioned_nil.
Qed.

Lemma msg_writes_versioned `{X509} m : versioned (msg_writes m).
Proof.
  destruct m as [t b]. unfold msg_writes. destruct (t =? 1); [|destruct (t =? 2)].
  - destruct b as [|h [|l b]]; [apply versioned_nil..|]. cbn [client_hello_writes].
    apply versioned_cons; [done..|]. destruct (_ ≫= _); [|apply versioned_nil].
    apply versioned_bind, ext_writes_client_versioned.
  - destruct b as [|h [|l b]]; [apply versioned_nil..|apply versioned_server].
  - destruct (t =? 11); [|apply versioned_nil]. unfold certificate_writes.
    destruct (_ ≫= _); [|apply versioned_nil]. by apply versioned_cons, versioned_nil.
Qed.

Lemma buffer_writes_versioned `{X509} buf : versioned (buffer_writes buf).
Proof. apply versioned_bind, msg_writes_versioned. Qed.

(** The assignments of a prefix leave no trace under those of the whole. *)
Lemma buffer_writes_absorb `{X509} p q i :
  p `prefix_of` q ->
  apply_writes (buffer_writes q) (apply_writes (buffer_writes p) i) =
  apply_writes (buffer_writes q) i.
Proof.
  intros Hp. pose proof (buffer_writes_versioned q) as Hv.
  apply covers_absorb; [by apply buffer_writes_covers|unfold guarded|]; unfold versioned in Hv; tauto.
Qed.
