(* ===== verification/TlsDuplex.v ===== *)
(** Two buffers, one [Info]: the two directions of a connection are parsed again and
    again on top of each other.

    [reparse_between]: a parse of the other direction's buffer in between does not
    disturb absorption, unless both directions carry a ClientHello.  [two_pass_fields]
    says which direction each field of the result comes from. *)
From S2P Require Import Prelude TlsParse TlsSpec TlsEquiv TlsReparse.
From Equations Require Import Equations.

(** ** A parse in between *)

(** At most one of two assignment sequences has a ClientHello. *)
Definition one_hello (a b : list write) : Prop := 0%nat ∉ kinds a \/ 0%nat ∉ kinds b.

Lemma hello_versions_none ws : 0%nat ∉ kinds ws -> hello_versions ws = [].
Proof.
  unfold kinds, hello_versions. induction ws as [|w ws IH]; [done|]. cbn.
  rewrite not_elem_of_cons. intros [Hw Hws]. destruct w; cbn in *; try done; by apply IH.
Qed.

Lemma neg_between wp wo wf v :
  covers wp wf -> versioned wf -> versioned wo -> one_hello wf wo ->
  neg_writes wf (neg_writes wo (neg_writes wp v)) = neg_writes wf (neg_writes wo v).
Proof.
  intros [Hk Hh] Hvf Hvo Hone. unfold versioned in *.
  destruct (decide (1%nat ∈ kinds wf)) as [H1|H1]; [by apply neg_writes_server|].
  assert (forall ws, 1%nat ∉ kinds ws -> (6%nat ∈ kinds ws \/ 8%nat ∈ kinds ws -> 1%nat ∈ kinds ws) ->
    forall v, neg_writes ws v = first_nonzero (hello_versions ws) v) as Hc.
  { intros ws Hw Hv v0. apply neg_writes_client; tauto. }
  assert (1%nat ∉ kinds wp) as Hp1 by (intros Hin; by apply Hk in Hin).
  assert (6%nat ∈ kinds wp \/ 8%nat ∈ kinds wp -> 1%nat ∈ kinds wp) as Hvp.
  { intros [Hin|Hin]; apply Hk in Hin; tauto. }
  rewrite !(Hc wf H1 Hvf), (Hc wp Hp1 Hvp). destruct Hone as [H0|H0].
  - rewrite (hello_versions_none wf) in * by done.
    apply prefix_nil_inv in Hh. rewrite Hh. done.
  - destruct (decide (1%nat ∈ kinds wo)) as [Ho|Ho].
    { by rewrite (neg_writes_server wo _ v). }
    rewrite !(Hc wo Ho Hvo), (hello_versions_none wo H0).
    assert (forall x, first_nonzero [] x = x) as Hnil by done. rewrite !Hnil. by apply first_nonzero_prefix.
Qed.

(** Parsing [q] on top of [o] on top of [p]: the beginning [p] of [q] leaves no trace. *)
Lemma reparse_between `{X509} p q o i :
  p `prefix_of` q -> one_hello (buffer_writes q) (buffer_writes o) ->
  apply_writes (buffer_writes q) (apply_writes (buffer_writes o) (apply_writes (buffer_writes p) i)) =
  apply_writes (buffer_writes q) (apply_writes (buffer_writes o) i).
Proof.
  intros Hp Hone. pose proof (buffer_writes_covers p q Hp) as Hc. apply between_absorb; [apply Hc|].
  apply neg_between; auto using buffer_writes_versioned.
Qed.

(** ** A connection's wire chunks *)

(** A chunk with its direction: 2 is inbound, anything else outbound. *)
Notation wchunk := (Z * list Z)%type.

Definition inbound (e : wchunk) : bool := e.1 =? 2.

(** The chunks of one direction. *)
Definition side (inn : bool) (es : list wchunk) : list (list Z) := (filter (fun e => inbound e = inn) es).*2.

Lemma side_app inn a b : side inn (a ++ b) = side inn a ++ side inn b.
Proof. unfold side. by rewrite filter_app, fmap_app. Qed.
Lemma side_one inn e : side inn [e] = if decide (inbound e = inn) then [e.2] else [].
Proof. unfold side. rewrite filter_cons, filter_nil. by case_decide. Qed.

(** One parse on top of another. *)
Definition two_pass `{X509} (first second : list Z) : Info :=
  apply_writes (buffer_writes second) (apply_writes (buffer_writes first) Info_zero).

Lemma two_pass_Parse `{X509} first second :
  Forall is_byte first -> Forall is_byte second ->
  (do! i <- Parse first Info_zero; Parse second i) = Ok (two_pass first second).
Proof. intros. rewrite Parse_writes by done. cbn [go_bind]. by rewrite Parse_writes. Qed.

(** What the last of the chunks leaves: its own direction parsed on top of the other.
    [buf] says what a direction's buffer holds. *)
Definition last_pass `{X509} (buf : bool -> list Z) (es : list wchunk) : Info :=
  match last es with
  | Some e => two_pass (buf (negb (inbound e))) (buf (inbound e))
  | None => Info_zero
  end.

Lemma buffer_writes_nil `{X509} : buffer_writes [] = [].
Proof. unfold buffer_writes. by simp hs_payload messages. Qed.

(** A chunk more: parsing the grown buffer on top of what was known is a last pass. *)
Lemma last_pass_step `{X509} (buf buf' : bool -> list Z) es e :
  (es = [] -> forall inn, buf inn = []) ->
  buf (inbound e) `prefix_of` buf' (inbound e) ->
  buf' (negb (inbound e)) = buf (negb (inbound e)) ->
  one_hello (buffer_writes (buf' (inbound e))) (buffer_writes (buf' (negb (inbound e)))) ->
  apply_writes (buffer_writes (buf' (inbound e))) (last_pass buf es) = last_pass buf' (es ++ [e]).
Proof.
  intros Hnil Hp Hsame Hone. unfold last_pass at 2. rewrite last_snoc. unfold two_pass.
  rewrite Hsame in *. unfold last_pass. destruct (last es) as [e0|] eqn:El.
  - unfold two_pass. destruct (bool_decide_reflect (inbound e0 = inbound e)) as [->|Hne].
    + by apply buffer_writes_absorb.
    + assert (inbound e0 = negb (inbound e)) as -> by (by destruct (inbound e0), (inbound e)).
      rewrite negb_involutive. by apply reparse_between.
  - apply last_None in El. by rewrite (Hnil El), buffer_writes_nil.
Qed.

Lemma one_hello_comm a b : one_hello a b -> one_hello b a.
Proof. unfold one_hello. tauto. Qed.

Lemma one_hello_prefix `{X509} p p' q q' :
  p `prefix_of` p' -> q `prefix_of` q' ->
  one_hello (buffer_writes p') (buffer_writes q') -> one_hello (buffer_writes p) (buffer_writes q).
Proof.
  intros Hp%buffer_writes_covers Hq%buffer_writes_covers.
  destruct Hp as [Hp _], Hq as [Hq _]. intros [Hn|Hn]; [left|right]; intros Hin; apply Hn; [by apply Hp|by apply Hq].
Qed.

(** ** Which direction a field comes from *)

(** The types of the handshake messages of a buffer. *)
Definition message_types (buf : list Z) : list Z := (messages (hs_payload buf)).*1.

(** The assignments the ext of a hello may make. *)
Lemma ext_writes_kinds server e :
  kinds (ext_writes server e) ⊆ if server then [5; 6; 7]%nat else [3; 4; 5]%nat.
Proof.
  destruct e as [t b]. unfold ext_writes. destruct server; cbn [negb andb];
    repeat case_match; cbn; intros k Hk; rewrite ?elem_of_cons in *; naive_solver.
Qed.

Lemma exts_writes_kinds server es :
  kinds (es ≫= ext_writes server) ⊆ if server then [5; 6; 7]%nat else [3; 4; 5]%nat.
Proof.
  induction es as [|e es IH]; [apply list_subseteq_nil|]. cbn. rewrite kinds_app.
  apply list_subseteq_app_iff_l. split; [apply ext_writes_kinds|exact IH].
Qed.

Definition type_kinds (t : Z) : list nat :=
  if t =? 1 then [0; 3; 4; 5]%nat else if t =? 2 then [1; 2; 5; 6; 7; 8]%nat
  else if t =? 11 then [9]%nat else [].

Lemma msg_writes_kinds `{X509} m : kinds (msg_writes m) ⊆ type_kinds m.1.
Proof.
  destruct m as [t b]. unfold msg_writes, type_kinds. cbn [fst].
  destruct (t =? 1); [|destruct (t =? 2); [|destruct (t =? 11); [|done]]].
  - destruct b as [|h [|l b]]; [apply list_subseteq_nil..|]. cbn [client_hello_writes].
    destruct (_ ≫= _) as [r|]; cbn.
    + pose proof (exts_writes_kinds false (exts_of r)) as He. intros k.
      rewrite elem_of_cons. intros [->|Hk%He]; rewrite !elem_of_cons in *; naive_solver.
    + intros k. rewrite !elem_of_cons. naive_solver.
  - destruct b as [|h [|l b]]; [apply list_subseteq_nil..|]. cbn [server_hello_writes].
    assert (kinds [WServerHello (be16 h l)] ⊆ [1; 2; 5; 6; 7; 8]%nat) as H1.
    { intros k. cbn. rewrite !elem_of_cons. naive_solver. }
    destruct (hello_rest b) as [[|c1 [|c2 [|cm r]]]|]; try exact H1.
    { intros k. cbn. rewrite !elem_of_cons. naive_solver. }
    pose proof (exts_writes_kinds true (exts_of r)) as He. intros k. cbn [kinds fmap list_fmap kind].
    change (kind <$> ?l) with (kinds l). rewrite kinds_app, !elem_of_cons, elem_of_app.
    intros [->|[->|[Hk%He|Hk]]]; rewrite ?elem_of_cons in *; try naive_solver.
    destruct (isTLS13Cipher _); cbn in Hk; rewrite ?elem_of_cons in Hk; naive_solver.
  - unfold certificate_writes. destruct (_ ≫= _); [|apply list_subseteq_nil]. done.
Qed.

Lemma buffer_writes_kind `{X509} k buf :
  k ∈ kinds (buffer_writes buf) -> exists t, t ∈ message_types buf /\ k ∈ type_kinds t.
Proof.
  unfold buffer_writes, message_types. induction (messages (hs_payload buf)) as [|m l IH].
  { intros Hin. by apply not_elem_of_nil in Hin. }
  cbn. rewrite kinds_app, elem_of_app. intros [Hk%msg_writes_kinds|Hk].
  - exists m.1. split; [left|done].
  - destruct (IH Hk) as (t & Ht & Htk). exists t. split; [by right|done].
Qed.

(** A field that [second] does not set is what [first] leaves, and conversely. *)
Lemma two_pass_first `{X509} {T} (g : Info -> T) u k `{Field T g u k} first second :
  k ∉ kinds (buffer_writes second) ->
  g (two_pass first second) = g (apply_writes (buffer_writes first) Info_zero).
Proof.
  intros Hk. unfold two_pass. rewrite (field_value g u _ (apply_writes _ _)) by apply field_apply.
  destruct (last_upd u (buffer_writes second)) eqn:E; [|done]. destruct Hk.
  apply (last_upd_kind u k); [apply field_kind|]. rewrite E. eauto.
Qed.

Lemma two_pass_second `{X509} {T} (g : Info -> T) u k `{Field T g u k} first second :
  k ∈ kinds (buffer_writes second) \/ k ∉ kinds (buffer_writes first) ->
  g (two_pass first second) = g (apply_writes (buffer_writes second) Info_zero).
Proof.
  intros Hk. unfold two_pass. rewrite !(field_value g u (buffer_writes second)) by apply field_apply.
  destruct (last_upd u (buffer_writes second)) eqn:E; [done|]. cbn.
  rewrite (field_value g u) by apply field_apply.
  destruct (last_upd u (buffer_writes first)) eqn:E'; [|done].
  destruct Hk as [Hk|Hk].
  - apply (last_upd_kind u k) in Hk; [|apply field_kind]. rewrite E in Hk. by destruct Hk.
  - destruct Hk. apply (last_upd_kind u k); [apply field_kind|]. rewrite E'. eauto.
Qed.

(** What a client sends and what it receives: no ServerHello or Certificate out, no
    ClientHello in. *)
Definition client_side (out inn : list Z) : Prop :=
  Forall (fun t => t <> 2 /\ t <> 11) (message_types out) /\ Forall (fun t => t <> 1) (message_types inn).

Lemma client_side_kinds `{X509} out inn k :
  client_side out inn ->
  (k ∈ [1; 2; 6; 7; 8; 9]%nat -> k ∉ kinds (buffer_writes out))
  /\ (k ∈ [0; 3; 4]%nat -> k ∉ kinds (buffer_writes inn)).
Proof.
  intros [Ho Hi]. rewrite Forall_forall in Ho, Hi.
  split; intros Hk (t & Ht & Htk)%buffer_writes_kind; [apply Ho in Ht|apply Hi in Ht]; revert Hk Htk;
    unfold type_kinds; destruct (Z.eqb_spec t 1), (Z.eqb_spec t 2), (Z.eqb_spec t 11);
    rewrite ?elem_of_cons, ?elem_of_nil; lia.
Qed.

(** The part of an [Info] only a ClientHello sets, and only the server's messages. *)
Definition client_part (i : Info) : bool * Z * string * list Z :=
  (HasClientHello i, ClientVersion i, SNI i, OfferedSigs i).
Definition server_part (i : Info) : bool * Z * Z * bool * (string * string * list string * string) :=
  (HasServerHello i, CipherSuite i, Group i, HasCert i,
   (CertSubject i, CertIssuer i, CertSANs i, CertSigAlg i)).

Definition parsed `{X509} (buf : list Z) : Info := apply_writes (buffer_writes buf) Info_zero.

(** In whatever order the two directions were parsed last. *)
Lemma two_pass_parts `{X509} out inn i :
  client_side out inn -> i = two_pass inn out \/ i = two_pass out inn ->
  client_part i = client_part (parsed out) /\ server_part i = server_part (parsed inn).
Proof.
  intros Hs Hi. pose proof (fun k => client_side_kinds out inn k Hs) as Hk.
  assert (forall T (g : Info -> T) u k, Field g u k -> k ∈ [0; 3; 4]%nat -> g i = g (parsed out)) as Hc.
  { intros T g u k Hg Hin. destruct Hi as [-> | ->].
    - apply (two_pass_second g u k). right. by apply (Hk k).
    - apply (two_pass_first g u k). by apply (Hk k). }
  assert (forall T (g : Info -> T) u k, Field g u k -> k ∈ [1; 2; 6; 7; 8; 9]%nat -> g i = g (parsed inn)) as Hv.
  { intros T g u k Hg Hin. destruct Hi as [-> | ->].
    - apply (two_pass_first g u k). by apply (Hk k).
    - apply (two_pass_second g u k). right. by apply (Hk k). }
  unfold client_part, server_part. split; repeat apply (f_equal2 pair);
    lazymatch goal with |- ?g i = _ => first [eapply (Hc _ g)|eapply (Hv _ g)] end;
    first [apply _|apply (bool_decide_unpack _); exact I].
Qed.

(** The version: the server's once it has said it, the client's before. *)
Lemma two_pass_version `{X509} out inn i :
  client_side out inn -> i = two_pass inn out \/ i = two_pass out inn ->
  if HasServerHello (parsed inn)
  then NegVersion (parsed inn) <> 0 -> NegVersion i = NegVersion (parsed inn)
  else NegVersion i = NegVersion (parsed out).
Proof.
  intros Hs Hi. pose proof (fun k => client_side_kinds out inn k Hs) as Hk.
  assert (HasServerHello (parsed inn) = true <-> 1%nat ∈ kinds (buffer_writes inn)) as Hh.
  { unfold parsed. rewrite (field_value HasServerHello (upd_bool 1)) by apply field_apply.
    rewrite <- (last_upd_kind (upd_bool 1) 1 (buffer_writes inn)) by apply field_kind.
    destruct (last_upd (upd_bool 1) (buffer_writes inn)) as [b|] eqn:E; cbn; [|by split; [|intros []]].
    unfold last_upd in E. apply last_Some_elem_of, list_elem_of_omap in E as (w & _ & E).
    unfold upd_bool in E. case_decide; [|done]. injection E as <-. split; eauto. }
  unfold parsed, two_pass in *.
  assert (forall v, neg_writes (buffer_writes out) v = first_nonzero (hello_versions (buffer_writes out)) v) as Ho.
  { intros v. apply neg_writes_client; apply Hk, (bool_decide_unpack _); exact I. }
  destruct (HasServerHello _).
  - intros Hnz. destruct (Hh) as [Hin _]. specialize (Hin eq_refl).
    destruct Hi as [-> | ->]; rewrite !NegVersion_writes in *.
    + rewrite Ho. by apply first_nonzero_nz.
    + by apply neg_writes_server.
  - assert (1%nat ∉ kinds (buffer_writes inn)) as Hn by (intros Hin; apply Hh in Hin; discriminate).
    pose proof (buffer_writes_versioned inn) as Hv. unfold versioned in Hv.
    assert (forall v, neg_writes (buffer_writes inn) v = v) as He.
    { intros v. rewrite neg_writes_client by tauto. rewrite hello_versions_none; [done|].
      apply Hk, (bool_decide_unpack _); exact I. }
    destruct Hi as [-> | ->]; by rewrite !NegVersion_writes, He.
Qed.

(** Whether a hello of the buffer has the application protocols' extension. *)
Definition names_alpn `{X509} (buf : list Z) : bool := bool_decide (5%nat ∈ kinds (buffer_writes buf)).

(** The application protocols: the last pass's, where it has the extension. *)
Lemma two_pass_alpn `{X509} first second :
  ALPN (two_pass first second) = if names_alpn second then ALPN (parsed second) else ALPN (parsed first).
Proof.
  unfold names_alpn. case_bool_decide.
  - apply (two_pass_second ALPN upd_alpn 5). by left.
  - by apply (two_pass_first ALPN upd_alpn 5).
Qed.

Lemma last_pass_two `{X509} (buf : bool -> list Z) es :
  es <> [] -> last_pass buf es = two_pass (buf true) (buf false) \/ last_pass buf es = two_pass (buf false) (buf true).
Proof.
  intros Hne. unfold last_pass. destruct (last es) as [e|] eqn:El; [|by apply last_None in El].
  destruct (inbound e); [by right|by left].
Qed.
