(* ===== verification/TlsTypes.v ===== *)
(** The parser's assignments are of their Go types: what it reads out of bytes fits the
    16-bit fields of [Info]. *)
From S2P Require Import Prelude TlsParse TlsSpec TlsEquiv.
From Equations Require Import Equations.

(** The integer fields of an [Info] are [uint16]s. *)
Record info_typed (i : Info) : Prop := {
  it_client : in_width 16 (ClientVersion i);
  it_neg : in_width 16 (NegVersion i);
  it_cipher : in_width 16 (CipherSuite i);
  it_group : in_width 16 (Group i);
  it_sigs : Forall (in_width 16) (OfferedSigs i) }.

Definition write_typed (w : write) : Prop :=
  match w with
  | WClientHello v | WServerHello v | WCipher v | WNeg v | WGroup v => in_width 16 v
  | WSigs l => Forall (in_width 16) l
  | _ => True
  end.

Lemma Info_zero_typed : info_typed Info_zero.
Proof. split; cbn; try constructor; unfold in_width; lia. Qed.

Lemma apply_write_typed w i : write_typed w -> info_typed i -> info_typed (apply_write w i).
Proof.
  intros Hw []. destruct w; cbn [apply_write write_typed] in *; try done;
    try (split; cbn; done || by destruct (_ =? 0)).
  destruct (_ <? _); split; cbn; try done; unfold in_width; lia.
Qed.

Lemma apply_writes_typed ws i : Forall write_typed ws -> info_typed i -> info_typed (apply_writes ws i).
Proof.
  intros Hws. revert i. induction Hws as [|w ws Hw _ IH]; intros i Hi; [done|]. by apply IH, apply_write_typed.
Qed.

(** ** Splitting bytes yields bytes *)

Notation bytes_pair := (fun m : Z * list Z => Forall is_byte m.2).

Lemma be16_width a b : is_byte a -> is_byte b -> in_width 16 (be16 a b).
Proof. apply be16_range. Qed.
#[local] Hint Resolve Forall_ztake Forall_zdrop Forall_app_2 be16_width : core.

Ltac bytes_inv := repeat match goal with Hb : Forall is_byte (_ :: _) |- _ => apply Forall_cons in Hb as [? Hb] end.

Lemma messages_byte s : Forall is_byte s -> Forall bytes_pair (messages s).
Proof.
  funelim (messages s); intros Hb; try constructor; bytes_inv; simp messages; rewrite ?Heq; cbn; auto.
Qed.

Lemma exts_byte s lim : Forall is_byte s -> Forall bytes_pair (exts s lim).
Proof.
  funelim (exts s lim); intros Hb; try constructor; bytes_inv; simp exts;
    rewrite ?Heq, ?Heq0; cbn; rewrite ?Heq0; cbn; auto.
Qed.

Lemma u16_list_width s lim : Forall is_byte s -> Forall (in_width 16) (u16_list s lim).
Proof.
  revert lim. induction s as [s IH] using (well_founded_induction (well_founded_ltof _ (@length Z))).
  intros lim Hb. destruct s as [|a [|b s]]; try constructor. cbn [u16_list]. bytes_inv.
  destruct (2 <=? lim); constructor; [by apply be16_width|]. apply IH; [unfold ltof; cbn; lia|done].
Qed.

Lemma with_len16_ind {A} (P : A -> Prop) (f : list Z -> Z -> A) d b :
  P d -> (forall s lim, Forall is_byte s -> P (f s lim)) -> Forall is_byte b -> P (with_len16 f d b).
Proof. intros Hd Hf Hb. destruct b as [|h [|l t]]; [done..|]. bytes_inv. by apply Hf. Qed.

Lemma exts_of_byte b : Forall is_byte b -> Forall bytes_pair (exts_of b).
Proof. apply (with_len16_ind (Forall bytes_pair)); [constructor|intros; by apply exts_byte]. Qed.
Lemma sigs_of_width b : Forall is_byte b -> Forall (in_width 16) (sigs_of b).
Proof. apply (with_len16_ind (Forall (in_width 16))); [constructor|intros; by apply u16_list_width]. Qed.

Lemma client_hello_tail_byte b r : Forall is_byte b -> client_hello_tail b = Some r -> Forall is_byte r.
Proof.
  destruct b as [|x [|y t]]; [done..|]. cbn [client_hello_tail]. intros Hb. bytes_inv. apply skip_vec_byte.
  destruct (opt_drop _ t) eqn:E; cbn; [by eapply opt_drop_byte|constructor].
Qed.

(** ** Assignments *)

Lemma ext_writes_typed server e : bytes_pair e -> Forall write_typed (ext_writes server e).
Proof.
  destruct e as [t b]. cbn [snd]. intros Hb. unfold ext_writes.
  repeat case_match; try exact (Forall_nil_2 _); (apply Forall_cons; split; [|apply Forall_nil_2]);
    cbn; subst; bytes_inv; auto using sigs_of_width.
Qed.

Lemma exts_writes_typed server b : Forall is_byte b -> Forall write_typed (exts_of b ≫= ext_writes server).
Proof.
  intros Hb. apply Forall_bind. eapply Forall_impl; [by apply exts_of_byte|]. intros. by apply ext_writes_typed.
Qed.

Lemma msg_writes_typed `{X509} m : bytes_pair m -> Forall write_typed (msg_writes m).
Proof.
  destruct m as [t b]. cbn [snd]. intros Hb. unfold msg_writes.
  destruct (t =? 1); [|destruct (t =? 2); [|destruct (t =? 11); [|constructor]]].
  - destruct b as [|h [|l b]]; [constructor..|]. cbn [client_hello_writes]. bytes_inv.
    constructor; [by apply be16_width|]. destruct (_ ≫= _) as [r|] eqn:E; [|constructor].
    apply bind_Some in E as (u & Hu & Hr). apply exts_writes_typed.
    eapply client_hello_tail_byte; [|exact Hr]. by eapply hello_rest_byte.
  - destruct b as [|h [|l b]]; [constructor..|]. cbn [server_hello_writes]. bytes_inv.
    constructor; [by apply be16_width|]. destruct (hello_rest b) as [r|] eqn:E; [|constructor].
    pose proof (hello_rest_byte _ _ Hb E) as Hr. destruct r as [|c1 [|c2 r]]; [constructor..|]. bytes_inv.
    constructor; [by apply be16_width|]. destruct r as [|cm r]; [constructor|]. bytes_inv.
    apply Forall_app_2; [by apply exts_writes_typed|]. destruct (isTLS13Cipher _); repeat constructor.
  - unfold certificate_writes. destruct (_ ≫= _); repeat constructor.
Qed.

Lemma buffer_writes_typed `{X509} buf : Forall is_byte buf -> Forall write_typed (buffer_writes buf).
Proof.
  intros Hb. apply Forall_bind. eapply Forall_impl; [by apply messages_byte, hs_payload_byte|].
  intros. by apply msg_writes_typed.
Qed.
