(* ===== verification/TlsWire.v ===== *)
(** The handshake as its sender writes it: extensions, hello and certificate
    messages, and the records that carry them, each with its encoding, and what a
    reader of the stream should learn from each of them.

    The encodings follow the wire format the parser relies on: vectors behind a
    length of one, two or three bytes, most significant byte first. *)
From S2P Require Import Prelude TlsParse TlsSpec TlsEquiv TlsReparse TlsDuplex.
From Equations Require Import Equations.

(** ** Vectors *)

(** [b] behind its length in [n] bytes. *)
Definition vec (n : nat) (b : list Z) : list Z := be_bytes n (zlen b) ++ b.

Definition fits (n : nat) (b : list Z) : Prop := zlen b < 2 ^ (8 * Z.of_nat n).

(** ** Extensions *)

Inductive extension : Type :=
| EServerName (host : string)
| ESignatureAlgorithms (l : list Z)
| EALPN (l : list string)
| ESelectedVersion (v : Z)
| EKeyShare (group : Z) (key : list Z)
| EOther (ty : Z) (data : list Z).

Definition ext_type (e : extension) : Z :=
  match e with
  | EServerName _ => 0 | ESignatureAlgorithms _ => 13 | EALPN _ => 16
  | ESelectedVersion _ => 43 | EKeyShare _ _ => 51 | EOther ty _ => ty
  end.

Definition ext_body (e : extension) : list Z :=
  match e with
  | EServerName host => vec 2 (0 :: vec 2 (bytes_of_string host))
  | ESignatureAlgorithms l => vec 2 (l ≫= be_bytes 2)
  | EALPN l => vec 2 (l ≫= fun s => vec 1 (bytes_of_string s))
  | ESelectedVersion v => be_bytes 2 v
  | EKeyShare g key => be_bytes 2 g ++ vec 2 key
  | EOther _ data => data
  end.

Definition encode_ext (e : extension) : list Z := be_bytes 2 (ext_type e) ++ vec 2 (ext_body e).

(** Sizes within their length fields; an [EOther] does not pose as an extension the
    reader of that side interprets; selected version and key share are the server's. *)
Definition ext_wf (server : bool) (e : extension) : Prop :=
  fits 2 (ext_body e) /\
  match e with
  | EServerName host => host <> EmptyString /\ server = false
  | ESignatureAlgorithms l => Forall (in_width 16) l /\ server = false
  | EALPN l => Forall (fun s => fits 1 (bytes_of_string s)) l
  | ESelectedVersion v => in_width 16 v /\ server = true
  | EKeyShare g _ => in_width 16 g /\ server = true
  | EOther ty data => in_width 16 ty /\ Forall is_byte data
      /\ ty ∉ (if server then [16; 43; 51] else [0; 13; 16])
  end.

(** ** Messages *)

Record ClientHello := mkClientHello {
  ch_version : Z; ch_random : list Z; ch_session : list Z; ch_suites : list Z;
  ch_compression : list Z; ch_exts : list extension }.

Record ServerHello := mkServerHello {
  sh_version : Z; sh_random : list Z; sh_session : list Z; sh_suite : Z;
  sh_compression : Z; sh_exts : list extension }.

Inductive message : Type :=
| MClientHello (h : ClientHello)
| MServerHello (h : ServerHello)
| MCertificate (chain : list (list Z))
| MOther (ty : Z) (body : list Z).

Definition client_hello_body (h : ClientHello) : list Z :=
  be_bytes 2 (ch_version h) ++ ch_random h ++ vec 1 (ch_session h) ++
  vec 2 (ch_suites h ≫= be_bytes 2) ++ vec 1 (ch_compression h) ++
  vec 2 (ch_exts h ≫= encode_ext).

Definition server_hello_body (h : ServerHello) : list Z :=
  be_bytes 2 (sh_version h) ++ sh_random h ++ vec 1 (sh_session h) ++
  be_bytes 2 (sh_suite h) ++ [sh_compression h] ++ vec 2 (sh_exts h ≫= encode_ext).

Definition msg_type (m : message) : Z :=
  match m with
  | MClientHello _ => 1 | MServerHello _ => 2 | MCertificate _ => 11 | MOther ty _ => ty
  end.
Definition msg_body (m : message) : list Z :=
  match m with
  | MClientHello h => client_hello_body h
  | MServerHello h => server_hello_body h
  | MCertificate chain => vec 3 (chain ≫= vec 3)
  | MOther _ body => body
  end.

Definition encode_message (m : message) : list Z := msg_type m :: vec 3 (msg_body m).

Definition msg_wf (m : message) : Prop :=
  fits 3 (msg_body m) /\ Forall is_byte (msg_body m) /\
  match m with
  | MClientHello h =>
      in_width 16 (ch_version h) /\ zlen (ch_random h) = 32 /\ fits 1 (ch_session h)
      /\ fits 2 (ch_suites h ≫= be_bytes 2) /\ fits 1 (ch_compression h)
      /\ fits 2 (ch_exts h ≫= encode_ext) /\ Forall (ext_wf false) (ch_exts h)
  | MServerHello h =>
      in_width 16 (sh_version h) /\ zlen (sh_random h) = 32 /\ fits 1 (sh_session h)
      /\ in_width 16 (sh_suite h) /\ fits 2 (sh_exts h ≫= encode_ext)
      /\ Forall (ext_wf true) (sh_exts h)
  | MCertificate chain => Forall (fits 3) chain
  | MOther ty _ => is_byte ty /\ ty <> 1 /\ ty <> 2 /\ ty <> 11
  end.

(** ** What a reader learns *)

(** The last value [f] finds, or [d]. *)
Definition final {A B} (f : A -> option B) (d : B) (l : list A) : B := default d (last (omap f l)).

Definition ext_host (e : extension) : option string :=
  match e with EServerName h => Some h | _ => None end.
Definition ext_sigs (e : extension) : option (list Z) :=
  match e with ESignatureAlgorithms l => Some l | _ => None end.
Definition ext_alpn (e : extension) : option (list string) :=
  match e with EALPN l => Some l | _ => None end.
Definition ext_selected (e : extension) : option Z :=
  match e with ESelectedVersion v => Some v | _ => None end.
Definition ext_group (e : extension) : option Z :=
  match e with EKeyShare g _ => Some g | _ => None end.

(** A ClientHello tells the server name, protocols and signature schemes offered and
    its version, which also stands for the negotiated one until something better does. *)
Definition see_client (h : ClientHello) (i : Info) : Info :=
  let es := ch_exts h in
  mkInfo true (HasServerHello i) (HasCert i)
    (final ext_host (SNI i) es) (final ext_alpn (ALPN i) es) (ch_version h)
    (if NegVersion i =? 0 then ch_version h else NegVersion i)
    (CipherSuite i) (Group i) (final ext_sigs (OfferedSigs i) es)
    (CertSubject i) (CertIssuer i) (CertSANs i) (CertSigAlg i).

(** A ServerHello tells what was chosen.  Its version is the selected_version
    extension's, else the legacy one; a TLS 1.3 suite means at least TLS 1.3. *)
Definition server_version (h : ServerHello) : Z :=
  let v := final ext_selected (sh_version h) (sh_exts h) in
  if isTLS13Cipher (sh_suite h) then Z.max v 0x0304 else v.
Definition see_server (h : ServerHello) (i : Info) : Info :=
  let es := sh_exts h in
  mkInfo (HasClientHello i) true (HasCert i) (SNI i) (final ext_alpn (ALPN i) es) (ClientVersion i)
    (server_version h) (sh_suite h) (final ext_group (Group i) es) (OfferedSigs i)
    (CertSubject i) (CertIssuer i) (CertSANs i) (CertSigAlg i).

(** A Certificate message tells about the leaf, when it parses. *)
Definition see_chain `{X509} (chain : list (list Z)) (i : Info) : Info :=
  match chain with
  | (_ :: _) as der :: _ =>
      match ParseCertificate der with
      | Some c => set_cert (cert_subject c) (Issuer_CommonName c) (DNSNames c)
                    (trim_dash (SignatureAlgorithm c)) i
      | None => i
      end
  | _ => i
  end.

Definition see `{X509} (m : message) : Info -> Info :=
  match m with
  | MClientHello h => see_client h
  | MServerHello h => see_server h
  | MCertificate chain => see_chain chain
  | MOther _ _ => id
  end.

Definition see_all `{X509} (ms : list message) (i : Info) : Info :=
  fold_left (fun i m => see m i) ms i.

(** ** Records *)

Record tls_record := mkRecord { rec_major : Z; rec_minor : Z; rec_fragment : list Z }.

Definition encode_record (r : tls_record) : list Z :=
  22 :: rec_major r :: rec_minor r :: vec 2 (rec_fragment r).

Definition record_wf (r : tls_record) : Prop :=
  is_byte (rec_major r) /\ is_byte (rec_minor r)
  /\ Forall is_byte (rec_fragment r) /\ fits 2 (rec_fragment r).

(** What comes after the handshake records: nothing, or a record of another type. *)
Definition other_records (tail : list Z) : Prop :=
  Forall is_byte tail /\ match tail with ct :: _ => ct <> 22 | [] => True end.

(** ** Reading back *)

Lemma be_bytes_2 n : be_bytes 2 n = [n / 256 mod 256; n mod 256].
Proof. done. Qed.
Lemma be_bytes_3 n : be_bytes 3 n = [n / 256 / 256 mod 256; n / 256 mod 256; n mod 256].
Proof. done. Qed.

Lemma mod256_byte n : is_byte (n mod 256).
Proof. unfold is_byte. apply Z.mod_pos_bound. lia. Qed.
#[export] Hint Resolve mod256_byte : tlstat.

Lemma be16_bytes n : in_width 16 n -> be16 (n / 256 mod 256) (n mod 256) = n.
Proof. unfold in_width. intros. rewrite be16_val by apply mod256_byte. Z.to_euclidean_division_equations; lia. Qed.
Lemma be24_bytes n :
  in_width 24 n -> be24 (n / 256 / 256 mod 256) (n / 256 mod 256) (n mod 256) = n.
Proof. unfold in_width. intros. rewrite be24_val by apply mod256_byte. Z.to_euclidean_division_equations; lia. Qed.

Lemma fits_width n b : fits n b -> in_width (8 * Z.of_nat n) (zlen b).
Proof. unfold fits, in_width. pose proof (zlen_nonneg b). lia. Qed.

Lemma be_bytes_byte n z : Forall is_byte (be_bytes n z).
Proof. unfold be_bytes. apply Forall_rev, le_bytes_is_byte. Qed.

Lemma leb_app {A} (l k : list A) : (zlen l <=? zlen (l ++ k)) = true.
Proof. rewrite zlen_app. pose proof (zlen_nonneg k). apply Z.leb_le. lia. Qed.

(** Reading the length of a vector gives the vector and what follows. *)
Lemma vec2_app b r :
  fits 2 b -> exists h l, vec 2 b ++ r = h :: l :: b ++ r /\ be16 h l = zlen b.
Proof.
  intros Hb%fits_width. unfold vec. rewrite be_bytes_2. eexists _, _. split; [done|].
  by apply be16_bytes.
Qed.

Lemma vec3_app b r :
  fits 3 b -> exists x y z, vec 3 b ++ r = x :: y :: z :: b ++ r /\ be24 x y z = zlen b.
Proof.
  intros Hb%fits_width. unfold vec. rewrite be_bytes_3. eexists _, _, _. split; [done|].
  by apply be24_bytes.
Qed.

Lemma vec1_app b r : fits 1 b -> vec 1 b ++ r = zlen b :: b ++ r.
Proof.
  unfold fits, vec, be_bytes. cbn. intros. pose proof (zlen_nonneg b). by rewrite Z.mod_small by lia.
Qed.

Lemma zlen_vec n b : zlen (vec n b) = Z.of_nat n + zlen b.
Proof. unfold vec. by rewrite zlen_app, zlen_be_bytes. Qed.

Lemma with_len16_vec {A} (f : list Z -> Z -> A) d b :
  fits 2 b -> with_len16 f d (vec 2 b) = f b (zlen b).
Proof.
  intros Hb. rewrite <- (app_nil_r (vec 2 b)). destruct (vec2_app b [] Hb) as (h & l & -> & E).
  cbn. by rewrite E, app_nil_r.
Qed.

Lemma opt_drop_zlen b r : opt_drop (zlen b) (b ++ r) = Some r.
Proof. unfold opt_drop. by rewrite leb_app, zdrop_app. Qed.

Lemma skip_vec_vec b r : fits 1 b -> skip_vec (vec 1 b ++ r) = Some r.
Proof. intros. rewrite vec1_app by done. apply opt_drop_zlen. Qed.

Lemma sni_of_name host :
  fits 2 (ext_body (EServerName host)) -> sni_of (ext_body (EServerName host)) = host.
Proof.
  unfold sni_of, ext_body. intros Hf.
  assert (fits 2 (0 :: vec 2 (bytes_of_string host))) as H1.
  { unfold fits in *. rewrite zlen_vec in Hf. lia. }
  assert (fits 2 (bytes_of_string host)) as H2.
  { unfold fits in *. rewrite zlen_cons, zlen_vec in H1. lia. }
  rewrite with_len16_vec by done.
  rewrite <- (app_nil_r (vec 2 _)). destruct (vec2_app _ [] H2) as (h & l & -> & E).
  rewrite sni_list_cons, E, !zlen_cons. pose proof (zlen_nonneg (bytes_of_string host ++ [])).
  rewrite leb_app, ztake_app, string_of_bytes_of_string.
  by rewrite (proj2 (Z.leb_le _ _)) by lia.
Qed.

Lemma alpn_list_names l :
  Forall (fun s => fits 1 (bytes_of_string s)) l ->
  let b := l ≫= fun s => vec 1 (bytes_of_string s) in alpn_list b (zlen b) = l.
Proof.
  cbn zeta. induction 1 as [|s l Hs _ IH]; [done|]. cbn [mbind list_bind].
  rewrite vec1_app by done. rewrite alpn_list_cons, leb_app, ztake_app, zdrop_app.
  rewrite zlen_cons, zlen_app.
  pose proof (zlen_nonneg (bytes_of_string s)).
  pose proof (zlen_nonneg (l ≫= fun s => vec 1 (bytes_of_string s))) as Hl.
  rewrite (proj2 (Z.leb_le _ _)) by (unfold mbind in *; lia).
  rewrite string_of_bytes_of_string. f_equal.
  etransitivity; [|exact IH]. f_equal. unfold mbind. lia.
Qed.

Lemma u16_list_words l :
  Forall (in_width 16) l -> let b := l ≫= be_bytes 2 in u16_list b (zlen b) = l.
Proof.
  cbn zeta. induction 1 as [|v l Hv _ IH]; [done|]. cbn [mbind list_bind].
  rewrite be_bytes_2. cbn [app u16_list]. rewrite !zlen_cons, be16_bytes by done.
  pose proof (zlen_nonneg (l ≫= be_bytes 2)).
  rewrite (proj2 (Z.leb_le _ _)) by (unfold mbind in *; lia). f_equal.
  etransitivity; [|exact IH]. f_equal. unfold mbind. lia.
Qed.

Lemma exts_encode es :
  Forall (fun e => in_width 16 (ext_type e) /\ fits 2 (ext_body e)) es ->
  let b := es ≫= encode_ext in
  exts b (zlen b) = (fun e => (ext_type e, ext_body e)) <$> es.
Proof.
  cbn zeta. induction 1 as [|e es [Ht Hb] _ IH]; [done|]. cbn [mbind list_bind fmap list_fmap].
  unfold encode_ext at 1 3. rewrite be_bytes_2, <- !app_assoc. cbn [app].
  destruct (vec2_app (ext_body e) (es ≫= encode_ext) Hb) as (h & l & E & El).
  unfold mbind in *. rewrite E, exts_cons, El, leb_app, ztake_app, zdrop_app, be16_bytes by done.
  rewrite !zlen_cons, zlen_app. pose proof (zlen_nonneg (ext_body e)).
  pose proof (zlen_nonneg (list_bind _ _ encode_ext es)).
  rewrite (proj2 (Z.leb_le _ _)) by lia. f_equal.
  etransitivity; [|exact IH]. f_equal. lia.
Qed.

(** ** Assignments of an encoded extension *)

Definition ext_write (e : extension) : list write :=
  match e with
  | EServerName h => [WSNI h]
  | ESignatureAlgorithms l => [WSigs l]
  | EALPN l => [WALPN l]
  | ESelectedVersion v => [WNeg v]
  | EKeyShare g _ => [WGroup g]
  | EOther _ _ => []
  end.

Lemma ext_writes_encoded server e :
  ext_wf server e -> ext_writes server (ext_type e, ext_body e) = ext_write e.
Proof.
  intros [Hf Hw]. destruct e as [h|l|l|v|g k|ty d]; cbn [ext_type].
  - destruct Hw as [Hne ->]. unfold ext_writes. rewrite sni_of_name by done. cbn [Z.eqb negb andb].
    by rewrite (proj2 (String.eqb_neq _ _) Hne).
  - destruct Hw as [Hl ->]. unfold ext_writes. cbn [Z.eqb Pos.eqb negb]. unfold sigs_of. cbn [ext_body].
    rewrite with_len16_vec, u16_list_words; [done|done|].
    unfold fits in *. cbn [ext_body] in Hf. rewrite zlen_vec in Hf. lia.
  - unfold ext_writes. cbn [Z.eqb Pos.eqb]. unfold alpn_of. cbn [ext_body].
    rewrite with_len16_vec, alpn_list_names; [done|done|].
    unfold fits in *. cbn [ext_body] in Hf. rewrite zlen_vec in Hf. lia.
  - destruct Hw as [Hv ->]. unfold ext_writes. cbn [Z.eqb Pos.eqb ext_body]. rewrite be_bytes_2.
    by rewrite be16_bytes.
  - destruct Hw as [Hv ->]. unfold ext_writes. cbn [Z.eqb Pos.eqb ext_body]. rewrite be_bytes_2.
    cbn [app]. by rewrite be16_bytes.
  - destruct Hw as (Ht & Hd & Hty). unfold ext_writes. cbn [ext_body].
    destruct server; rewrite !not_elem_of_cons in Hty; destruct_and!;
      repeat match goal with |- context [?a =? ?b] => destruct (Z.eqb_spec a b); try done end;
      by destruct d as [|? [|? ?]].
Qed.

Lemma ext_wf_shape server e :
  ext_wf server e -> in_width 16 (ext_type e) /\ fits 2 (ext_body e).
Proof. intros [Hf Hw]. split; [|done]. destruct e; try done. by destruct Hw. Qed.

Lemma exts_of_encoded server es :
  fits 2 (es ≫= encode_ext) -> Forall (ext_wf server) es ->
  exts_of (vec 2 (es ≫= encode_ext)) ≫= ext_writes server = es ≫= ext_write.
Proof.
  intros Hf Hw. unfold exts_of. rewrite with_len16_vec, exts_encode; [|..|done].
  - clear Hf. induction Hw as [|e es He _ IH]; [done|]. cbn [mbind list_bind fmap list_fmap].
    rewrite ext_writes_encoded by done. f_equal. exact IH.
  - eapply Forall_impl; [exact Hw|]. apply ext_wf_shape.
Qed.

Lemma final_cons {A B} (f : A -> option B) d x l :
  final f d (x :: l) = final f (default d (f x)) l.
Proof.
  unfold final. cbn. destruct (f x) as [y|]; [|done]. cbn [default].
  rewrite last_cons. by destruct (last _).
Qed.

Lemma apply_ext_writes es i :
  apply_writes (es ≫= ext_write) i =
  mkInfo (HasClientHello i) (HasServerHello i) (HasCert i)
    (final ext_host (SNI i) es) (final ext_alpn (ALPN i) es) (ClientVersion i)
    (final ext_selected (NegVersion i) es) (CipherSuite i) (final ext_group (Group i) es)
    (final ext_sigs (OfferedSigs i) es)
    (CertSubject i) (CertIssuer i) (CertSANs i) (CertSigAlg i).
Proof.
  revert i. induction es as [|e es IH]; intros i; [by destruct i|]. cbn [mbind list_bind].
  rewrite apply_writes_app. unfold mbind in IH. rewrite IH, !final_cons. by destruct e.
Qed.

Lemma final_absent {A B} (f : A -> option B) d l : Forall (fun x => f x = None) l -> final f d l = d.
Proof. induction 1 as [|x l Hx _ IH]; [done|]. by rewrite final_cons, Hx. Qed.

(** ** Assignments of an encoded message *)

Lemma hello_rest_encoded rnd sid r :
  zlen rnd = 32 -> fits 1 sid -> hello_rest (rnd ++ vec 1 sid ++ r) = Some r.
Proof.
  intros Hr Hs. unfold hello_rest. rewrite <- Hr, opt_drop_zlen. cbn. by apply skip_vec_vec.
Qed.

Lemma client_hello_tail_encoded suites comp r :
  fits 2 suites -> fits 1 comp -> client_hello_tail (vec 2 suites ++ vec 1 comp ++ r) = Some r.
Proof.
  intros Hs Hc. destruct (vec2_app suites (vec 1 comp ++ r) Hs) as (h & l & -> & E).
  cbn. rewrite E, opt_drop_zlen. cbn. by apply skip_vec_vec.
Qed.

Lemma client_hello_encoded h :
  msg_wf (MClientHello h) ->
  client_hello_writes (client_hello_body h) = WClientHello (ch_version h) :: (ch_exts h ≫= ext_write).
Proof.
  intros (_ & _ & Hv & Hr & Hs & Hcs & Hc & Hf & Hw). unfold client_hello_body.
  rewrite be_bytes_2. cbn [app client_hello_writes]. rewrite be16_bytes by done.
  rewrite hello_rest_encoded by done. cbn [mbind option_bind].
  rewrite client_hello_tail_encoded by done. by rewrite exts_of_encoded.
Qed.

Lemma server_hello_encoded h :
  msg_wf (MServerHello h) ->
  server_hello_writes (server_hello_body h) =
  WServerHello (sh_version h) :: WCipher (sh_suite h) ::
    (sh_exts h ≫= ext_write) ++ (if isTLS13Cipher (sh_suite h) then [WInfer13] else []).
Proof.
  intros (_ & _ & Hv & Hr & Hs & Hcs & Hf & Hw). unfold server_hello_body.
  rewrite be_bytes_2. cbn [app server_hello_writes]. rewrite be16_bytes by done.
  rewrite hello_rest_encoded by done. rewrite be_bytes_2. cbn [app].
  rewrite be16_bytes by done. by rewrite exts_of_encoded.
Qed.

Lemma see_client_writes h i :
  Forall (ext_wf false) (ch_exts h) ->
  apply_writes (WClientHello (ch_version h) :: (ch_exts h ≫= ext_write)) i = see_client h i.
Proof.
  intros Hw. cbn [apply_writes fold_left apply_write].
  change (fold_left _ ?ws ?i) with (apply_writes ws i). rewrite apply_ext_writes.
  unfold see_client. cbn. f_equal; apply final_absent;
    (eapply Forall_impl; [exact Hw|]; intros [] [_ ?]; naive_solver).
Qed.

Lemma see_server_writes h i :
  Forall (ext_wf true) (sh_exts h) ->
  apply_writes (WServerHello (sh_version h) :: WCipher (sh_suite h) ::
    (sh_exts h ≫= ext_write) ++ (if isTLS13Cipher (sh_suite h) then [WInfer13] else [])) i
  = see_server h i.
Proof.
  intros Hw. cbn [apply_writes fold_left apply_write].
  change (fold_left _ ?ws ?i) with (apply_writes ws i). rewrite apply_writes_app, apply_ext_writes.
  assert (forall d, final ext_host d (sh_exts h) = d) as E1
    by (intros; apply final_absent; eapply Forall_impl; [exact Hw|]; intros [] [_ ?]; naive_solver).
  assert (forall d, final ext_sigs d (sh_exts h) = d) as E2
    by (intros; apply final_absent; eapply Forall_impl; [exact Hw|]; intros [] [_ ?]; naive_solver).
  rewrite E1, E2. unfold see_server, server_version.
  destruct (isTLS13Cipher (sh_suite h)); [|done]. cbn [apply_writes fold_left apply_write].
  cbn. destruct (Z.ltb_spec (final ext_selected (sh_version h) (sh_exts h)) 772).
  - unfold set_NegVersion; cbn. f_equal. lia.
  - f_equal. lia.
Qed.

Lemma first_cert_encoded chain :
  fits 3 (chain ≫= vec 3) -> Forall (fits 3) chain ->
  first_cert (vec 3 (chain ≫= vec 3)) =
  match chain with (_ :: _) as der :: _ => Some der | _ => None end.
Proof.
  intros Hf Hw. rewrite <- (app_nil_r (vec 3 (_ ≫= _))).
  destruct (vec3_app _ [] Hf) as (x & y & z & -> & E).
  destruct chain as [|der chain]; [done|]. cbn [mbind list_bind].
  apply Forall_cons in Hw as [Hd _]. rewrite <- app_assoc.
  destruct (vec3_app der (list_bind _ _ (vec 3) chain ++ []) Hd) as (x' & y' & z' & E2 & E').
  unfold mbind in *. rewrite E2. cbn [first_cert]. rewrite E', E, leb_app, ztake_app.
  cbn [mbind list_bind]. rewrite zlen_app, zlen_vec.
  pose proof (zlen_nonneg der). pose proof (zlen_nonneg (list_bind _ _ (vec 3) chain)).
  rewrite (proj2 (Z.leb_le _ _)) by lia. cbn [andb].
  destruct der as [|b der]; [done|]. rewrite zlen_cons. pose proof (zlen_nonneg der).
  by destruct (Z.eqb_spec (1 + zlen der) 0); [lia|].
Qed.

Lemma msg_writes_encoded `{X509} m i :
  msg_wf m -> apply_writes (msg_writes (msg_type m, msg_body m)) i = see m i.
Proof.
  intros Hw. destruct m as [h|h|chain|ty b]; cbn [msg_type msg_body see];
    unfold msg_writes.
  - rewrite client_hello_encoded by done. apply see_client_writes. apply Hw.
  - rewrite server_hello_encoded by done. apply see_server_writes. apply Hw.
  - destruct Hw as (Hf & _ & Hw). cbn [msg_body] in Hf. cbn [Z.eqb Pos.eqb].
    unfold certificate_writes, see_chain. rewrite first_cert_encoded; [|..|done].
    + destruct chain as [|[|b der] chain]; try done. cbn. by destruct (ParseCertificate _).
    + unfold fits in *. rewrite zlen_vec in Hf. lia.
  - destruct Hw as (_ & _ & _ & H1 & H2 & H3).
    repeat match goal with |- context [ty =? ?b] => destruct (Z.eqb_spec ty b); [done|] end. done.
Qed.

(** ** The stream and its records *)

Lemma messages_encode ms :
  Forall msg_wf ms ->
  messages (ms ≫= encode_message) = (fun m => (msg_type m, msg_body m)) <$> ms.
Proof.
  induction 1 as [|m ms (Hf & _) _ IH]; [done|]. cbn [mbind list_bind fmap list_fmap].
  unfold encode_message at 1. cbn [app].
  destruct (vec3_app (msg_body m) (ms ≫= encode_message) Hf) as (x & y & z & E & El).
  unfold mbind in *. rewrite E, messages_cons, El, leb_app, ztake_app, zdrop_app. by f_equal.
Qed.

Lemma stream_writes `{X509} ms i :
  Forall msg_wf ms ->
  apply_writes (messages (ms ≫= encode_message) ≫= msg_writes) i = see_all ms i.
Proof.
  intros Hw. rewrite messages_encode by done. revert i.
  induction Hw as [|m ms Hm _ IH]; intros i; [done|]. cbn [mbind list_bind fmap list_fmap].
  rewrite apply_writes_app, msg_writes_encoded by done. apply IH.
Qed.

Lemma hs_payload_other tail : other_records tail -> hs_payload tail = [].
Proof.
  intros [_ Hn]. destruct tail as [|ct [|? [|? [|? [|? ?]]]]]; try (simp hs_payload; done).
  rewrite hs_payload_cons. by destruct (Z.eqb_spec ct 22).
Qed.

Lemma hs_payload_records rs tail :
  Forall record_wf rs -> other_records tail ->
  hs_payload ((rs ≫= encode_record) ++ tail) = rs ≫= rec_fragment.
Proof.
  intros Hw Ht. induction Hw as [|r rs (_ & _ & _ & Hf) _ IH]; [by apply hs_payload_other|].
  cbn [mbind list_bind]. unfold encode_record at 1. cbn [app]. rewrite <- app_assoc.
  destruct (vec2_app (rec_fragment r) ((rs ≫= encode_record) ++ tail) Hf) as (h & l & E & El).
  unfold mbind in *. rewrite E, hs_payload_cons, El, leb_app, ztake_app, zdrop_app. cbn [Z.eqb Pos.eqb].
  by f_equal.
Qed.

Lemma records_byte rs tail :
  Forall record_wf rs -> other_records tail -> Forall is_byte ((rs ≫= encode_record) ++ tail).
Proof.
  intros Hw [Ht _]. apply Forall_app. split; [|done]. apply Forall_bind.
  eapply Forall_impl; [exact Hw|]. intros r (H1 & H2 & H3 & _). unfold encode_record, vec.
  repeat (apply Forall_cons; split; [done|]). apply Forall_app. split; [apply be_bytes_byte|done].
Qed.

(** A stream of one message, complete or cut short. *)
Lemma messages_single ty x y z body :
  zlen body <= be24 x y z -> messages (ty :: x :: y :: z :: body) = [(ty, body)].
Proof.
  intros Hb. rewrite messages_cons. destruct (Z.leb_spec (be24 x y z) (zlen body)); [|done].
  replace (be24 x y z) with (zlen body) by lia. rewrite ztake_all, zdrop_all. by simp messages.
Qed.

(** Extensions leave the suite and the mark of a ServerHello alone. *)
Lemma ext_writes_keep server es i :
  let j := apply_writes (es ≫= ext_writes server) i in
  HasServerHello j = HasServerHello i /\ CipherSuite j = CipherSuite i.
Proof.
  cbn zeta. revert i. induction es as [|[t d] es IH]; intros i; [done|]. cbn [mbind list_bind].
  rewrite apply_writes_app. destruct (IH (apply_writes (ext_writes server (t, d)) i)) as [-> ->].
  unfold ext_writes. by repeat case_match.
Qed.

(** A ServerHello with a TLS 1.3 suite, up to its compression method. *)
Lemma server_hello_infers h random session c1 c2 comp rest i :
  zlen random = 32 -> fits 1 session -> isTLS13Cipher (be16 c1 c2) = true ->
  let j := apply_writes (server_hello_writes
             (be_bytes 2 h ++ random ++ vec 1 session ++ c1 :: c2 :: comp :: rest)) i in
  HasServerHello j = true /\ CipherSuite j = be16 c1 c2 /\ 0x0304 <= NegVersion j.
Proof.
  intros H32 Hs Hc. cbn zeta. rewrite be_bytes_2. cbn [app server_hello_writes].
  rewrite hello_rest_encoded, Hc by done.
  rewrite (apply_writes_app [_; _] _ _ : apply_writes (_ :: _ :: _) _ = _), apply_writes_app.
  set (k := apply_writes [_; _] i).
  destruct (ext_writes_keep true (exts_of rest) k) as [H1 H2].
  set (j := apply_writes (exts_of rest ≫= _) k) in *.
  cbn [apply_writes fold_left apply_write].
  destruct (Z.ltb_spec (NegVersion j) 772); cbn; rewrite H1, H2; split_and!; done || lia.
Qed.

(** ** A direction's bytes as messages *)

(** [buf] is the messages [ms], in some division into records, and then something else. *)
Definition flight_bytes (ms : list message) (buf : list Z) : Prop :=
  exists rs tail, buf = (rs ≫= encode_record) ++ tail /\ Forall msg_wf ms /\ Forall record_wf rs
    /\ other_records tail /\ rs ≫= rec_fragment = ms ≫= encode_message.

Lemma flight_parsed `{X509} ms buf :
  flight_bytes ms buf -> parsed buf = see_all ms Info_zero /\ message_types buf = msg_type <$> ms.
Proof.
  intros (rs & tail & -> & Hm & Hr & Ht & E).
  unfold parsed, buffer_writes, message_types. rewrite hs_payload_records, E by done. split.
  - by apply stream_writes.
  - rewrite messages_encode, <- list_fmap_compose by done. done.
Qed.

(** What a client says and what it hears. *)
Lemma client_side_flights `{X509} ms ms' out inn :
  flight_bytes ms out -> flight_bytes ms' inn ->
  Forall (fun m => msg_type m <> 2 /\ msg_type m <> 11) ms -> Forall (fun m => msg_type m <> 1) ms' ->
  client_side out inn.
Proof.
  intros [_ Ho]%flight_parsed [_ Hi]%flight_parsed Hm Hm'. unfold client_side.
  rewrite Ho, Hi. by split; apply Forall_map.
Qed.
