(* ===== verification/TlsProps.v ===== *)
(** The handshake parser: its properties. *)
From S2P Require Import Prelude TlsParse TlsSpec TlsEquiv TlsReparse TlsWire.

(** ** Data for the witnesses *)

(** A certificate decoder that knows one certificate. *)
Definition demo_cert : Certificate :=
  mkCertificate "example.com" [] "Demo CA" ["example.com"%string] "SHA256-RSA-".
#[local] Instance demo_x509 : X509 :=
  fun der => if decide (der = [48; 1; 2]) then Some demo_cert else None.

Definition demo_hello : ClientHello :=
  mkClientHello 0x0303 (replicate 32 7) [1; 2] [0x1301; 0xc02f] [0]
    [EOther 10 [0; 2; 0; 29]; EServerName "example.com"; ESignatureAlgorithms [0x0403; 0x0804];
     EALPN ["h2"%string; "http/1.1"%string]].
Definition demo_server : ServerHello :=
  mkServerHello 0x0303 (replicate 32 9) [] 0x1301 0 [ESelectedVersion 0x0304; EKeyShare 29 [5; 6]].
Definition demo_flight : list message :=
  [MClientHello demo_hello; MServerHello demo_server; MOther 14 []; MCertificate [[48; 1; 2]]].
Definition demo_stream : list Z := demo_flight ≫= encode_message.

(** The stream in records of [n] bytes. *)
Fixpoint demo_split (fuel : nat) (n : nat) (s : list Z) : list tls_record :=
  match fuel, s with
  | S fuel, _ :: _ => mkRecord 3 3 (take n s) :: demo_split fuel n (drop n s)
  | _, _ => []
  end.
Definition demo_records (n : nat) : list tls_record := demo_split (length demo_stream) n demo_stream.

#[local] Instance ext_wf_dec server e : Decision (ext_wf server e).
Proof. unfold ext_wf, fits. destruct e; apply _. Defined.
#[local] Instance msg_wf_dec m : Decision (msg_wf m).
Proof. unfold msg_wf, fits. destruct m; apply _. Defined.
#[local] Instance record_wf_dec r : Decision (record_wf r).
Proof. unfold record_wf, fits. apply _. Defined.

(** ** Properties *)

(** C28: the parser is total and is the reference parser.  On every buffer and
    whatever was known before, [Parse] returns - no index out of range, no endless
    loop - and the [Info] is the old one with the assignments of the reference parser
    applied, which splits the buffer into records, messages and extensions. *)
Theorem Parse_reference `{X509} buf info :
  Forall is_byte buf -> Parse buf info = Ok (apply_writes (buffer_writes buf) info).
Proof. apply Parse_writes. Qed.

Lemma Parse_reference_witness :
  Parse [22; 3; 1; 0; 6; 1; 0; 0; 40; 3; 3] Info_zero
  = Ok (set_client_hello 0x0303 Info_zero).
Proof. rewrite Parse_reference; [vm_compute; reflexivity|by apply (bool_decide_unpack _)]. Defined.

(** Parsing again as the capture grows.  The store parses a connection's whole
    buffer again whenever a chunk is appended; having parsed any prefix of it before
    makes no difference, and with nothing appended the second parse changes nothing. *)
Theorem Parse_grow `{X509} p q info :
  Forall is_byte q -> p `prefix_of` q ->
  (do! i <- Parse p info; Parse q i) = Parse q info.
Proof.
  intros Hq [k ->]. pose proof (proj1 (Forall_app _ _ _) Hq) as [Hp _].
  rewrite Parse_writes by done. cbn [go_bind]. rewrite !Parse_writes by done.
  by rewrite buffer_writes_absorb by (by exists k).
Qed.

Lemma Parse_grow_witness :
  let q := demo_records 50 ≫= encode_record in
  (do! i <- Parse (take 80 q) Info_zero; Parse q i) = Parse q Info_zero
  /\ is_ok (Parse q Info_zero).
Proof.
  cbn zeta. split.
  - apply Parse_grow; [by apply (bool_decide_unpack _)|].
    exists (drop 80 (demo_records 50 ≫= encode_record)). by rewrite take_drop.
  - eexists. vm_compute. reflexivity.
Defined.

(** C29: record boundaries do not matter.  The result depends only on the handshake
    bytes: two captures whose leading handshake records carry the same bytes, however
    they are divided (a message may span records, or a record hold several), parse
    alike, and whatever encrypted or alert records follow is not looked at. *)
Theorem Parse_fragmentation `{X509} rs rs' tail tail' info :
  Forall record_wf rs -> Forall record_wf rs' -> other_records tail -> other_records tail' ->
  rs ≫= rec_fragment = rs' ≫= rec_fragment ->
  Parse ((rs ≫= encode_record) ++ tail) info = Parse ((rs' ≫= encode_record) ++ tail') info.
Proof.
  intros Hr Hr' Ht Ht' E. rewrite !Parse_writes by (by apply records_byte).
  unfold buffer_writes. by rewrite !hs_payload_records, E by done.
Qed.

Lemma Parse_fragmentation_witness :
  Parse ((demo_records 7 ≫= encode_record) ++ []) Info_zero
  = Parse ((demo_records 200 ≫= encode_record) ++ [23; 3; 3; 0; 1; 99]) Info_zero.
Proof.
  apply Parse_fragmentation.
  - by apply (bool_decide_unpack _).
  - by apply (bool_decide_unpack _).
  - split; [constructor|done].
  - split; [by apply (bool_decide_unpack _)|done].
  - vm_compute. reflexivity.
Defined.

(** C30: what was sent is what is read.  For every sequence of well-formed handshake
    messages, divided into records in any way, [Parse] learns exactly what [see] says
    of each: of a ClientHello the server name, protocols, signature schemes and
    version; of a ServerHello the version, suite, group and protocol; of a Certificate
    message the leaf; and nothing of messages and extensions of other kinds. *)
Theorem flight_roundtrip `{X509} ms rs tail info :
  Forall msg_wf ms -> Forall record_wf rs -> other_records tail ->
  rs ≫= rec_fragment = ms ≫= encode_message ->
  Parse ((rs ≫= encode_record) ++ tail) info = Ok (see_all ms info).
Proof.
  intros Hm Hr Ht E. rewrite Parse_writes by (by apply records_byte).
  unfold buffer_writes. by rewrite hs_payload_records, E, stream_writes by done.
Qed.

Lemma flight_roundtrip_witness :
  exists i, Parse ((demo_records 50 ≫= encode_record) ++ []) Info_zero = Ok i
    /\ SNI i = "example.com"%string /\ ALPN i = ["h2"%string; "http/1.1"%string]
    /\ NegVersion i = 0x0304 /\ CipherSuite i = 0x1301 /\ Group i = 29
    /\ CertSubject i = "example.com"%string /\ CertSigAlg i = "SHA256-RSA"%string.
Proof.
  exists (see_all demo_flight Info_zero). split; [|vm_compute; repeat split].
  apply flight_roundtrip.
  - by apply (bool_decide_unpack _).
  - by apply (bool_decide_unpack _).
  - split; [constructor|done].
  - vm_compute. reflexivity.
Defined.

(** TLS 1.3 despite truncation.  Once the capture holds a ServerHello up to its
    compression method, with a TLS 1.3 suite, the negotiated version is at least
    TLS 1.3, whatever is left of the extensions. *)
Theorem tls13_inferred `{X509} rs tail x y z h random session c1 c2 comp rest info :
  let body := be_bytes 2 h ++ random ++ vec 1 session ++ c1 :: c2 :: comp :: rest in
  Forall record_wf rs -> other_records tail ->
  rs ≫= rec_fragment = 2 :: x :: y :: z :: body ->
  zlen body <= be24 x y z ->
  zlen random = 32 -> fits 1 session -> isTLS13Cipher (be16 c1 c2) = true ->
  exists i, Parse ((rs ≫= encode_record) ++ tail) info = Ok i
    /\ HasServerHello i = true /\ CipherSuite i = be16 c1 c2 /\ 0x0304 <= NegVersion i.
Proof.
  cbn zeta. intros Hr Ht E Hlen H32 Hs Hc. eexists. split; [by apply Parse_writes, records_byte|].
  unfold buffer_writes. rewrite hs_payload_records, E, messages_single by done.
  cbn [mbind list_bind]. rewrite app_nil_r. by apply server_hello_infers.
Qed.

Lemma tls13_inferred_witness :
  exists i, Parse (([mkRecord 3 3 (2 :: 0 :: 0 :: 90 :: be_bytes 2 0x0303 ++ replicate 32 9 ++
                     vec 1 [] ++ 0x13 :: 1 :: 0 :: [0; 46; 0])] ≫= encode_record) ++ []) Info_zero = Ok i
    /\ HasServerHello i = true /\ CipherSuite i = 0x1301 /\ 0x0304 <= NegVersion i.
Proof.
  eapply (tls13_inferred _ [] 0 0 90 0x0303 (replicate 32 9) [] 0x13 1 0 [0; 46; 0]);
    try (vm_compute; reflexivity).
  - by apply (bool_decide_unpack _).
  - split; [constructor|done].
  - vm_compute. congruence.
Defined.
