(* ===== verification/CLayout.v ===== *)
(** C data layout on x86-64, as the compiler lays out the structures of
    bpf/vmlinux.h and bpf/tlstat.h.

    [ctype] is the shape of a C type: scalars, arrays, structs and unions with plain
    members and bit-fields, packed or not.  [sizeof], [alignof] and [members] follow
    the System V ABI; [resolve] finds the member a path such as
    __sk_common.skc_num designates, looking through anonymous members as C does.
    Offsets and lengths are in bits.

    [wf] is what every declaration satisfies; from it follow that a member lies
    inside its object, that the members of a struct do not overlap, and that a plain
    member of an unpacked aggregate is aligned. *)
From S2P Require Import Prelude.

(** ** Types *)

Inductive ctype : Type :=
| CInt (signed : bool) (size : Z)
| CPtr
| CArray (t : ctype) (n : Z)
| CStruct (packed : bool) (fs : list (string * option Z * ctype))
| CUnion (packed : bool) (fs : list (string * option Z * ctype)).

(** A member: its name (empty when anonymous), the width of a bit-field, its type. *)
Abbreviation field := (string * option Z * ctype)%type.

Definition fld (name : string) (t : ctype) : field := (name, None, t).
Definition bits (name : string) (t : ctype) (w : Z) : field := (name, Some w, t).
(** An anonymous struct or union member. *)
Definition anon (t : ctype) : field := (EmptyString, None, t).

Definition f_name (f : field) : string := f.1.1.
Definition f_bits (f : field) : option Z := f.1.2.
Definition f_type (f : field) : ctype := f.2.

(** An enumeration: its constants, and the integer type that holds them. *)
Definition cenum : Type := list (string * Z).
Definition enum_type (es : cenum) : ctype :=
  let neg := existsb (fun e => e.2 <? 0) es in
  let small := forallb (fun e => (- 2 ^ 31 <=? e.2) && (e.2 <? (if neg then 2 ^ 31 else 2 ^ 32))) es in
  CInt neg (if small then 4 else 8).

(** ** Sizes and offsets *)

(** The least multiple of [a] that is at least [x]. *)
Definition align_up (a x : Z) : Z := (x + a - 1) / a * a.

Definition z_max_list (l : list Z) : Z := fold_right Z.max 0 l.

(** The alignment of an aggregate whose members have the alignments [l]. *)
Definition agg_align (packed : bool) (l : list (string * option Z * Z)) : Z :=
  if packed then 1
  else Z.max 1 (z_max_list ((fun m => match m with
    | (_, None, a) => a
    | (n, Some _, a) => if String.eqb n EmptyString then 0 else a  (* unnamed bit-field *)
    end) <$> l)).

Fixpoint alignof (t : ctype) : Z :=
  match t with
  | CInt _ n => n
  | CPtr => 8
  | CArray t _ => alignof t
  | CStruct p fs | CUnion p fs => agg_align p (map (fun '(n, b, t) => (n, b, alignof t)) fs)
  end.

(** Where a member of size [sz] and alignment [al] (bytes) goes in a struct filled up
    to bit [pos]: its offset, its length, and the position after it. *)
Definition place (packed : bool) (b : option Z) (sz al pos : Z) : Z * Z * Z :=
  match b with
  | None =>
      let o := align_up (8 * if packed then 1 else al) pos in (o, 8 * sz, o + 8 * sz)
  | Some w =>
      if w =? 0 then let o := align_up (8 * sz) pos in (o, 0, o)
      else
        let o := if packed || (pos / (8 * sz) =? (pos + w - 1) / (8 * sz)) then pos
                 else align_up (8 * sz) pos in
        (o, w, o + w)
  end.

(** A member with its size and alignment in place of its type. *)
Abbreviation slot := (option Z * Z * Z)%type.

Fixpoint struct_places (packed : bool) (pos : Z) (l : list slot) : list (Z * Z) * Z :=
  match l with
  | [] => ([], pos)
  | (b, sz, al) :: l =>
      let '(o, n, pos) := place packed b sz al pos in
      let '(ps, fin) := struct_places packed pos l in
      ((o, n) :: ps, fin)
  end.

(** Each member of a union starts at 0. *)
Definition slot_len (s : slot) : Z :=
  match s with (None, sz, _) => 8 * sz | (Some w, _, _) => w end.
Definition union_places (l : list slot) : list (Z * Z) * Z :=
  ((fun s => (0, slot_len s)) <$> l, z_max_list (slot_len <$> l)).

Fixpoint sizeof (t : ctype) : Z :=
  match t with
  | CInt _ n => n
  | CPtr => 8
  | CArray t n => n * sizeof t
  | CStruct p fs =>
      align_up (8 * alignof t)
        (struct_places p 0 (map (fun '(_, b, t) => (b, sizeof t, alignof t)) fs)).2 / 8
  | CUnion p fs =>
      align_up (8 * alignof t)
        (union_places (map (fun '(_, b, t) => (b, sizeof t, alignof t)) fs)).2 / 8
  end.

Definition slots (fs : list field) : list slot :=
  (fun f => (f_bits f, sizeof (f_type f), alignof (f_type f))) <$> fs.

(** The members of an aggregate with their offsets and lengths. *)
Definition fields (t : ctype) : list field :=
  match t with CStruct _ fs | CUnion _ fs => fs | _ => [] end.
Definition places (t : ctype) : list (Z * Z) * Z :=
  match t with
  | CStruct p fs => struct_places p 0 (slots fs)
  | CUnion _ fs => union_places (slots fs)
  | _ => ([], 0)
  end.
Definition members (t : ctype) : list (field * (Z * Z)) := zip (fields t) (places t).1.

(** ** Paths *)

(** A member of an object: its offset and length in bits, and its type. *)
Record place_of := mkPlace { p_off : Z; p_len : Z; p_type : ctype }.

(** The member called [name] among [fs], placed at [ps]; [inside] looks into the type
    of an anonymous member. *)
Definition find_in (inside : ctype -> option place_of) (name : string) :=
  fix go (fs : list field) (ps : list (Z * Z)) : option place_of :=
    match fs, ps with
    | (n, b, ft) :: fs, (o, len) :: ps =>
        if String.eqb n name then Some (mkPlace o len ft)
        else
          match (if String.eqb n EmptyString then inside ft else None) with
          | Some p => Some (mkPlace (o + p_off p) (p_len p) (p_type p))
          | None => go fs ps
          end
    | _, _ => None
    end.

(** The member called [name] of the object [t], also inside anonymous members. *)
Fixpoint find_member (name : string) (t : ctype) : option place_of :=
  match t with
  | CStruct p fs => find_in (find_member name) name fs (places (CStruct p fs)).1
  | CUnion p fs => find_in (find_member name) name fs (places (CUnion p fs)).1
  | _ => None
  end.

Fixpoint resolve_from (p : place_of) (path : list string) : option place_of :=
  match path with
  | [] => Some p
  | name :: path =>
      match find_member name (p_type p) with
      | Some q => resolve_from (mkPlace (p_off p + p_off q) (p_len q) (p_type q)) path
      | None => None
      end
  end.
Definition resolve (t : ctype) (path : list string) : option place_of :=
  resolve_from (mkPlace 0 (8 * sizeof t) t) path.

(** The byte offset of a member that is not a bit-field. *)
Definition offsetof (t : ctype) (path : list string) : option Z :=
  (fun p => p_off p / 8) <$> resolve t path.

(** ** Well-formed types *)

Fixpoint wfb (t : ctype) : bool :=
  match t with
  | CInt _ n => existsb (Z.eqb n) [1; 2; 4; 8; 16]
  | CPtr => true
  | CArray t n => wfb t && (0 <=? n)
  | CStruct _ fs | CUnion _ fs =>
      forallb (fun '(_, b, t) => wfb t && match b with
        | None => true
        | Some w => (* a bit-field *) match t with CInt _ n => (0 <=? w) && (w <=? 8 * n) | _ => false end
        end) fs
  end.
Definition wf (t : ctype) : Prop := wfb t = true.

(** ** Induction *)

Section Ctype_ind.
Context (P : ctype -> Prop)
  (HInt : forall s n, P (CInt s n)) (HPtr : P CPtr)
  (HArray : forall t n, P t -> P (CArray t n))
  (HStruct : forall p fs, Forall (fun f => P (f_type f)) fs -> P (CStruct p fs))
  (HUnion : forall p fs, Forall (fun f => P (f_type f)) fs -> P (CUnion p fs)).

Fixpoint ctype_ind' (t : ctype) : P t :=
  let fix go (fs : list field) : Forall (fun f => P (f_type f)) fs :=
    match fs with
    | [] => @List.Forall_nil field _
    | f :: fs => @List.Forall_cons field _ f fs (ctype_ind' (f_type f)) (go fs)
    end in
  match t with
  | CInt s n => HInt s n
  | CPtr => HPtr
  | CArray t n => HArray t n (ctype_ind' t)
  | CStruct p fs => HStruct p fs (go fs)
  | CUnion p fs => HUnion p fs (go fs)
  end.
End Ctype_ind.

(** ** Rounding up *)

Lemma align_up_ge a x : 0 < a -> x <= align_up a x.
Proof.
  intros Ha. unfold align_up. pose proof (Z.mul_succ_div_gt (x + a - 1) a Ha). lia.
Qed.
Lemma align_up_divide a x : (a | align_up a x).
Proof. unfold align_up. apply Z.divide_factor_r. Qed.
Lemma align_up_nonneg a x : 0 < a -> 0 <= x -> 0 <= align_up a x.
Proof. intros. etransitivity; [eassumption|by apply align_up_ge]. Qed.

(** ** Sizes and alignments of well-formed types *)

Lemma z_max_list_ge l x : x ∈ l -> x <= z_max_list l.
Proof.
  intros Hx. induction l as [|y l IH]; [by apply not_elem_of_nil in Hx|].
  unfold z_max_list in *. cbn.
  apply elem_of_cons in Hx as [->|Hx]; [lia|]. specialize (IH Hx). lia.
Qed.
Lemma z_max_list_nonneg l : 0 <= z_max_list l.
Proof. unfold z_max_list. induction l; cbn; lia. Qed.

Lemma agg_align_pos p l : 0 < agg_align p l.
Proof. unfold agg_align. destruct p; lia. Qed.

Lemma alignof_pos t : wf t -> 0 < alignof t.
Proof.
  unfold wf. induction t as [s n| |t n IH|p fs _|p fs _] using ctype_ind'; cbn [wfb alignof].
  - rewrite existsb_exists. intros (m & Hm & ->%Z.eqb_eq). cbn in Hm. lia.
  - lia.
  - rewrite andb_true_iff. tauto.
  - intros _. apply agg_align_pos.
  - intros _. apply agg_align_pos.
Qed.

Lemma alignof_agg p fs : exists l,
  alignof (CStruct p fs) = agg_align p l /\ alignof (CUnion p fs) = agg_align p l.
Proof. eauto. Qed.

(** What a well-formed member means for its slot. *)
Definition slot_ok (s : slot) : Prop :=
  match s with
  | (None, sz, al) => 0 <= sz /\ 0 < al
  | (Some w, sz, al) => 0 <= w <= 8 * sz /\ 0 < sz /\ 0 < al
  end.

Definition member_wfb (f : field) : bool :=
  let '(_, b, t) := f in
  wfb t && match b with
    | None => true
    | Some w => match t with CInt _ n => (0 <=? w) && (w <=? 8 * n) | _ => false end
    end.

Lemma wf_members p fs : wf (CStruct p fs) \/ wf (CUnion p fs) -> Forall (fun f => member_wfb f = true) fs.
Proof. unfold wf. cbn [wfb]. rewrite Forall_forall. intros Hw f Hf.
  assert (forallb member_wfb fs = true) as Hall by tauto.
  rewrite forallb_forall in Hall. by apply Hall, list_elem_of_In.
Qed.

Lemma place_ok p b sz al pos :
  slot_ok (b, sz, al) -> 0 <= pos ->
  let '(o, n, pos') := place p b sz al pos in
  pos <= o /\ n = slot_len (b, sz, al) /\ 0 <= n /\ pos' = o + n
  /\ (p = false ->
      match b with
      | None => (8 * al | o)
      | Some w => w <> 0 -> o / (8 * sz) = (o + n - 1) / (8 * sz)
      end).
Proof.
  intros Hs Hp. unfold place. destruct b as [w|]; cbn in Hs |- *.
  - destruct (Z.eqb_spec w 0) as [->|Hw].
    { split_and!; try lia. by apply align_up_ge; lia. }
    destruct (_ || _) eqn:E.
    + split_and!; try lia. intros ->. cbn in E. apply Z.eqb_eq in E. by intros _.
    + split_and!; try lia; [by apply align_up_ge; lia|].
      intros -> _. destruct (align_up_divide (8 * sz) pos) as [q ->].
      rewrite Z.div_mul by lia. apply Z.div_unique with (w - 1); lia.
  - split_and!; try lia.
    + apply align_up_ge. destruct p; lia.
    + intros ->. apply align_up_divide.
Qed.

(** Places in a struct: in order, apart from each other, and where they should be. *)
Lemma struct_places_ok p pos l :
  Forall slot_ok l -> 0 <= pos ->
  let '(ps, fin) := struct_places p pos l in
  pos <= fin
  /\ Forall2 (fun s on => pos <= on.1 /\ on.2 = slot_len s /\ 0 <= on.2 /\ on.1 + on.2 <= fin
       /\ (p = false -> match s with
            | (None, sz, al) => (8 * al | on.1)
            | (Some w, sz, al) => w <> 0 -> on.1 / (8 * sz) = (on.1 + on.2 - 1) / (8 * sz)
            end)) l ps
  /\ StronglySorted (fun a b => a.1 + a.2 <= b.1) ps.
Proof.
  intros Hl. revert pos. induction Hl as [|[[b sz] al] l Hs _ IH]; intros pos Hp; cbn [struct_places].
  { split_and!; [lia|constructor|constructor]. }
  pose proof (place_ok p b sz al pos Hs Hp) as Hpl.
  destruct (place p b sz al pos) as [[o n] pos']. destruct Hpl as (H1 & H2 & H3 & H4 & H5).
  specialize (IH pos' ltac:(lia)). destruct (struct_places p pos' l) as [ps fin].
  destruct IH as (Hfin & Hall & Hsort). split_and!; [lia|constructor|constructor; [done|]].
  - cbn. split_and!; [lia|exact H2|lia|lia|]. intros Hf. specialize (H5 Hf). by destruct b.
  - eapply Forall2_impl; [exact Hall|]. cbn. intros s on (? & ? & ? & ? & ?). split_and!; try done; lia.
  - apply Forall_lookup. intros i on Hon.
    destruct (Forall2_lookup_r _ _ _ _ _ Hall Hon) as (s & _ & ? & _). cbn. lia.
Qed.

Lemma union_places_ok l :
  Forall slot_ok l ->
  0 <= (union_places l).2
  /\ Forall2 (fun s on => on = (0, slot_len s) /\ 0 <= on.2 <= (union_places l).2
       /\ match s with
          | (None, sz, al) => True
          | (Some w, sz, al) => w <> 0 -> 0 / (8 * sz) = (0 + w - 1) / (8 * sz)
          end) l (union_places l).1.
Proof.
  intros Hl. split; [apply z_max_list_nonneg|]. cbn.
  apply Forall2_fmap_r, Forall_Forall2_diag. apply Forall_forall. intros s Hs. split; [done|].
  rewrite Forall_forall in Hl. specialize (Hl s Hs). split; [split|].
  - destruct s as [[[w|] sz] al]; cbn in *; lia.
  - apply z_max_list_ge, list_elem_of_fmap. eauto.
  - destruct s as [[[w|] sz] al]; cbn in *; [|done]. intros Hw. rewrite Z.div_0_l by lia.
    symmetry. apply Z.div_small. lia.
Qed.

(** An aggregate's size: what its members need, rounded up to its alignment. *)
Definition is_agg (t : ctype) : bool :=
  match t with CStruct _ _ | CUnion _ _ => true | _ => false end.

Lemma slots_map fs :
  map (fun '(_, b, t) => (b, sizeof t, alignof t)) fs = slots fs.
Proof. apply map_ext. by intros [[n b] t]. Qed.

Lemma sizeof_agg t :
  wf t -> is_agg t = true ->
  8 * sizeof t = align_up (8 * alignof t) (places t).2 /\ (alignof t | sizeof t).
Proof.
  intros Hw Ha. pose proof (alignof_pos t Hw) as Hpos.
  assert (sizeof t = align_up (8 * alignof t) (places t).2 / 8) as ->
    by (destruct t; try done; cbn [sizeof places]; by rewrite slots_map).
  destruct (align_up_divide (8 * alignof t) (places t).2) as [q ->].
  replace (q * (8 * alignof t)) with (q * alignof t * 8) by lia. rewrite Z.div_mul by lia.
  split; [lia|apply Z.divide_factor_r].
Qed.

Lemma member_slot_ok f :
  member_wfb f = true -> 0 <= sizeof (f_type f) ->
  slot_ok (f_bits f, sizeof (f_type f), alignof (f_type f)).
Proof.
  destruct f as [[n b] t]. cbn. intros [Ht Hb]%andb_true_iff Hs.
  pose proof (alignof_pos t Ht) as Ha. destruct b as [w|]; [|done].
  destruct t as [sg sz| | | |]; try done. cbn [sizeof alignof] in *.
  rewrite andb_true_iff, !Z.leb_le in Hb. lia.
Qed.

Lemma places_nonneg t : Forall slot_ok (slots (fields t)) -> 0 <= (places t).2.
Proof.
  intros Hs. destruct t as [| | |p fs|p fs]; try done; cbn [places fields] in *.
  - pose proof (struct_places_ok p 0 (slots fs) Hs) as Hok.
    destruct (struct_places p 0 (slots fs)) as [ps fin]. apply Hok. lia.
  - by apply union_places_ok.
Qed.

Lemma sizeof_agg_nonneg t :
  wf t -> is_agg t = true -> Forall slot_ok (slots (fields t)) -> 0 <= sizeof t.
Proof.
  intros Hw Ha Hs. destruct (sizeof_agg t Hw Ha) as [E _]. pose proof (alignof_pos t Hw).
  pose proof (align_up_nonneg (8 * alignof t) _ ltac:(lia) (places_nonneg t Hs)). lia.
Qed.

Lemma slots_ok_from fs :
  Forall (fun f => wf (f_type f) -> 0 <= sizeof (f_type f)) fs ->
  Forall (fun f => member_wfb f = true) fs -> Forall slot_ok (slots fs).
Proof.
  intros IH Hm. apply Forall_fmap. rewrite Forall_forall in IH, Hm |- *. intros f Hf. cbn.
  apply member_slot_ok; [by apply Hm|]. apply IH; [done|].
  specialize (Hm f Hf). destruct f as [[n b] t]. cbn in Hm. by apply andb_true_iff in Hm as [? _].
Qed.

Lemma sizeof_nonneg t : wf t -> 0 <= sizeof t.
Proof.
  induction t as [s n| |t n IH|p fs IH|p fs IH] using ctype_ind'; intros Hw.
  - unfold wf in Hw. cbn [wfb sizeof] in *. rewrite existsb_exists in Hw.
    destruct Hw as (m & Hm & ->%Z.eqb_eq). cbn in Hm. lia.
  - done.
  - unfold wf in Hw. cbn [wfb sizeof] in *. apply andb_true_iff in Hw as [Ht ?].
    specialize (IH Ht). lia.
  - apply sizeof_agg_nonneg; [done..|]. apply slots_ok_from; [done|]. apply (wf_members p). by left.
  - apply sizeof_agg_nonneg; [done..|]. apply slots_ok_from; [done|]. apply (wf_members p). by right.
Qed.

Lemma fields_wf t : wf t -> Forall (fun f => member_wfb f = true) (fields t).
Proof.
  intros Hw. destruct t as [| | |p fs|p fs]; try constructor; apply (wf_members p); auto.
Qed.

Lemma slots_ok t : wf t -> Forall slot_ok (slots (fields t)).
Proof.
  intros Hw. apply slots_ok_from; [|by apply fields_wf]. apply Forall_true.
  intros. by apply sizeof_nonneg.
Qed.

(** ** Layout *)

(** A member of an aggregate lies inside it, has the length of its type or of its
    bit-field, and, unless the aggregate is packed, is aligned, a bit-field within
    one unit of its type. *)
Definition member_ok (t : ctype) (f : field) (on : Z * Z) : Prop :=
  let '(o, n) := on in
  0 <= o /\ o + n <= 8 * sizeof t
  /\ n = match f_bits f with None => 8 * sizeof (f_type f) | Some w => w end
  /\ match t with
     | CStruct false _ | CUnion false _ =>
         match f_bits f with
         | None => (8 * alignof (f_type f) | o)
         | Some w => w <> 0 ->
             o / (8 * sizeof (f_type f)) = (o + n - 1) / (8 * sizeof (f_type f))
         end
     | _ => True
     end.

Lemma agg_room t : wf t -> is_agg t = true -> (places t).2 <= 8 * sizeof t.
Proof.
  intros Hw Ha. destruct (sizeof_agg t Hw Ha) as [-> _]. apply align_up_ge.
  pose proof (alignof_pos t Hw). lia.
Qed.

Lemma members_ok t : wf t -> Forall2 (member_ok t) (fields t) (places t).1.
Proof.
  intros Hw. pose proof (slots_ok t Hw) as Hs.
  destruct t as [| | |p fs|p fs]; try constructor.
  - pose proof (agg_room _ Hw eq_refl) as Hroom. cbn [places fields] in *.
    pose proof (struct_places_ok p 0 (slots fs) Hs ltac:(lia)) as Hok.
    destruct (struct_places p 0 (slots fs)) as [ps fin]. destruct Hok as (_ & Hok & _). cbn in *.
    apply Forall2_fmap_l in Hok. eapply Forall2_impl; [exact Hok|].
    intros [[n b] ft] [o len] (H1 & H2 & H3 & H4 & H5). cbn in *.
    split_and!; [lia|lia|by destruct b|]. destruct p; [done|]. specialize (H5 eq_refl). by destruct b.
  - pose proof (agg_room _ Hw eq_refl) as Hroom. cbn [places fields] in *.
    destruct (union_places_ok (slots fs) Hs) as [_ Hok]. apply Forall2_fmap_l in Hok.
    eapply Forall2_impl; [exact Hok|]. intros [[n b] ft] [o len] ([= -> ->] & H2 & H3). cbn in *.
    split_and!; [lia|lia|by destruct b|]. destruct p; [done|]. destruct b; [done|apply Z.divide_0_r].
Qed.

(** The members of a struct follow one another without overlap. *)
Lemma struct_apart p fs :
  wf (CStruct p fs) -> StronglySorted (fun a b => a.1 + a.2 <= b.1) (places (CStruct p fs)).1.
Proof.
  intros Hw. pose proof (slots_ok _ Hw) as Hs. cbn [places fields] in *.
  pose proof (struct_places_ok p 0 (slots fs) Hs ltac:(lia)) as Hok.
  destruct (struct_places p 0 (slots fs)) as [ps fin]. apply Hok.
Qed.

(** ** Paths stay inside *)

Definition inside (t : ctype) (q : place_of) : Prop :=
  0 <= p_off q /\ p_off q + p_len q <= 8 * sizeof t /\ p_len q <= 8 * sizeof (p_type q)
  /\ (is_agg (p_type q) = true -> p_len q = 8 * sizeof (p_type q)) /\ wf (p_type q).

Lemma member_len t f o n : member_wfb f = true -> member_ok t f (o, n) -> n <= 8 * sizeof (f_type f).
Proof.
  destruct f as [[nm b] ft]. intros [Hft Hb]%andb_true_iff (_ & _ & -> & _). cbn.
  destruct b as [w|]; [|done]. destruct ft; try done.
  rewrite andb_true_iff, !Z.leb_le in Hb. cbn [sizeof]. lia.
Qed.

Lemma find_in_inside t name fs ps q :
  Forall2 (member_ok t) fs ps -> Forall (fun f => member_wfb f = true) fs ->
  Forall (fun f => forall q, wf (f_type f) -> find_member name (f_type f) = Some q ->
                   inside (f_type f) q) fs ->
  find_in (find_member name) name fs ps = Some q -> inside t q.
Proof.
  intros Hm Hw Hrec. induction Hm as [|[[n b] ft] [o len] fs ps Hf _ IH]; [done|].
  apply Forall_cons in Hw as [Hwf Hw]. apply Forall_cons in Hrec as [Hr Hrec]. cbn [find_in].
  pose proof (member_len _ _ _ _ Hwf Hf) as Hlen. destruct Hf as (H1 & H2 & H3 & _).
  cbn [member_wfb f_bits f_type fst snd] in *. apply andb_true_iff in Hwf as [Hft Hb].
  destruct (String.eqb n name).
  { intros [= <-]. split_and!; try done. cbn. intros Ha. destruct b; [by destruct ft|done]. }
  destruct (if String.eqb n EmptyString then find_member name ft else None) as [r|] eqn:E;
    [|by apply IH].
  destruct (String.eqb n EmptyString); [|done]. destruct (Hr r Hft E) as (R1 & R2 & R3 & R4 & R5).
  assert (b = None) as -> by (destruct b; [by destruct ft|done]).
  intros [= <-]. unfold inside. cbn. split_and!; [lia|lia|done..].
Qed.

Lemma find_member_inside t name q : wf t -> find_member name t = Some q -> inside t q.
Proof.
  revert q. induction t as [| | |p fs IH|p fs IH] using ctype_ind'; intros q Hw; try done;
    cbn [find_member]; apply find_in_inside; try apply (members_ok _ Hw); try apply (fields_wf _ Hw);
    eapply Forall_impl; try exact IH; cbn; auto.
Qed.

Lemma find_member_agg name t q : find_member name t = Some q -> is_agg t = true.
Proof. by destruct t. Qed.

(** What a path designates lies inside the object. *)
Lemma resolve_inside t path q : wf t -> resolve t path = Some q -> inside t q.
Proof.
  intros Hw. unfold resolve. assert (inside t (mkPlace 0 (8 * sizeof t) t)) as Hp.
  { pose proof (sizeof_nonneg t Hw). unfold inside; cbn. split_and!; done || lia. }
  revert Hp. generalize (mkPlace 0 (8 * sizeof t) t) as p. induction path as [|n path IH]; intros p Hp.
  - intros [= <-]. exact Hp.
  - cbn [resolve_from]. destruct (find_member n (p_type p)) as [r|] eqn:E; [|done]. apply IH.
    destruct Hp as (P1 & P2 & P3 & P4 & P5).
    destruct (find_member_inside _ _ _ P5 E) as (R1 & R2 & R3 & R4 & R5).
    specialize (P4 (find_member_agg _ _ _ E)).
    unfold inside. cbn. split_and!; try lia; done.
Qed.
