(* ===== verification/KTypes1.v ===== *)
(** bpf/vmlinux.h, part 1 of 6: the types of the kernel objects the probes touch,
    declared as there and in dependency order (see KernelMem). *)
From S2P Require Import Prelude CLayout.

#[local] Open Scope string_scope.
#[local] Open Scope Z_scope.

Definition t___u64 : ctype := CInt false 8.

Definition t___addrpair : ctype := t___u64.

Definition t___u32 : ctype := CInt false 4.

Definition t___be32 : ctype := t___u32.

Definition t___u16 : ctype := CInt false 2.

Definition t___portpair : ctype := t___u32.

Definition t___be16 : ctype := t___u16.

Definition struct_hlist_node : ctype := CStruct false [
  fld "next" CPtr;
  fld "pprev" CPtr].

Definition t_possible_net_t : ctype := CStruct false [
  fld "net" CPtr].

Definition t___u8 : ctype := CInt false 1.

Definition struct_in6_addr : ctype := CStruct false [
  fld "in6_u" (CUnion false [
    fld "u6_addr8" (CArray t___u8 16);
    fld "u6_addr16" (CArray t___be16 8);
    fld "u6_addr32" (CArray t___be32 4)])].

Definition t___s64 : ctype := CInt true 8.

Definition t_s64 : ctype := t___s64.

Definition t_atomic64_t : ctype := CStruct false [
  fld "counter" t_s64].

Definition struct_hlist_nulls_node : ctype := CStruct false [
  fld "next" CPtr;
  fld "pprev" CPtr].

Definition t_u32 : ctype := t___u32.

Definition t_atomic_t : ctype := CStruct false [
  fld "counter" (CInt true 4)].

Definition struct_refcount_struct : ctype := CStruct false [
  fld "refs" t_atomic_t].

Definition t_refcount_t : ctype := struct_refcount_struct.

Definition struct_sock_common : ctype := CStruct false [
  anon (CUnion false [
    fld "skc_addrpair" t___addrpair;
    anon (CStruct false [
      fld "skc_daddr" t___be32;
      fld "skc_rcv_saddr" t___be32])]);
  anon (CUnion false [
    fld "skc_hash" (CInt false 4);
    fld "skc_u16hashes" (CArray t___u16 2)]);
  anon (CUnion false [
    fld "skc_portpair" t___portpair;
    anon (CStruct false [
      fld "skc_dport" t___be16;
      fld "skc_num" t___u16])]);
  fld "skc_family" (CInt false 2);
  fld "skc_state" (CInt false 1);
  bits "skc_reuse" (CInt false 1) 4;
  bits "skc_reuseport" (CInt false 1) 1;
  bits "skc_ipv6only" (CInt false 1) 1;
  bits "skc_net_refcnt" (CInt false 1) 1;
  bits "skc_bypass_prot_mem" (CInt false 1) 1;
  fld "skc_bound_dev_if" (CInt true 4);
  anon (CUnion false [
    fld "skc_bind_node" struct_hlist_node;
    fld "skc_portaddr_node" struct_hlist_node]);
  fld "skc_prot" CPtr;
  fld "skc_net" t_possible_net_t;
  fld "skc_v6_daddr" struct_in6_addr;
  fld "skc_v6_rcv_saddr" struct_in6_addr;
  fld "skc_cookie" t_atomic64_t;
  anon (CUnion false [
    fld "skc_flags" (CInt false 8);
    fld "skc_listener" CPtr;
    fld "skc_tw_dr" CPtr]);
  fld "skc_dontcopy_begin" (CArray (CInt true 4) 0);
  anon (CUnion false [
    fld "skc_node" struct_hlist_node;
    fld "skc_nulls_node" struct_hlist_nulls_node]);
  fld "skc_tx_queue_mapping" (CInt false 2);
  fld "skc_rx_queue_mapping" (CInt false 2);
  anon (CUnion false [
    fld "skc_incoming_cpu" (CInt true 4);
    fld "skc_rcv_wnd" t_u32;
    fld "skc_tw_rcv_nxt" t_u32]);
  fld "skc_refcnt" t_refcount_t;
  fld "skc_dontcopy_end" (CArray (CInt true 4) 0);
  anon (CUnion false [
    fld "skc_rxhash" t_u32;
    fld "skc_window_clamp" t_u32;
    fld "skc_tw_snd_nxt" t_u32])].

Definition t___s32 : ctype := CInt true 4.

Definition struct_sk_buff_list : ctype := CStruct false [
  fld "next" CPtr;
  fld "prev" CPtr].

Definition t_u8 : ctype := t___u8.

Definition t_u16 : ctype := t___u16.

Definition struct_qspinlock : ctype := CStruct false [
  anon (CUnion false [
    fld "val" t_atomic_t;
    anon (CStruct false [
      fld "locked" t_u8;
      fld "pending" t_u8]);
    anon (CStruct false [
      fld "locked_pending" t_u16;
      fld "tail" t_u16])])].

Definition t_arch_spinlock_t : ctype := struct_qspinlock.

Definition struct_raw_spinlock : ctype := CStruct false [
  fld "raw_lock" t_arch_spinlock_t].

Definition struct_spinlock : ctype := CStruct false [
  anon (CUnion false [
    fld "rlock" struct_raw_spinlock])].

Definition t_spinlock_t : ctype := struct_spinlock.

Definition struct_sk_buff_head : ctype := CStruct false [
  anon (CUnion false [
    anon (CStruct false [
      fld "next" CPtr;
      fld "prev" CPtr]);
    fld "list" struct_sk_buff_list]);
  fld "qlen" t___u32;
  fld "lock" t_spinlock_t].

Definition struct_list_head : ctype := CStruct false [
  fld "next" CPtr;
  fld "prev" CPtr].

Definition struct_wait_queue_head : ctype := CStruct false [
  fld "lock" t_spinlock_t;
  fld "head" struct_list_head].

Definition t_wait_queue_head_t : ctype := struct_wait_queue_head.

Definition t_socket_lock_t : ctype := CStruct false [
  fld "slock" t_spinlock_t;
  fld "owned" (CInt true 4);
  fld "wq" t_wait_queue_head_t].

Definition struct_rb_root : ctype := CStruct false [
  fld "rb_node" CPtr].

Definition struct_page_frag : ctype := CStruct false [
  fld "page" CPtr;
  fld "offset" t___u32;
  fld "size" t___u32].

Definition struct_timer_list : ctype := CStruct false [
  fld "entry" struct_hlist_node;
  fld "expires" (CInt false 8);
  fld "function" CPtr;
  fld "flags" t_u32].

Definition t___kernel_uid32_t : ctype := CInt false 4.

Definition t_uid_t : ctype := t___kernel_uid32_t.

Definition t_kuid_t : ctype := CStruct false [
  fld "val" t_uid_t].

Definition t_u64 : ctype := t___u64.

Definition t_netdev_features_t : ctype := t_u64.

Definition t_gfp_t : ctype := CInt false 4.

Definition t_bool : ctype := CInt false 1.

Definition struct_qrwlock : ctype := CStruct false [
  anon (CUnion false [
    fld "cnts" t_atomic_t;
    anon (CStruct false [
      fld "wlocked" t_u8;
      fld "__lstate" (CArray t_u8 3)])]);
  fld "wait_lock" t_arch_spinlock_t].

Definition t_arch_rwlock_t : ctype := struct_qrwlock.

Definition struct_rwlock : ctype := CStruct false [
  fld "raw_lock" t_arch_rwlock_t].

Definition t_rwlock_t : ctype := struct_rwlock.

Definition t_ktime_t : ctype := t_s64.

Definition struct_sock_cgroup_data : ctype := CStruct false [
  fld "cgroup" CPtr;
  fld "classid" t_u32;
  fld "prioidx" t_u16].

Definition struct_callback_head : ctype := CStruct false [
  fld "next" CPtr;
  fld "func" CPtr].

Definition t_freeptr_t : ctype := CStruct false [
  fld "v" (CInt false 8)].

Definition t_netns_tracker : ctype := CStruct false [
].

Definition struct_xarray : ctype := CStruct false [
  fld "xa_lock" t_spinlock_t;
  fld "xa_flags" t_gfp_t;
  fld "xa_head" CPtr].

Definition struct_sock : ctype := CStruct false [
  fld "__sk_common" struct_sock_common;
  fld "__cacheline_group_begin__sock_write_rx" (CArray t___u8 0);
  fld "sk_drops" t_atomic_t;
  fld "sk_peek_off" t___s32;
  fld "sk_error_queue" struct_sk_buff_head;
  fld "sk_receive_queue" struct_sk_buff_head;
  fld "sk_backlog" (CStruct false [
    fld "rmem_alloc" t_atomic_t;
    fld "len" (CInt true 4);
    fld "head" CPtr;
    fld "tail" CPtr]);
  fld "__cacheline_group_end__sock_write_rx" (CArray t___u8 0);
  fld "__cacheline_group_begin__sock_read_rx" (CArray t___u8 0);
  fld "sk_rx_dst" CPtr;
  fld "sk_rx_dst_ifindex" (CInt true 4);
  fld "sk_rx_dst_cookie" t_u32;
  fld "sk_ll_usec" (CInt false 4);
  fld "sk_napi_id" (CInt false 4);
  fld "sk_busy_poll_budget" t_u16;
  fld "sk_prefer_busy_poll" t_u8;
  fld "sk_userlocks" t_u8;
  fld "sk_rcvbuf" (CInt true 4);
  fld "sk_filter" CPtr;
  anon (CUnion false [
    fld "sk_wq" CPtr;
    fld "sk_wq_raw" CPtr]);
  fld "sk_data_ready" CPtr;
  fld "sk_rcvtimeo" (CInt true 8);
  fld "sk_rcvlowat" (CInt true 4);
  fld "__cacheline_group_end__sock_read_rx" (CArray t___u8 0);
  fld "__cacheline_group_begin__sock_read_rxtx" (CArray t___u8 0);
  fld "sk_err" (CInt true 4);
  fld "sk_socket" CPtr;
  fld "sk_memcg" CPtr;
  fld "sk_policy" (CArray CPtr 2);
  fld "psp_assoc" CPtr;
  fld "__cacheline_group_end__sock_read_rxtx" (CArray t___u8 0);
  fld "__cacheline_group_begin__sock_write_rxtx" (CArray t___u8 0);
  fld "sk_lock" t_socket_lock_t;
  fld "sk_reserved_mem" t_u32;
  fld "sk_forward_alloc" (CInt true 4);
  fld "sk_tsflags" t_u32;
  fld "__cacheline_group_end__sock_write_rxtx" (CArray t___u8 0);
  fld "__cacheline_group_begin__sock_write_tx" (CArray t___u8 0);
  fld "sk_write_pending" (CInt true 4);
  fld "sk_omem_alloc" t_atomic_t;
  fld "sk_err_soft" (CInt true 4);
  fld "sk_wmem_queued" (CInt true 4);
  fld "sk_wmem_alloc" t_refcount_t;
  fld "sk_tsq_flags" (CInt false 8);
  anon (CUnion false [
    fld "sk_send_head" CPtr;
    fld "tcp_rtx_queue" struct_rb_root]);
  fld "sk_write_queue" struct_sk_buff_head;
  fld "sk_frag" struct_page_frag;
  anon (CUnion false [
    fld "sk_timer" struct_timer_list;
    fld "tcp_retransmit_timer" struct_timer_list;
    fld "mptcp_retransmit_timer" struct_timer_list]);
  fld "sk_pacing_rate" (CInt false 8);
  fld "sk_zckey" t_atomic_t;
  fld "sk_tskey" t_atomic_t;
  fld "sk_tx_queue_mapping_jiffies" (CInt false 8);
  fld "__cacheline_group_end__sock_write_tx" (CArray t___u8 0);
  fld "__cacheline_group_begin__sock_read_tx" (CArray t___u8 0);
  fld "sk_dst_pending_confirm" t_u32;
  fld "sk_pacing_status" t_u32;
  fld "sk_max_pacing_rate" (CInt false 8);
  fld "sk_sndtimeo" (CInt true 8);
  fld "sk_priority" t_u32;
  fld "sk_mark" t_u32;
  fld "sk_uid" t_kuid_t;
  fld "sk_protocol" t_u16;
  fld "sk_type" t_u16;
  fld "sk_dst_cache" CPtr;
  fld "sk_route_caps" t_netdev_features_t;
  fld "sk_validate_xmit_skb" CPtr;
  fld "sk_gso_type" t_u16;
  fld "sk_gso_max_segs" t_u16;
  fld "sk_gso_max_size" (CInt false 4);
  fld "sk_allocation" t_gfp_t;
  fld "sk_txhash" t_u32;
  fld "sk_sndbuf" (CInt true 4);
  fld "sk_pacing_shift" t_u8;
  fld "sk_use_task_frag" t_bool;
  fld "__cacheline_group_end__sock_read_tx" (CArray t___u8 0);
  bits "sk_gso_disabled" t_u8 1;
  bits "sk_kern_sock" t_u8 1;
  bits "sk_no_check_tx" t_u8 1;
  bits "sk_no_check_rx" t_u8 1;
  fld "sk_shutdown" t_u8;
  fld "sk_lingertime" (CInt false 8);
  fld "sk_prot_creator" CPtr;
  fld "sk_callback_lock" t_rwlock_t;
  fld "sk_ack_backlog" t_u32;
  fld "sk_max_ack_backlog" t_u32;
  fld "sk_ino" (CInt false 8);
  fld "sk_peer_lock" t_spinlock_t;
  fld "sk_bind_phc" (CInt true 4);
  fld "sk_peer_pid" CPtr;
  fld "sk_peer_cred" CPtr;
  fld "sk_stamp" t_ktime_t;
  fld "sk_disconnects" (CInt true 4);
  anon (CUnion false [
    fld "sk_txrehash" t_u8;
    fld "sk_scm_recv_flags" t_u8;
    anon (CStruct false [
      bits "sk_scm_credentials" t_u8 1;
      bits "sk_scm_security" t_u8 1;
      bits "sk_scm_pidfd" t_u8 1;
      bits "sk_scm_rights" t_u8 1;
      bits "sk_scm_unused" t_u8 4])]);
  fld "sk_clockid" t_u8;
  bits "sk_txtime_deadline_mode" t_u8 1;
  bits "sk_txtime_report_errors" t_u8 1;
  bits "sk_txtime_unused" t_u8 6;
  fld "sk_bpf_cb_flags" t_u8;
  fld "sk_user_data" CPtr;
  fld "sk_security" CPtr;
  fld "sk_cgrp_data" struct_sock_cgroup_data;
  fld "sk_state_change" CPtr;
  fld "sk_write_space" CPtr;
  fld "sk_error_report" CPtr;
  fld "sk_backlog_rcv" CPtr;
  fld "sk_destruct" CPtr;
  fld "sk_reuseport_cb" CPtr;
  fld "sk_bpf_storage" CPtr;
  fld "sk_drop_counters" CPtr;
  anon (CUnion false [
    fld "sk_rcu" struct_callback_head;
    fld "sk_freeptr" t_freeptr_t]);
  fld "ns_tracker" t_netns_tracker;
  fld "sk_user_frags" struct_xarray].

Definition t___s16 : ctype := CInt true 2.

Definition struct_inet_cork : ctype := CStruct false [
  fld "flags" (CInt false 4);
  fld "addr" t___be32;
  fld "opt" CPtr;
  fld "fragsize" (CInt false 4);
  fld "length" (CInt true 4);
  fld "dst" CPtr;
  fld "tx_flags" t_u8;
  fld "ttl" t___u8;
  fld "tos" t___s16;
  fld "priority" t_u32;
  fld "gso_size" t___u16;
  fld "ts_opt_id" t_u32;
  fld "transmit_time" t_u64;
  fld "mark" t_u32].

Definition t_dscp_t : ctype := t_u8.

Definition t___be64 : ctype := t___u64.

Definition struct_flowi_tunnel : ctype := CStruct false [
  fld "tun_id" t___be64].

Definition struct_flowi_common : ctype := CStruct false [
  fld "flowic_oif" (CInt true 4);
  fld "flowic_iif" (CInt true 4);
  fld "flowic_l3mdev" (CInt true 4);
  fld "flowic_mark" t___u32;
  fld "flowic_dscp" t_dscp_t;
  fld "flowic_scope" t___u8;
  fld "flowic_proto" t___u8;
  fld "flowic_flags" t___u8;
  fld "flowic_secid" t___u32;
  fld "flowic_uid" t_kuid_t;
  fld "flowic_multipath_hash" t___u32;
  fld "flowic_tun_key" struct_flowi_tunnel].

Definition union_flowi_uli : ctype := CUnion false [
  fld "ports" (CStruct false [
    fld "dport" t___be16;
    fld "sport" t___be16]);
  fld "icmpt" (CStruct false [
    fld "type" t___u8;
    fld "code" t___u8]);
  fld "gre_key" t___be32;
  fld "mht" (CStruct false [
    fld "type" t___u8])].

Definition struct_flowi4 : ctype := CStruct false [
  fld "__fl_common" struct_flowi_common;
  fld "saddr" t___be32;
  fld "daddr" t___be32;
  fld "uli" union_flowi_uli].

Definition struct_flowi6 : ctype := CStruct false [
  fld "__fl_common" struct_flowi_common;
  fld "daddr" struct_in6_addr;
  fld "saddr" struct_in6_addr;
  fld "flowlabel" t___be32;
  fld "uli" union_flowi_uli;
  fld "mp_hash" t___u32].

Definition struct_flowi : ctype := CStruct false [
  fld "u" (CUnion false [
    fld "__fl_common" struct_flowi_common;
    fld "ip4" struct_flowi4;
    fld "ip6" struct_flowi6])].

Definition struct_inet6_cork : ctype := CStruct false [
  fld "opt" CPtr;
  fld "hop_limit" t_u8;
  fld "tclass" t_u8;
  bits "dontfrag" t_u8 1].

Definition struct_inet_cork_full : ctype := CStruct false [
  fld "base" struct_inet_cork;
  fld "fl" struct_flowi;
  fld "base6" struct_inet6_cork].

Definition struct_inet_sock : ctype := CStruct false [
  fld "sk" struct_sock;
  fld "pinet6" CPtr;
  fld "ipv6_fl_list" CPtr;
  fld "inet_flags" (CInt false 8);
  fld "inet_saddr" t___be32;
  fld "uc_ttl" t___s16;
  fld "inet_sport" t___be16;
  fld "inet_opt" CPtr;
  fld "inet_id" t_atomic_t;
  fld "tos" t___u8;
  fld "min_ttl" t___u8;
  fld "mc_ttl" t___u8;
  fld "pmtudisc" t___u8;
  fld "rcv_tos" t___u8;
  fld "convert_csum" t___u8;
  fld "uc_index" (CInt true 4);
  fld "mc_index" (CInt true 4);
  fld "mc_addr" t___be32;
  fld "local_port_range" t_u32;
  fld "mc_list" CPtr;
  fld "cork" struct_inet_cork_full].

Definition struct_fastopen_queue : ctype := CStruct false [
  fld "rskq_rst_head" CPtr;
  fld "rskq_rst_tail" CPtr;
  fld "lock" t_spinlock_t;
  fld "qlen" (CInt true 4);
  fld "max_qlen" (CInt true 4);
  fld "ctx" CPtr].

Definition struct_request_sock_queue : ctype := CStruct false [
  fld "rskq_lock" t_spinlock_t;
  fld "rskq_defer_accept" t_u8;
  fld "synflood_warned" t_u8;
  fld "qlen" t_atomic_t;
  fld "young" t_atomic_t;
  fld "rskq_accept_head" CPtr;
  fld "rskq_accept_tail" CPtr;
  fld "fastopenq" struct_fastopen_queue].

Definition struct_inet_connection_sock : ctype := CStruct false [
  fld "icsk_inet" struct_inet_sock;
  fld "icsk_accept_queue" struct_request_sock_queue;
  fld "icsk_bind_hash" CPtr;
  fld "icsk_bind2_hash" CPtr;
  fld "icsk_delack_timer" struct_timer_list;
  anon (CUnion false [
    fld "icsk_keepalive_timer" struct_timer_list;
    fld "mptcp_tout_timer" struct_timer_list]);
  fld "icsk_rto" t___u32;
  fld "icsk_rto_min" t___u32;
  fld "icsk_rto_max" t_u32;
  fld "icsk_delack_max" t___u32;
  fld "icsk_pmtu_cookie" t___u32;
  fld "icsk_ca_ops" CPtr;
  fld "icsk_af_ops" CPtr;
  fld "icsk_ulp_ops" CPtr;
  fld "icsk_ulp_data" CPtr;
  fld "icsk_sync_mss" CPtr;
  bits "icsk_ca_state" t___u8 5;
  bits "icsk_ca_initialized" t___u8 1;
  bits "icsk_ca_setsockopt" t___u8 1;
  bits "icsk_ca_dst_locked" t___u8 1;
  fld "icsk_retransmits" t___u8;
  fld "icsk_pending" t___u8;
  fld "icsk_backoff" t___u8;
  fld "icsk_syn_retries" t___u8;
  fld "icsk_probes_out" t___u8;
  fld "icsk_ext_hdr_len" t___u16;
  fld "icsk_ack" (CStruct false [
    fld "pending" t___u8;
    fld "quick" t___u8;
    fld "pingpong" t___u8;
    fld "retry" t___u8;
    bits "ato" t___u32 8;
    bits "lrcv_flowlabel" t___u32 20;
    bits "dst_quick_ack" t___u32 1;
    bits "unused" t___u32 3;
    fld "lrcvtime" t___u32;
    fld "last_seg_size" t___u16;
    fld "rcv_mss" t___u16]);
  fld "icsk_mtup" (CStruct false [
    fld "search_high" (CInt true 4);
    fld "search_low" (CInt true 4);
    bits "probe_size" t_u32 31;
    bits "enabled" t_u32 1;
    fld "probe_timestamp" t_u32]);
  fld "icsk_probes_tstamp" t_u32;
  fld "icsk_user_timeout" t_u32;
  fld "icsk_ca_priv" (CArray t_u64 13)].

Definition struct_minmax_sample : ctype := CStruct false [
  fld "t" t_u32;
  fld "v" t_u32].

Definition struct_minmax : ctype := CStruct false [
  fld "s" (CArray struct_minmax_sample 3)].

Definition struct_tcp_options_received : ctype := CStruct false [
  fld "ts_recent_stamp" (CInt true 4);
  fld "ts_recent" t_u32;
  fld "rcv_tsval" t_u32;
  fld "rcv_tsecr" t_u32;
  bits "saw_tstamp" t_u16 1;
  bits "tstamp_ok" t_u16 1;
  bits "dsack" t_u16 1;
  bits "wscale_ok" t_u16 1;
  bits "sack_ok" t_u16 3;
  bits "smc_ok" t_u16 1;
  bits "snd_wscale" t_u16 4;
  bits "rcv_wscale" t_u16 4;
  bits "accecn" t_u8 6;
  bits "saw_unknown" t_u8 1;
  bits "unused" t_u8 1;
  fld "num_sacks" t_u8;
  fld "user_mss" t_u16;
  fld "mss_clamp" t_u16].

Definition struct_tcp_rack : ctype := CStruct false [
  fld "mstamp" t_u64;
  fld "rtt_us" t_u32;
  fld "end_seq" t_u32;
  fld "last_delivered" t_u32;
  fld "reo_wnd_steps" t_u8;
  bits "reo_wnd_persist" t_u8 5;
  bits "dsack_seen" t_u8 1;
  bits "advanced" t_u8 1].

Definition struct_rb_node : ctype := CStruct false [
  fld "__rb_parent_color" (CInt false 8);
  fld "rb_right" CPtr;
  fld "rb_left" CPtr].

Definition struct_timerqueue_node : ctype := CStruct false [
  fld "node" struct_rb_node;
  fld "expires" t_ktime_t].

Definition struct_hrtimer : ctype := CStruct false [
  fld "node" struct_timerqueue_node;
  fld "_softexpires" t_ktime_t;
  fld "function" CPtr;
  fld "base" CPtr;
  fld "state" t_u8;
  fld "is_rel" t_u8;
  fld "is_soft" t_u8;
  fld "is_hard" t_u8].

Definition struct_tcp_sack_block : ctype := CStruct false [
  fld "start_seq" t_u32;
  fld "end_seq" t_u32].
