(* ===== verification/KTypes2.v ===== *)
(** bpf/vmlinux.h, part 2 of 6: the types of the kernel objects the probes touch,
    declared as there and in dependency order (see KernelMem). *)
From S2P Require Import Prelude CLayout KTypes1.

#[local] Open Scope string_scope.
#[local] Open Scope Z_scope.

Definition struct_tcp_sock_part1 : list field := [
  fld "inet_conn" struct_inet_connection_sock;
  fld "__cacheline_group_begin__tcp_sock_read_tx" (CArray t___u8 0);
  fld "max_window" t_u32;
  fld "rcv_ssthresh" t_u32;
  fld "reordering" t_u32;
  fld "notsent_lowat" t_u32;
  fld "gso_segs" t_u16;
  fld "retransmit_skb_hint" CPtr;
  fld "tcp_clean_acked" CPtr;
  fld "__cacheline_group_end__tcp_sock_read_tx" (CArray t___u8 0);
  fld "__cacheline_group_begin__tcp_sock_read_txrx" (CArray t___u8 0);
  fld "tsoffset" t_u32;
  fld "snd_wnd" t_u32;
  fld "mss_cache" t_u32;
  fld "snd_cwnd" t_u32;
  fld "prr_out" t_u32;
  fld "lost_out" t_u32;
  fld "sacked_out" t_u32;
  fld "tcp_header_len" t_u16;
  fld "scaling_ratio" t_u8;
  bits "chrono_type" t_u8 2;
  bits "repair" t_u8 1;
  bits "tcp_usec_ts" t_u8 1;
  bits "is_sack_reneg" t_u8 1;
  bits "is_cwnd_limited" t_u8 1;
  bits "recvmsg_inq" t_u8 1;
  fld "__cacheline_group_end__tcp_sock_read_txrx" (CArray t___u8 0);
  fld "__cacheline_group_begin__tcp_sock_read_rx" (CArray t___u8 0);
  fld "copied_seq" t_u32;
  fld "snd_wl1" t_u32;
  fld "tlp_high_seq" t_u32;
  fld "rttvar_us" t_u32;
  fld "retrans_out" t_u32;
  fld "advmss" t_u16;
  fld "urg_data" t_u16;
  fld "lost" t_u32;
  fld "snd_ssthresh" t_u32;
  fld "rtt_min" struct_minmax;
  fld "out_of_order_queue" struct_rb_root;
  fld "__cacheline_group_end__tcp_sock_read_rx" (CArray t___u8 0);
  bits "" (CInt true 8) 64;
  bits "" (CInt true 8) 64;
  bits "" (CInt true 8) 64;
  fld "__cacheline_group_begin__tcp_sock_write_tx" (CArray t___u8 0);
  fld "segs_out" t_u32;
  fld "data_segs_out" t_u32;
  fld "bytes_sent" t_u64;
  fld "snd_sml" t_u32;
  fld "chrono_start" t_u32;
  fld "chrono_stat" (CArray t_u32 3);
  fld "write_seq" t_u32;
  fld "pushed_seq" t_u32;
  fld "lsndtime" t_u32;
  fld "mdev_us" t_u32;
  fld "rtt_seq" t_u32;
  fld "tcp_wstamp_ns" t_u64;
  fld "accecn_opt_tstamp" t_u64;
  fld "tsorted_sent_queue" struct_list_head;
  fld "highest_sack" CPtr;
  fld "ecn_flags" t_u8;
  fld "__cacheline_group_end__tcp_sock_write_tx" (CArray t___u8 0);
  fld "__cacheline_group_begin__tcp_sock_write_txrx" (CArray t___u8 0);
  bits "nonagle" t_u8 4;
  bits "rate_app_limited" t_u8 1;
  bits "" (CInt true 2) 3;
  bits "received_ce_pending" t_u8 4;
  bits "accecn_opt_sent_w_dsack" t_u8 1;
  bits "unused2" t_u8 3;
  bits "accecn_minlen" t_u8 2;
  bits "est_ecnfield" t_u8 2;
  bits "accecn_opt_demand" t_u8 2;
  bits "prev_ecnfield" t_u8 2;
  fld "pred_flags" t___be32;
  fld "tcp_clock_cache" t_u64;
  fld "tcp_mstamp" t_u64;
  fld "rcv_nxt" t_u32;
  fld "snd_nxt" t_u32;
  fld "snd_una" t_u32;
  fld "window_clamp" t_u32;
  fld "srtt_us" t_u32;
  fld "packets_out" t_u32;
  fld "snd_up" t_u32;
  fld "delivered" t_u32;
  fld "delivered_ce" t_u32;
  fld "received_ce" t_u32;
  fld "received_ecn_bytes" (CArray t_u32 3);
  fld "app_limited" t_u32;
  fld "rcv_wnd" t_u32;
  fld "rcv_tstamp" t_u32;
  fld "rx_opt" struct_tcp_options_received;
  fld "__cacheline_group_end__tcp_sock_write_txrx" (CArray t___u8 0)].

Definition struct_tcp_sock_part2 : list field := [
  fld "__cacheline_group_begin__tcp_sock_write_rx" (CArray t___u8 0);
  fld "bytes_received" t_u64;
  fld "segs_in" t_u32;
  fld "data_segs_in" t_u32;
  fld "rcv_wup" t_u32;
  fld "max_packets_out" t_u32;
  fld "cwnd_usage_seq" t_u32;
  fld "rate_delivered" t_u32;
  fld "rate_interval_us" t_u32;
  fld "rcv_rtt_last_tsecr" t_u32;
  fld "delivered_ecn_bytes" (CArray t_u32 3);
  fld "pkts_acked_ewma" t_u16;
  fld "first_tx_mstamp" t_u64;
  fld "delivered_mstamp" t_u64;
  fld "bytes_acked" t_u64;
  fld "rcv_rtt_est" (CStruct false [
    fld "rtt_us" t_u32;
    fld "seq" t_u32;
    fld "time" t_u64]);
  fld "rcvq_space" (CStruct false [
    fld "space" (CInt true 4);
    fld "seq" t_u32;
    fld "time" t_u64]);
  fld "__cacheline_group_end__tcp_sock_write_rx" (CArray t___u8 0);
  fld "dsack_dups" t_u32;
  fld "compressed_ack_rcv_nxt" t_u32;
  fld "tsq_node" struct_list_head;
  fld "rack" struct_tcp_rack;
  fld "compressed_ack" t_u8;
  bits "dup_ack_counter" t_u8 2;
  bits "tlp_retrans" t_u8 1;
  bits "syn_ect_snt" t_u8 2;
  bits "syn_ect_rcv" t_u8 2;
  bits "thin_lto" t_u8 1;
  bits "fastopen_connect" t_u8 1;
  bits "fastopen_no_cookie" t_u8 1;
  bits "fastopen_client_fail" t_u8 2;
  bits "frto" t_u8 1;
  fld "repair_queue" t_u8;
  bits "save_syn" t_u8 2;
  bits "syn_data" t_u8 1;
  bits "syn_fastopen" t_u8 1;
  bits "syn_fastopen_exp" t_u8 1;
  bits "syn_fastopen_ch" t_u8 1;
  bits "syn_data_acked" t_u8 1;
  bits "syn_fastopen_child" t_u8 1;
  fld "keepalive_probes" t_u8;
  bits "accecn_fail_mode" t_u8 4;
  bits "saw_accecn_opt" t_u8 2;
  fld "tcp_tx_delay" t_u32;
  fld "mdev_max_us" t_u32;
  fld "reord_seen" t_u32;
  fld "snd_cwnd_cnt" t_u32;
  fld "snd_cwnd_clamp" t_u32;
  fld "snd_cwnd_used" t_u32;
  fld "snd_cwnd_stamp" t_u32;
  fld "prior_cwnd" t_u32;
  fld "prr_delivered" t_u32;
  fld "last_oow_ack_time" t_u32;
  fld "pacing_timer" struct_hrtimer;
  fld "compressed_ack_timer" struct_hrtimer;
  fld "ooo_last_skb" CPtr;
  fld "duplicate_sack" (CArray struct_tcp_sack_block 1);
  fld "selective_acks" (CArray struct_tcp_sack_block 4);
  fld "recv_sack_cache" (CArray struct_tcp_sack_block 4);
  fld "prior_ssthresh" t_u32;
  fld "high_seq" t_u32;
  fld "retrans_stamp" t_u32;
  fld "undo_marker" t_u32;
  fld "undo_retrans" (CInt true 4);
  fld "mtu_info" t_u32;
  fld "bytes_retrans" t_u64;
  fld "total_retrans" t_u32;
  fld "rto_stamp" t_u32;
  fld "total_rto" t_u16;
  fld "total_rto_recoveries" t_u16;
  fld "total_rto_time" t_u32;
  fld "urg_seq" t_u32;
  fld "keepalive_time" (CInt false 4);
  fld "keepalive_intvl" (CInt false 4);
  fld "linger2" (CInt true 4);
  fld "bpf_sock_ops_cb_flags" t_u8;
  bits "bpf_chg_cc_inprogress" t_u8 1;
  fld "timeout_rehash" t_u16;
  fld "rcv_ooopack" t_u32;
  fld "mtu_probe" (CStruct false [
    fld "probe_seq_start" t_u32;
    fld "probe_seq_end" t_u32])].

Definition struct_tcp_sock_part3 : list field := [
  fld "plb_rehash" t_u32;
  fld "is_mptcp" t_bool;
  fld "syn_smc" t_bool;
  fld "smc_hs_congested" CPtr;
  fld "af_specific" CPtr;
  fld "md5sig_info" CPtr;
  fld "ao_info" CPtr;
  fld "fastopen_req" CPtr;
  fld "fastopen_rsk" CPtr;
  fld "saved_syn" CPtr].

Definition struct_tcp_sock : ctype := CStruct false (struct_tcp_sock_part1 ++ struct_tcp_sock_part2 ++ struct_tcp_sock_part3).

Definition t_s16 : ctype := t___s16.

Definition struct_in6_pktinfo : ctype := CStruct false [
  fld "ipi6_addr" struct_in6_addr;
  fld "ipi6_ifindex" (CInt true 4)].

Definition struct_ipv6_pinfo : ctype := CStruct false [
  fld "saddr" struct_in6_addr;
  anon (CUnion false [
    fld "daddr" struct_in6_addr;
    fld "final" struct_in6_addr]);
  fld "flow_label" t___be32;
  fld "dst_cookie" t_u32;
  fld "opt" CPtr;
  fld "hop_limit" t_s16;
  fld "pmtudisc" t_u8;
  fld "tclass" t_u8;
  fld "saddr_cache" t_bool;
  fld "daddr_cache" t_bool;
  fld "mcast_hops" t_u8;
  fld "frag_size" t_u32;
  fld "ucast_oif" (CInt true 4);
  fld "mcast_oif" (CInt true 4);
  fld "rxopt" (CUnion false [
    fld "bits" (CStruct false [
      bits "srcrt" t_u16 1;
      bits "osrcrt" t_u16 1;
      bits "rxinfo" t_u16 1;
      bits "rxoinfo" t_u16 1;
      bits "rxhlim" t_u16 1;
      bits "rxohlim" t_u16 1;
      bits "hopopts" t_u16 1;
      bits "ohopopts" t_u16 1;
      bits "dstopts" t_u16 1;
      bits "odstopts" t_u16 1;
      bits "rxflow" t_u16 1;
      bits "rxtclass" t_u16 1;
      bits "rxpmtu" t_u16 1;
      bits "rxorigdstaddr" t_u16 1;
      bits "recvfragsize" t_u16 1]);
    fld "all" t_u16]);
  fld "srcprefs" t_u8;
  fld "min_hopcount" t_u8;
  fld "rcv_flowinfo" t___be32;
  fld "sticky_pktinfo" struct_in6_pktinfo;
  fld "pktoptions" CPtr;
  fld "rxpmtu" CPtr;
  fld "ipv6_mc_list" CPtr;
  fld "ipv6_ac_list" CPtr].

Definition struct_tcp6_sock : ctype := CStruct false [
  fld "tcp" struct_tcp_sock;
  fld "inet6" struct_ipv6_pinfo].

Definition struct_request_sock : ctype := CStruct false [
  fld "__req_common" struct_sock_common;
  fld "dl_next" CPtr;
  fld "mss" t_u16;
  fld "num_retrans" t_u8;
  bits "syncookie" t_u8 1;
  bits "num_timeout" t_u8 7;
  fld "ts_recent" t_u32;
  fld "rsk_timer" struct_timer_list;
  fld "rsk_ops" CPtr;
  fld "sk" CPtr;
  fld "saved_syn" CPtr;
  fld "secid" t_u32;
  fld "peer_secid" t_u32;
  fld "timeout" t_u32].

Definition struct_inet_request_sock : ctype := CStruct false [
  fld "req" struct_request_sock;
  bits "snd_wscale" t_u16 4;
  bits "rcv_wscale" t_u16 4;
  bits "tstamp_ok" t_u16 1;
  bits "sack_ok" t_u16 1;
  bits "wscale_ok" t_u16 1;
  bits "ecn_ok" t_u16 1;
  bits "acked" t_u16 1;
  bits "no_srccheck" t_u16 1;
  bits "smc_ok" t_u16 1;
  fld "ir_mark" t_u32;
  anon (CUnion false [
    fld "ireq_opt" CPtr;
    anon (CStruct false [
      fld "ipv6_opt" CPtr;
      fld "pktopts" CPtr])])].

Definition struct_tcp_request_sock : ctype := CStruct false [
  fld "req" struct_inet_request_sock;
  fld "af_specific" CPtr;
  fld "snt_synack" t_u64;
  fld "tfo_listener" t_bool;
  fld "is_mptcp" t_bool;
  fld "req_usec_ts" t_bool;
  fld "drop_req" t_bool;
  fld "txhash" t_u32;
  fld "rcv_isn" t_u32;
  fld "snt_isn" t_u32;
  fld "ts_off" t_u32;
  fld "snt_tsval_first" t_u32;
  fld "snt_tsval_last" t_u32;
  fld "last_oow_ack_time" t_u32;
  fld "rcv_nxt" t_u32;
  fld "syn_tos" t_u8;
  fld "accecn_ok" t_bool;
  bits "syn_ect_snt" t_u8 2;
  bits "syn_ect_rcv" t_u8 2;
  bits "accecn_fail_mode" t_u8 4;
  bits "saw_accecn_opt" t_u8 2;
  fld "ao_keyid" t_u8;
  fld "ao_rcv_next" t_u8;
  fld "used_tcp_ao" t_bool].

Definition struct_inet_timewait_sock : ctype := CStruct false [
  fld "__tw_common" struct_sock_common;
  fld "tw_mark" t___u32;
  fld "tw_substate" (CInt false 1);
  fld "tw_rcv_wscale" (CInt false 1);
  fld "tw_sport" t___be16;
  bits "tw_transparent" (CInt false 4) 1;
  bits "tw_flowlabel" (CInt false 4) 20;
  bits "tw_usec_ts" (CInt false 4) 1;
  bits "tw_connect_bind" (CInt false 4) 1;
  bits "tw_pad" (CInt false 4) 1;
  bits "tw_tos" (CInt false 4) 8;
  fld "tw_txhash" t_u32;
  fld "tw_priority" t_u32;
  fld "tw_entry_stamp" t_u32;
  fld "tw_timer" struct_timer_list;
  fld "tw_tb" CPtr;
  fld "tw_tb2" CPtr;
  fld "psp_assoc" CPtr;
  fld "tw_validate_xmit_skb" CPtr].

Definition struct_tcp_timewait_sock : ctype := CStruct false [
  fld "tw_sk" struct_inet_timewait_sock;
  fld "tw_rcv_wnd" t_u32;
  fld "tw_ts_offset" t_u32;
  fld "tw_ts_recent" t_u32;
  fld "tw_last_oow_ack_time" t_u32;
  fld "tw_ts_recent_stamp" (CInt true 4);
  fld "tw_tx_delay" t_u32;
  fld "tw_md5_key" CPtr;
  fld "ao_info" CPtr].

Definition t_slab_flags_t : ctype := CInt false 4.

Definition struct_proto : ctype := CStruct false [
  fld "close" CPtr;
  fld "pre_connect" CPtr;
  fld "connect" CPtr;
  fld "disconnect" CPtr;
  fld "accept" CPtr;
  fld "ioctl" CPtr;
  fld "init" CPtr;
  fld "destroy" CPtr;
  fld "shutdown" CPtr;
  fld "setsockopt" CPtr;
  fld "getsockopt" CPtr;
  fld "keepalive" CPtr;
  fld "compat_ioctl" CPtr;
  fld "sendmsg" CPtr;
  fld "recvmsg" CPtr;
  fld "splice_eof" CPtr;
  fld "bind" CPtr;
  fld "bind_add" CPtr;
  fld "backlog_rcv" CPtr;
  fld "bpf_bypass_getsockopt" CPtr;
  fld "release_cb" CPtr;
  fld "hash" CPtr;
  fld "unhash" CPtr;
  fld "rehash" CPtr;
  fld "get_port" CPtr;
  fld "put_port" CPtr;
  fld "psock_update_sk_prot" CPtr;
  fld "inuse_idx" (CInt false 4);
  fld "stream_memory_free" CPtr;
  fld "sock_is_readable" CPtr;
  fld "enter_memory_pressure" CPtr;
  fld "leave_memory_pressure" CPtr;
  fld "memory_allocated" CPtr;
  fld "per_cpu_fw_alloc" CPtr;
  fld "sockets_allocated" CPtr;
  fld "memory_pressure" CPtr;
  fld "sysctl_mem" CPtr;
  fld "sysctl_wmem" CPtr;
  fld "sysctl_rmem" CPtr;
  fld "sysctl_wmem_offset" t_u32;
  fld "sysctl_rmem_offset" t_u32;
  fld "max_header" (CInt true 4);
  fld "no_autobind" t_bool;
  fld "slab" CPtr;
  fld "obj_size" (CInt false 4);
  fld "freeptr_offset" (CInt false 4);
  fld "ipv6_pinfo_offset" (CInt false 4);
  fld "slab_flags" t_slab_flags_t;
  fld "useroffset" (CInt false 4);
  fld "usersize" (CInt false 4);
  fld "rsk_prot" CPtr;
  fld "twsk_prot" CPtr;
  fld "h" (CUnion false [
    fld "hashinfo" CPtr;
    fld "udp_table" CPtr;
    fld "raw_hash" CPtr;
    fld "smc_hash" CPtr]);
  fld "owner" CPtr;
  fld "name" (CArray (CInt true 1) 32);
  fld "node" struct_list_head;
  fld "diag_destroy" CPtr].

Definition enum_of_t_socket_state : cenum := [
  ("SS_FREE", 0);
  ("SS_UNCONNECTED", 1);
  ("SS_CONNECTING", 2);
  ("SS_CONNECTED", 3);
  ("SS_DISCONNECTING", 4)].

Definition t_socket_state : ctype := enum_type enum_of_t_socket_state.

Definition struct_socket_wq : ctype := CStruct false [
  fld "wait" t_wait_queue_head_t;
  fld "fasync_list" CPtr;
  fld "flags" (CInt false 8);
  fld "rcu" struct_callback_head;
  bits "" (CInt true 8) 64].

Definition struct_socket : ctype := CStruct false [
  fld "state" t_socket_state;
  fld "type" (CInt true 2);
  fld "flags" (CInt false 8);
  fld "file" CPtr;
  fld "sk" CPtr;
  fld "ops" CPtr;
  bits "" (CInt true 8) 64;
  bits "" (CInt true 8) 64;
  bits "" (CInt true 8) 64;
  fld "wq" struct_socket_wq].

Definition t_umode_t : ctype := CInt false 2.

Definition t___kernel_gid32_t : ctype := CInt false 4.

Definition t_gid_t : ctype := t___kernel_gid32_t.

Definition t_kgid_t : ctype := CStruct false [
  fld "val" t_gid_t].

Definition t___kernel_dev_t : ctype := t_u32.

Definition t_dev_t : ctype := t___kernel_dev_t.

Definition t___kernel_loff_t : ctype := CInt true 8.

Definition t_loff_t : ctype := t___kernel_loff_t.

Definition t_time64_t : ctype := t___s64.

Definition enum_rw_hint : cenum := [
  ("WRITE_LIFE_NOT_SET", 0);
  ("WRITE_LIFE_NONE", 1);
  ("WRITE_LIFE_SHORT", 2);
  ("WRITE_LIFE_MEDIUM", 3);
  ("WRITE_LIFE_LONG", 4);
  ("WRITE_LIFE_EXTREME", 5);
  ("WRITE_LIFE_HINT_NR", 6)].

Definition t_blkcnt_t : ctype := t_u64.

Definition enum_inode_state_flags_enum : cenum := [
  ("I_NEW", 1);
  ("I_SYNC", 2);
  ("I_LRU_ISOLATING", 4);
  ("I_DIRTY_SYNC", 16);
  ("I_DIRTY_DATASYNC", 32);
  ("I_DIRTY_PAGES", 64);
  ("I_WILL_FREE", 128);
  ("I_FREEING", 256);
  ("I_CLEAR", 512);
  ("I_REFERENCED", 1024);
  ("I_LINKABLE", 2048);
  ("I_DIRTY_TIME", 4096);
  ("I_WB_SWITCH", 8192);
  ("I_OVL_INUSE", 16384);
  ("I_CREATING", 32768);
  ("I_DONTCACHE", 65536);
  ("I_SYNC_QUEUED", 131072);
  ("I_PINNING_NETFS_WB", 262144)].

Definition struct_inode_state_flags : ctype := CStruct false [
  fld "__state" (enum_type enum_inode_state_flags_enum)].

Definition t_atomic_long_t : ctype := t_atomic64_t.

Definition struct_optimistic_spin_queue : ctype := CStruct false [
  fld "tail" t_atomic_t].

Definition t_raw_spinlock_t : ctype := struct_raw_spinlock.

Definition struct_rw_semaphore : ctype := CStruct false [
  fld "count" t_atomic_long_t;
  fld "owner" t_atomic_long_t;
  fld "osq" struct_optimistic_spin_queue;
  fld "wait_lock" t_raw_spinlock_t;
  fld "wait_list" struct_list_head].

Definition struct_hlist_head : ctype := CStruct false [
  fld "first" CPtr].

Definition struct_rb_root_cached : ctype := CStruct false [
  fld "rb_root" struct_rb_root;
  fld "rb_leftmost" CPtr].

Definition t_errseq_t : ctype := t_u32.

Definition struct_address_space : ctype := CStruct false [
  fld "host" CPtr;
  fld "i_pages" struct_xarray;
  fld "invalidate_lock" struct_rw_semaphore;
  fld "gfp_mask" t_gfp_t;
  fld "i_mmap_writable" t_atomic_t;
  fld "i_mmap" struct_rb_root_cached;
  fld "nrpages" (CInt false 8);
  fld "writeback_index" (CInt false 8);
  fld "a_ops" CPtr;
  fld "flags" (CInt false 8);
  fld "wb_err" t_errseq_t;
  fld "i_private_lock" t_spinlock_t;
  fld "i_private_list" struct_list_head;
  fld "i_mmap_rwsem" struct_rw_semaphore;
  fld "i_private_data" CPtr].

Definition struct_inode : ctype := CStruct false [
  fld "i_mode" t_umode_t;
  fld "i_opflags" (CInt false 2);
  fld "i_flags" (CInt false 4);
  fld "i_acl" CPtr;
  fld "i_default_acl" CPtr;
  fld "i_uid" t_kuid_t;
  fld "i_gid" t_kgid_t;
  fld "i_op" CPtr;
  fld "i_sb" CPtr;
  fld "i_mapping" CPtr;
  fld "i_security" CPtr;
  fld "i_ino" (CInt false 8);
  anon (CUnion false [
    fld "i_nlink" (CInt false 4);
    fld "__i_nlink" (CInt false 4)]);
  fld "i_rdev" t_dev_t;
  fld "i_size" t_loff_t;
  fld "i_atime_sec" t_time64_t;
  fld "i_mtime_sec" t_time64_t;
  fld "i_ctime_sec" t_time64_t;
  fld "i_atime_nsec" t_u32;
  fld "i_mtime_nsec" t_u32;
  fld "i_ctime_nsec" t_u32;
  fld "i_generation" t_u32;
  fld "i_lock" t_spinlock_t;
  fld "i_bytes" (CInt false 2);
  fld "i_blkbits" t_u8;
  fld "i_write_hint" (CInt false 1);
  fld "i_blocks" t_blkcnt_t;
  fld "i_state" struct_inode_state_flags;
  fld "i_rwsem" struct_rw_semaphore;
  fld "dirtied_when" (CInt false 8);
  fld "dirtied_time_when" (CInt false 8);
  fld "i_hash" struct_hlist_node;
  fld "i_io_list" struct_list_head;
  fld "i_wb" CPtr;
  fld "i_wb_frn_winner" (CInt true 4);
  fld "i_wb_frn_avg_time" t_u16;
  fld "i_wb_frn_history" t_u16;
  fld "i_lru" struct_list_head;
  fld "i_sb_list" struct_list_head;
  fld "i_wb_list" struct_list_head;
  anon (CUnion false [
    fld "i_dentry" struct_hlist_head;
    fld "i_rcu" struct_callback_head]);
  fld "i_version" t_atomic64_t;
  fld "i_sequence" t_atomic64_t;
  fld "i_count" t_atomic_t;
  fld "i_dio_count" t_atomic_t;
  fld "i_writecount" t_atomic_t;
  fld "i_readcount" t_atomic_t;
  anon (CUnion false [
    fld "i_fop" CPtr;
    fld "free_inode" CPtr]);
  fld "i_flctx" CPtr;
  fld "i_data" struct_address_space;
  anon (CUnion false [
    fld "i_devices" struct_list_head;
    fld "i_linklen" (CInt true 4)]);
  anon (CUnion false [
    fld "i_pipe" CPtr;
    fld "i_cdev" CPtr;
    fld "i_link" CPtr;
    fld "i_dir_seq" (CInt false 4)]);
  fld "i_fsnotify_mask" t___u32;
  fld "i_fsnotify_marks" CPtr;
  fld "i_private" CPtr].

Definition struct_socket_alloc : ctype := CStruct false [
  fld "socket" struct_socket;
  fld "vfs_inode" struct_inode;
  bits "" (CInt true 8) 64;
  bits "" (CInt true 8) 64;
  bits "" (CInt true 8) 64;
  bits "" (CInt true 8) 64].

Definition struct_llist_node : ctype := CStruct false [
  fld "next" CPtr].

Definition struct_idr : ctype := CStruct false [
  fld "idr_rt" struct_xarray;
  fld "idr_base" (CInt false 4);
  fld "idr_next" (CInt false 4)].

Definition struct_ns_tree_node : ctype := CStruct false [
  fld "ns_node" struct_rb_node;
  fld "ns_list_entry" struct_list_head].

Definition struct_ns_tree_root : ctype := CStruct false [
  fld "ns_rb" struct_rb_root;
  fld "ns_list_head" struct_list_head].

Definition struct_ns_tree : ctype := CStruct false [
  fld "ns_id" t_u64;
  fld "__ns_ref_active" t_atomic_t;
  fld "ns_unified_node" struct_ns_tree_node;
  fld "ns_tree_node" struct_ns_tree_node;
  fld "ns_owner_node" struct_ns_tree_node;
  fld "ns_owner_root" struct_ns_tree_root].

Definition struct_ns_common : ctype := CStruct false [
  anon (CStruct false [
    fld "__ns_ref" t_refcount_t;
    bits "" (CInt true 8) 64;
    bits "" (CInt true 8) 64;
    bits "" (CInt true 8) 64;
    bits "" (CInt true 8) 64;
    bits "" (CInt true 8) 64;
    bits "" (CInt true 8) 64;
    bits "" (CInt true 8) 64]);
  fld "ns_type" t_u32;
  fld "stashed" CPtr;
  fld "ops" CPtr;
  fld "inum" (CInt false 4);
  anon (CUnion false [
    anon struct_ns_tree;
    fld "ns_rcu" struct_callback_head])].

Definition struct_ref_tracker_dir : ctype := CStruct false [
].

Definition struct_ctl_table_header : ctype := CStruct false [
  anon (CUnion false [
    anon (CStruct false [
      fld "ctl_table" CPtr;
      fld "ctl_table_size" (CInt true 4);
      fld "used" (CInt true 4);
      fld "count" (CInt true 4);
      fld "nreg" (CInt true 4)]);
    fld "rcu" struct_callback_head]);
  fld "unregistering" CPtr;
  fld "ctl_table_arg" CPtr;
  fld "root" CPtr;
  fld "set" CPtr;
  fld "parent" CPtr;
  fld "node" CPtr;
  fld "inodes" struct_hlist_head;
  fld "type" (enum_type [("SYSCTL_TABLE_TYPE_DEFAULT"%string, 0); ("SYSCTL_TABLE_TYPE_PERMANENTLY_EMPTY"%string, 1)])].

Definition struct_ctl_dir : ctype := CStruct false [
  fld "header" struct_ctl_table_header;
  fld "root" struct_rb_root].

Definition struct_ctl_table_set : ctype := CStruct false [
  fld "is_seen" CPtr;
  fld "dir" struct_ctl_dir].

Definition struct_raw_notifier_head : ctype := CStruct false [
  fld "head" CPtr].

Definition struct_netns_core : ctype := CStruct false [
  fld "sysctl_hdr" CPtr;
  fld "sysctl_somaxconn" (CInt true 4);
  fld "sysctl_txq_reselection" (CInt true 4);
  fld "sysctl_optmem_max" (CInt true 4);
  fld "sysctl_txrehash" t_u8;
  fld "sysctl_tstamp_allow_data" t_u8;
  fld "sysctl_bypass_prot_mem" t_u8;
  fld "prot_inuse" CPtr;
  fld "rps_default_mask" CPtr].
