(* ===== verification/KTypes3.v ===== *)
(** bpf/vmlinux.h, part 3 of 6: the types of the kernel objects the probes touch,
    declared as there and in dependency order (see KernelMem). *)
From S2P Require Import Prelude CLayout KTypes1 KTypes2.

#[local] Open Scope string_scope.
#[local] Open Scope Z_scope.

Definition struct_netns_mib : ctype := CStruct false [
  fld "ip_statistics" CPtr;
  fld "ipv6_statistics" CPtr;
  fld "tcp_statistics" CPtr;
  fld "net_statistics" CPtr;
  fld "udp_statistics" CPtr;
  fld "udp_stats_in6" CPtr;
  fld "xfrm_statistics" CPtr;
  fld "tls_statistics" CPtr;
  fld "mptcp_statistics" CPtr;
  fld "udplite_statistics" CPtr;
  fld "udplite_stats_in6" CPtr;
  fld "icmp_statistics" CPtr;
  fld "icmpmsg_statistics" CPtr;
  fld "icmpv6_statistics" CPtr;
  fld "icmpv6msg_statistics" CPtr;
  fld "proc_net_devsnmp6" CPtr].

Definition struct_mutex : ctype := CStruct false [
  fld "owner" t_atomic_long_t;
  fld "wait_lock" t_raw_spinlock_t;
  fld "osq" struct_optimistic_spin_queue;
  fld "wait_list" struct_list_head].

Definition struct_netns_packet : ctype := CStruct false [
  fld "sklist_lock" struct_mutex;
  fld "sklist" struct_hlist_head].

Definition struct_unix_table : ctype := CStruct false [
  fld "locks" CPtr;
  fld "buckets" CPtr].

Definition struct_netns_unix : ctype := CStruct false [
  fld "table" struct_unix_table;
  fld "sysctl_max_dgram_qlen" (CInt true 4);
  fld "ctl" CPtr].

Definition struct_blocking_notifier_head : ctype := CStruct false [
  fld "rwsem" struct_rw_semaphore;
  fld "head" CPtr].

Definition struct_netns_nexthop : ctype := CStruct false [
  fld "rb_root" struct_rb_root;
  fld "devhash" CPtr;
  fld "seq" (CInt false 4);
  fld "last_id_allocated" t_u32;
  fld "notifier_chain" struct_blocking_notifier_head].

Definition struct_inet_timewait_death_row : ctype := CStruct false [
  fld "tw_refcount" t_refcount_t;
  bits "" (CInt true 8) 64;
  bits "" (CInt true 8) 64;
  bits "" (CInt true 8) 64;
  bits "" (CInt true 8) 64;
  bits "" (CInt true 8) 64;
  bits "" (CInt true 8) 64;
  bits "" (CInt true 8) 64;
  fld "hashinfo" CPtr;
  fld "sysctl_max_tw_buckets" (CInt true 4);
  bits "" (CInt true 8) 64;
  bits "" (CInt true 8) 64;
  bits "" (CInt true 8) 64;
  bits "" (CInt true 8) 64;
  bits "" (CInt true 8) 64;
  bits "" (CInt true 8) 64].

Definition struct_udp_tunnel_gro : ctype := CStruct false [
  fld "sk" CPtr;
  fld "list" struct_hlist_head].

Definition struct_local_ports : ctype := CStruct false [
  fld "range" t_u32;
  fld "warned" t_bool].

Definition struct_seqcount : ctype := CStruct false [
  fld "sequence" (CInt false 4)].

Definition t_seqcount_t : ctype := struct_seqcount.

Definition struct_seqcount_spinlock : ctype := CStruct false [
  fld "seqcount" t_seqcount_t].

Definition t_seqcount_spinlock_t : ctype := struct_seqcount_spinlock.

Definition struct_seqlock : ctype := CStruct false [
  fld "seqcount" t_seqcount_spinlock_t;
  fld "lock" t_spinlock_t].

Definition t_seqlock_t : ctype := struct_seqlock.

Definition struct_ping_group_range : ctype := CStruct false [
  fld "lock" t_seqlock_t;
  fld "range" (CArray t_kgid_t 2)].

Definition struct_sysctl_fib_multipath_hash_seed : ctype := CStruct false [
  fld "user_seed" t_u32;
  fld "mp_seed" t_u32].

Definition t_siphash_key_t : ctype := CStruct false [
  fld "key" (CArray t_u64 2)].

Definition t_work_func_t : ctype := CPtr.

Definition struct_work_struct : ctype := CStruct false [
  fld "data" t_atomic_long_t;
  fld "entry" struct_list_head;
  fld "func" t_work_func_t].

Definition struct_delayed_work : ctype := CStruct false [
  fld "work" struct_work_struct;
  fld "timer" struct_timer_list;
  fld "wq" CPtr;
  fld "cpu" (CInt true 4)].

Definition struct_netns_ipv4_part1 : list field := [
  fld "__cacheline_group_begin__netns_ipv4_read_tx" (CArray t___u8 0);
  fld "sysctl_tcp_early_retrans" t_u8;
  fld "sysctl_tcp_tso_win_divisor" t_u8;
  fld "sysctl_tcp_tso_rtt_log" t_u8;
  fld "sysctl_tcp_autocorking" t_u8;
  fld "sysctl_tcp_min_snd_mss" (CInt true 4);
  fld "sysctl_tcp_notsent_lowat" (CInt false 4);
  fld "sysctl_tcp_limit_output_bytes" (CInt true 4);
  fld "sysctl_tcp_min_rtt_wlen" (CInt true 4);
  fld "sysctl_tcp_wmem" (CArray (CInt true 4) 3);
  fld "sysctl_ip_fwd_use_pmtu" t_u8;
  fld "__cacheline_group_end__netns_ipv4_read_tx" (CArray t___u8 0);
  fld "__cacheline_group_begin__netns_ipv4_read_txrx" (CArray t___u8 0);
  fld "__cacheline_group_end__netns_ipv4_read_txrx" (CArray t___u8 0);
  fld "__cacheline_group_begin__netns_ipv4_read_rx" (CArray t___u8 0);
  fld "sysctl_tcp_moderate_rcvbuf" t_u8;
  fld "sysctl_ip_early_demux" t_u8;
  fld "sysctl_tcp_early_demux" t_u8;
  fld "sysctl_tcp_l3mdev_accept" t_u8;
  fld "sysctl_tcp_reordering" (CInt true 4);
  fld "sysctl_tcp_rmem" (CArray (CInt true 4) 3);
  fld "sysctl_tcp_rcvbuf_low_rtt" (CInt true 4);
  fld "__cacheline_group_end__netns_ipv4_read_rx" (CArray t___u8 0);
  bits "" (CInt true 8) 0;
  fld "__cacheline_group_begin__icmp" (CArray t___u8 0);
  fld "icmp_global_credit" t_atomic_t;
  fld "icmp_global_stamp" t_u32;
  fld "__cacheline_group_end__icmp" (CArray t___u8 0);
  bits "" (CInt true 8) 64;
  bits "" (CInt true 8) 64;
  bits "" (CInt true 8) 64;
  bits "" (CInt true 8) 64;
  bits "" (CInt true 8) 64;
  bits "" (CInt true 8) 64;
  bits "" (CInt true 8) 64;
  fld "__cacheline_group_pad__icmp" (CStruct false [
]);
  fld "tcp_death_row" struct_inet_timewait_death_row;
  fld "udp_table" CPtr;
  fld "udp_tunnel_gro" (CArray struct_udp_tunnel_gro 2);
  fld "forw_hdr" CPtr;
  fld "frags_hdr" CPtr;
  fld "ipv4_hdr" CPtr;
  fld "route_hdr" CPtr;
  fld "xfrm4_hdr" CPtr;
  fld "devconf_all" CPtr;
  fld "devconf_dflt" CPtr;
  fld "ra_chain" CPtr;
  fld "ra_mutex" struct_mutex;
  fld "rules_ops" CPtr;
  fld "fib_main" CPtr;
  fld "fib_default" CPtr;
  fld "fib_rules_require_fldissect" (CInt false 4);
  fld "fib_has_custom_rules" t_bool;
  fld "fib_has_custom_local_routes" t_bool;
  fld "fib_offload_disabled" t_bool;
  fld "sysctl_tcp_shrink_window" t_u8;
  fld "fib_num_tclassid_users" t_atomic_t;
  fld "fib_table_hash" CPtr;
  fld "fibnl" CPtr;
  fld "fib_info_hash" CPtr;
  fld "fib_info_hash_bits" (CInt false 4);
  fld "fib_info_cnt" (CInt false 4);
  fld "mc_autojoin_sk" CPtr;
  fld "peers" CPtr;
  fld "fqdir" CPtr;
  fld "sysctl_icmp_echo_ignore_all" t_u8;
  fld "sysctl_icmp_echo_enable_probe" t_u8;
  fld "sysctl_icmp_echo_ignore_broadcasts" t_u8;
  fld "sysctl_icmp_ignore_bogus_error_responses" t_u8;
  fld "sysctl_icmp_errors_use_inbound_ifaddr" t_u8;
  fld "sysctl_icmp_errors_extension_mask" t_u8;
  fld "sysctl_icmp_ratelimit" (CInt true 4);
  fld "sysctl_icmp_ratemask" (CInt true 4);
  fld "sysctl_icmp_msgs_per_sec" (CInt true 4);
  fld "sysctl_icmp_msgs_burst" (CInt true 4);
  fld "ip_rt_min_pmtu" t_u32;
  fld "ip_rt_mtu_expires" (CInt true 4);
  fld "ip_rt_min_advmss" (CInt true 4);
  fld "ip_local_ports" struct_local_ports;
  fld "sysctl_tcp_ecn" t_u8;
  fld "sysctl_tcp_ecn_option" t_u8;
  fld "sysctl_tcp_ecn_option_beacon" t_u8;
  fld "sysctl_tcp_ecn_fallback" t_u8;
  fld "sysctl_ip_default_ttl" t_u8;
  fld "sysctl_ip_no_pmtu_disc" t_u8;
  fld "sysctl_ip_fwd_update_priority" t_u8;
  fld "sysctl_ip_nonlocal_bind" t_u8;
  fld "sysctl_ip_autobind_reuse" t_u8;
  fld "sysctl_ip_dynaddr" t_u8;
  fld "sysctl_raw_l3mdev_accept" t_u8;
  fld "sysctl_udp_early_demux" t_u8].

Definition struct_netns_ipv4_part2 : list field := [
  fld "sysctl_nexthop_compat_mode" t_u8;
  fld "sysctl_fwmark_reflect" t_u8;
  fld "sysctl_tcp_fwmark_accept" t_u8;
  fld "sysctl_tcp_mtu_probing" t_u8;
  fld "sysctl_tcp_mtu_probe_floor" (CInt true 4);
  fld "sysctl_tcp_base_mss" (CInt true 4);
  fld "sysctl_tcp_probe_threshold" (CInt true 4);
  fld "sysctl_tcp_probe_interval" t_u32;
  fld "sysctl_tcp_keepalive_time" (CInt true 4);
  fld "sysctl_tcp_keepalive_intvl" (CInt true 4);
  fld "sysctl_tcp_keepalive_probes" t_u8;
  fld "sysctl_tcp_syn_retries" t_u8;
  fld "sysctl_tcp_synack_retries" t_u8;
  fld "sysctl_tcp_syncookies" t_u8;
  fld "sysctl_tcp_migrate_req" t_u8;
  fld "sysctl_tcp_comp_sack_nr" t_u8;
  fld "sysctl_tcp_backlog_ack_defer" t_u8;
  fld "sysctl_tcp_pingpong_thresh" t_u8;
  fld "sysctl_tcp_retries1" t_u8;
  fld "sysctl_tcp_retries2" t_u8;
  fld "sysctl_tcp_orphan_retries" t_u8;
  fld "sysctl_tcp_tw_reuse" t_u8;
  fld "sysctl_tcp_tw_reuse_delay" (CInt false 4);
  fld "sysctl_tcp_fin_timeout" (CInt true 4);
  fld "sysctl_tcp_sack" t_u8;
  fld "sysctl_tcp_window_scaling" t_u8;
  fld "sysctl_tcp_timestamps" t_u8;
  fld "sysctl_tcp_rto_min_us" (CInt true 4);
  fld "sysctl_tcp_rto_max_ms" (CInt true 4);
  fld "sysctl_tcp_recovery" t_u8;
  fld "sysctl_tcp_thin_linear_timeouts" t_u8;
  fld "sysctl_tcp_slow_start_after_idle" t_u8;
  fld "sysctl_tcp_retrans_collapse" t_u8;
  fld "sysctl_tcp_stdurg" t_u8;
  fld "sysctl_tcp_rfc1337" t_u8;
  fld "sysctl_tcp_abort_on_overflow" t_u8;
  fld "sysctl_tcp_fack" t_u8;
  fld "sysctl_tcp_max_reordering" (CInt true 4);
  fld "sysctl_tcp_adv_win_scale" (CInt true 4);
  fld "sysctl_tcp_dsack" t_u8;
  fld "sysctl_tcp_app_win" t_u8;
  fld "sysctl_tcp_frto" t_u8;
  fld "sysctl_tcp_nometrics_save" t_u8;
  fld "sysctl_tcp_no_ssthresh_metrics_save" t_u8;
  fld "sysctl_tcp_workaround_signed_windows" t_u8;
  fld "sysctl_tcp_challenge_ack_limit" (CInt true 4);
  fld "sysctl_tcp_min_tso_segs" t_u8;
  fld "sysctl_tcp_reflect_tos" t_u8;
  fld "sysctl_tcp_invalid_ratelimit" (CInt true 4);
  fld "sysctl_tcp_pacing_ss_ratio" (CInt true 4);
  fld "sysctl_tcp_pacing_ca_ratio" (CInt true 4);
  fld "sysctl_tcp_child_ehash_entries" (CInt false 4);
  fld "sysctl_tcp_comp_sack_rtt_percent" (CInt true 4);
  fld "sysctl_tcp_comp_sack_delay_ns" (CInt false 8);
  fld "sysctl_tcp_comp_sack_slack_ns" (CInt false 8);
  fld "sysctl_max_syn_backlog" (CInt true 4);
  fld "sysctl_tcp_fastopen" (CInt true 4);
  fld "tcp_congestion_control" CPtr;
  fld "tcp_fastopen_ctx" CPtr;
  fld "sysctl_tcp_fastopen_blackhole_timeout" (CInt false 4);
  fld "tfo_active_disable_times" t_atomic_t;
  fld "tfo_active_disable_stamp" (CInt false 8);
  fld "tcp_challenge_timestamp" t_u32;
  fld "tcp_challenge_count" t_u32;
  fld "sysctl_tcp_plb_enabled" t_u8;
  fld "sysctl_tcp_plb_idle_rehash_rounds" t_u8;
  fld "sysctl_tcp_plb_rehash_rounds" t_u8;
  fld "sysctl_tcp_plb_suspend_rto_sec" t_u8;
  fld "sysctl_tcp_plb_cong_thresh" (CInt true 4);
  fld "sysctl_udp_wmem_min" (CInt true 4);
  fld "sysctl_udp_rmem_min" (CInt true 4);
  fld "sysctl_fib_notify_on_flag_change" t_u8;
  fld "sysctl_tcp_syn_linear_timeouts" t_u8;
  fld "sysctl_udp_l3mdev_accept" t_u8;
  fld "sysctl_igmp_llm_reports" t_u8;
  fld "sysctl_igmp_max_memberships" (CInt true 4);
  fld "sysctl_igmp_max_msf" (CInt true 4);
  fld "sysctl_igmp_qrv" (CInt true 4);
  fld "ping_group_range" struct_ping_group_range;
  fld "ping_port_rover" t_u16;
  fld "dev_addr_genid" t_atomic_t;
  fld "sysctl_udp_child_hash_entries" (CInt false 4);
  fld "sysctl_local_reserved_ports" CPtr;
  fld "sysctl_ip_prot_sock" (CInt true 4);
  fld "mr_tables" struct_list_head;
  fld "mr_rules_ops" CPtr;
  fld "sysctl_fib_multipath_hash_seed" struct_sysctl_fib_multipath_hash_seed;
  fld "sysctl_fib_multipath_hash_fields" t_u32;
  fld "sysctl_fib_multipath_use_neigh" t_u8;
  fld "sysctl_fib_multipath_hash_policy" t_u8;
  fld "notifier_ops" CPtr].

Definition struct_netns_ipv4_part3 : list field := [
  fld "fib_seq" (CInt false 4);
  fld "ipmr_notifier_ops" CPtr;
  fld "ipmr_seq" (CInt false 4);
  fld "rt_genid" t_atomic_t;
  fld "ip_id_key" t_siphash_key_t;
  fld "inet_addr_lst" CPtr;
  fld "addr_chk_work" struct_delayed_work;
  bits "" (CInt true 8) 64;
  bits "" (CInt true 8) 64;
  bits "" (CInt true 8) 64;
  bits "" (CInt true 8) 64;
  bits "" (CInt true 8) 64].

Definition struct_netns_ipv4 : ctype := CStruct false (struct_netns_ipv4_part1 ++ struct_netns_ipv4_part2 ++ struct_netns_ipv4_part3).

Definition struct_percpu_counter : ctype := CStruct false [
  fld "lock" t_raw_spinlock_t;
  fld "count" t_s64;
  fld "list" struct_list_head;
  fld "counters" CPtr].

Definition struct_dst_ops : ctype := CStruct false [
  fld "family" (CInt false 2);
  fld "gc_thresh" (CInt false 4);
  fld "gc" CPtr;
  fld "check" CPtr;
  fld "default_advmss" CPtr;
  fld "mtu" CPtr;
  fld "cow_metrics" CPtr;
  fld "destroy" CPtr;
  fld "ifdown" CPtr;
  fld "negative_advice" CPtr;
  fld "link_failure" CPtr;
  fld "update_pmtu" CPtr;
  fld "redirect" CPtr;
  fld "local_out" CPtr;
  fld "neigh_lookup" CPtr;
  fld "confirm_neigh" CPtr;
  fld "kmem_cachep" CPtr;
  fld "pcpuc_entries" struct_percpu_counter;
  bits "" (CInt true 8) 64;
  bits "" (CInt true 8) 64;
  bits "" (CInt true 8) 64].

Definition struct_netns_sysctl_ipv6 : ctype := CStruct false [
  fld "hdr" CPtr;
  fld "route_hdr" CPtr;
  fld "icmp_hdr" CPtr;
  fld "frags_hdr" CPtr;
  fld "xfrm6_hdr" CPtr;
  fld "flush_delay" (CInt true 4);
  fld "ip6_rt_max_size" (CInt true 4);
  fld "ip6_rt_gc_min_interval" (CInt true 4);
  fld "ip6_rt_gc_timeout" (CInt true 4);
  fld "ip6_rt_gc_interval" (CInt true 4);
  fld "ip6_rt_gc_elasticity" (CInt true 4);
  fld "ip6_rt_mtu_expires" (CInt true 4);
  fld "ip6_rt_min_advmss" (CInt true 4);
  fld "multipath_hash_fields" t_u32;
  fld "multipath_hash_policy" t_u8;
  fld "__cacheline_group_begin__sysctl_ipv6_flowlabel" (CArray t___u8 0);
  fld "flowlabel_consistency" t_u8;
  fld "auto_flowlabels" t_u8;
  fld "flowlabel_state_ranges" t_u8;
  fld "__cacheline_group_end__sysctl_ipv6_flowlabel" (CArray t___u8 0);
  fld "icmpv6_echo_ignore_all" t_u8;
  fld "icmpv6_echo_ignore_multicast" t_u8;
  fld "icmpv6_echo_ignore_anycast" t_u8;
  fld "icmpv6_time" (CInt true 4);
  fld "icmpv6_ratemask" (CArray (CInt false 8) 4);
  fld "icmpv6_ratemask_ptr" CPtr;
  fld "anycast_src_echo_reply" t_u8;
  fld "bindv6only" t_u8;
  fld "ip_nonlocal_bind" t_u8;
  fld "fwmark_reflect" t_u8;
  fld "idgen_retries" (CInt true 4);
  fld "idgen_delay" (CInt true 4);
  fld "flowlabel_reflect" (CInt true 4);
  fld "max_dst_opts_cnt" (CInt true 4);
  fld "max_hbh_opts_cnt" (CInt true 4);
  fld "max_dst_opts_len" (CInt true 4);
  fld "max_hbh_opts_len" (CInt true 4);
  fld "seg6_flowlabel" (CInt true 4);
  fld "ioam6_id" t_u32;
  fld "ioam6_id_wide" t_u64;
  fld "skip_notify_on_dev_down" t_u8;
  fld "fib_notify_on_flag_change" t_u8;
  fld "icmpv6_error_anycast_as_unicast" t_u8;
  fld "icmpv6_errors_extension_mask" t_u8].

Definition struct_netns_ipv6 : ctype := CStruct false [
  fld "ip6_dst_ops" struct_dst_ops;
  fld "sysctl" struct_netns_sysctl_ipv6;
  fld "devconf_all" CPtr;
  fld "devconf_dflt" CPtr;
  fld "peers" CPtr;
  fld "fqdir" CPtr;
  fld "fib6_null_entry" CPtr;
  fld "ip6_null_entry" CPtr;
  fld "rt6_stats" CPtr;
  fld "ip6_fib_timer" struct_timer_list;
  fld "fib_table_hash" CPtr;
  fld "fib_table_hash_lock" t_spinlock_t;
  fld "fib6_main_tbl" CPtr;
  fld "fib6_walkers" struct_list_head;
  fld "fib6_walker_lock" t_rwlock_t;
  fld "fib6_gc_lock" t_spinlock_t;
  fld "ip6_rt_gc_expire" t_atomic_t;
  fld "ip6_rt_last_gc" (CInt false 8);
  fld "flowlabel_has_excl" (CInt false 1);
  fld "fib6_has_custom_rules" t_bool;
  fld "fib6_rules_require_fldissect" (CInt false 4);
  fld "fib6_routes_require_src" (CInt false 4);
  fld "ip6_prohibit_entry" CPtr;
  fld "ip6_blk_hole_entry" CPtr;
  fld "fib6_local_tbl" CPtr;
  fld "fib6_rules_ops" CPtr;
  fld "ndisc_sk" CPtr;
  fld "tcp_sk" CPtr;
  fld "igmp_sk" CPtr;
  fld "mc_autojoin_sk" CPtr;
  fld "inet6_addr_lst" CPtr;
  fld "addrconf_hash_lock" t_spinlock_t;
  fld "addr_chk_work" struct_delayed_work;
  fld "mr6_tables" struct_list_head;
  fld "mr6_rules_ops" CPtr;
  fld "dev_addr_genid" t_atomic_t;
  fld "fib6_sernum" t_atomic_t;
  fld "seg6_data" CPtr;
  fld "notifier_ops" CPtr;
  fld "ip6mr_notifier_ops" CPtr;
  fld "ipmr_seq" (CInt false 4);
  fld "ip6addrlbl_table" (CStruct false [
    fld "head" struct_hlist_head;
    fld "lock" t_spinlock_t;
    fld "seq" t_u32]);
  fld "ioam6_data" CPtr;
  bits "" (CInt true 8) 64;
  bits "" (CInt true 8) 64;
  bits "" (CInt true 8) 64].

Definition struct_netns_sysctl_lowpan : ctype := CStruct false [
  fld "frags_hdr" CPtr].

Definition struct_netns_ieee802154_lowpan : ctype := CStruct false [
  fld "sysctl" struct_netns_sysctl_lowpan;
  fld "fqdir" CPtr].

Definition struct_netns_sctp : ctype := CStruct false [
  fld "sctp_statistics" CPtr;
  fld "proc_net_sctp" CPtr;
  fld "sysctl_header" CPtr;
  fld "ctl_sock" CPtr;
  fld "udp4_sock" CPtr;
  fld "udp6_sock" CPtr;
  fld "udp_port" (CInt true 4);
  fld "encap_port" (CInt true 4);
  fld "local_addr_list" struct_list_head;
  fld "addr_waitq" struct_list_head;
  fld "addr_wq_timer" struct_timer_list;
  fld "auto_asconf_splist" struct_list_head;
  fld "addr_wq_lock" t_spinlock_t;
  fld "local_addr_lock" t_spinlock_t;
  fld "rto_initial" (CInt false 4);
  fld "rto_min" (CInt false 4);
  fld "rto_max" (CInt false 4);
  fld "rto_alpha" (CInt true 4);
  fld "rto_beta" (CInt true 4);
  fld "max_burst" (CInt true 4);
  fld "cookie_preserve_enable" (CInt true 4);
  fld "cookie_auth_enable" (CInt true 4);
  fld "valid_cookie_life" (CInt false 4);
  fld "sack_timeout" (CInt false 4);
  fld "hb_interval" (CInt false 4);
  fld "probe_interval" (CInt false 4);
  fld "max_retrans_association" (CInt true 4);
  fld "max_retrans_path" (CInt true 4);
  fld "max_retrans_init" (CInt true 4);
  fld "pf_retrans" (CInt true 4);
  fld "ps_retrans" (CInt true 4);
  fld "pf_enable" (CInt true 4);
  fld "pf_expose" (CInt true 4);
  fld "sndbuf_policy" (CInt true 4);
  fld "rcvbuf_policy" (CInt true 4);
  fld "default_auto_asconf" (CInt true 4);
  fld "addip_enable" (CInt true 4);
  fld "addip_noauth" (CInt true 4);
  fld "prsctp_enable" (CInt true 4);
  fld "reconf_enable" (CInt true 4);
  fld "auth_enable" (CInt true 4);
  fld "intl_enable" (CInt true 4);
  fld "ecn_enable" (CInt true 4);
  fld "scope_policy" (CInt true 4);
  fld "rwnd_upd_shift" (CInt true 4);
  fld "max_autoclose" (CInt false 8);
  fld "l3mdev_accept" (CInt true 4)].

Definition struct_netns_nf : ctype := CStruct false [
  fld "proc_netfilter" CPtr;
  fld "nf_loggers" (CArray CPtr 11);
  fld "nf_log_dir_header" CPtr;
  fld "nf_lwtnl_dir_header" CPtr;
  fld "hooks_ipv4" (CArray CPtr 5);
  fld "hooks_ipv6" (CArray CPtr 5);
  fld "hooks_arp" (CArray CPtr 3);
  fld "hooks_bridge" (CArray CPtr 5);
  fld "defrag_ipv4_users" (CInt false 4);
  fld "defrag_ipv6_users" (CInt false 4)].

Definition struct_nf_generic_net : ctype := CStruct false [
  fld "timeout" (CInt false 4)].

Definition struct_nf_tcp_net : ctype := CStruct false [
  fld "timeouts" (CArray (CInt false 4) 14);
  fld "tcp_loose" t_u8;
  fld "tcp_be_liberal" t_u8;
  fld "tcp_max_retrans" t_u8;
  fld "tcp_ignore_invalid_rst" t_u8;
  fld "offload_timeout" (CInt false 4)].

Definition struct_nf_udp_net : ctype := CStruct false [
  fld "timeouts" (CArray (CInt false 4) 2);
  fld "offload_timeout" (CInt false 4)].

Definition struct_nf_icmp_net : ctype := CStruct false [
  fld "timeout" (CInt false 4)].

Definition struct_nf_sctp_net : ctype := CStruct false [
  fld "timeouts" (CArray (CInt false 4) 10)].

Definition struct_nf_gre_net : ctype := CStruct false [
  fld "keymap_list" struct_list_head;
  fld "timeouts" (CArray (CInt false 4) 2)].

Definition struct_nf_ip_net : ctype := CStruct false [
  fld "generic" struct_nf_generic_net;
  fld "tcp" struct_nf_tcp_net;
  fld "udp" struct_nf_udp_net;
  fld "icmp" struct_nf_icmp_net;
  fld "icmpv6" struct_nf_icmp_net;
  fld "sctp" struct_nf_sctp_net;
  fld "gre" struct_nf_gre_net].

Definition struct_netns_ct : ctype := CStruct false [
  fld "ecache_dwork_pending" t_bool;
  fld "sysctl_log_invalid" t_u8;
  fld "sysctl_events" t_u8;
  fld "sysctl_acct" t_u8;
  fld "sysctl_tstamp" t_u8;
  fld "sysctl_checksum" t_u8;
  fld "stat" CPtr;
  fld "nf_conntrack_event_cb" CPtr;
  fld "nf_ct_proto" struct_nf_ip_net;
  fld "labels_used" t_atomic_t].

Definition struct_netns_nftables : ctype := CStruct false [
  fld "base_seq" (CInt false 4);
  fld "gencursor" t_u8].

Definition struct_netns_ft : ctype := CStruct false [
  fld "stat" CPtr].

Definition struct_netns_bpf : ctype := CStruct false [
  fld "run_array" (CArray CPtr 2);
  fld "progs" (CArray CPtr 2);
  fld "links" (CArray struct_list_head 2)].

Definition struct_xfrm_policy_hash : ctype := CStruct false [
  fld "table" CPtr;
  fld "hmask" (CInt false 4);
  fld "dbits4" t_u8;
  fld "sbits4" t_u8;
  fld "dbits6" t_u8;
  fld "sbits6" t_u8].

Definition struct_xfrm_policy_hthresh : ctype := CStruct false [
  fld "work" struct_work_struct;
  fld "lock" t_seqlock_t;
  fld "lbits4" t_u8;
  fld "rbits4" t_u8;
  fld "lbits6" t_u8;
  fld "rbits6" t_u8].

Definition struct_netns_xfrm : ctype := CStruct false [
  fld "state_all" struct_list_head;
  fld "state_bydst" CPtr;
  fld "state_bysrc" CPtr;
  fld "state_byspi" CPtr;
  fld "state_byseq" CPtr;
  fld "state_cache_input" CPtr;
  fld "state_hmask" (CInt false 4);
  fld "state_num" (CInt false 4);
  fld "state_hash_work" struct_work_struct;
  fld "policy_all" struct_list_head;
  fld "policy_byidx" CPtr;
  fld "policy_idx_hmask" (CInt false 4);
  fld "idx_generator" (CInt false 4);
  fld "policy_bydst" (CArray struct_xfrm_policy_hash 3);
  fld "policy_count" (CArray (CInt false 4) 6);
  fld "policy_hash_work" struct_work_struct;
  fld "policy_hthresh" struct_xfrm_policy_hthresh;
  fld "inexact_bins" struct_list_head;
  fld "nlsk" CPtr;
  fld "nlsk_stash" CPtr;
  fld "sysctl_aevent_etime" t_u32;
  fld "sysctl_aevent_rseqth" t_u32;
  fld "sysctl_larval_drop" (CInt true 4);
  fld "sysctl_acq_expires" t_u32;
  fld "policy_default" (CArray t_u8 3);
  fld "sysctl_hdr" CPtr;
  bits "" (CInt true 8) 64;
  bits "" (CInt true 8) 64;
  bits "" (CInt true 8) 64;
  bits "" (CInt true 8) 64;
  bits "" (CInt true 8) 64;
  fld "xfrm4_dst_ops" struct_dst_ops;
  fld "xfrm6_dst_ops" struct_dst_ops;
  fld "xfrm_state_lock" t_spinlock_t;
  fld "xfrm_state_hash_generation" t_seqcount_spinlock_t;
  fld "xfrm_policy_hash_generation" t_seqcount_spinlock_t;
  fld "xfrm_policy_lock" t_spinlock_t;
  fld "xfrm_cfg_mutex" struct_mutex;
  fld "nat_keepalive_work" struct_delayed_work;
  bits "" (CInt true 8) 64;
  bits "" (CInt true 8) 64;
  bits "" (CInt true 8) 64;
  bits "" (CInt true 8) 64;
  bits "" (CInt true 8) 64;
  bits "" (CInt true 8) 64;
  bits "" (CInt true 8) 64].

Definition t___kernel_ulong_t : ctype := CInt false 8.

Definition t___kernel_size_t : ctype := t___kernel_ulong_t.

Definition t_size_t : ctype := t___kernel_size_t.

Definition struct_seqcount_mutex : ctype := CStruct false [
  fld "seqcount" t_seqcount_t].

Definition t_seqcount_mutex_t : ctype := struct_seqcount_mutex.

Definition struct_netns_mpls : ctype := CStruct false [
  fld "ip_ttl_propagate" (CInt true 4);
  fld "default_ttl" (CInt true 4);
  fld "platform_labels" t_size_t;
  fld "platform_label" CPtr;
  fld "platform_mutex" struct_mutex;
  fld "platform_label_seq" t_seqcount_mutex_t;
  fld "ctl" CPtr].

Definition struct_netns_can : ctype := CStruct false [
  fld "proc_dir" CPtr;
  fld "pde_stats" CPtr;
  fld "pde_reset_stats" CPtr;
  fld "pde_rcvlist_all" CPtr;
  fld "pde_rcvlist_fil" CPtr;
  fld "pde_rcvlist_inv" CPtr;
  fld "pde_rcvlist_sff" CPtr;
  fld "pde_rcvlist_eff" CPtr;
  fld "pde_rcvlist_err" CPtr;
  fld "bcmproc_dir" CPtr;
  fld "rx_alldev_list" CPtr;
  fld "rcvlists_lock" t_spinlock_t;
  fld "stattimer" struct_timer_list;
  fld "pkg_stats" CPtr;
  fld "rcv_lists_stats" CPtr;
  fld "cgw_list" struct_hlist_head].

Definition struct_netns_xdp : ctype := CStruct false [
  fld "lock" struct_mutex;
  fld "list" struct_hlist_head].

Definition struct_netns_mctp : ctype := CStruct false [
  fld "routes" struct_list_head;
  fld "bind_lock" struct_mutex;
  fld "binds" (CArray struct_hlist_head 128);
  fld "keys_lock" t_spinlock_t;
  fld "keys" struct_hlist_head;
  fld "default_net" (CInt false 4);
  fld "neigh_lock" struct_mutex;
  fld "neighbours" struct_list_head].
