(* ===== verification/KTypes4.v ===== *)
(** bpf/vmlinux.h, part 4 of 6: the types of the kernel objects the probes touch,
    declared as there and in dependency order (see KernelMem). *)
From S2P Require Import Prelude CLayout KTypes1 KTypes2 KTypes3.

#[local] Open Scope string_scope.
#[local] Open Scope Z_scope.

Definition struct_netns_smc : ctype := CStruct false [
  fld "smc_stats" CPtr;
  fld "mutex_fback_rsn" struct_mutex;
  fld "fback_rsn" CPtr;
  fld "limit_smc_hs" t_bool;
  fld "smc_hdr" CPtr;
  fld "hs_ctrl" CPtr;
  fld "sysctl_autocorking_size" (CInt false 4);
  fld "sysctl_smcr_buf_type" (CInt false 4);
  fld "sysctl_smcr_testlink_time" (CInt true 4);
  fld "sysctl_wmem" (CInt true 4);
  fld "sysctl_rmem" (CInt true 4);
  fld "sysctl_max_links_per_lgr" (CInt true 4);
  fld "sysctl_max_conns_per_lgr" (CInt true 4);
  fld "sysctl_smcr_max_send_wr" (CInt false 4);
  fld "sysctl_smcr_max_recv_wr" (CInt false 4)].

Definition enum_vsock_net_mode : cenum := [
  ("VSOCK_NET_MODE_GLOBAL", 0);
  ("VSOCK_NET_MODE_LOCAL", 1)].

Definition struct_netns_vsock : ctype := CStruct false [
  fld "sysctl_hdr" CPtr;
  fld "port" t_u32;
  fld "mode" (enum_type enum_vsock_net_mode);
  fld "child_ns_mode" (enum_type enum_vsock_net_mode);
  fld "child_ns_mode_locked" (CInt true 4)].

Definition struct_net : ctype := CStruct false [
  fld "passive" t_refcount_t;
  fld "rules_mod_lock" t_spinlock_t;
  fld "dev_base_seq" (CInt false 4);
  fld "ifindex" t_u32;
  fld "nsid_lock" t_spinlock_t;
  fld "fnhe_genid" t_atomic_t;
  fld "list" struct_list_head;
  fld "exit_list" struct_list_head;
  fld "defer_free_list" struct_llist_node;
  fld "cleanup_list" struct_llist_node;
  fld "ptype_all" struct_list_head;
  fld "ptype_specific" struct_list_head;
  fld "key_domain" CPtr;
  fld "user_ns" CPtr;
  fld "ucounts" CPtr;
  fld "netns_ids" struct_idr;
  bits "" (CInt true 8) 64;
  bits "" (CInt true 8) 64;
  bits "" (CInt true 8) 64;
  bits "" (CInt true 8) 64;
  bits "" (CInt true 8) 64;
  fld "ns" struct_ns_common;
  fld "refcnt_tracker" struct_ref_tracker_dir;
  fld "notrefcnt_tracker" struct_ref_tracker_dir;
  fld "dev_base_head" struct_list_head;
  fld "proc_net" CPtr;
  fld "proc_net_stat" CPtr;
  fld "sysctls" struct_ctl_table_set;
  fld "rtnl" CPtr;
  fld "genl_sock" CPtr;
  fld "uevent_sock" CPtr;
  fld "dev_name_head" CPtr;
  fld "dev_index_head" CPtr;
  fld "dev_by_index" struct_xarray;
  fld "netdev_chain" struct_raw_notifier_head;
  fld "hash_mix" t_u32;
  fld "is_dying" t_bool;
  fld "loopback_dev" CPtr;
  fld "rules_ops" struct_list_head;
  fld "core" struct_netns_core;
  fld "mib" struct_netns_mib;
  fld "packet" struct_netns_packet;
  fld "unx" struct_netns_unix;
  fld "nexthop" struct_netns_nexthop;
  bits "" (CInt true 8) 64;
  bits "" (CInt true 8) 64;
  bits "" (CInt true 8) 64;
  bits "" (CInt true 8) 64;
  fld "ipv4" struct_netns_ipv4;
  fld "ipv6" struct_netns_ipv6;
  fld "ieee802154_lowpan" struct_netns_ieee802154_lowpan;
  fld "sctp" struct_netns_sctp;
  fld "nf" struct_netns_nf;
  fld "ct" struct_netns_ct;
  fld "nft" struct_netns_nftables;
  fld "ft" struct_netns_ft;
  fld "wext_nlevents" struct_sk_buff_head;
  fld "gen" CPtr;
  fld "bpf" struct_netns_bpf;
  bits "" (CInt true 8) 64;
  bits "" (CInt true 8) 64;
  bits "" (CInt true 8) 64;
  fld "xfrm" struct_netns_xfrm;
  fld "net_cookie" t_u64;
  fld "ipvs" CPtr;
  fld "mpls" struct_netns_mpls;
  fld "can" struct_netns_can;
  fld "xdp" struct_netns_xdp;
  fld "mctp" struct_netns_mctp;
  fld "crypto_nlsk" CPtr;
  fld "diag_nlsk" CPtr;
  fld "smc" struct_netns_smc;
  fld "vsock" struct_netns_vsock;
  bits "" (CInt true 8) 64;
  bits "" (CInt true 8) 64].

Definition struct_iovec : ctype := CStruct false [
  fld "iov_base" CPtr;
  fld "iov_len" t___kernel_size_t].

Definition struct_iov_iter : ctype := CStruct false [
  fld "iter_type" t_u8;
  fld "nofault" t_bool;
  fld "data_source" t_bool;
  fld "iov_offset" t_size_t;
  anon (CUnion false [
    fld "__ubuf_iovec" struct_iovec;
    anon (CStruct false [
      anon (CUnion false [
        fld "__iov" CPtr;
        fld "kvec" CPtr;
        fld "bvec" CPtr;
        fld "folioq" CPtr;
        fld "xarray" CPtr;
        fld "ubuf" CPtr]);
      fld "count" t_size_t])]);
  anon (CUnion false [
    fld "nr_segs" (CInt false 8);
    fld "folioq_slot" t_u8;
    fld "xarray_start" t_loff_t])].

Definition struct_msghdr : ctype := CStruct false [
  fld "msg_name" CPtr;
  fld "msg_namelen" (CInt true 4);
  fld "msg_inq" (CInt true 4);
  fld "msg_iter" struct_iov_iter;
  anon (CUnion false [
    fld "msg_control" CPtr;
    fld "msg_control_user" CPtr]);
  bits "msg_control_is_user" t_bool 1;
  bits "msg_get_inq" t_bool 1;
  fld "msg_flags" (CInt false 4);
  fld "msg_controllen" t___kernel_size_t;
  fld "msg_iocb" CPtr;
  fld "msg_ubuf" CPtr;
  fld "sg_from_iter" CPtr].

Definition struct_trace_entry : ctype := CStruct false [
  fld "type" (CInt false 2);
  fld "flags" (CInt false 1);
  fld "preempt_count" (CInt false 1);
  fld "pid" (CInt true 4)].

Definition struct_trace_event_raw_inet_sock_set_state : ctype := CStruct false [
  fld "ent" struct_trace_entry;
  fld "skaddr" CPtr;
  fld "oldstate" (CInt true 4);
  fld "newstate" (CInt true 4);
  fld "sport" t___u16;
  fld "dport" t___u16;
  fld "family" t___u16;
  fld "protocol" t___u16;
  fld "saddr" (CArray t___u8 4);
  fld "daddr" (CArray t___u8 4);
  fld "saddr_v6" (CArray t___u8 16);
  fld "daddr_v6" (CArray t___u8 16);
  fld "__data" (CArray (CInt true 1) 0)].

Definition struct_fred_cs : ctype := CStruct false [
  bits "cs" t_u64 16;
  bits "sl" t_u64 2;
  bits "wfe" t_u64 1].

Definition struct_fred_ss : ctype := CStruct false [
  bits "ss" t_u64 16;
  bits "sti" t_u64 1;
  bits "swevent" t_u64 1;
  bits "nmi" t_u64 1;
  bits "" (CInt true 4) 13;
  bits "vector" t_u64 8;
  bits "" (CInt true 2) 8;
  bits "type" t_u64 4;
  bits "" (CInt true 1) 4;
  bits "enclave" t_u64 1;
  bits "l" t_u64 1;
  bits "nested" t_u64 1;
  bits "" (CInt true 1) 1;
  bits "insnlen" t_u64 4].

Definition struct_pt_regs : ctype := CStruct false [
  fld "r15" (CInt false 8);
  fld "r14" (CInt false 8);
  fld "r13" (CInt false 8);
  fld "r12" (CInt false 8);
  fld "bp" (CInt false 8);
  fld "bx" (CInt false 8);
  fld "r11" (CInt false 8);
  fld "r10" (CInt false 8);
  fld "r9" (CInt false 8);
  fld "r8" (CInt false 8);
  fld "ax" (CInt false 8);
  fld "cx" (CInt false 8);
  fld "dx" (CInt false 8);
  fld "si" (CInt false 8);
  fld "di" (CInt false 8);
  fld "orig_ax" (CInt false 8);
  fld "ip" (CInt false 8);
  anon (CUnion false [
    fld "cs" t_u16;
    fld "csx" t_u64;
    fld "fred_cs" struct_fred_cs]);
  fld "flags" (CInt false 8);
  fld "sp" (CInt false 8);
  anon (CUnion false [
    fld "ss" t_u16;
    fld "ssx" t_u64;
    fld "fred_ss" struct_fred_ss])].

Definition struct_thread_info : ctype := CStruct false [
  fld "flags" (CInt false 8);
  fld "syscall_work" (CInt false 8);
  fld "status" t_u32;
  fld "cpu" t_u32].

Definition struct___call_single_node : ctype := CStruct false [
  fld "llist" struct_llist_node;
  anon (CUnion false [
    fld "u_flags" (CInt false 4);
    fld "a_flags" t_atomic_t]);
  fld "src" t_u16;
  fld "dst" t_u16].

Definition struct_load_weight : ctype := CStruct false [
  fld "weight" (CInt false 8);
  fld "inv_weight" t_u32].

Definition struct_sched_avg : ctype := CStruct false [
  fld "last_update_time" t_u64;
  fld "load_sum" t_u64;
  fld "runnable_sum" t_u64;
  fld "util_sum" t_u32;
  fld "period_contrib" t_u32;
  fld "load_avg" (CInt false 8);
  fld "runnable_avg" (CInt false 8);
  fld "util_avg" (CInt false 8);
  fld "util_est" (CInt false 4)].

Definition struct_sched_entity : ctype := CStruct false [
  fld "load" struct_load_weight;
  fld "run_node" struct_rb_node;
  fld "deadline" t_u64;
  fld "min_vruntime" t_u64;
  fld "min_slice" t_u64;
  fld "max_slice" t_u64;
  fld "group_node" struct_list_head;
  fld "on_rq" (CInt false 1);
  fld "sched_delayed" (CInt false 1);
  fld "rel_deadline" (CInt false 1);
  fld "custom_slice" (CInt false 1);
  fld "exec_start" t_u64;
  fld "sum_exec_runtime" t_u64;
  fld "prev_sum_exec_runtime" t_u64;
  fld "vruntime" t_u64;
  fld "vlag" t_s64;
  fld "vprot" t_u64;
  fld "slice" t_u64;
  fld "nr_migrations" t_u64;
  fld "depth" (CInt true 4);
  fld "parent" CPtr;
  fld "cfs_rq" CPtr;
  fld "my_q" CPtr;
  fld "runnable_weight" (CInt false 8);
  bits "" (CInt true 8) 64;
  bits "" (CInt true 8) 64;
  bits "" (CInt true 8) 64;
  bits "" (CInt true 8) 64;
  bits "" (CInt true 8) 64;
  bits "" (CInt true 8) 64;
  bits "" (CInt true 8) 64;
  fld "avg" struct_sched_avg].

Definition struct_sched_rt_entity : ctype := CStruct false [
  fld "run_list" struct_list_head;
  fld "timeout" (CInt false 8);
  fld "watchdog_stamp" (CInt false 8);
  fld "time_slice" (CInt false 4);
  fld "on_rq" (CInt false 2);
  fld "on_list" (CInt false 2);
  fld "back" CPtr].

Definition t_dl_server_pick_f : ctype := CPtr.

Definition struct_sched_dl_entity : ctype := CStruct false [
  fld "rb_node" struct_rb_node;
  fld "dl_runtime" t_u64;
  fld "dl_deadline" t_u64;
  fld "dl_period" t_u64;
  fld "dl_bw" t_u64;
  fld "dl_density" t_u64;
  fld "runtime" t_s64;
  fld "deadline" t_u64;
  fld "flags" (CInt false 4);
  bits "dl_throttled" (CInt false 4) 1;
  bits "dl_yielded" (CInt false 4) 1;
  bits "dl_non_contending" (CInt false 4) 1;
  bits "dl_overrun" (CInt false 4) 1;
  bits "dl_server" (CInt false 4) 1;
  bits "dl_server_active" (CInt false 4) 1;
  bits "dl_defer" (CInt false 4) 1;
  bits "dl_defer_armed" (CInt false 4) 1;
  bits "dl_defer_running" (CInt false 4) 1;
  bits "dl_defer_idle" (CInt false 4) 1;
  fld "dl_timer" struct_hrtimer;
  fld "inactive_timer" struct_hrtimer;
  fld "rq" CPtr;
  fld "server_pick_task" t_dl_server_pick_f;
  fld "pi_se" CPtr].

Definition struct_scx_dsq_list_node : ctype := CStruct false [
  fld "node" struct_list_head;
  fld "flags" t_u32;
  fld "priv" t_u32].

Definition t_s32 : ctype := t___s32.

Definition struct_sched_ext_entity : ctype := CStruct false [
  fld "dsq" CPtr;
  fld "dsq_list" struct_scx_dsq_list_node;
  fld "dsq_priq" struct_rb_node;
  fld "dsq_seq" t_u32;
  fld "dsq_flags" t_u32;
  fld "flags" t_u32;
  fld "weight" t_u32;
  fld "sticky_cpu" t_s32;
  fld "holding_cpu" t_s32;
  fld "selected_cpu" t_s32;
  fld "kf_mask" t_u32;
  fld "kf_tasks" (CArray CPtr 2);
  fld "ops_state" t_atomic_long_t;
  fld "runnable_node" struct_list_head;
  fld "runnable_at" (CInt false 8);
  fld "core_sched_at" t_u64;
  fld "ddsp_dsq_id" t_u64;
  fld "ddsp_enq_flags" t_u64;
  fld "slice" t_u64;
  fld "dsq_vtime" t_u64;
  fld "disallow" t_bool;
  fld "cgrp_moving_from" CPtr;
  fld "tasks_node" struct_list_head].

Definition struct_uclamp_se : ctype := CStruct false [
  bits "value" (CInt false 4) 11;
  bits "bucket_id" (CInt false 4) 3;
  bits "active" (CInt false 4) 1;
  bits "user_defined" (CInt false 4) 1].

Definition struct_sched_statistics : ctype := CStruct false [
  fld "wait_start" t_u64;
  fld "wait_max" t_u64;
  fld "wait_count" t_u64;
  fld "wait_sum" t_u64;
  fld "iowait_count" t_u64;
  fld "iowait_sum" t_u64;
  fld "sleep_start" t_u64;
  fld "sleep_max" t_u64;
  fld "sum_sleep_runtime" t_s64;
  fld "block_start" t_u64;
  fld "block_max" t_u64;
  fld "sum_block_runtime" t_s64;
  fld "exec_max" t_s64;
  fld "slice_max" t_u64;
  fld "nr_migrations_cold" t_u64;
  fld "nr_failed_migrations_affine" t_u64;
  fld "nr_failed_migrations_running" t_u64;
  fld "nr_failed_migrations_hot" t_u64;
  fld "nr_forced_migrations" t_u64;
  fld "nr_wakeups" t_u64;
  fld "nr_wakeups_sync" t_u64;
  fld "nr_wakeups_migrate" t_u64;
  fld "nr_wakeups_local" t_u64;
  fld "nr_wakeups_remote" t_u64;
  fld "nr_wakeups_affine" t_u64;
  fld "nr_wakeups_affine_attempts" t_u64;
  fld "nr_wakeups_passive" t_u64;
  fld "nr_wakeups_idle" t_u64;
  fld "core_forceidle_sum" t_u64;
  bits "" (CInt true 8) 64;
  bits "" (CInt true 8) 64;
  bits "" (CInt true 8) 64].

Definition struct_cpumask : ctype := CStruct false [
  fld "bits" (CArray (CInt false 8) 128)].

Definition t_cpumask_t : ctype := struct_cpumask.

Definition struct_timespec64 : ctype := CStruct false [
  fld "tv_sec" t_time64_t;
  fld "tv_nsec" (CInt true 8)].

Definition struct_sched_info : ctype := CStruct false [
  fld "pcount" (CInt false 8);
  fld "run_delay" (CInt false 8);
  fld "max_run_delay" (CInt false 8);
  fld "min_run_delay" (CInt false 8);
  fld "last_arrival" (CInt false 8);
  fld "last_queued" (CInt false 8);
  fld "max_run_delay_ts" struct_timespec64].

Definition struct_plist_node : ctype := CStruct false [
  fld "prio" (CInt true 4);
  fld "prio_list" struct_list_head;
  fld "node_list" struct_list_head].

Definition t___kernel_clockid_t : ctype := CInt true 4.

Definition t_clockid_t : ctype := t___kernel_clockid_t.

Definition enum_timespec_type : cenum := [
  ("TT_NONE", 0);
  ("TT_NATIVE", 1);
  ("TT_COMPAT", 2)].

Definition struct_restart_block : ctype := CStruct false [
  fld "arch_data" (CInt false 8);
  fld "fn" CPtr;
  anon (CUnion false [
    fld "futex" (CStruct false [
      fld "uaddr" CPtr;
      fld "val" t_u32;
      fld "flags" t_u32;
      fld "bitset" t_u32;
      fld "time" t_ktime_t;
      fld "uaddr2" CPtr]);
    fld "nanosleep" (CStruct false [
      fld "clockid" t_clockid_t;
      fld "type" (enum_type enum_timespec_type);
      anon (CUnion false [
        fld "rmtp" CPtr;
        fld "compat_rmtp" CPtr]);
      fld "expires" t_ktime_t]);
    fld "poll" (CStruct false [
      fld "ufds" CPtr;
      fld "nfds" (CInt true 4);
      fld "has_timeout" (CInt true 4);
      fld "end_time" struct_timespec64])])].

Definition t___kernel_pid_t : ctype := CInt true 4.

Definition t_pid_t : ctype := t___kernel_pid_t.

Definition struct_prev_cputime : ctype := CStruct false [
  fld "utime" t_u64;
  fld "stime" t_u64;
  fld "lock" t_raw_spinlock_t].

Definition enum_vtime_state : cenum := [
  ("VTIME_INACTIVE", 0);
  ("VTIME_IDLE", 1);
  ("VTIME_SYS", 2);
  ("VTIME_USER", 3);
  ("VTIME_GUEST", 4)].

Definition struct_vtime : ctype := CStruct false [
  fld "seqcount" t_seqcount_t;
  fld "starttime" (CInt false 8);
  fld "state" (enum_type enum_vtime_state);
  fld "cpu" (CInt false 4);
  fld "utime" t_u64;
  fld "stime" t_u64;
  fld "gtime" t_u64].

Definition struct_timerqueue_head : ctype := CStruct false [
  fld "rb_root" struct_rb_root_cached].

Definition struct_posix_cputimer_base : ctype := CStruct false [
  fld "nextevt" t_u64;
  fld "tqhead" struct_timerqueue_head].

Definition struct_posix_cputimers : ctype := CStruct false [
  fld "bases" (CArray struct_posix_cputimer_base 3);
  fld "timers_active" (CInt false 4);
  fld "expiry_active" (CInt false 4)].

Definition struct_posix_cputimers_work : ctype := CStruct false [
  fld "work" struct_callback_head;
  fld "mutex" struct_mutex;
  fld "scheduled" (CInt false 4)].

Definition struct_sysv_sem : ctype := CStruct false [
  fld "undo_list" CPtr].

Definition struct_sysv_shm : ctype := CStruct false [
  fld "shm_clist" struct_list_head].

Definition t_sigset_t : ctype := CStruct false [
  fld "sig" (CArray (CInt false 8) 1)].

Definition struct_sigpending : ctype := CStruct false [
  fld "list" struct_list_head;
  fld "signal" t_sigset_t].

Definition struct_seccomp : ctype := CStruct false [
  fld "mode" (CInt true 4);
  fld "filter_count" t_atomic_t;
  fld "filter" CPtr].

Definition struct_syscall_user_dispatch : ctype := CStruct false [
  fld "selector" CPtr;
  fld "offset" (CInt false 8);
  fld "len" (CInt false 8);
  fld "on_dispatch" t_bool].

Definition struct_wake_q_node : ctype := CStruct false [
  fld "next" CPtr].

Definition struct_task_io_accounting : ctype := CStruct false [
  fld "rchar" t_u64;
  fld "wchar" t_u64;
  fld "syscr" t_u64;
  fld "syscw" t_u64;
  fld "read_bytes" t_u64;
  fld "write_bytes" t_u64;
  fld "cancelled_write_bytes" t_u64].

Definition t_nodemask_t : ctype := CStruct false [
  fld "bits" (CArray (CInt false 8) 16)].

Definition struct_rseq_event : ctype := CStruct false [
  anon (CUnion false [
    fld "all" t_u64;
    anon (CStruct false [
      anon (CUnion false [
        fld "events" t_u32;
        anon (CStruct false [
          fld "sched_switch" t_u8;
          fld "ids_changed" t_u8;
          fld "user_irq" t_u8])]);
      fld "has_rseq" t_u8;
      fld "__pad" t_u8;
      anon (CUnion false [
        fld "error" t_u16;
        anon (CStruct false [
          fld "fatal" t_u8;
          fld "slowpath" t_u8])])])])].

Definition struct_rseq_ids : ctype := CStruct false [
  anon (CUnion false [
    fld "cpu_cid" t_u64;
    anon (CStruct false [
      fld "cpu_id" t_u32;
      fld "mm_cid" t_u32])])].

Definition struct_rseq_data : ctype := CStruct false [
  fld "usrptr" CPtr;
  fld "len" t_u32;
  fld "sig" t_u32;
  fld "event" struct_rseq_event;
  fld "ids" struct_rseq_ids].

Definition struct_sched_mm_cid : ctype := CStruct false [
  fld "active" (CInt false 4);
  fld "cid" (CInt false 4);
  fld "node" struct_hlist_node].

Definition struct_arch_tlbflush_unmap_batch : ctype := CStruct false [
  fld "cpumask" struct_cpumask;
  fld "unmapped_pages" t_bool].

Definition struct_tlbflush_unmap_batch : ctype := CStruct false [
  fld "arch" struct_arch_tlbflush_unmap_batch;
  fld "flush_required" t_bool;
  fld "writable" t_bool].

Definition struct_lazy_mmu_state : ctype := CStruct false [
  fld "enable_count" t_u8;
  fld "pause_count" t_u8].

Definition struct_latency_record : ctype := CStruct false [
  fld "backtrace" (CArray (CInt false 8) 12);
  fld "count" (CInt false 4);
  fld "time" (CInt false 8);
  fld "max" (CInt false 8)].

Definition struct_kmap_ctrl : ctype := CStruct false [
].

Definition struct_llist_head : ctype := CStruct false [
  fld "first" CPtr].

Definition struct_da_monitor : ctype := CStruct false [
  fld "monitoring" t_bool;
  fld "curr_state" (CInt false 4)].

Definition struct_ltl_monitor : ctype := CStruct false [
].

Definition union_rv_task_monitor : ctype := CUnion false [
  fld "da_mon" struct_da_monitor;
  fld "ltl_mon" struct_ltl_monitor].

Definition union_unwind_task_id : ctype := CUnion false [
  anon (CStruct false [
    fld "cpu" t_u32;
    fld "cnt" t_u32]);
  fld "id" t_u64].

Definition struct_unwind_task_info : ctype := CStruct false [
  fld "unwind_mask" t_atomic_long_t;
  fld "cache" CPtr;
  fld "work" struct_callback_head;
  fld "id" union_unwind_task_id].

Definition struct_desc_struct : ctype := CStruct false [
  fld "limit0" t_u16;
  fld "base0" t_u16;
  bits "base1" t_u16 8;
  bits "type" t_u16 4;
  bits "s" t_u16 1;
  bits "dpl" t_u16 2;
  bits "p" t_u16 1;
  bits "limit1" t_u16 4;
  bits "avl" t_u16 1;
  bits "l" t_u16 1;
  bits "d" t_u16 1;
  bits "g" t_u16 1;
  bits "base2" t_u16 8].

Definition struct_thread_shstk : ctype := CStruct false [
  fld "base" t_u64;
  fld "size" t_u64].

Definition struct_thread_struct : ctype := CStruct false [
  fld "tls_array" (CArray struct_desc_struct 3);
  fld "sp" (CInt false 8);
  fld "es" (CInt false 2);
  fld "ds" (CInt false 2);
  fld "fsindex" (CInt false 2);
  fld "gsindex" (CInt false 2);
  fld "fsbase" (CInt false 8);
  fld "gsbase" (CInt false 8);
  fld "ptrace_bps" (CArray CPtr 4);
  fld "virtual_dr6" (CInt false 8);
  fld "ptrace_dr7" (CInt false 8);
  fld "cr2" (CInt false 8);
  fld "trap_nr" (CInt false 8);
  fld "error_code" (CInt false 8);
  fld "io_bitmap" CPtr;
  fld "iopl_emul" (CInt false 8);
  bits "iopl_warn" (CInt false 4) 1;
  fld "pkru" t_u32;
  fld "features" (CInt false 8);
  fld "features_locked" (CInt false 8);
  fld "shstk" struct_thread_shstk].
