(* ===== verification/KTypes5.v ===== *)
(** bpf/vmlinux.h, part 5 of 6: the types of the kernel objects the probes touch,
    declared as there and in dependency order (see KernelMem). *)
From S2P Require Import Prelude CLayout KTypes1 KTypes2 KTypes3 KTypes4.

#[local] Open Scope string_scope.
#[local] Open Scope Z_scope.

Definition struct_task_struct_part1 : list field := [
  fld "thread_info" struct_thread_info;
  fld "__state" (CInt false 4);
  fld "saved_state" (CInt false 4);
  fld "stack" CPtr;
  fld "usage" t_refcount_t;
  fld "flags" (CInt false 4);
  fld "ptrace" (CInt false 4);
  fld "on_cpu" (CInt true 4);
  fld "wake_entry" struct___call_single_node;
  fld "wakee_flips" (CInt false 4);
  fld "wakee_flip_decay_ts" (CInt false 8);
  fld "last_wakee" CPtr;
  fld "recent_used_cpu" (CInt true 4);
  fld "wake_cpu" (CInt true 4);
  fld "on_rq" (CInt true 4);
  fld "prio" (CInt true 4);
  fld "static_prio" (CInt true 4);
  fld "normal_prio" (CInt true 4);
  fld "rt_priority" (CInt false 4);
  fld "se" struct_sched_entity;
  fld "rt" struct_sched_rt_entity;
  fld "dl" struct_sched_dl_entity;
  fld "dl_server" CPtr;
  fld "scx" struct_sched_ext_entity;
  fld "sched_class" CPtr;
  fld "core_node" struct_rb_node;
  fld "core_cookie" (CInt false 8);
  fld "core_occupation" (CInt false 4);
  fld "sched_task_group" CPtr;
  fld "sched_throttle_work" struct_callback_head;
  fld "throttle_node" struct_list_head;
  fld "throttled" t_bool;
  fld "uclamp_req" (CArray struct_uclamp_se 2);
  fld "uclamp" (CArray struct_uclamp_se 2);
  bits "" (CInt true 8) 64;
  bits "" (CInt true 8) 64;
  bits "" (CInt true 8) 64;
  fld "stats" struct_sched_statistics;
  fld "preempt_notifiers" struct_hlist_head;
  fld "btrace_seq" (CInt false 4);
  fld "policy" (CInt false 4);
  fld "max_allowed_capacity" (CInt false 8);
  fld "nr_cpus_allowed" (CInt true 4);
  fld "cpus_ptr" CPtr;
  fld "user_cpus_ptr" CPtr;
  fld "cpus_mask" t_cpumask_t;
  fld "migration_pending" CPtr;
  fld "migration_disabled" (CInt false 2);
  fld "migration_flags" (CInt false 2);
  fld "rcu_tasks_nvcsw" (CInt false 8);
  fld "rcu_tasks_holdout" t_u8;
  fld "rcu_tasks_idx" t_u8;
  fld "rcu_tasks_idle_cpu" (CInt true 4);
  fld "rcu_tasks_holdout_list" struct_list_head;
  fld "rcu_tasks_exit_cpu" (CInt true 4);
  fld "rcu_tasks_exit_list" struct_list_head;
  fld "trc_reader_nesting" (CInt true 4);
  fld "trc_reader_scp" CPtr;
  fld "sched_info" struct_sched_info;
  fld "tasks" struct_list_head;
  fld "pushable_tasks" struct_plist_node;
  fld "pushable_dl_tasks" struct_rb_node;
  fld "mm" CPtr;
  fld "active_mm" CPtr;
  fld "exit_state" (CInt true 4);
  fld "exit_code" (CInt true 4);
  fld "exit_signal" (CInt true 4);
  fld "pdeath_signal" (CInt true 4);
  fld "jobctl" (CInt false 8);
  fld "personality" (CInt false 4);
  bits "sched_reset_on_fork" (CInt false 4) 1;
  bits "sched_contributes_to_load" (CInt false 4) 1;
  bits "sched_migrated" (CInt false 4) 1;
  bits "sched_task_hot" (CInt false 4) 1;
  bits "" (CInt true 8) 28;
  bits "sched_remote_wakeup" (CInt false 4) 1;
  bits "sched_rt_mutex" (CInt false 4) 1;
  bits "in_execve" (CInt false 4) 1;
  bits "in_iowait" (CInt false 4) 1;
  bits "restore_sigmask" (CInt false 4) 1;
  bits "in_lru_fault" (CInt false 4) 1;
  bits "no_cgroup_migration" (CInt false 4) 1;
  bits "frozen" (CInt false 4) 1;
  bits "use_memdelay" (CInt false 4) 1;
  bits "in_memstall" (CInt false 4) 1;
  bits "in_eventfd" (CInt false 4) 1;
  bits "pasid_activated" (CInt false 4) 1;
  bits "reported_split_lock" (CInt false 4) 1;
  bits "in_thrashing" (CInt false 4) 1;
  bits "in_nf_duplicate" (CInt false 4) 1;
  fld "atomic_flags" (CInt false 8)].

Definition struct_task_struct_part2 : list field := [
  fld "restart_block" struct_restart_block;
  fld "pid" t_pid_t;
  fld "tgid" t_pid_t;
  fld "stack_canary" (CInt false 8);
  fld "real_parent" CPtr;
  fld "parent" CPtr;
  fld "children" struct_list_head;
  fld "sibling" struct_list_head;
  fld "group_leader" CPtr;
  fld "ptraced" struct_list_head;
  fld "ptrace_entry" struct_list_head;
  fld "thread_pid" CPtr;
  fld "pid_links" (CArray struct_hlist_node 4);
  fld "thread_node" struct_list_head;
  fld "vfork_done" CPtr;
  fld "set_child_tid" CPtr;
  fld "clear_child_tid" CPtr;
  fld "worker_private" CPtr;
  fld "utime" t_u64;
  fld "stime" t_u64;
  fld "gtime" t_u64;
  fld "prev_cputime" struct_prev_cputime;
  fld "vtime" struct_vtime;
  fld "tick_dep_mask" t_atomic_t;
  fld "nvcsw" (CInt false 8);
  fld "nivcsw" (CInt false 8);
  fld "start_time" t_u64;
  fld "start_boottime" t_u64;
  fld "min_flt" (CInt false 8);
  fld "maj_flt" (CInt false 8);
  fld "posix_cputimers" struct_posix_cputimers;
  fld "posix_cputimers_work" struct_posix_cputimers_work;
  fld "ptracer_cred" CPtr;
  fld "real_cred" CPtr;
  fld "cred" CPtr;
  fld "cached_requested_key" CPtr;
  fld "comm" (CArray (CInt true 1) 16);
  fld "nameidata" CPtr;
  fld "sysvsem" struct_sysv_sem;
  fld "sysvshm" struct_sysv_shm;
  fld "last_switch_count" (CInt false 8);
  fld "last_switch_time" (CInt false 8);
  fld "fs" CPtr;
  fld "files" CPtr;
  fld "io_uring" CPtr;
  fld "io_uring_restrict" CPtr;
  fld "nsproxy" CPtr;
  fld "signal" CPtr;
  fld "sighand" CPtr;
  fld "blocked" t_sigset_t;
  fld "real_blocked" t_sigset_t;
  fld "saved_sigmask" t_sigset_t;
  fld "pending" struct_sigpending;
  fld "sas_ss_sp" (CInt false 8);
  fld "sas_ss_size" t_size_t;
  fld "sas_ss_flags" (CInt false 4);
  fld "task_works" CPtr;
  fld "audit_context" CPtr;
  fld "loginuid" t_kuid_t;
  fld "sessionid" (CInt false 4);
  fld "seccomp" struct_seccomp;
  fld "syscall_dispatch" struct_syscall_user_dispatch;
  fld "parent_exec_id" t_u64;
  fld "self_exec_id" t_u64;
  fld "alloc_lock" t_spinlock_t;
  fld "pi_lock" t_raw_spinlock_t;
  fld "wake_q" struct_wake_q_node;
  fld "pi_waiters" struct_rb_root_cached;
  fld "pi_top_task" CPtr;
  fld "pi_blocked_on" CPtr;
  fld "blocked_on" CPtr;
  fld "blocker" (CInt false 8);
  fld "in_ubsan" (CInt false 4);
  fld "journal_info" CPtr;
  fld "bio_list" CPtr;
  fld "plug" CPtr;
  fld "reclaim_state" CPtr;
  fld "io_context" CPtr;
  fld "capture_control" CPtr;
  fld "ptrace_message" (CInt false 8);
  fld "last_siginfo" CPtr;
  fld "ioac" struct_task_io_accounting;
  fld "psi_flags" (CInt false 4);
  fld "acct_rss_mem1" t_u64;
  fld "acct_vm_mem1" t_u64;
  fld "acct_timexpd" t_u64;
  fld "mems_allowed" t_nodemask_t;
  fld "mems_allowed_seq" t_seqcount_spinlock_t;
  fld "cpuset_mem_spread_rotor" (CInt true 4);
  fld "cgroups" CPtr;
  fld "cg_list" struct_list_head].

Definition struct_task_struct_part3 : list field := [
  fld "closid" t_u32;
  fld "rmid" t_u32;
  fld "robust_list" CPtr;
  fld "compat_robust_list" CPtr;
  fld "pi_state_list" struct_list_head;
  fld "pi_state_cache" CPtr;
  fld "futex_exit_mutex" struct_mutex;
  fld "futex_state" (CInt false 4);
  fld "perf_recursion" (CArray t_u8 4);
  fld "perf_event_ctxp" CPtr;
  fld "perf_event_mutex" struct_mutex;
  fld "perf_event_list" struct_list_head;
  fld "perf_ctx_data" CPtr;
  fld "mempolicy" CPtr;
  fld "il_prev" (CInt true 2);
  fld "il_weight" t_u8;
  fld "pref_node_fork" (CInt true 2);
  fld "numa_scan_seq" (CInt true 4);
  fld "numa_scan_period" (CInt false 4);
  fld "numa_scan_period_max" (CInt false 4);
  fld "numa_preferred_nid" (CInt true 4);
  fld "numa_migrate_retry" (CInt false 8);
  fld "node_stamp" t_u64;
  fld "last_task_numa_placement" t_u64;
  fld "last_sum_exec_runtime" t_u64;
  fld "numa_work" struct_callback_head;
  fld "numa_group" CPtr;
  fld "numa_faults" CPtr;
  fld "total_numa_faults" (CInt false 8);
  fld "numa_faults_locality" (CArray (CInt false 8) 3);
  fld "numa_pages_migrated" (CInt false 8);
  fld "rseq" struct_rseq_data;
  fld "mm_cid" struct_sched_mm_cid;
  fld "tlb_ubc" struct_tlbflush_unmap_batch;
  fld "splice_pipe" CPtr;
  fld "task_frag" struct_page_frag;
  fld "lazy_mmu_state" struct_lazy_mmu_state;
  fld "delays" CPtr;
  fld "nr_dirtied" (CInt true 4);
  fld "nr_dirtied_pause" (CInt true 4);
  fld "dirty_paused_when" (CInt false 8);
  fld "latency_record_count" (CInt true 4);
  fld "latency_record" (CArray struct_latency_record 32);
  fld "timer_slack_ns" t_u64;
  fld "default_timer_slack_ns" t_u64;
  fld "curr_ret_stack" (CInt true 4);
  fld "curr_ret_depth" (CInt true 4);
  fld "ret_stack" CPtr;
  fld "ftrace_timestamp" (CInt false 8);
  fld "ftrace_sleeptime" (CInt false 8);
  fld "trace_overrun" t_atomic_t;
  fld "tracing_graph_pause" t_atomic_t;
  fld "trace_recursion" (CInt false 8);
  fld "memcg_nr_pages_over_high" (CInt false 4);
  fld "active_memcg" CPtr;
  fld "objcg" CPtr;
  fld "throttle_disk" CPtr;
  fld "utask" CPtr;
  fld "sequential_io" (CInt false 4);
  fld "sequential_io_avg" (CInt false 4);
  fld "kmap_ctrl" struct_kmap_ctrl;
  fld "rcu" struct_callback_head;
  fld "rcu_users" t_refcount_t;
  fld "pagefault_disabled" (CInt true 4);
  fld "oom_reaper_list" CPtr;
  fld "oom_reaper_timer" struct_timer_list;
  fld "stack_vm_area" CPtr;
  fld "stack_refcount" t_refcount_t;
  fld "patch_state" (CInt true 4);
  fld "security" CPtr;
  fld "bpf_storage" CPtr;
  fld "bpf_ctx" CPtr;
  fld "bpf_net_context" CPtr;
  fld "mce_vaddr" CPtr;
  fld "mce_kflags" t___u64;
  fld "mce_addr" t_u64;
  bits "mce_ripv" t___u64 1;
  bits "mce_whole_page" t___u64 1;
  bits "__mce_reserved" t___u64 62;
  fld "mce_kill_me" struct_callback_head;
  fld "mce_count" (CInt true 4);
  fld "kretprobe_instances" struct_llist_head;
  fld "rethooks" struct_llist_head;
  fld "l1d_flush_kill" struct_callback_head;
  fld "rv" (CArray union_rv_task_monitor 2);
  fld "user_event_mm" CPtr;
  fld "unwind_info" struct_unwind_task_info;
  fld "thread" struct_thread_struct;
  bits "" (CInt true 8) 64;
  bits "" (CInt true 8) 64;
  bits "" (CInt true 8) 64].

Definition struct_task_struct : ctype := CStruct false (struct_task_struct_part1 ++ struct_task_struct_part2 ++ struct_task_struct_part3).

Definition enum_bpf_map_type : cenum := [
  ("BPF_MAP_TYPE_UNSPEC", 0);
  ("BPF_MAP_TYPE_HASH", 1);
  ("BPF_MAP_TYPE_ARRAY", 2);
  ("BPF_MAP_TYPE_PROG_ARRAY", 3);
  ("BPF_MAP_TYPE_PERF_EVENT_ARRAY", 4);
  ("BPF_MAP_TYPE_PERCPU_HASH", 5);
  ("BPF_MAP_TYPE_PERCPU_ARRAY", 6);
  ("BPF_MAP_TYPE_STACK_TRACE", 7);
  ("BPF_MAP_TYPE_CGROUP_ARRAY", 8);
  ("BPF_MAP_TYPE_LRU_HASH", 9);
  ("BPF_MAP_TYPE_LRU_PERCPU_HASH", 10);
  ("BPF_MAP_TYPE_LPM_TRIE", 11);
  ("BPF_MAP_TYPE_ARRAY_OF_MAPS", 12);
  ("BPF_MAP_TYPE_HASH_OF_MAPS", 13);
  ("BPF_MAP_TYPE_DEVMAP", 14);
  ("BPF_MAP_TYPE_SOCKMAP", 15);
  ("BPF_MAP_TYPE_CPUMAP", 16);
  ("BPF_MAP_TYPE_XSKMAP", 17);
  ("BPF_MAP_TYPE_SOCKHASH", 18);
  ("BPF_MAP_TYPE_CGROUP_STORAGE_DEPRECATED", 19);
  ("BPF_MAP_TYPE_CGROUP_STORAGE", 19);
  ("BPF_MAP_TYPE_REUSEPORT_SOCKARRAY", 20);
  ("BPF_MAP_TYPE_PERCPU_CGROUP_STORAGE_DEPRECATED", 21);
  ("BPF_MAP_TYPE_PERCPU_CGROUP_STORAGE", 21);
  ("BPF_MAP_TYPE_QUEUE", 22);
  ("BPF_MAP_TYPE_STACK", 23);
  ("BPF_MAP_TYPE_SK_STORAGE", 24);
  ("BPF_MAP_TYPE_DEVMAP_HASH", 25);
  ("BPF_MAP_TYPE_STRUCT_OPS", 26);
  ("BPF_MAP_TYPE_RINGBUF", 27);
  ("BPF_MAP_TYPE_INODE_STORAGE", 28);
  ("BPF_MAP_TYPE_TASK_STORAGE", 29);
  ("BPF_MAP_TYPE_BLOOM_FILTER", 30);
  ("BPF_MAP_TYPE_USER_RINGBUF", 31);
  ("BPF_MAP_TYPE_CGRP_STORAGE", 32);
  ("BPF_MAP_TYPE_ARENA", 33);
  ("BPF_MAP_TYPE_INSN_ARRAY", 34);
  ("__MAX_BPF_MAP_TYPE", 35)].

Definition struct_bpf_map : ctype := CStruct false [
  fld "sha" (CArray t_u8 32);
  fld "ops" CPtr;
  fld "inner_map_meta" CPtr;
  fld "security" CPtr;
  fld "map_type" (enum_type enum_bpf_map_type);
  fld "key_size" t_u32;
  fld "value_size" t_u32;
  fld "max_entries" t_u32;
  fld "map_extra" t_u64;
  fld "map_flags" t_u32;
  fld "id" t_u32;
  fld "record" CPtr;
  fld "numa_node" (CInt true 4);
  fld "btf_key_type_id" t_u32;
  fld "btf_value_type_id" t_u32;
  fld "btf_vmlinux_value_type_id" t_u32;
  fld "btf" CPtr;
  fld "objcg" CPtr;
  fld "name" (CArray (CInt true 1) 16);
  fld "freeze_mutex" struct_mutex;
  fld "refcnt" t_atomic64_t;
  fld "usercnt" t_atomic64_t;
  anon (CUnion false [
    fld "work" struct_work_struct;
    fld "rcu" struct_callback_head]);
  fld "writecnt" t_atomic64_t;
  fld "owner_lock" t_spinlock_t;
  fld "owner" CPtr;
  fld "bypass_spec_v1" t_bool;
  fld "frozen" t_bool;
  fld "free_after_mult_rcu_gp" t_bool;
  fld "free_after_rcu_gp" t_bool;
  fld "sleepable_refcnt" t_atomic64_t;
  fld "elem_count" CPtr;
  fld "cookie" t_u64;
  fld "excl_prog_sha" CPtr].

Definition struct_bpf_mem_alloc : ctype := CStruct false [
  fld "caches" CPtr;
  fld "cache" CPtr;
  fld "objcg" CPtr;
  fld "percpu" t_bool;
  fld "work" struct_work_struct;
  fld "dtor_ctx_free" CPtr;
  fld "dtor_ctx" CPtr].

Definition struct_pcpu_freelist : ctype := CStruct false [
  fld "freelist" CPtr].

Definition struct_bpf_lru_list : ctype := CStruct false [
  fld "lists" (CArray struct_list_head 3);
  fld "counts" (CArray (CInt false 4) 2);
  fld "next_inactive_rotation" CPtr;
  fld "lock" t_raw_spinlock_t;
  bits "" (CInt true 8) 64;
  bits "" (CInt true 8) 64;
  bits "" (CInt true 8) 64;
  bits "" (CInt true 8) 64;
  bits "" (CInt true 8) 64;
  bits "" (CInt true 8) 64;
  bits "" (CInt true 8) 64].

Definition struct_bpf_common_lru : ctype := CStruct false [
  fld "lru_list" struct_bpf_lru_list;
  fld "local_list" CPtr;
  bits "" (CInt true 8) 64;
  bits "" (CInt true 8) 64;
  bits "" (CInt true 8) 64;
  bits "" (CInt true 8) 64;
  bits "" (CInt true 8) 64;
  bits "" (CInt true 8) 64;
  bits "" (CInt true 8) 64].

Definition t_del_from_htab_func : ctype := CPtr.

Definition struct_bpf_lru : ctype := CStruct false [
  anon (CUnion false [
    fld "common_lru" struct_bpf_common_lru;
    fld "percpu_lru" CPtr]);
  fld "del_from_htab" t_del_from_htab_func;
  fld "del_arg" CPtr;
  fld "hash_offset" (CInt false 4);
  fld "target_free" (CInt false 4);
  fld "nr_scans" (CInt false 4);
  fld "percpu" t_bool;
  bits "" (CInt true 8) 64;
  bits "" (CInt true 8) 64;
  bits "" (CInt true 8) 64;
  bits "" (CInt true 8) 64].

Definition struct_bpf_htab : ctype := CStruct false [
  fld "map" struct_bpf_map;
  fld "ma" struct_bpf_mem_alloc;
  fld "pcpu_ma" struct_bpf_mem_alloc;
  fld "buckets" CPtr;
  fld "elems" CPtr;
  bits "" (CInt true 8) 64;
  bits "" (CInt true 8) 64;
  bits "" (CInt true 8) 64;
  bits "" (CInt true 8) 64;
  bits "" (CInt true 8) 64;
  bits "" (CInt true 8) 64;
  anon (CUnion false [
    fld "freelist" struct_pcpu_freelist;
    fld "lru" struct_bpf_lru]);
  fld "extra_elems" CPtr;
  fld "pcount" struct_percpu_counter;
  fld "count" t_atomic_t;
  fld "use_percpu_counter" t_bool;
  fld "n_buckets" t_u32;
  fld "elem_size" t_u32;
  fld "hashrnd" t_u32;
  bits "" (CInt true 8) 64;
  bits "" (CInt true 8) 64;
  bits "" (CInt true 8) 64;
  bits "" (CInt true 8) 64;
  bits "" (CInt true 8) 64;
  bits "" (CInt true 8) 64;
  bits "" (CInt true 8) 64].

Definition struct_bpf_ringbuf_map : ctype := CStruct false [
  fld "map" struct_bpf_map;
  fld "rb" CPtr].

Definition t_kprobe_pre_handler_t : ctype := CPtr.

Definition t_kprobe_post_handler_t : ctype := CPtr.

Definition t_kprobe_opcode_t : ctype := t_u8.

Definition struct_arch_specific_insn : ctype := CStruct false [
  fld "insn" CPtr;
  bits "boostable" (CInt false 4) 1;
  fld "size" (CInt false 1);
  anon (CUnion false [
    fld "opcode" (CInt false 1);
    fld "jcc" (CStruct false [
      fld "type" (CInt false 1)]);
    fld "loop" (CStruct false [
      fld "type" (CInt false 1);
      fld "asize" (CInt false 1)]);
    fld "indirect" (CStruct false [
      fld "reg" (CInt false 1)])]);
  fld "rel32" t_s32;
  fld "emulate_op" CPtr;
  fld "tp_len" (CInt true 4)].

Definition struct_kprobe : ctype := CStruct false [
  fld "hlist" struct_hlist_node;
  fld "list" struct_list_head;
  fld "nmissed" (CInt false 8);
  fld "addr" CPtr;
  fld "symbol_name" CPtr;
  fld "offset" (CInt false 4);
  fld "pre_handler" t_kprobe_pre_handler_t;
  fld "post_handler" t_kprobe_post_handler_t;
  fld "opcode" t_kprobe_opcode_t;
  fld "ainsn" struct_arch_specific_insn;
  fld "flags" t_u32].

Definition struct_arch_uprobe : ctype := CStruct false [
  anon (CUnion false [
    fld "insn" (CArray t_u8 16);
    fld "ixol" (CArray t_u8 16)]);
  fld "ops" CPtr;
  anon (CUnion false [
    fld "branch" (CStruct false [
      fld "offs" t_s32;
      fld "ilen" t_u8;
      fld "opc1" t_u8]);
    fld "defparam" (CStruct false [
      fld "fixups" t_u8;
      fld "ilen" t_u8]);
    fld "push" (CStruct false [
      fld "reg_offset" t_u8;
      fld "ilen" t_u8])]);
  fld "flags" (CInt false 8)].

Definition struct_uprobe : ctype := CStruct false [
  fld "rb_node" struct_rb_node;
  fld "ref" t_refcount_t;
  fld "register_rwsem" struct_rw_semaphore;
  fld "consumer_rwsem" struct_rw_semaphore;
  fld "pending_list" struct_list_head;
  fld "consumers" struct_list_head;
  fld "inode" CPtr;
  anon (CUnion false [
    fld "rcu" struct_callback_head;
    fld "work" struct_work_struct]);
  fld "offset" t_loff_t;
  fld "ref_ctr_offset" t_loff_t;
  fld "flags" (CInt false 8);
  fld "arch" struct_arch_uprobe].

Definition t___wsum : ctype := t___u32.

Definition t_sk_buff_data_t : ctype := CInt false 4.
