(* ===== verification/KTypes6.v ===== *)
(** bpf/vmlinux.h, part 6 of 6: the types of the kernel objects the probes touch,
    declared as there and in dependency order (see KernelMem). *)
From S2P Require Import Prelude CLayout KTypes1 KTypes2 KTypes3 KTypes4 KTypes5.

#[local] Open Scope string_scope.
#[local] Open Scope Z_scope.

Definition struct_sk_buff_part1 : list field := [
  anon (CUnion false [
    anon (CStruct false [
      fld "next" CPtr;
      fld "prev" CPtr;
      anon (CUnion false [
        fld "dev" CPtr;
        fld "dev_scratch" (CInt false 8)])]);
    fld "rbnode" struct_rb_node;
    fld "list" struct_list_head;
    fld "ll_node" struct_llist_node]);
  fld "sk" CPtr;
  anon (CUnion false [
    fld "tstamp" t_ktime_t;
    fld "skb_mstamp_ns" t_u64]);
  fld "cb" (CArray (CInt true 1) 48);
  anon (CUnion false [
    anon (CStruct false [
      fld "_skb_refdst" (CInt false 8);
      fld "destructor" CPtr]);
    fld "tcp_tsorted_anchor" struct_list_head;
    fld "_sk_redir" (CInt false 8)]);
  fld "_nfct" (CInt false 8);
  fld "len" (CInt false 4);
  fld "data_len" (CInt false 4);
  fld "mac_len" t___u16;
  fld "hdr_len" t___u16;
  fld "queue_mapping" t___u16;
  fld "__cloned_offset" (CArray t___u8 0);
  bits "cloned" t___u8 1;
  bits "nohdr" t___u8 1;
  bits "fclone" t___u8 2;
  bits "peeked" t___u8 1;
  bits "head_frag" t___u8 1;
  bits "pfmemalloc" t___u8 1;
  bits "pp_recycle" t___u8 1;
  fld "active_extensions" t___u8;
  anon (CUnion false [
    anon (CStruct false [
      fld "__pkt_type_offset" (CArray t___u8 0);
      bits "pkt_type" t___u8 3;
      bits "ignore_df" t___u8 1;
      bits "dst_pending_confirm" t___u8 1;
      bits "ip_summed" t___u8 2;
      bits "ooo_okay" t___u8 1;
      fld "__mono_tc_offset" (CArray t___u8 0);
      bits "tstamp_type" t___u8 2;
      bits "tc_at_ingress" t___u8 1;
      bits "tc_skip_classify" t___u8 1;
      bits "remcsum_offload" t___u8 1;
      bits "csum_complete_sw" t___u8 1;
      bits "csum_level" t___u8 2;
      bits "inner_protocol_type" t___u8 1;
      bits "l4_hash" t___u8 1;
      bits "sw_hash" t___u8 1;
      bits "wifi_acked_valid" t___u8 1;
      bits "wifi_acked" t___u8 1;
      bits "no_fcs" t___u8 1;
      bits "encapsulation" t___u8 1;
      bits "encap_hdr_csum" t___u8 1;
      bits "csum_valid" t___u8 1;
      bits "ndisc_nodetype" t___u8 2;
      bits "ipvs_property" t___u8 1;
      bits "nf_trace" t___u8 1;
      bits "offload_fwd_mark" t___u8 1;
      bits "offload_l3_fwd_mark" t___u8 1;
      bits "redirected" t___u8 1;
      bits "from_ingress" t___u8 1;
      bits "nf_skip_egress" t___u8 1;
      bits "decrypted" t___u8 1;
      bits "slow_gro" t___u8 1;
      bits "csum_not_inet" t___u8 1;
      bits "unreadable" t___u8 1;
      fld "tc_index" t___u16;
      fld "alloc_cpu" t_u16;
      anon (CUnion false [
        fld "csum" t___wsum;
        anon (CStruct false [
          fld "csum_start" t___u16;
          fld "csum_offset" t___u16])]);
      fld "priority" t___u32;
      fld "skb_iif" (CInt true 4);
      fld "hash" t___u32;
      anon (CUnion false [
        fld "vlan_all" t_u32;
        anon (CStruct false [
          fld "vlan_proto" t___be16;
          fld "vlan_tci" t___u16])]);
      anon (CUnion false [
        fld "napi_id" (CInt false 4);
        fld "sender_cpu" (CInt false 4)]);
      fld "secmark" t___u32;
      anon (CUnion false [
        fld "mark" t___u32;
        fld "reserved_tailroom" t___u32]);
      anon (CUnion false [
        fld "inner_protocol" t___be16;
        fld "inner_ipproto" t___u8]);
      fld "inner_transport_header" t___u16;
      fld "inner_network_header" t___u16;
      fld "inner_mac_header" t___u16;
      fld "protocol" t___be16;
      fld "transport_header" t___u16;
      fld "network_header" t___u16;
      fld "mac_header" t___u16]);
    fld "headers" (CStruct false [
      fld "__pkt_type_offset" (CArray t___u8 0);
      bits "pkt_type" t___u8 3;
      bits "ignore_df" t___u8 1;
      bits "dst_pending_confirm" t___u8 1;
      bits "ip_summed" t___u8 2;
      bits "ooo_okay" t___u8 1;
      fld "__mono_tc_offset" (CArray t___u8 0);
      bits "tstamp_type" t___u8 2;
      bits "tc_at_ingress" t___u8 1;
      bits "tc_skip_classify" t___u8 1;
      bits "remcsum_offload" t___u8 1;
      bits "csum_complete_sw" t___u8 1;
      bits "csum_level" t___u8 2;
      bits "inner_protocol_type" t___u8 1;
      bits "l4_hash" t___u8 1;
      bits "sw_hash" t___u8 1;
      bits "wifi_acked_valid" t___u8 1;
      bits "wifi_acked" t___u8 1;
      bits "no_fcs" t___u8 1;
      bits "encapsulation" t___u8 1;
      bits "encap_hdr_csum" t___u8 1;
      bits "csum_valid" t___u8 1;
      bits "ndisc_nodetype" t___u8 2;
      bits "ipvs_property" t___u8 1;
      bits "nf_trace" t___u8 1;
      bits "offload_fwd_mark" t___u8 1;
      bits "offload_l3_fwd_mark" t___u8 1;
      bits "redirected" t___u8 1;
      bits "from_ingress" t___u8 1;
      bits "nf_skip_egress" t___u8 1;
      bits "decrypted" t___u8 1;
      bits "slow_gro" t___u8 1;
      bits "csum_not_inet" t___u8 1;
      bits "unreadable" t___u8 1;
      fld "tc_index" t___u16;
      fld "alloc_cpu" t_u16;
      anon (CUnion false [
        fld "csum" t___wsum;
        anon (CStruct false [
          fld "csum_start" t___u16;
          fld "csum_offset" t___u16])]);
      fld "priority" t___u32;
      fld "skb_iif" (CInt true 4);
      fld "hash" t___u32;
      anon (CUnion false [
        fld "vlan_all" t_u32;
        anon (CStruct false [
          fld "vlan_proto" t___be16;
          fld "vlan_tci" t___u16])]);
      anon (CUnion false [
        fld "napi_id" (CInt false 4);
        fld "sender_cpu" (CInt false 4)]);
      fld "secmark" t___u32;
      anon (CUnion false [
        fld "mark" t___u32;
        fld "reserved_tailroom" t___u32]);
      anon (CUnion false [
        fld "inner_protocol" t___be16;
        fld "inner_ipproto" t___u8]);
      fld "inner_transport_header" t___u16;
      fld "inner_network_header" t___u16;
      fld "inner_mac_header" t___u16;
      fld "protocol" t___be16;
      fld "transport_header" t___u16;
      fld "network_header" t___u16;
      fld "mac_header" t___u16])])].

Definition struct_sk_buff_part2 : list field := [
  fld "tail" t_sk_buff_data_t;
  fld "end" t_sk_buff_data_t;
  fld "head" CPtr;
  fld "data" CPtr;
  fld "truesize" (CInt false 4);
  fld "users" t_refcount_t;
  fld "extensions" CPtr].

Definition struct_sk_buff : ctype := CStruct false (struct_sk_buff_part1 ++ struct_sk_buff_part2).

Definition struct_maple_tree : ctype := CStruct false [
  anon (CUnion false [
    fld "ma_lock" t_spinlock_t]);
  fld "ma_flags" (CInt false 4);
  fld "ma_root" CPtr].

Definition struct_rcuwait : ctype := CStruct false [
  fld "task" CPtr].

Definition struct_irq_work : ctype := CStruct false [
  fld "node" struct___call_single_node;
  fld "func" CPtr;
  fld "irqwait" struct_rcuwait].

Definition struct_mm_mm_cid : ctype := CStruct false [
  fld "pcpu" CPtr;
  fld "mode" (CInt false 4);
  fld "max_cids" (CInt false 4);
  fld "irq_work" struct_irq_work;
  fld "work" struct_work_struct;
  fld "lock" t_raw_spinlock_t;
  fld "mutex" struct_mutex;
  fld "user_list" struct_hlist_head;
  fld "nr_cpus_allowed" (CInt false 4);
  fld "users" (CInt false 4);
  fld "pcpu_thrs" (CInt false 4);
  fld "update_deferred" (CInt false 4);
  bits "" (CInt true 8) 64;
  bits "" (CInt true 8) 64;
  bits "" (CInt true 8) 64;
  bits "" (CInt true 8) 64;
  bits "" (CInt true 8) 64;
  bits "" (CInt true 8) 64].

Definition t_vm_flags_t : ctype := CInt false 8.

Definition t_mm_context_t : ctype := CStruct false [
  fld "ctx_id" t_u64;
  fld "tlb_gen" t_atomic64_t;
  fld "next_trim_cpumask" (CInt false 8);
  fld "ldt_usr_sem" struct_rw_semaphore;
  fld "ldt" CPtr;
  fld "flags" (CInt false 8);
  fld "lock" struct_mutex;
  fld "vdso" CPtr;
  fld "vdso_image" CPtr;
  fld "perf_rdpmc_allowed" t_atomic_t;
  fld "pkey_allocation_map" t_u16;
  fld "execute_only_pkey" t_s16;
  fld "global_asid" t_u16;
  fld "asid_transition" t_bool].

Definition t_mm_flags_t : ctype := CStruct false [
  fld "__mm_flags" (CArray (CInt false 8) 1)].

Definition struct_uprobes_state : ctype := CStruct false [
  fld "xol_area" CPtr;
  fld "head_tramps" struct_hlist_head].

Definition t_mm_id_t : ctype := CInt false 4.

Definition struct_mm_struct : ctype := CStruct false [
  anon (CStruct false [
    anon (CStruct false [
      fld "mm_count" t_atomic_t;
      bits "" (CInt true 8) 64;
      bits "" (CInt true 8) 64;
      bits "" (CInt true 8) 64;
      bits "" (CInt true 8) 64;
      bits "" (CInt true 8) 64;
      bits "" (CInt true 8) 64;
      bits "" (CInt true 8) 64]);
    fld "mm_mt" struct_maple_tree;
    fld "mmap_base" (CInt false 8);
    fld "mmap_legacy_base" (CInt false 8);
    fld "mmap_compat_base" (CInt false 8);
    fld "mmap_compat_legacy_base" (CInt false 8);
    fld "task_size" (CInt false 8);
    fld "pgd" CPtr;
    fld "membarrier_state" t_atomic_t;
    fld "mm_users" t_atomic_t;
    bits "" (CInt true 8) 64;
    bits "" (CInt true 8) 64;
    bits "" (CInt true 8) 64;
    bits "" (CInt true 8) 64;
    bits "" (CInt true 8) 64;
    bits "" (CInt true 8) 64;
    bits "" (CInt true 8) 64;
    fld "mm_cid" struct_mm_mm_cid;
    fld "pgtables_bytes" t_atomic_long_t;
    fld "map_count" (CInt true 4);
    fld "page_table_lock" t_spinlock_t;
    fld "mmap_lock" struct_rw_semaphore;
    fld "mmlist" struct_list_head;
    fld "vma_writer_wait" struct_rcuwait;
    fld "mm_lock_seq" t_seqcount_t;
    fld "futex_hash_lock" struct_mutex;
    fld "futex_phash" CPtr;
    fld "futex_phash_new" CPtr;
    fld "futex_batches" (CInt false 8);
    fld "futex_rcu" struct_callback_head;
    fld "futex_atomic" t_atomic_long_t;
    fld "futex_ref" CPtr;
    fld "hiwater_rss" (CInt false 8);
    fld "hiwater_vm" (CInt false 8);
    fld "total_vm" (CInt false 8);
    fld "locked_vm" (CInt false 8);
    fld "pinned_vm" t_atomic64_t;
    fld "data_vm" (CInt false 8);
    fld "exec_vm" (CInt false 8);
    fld "stack_vm" (CInt false 8);
    fld "def_flags" t_vm_flags_t;
    fld "write_protect_seq" t_seqcount_t;
    fld "arg_lock" t_spinlock_t;
    fld "start_code" (CInt false 8);
    fld "end_code" (CInt false 8);
    fld "start_data" (CInt false 8);
    fld "end_data" (CInt false 8);
    fld "start_brk" (CInt false 8);
    fld "brk" (CInt false 8);
    fld "start_stack" (CInt false 8);
    fld "arg_start" (CInt false 8);
    fld "arg_end" (CInt false 8);
    fld "env_start" (CInt false 8);
    fld "env_end" (CInt false 8);
    fld "saved_auxv" (CArray (CInt false 8) 56);
    fld "rss_stat" (CArray struct_percpu_counter 4);
    fld "binfmt" CPtr;
    fld "context" t_mm_context_t;
    fld "flags" t_mm_flags_t;
    fld "ioctx_lock" t_spinlock_t;
    fld "ioctx_table" CPtr;
    fld "owner" CPtr;
    fld "user_ns" CPtr;
    fld "exe_file" CPtr;
    fld "notifier_subscriptions" CPtr;
    fld "numa_next_scan" (CInt false 8);
    fld "numa_scan_offset" (CInt false 8);
    fld "numa_scan_seq" (CInt true 4);
    fld "tlb_flush_pending" t_atomic_t;
    fld "tlb_flush_batched" t_atomic_t;
    fld "uprobes_state" struct_uprobes_state;
    fld "hugetlb_usage" t_atomic_long_t;
    fld "async_put_work" struct_work_struct;
    fld "iommu_mm" CPtr;
    fld "ksm_merging_pages" (CInt false 8);
    fld "ksm_rmap_items" (CInt false 8);
    fld "ksm_zero_pages" t_atomic_long_t;
    fld "lru_gen" (CStruct false [
      fld "list" struct_list_head;
      fld "bitmap" (CInt false 8);
      fld "memcg" CPtr]);
    fld "mm_id" t_mm_id_t;
    bits "" (CInt true 8) 64;
    bits "" (CInt true 8) 64;
    bits "" (CInt true 8) 64]);
  fld "flexible_array" (CArray (CInt true 1) 0)].

Definition enum_bpf_prog_type : cenum := [
  ("BPF_PROG_TYPE_UNSPEC", 0);
  ("BPF_PROG_TYPE_SOCKET_FILTER", 1);
  ("BPF_PROG_TYPE_KPROBE", 2);
  ("BPF_PROG_TYPE_SCHED_CLS", 3);
  ("BPF_PROG_TYPE_SCHED_ACT", 4);
  ("BPF_PROG_TYPE_TRACEPOINT", 5);
  ("BPF_PROG_TYPE_XDP", 6);
  ("BPF_PROG_TYPE_PERF_EVENT", 7);
  ("BPF_PROG_TYPE_CGROUP_SKB", 8);
  ("BPF_PROG_TYPE_CGROUP_SOCK", 9);
  ("BPF_PROG_TYPE_LWT_IN", 10);
  ("BPF_PROG_TYPE_LWT_OUT", 11);
  ("BPF_PROG_TYPE_LWT_XMIT", 12);
  ("BPF_PROG_TYPE_SOCK_OPS", 13);
  ("BPF_PROG_TYPE_SK_SKB", 14);
  ("BPF_PROG_TYPE_CGROUP_DEVICE", 15);
  ("BPF_PROG_TYPE_SK_MSG", 16);
  ("BPF_PROG_TYPE_RAW_TRACEPOINT", 17);
  ("BPF_PROG_TYPE_CGROUP_SOCK_ADDR", 18);
  ("BPF_PROG_TYPE_LWT_SEG6LOCAL", 19);
  ("BPF_PROG_TYPE_LIRC_MODE2", 20);
  ("BPF_PROG_TYPE_SK_REUSEPORT", 21);
  ("BPF_PROG_TYPE_FLOW_DISSECTOR", 22);
  ("BPF_PROG_TYPE_CGROUP_SYSCTL", 23);
  ("BPF_PROG_TYPE_RAW_TRACEPOINT_WRITABLE", 24);
  ("BPF_PROG_TYPE_CGROUP_SOCKOPT", 25);
  ("BPF_PROG_TYPE_TRACING", 26);
  ("BPF_PROG_TYPE_STRUCT_OPS", 27);
  ("BPF_PROG_TYPE_EXT", 28);
  ("BPF_PROG_TYPE_LSM", 29);
  ("BPF_PROG_TYPE_SK_LOOKUP", 30);
  ("BPF_PROG_TYPE_SYSCALL", 31);
  ("BPF_PROG_TYPE_NETFILTER", 32);
  ("__MAX_BPF_PROG_TYPE", 33)].

Definition enum_bpf_attach_type : cenum := [
  ("BPF_CGROUP_INET_INGRESS", 0);
  ("BPF_CGROUP_INET_EGRESS", 1);
  ("BPF_CGROUP_INET_SOCK_CREATE", 2);
  ("BPF_CGROUP_SOCK_OPS", 3);
  ("BPF_SK_SKB_STREAM_PARSER", 4);
  ("BPF_SK_SKB_STREAM_VERDICT", 5);
  ("BPF_CGROUP_DEVICE", 6);
  ("BPF_SK_MSG_VERDICT", 7);
  ("BPF_CGROUP_INET4_BIND", 8);
  ("BPF_CGROUP_INET6_BIND", 9);
  ("BPF_CGROUP_INET4_CONNECT", 10);
  ("BPF_CGROUP_INET6_CONNECT", 11);
  ("BPF_CGROUP_INET4_POST_BIND", 12);
  ("BPF_CGROUP_INET6_POST_BIND", 13);
  ("BPF_CGROUP_UDP4_SENDMSG", 14);
  ("BPF_CGROUP_UDP6_SENDMSG", 15);
  ("BPF_LIRC_MODE2", 16);
  ("BPF_FLOW_DISSECTOR", 17);
  ("BPF_CGROUP_SYSCTL", 18);
  ("BPF_CGROUP_UDP4_RECVMSG", 19);
  ("BPF_CGROUP_UDP6_RECVMSG", 20);
  ("BPF_CGROUP_GETSOCKOPT", 21);
  ("BPF_CGROUP_SETSOCKOPT", 22);
  ("BPF_TRACE_RAW_TP", 23);
  ("BPF_TRACE_FENTRY", 24);
  ("BPF_TRACE_FEXIT", 25);
  ("BPF_MODIFY_RETURN", 26);
  ("BPF_LSM_MAC", 27);
  ("BPF_TRACE_ITER", 28);
  ("BPF_CGROUP_INET4_GETPEERNAME", 29);
  ("BPF_CGROUP_INET6_GETPEERNAME", 30);
  ("BPF_CGROUP_INET4_GETSOCKNAME", 31);
  ("BPF_CGROUP_INET6_GETSOCKNAME", 32);
  ("BPF_XDP_DEVMAP", 33);
  ("BPF_CGROUP_INET_SOCK_RELEASE", 34);
  ("BPF_XDP_CPUMAP", 35);
  ("BPF_SK_LOOKUP", 36);
  ("BPF_XDP", 37);
  ("BPF_SK_SKB_VERDICT", 38);
  ("BPF_SK_REUSEPORT_SELECT", 39);
  ("BPF_SK_REUSEPORT_SELECT_OR_MIGRATE", 40);
  ("BPF_PERF_EVENT", 41);
  ("BPF_TRACE_KPROBE_MULTI", 42);
  ("BPF_LSM_CGROUP", 43);
  ("BPF_STRUCT_OPS", 44);
  ("BPF_NETFILTER", 45);
  ("BPF_TCX_INGRESS", 46);
  ("BPF_TCX_EGRESS", 47);
  ("BPF_TRACE_UPROBE_MULTI", 48);
  ("BPF_CGROUP_UNIX_CONNECT", 49);
  ("BPF_CGROUP_UNIX_SENDMSG", 50);
  ("BPF_CGROUP_UNIX_RECVMSG", 51);
  ("BPF_CGROUP_UNIX_GETPEERNAME", 52);
  ("BPF_CGROUP_UNIX_GETSOCKNAME", 53);
  ("BPF_NETKIT_PRIMARY", 54);
  ("BPF_NETKIT_PEER", 55);
  ("BPF_TRACE_KPROBE_SESSION", 56);
  ("BPF_TRACE_UPROBE_SESSION", 57);
  ("BPF_TRACE_FSESSION", 58);
  ("__MAX_BPF_ATTACH_TYPE", 59)].

Definition struct_sock_filter : ctype := CStruct false [
  fld "code" t___u16;
  fld "jt" t___u8;
  fld "jf" t___u8;
  fld "k" t___u32].

Definition struct_bpf_insn : ctype := CStruct false [
  fld "code" t___u8;
  bits "dst_reg" t___u8 4;
  bits "src_reg" t___u8 4;
  fld "off" t___s16;
  fld "imm" t___s32].

Definition struct_bpf_prog : ctype := CStruct false [
  fld "pages" t_u16;
  bits "jited" t_u16 1;
  bits "jit_requested" t_u16 1;
  bits "gpl_compatible" t_u16 1;
  bits "cb_access" t_u16 1;
  bits "dst_needed" t_u16 1;
  bits "blinding_requested" t_u16 1;
  bits "blinded" t_u16 1;
  bits "is_func" t_u16 1;
  bits "kprobe_override" t_u16 1;
  bits "has_callchain_buf" t_u16 1;
  bits "enforce_expected_attach_type" t_u16 1;
  bits "call_get_stack" t_u16 1;
  bits "call_get_func_ip" t_u16 1;
  bits "call_session_cookie" t_u16 1;
  bits "tstamp_type_access" t_u16 1;
  bits "sleepable" t_u16 1;
  fld "type" (enum_type enum_bpf_prog_type);
  fld "expected_attach_type" (enum_type enum_bpf_attach_type);
  fld "len" t_u32;
  fld "jited_len" t_u32;
  anon (CUnion false [
    fld "digest" (CArray t_u8 32);
    fld "tag" (CArray t_u8 8)]);
  fld "stats" CPtr;
  fld "active" CPtr;
  fld "bpf_func" CPtr;
  fld "aux" CPtr;
  fld "orig_prog" CPtr;
  anon (CUnion false [
    anon (CStruct false [
      fld "__empty_insns" (CStruct false [
]);
      fld "insns" (CArray struct_sock_filter 0)]);
    anon (CStruct false [
      fld "__empty_insnsi" (CStruct false [
]);
      fld "insnsi" (CArray struct_bpf_insn 0)])])].
