(* ===== verification/KernelTypes.v ===== *)
(** The types of bpf/vmlinux.h that KTypes1 to KTypes6 declare, gathered. *)
From S2P Require Import Prelude CLayout KTypes1 KTypes2 KTypes3 KTypes4 KTypes5 KTypes6.

#[local] Open Scope string_scope.

(** The structs and unions by the names C has for them. *)
Definition kernel_btf : list (string * ctype) := [
  ("struct hlist_node", struct_hlist_node); ("possible_net_t", t_possible_net_t);
  ("struct in6_addr", struct_in6_addr); ("atomic64_t", t_atomic64_t);
  ("struct hlist_nulls_node", struct_hlist_nulls_node); ("atomic_t", t_atomic_t);
  ("struct refcount_struct", struct_refcount_struct); ("struct sock_common", struct_sock_common);
  ("struct sk_buff_list", struct_sk_buff_list); ("struct qspinlock", struct_qspinlock);
  ("struct raw_spinlock", struct_raw_spinlock); ("struct spinlock", struct_spinlock);
  ("struct sk_buff_head", struct_sk_buff_head); ("struct list_head", struct_list_head);
  ("struct wait_queue_head", struct_wait_queue_head); ("socket_lock_t", t_socket_lock_t);
  ("struct rb_root", struct_rb_root); ("struct page_frag", struct_page_frag);
  ("struct timer_list", struct_timer_list); ("kuid_t", t_kuid_t);
  ("struct qrwlock", struct_qrwlock); ("struct rwlock", struct_rwlock);
  ("struct sock_cgroup_data", struct_sock_cgroup_data);
  ("struct callback_head", struct_callback_head); ("freeptr_t", t_freeptr_t);
  ("netns_tracker", t_netns_tracker); ("struct xarray", struct_xarray);
  ("struct sock", struct_sock); ("struct inet_cork", struct_inet_cork);
  ("struct flowi_tunnel", struct_flowi_tunnel); ("struct flowi_common", struct_flowi_common);
  ("union flowi_uli", union_flowi_uli); ("struct flowi4", struct_flowi4);
  ("struct flowi6", struct_flowi6); ("struct flowi", struct_flowi);
  ("struct inet6_cork", struct_inet6_cork); ("struct inet_cork_full", struct_inet_cork_full);
  ("struct inet_sock", struct_inet_sock); ("struct fastopen_queue", struct_fastopen_queue);
  ("struct request_sock_queue", struct_request_sock_queue);
  ("struct inet_connection_sock", struct_inet_connection_sock);
  ("struct minmax_sample", struct_minmax_sample); ("struct minmax", struct_minmax);
  ("struct tcp_options_received", struct_tcp_options_received);
  ("struct tcp_rack", struct_tcp_rack); ("struct rb_node", struct_rb_node);
  ("struct timerqueue_node", struct_timerqueue_node); ("struct hrtimer", struct_hrtimer);
  ("struct tcp_sack_block", struct_tcp_sack_block); ("struct tcp_sock", struct_tcp_sock);
  ("struct in6_pktinfo", struct_in6_pktinfo); ("struct ipv6_pinfo", struct_ipv6_pinfo);
  ("struct tcp6_sock", struct_tcp6_sock); ("struct request_sock", struct_request_sock);
  ("struct inet_request_sock", struct_inet_request_sock);
  ("struct tcp_request_sock", struct_tcp_request_sock);
  ("struct inet_timewait_sock", struct_inet_timewait_sock);
  ("struct tcp_timewait_sock", struct_tcp_timewait_sock); ("struct proto", struct_proto);
  ("struct socket_wq", struct_socket_wq); ("struct socket", struct_socket); ("kgid_t", t_kgid_t);
  ("struct inode_state_flags", struct_inode_state_flags);
  ("struct optimistic_spin_queue", struct_optimistic_spin_queue);
  ("struct rw_semaphore", struct_rw_semaphore); ("struct hlist_head", struct_hlist_head);
  ("struct rb_root_cached", struct_rb_root_cached);
  ("struct address_space", struct_address_space); ("struct inode", struct_inode);
  ("struct socket_alloc", struct_socket_alloc); ("struct llist_node", struct_llist_node);
  ("struct idr", struct_idr); ("struct ns_tree_node", struct_ns_tree_node);
  ("struct ns_tree_root", struct_ns_tree_root); ("struct ns_tree", struct_ns_tree);
  ("struct ns_common", struct_ns_common); ("struct ref_tracker_dir", struct_ref_tracker_dir);
  ("struct ctl_table_header", struct_ctl_table_header); ("struct ctl_dir", struct_ctl_dir);
  ("struct ctl_table_set", struct_ctl_table_set);
  ("struct raw_notifier_head", struct_raw_notifier_head);
  ("struct netns_core", struct_netns_core); ("struct netns_mib", struct_netns_mib);
  ("struct mutex", struct_mutex); ("struct netns_packet", struct_netns_packet);
  ("struct unix_table", struct_unix_table); ("struct netns_unix", struct_netns_unix);
  ("struct blocking_notifier_head", struct_blocking_notifier_head);
  ("struct netns_nexthop", struct_netns_nexthop);
  ("struct inet_timewait_death_row", struct_inet_timewait_death_row);
  ("struct udp_tunnel_gro", struct_udp_tunnel_gro); ("struct local_ports", struct_local_ports);
  ("struct seqcount", struct_seqcount); ("struct seqcount_spinlock", struct_seqcount_spinlock);
  ("struct seqlock", struct_seqlock); ("struct ping_group_range", struct_ping_group_range);
  ("struct sysctl_fib_multipath_hash_seed", struct_sysctl_fib_multipath_hash_seed);
  ("siphash_key_t", t_siphash_key_t); ("struct work_struct", struct_work_struct);
  ("struct delayed_work", struct_delayed_work); ("struct netns_ipv4", struct_netns_ipv4);
  ("struct percpu_counter", struct_percpu_counter); ("struct dst_ops", struct_dst_ops);
  ("struct netns_sysctl_ipv6", struct_netns_sysctl_ipv6);
  ("struct netns_ipv6", struct_netns_ipv6);
  ("struct netns_sysctl_lowpan", struct_netns_sysctl_lowpan);
  ("struct netns_ieee802154_lowpan", struct_netns_ieee802154_lowpan);
  ("struct netns_sctp", struct_netns_sctp); ("struct netns_nf", struct_netns_nf);
  ("struct nf_generic_net", struct_nf_generic_net); ("struct nf_tcp_net", struct_nf_tcp_net);
  ("struct nf_udp_net", struct_nf_udp_net); ("struct nf_icmp_net", struct_nf_icmp_net);
  ("struct nf_sctp_net", struct_nf_sctp_net); ("struct nf_gre_net", struct_nf_gre_net);
  ("struct nf_ip_net", struct_nf_ip_net); ("struct netns_ct", struct_netns_ct);
  ("struct netns_nftables", struct_netns_nftables); ("struct netns_ft", struct_netns_ft);
  ("struct netns_bpf", struct_netns_bpf); ("struct xfrm_policy_hash", struct_xfrm_policy_hash);
  ("struct xfrm_policy_hthresh", struct_xfrm_policy_hthresh);
  ("struct netns_xfrm", struct_netns_xfrm); ("struct seqcount_mutex", struct_seqcount_mutex);
  ("struct netns_mpls", struct_netns_mpls); ("struct netns_can", struct_netns_can);
  ("struct netns_xdp", struct_netns_xdp); ("struct netns_mctp", struct_netns_mctp);
  ("struct netns_smc", struct_netns_smc); ("struct netns_vsock", struct_netns_vsock);
  ("struct net", struct_net); ("struct iovec", struct_iovec);
  ("struct iov_iter", struct_iov_iter); ("struct msghdr", struct_msghdr);
  ("struct trace_entry", struct_trace_entry);
  ("struct trace_event_raw_inet_sock_set_state", struct_trace_event_raw_inet_sock_set_state);
  ("struct fred_cs", struct_fred_cs); ("struct fred_ss", struct_fred_ss);
  ("struct pt_regs", struct_pt_regs); ("struct thread_info", struct_thread_info);
  ("struct __call_single_node", struct___call_single_node);
  ("struct load_weight", struct_load_weight); ("struct sched_avg", struct_sched_avg);
  ("struct sched_entity", struct_sched_entity);
  ("struct sched_rt_entity", struct_sched_rt_entity);
  ("struct sched_dl_entity", struct_sched_dl_entity);
  ("struct scx_dsq_list_node", struct_scx_dsq_list_node);
  ("struct sched_ext_entity", struct_sched_ext_entity); ("struct uclamp_se", struct_uclamp_se);
  ("struct sched_statistics", struct_sched_statistics); ("struct cpumask", struct_cpumask);
  ("struct timespec64", struct_timespec64); ("struct sched_info", struct_sched_info);
  ("struct plist_node", struct_plist_node); ("struct restart_block", struct_restart_block);
  ("struct prev_cputime", struct_prev_cputime); ("struct vtime", struct_vtime);
  ("struct timerqueue_head", struct_timerqueue_head);
  ("struct posix_cputimer_base", struct_posix_cputimer_base);
  ("struct posix_cputimers", struct_posix_cputimers);
  ("struct posix_cputimers_work", struct_posix_cputimers_work);
  ("struct sysv_sem", struct_sysv_sem); ("struct sysv_shm", struct_sysv_shm);
  ("sigset_t", t_sigset_t); ("struct sigpending", struct_sigpending);
  ("struct seccomp", struct_seccomp);
  ("struct syscall_user_dispatch", struct_syscall_user_dispatch);
  ("struct wake_q_node", struct_wake_q_node);
  ("struct task_io_accounting", struct_task_io_accounting); ("nodemask_t", t_nodemask_t);
  ("struct rseq_event", struct_rseq_event); ("struct rseq_ids", struct_rseq_ids);
  ("struct rseq_data", struct_rseq_data); ("struct sched_mm_cid", struct_sched_mm_cid);
  ("struct arch_tlbflush_unmap_batch", struct_arch_tlbflush_unmap_batch);
  ("struct tlbflush_unmap_batch", struct_tlbflush_unmap_batch);
  ("struct lazy_mmu_state", struct_lazy_mmu_state);
  ("struct latency_record", struct_latency_record); ("struct kmap_ctrl", struct_kmap_ctrl);
  ("struct llist_head", struct_llist_head); ("struct da_monitor", struct_da_monitor);
  ("struct ltl_monitor", struct_ltl_monitor); ("union rv_task_monitor", union_rv_task_monitor);
  ("union unwind_task_id", union_unwind_task_id);
  ("struct unwind_task_info", struct_unwind_task_info);
  ("struct desc_struct", struct_desc_struct); ("struct thread_shstk", struct_thread_shstk);
  ("struct thread_struct", struct_thread_struct); ("struct task_struct", struct_task_struct);
  ("struct bpf_map", struct_bpf_map); ("struct bpf_mem_alloc", struct_bpf_mem_alloc);
  ("struct pcpu_freelist", struct_pcpu_freelist); ("struct bpf_lru_list", struct_bpf_lru_list);
  ("struct bpf_common_lru", struct_bpf_common_lru); ("struct bpf_lru", struct_bpf_lru);
  ("struct bpf_htab", struct_bpf_htab); ("struct bpf_ringbuf_map", struct_bpf_ringbuf_map);
  ("struct arch_specific_insn", struct_arch_specific_insn); ("struct kprobe", struct_kprobe);
  ("struct arch_uprobe", struct_arch_uprobe); ("struct uprobe", struct_uprobe);
  ("struct sk_buff", struct_sk_buff); ("struct maple_tree", struct_maple_tree);
  ("struct rcuwait", struct_rcuwait); ("struct irq_work", struct_irq_work);
  ("struct mm_mm_cid", struct_mm_mm_cid); ("mm_context_t", t_mm_context_t);
  ("mm_flags_t", t_mm_flags_t); ("struct uprobes_state", struct_uprobes_state);
  ("struct mm_struct", struct_mm_struct); ("struct sock_filter", struct_sock_filter);
  ("struct bpf_insn", struct_bpf_insn); ("struct bpf_prog", struct_bpf_prog)].

(** Every struct and union. *)
Definition kernel_types : list ctype := kernel_btf.*2.

Definition assoc {A} (name : string) : list (string * A) -> option A :=
  fix go l := match l with
    | [] => None
    | (n, x) :: l => if String.eqb n name then Some x else go l
    end.

(** The type of that name.  A CO-RE relocation refers to a type of the running kernel by
    its name, and to its members by theirs. *)
Definition type_named (name : string) : ctype := default CPtr (assoc name kernel_btf).
