(* ===== verification/ObjectBtf.v ===== *)
(** What the shipped object bpf2go built from bpf/tlstat.bpf.c and bpf/vmlinux.h
    (internal/loader/tlstat_x86_bpfel.o) records about kernel types.

    [object_btf] transcribes from its section .BTF the structs and unions that
    [kernel_btf] declares too: name, size, and for each member its name, the offset in
    bits, the width of a bit-field and the size of its type; [core_relos] transcribes from
    .BTF.ext the CO-RE relocations: program, instruction, type, member indices, the members'
    names, and the offset the instruction has before it is relocated.  (readelf and any BTF
    reader show both.)  The clang of the build laid them out; CLayout is checked against
    that in LayoutProps. *)
From S2P Require Import Prelude CLayout KernelTypes.

#[local] Open Scope string_scope.
#[local] Open Scope Z_scope.

(** ** Rows *)

(** A member: name, offset in bits, width of a bit-field (else 0), size of its type in
    bytes, and the members of that type, or of the array's elements, where it is declared
    in place. *)
Inductive row : Type :=
| Row (name : string) (off bits size : Z) (inner : list row).

Definition mem (name : string) (off size : Z) : row := Row name off 0 size [].
Definition bitf (name : string) (off bits size : Z) : row := Row name off bits size [].
Definition sub (name : string) (off size : Z) (inner : list row) : row := Row name off 0 size inner.

Fixpoint elem_type (t : ctype) : ctype := match t with CArray t _ => elem_type t | _ => t end.

(** The members debug information lists: all but unnamed bit-fields. *)
Definition listed (t : ctype) : list (CLayout.field * (Z * Z)) :=
  List.filter (fun '(f, _) => negb (String.eqb (f_name f) EmptyString && bool_decide (is_Some (f_bits f))))
    (members t).

Definition all2 {A B} (p : A -> B -> bool) : list A -> list B -> bool :=
  fix go l k := match l, k with
    | [], [] => true
    | x :: l, y :: k => p x y && go l k
    | _, _ => false
    end.

Fixpoint row_is (r : row) (x : CLayout.field * (Z * Z)) : bool :=
  let '(Row name off bits size inner) := r in
  let '(f, (o, _)) := x in
  String.eqb name (f_name f) && (off =? o) && (bits =? default 0 (f_bits f))
  && (size =? sizeof (f_type f))
  && match inner with [] => true | _ => all2 row_is inner (listed (elem_type (f_type f))) end.

(** A type as the table has it. *)
Definition described (e : string * Z * list row) : Prop :=
  let '(name, size, rows) := e in
  sizeof (type_named name) = size /\ all2 row_is rows (listed (type_named name)) = true.

(** The member at the indices [idx], one for each level. *)
Fixpoint access (p : place_of) (idx : list nat) : option place_of :=
  match idx with
  | [] => Some p
  | i :: idx =>
      '(f, (o, len)) ← members (p_type p) !! i;
      access (mkPlace (p_off p + o) len (f_type f)) idx
  end.

(** ** The tables *)

Definition object_btf : list (string * Z * list row) := [
  ("struct hlist_node", 16, [mem "next" 0 8; mem "pprev" 64 8]);
  ("possible_net_t", 8, [mem "net" 0 8]);
  ("struct in6_addr", 16, [sub "in6_u" 0 16 [mem "u6_addr8" 0 16; mem "u6_addr16" 0 16;
    mem "u6_addr32" 0 16]]);
  ("atomic64_t", 8, [mem "counter" 0 8]);
  ("struct hlist_nulls_node", 16, [mem "next" 0 8; mem "pprev" 64 8]);
  ("atomic_t", 4, [mem "counter" 0 4]);
  ("struct refcount_struct", 4, [mem "refs" 0 4]);
  ("struct sock_common", 136, [sub "" 0 8 [mem "skc_addrpair" 0 8;
    sub "" 0 8 [mem "skc_daddr" 0 4; mem "skc_rcv_saddr" 32 4]]; sub "" 64 4 [mem "skc_hash" 0 4;
    mem "skc_u16hashes" 0 4]; sub "" 96 4 [mem "skc_portpair" 0 4;
    sub "" 0 4 [mem "skc_dport" 0 2; mem "skc_num" 16 2]]; mem "skc_family" 128 2;
    mem "skc_state" 144 1; bitf "skc_reuse" 152 4 1; bitf "skc_reuseport" 156 1 1;
    bitf "skc_ipv6only" 157 1 1; bitf "skc_net_refcnt" 158 1 1;
    bitf "skc_bypass_prot_mem" 159 1 1; mem "skc_bound_dev_if" 160 4;
    sub "" 192 16 [mem "skc_bind_node" 0 16; mem "skc_portaddr_node" 0 16]; mem "skc_prot" 320 8;
    mem "skc_net" 384 8; mem "skc_v6_daddr" 448 16; mem "skc_v6_rcv_saddr" 576 16;
    mem "skc_cookie" 704 8; sub "" 768 8 [mem "skc_flags" 0 8; mem "skc_listener" 0 8;
    mem "skc_tw_dr" 0 8]; mem "skc_dontcopy_begin" 832 0; sub "" 832 16 [mem "skc_node" 0 16;
    mem "skc_nulls_node" 0 16]; mem "skc_tx_queue_mapping" 960 2;
    mem "skc_rx_queue_mapping" 976 2; sub "" 992 4 [mem "skc_incoming_cpu" 0 4;
    mem "skc_rcv_wnd" 0 4; mem "skc_tw_rcv_nxt" 0 4]; mem "skc_refcnt" 1024 4;
    mem "skc_dontcopy_end" 1056 0; sub "" 1056 4 [mem "skc_rxhash" 0 4;
    mem "skc_window_clamp" 0 4; mem "skc_tw_snd_nxt" 0 4]]);
  ("struct sk_buff_list", 16, [mem "next" 0 8; mem "prev" 64 8]);
  ("struct qspinlock", 4, [sub "" 0 4 [mem "val" 0 4; sub "" 0 2 [mem "locked" 0 1;
    mem "pending" 8 1]; sub "" 0 4 [mem "locked_pending" 0 2; mem "tail" 16 2]]]);
  ("struct raw_spinlock", 4, [mem "raw_lock" 0 4]);
  ("struct spinlock", 4, [sub "" 0 4 [mem "rlock" 0 4]]);
  ("struct sk_buff_head", 24, [sub "" 0 16 [sub "" 0 16 [mem "next" 0 8; mem "prev" 64 8];
    mem "list" 0 16]; mem "qlen" 128 4; mem "lock" 160 4]);
  ("struct list_head", 16, [mem "next" 0 8; mem "prev" 64 8]);
  ("struct wait_queue_head", 24, [mem "lock" 0 4; mem "head" 64 16]);
  ("socket_lock_t", 32, [mem "slock" 0 4; mem "owned" 32 4; mem "wq" 64 24]);
  ("struct rb_root", 8, [mem "rb_node" 0 8]);
  ("struct page_frag", 16, [mem "page" 0 8; mem "offset" 64 4; mem "size" 96 4]);
  ("struct timer_list", 40, [mem "entry" 0 16; mem "expires" 128 8; mem "function" 192 8;
    mem "flags" 256 4]);
  ("kuid_t", 4, [mem "val" 0 4]);
  ("struct qrwlock", 8, [sub "" 0 4 [mem "cnts" 0 4; sub "" 0 4 [mem "wlocked" 0 1;
    mem "__lstate" 8 3]]; mem "wait_lock" 32 4]);
  ("struct rwlock", 8, [mem "raw_lock" 0 8]);
  ("struct sock_cgroup_data", 16, [mem "cgroup" 0 8; mem "classid" 64 4; mem "prioidx" 96 2]);
  ("struct callback_head", 16, [mem "next" 0 8; mem "func" 64 8]);
  ("freeptr_t", 8, [mem "v" 0 8]);
  ("netns_tracker", 0, []);
  ("struct xarray", 16, [mem "xa_lock" 0 4; mem "xa_flags" 32 4; mem "xa_head" 64 8]);
  ("struct sock", 808, [mem "__sk_common" 0 136;
    mem "__cacheline_group_begin__sock_write_rx" 1088 0; mem "sk_drops" 1088 4;
    mem "sk_peek_off" 1120 4; mem "sk_error_queue" 1152 24; mem "sk_receive_queue" 1344 24;
    sub "sk_backlog" 1536 24 [mem "rmem_alloc" 0 4; mem "len" 32 4; mem "head" 64 8;
    mem "tail" 128 8]; mem "__cacheline_group_end__sock_write_rx" 1728 0;
    mem "__cacheline_group_begin__sock_read_rx" 1728 0; mem "sk_rx_dst" 1728 8;
    mem "sk_rx_dst_ifindex" 1792 4; mem "sk_rx_dst_cookie" 1824 4; mem "sk_ll_usec" 1856 4;
    mem "sk_napi_id" 1888 4; mem "sk_busy_poll_budget" 1920 2; mem "sk_prefer_busy_poll" 1936 1;
    mem "sk_userlocks" 1944 1; mem "sk_rcvbuf" 1952 4; mem "sk_filter" 1984 8;
    sub "" 2048 8 [mem "sk_wq" 0 8; mem "sk_wq_raw" 0 8]; mem "sk_data_ready" 2112 8;
    mem "sk_rcvtimeo" 2176 8; mem "sk_rcvlowat" 2240 4;
    mem "__cacheline_group_end__sock_read_rx" 2272 0;
    mem "__cacheline_group_begin__sock_read_rxtx" 2272 0; mem "sk_err" 2272 4;
    mem "sk_socket" 2304 8; mem "sk_memcg" 2368 8; mem "sk_policy" 2432 16;
    mem "psp_assoc" 2560 8; mem "__cacheline_group_end__sock_read_rxtx" 2624 0;
    mem "__cacheline_group_begin__sock_write_rxtx" 2624 0; mem "sk_lock" 2624 32;
    mem "sk_reserved_mem" 2880 4; mem "sk_forward_alloc" 2912 4; mem "sk_tsflags" 2944 4;
    mem "__cacheline_group_end__sock_write_rxtx" 2976 0;
    mem "__cacheline_group_begin__sock_write_tx" 2976 0; mem "sk_write_pending" 2976 4;
    mem "sk_omem_alloc" 3008 4; mem "sk_err_soft" 3040 4; mem "sk_wmem_queued" 3072 4;
    mem "sk_wmem_alloc" 3104 4; mem "sk_tsq_flags" 3136 8; sub "" 3200 8 [mem "sk_send_head" 0 8;
    mem "tcp_rtx_queue" 0 8]; mem "sk_write_queue" 3264 24; mem "sk_frag" 3456 16;
    sub "" 3584 40 [mem "sk_timer" 0 40; mem "tcp_retransmit_timer" 0 40;
    mem "mptcp_retransmit_timer" 0 40]; mem "sk_pacing_rate" 3904 8; mem "sk_zckey" 3968 4;
    mem "sk_tskey" 4000 4; mem "sk_tx_queue_mapping_jiffies" 4032 8;
    mem "__cacheline_group_end__sock_write_tx" 4096 0;
    mem "__cacheline_group_begin__sock_read_tx" 4096 0; mem "sk_dst_pending_confirm" 4096 4;
    mem "sk_pacing_status" 4128 4; mem "sk_max_pacing_rate" 4160 8; mem "sk_sndtimeo" 4224 8;
    mem "sk_priority" 4288 4; mem "sk_mark" 4320 4; mem "sk_uid" 4352 4;
    mem "sk_protocol" 4384 2; mem "sk_type" 4400 2; mem "sk_dst_cache" 4416 8;
    mem "sk_route_caps" 4480 8; mem "sk_validate_xmit_skb" 4544 8; mem "sk_gso_type" 4608 2;
    mem "sk_gso_max_segs" 4624 2; mem "sk_gso_max_size" 4640 4; mem "sk_allocation" 4672 4;
    mem "sk_txhash" 4704 4; mem "sk_sndbuf" 4736 4; mem "sk_pacing_shift" 4768 1;
    mem "sk_use_task_frag" 4776 1; mem "__cacheline_group_end__sock_read_tx" 4784 0;
    bitf "sk_gso_disabled" 4784 1 1; bitf "sk_kern_sock" 4785 1 1;
    bitf "sk_no_check_tx" 4786 1 1; bitf "sk_no_check_rx" 4787 1 1; mem "sk_shutdown" 4792 1;
    mem "sk_lingertime" 4800 8; mem "sk_prot_creator" 4864 8; mem "sk_callback_lock" 4928 8;
    mem "sk_ack_backlog" 4992 4; mem "sk_max_ack_backlog" 5024 4; mem "sk_ino" 5056 8;
    mem "sk_peer_lock" 5120 4; mem "sk_bind_phc" 5152 4; mem "sk_peer_pid" 5184 8;
    mem "sk_peer_cred" 5248 8; mem "sk_stamp" 5312 8; mem "sk_disconnects" 5376 4;
    sub "" 5408 1 [mem "sk_txrehash" 0 1; mem "sk_scm_recv_flags" 0 1;
    sub "" 0 1 [bitf "sk_scm_credentials" 0 1 1; bitf "sk_scm_security" 1 1 1;
    bitf "sk_scm_pidfd" 2 1 1; bitf "sk_scm_rights" 3 1 1; bitf "sk_scm_unused" 4 4 1]];
    mem "sk_clockid" 5416 1; bitf "sk_txtime_deadline_mode" 5424 1 1;
    bitf "sk_txtime_report_errors" 5425 1 1; bitf "sk_txtime_unused" 5426 6 1;
    mem "sk_bpf_cb_flags" 5432 1; mem "sk_user_data" 5440 8; mem "sk_security" 5504 8;
    mem "sk_cgrp_data" 5568 16; mem "sk_state_change" 5696 8; mem "sk_write_space" 5760 8;
    mem "sk_error_report" 5824 8; mem "sk_backlog_rcv" 5888 8; mem "sk_destruct" 5952 8;
    mem "sk_reuseport_cb" 6016 8; mem "sk_bpf_storage" 6080 8; mem "sk_drop_counters" 6144 8;
    sub "" 6208 16 [mem "sk_rcu" 0 16; mem "sk_freeptr" 0 8]; mem "ns_tracker" 6336 0;
    mem "sk_user_frags" 6336 16]);
  ("struct rb_node", 24, [mem "__rb_parent_color" 0 8; mem "rb_right" 64 8; mem "rb_left" 128 8]);
  ("struct timerqueue_node", 32, [mem "node" 0 24; mem "expires" 192 8]);
  ("struct hrtimer", 64, [mem "node" 0 32; mem "_softexpires" 256 8; mem "function" 320 8;
    mem "base" 384 8; mem "state" 448 1; mem "is_rel" 456 1; mem "is_soft" 464 1;
    mem "is_hard" 472 1]);
  ("kgid_t", 4, [mem "val" 0 4]);
  ("struct optimistic_spin_queue", 4, [mem "tail" 0 4]);
  ("struct rw_semaphore", 40, [mem "count" 0 8; mem "owner" 64 8; mem "osq" 128 4;
    mem "wait_lock" 160 4; mem "wait_list" 192 16]);
  ("struct hlist_head", 8, [mem "first" 0 8]);
  ("struct rb_root_cached", 16, [mem "rb_root" 0 8; mem "rb_leftmost" 64 8]);
  ("struct address_space", 192, [mem "host" 0 8; mem "i_pages" 64 16;
    mem "invalidate_lock" 192 40; mem "gfp_mask" 512 4; mem "i_mmap_writable" 544 4;
    mem "i_mmap" 576 16; mem "nrpages" 704 8; mem "writeback_index" 768 8; mem "a_ops" 832 8;
    mem "flags" 896 8; mem "wb_err" 960 4; mem "i_private_lock" 992 4;
    mem "i_private_list" 1024 16; mem "i_mmap_rwsem" 1152 40; mem "i_private_data" 1472 8]);
  ("struct llist_node", 8, [mem "next" 0 8]);
  ("struct mutex", 32, [mem "owner" 0 8; mem "wait_lock" 64 4; mem "osq" 96 4;
    mem "wait_list" 128 16]);
  ("struct work_struct", 32, [mem "data" 0 8; mem "entry" 64 16; mem "func" 192 8]);
  ("struct iovec", 16, [mem "iov_base" 0 8; mem "iov_len" 64 8]);
  ("struct iov_iter", 40, [mem "iter_type" 0 1; mem "nofault" 8 1; mem "data_source" 16 1;
    mem "iov_offset" 64 8; sub "" 128 16 [mem "__ubuf_iovec" 0 16;
    sub "" 0 16 [sub "" 0 8 [mem "__iov" 0 8; mem "kvec" 0 8; mem "bvec" 0 8; mem "folioq" 0 8;
    mem "xarray" 0 8; mem "ubuf" 0 8]; mem "count" 64 8]]; sub "" 256 8 [mem "nr_segs" 0 8;
    mem "folioq_slot" 0 1; mem "xarray_start" 0 8]]);
  ("struct msghdr", 104, [mem "msg_name" 0 8; mem "msg_namelen" 64 4; mem "msg_inq" 96 4;
    mem "msg_iter" 128 40; sub "" 448 8 [mem "msg_control" 0 8; mem "msg_control_user" 0 8];
    bitf "msg_control_is_user" 512 1 1; bitf "msg_get_inq" 513 1 1; mem "msg_flags" 544 4;
    mem "msg_controllen" 576 8; mem "msg_iocb" 640 8; mem "msg_ubuf" 704 8;
    mem "sg_from_iter" 768 8]);
  ("struct trace_entry", 8, [mem "type" 0 2; mem "flags" 16 1; mem "preempt_count" 24 1;
    mem "pid" 32 4]);
  ("struct trace_event_raw_inet_sock_set_state", 72, [mem "ent" 0 8; mem "skaddr" 64 8;
    mem "oldstate" 128 4; mem "newstate" 160 4; mem "sport" 192 2; mem "dport" 208 2;
    mem "family" 224 2; mem "protocol" 240 2; mem "saddr" 256 4; mem "daddr" 288 4;
    mem "saddr_v6" 320 16; mem "daddr_v6" 448 16; mem "__data" 576 0]);
  ("struct fred_cs", 8, [bitf "cs" 0 16 8; bitf "sl" 16 2 8; bitf "wfe" 18 1 8]);
  ("struct fred_ss", 8, [bitf "ss" 0 16 8; bitf "sti" 16 1 8; bitf "swevent" 17 1 8;
    bitf "nmi" 18 1 8; bitf "vector" 32 8 8; bitf "type" 48 4 8; bitf "enclave" 56 1 8;
    bitf "l" 57 1 8; bitf "nested" 58 1 8; bitf "insnlen" 60 4 8]);
  ("struct pt_regs", 168, [mem "r15" 0 8; mem "r14" 64 8; mem "r13" 128 8; mem "r12" 192 8;
    mem "bp" 256 8; mem "bx" 320 8; mem "r11" 384 8; mem "r10" 448 8; mem "r9" 512 8;
    mem "r8" 576 8; mem "ax" 640 8; mem "cx" 704 8; mem "dx" 768 8; mem "si" 832 8;
    mem "di" 896 8; mem "orig_ax" 960 8; mem "ip" 1024 8; sub "" 1088 8 [mem "cs" 0 2;
    mem "csx" 0 8; mem "fred_cs" 0 8]; mem "flags" 1152 8; mem "sp" 1216 8;
    sub "" 1280 8 [mem "ss" 0 2; mem "ssx" 0 8; mem "fred_ss" 0 8]]);
  ("struct sk_buff", 232, [sub "" 0 24 [sub "" 0 24 [mem "next" 0 8; mem "prev" 64 8;
    sub "" 128 8 [mem "dev" 0 8; mem "dev_scratch" 0 8]]; mem "rbnode" 0 24; mem "list" 0 16;
    mem "ll_node" 0 8]; mem "sk" 192 8; sub "" 256 8 [mem "tstamp" 0 8; mem "skb_mstamp_ns" 0 8];
    mem "cb" 320 48; sub "" 704 16 [sub "" 0 16 [mem "_skb_refdst" 0 8; mem "destructor" 64 8];
    mem "tcp_tsorted_anchor" 0 16; mem "_sk_redir" 0 8]; mem "_nfct" 832 8; mem "len" 896 4;
    mem "data_len" 928 4; mem "mac_len" 960 2; mem "hdr_len" 976 2; mem "queue_mapping" 992 2;
    mem "__cloned_offset" 1008 0; bitf "cloned" 1008 1 1; bitf "nohdr" 1009 1 1;
    bitf "fclone" 1010 2 1; bitf "peeked" 1012 1 1; bitf "head_frag" 1013 1 1;
    bitf "pfmemalloc" 1014 1 1; bitf "pp_recycle" 1015 1 1; mem "active_extensions" 1016 1;
    sub "" 1024 60 [sub "" 0 60 [mem "__pkt_type_offset" 0 0; bitf "pkt_type" 0 3 1;
    bitf "ignore_df" 3 1 1; bitf "dst_pending_confirm" 4 1 1; bitf "ip_summed" 5 2 1;
    bitf "ooo_okay" 7 1 1; mem "__mono_tc_offset" 8 0; bitf "tstamp_type" 8 2 1;
    bitf "tc_at_ingress" 10 1 1; bitf "tc_skip_classify" 11 1 1; bitf "remcsum_offload" 12 1 1;
    bitf "csum_complete_sw" 13 1 1; bitf "csum_level" 14 2 1; bitf "inner_protocol_type" 16 1 1;
    bitf "l4_hash" 17 1 1; bitf "sw_hash" 18 1 1; bitf "wifi_acked_valid" 19 1 1;
    bitf "wifi_acked" 20 1 1; bitf "no_fcs" 21 1 1; bitf "encapsulation" 22 1 1;
    bitf "encap_hdr_csum" 23 1 1; bitf "csum_valid" 24 1 1; bitf "ndisc_nodetype" 25 2 1;
    bitf "ipvs_property" 27 1 1; bitf "nf_trace" 28 1 1; bitf "offload_fwd_mark" 29 1 1;
    bitf "offload_l3_fwd_mark" 30 1 1; bitf "redirected" 31 1 1; bitf "from_ingress" 32 1 1;
    bitf "nf_skip_egress" 33 1 1; bitf "decrypted" 34 1 1; bitf "slow_gro" 35 1 1;
    bitf "csum_not_inet" 36 1 1; bitf "unreadable" 37 1 1; mem "tc_index" 48 2;
    mem "alloc_cpu" 64 2; sub "" 96 4 [mem "csum" 0 4; sub "" 0 4 [mem "csum_start" 0 2;
    mem "csum_offset" 16 2]]; mem "priority" 128 4; mem "skb_iif" 160 4; mem "hash" 192 4;
    sub "" 224 4 [mem "vlan_all" 0 4; sub "" 0 4 [mem "vlan_proto" 0 2; mem "vlan_tci" 16 2]];
    sub "" 256 4 [mem "napi_id" 0 4; mem "sender_cpu" 0 4]; mem "secmark" 288 4;
    sub "" 320 4 [mem "mark" 0 4; mem "reserved_tailroom" 0 4];
    sub "" 352 2 [mem "inner_protocol" 0 2; mem "inner_ipproto" 0 1];
    mem "inner_transport_header" 368 2; mem "inner_network_header" 384 2;
    mem "inner_mac_header" 400 2; mem "protocol" 416 2; mem "transport_header" 432 2;
    mem "network_header" 448 2; mem "mac_header" 464 2];
    sub "headers" 0 60 [mem "__pkt_type_offset" 0 0; bitf "pkt_type" 0 3 1;
    bitf "ignore_df" 3 1 1; bitf "dst_pending_confirm" 4 1 1; bitf "ip_summed" 5 2 1;
    bitf "ooo_okay" 7 1 1; mem "__mono_tc_offset" 8 0; bitf "tstamp_type" 8 2 1;
    bitf "tc_at_ingress" 10 1 1; bitf "tc_skip_classify" 11 1 1; bitf "remcsum_offload" 12 1 1;
    bitf "csum_complete_sw" 13 1 1; bitf "csum_level" 14 2 1; bitf "inner_protocol_type" 16 1 1;
    bitf "l4_hash" 17 1 1; bitf "sw_hash" 18 1 1; bitf "wifi_acked_valid" 19 1 1;
    bitf "wifi_acked" 20 1 1; bitf "no_fcs" 21 1 1; bitf "encapsulation" 22 1 1;
    bitf "encap_hdr_csum" 23 1 1; bitf "csum_valid" 24 1 1; bitf "ndisc_nodetype" 25 2 1;
    bitf "ipvs_property" 27 1 1; bitf "nf_trace" 28 1 1; bitf "offload_fwd_mark" 29 1 1;
    bitf "offload_l3_fwd_mark" 30 1 1; bitf "redirected" 31 1 1; bitf "from_ingress" 32 1 1;
    bitf "nf_skip_egress" 33 1 1; bitf "decrypted" 34 1 1; bitf "slow_gro" 35 1 1;
    bitf "csum_not_inet" 36 1 1; bitf "unreadable" 37 1 1; mem "tc_index" 48 2;
    mem "alloc_cpu" 64 2; sub "" 96 4 [mem "csum" 0 4; sub "" 0 4 [mem "csum_start" 0 2;
    mem "csum_offset" 16 2]]; mem "priority" 128 4; mem "skb_iif" 160 4; mem "hash" 192 4;
    sub "" 224 4 [mem "vlan_all" 0 4; sub "" 0 4 [mem "vlan_proto" 0 2; mem "vlan_tci" 16 2]];
    sub "" 256 4 [mem "napi_id" 0 4; mem "sender_cpu" 0 4]; mem "secmark" 288 4;
    sub "" 320 4 [mem "mark" 0 4; mem "reserved_tailroom" 0 4];
    sub "" 352 2 [mem "inner_protocol" 0 2; mem "inner_ipproto" 0 1];
    mem "inner_transport_header" 368 2; mem "inner_network_header" 384 2;
    mem "inner_mac_header" 400 2; mem "protocol" 416 2; mem "transport_header" 432 2;
    mem "network_header" 448 2; mem "mac_header" 464 2]]; mem "tail" 1504 4; mem "end" 1536 4;
    mem "head" 1600 8; mem "data" 1664 8; mem "truesize" 1728 4; mem "users" 1760 4;
    mem "extensions" 1792 8])].

Definition core_relos : list (string * Z * string * list nat * list string * Z * Z) := [
  ("kprobe/tcp_sendmsg", 0, "struct pt_regs", [12]%nat, ["dx"], 96, 8);
  ("kprobe/tcp_sendmsg", 1, "struct pt_regs", [13]%nat, ["si"], 104, 8);
  ("kprobe/tcp_sendmsg", 2, "struct pt_regs", [14]%nat, ["di"], 112, 8);
  ("kprobe/tcp_sendmsg", 66, "struct sock", [0; 3]%nat, ["__sk_common"; "skc_family"], 16, 2);
  ("kprobe/tcp_sendmsg", 73, "struct sock", [0; 2; 1; 1]%nat, ["__sk_common"; "skc_num"], 14, 2);
  ("kprobe/tcp_sendmsg", 86, "struct sock", [0; 2; 1; 0]%nat, ["__sk_common"; "skc_dport"], 12, 2);
  ("kprobe/tcp_sendmsg", 103, "struct sock", [0; 15; 0; 2]%nat,
    ["__sk_common"; "skc_v6_rcv_saddr"; "in6_u"; "u6_addr32"], 72, 16);
  ("kprobe/tcp_sendmsg", 110, "struct sock", [0; 14; 0; 2]%nat,
    ["__sk_common"; "skc_v6_daddr"; "in6_u"; "u6_addr32"], 56, 16);
  ("kprobe/tcp_sendmsg", 120, "struct sock", [0; 0; 1; 1]%nat,
    ["__sk_common"; "skc_rcv_saddr"], 4, 4);
  ("kprobe/tcp_sendmsg", 138, "struct sock", [0; 0; 1; 0]%nat, ["__sk_common"; "skc_daddr"], 0, 4);
  ("kprobe/tcp_sendmsg", 201, "struct msghdr", [3]%nat, ["msg_iter"], 16, 40);
  ("kprobe/tcp_sendmsg", 203, "struct iov_iter", [0]%nat, ["iter_type"], 0, 1);
  ("kprobe/tcp_sendmsg", 213, "struct iov_iter", [4; 1; 0; 5]%nat, ["ubuf"], 16, 8);
  ("kprobe/tcp_sendmsg", 223, "struct iov_iter", [4; 1; 0; 0]%nat, ["__iov"], 16, 8);
  ("kprobe/tcp_sendmsg", 230, "struct iovec", [0]%nat, ["iov_base"], 0, 8);
  ("kprobe/tcp_recvmsg", 0, "struct pt_regs", [13]%nat, ["si"], 104, 8);
  ("kprobe/tcp_recvmsg", 1, "struct pt_regs", [14]%nat, ["di"], 112, 8);
  ("kprobe/tcp_recvmsg", 3, "struct msghdr", [3]%nat, ["msg_iter"], 16, 40);
  ("kprobe/tcp_recvmsg", 5, "struct iov_iter", [0]%nat, ["iter_type"], 0, 1);
  ("kprobe/tcp_recvmsg", 16, "struct iov_iter", [4; 1; 0; 5]%nat, ["ubuf"], 16, 8);
  ("kprobe/tcp_recvmsg", 23, "struct iov_iter", [4; 1; 0; 0]%nat, ["__iov"], 16, 8);
  ("kprobe/tcp_recvmsg", 30, "struct iovec", [0]%nat, ["iov_base"], 0, 8);
  ("kretprobe/tcp_recvmsg", 0, "struct pt_regs", [10]%nat, ["ax"], 80, 8);
  ("kretprobe/tcp_recvmsg", 85, "struct sock", [0; 3]%nat, ["__sk_common"; "skc_family"], 16, 2);
  ("kretprobe/tcp_recvmsg", 92, "struct sock", [0; 2; 1; 1]%nat,
    ["__sk_common"; "skc_num"], 14, 2);
  ("kretprobe/tcp_recvmsg", 105, "struct sock", [0; 2; 1; 0]%nat,
    ["__sk_common"; "skc_dport"], 12, 2);
  ("kretprobe/tcp_recvmsg", 122, "struct sock", [0; 15; 0; 2]%nat,
    ["__sk_common"; "skc_v6_rcv_saddr"; "in6_u"; "u6_addr32"], 72, 16);
  ("kretprobe/tcp_recvmsg", 129, "struct sock", [0; 14; 0; 2]%nat,
    ["__sk_common"; "skc_v6_daddr"; "in6_u"; "u6_addr32"], 56, 16);
  ("kretprobe/tcp_recvmsg", 139, "struct sock", [0; 0; 1; 1]%nat,
    ["__sk_common"; "skc_rcv_saddr"], 4, 4);
  ("kretprobe/tcp_recvmsg", 157, "struct sock", [0; 0; 1; 0]%nat,
    ["__sk_common"; "skc_daddr"], 0, 4);
  ("tp/sock/inet_sock_set_state", 0, "struct trace_event_raw_inet_sock_set_state", [7]%nat,
    ["protocol"], 30, 2);
  ("tp/sock/inet_sock_set_state", 2, "struct trace_event_raw_inet_sock_set_state", [1]%nat,
    ["skaddr"], 8, 8);
  ("tp/sock/inet_sock_set_state", 4, "struct trace_event_raw_inet_sock_set_state", [3]%nat,
    ["newstate"], 20, 4);
  ("tp/sock/inet_sock_set_state", 39, "struct trace_event_raw_inet_sock_set_state", [2]%nat,
    ["oldstate"], 16, 4);
  ("tp/sock/inet_sock_set_state", 45, "struct trace_event_raw_inet_sock_set_state", [3]%nat,
    ["newstate"], 20, 4);
  ("tp/sock/inet_sock_set_state", 47, "struct trace_event_raw_inet_sock_set_state", [3]%nat,
    ["newstate"], 20, 4);
  ("uprobe/SSL_free", 0, "struct pt_regs", [14]%nat, ["di"], 112, 8);
  ("uprobe/SSL_set_fd", 0, "struct pt_regs", [13]%nat, ["si"], 104, 8);
  ("uprobe/SSL_set_fd", 1, "struct pt_regs", [14]%nat, ["di"], 112, 8);
  ("uprobe/SSL_write", 0, "struct pt_regs", [13]%nat, ["si"], 104, 8);
  ("uprobe/SSL_write", 1, "struct pt_regs", [14]%nat, ["di"], 112, 8);
  ("uprobe/SSL_write", 3, "struct pt_regs", [12]%nat, ["dx"], 96, 8);
  ("uprobe/SSL_read", 0, "struct pt_regs", [14]%nat, ["di"], 112, 8);
  ("uprobe/SSL_read", 1, "struct pt_regs", [13]%nat, ["si"], 104, 8);
  ("uretprobe/SSL_read", 0, "struct pt_regs", [10]%nat, ["ax"], 80, 8)].
