(* ===== verification/HeaderLayout.v ===== *)
(** The other types of [kernel_btf]: how gcc lays out bpf/vmlinux.h for x86-64, in the
    rows of ObjectBtf.  The programs' object does not contain these types; the tables are
    from the BTF of the compiled header (gcc -gbtf -fms-extensions). *)
From S2P Require Import Prelude CLayout KernelTypes ObjectBtf.

#[local] Open Scope string_scope.
#[local] Open Scope Z_scope.

Definition header_layout : list (string * Z * list row) := [
  ("struct inet_cork", 64, [mem "flags" 0 4; mem "addr" 32 4; mem "opt" 64 8;
    mem "fragsize" 128 4; mem "length" 160 4; mem "dst" 192 8; mem "tx_flags" 256 1;
    mem "ttl" 264 1; mem "tos" 272 2; mem "priority" 288 4; mem "gso_size" 320 2;
    mem "ts_opt_id" 352 4; mem "transmit_time" 384 8; mem "mark" 448 4]);
  ("struct flowi_tunnel", 8, [mem "tun_id" 0 8]);
  ("struct flowi_common", 40, [mem "flowic_oif" 0 4; mem "flowic_iif" 32 4;
    mem "flowic_l3mdev" 64 4; mem "flowic_mark" 96 4; mem "flowic_dscp" 128 1;
    mem "flowic_scope" 136 1; mem "flowic_proto" 144 1; mem "flowic_flags" 152 1;
    mem "flowic_secid" 160 4; mem "flowic_uid" 192 4; mem "flowic_multipath_hash" 224 4;
    mem "flowic_tun_key" 256 8]);
  ("union flowi_uli", 4, [sub "ports" 0 4 [mem "dport" 0 2; mem "sport" 16 2];
    sub "icmpt" 0 2 [mem "type" 0 1; mem "code" 8 1]; mem "gre_key" 0 4;
    sub "mht" 0 1 [mem "type" 0 1]]);
  ("struct flowi4", 56, [mem "__fl_common" 0 40; mem "saddr" 320 4; mem "daddr" 352 4;
    mem "uli" 384 4]);
  ("struct flowi6", 88, [mem "__fl_common" 0 40; mem "daddr" 320 16; mem "saddr" 448 16;
    mem "flowlabel" 576 4; mem "uli" 608 4; mem "mp_hash" 640 4]);
  ("struct flowi", 88, [sub "u" 0 88 [mem "__fl_common" 0 40; mem "ip4" 0 56; mem "ip6" 0 88]]);
  ("struct inet6_cork", 16, [mem "opt" 0 8; mem "hop_limit" 64 1; mem "tclass" 72 1;
    bitf "dontfrag" 80 1 1]);
  ("struct inet_cork_full", 168, [mem "base" 0 64; mem "fl" 512 88; mem "base6" 1216 16]);
  ("struct inet_sock", 1056, [mem "sk" 0 808; mem "pinet6" 6464 8; mem "ipv6_fl_list" 6528 8;
    mem "inet_flags" 6592 8; mem "inet_saddr" 6656 4; mem "uc_ttl" 6688 2;
    mem "inet_sport" 6704 2; mem "inet_opt" 6720 8; mem "inet_id" 6784 4; mem "tos" 6816 1;
    mem "min_ttl" 6824 1; mem "mc_ttl" 6832 1; mem "pmtudisc" 6840 1; mem "rcv_tos" 6848 1;
    mem "convert_csum" 6856 1; mem "uc_index" 6880 4; mem "mc_index" 6912 4;
    mem "mc_addr" 6944 4; mem "local_port_range" 6976 4; mem "mc_list" 7040 8;
    mem "cork" 7104 168]);
  ("struct fastopen_queue", 40, [mem "rskq_rst_head" 0 8; mem "rskq_rst_tail" 64 8;
    mem "lock" 128 4; mem "qlen" 160 4; mem "max_qlen" 192 4; mem "ctx" 256 8]);
  ("struct request_sock_queue", 72, [mem "rskq_lock" 0 4; mem "rskq_defer_accept" 32 1;
    mem "synflood_warned" 40 1; mem "qlen" 64 4; mem "young" 96 4; mem "rskq_accept_head" 128 8;
    mem "rskq_accept_tail" 192 8; mem "fastopenq" 256 40]);
  ("struct inet_connection_sock", 1440, [mem "icsk_inet" 0 1056; mem "icsk_accept_queue" 8448 72;
    mem "icsk_bind_hash" 9024 8; mem "icsk_bind2_hash" 9088 8; mem "icsk_delack_timer" 9152 40;
    sub "" 9472 40 [mem "icsk_keepalive_timer" 0 40; mem "mptcp_tout_timer" 0 40];
    mem "icsk_rto" 9792 4; mem "icsk_rto_min" 9824 4; mem "icsk_rto_max" 9856 4;
    mem "icsk_delack_max" 9888 4; mem "icsk_pmtu_cookie" 9920 4; mem "icsk_ca_ops" 9984 8;
    mem "icsk_af_ops" 10048 8; mem "icsk_ulp_ops" 10112 8; mem "icsk_ulp_data" 10176 8;
    mem "icsk_sync_mss" 10240 8; bitf "icsk_ca_state" 10304 5 1;
    bitf "icsk_ca_initialized" 10309 1 1; bitf "icsk_ca_setsockopt" 10310 1 1;
    bitf "icsk_ca_dst_locked" 10311 1 1; mem "icsk_retransmits" 10312 1;
    mem "icsk_pending" 10320 1; mem "icsk_backoff" 10328 1; mem "icsk_syn_retries" 10336 1;
    mem "icsk_probes_out" 10344 1; mem "icsk_ext_hdr_len" 10352 2;
    sub "icsk_ack" 10368 16 [mem "pending" 0 1; mem "quick" 8 1; mem "pingpong" 16 1;
    mem "retry" 24 1; bitf "ato" 32 8 4; bitf "lrcv_flowlabel" 40 20 4;
    bitf "dst_quick_ack" 60 1 4; bitf "unused" 61 3 4; mem "lrcvtime" 64 4;
    mem "last_seg_size" 96 2; mem "rcv_mss" 112 2];
    sub "icsk_mtup" 10496 16 [mem "search_high" 0 4; mem "search_low" 32 4;
    bitf "probe_size" 64 31 4; bitf "enabled" 95 1 4; mem "probe_timestamp" 96 4];
    mem "icsk_probes_tstamp" 10624 4; mem "icsk_user_timeout" 10656 4;
    mem "icsk_ca_priv" 10688 104]);
  ("struct minmax_sample", 8, [mem "t" 0 4; mem "v" 32 4]);
  ("struct minmax", 24, [mem "s" 0 24]);
  ("struct tcp_options_received", 24, [mem "ts_recent_stamp" 0 4; mem "ts_recent" 32 4;
    mem "rcv_tsval" 64 4; mem "rcv_tsecr" 96 4; bitf "saw_tstamp" 128 1 2;
    bitf "tstamp_ok" 129 1 2; bitf "dsack" 130 1 2; bitf "wscale_ok" 131 1 2;
    bitf "sack_ok" 132 3 2; bitf "smc_ok" 135 1 2; bitf "snd_wscale" 136 4 2;
    bitf "rcv_wscale" 140 4 2; bitf "accecn" 144 6 1; bitf "saw_unknown" 150 1 1;
    bitf "unused" 151 1 1; mem "num_sacks" 152 1; mem "user_mss" 160 2; mem "mss_clamp" 176 2]);
  ("struct tcp_rack", 24, [mem "mstamp" 0 8; mem "rtt_us" 64 4; mem "end_seq" 96 4;
    mem "last_delivered" 128 4; mem "reo_wnd_steps" 160 1; bitf "reo_wnd_persist" 168 5 1;
    bitf "dsack_seen" 173 1 1; bitf "advanced" 174 1 1]);
  ("struct tcp_sack_block", 8, [mem "start_seq" 0 4; mem "end_seq" 32 4]);
  ("struct tcp_sock", 2368, [mem "inet_conn" 0 1440;
    mem "__cacheline_group_begin__tcp_sock_read_tx" 11520 0; mem "max_window" 11520 4;
    mem "rcv_ssthresh" 11552 4; mem "reordering" 11584 4; mem "notsent_lowat" 11616 4;
    mem "gso_segs" 11648 2; mem "retransmit_skb_hint" 11712 8; mem "tcp_clean_acked" 11776 8;
    mem "__cacheline_group_end__tcp_sock_read_tx" 11840 0;
    mem "__cacheline_group_begin__tcp_sock_read_txrx" 11840 0; mem "tsoffset" 11840 4;
    mem "snd_wnd" 11872 4; mem "mss_cache" 11904 4; mem "snd_cwnd" 11936 4;
    mem "prr_out" 11968 4; mem "lost_out" 12000 4; mem "sacked_out" 12032 4;
    mem "tcp_header_len" 12064 2; mem "scaling_ratio" 12080 1; bitf "chrono_type" 12088 2 1;
    bitf "repair" 12090 1 1; bitf "tcp_usec_ts" 12091 1 1; bitf "is_sack_reneg" 12092 1 1;
    bitf "is_cwnd_limited" 12093 1 1; bitf "recvmsg_inq" 12094 1 1;
    mem "__cacheline_group_end__tcp_sock_read_txrx" 12096 0;
    mem "__cacheline_group_begin__tcp_sock_read_rx" 12096 0; mem "copied_seq" 12096 4;
    mem "snd_wl1" 12128 4; mem "tlp_high_seq" 12160 4; mem "rttvar_us" 12192 4;
    mem "retrans_out" 12224 4; mem "advmss" 12256 2; mem "urg_data" 12272 2; mem "lost" 12288 4;
    mem "snd_ssthresh" 12320 4; mem "rtt_min" 12352 24; mem "out_of_order_queue" 12544 8;
    mem "__cacheline_group_end__tcp_sock_read_rx" 12608 0;
    mem "__cacheline_group_begin__tcp_sock_write_tx" 12800 0; mem "segs_out" 12800 4;
    mem "data_segs_out" 12832 4; mem "bytes_sent" 12864 8; mem "snd_sml" 12928 4;
    mem "chrono_start" 12960 4; mem "chrono_stat" 12992 12; mem "write_seq" 13088 4;
    mem "pushed_seq" 13120 4; mem "lsndtime" 13152 4; mem "mdev_us" 13184 4;
    mem "rtt_seq" 13216 4; mem "tcp_wstamp_ns" 13248 8; mem "accecn_opt_tstamp" 13312 8;
    mem "tsorted_sent_queue" 13376 16; mem "highest_sack" 13504 8; mem "ecn_flags" 13568 1;
    mem "__cacheline_group_end__tcp_sock_write_tx" 13576 0;
    mem "__cacheline_group_begin__tcp_sock_write_txrx" 13576 0; bitf "nonagle" 13576 4 1;
    bitf "rate_app_limited" 13580 1 1; bitf "received_ce_pending" 13584 4 1;
    bitf "accecn_opt_sent_w_dsack" 13588 1 1; bitf "unused2" 13589 3 1;
    bitf "accecn_minlen" 13592 2 1; bitf "est_ecnfield" 13594 2 1;
    bitf "accecn_opt_demand" 13596 2 1; bitf "prev_ecnfield" 13598 2 1; mem "pred_flags" 13600 4;
    mem "tcp_clock_cache" 13632 8; mem "tcp_mstamp" 13696 8; mem "rcv_nxt" 13760 4;
    mem "snd_nxt" 13792 4; mem "snd_una" 13824 4; mem "window_clamp" 13856 4;
    mem "srtt_us" 13888 4; mem "packets_out" 13920 4; mem "snd_up" 13952 4;
    mem "delivered" 13984 4; mem "delivered_ce" 14016 4; mem "received_ce" 14048 4;
    mem "received_ecn_bytes" 14080 12; mem "app_limited" 14176 4; mem "rcv_wnd" 14208 4;
    mem "rcv_tstamp" 14240 4; mem "rx_opt" 14272 24;
    mem "__cacheline_group_end__tcp_sock_write_txrx" 14464 0;
    mem "__cacheline_group_begin__tcp_sock_write_rx" 14464 0; mem "bytes_received" 14464 8;
    mem "segs_in" 14528 4; mem "data_segs_in" 14560 4; mem "rcv_wup" 14592 4;
    mem "max_packets_out" 14624 4; mem "cwnd_usage_seq" 14656 4; mem "rate_delivered" 14688 4;
    mem "rate_interval_us" 14720 4; mem "rcv_rtt_last_tsecr" 14752 4;
    mem "delivered_ecn_bytes" 14784 12; mem "pkts_acked_ewma" 14880 2;
    mem "first_tx_mstamp" 14912 8; mem "delivered_mstamp" 14976 8; mem "bytes_acked" 15040 8;
    sub "rcv_rtt_est" 15104 16 [mem "rtt_us" 0 4; mem "seq" 32 4; mem "time" 64 8];
    sub "rcvq_space" 15232 16 [mem "space" 0 4; mem "seq" 32 4; mem "time" 64 8];
    mem "__cacheline_group_end__tcp_sock_write_rx" 15360 0; mem "dsack_dups" 15360 4;
    mem "compressed_ack_rcv_nxt" 15392 4; mem "tsq_node" 15424 16; mem "rack" 15552 24;
    mem "compressed_ack" 15744 1; bitf "dup_ack_counter" 15752 2 1; bitf "tlp_retrans" 15754 1 1;
    bitf "syn_ect_snt" 15755 2 1; bitf "syn_ect_rcv" 15757 2 1; bitf "thin_lto" 15759 1 1;
    bitf "fastopen_connect" 15760 1 1; bitf "fastopen_no_cookie" 15761 1 1;
    bitf "fastopen_client_fail" 15762 2 1; bitf "frto" 15764 1 1; mem "repair_queue" 15768 1;
    bitf "save_syn" 15776 2 1; bitf "syn_data" 15778 1 1; bitf "syn_fastopen" 15779 1 1;
    bitf "syn_fastopen_exp" 15780 1 1; bitf "syn_fastopen_ch" 15781 1 1;
    bitf "syn_data_acked" 15782 1 1; bitf "syn_fastopen_child" 15783 1 1;
    mem "keepalive_probes" 15784 1; bitf "accecn_fail_mode" 15792 4 1;
    bitf "saw_accecn_opt" 15796 2 1; mem "tcp_tx_delay" 15808 4; mem "mdev_max_us" 15840 4;
    mem "reord_seen" 15872 4; mem "snd_cwnd_cnt" 15904 4; mem "snd_cwnd_clamp" 15936 4;
    mem "snd_cwnd_used" 15968 4; mem "snd_cwnd_stamp" 16000 4; mem "prior_cwnd" 16032 4;
    mem "prr_delivered" 16064 4; mem "last_oow_ack_time" 16096 4; mem "pacing_timer" 16128 64;
    mem "compressed_ack_timer" 16640 64; mem "ooo_last_skb" 17152 8;
    mem "duplicate_sack" 17216 8; mem "selective_acks" 17280 32; mem "recv_sack_cache" 17536 32;
    mem "prior_ssthresh" 17792 4; mem "high_seq" 17824 4; mem "retrans_stamp" 17856 4;
    mem "undo_marker" 17888 4; mem "undo_retrans" 17920 4; mem "mtu_info" 17952 4;
    mem "bytes_retrans" 17984 8; mem "total_retrans" 18048 4; mem "rto_stamp" 18080 4;
    mem "total_rto" 18112 2; mem "total_rto_recoveries" 18128 2; mem "total_rto_time" 18144 4;
    mem "urg_seq" 18176 4; mem "keepalive_time" 18208 4; mem "keepalive_intvl" 18240 4;
    mem "linger2" 18272 4; mem "bpf_sock_ops_cb_flags" 18304 1;
    bitf "bpf_chg_cc_inprogress" 18312 1 1; mem "timeout_rehash" 18320 2;
    mem "rcv_ooopack" 18336 4; sub "mtu_probe" 18368 8 [mem "probe_seq_start" 0 4;
    mem "probe_seq_end" 32 4]; mem "plb_rehash" 18432 4; mem "is_mptcp" 18464 1;
    mem "syn_smc" 18472 1; mem "smc_hs_congested" 18496 8; mem "af_specific" 18560 8;
    mem "md5sig_info" 18624 8; mem "ao_info" 18688 8; mem "fastopen_req" 18752 8;
    mem "fastopen_rsk" 18816 8; mem "saved_syn" 18880 8]);
  ("struct in6_pktinfo", 20, [mem "ipi6_addr" 0 16; mem "ipi6_ifindex" 128 4]);
  ("struct ipv6_pinfo", 128, [mem "saddr" 0 16; sub "" 128 16 [mem "daddr" 0 16;
    mem "final" 0 16]; mem "flow_label" 256 4; mem "dst_cookie" 288 4; mem "opt" 320 8;
    mem "hop_limit" 384 2; mem "pmtudisc" 400 1; mem "tclass" 408 1; mem "saddr_cache" 416 1;
    mem "daddr_cache" 424 1; mem "mcast_hops" 432 1; mem "frag_size" 448 4;
    mem "ucast_oif" 480 4; mem "mcast_oif" 512 4;
    sub "rxopt" 544 2 [sub "bits" 0 2 [bitf "srcrt" 0 1 2; bitf "osrcrt" 1 1 2;
    bitf "rxinfo" 2 1 2; bitf "rxoinfo" 3 1 2; bitf "rxhlim" 4 1 2; bitf "rxohlim" 5 1 2;
    bitf "hopopts" 6 1 2; bitf "ohopopts" 7 1 2; bitf "dstopts" 8 1 2; bitf "odstopts" 9 1 2;
    bitf "rxflow" 10 1 2; bitf "rxtclass" 11 1 2; bitf "rxpmtu" 12 1 2;
    bitf "rxorigdstaddr" 13 1 2; bitf "recvfragsize" 14 1 2]; mem "all" 0 2];
    mem "srcprefs" 560 1; mem "min_hopcount" 568 1; mem "rcv_flowinfo" 576 4;
    mem "sticky_pktinfo" 608 20; mem "pktoptions" 768 8; mem "rxpmtu" 832 8;
    mem "ipv6_mc_list" 896 8; mem "ipv6_ac_list" 960 8]);
  ("struct tcp6_sock", 2496, [mem "tcp" 0 2368; mem "inet6" 18944 128]);
  ("struct request_sock", 232, [mem "__req_common" 0 136; mem "dl_next" 1088 8; mem "mss" 1152 2;
    mem "num_retrans" 1168 1; bitf "syncookie" 1176 1 1; bitf "num_timeout" 1177 7 1;
    mem "ts_recent" 1184 4; mem "rsk_timer" 1216 40; mem "rsk_ops" 1536 8; mem "sk" 1600 8;
    mem "saved_syn" 1664 8; mem "secid" 1728 4; mem "peer_secid" 1760 4; mem "timeout" 1792 4]);
  ("struct inet_request_sock", 256, [mem "req" 0 232; bitf "snd_wscale" 1856 4 2;
    bitf "rcv_wscale" 1860 4 2; bitf "tstamp_ok" 1864 1 2; bitf "sack_ok" 1865 1 2;
    bitf "wscale_ok" 1866 1 2; bitf "ecn_ok" 1867 1 2; bitf "acked" 1868 1 2;
    bitf "no_srccheck" 1869 1 2; bitf "smc_ok" 1870 1 2; mem "ir_mark" 1888 4;
    sub "" 1920 16 [mem "ireq_opt" 0 8; sub "" 0 16 [mem "ipv6_opt" 0 8; mem "pktopts" 64 8]]]);
  ("struct tcp_request_sock", 320, [mem "req" 0 256; mem "af_specific" 2048 8;
    mem "snt_synack" 2112 8; mem "tfo_listener" 2176 1; mem "is_mptcp" 2184 1;
    mem "req_usec_ts" 2192 1; mem "drop_req" 2200 1; mem "txhash" 2208 4; mem "rcv_isn" 2240 4;
    mem "snt_isn" 2272 4; mem "ts_off" 2304 4; mem "snt_tsval_first" 2336 4;
    mem "snt_tsval_last" 2368 4; mem "last_oow_ack_time" 2400 4; mem "rcv_nxt" 2432 4;
    mem "syn_tos" 2464 1; mem "accecn_ok" 2472 1; bitf "syn_ect_snt" 2480 2 1;
    bitf "syn_ect_rcv" 2482 2 1; bitf "accecn_fail_mode" 2484 4 1;
    bitf "saw_accecn_opt" 2488 2 1; mem "ao_keyid" 2496 1; mem "ao_rcv_next" 2504 1;
    mem "used_tcp_ao" 2512 1]);
  ("struct inet_timewait_sock", 232, [mem "__tw_common" 0 136; mem "tw_mark" 1088 4;
    mem "tw_substate" 1120 1; mem "tw_rcv_wscale" 1128 1; mem "tw_sport" 1136 2;
    bitf "tw_transparent" 1152 1 4; bitf "tw_flowlabel" 1153 20 4; bitf "tw_usec_ts" 1173 1 4;
    bitf "tw_connect_bind" 1174 1 4; bitf "tw_pad" 1175 1 4; bitf "tw_tos" 1176 8 4;
    mem "tw_txhash" 1184 4; mem "tw_priority" 1216 4; mem "tw_entry_stamp" 1248 4;
    mem "tw_timer" 1280 40; mem "tw_tb" 1600 8; mem "tw_tb2" 1664 8; mem "psp_assoc" 1728 8;
    mem "tw_validate_xmit_skb" 1792 8]);
  ("struct tcp_timewait_sock", 272, [mem "tw_sk" 0 232; mem "tw_rcv_wnd" 1856 4;
    mem "tw_ts_offset" 1888 4; mem "tw_ts_recent" 1920 4; mem "tw_last_oow_ack_time" 1952 4;
    mem "tw_ts_recent_stamp" 1984 4; mem "tw_tx_delay" 2016 4; mem "tw_md5_key" 2048 8;
    mem "ao_info" 2112 8]);
  ("struct proto", 448, [mem "close" 0 8; mem "pre_connect" 64 8; mem "connect" 128 8;
    mem "disconnect" 192 8; mem "accept" 256 8; mem "ioctl" 320 8; mem "init" 384 8;
    mem "destroy" 448 8; mem "shutdown" 512 8; mem "setsockopt" 576 8; mem "getsockopt" 640 8;
    mem "keepalive" 704 8; mem "compat_ioctl" 768 8; mem "sendmsg" 832 8; mem "recvmsg" 896 8;
    mem "splice_eof" 960 8; mem "bind" 1024 8; mem "bind_add" 1088 8; mem "backlog_rcv" 1152 8;
    mem "bpf_bypass_getsockopt" 1216 8; mem "release_cb" 1280 8; mem "hash" 1344 8;
    mem "unhash" 1408 8; mem "rehash" 1472 8; mem "get_port" 1536 8; mem "put_port" 1600 8;
    mem "psock_update_sk_prot" 1664 8; mem "inuse_idx" 1728 4; mem "stream_memory_free" 1792 8;
    mem "sock_is_readable" 1856 8; mem "enter_memory_pressure" 1920 8;
    mem "leave_memory_pressure" 1984 8; mem "memory_allocated" 2048 8;
    mem "per_cpu_fw_alloc" 2112 8; mem "sockets_allocated" 2176 8; mem "memory_pressure" 2240 8;
    mem "sysctl_mem" 2304 8; mem "sysctl_wmem" 2368 8; mem "sysctl_rmem" 2432 8;
    mem "sysctl_wmem_offset" 2496 4; mem "sysctl_rmem_offset" 2528 4; mem "max_header" 2560 4;
    mem "no_autobind" 2592 1; mem "slab" 2624 8; mem "obj_size" 2688 4;
    mem "freeptr_offset" 2720 4; mem "ipv6_pinfo_offset" 2752 4; mem "slab_flags" 2784 4;
    mem "useroffset" 2816 4; mem "usersize" 2848 4; mem "rsk_prot" 2880 8;
    mem "twsk_prot" 2944 8; sub "h" 3008 8 [mem "hashinfo" 0 8; mem "udp_table" 0 8;
    mem "raw_hash" 0 8; mem "smc_hash" 0 8]; mem "owner" 3072 8; mem "name" 3136 32;
    mem "node" 3392 16; mem "diag_destroy" 3520 8]);
  ("struct socket_wq", 64, [mem "wait" 0 24; mem "fasync_list" 192 8; mem "flags" 256 8;
    mem "rcu" 320 16]);
  ("struct socket", 128, [mem "state" 0 4; mem "type" 32 2; mem "flags" 64 8; mem "file" 128 8;
    mem "sk" 192 8; mem "ops" 256 8; mem "wq" 512 64]);
  ("struct inode_state_flags", 4, [mem "__state" 0 4]);
  ("struct inode", 608, [mem "i_mode" 0 2; mem "i_opflags" 16 2; mem "i_flags" 32 4;
    mem "i_acl" 64 8; mem "i_default_acl" 128 8; mem "i_uid" 192 4; mem "i_gid" 224 4;
    mem "i_op" 256 8; mem "i_sb" 320 8; mem "i_mapping" 384 8; mem "i_security" 448 8;
    mem "i_ino" 512 8; sub "" 576 4 [mem "i_nlink" 0 4; mem "__i_nlink" 0 4]; mem "i_rdev" 608 4;
    mem "i_size" 640 8; mem "i_atime_sec" 704 8; mem "i_mtime_sec" 768 8;
    mem "i_ctime_sec" 832 8; mem "i_atime_nsec" 896 4; mem "i_mtime_nsec" 928 4;
    mem "i_ctime_nsec" 960 4; mem "i_generation" 992 4; mem "i_lock" 1024 4;
    mem "i_bytes" 1056 2; mem "i_blkbits" 1072 1; mem "i_write_hint" 1080 1;
    mem "i_blocks" 1088 8; mem "i_state" 1152 4; mem "i_rwsem" 1216 40;
    mem "dirtied_when" 1536 8; mem "dirtied_time_when" 1600 8; mem "i_hash" 1664 16;
    mem "i_io_list" 1792 16; mem "i_wb" 1920 8; mem "i_wb_frn_winner" 1984 4;
    mem "i_wb_frn_avg_time" 2016 2; mem "i_wb_frn_history" 2032 2; mem "i_lru" 2048 16;
    mem "i_sb_list" 2176 16; mem "i_wb_list" 2304 16; sub "" 2432 16 [mem "i_dentry" 0 8;
    mem "i_rcu" 0 16]; mem "i_version" 2560 8; mem "i_sequence" 2624 8; mem "i_count" 2688 4;
    mem "i_dio_count" 2720 4; mem "i_writecount" 2752 4; mem "i_readcount" 2784 4;
    sub "" 2816 8 [mem "i_fop" 0 8; mem "free_inode" 0 8]; mem "i_flctx" 2880 8;
    mem "i_data" 2944 192; sub "" 4480 16 [mem "i_devices" 0 16; mem "i_linklen" 0 4];
    sub "" 4608 8 [mem "i_pipe" 0 8; mem "i_cdev" 0 8; mem "i_link" 0 8; mem "i_dir_seq" 0 4];
    mem "i_fsnotify_mask" 4672 4; mem "i_fsnotify_marks" 4736 8; mem "i_private" 4800 8]);
  ("struct socket_alloc", 768, [mem "socket" 0 128; mem "vfs_inode" 1024 608]);
  ("struct idr", 24, [mem "idr_rt" 0 16; mem "idr_base" 128 4; mem "idr_next" 160 4]);
  ("struct ns_tree_node", 40, [mem "ns_node" 0 24; mem "ns_list_entry" 192 16]);
  ("struct ns_tree_root", 24, [mem "ns_rb" 0 8; mem "ns_list_head" 64 16]);
  ("struct ns_tree", 160, [mem "ns_id" 0 8; mem "__ns_ref_active" 64 4;
    mem "ns_unified_node" 128 40; mem "ns_tree_node" 448 40; mem "ns_owner_node" 768 40;
    mem "ns_owner_root" 1088 24]);
  ("struct ns_common", 256, [sub "" 0 64 [mem "__ns_ref" 0 4]; mem "ns_type" 512 4;
    mem "stashed" 576 8; mem "ops" 640 8; mem "inum" 704 4; sub "" 768 160 [mem "" 0 160;
    mem "ns_rcu" 0 16]]);
  ("struct ref_tracker_dir", 0, []);
  ("struct ctl_table_header", 88, [sub "" 0 24 [sub "" 0 24 [mem "ctl_table" 0 8;
    mem "ctl_table_size" 64 4; mem "used" 96 4; mem "count" 128 4; mem "nreg" 160 4];
    mem "rcu" 0 16]; mem "unregistering" 192 8; mem "ctl_table_arg" 256 8; mem "root" 320 8;
    mem "set" 384 8; mem "parent" 448 8; mem "node" 512 8; mem "inodes" 576 8; mem "type" 640 4]);
  ("struct ctl_dir", 96, [mem "header" 0 88; mem "root" 704 8]);
  ("struct ctl_table_set", 104, [mem "is_seen" 0 8; mem "dir" 64 96]);
  ("struct raw_notifier_head", 8, [mem "head" 0 8]);
  ("struct netns_core", 40, [mem "sysctl_hdr" 0 8; mem "sysctl_somaxconn" 64 4;
    mem "sysctl_txq_reselection" 96 4; mem "sysctl_optmem_max" 128 4;
    mem "sysctl_txrehash" 160 1; mem "sysctl_tstamp_allow_data" 168 1;
    mem "sysctl_bypass_prot_mem" 176 1; mem "prot_inuse" 192 8; mem "rps_default_mask" 256 8]);
  ("struct netns_mib", 128, [mem "ip_statistics" 0 8; mem "ipv6_statistics" 64 8;
    mem "tcp_statistics" 128 8; mem "net_statistics" 192 8; mem "udp_statistics" 256 8;
    mem "udp_stats_in6" 320 8; mem "xfrm_statistics" 384 8; mem "tls_statistics" 448 8;
    mem "mptcp_statistics" 512 8; mem "udplite_statistics" 576 8; mem "udplite_stats_in6" 640 8;
    mem "icmp_statistics" 704 8; mem "icmpmsg_statistics" 768 8; mem "icmpv6_statistics" 832 8;
    mem "icmpv6msg_statistics" 896 8; mem "proc_net_devsnmp6" 960 8]);
  ("struct netns_packet", 40, [mem "sklist_lock" 0 32; mem "sklist" 256 8]);
  ("struct unix_table", 16, [mem "locks" 0 8; mem "buckets" 64 8]);
  ("struct netns_unix", 32, [mem "table" 0 16; mem "sysctl_max_dgram_qlen" 128 4;
    mem "ctl" 192 8]);
  ("struct blocking_notifier_head", 48, [mem "rwsem" 0 40; mem "head" 320 8]);
  ("struct netns_nexthop", 72, [mem "rb_root" 0 8; mem "devhash" 64 8; mem "seq" 128 4;
    mem "last_id_allocated" 160 4; mem "notifier_chain" 192 48]);
  ("struct inet_timewait_death_row", 128, [mem "tw_refcount" 0 4; mem "hashinfo" 512 8;
    mem "sysctl_max_tw_buckets" 576 4]);
  ("struct udp_tunnel_gro", 16, [mem "sk" 0 8; mem "list" 64 8]);
  ("struct local_ports", 8, [mem "range" 0 4; mem "warned" 32 1]);
  ("struct seqcount", 4, [mem "sequence" 0 4]);
  ("struct seqcount_spinlock", 4, [mem "seqcount" 0 4]);
  ("struct seqlock", 8, [mem "seqcount" 0 4; mem "lock" 32 4]);
  ("struct ping_group_range", 16, [mem "lock" 0 8; mem "range" 64 8]);
  ("struct sysctl_fib_multipath_hash_seed", 8, [mem "user_seed" 0 4; mem "mp_seed" 32 4]);
  ("siphash_key_t", 16, [mem "key" 0 16]);
  ("struct delayed_work", 88, [mem "work" 0 32; mem "timer" 256 40; mem "wq" 576 8;
    mem "cpu" 640 4]);
  ("struct netns_ipv4", 1024, [mem "__cacheline_group_begin__netns_ipv4_read_tx" 0 0;
    mem "sysctl_tcp_early_retrans" 0 1; mem "sysctl_tcp_tso_win_divisor" 8 1;
    mem "sysctl_tcp_tso_rtt_log" 16 1; mem "sysctl_tcp_autocorking" 24 1;
    mem "sysctl_tcp_min_snd_mss" 32 4; mem "sysctl_tcp_notsent_lowat" 64 4;
    mem "sysctl_tcp_limit_output_bytes" 96 4; mem "sysctl_tcp_min_rtt_wlen" 128 4;
    mem "sysctl_tcp_wmem" 160 12; mem "sysctl_ip_fwd_use_pmtu" 256 1;
    mem "__cacheline_group_end__netns_ipv4_read_tx" 264 0;
    mem "__cacheline_group_begin__netns_ipv4_read_txrx" 264 0;
    mem "__cacheline_group_end__netns_ipv4_read_txrx" 264 0;
    mem "__cacheline_group_begin__netns_ipv4_read_rx" 264 0;
    mem "sysctl_tcp_moderate_rcvbuf" 264 1; mem "sysctl_ip_early_demux" 272 1;
    mem "sysctl_tcp_early_demux" 280 1; mem "sysctl_tcp_l3mdev_accept" 288 1;
    mem "sysctl_tcp_reordering" 320 4; mem "sysctl_tcp_rmem" 352 12;
    mem "sysctl_tcp_rcvbuf_low_rtt" 448 4; mem "__cacheline_group_end__netns_ipv4_read_rx" 480 0;
    mem "__cacheline_group_begin__icmp" 512 0; mem "icmp_global_credit" 512 4;
    mem "icmp_global_stamp" 544 4; mem "__cacheline_group_end__icmp" 576 0;
    mem "__cacheline_group_pad__icmp" 1024 0; mem "tcp_death_row" 1024 128;
    mem "udp_table" 2048 8; mem "udp_tunnel_gro" 2112 32; mem "forw_hdr" 2368 8;
    mem "frags_hdr" 2432 8; mem "ipv4_hdr" 2496 8; mem "route_hdr" 2560 8;
    mem "xfrm4_hdr" 2624 8; mem "devconf_all" 2688 8; mem "devconf_dflt" 2752 8;
    mem "ra_chain" 2816 8; mem "ra_mutex" 2880 32; mem "rules_ops" 3136 8; mem "fib_main" 3200 8;
    mem "fib_default" 3264 8; mem "fib_rules_require_fldissect" 3328 4;
    mem "fib_has_custom_rules" 3360 1; mem "fib_has_custom_local_routes" 3368 1;
    mem "fib_offload_disabled" 3376 1; mem "sysctl_tcp_shrink_window" 3384 1;
    mem "fib_num_tclassid_users" 3392 4; mem "fib_table_hash" 3456 8; mem "fibnl" 3520 8;
    mem "fib_info_hash" 3584 8; mem "fib_info_hash_bits" 3648 4; mem "fib_info_cnt" 3680 4;
    mem "mc_autojoin_sk" 3712 8; mem "peers" 3776 8; mem "fqdir" 3840 8;
    mem "sysctl_icmp_echo_ignore_all" 3904 1; mem "sysctl_icmp_echo_enable_probe" 3912 1;
    mem "sysctl_icmp_echo_ignore_broadcasts" 3920 1;
    mem "sysctl_icmp_ignore_bogus_error_responses" 3928 1;
    mem "sysctl_icmp_errors_use_inbound_ifaddr" 3936 1;
    mem "sysctl_icmp_errors_extension_mask" 3944 1; mem "sysctl_icmp_ratelimit" 3968 4;
    mem "sysctl_icmp_ratemask" 4000 4; mem "sysctl_icmp_msgs_per_sec" 4032 4;
    mem "sysctl_icmp_msgs_burst" 4064 4; mem "ip_rt_min_pmtu" 4096 4;
    mem "ip_rt_mtu_expires" 4128 4; mem "ip_rt_min_advmss" 4160 4; mem "ip_local_ports" 4192 8;
    mem "sysctl_tcp_ecn" 4256 1; mem "sysctl_tcp_ecn_option" 4264 1;
    mem "sysctl_tcp_ecn_option_beacon" 4272 1; mem "sysctl_tcp_ecn_fallback" 4280 1;
    mem "sysctl_ip_default_ttl" 4288 1; mem "sysctl_ip_no_pmtu_disc" 4296 1;
    mem "sysctl_ip_fwd_update_priority" 4304 1; mem "sysctl_ip_nonlocal_bind" 4312 1;
    mem "sysctl_ip_autobind_reuse" 4320 1; mem "sysctl_ip_dynaddr" 4328 1;
    mem "sysctl_raw_l3mdev_accept" 4336 1; mem "sysctl_udp_early_demux" 4344 1;
    mem "sysctl_nexthop_compat_mode" 4352 1; mem "sysctl_fwmark_reflect" 4360 1;
    mem "sysctl_tcp_fwmark_accept" 4368 1; mem "sysctl_tcp_mtu_probing" 4376 1;
    mem "sysctl_tcp_mtu_probe_floor" 4384 4; mem "sysctl_tcp_base_mss" 4416 4;
    mem "sysctl_tcp_probe_threshold" 4448 4; mem "sysctl_tcp_probe_interval" 4480 4;
    mem "sysctl_tcp_keepalive_time" 4512 4; mem "sysctl_tcp_keepalive_intvl" 4544 4;
    mem "sysctl_tcp_keepalive_probes" 4576 1; mem "sysctl_tcp_syn_retries" 4584 1;
    mem "sysctl_tcp_synack_retries" 4592 1; mem "sysctl_tcp_syncookies" 4600 1;
    mem "sysctl_tcp_migrate_req" 4608 1; mem "sysctl_tcp_comp_sack_nr" 4616 1;
    mem "sysctl_tcp_backlog_ack_defer" 4624 1; mem "sysctl_tcp_pingpong_thresh" 4632 1;
    mem "sysctl_tcp_retries1" 4640 1; mem "sysctl_tcp_retries2" 4648 1;
    mem "sysctl_tcp_orphan_retries" 4656 1; mem "sysctl_tcp_tw_reuse" 4664 1;
    mem "sysctl_tcp_tw_reuse_delay" 4672 4; mem "sysctl_tcp_fin_timeout" 4704 4;
    mem "sysctl_tcp_sack" 4736 1; mem "sysctl_tcp_window_scaling" 4744 1;
    mem "sysctl_tcp_timestamps" 4752 1; mem "sysctl_tcp_rto_min_us" 4768 4;
    mem "sysctl_tcp_rto_max_ms" 4800 4; mem "sysctl_tcp_recovery" 4832 1;
    mem "sysctl_tcp_thin_linear_timeouts" 4840 1; mem "sysctl_tcp_slow_start_after_idle" 4848 1;
    mem "sysctl_tcp_retrans_collapse" 4856 1; mem "sysctl_tcp_stdurg" 4864 1;
    mem "sysctl_tcp_rfc1337" 4872 1; mem "sysctl_tcp_abort_on_overflow" 4880 1;
    mem "sysctl_tcp_fack" 4888 1; mem "sysctl_tcp_max_reordering" 4896 4;
    mem "sysctl_tcp_adv_win_scale" 4928 4; mem "sysctl_tcp_dsack" 4960 1;
    mem "sysctl_tcp_app_win" 4968 1; mem "sysctl_tcp_frto" 4976 1;
    mem "sysctl_tcp_nometrics_save" 4984 1; mem "sysctl_tcp_no_ssthresh_metrics_save" 4992 1;
    mem "sysctl_tcp_workaround_signed_windows" 5000 1;
    mem "sysctl_tcp_challenge_ack_limit" 5024 4; mem "sysctl_tcp_min_tso_segs" 5056 1;
    mem "sysctl_tcp_reflect_tos" 5064 1; mem "sysctl_tcp_invalid_ratelimit" 5088 4;
    mem "sysctl_tcp_pacing_ss_ratio" 5120 4; mem "sysctl_tcp_pacing_ca_ratio" 5152 4;
    mem "sysctl_tcp_child_ehash_entries" 5184 4; mem "sysctl_tcp_comp_sack_rtt_percent" 5216 4;
    mem "sysctl_tcp_comp_sack_delay_ns" 5248 8; mem "sysctl_tcp_comp_sack_slack_ns" 5312 8;
    mem "sysctl_max_syn_backlog" 5376 4; mem "sysctl_tcp_fastopen" 5408 4;
    mem "tcp_congestion_control" 5440 8; mem "tcp_fastopen_ctx" 5504 8;
    mem "sysctl_tcp_fastopen_blackhole_timeout" 5568 4; mem "tfo_active_disable_times" 5600 4;
    mem "tfo_active_disable_stamp" 5632 8; mem "tcp_challenge_timestamp" 5696 4;
    mem "tcp_challenge_count" 5728 4; mem "sysctl_tcp_plb_enabled" 5760 1;
    mem "sysctl_tcp_plb_idle_rehash_rounds" 5768 1; mem "sysctl_tcp_plb_rehash_rounds" 5776 1;
    mem "sysctl_tcp_plb_suspend_rto_sec" 5784 1; mem "sysctl_tcp_plb_cong_thresh" 5792 4;
    mem "sysctl_udp_wmem_min" 5824 4; mem "sysctl_udp_rmem_min" 5856 4;
    mem "sysctl_fib_notify_on_flag_change" 5888 1; mem "sysctl_tcp_syn_linear_timeouts" 5896 1;
    mem "sysctl_udp_l3mdev_accept" 5904 1; mem "sysctl_igmp_llm_reports" 5912 1;
    mem "sysctl_igmp_max_memberships" 5920 4; mem "sysctl_igmp_max_msf" 5952 4;
    mem "sysctl_igmp_qrv" 5984 4; mem "ping_group_range" 6016 16; mem "ping_port_rover" 6144 2;
    mem "dev_addr_genid" 6176 4; mem "sysctl_udp_child_hash_entries" 6208 4;
    mem "sysctl_local_reserved_ports" 6272 8; mem "sysctl_ip_prot_sock" 6336 4;
    mem "mr_tables" 6400 16; mem "mr_rules_ops" 6528 8;
    mem "sysctl_fib_multipath_hash_seed" 6592 8; mem "sysctl_fib_multipath_hash_fields" 6656 4;
    mem "sysctl_fib_multipath_use_neigh" 6688 1; mem "sysctl_fib_multipath_hash_policy" 6696 1;
    mem "notifier_ops" 6720 8; mem "fib_seq" 6784 4; mem "ipmr_notifier_ops" 6848 8;
    mem "ipmr_seq" 6912 4; mem "rt_genid" 6944 4; mem "ip_id_key" 6976 16;
    mem "inet_addr_lst" 7104 8; mem "addr_chk_work" 7168 88]);
  ("struct percpu_counter", 40, [mem "lock" 0 4; mem "count" 64 8; mem "list" 128 16;
    mem "counters" 256 8]);
  ("struct dst_ops", 192, [mem "family" 0 2; mem "gc_thresh" 32 4; mem "gc" 64 8;
    mem "check" 128 8; mem "default_advmss" 192 8; mem "mtu" 256 8; mem "cow_metrics" 320 8;
    mem "destroy" 384 8; mem "ifdown" 448 8; mem "negative_advice" 512 8;
    mem "link_failure" 576 8; mem "update_pmtu" 640 8; mem "redirect" 704 8;
    mem "local_out" 768 8; mem "neigh_lookup" 832 8; mem "confirm_neigh" 896 8;
    mem "kmem_cachep" 960 8; mem "pcpuc_entries" 1024 40]);
  ("struct netns_sysctl_ipv6", 184, [mem "hdr" 0 8; mem "route_hdr" 64 8; mem "icmp_hdr" 128 8;
    mem "frags_hdr" 192 8; mem "xfrm6_hdr" 256 8; mem "flush_delay" 320 4;
    mem "ip6_rt_max_size" 352 4; mem "ip6_rt_gc_min_interval" 384 4;
    mem "ip6_rt_gc_timeout" 416 4; mem "ip6_rt_gc_interval" 448 4;
    mem "ip6_rt_gc_elasticity" 480 4; mem "ip6_rt_mtu_expires" 512 4;
    mem "ip6_rt_min_advmss" 544 4; mem "multipath_hash_fields" 576 4;
    mem "multipath_hash_policy" 608 1;
    mem "__cacheline_group_begin__sysctl_ipv6_flowlabel" 616 0;
    mem "flowlabel_consistency" 616 1; mem "auto_flowlabels" 624 1;
    mem "flowlabel_state_ranges" 632 1; mem "__cacheline_group_end__sysctl_ipv6_flowlabel" 640 0;
    mem "icmpv6_echo_ignore_all" 640 1; mem "icmpv6_echo_ignore_multicast" 648 1;
    mem "icmpv6_echo_ignore_anycast" 656 1; mem "icmpv6_time" 672 4;
    mem "icmpv6_ratemask" 704 32; mem "icmpv6_ratemask_ptr" 960 8;
    mem "anycast_src_echo_reply" 1024 1; mem "bindv6only" 1032 1; mem "ip_nonlocal_bind" 1040 1;
    mem "fwmark_reflect" 1048 1; mem "idgen_retries" 1056 4; mem "idgen_delay" 1088 4;
    mem "flowlabel_reflect" 1120 4; mem "max_dst_opts_cnt" 1152 4; mem "max_hbh_opts_cnt" 1184 4;
    mem "max_dst_opts_len" 1216 4; mem "max_hbh_opts_len" 1248 4; mem "seg6_flowlabel" 1280 4;
    mem "ioam6_id" 1312 4; mem "ioam6_id_wide" 1344 8; mem "skip_notify_on_dev_down" 1408 1;
    mem "fib_notify_on_flag_change" 1416 1; mem "icmpv6_error_anycast_as_unicast" 1424 1;
    mem "icmpv6_errors_extension_mask" 1432 1]);
  ("struct netns_ipv6", 832, [mem "ip6_dst_ops" 0 192; mem "sysctl" 1536 184;
    mem "devconf_all" 3008 8; mem "devconf_dflt" 3072 8; mem "peers" 3136 8; mem "fqdir" 3200 8;
    mem "fib6_null_entry" 3264 8; mem "ip6_null_entry" 3328 8; mem "rt6_stats" 3392 8;
    mem "ip6_fib_timer" 3456 40; mem "fib_table_hash" 3776 8; mem "fib_table_hash_lock" 3840 4;
    mem "fib6_main_tbl" 3904 8; mem "fib6_walkers" 3968 16; mem "fib6_walker_lock" 4096 8;
    mem "fib6_gc_lock" 4160 4; mem "ip6_rt_gc_expire" 4192 4; mem "ip6_rt_last_gc" 4224 8;
    mem "flowlabel_has_excl" 4288 1; mem "fib6_has_custom_rules" 4296 1;
    mem "fib6_rules_require_fldissect" 4320 4; mem "fib6_routes_require_src" 4352 4;
    mem "ip6_prohibit_entry" 4416 8; mem "ip6_blk_hole_entry" 4480 8;
    mem "fib6_local_tbl" 4544 8; mem "fib6_rules_ops" 4608 8; mem "ndisc_sk" 4672 8;
    mem "tcp_sk" 4736 8; mem "igmp_sk" 4800 8; mem "mc_autojoin_sk" 4864 8;
    mem "inet6_addr_lst" 4928 8; mem "addrconf_hash_lock" 4992 4; mem "addr_chk_work" 5056 88;
    mem "mr6_tables" 5760 16; mem "mr6_rules_ops" 5888 8; mem "dev_addr_genid" 5952 4;
    mem "fib6_sernum" 5984 4; mem "seg6_data" 6016 8; mem "notifier_ops" 6080 8;
    mem "ip6mr_notifier_ops" 6144 8; mem "ipmr_seq" 6208 4;
    sub "ip6addrlbl_table" 6272 16 [mem "head" 0 8; mem "lock" 64 4; mem "seq" 96 4];
    mem "ioam6_data" 6400 8]);
  ("struct netns_sysctl_lowpan", 8, [mem "frags_hdr" 0 8]);
  ("struct netns_ieee802154_lowpan", 16, [mem "sysctl" 0 8; mem "fqdir" 64 8]);
  ("struct netns_sctp", 296, [mem "sctp_statistics" 0 8; mem "proc_net_sctp" 64 8;
    mem "sysctl_header" 128 8; mem "ctl_sock" 192 8; mem "udp4_sock" 256 8;
    mem "udp6_sock" 320 8; mem "udp_port" 384 4; mem "encap_port" 416 4;
    mem "local_addr_list" 448 16; mem "addr_waitq" 576 16; mem "addr_wq_timer" 704 40;
    mem "auto_asconf_splist" 1024 16; mem "addr_wq_lock" 1152 4; mem "local_addr_lock" 1184 4;
    mem "rto_initial" 1216 4; mem "rto_min" 1248 4; mem "rto_max" 1280 4; mem "rto_alpha" 1312 4;
    mem "rto_beta" 1344 4; mem "max_burst" 1376 4; mem "cookie_preserve_enable" 1408 4;
    mem "cookie_auth_enable" 1440 4; mem "valid_cookie_life" 1472 4; mem "sack_timeout" 1504 4;
    mem "hb_interval" 1536 4; mem "probe_interval" 1568 4; mem "max_retrans_association" 1600 4;
    mem "max_retrans_path" 1632 4; mem "max_retrans_init" 1664 4; mem "pf_retrans" 1696 4;
    mem "ps_retrans" 1728 4; mem "pf_enable" 1760 4; mem "pf_expose" 1792 4;
    mem "sndbuf_policy" 1824 4; mem "rcvbuf_policy" 1856 4; mem "default_auto_asconf" 1888 4;
    mem "addip_enable" 1920 4; mem "addip_noauth" 1952 4; mem "prsctp_enable" 1984 4;
    mem "reconf_enable" 2016 4; mem "auth_enable" 2048 4; mem "intl_enable" 2080 4;
    mem "ecn_enable" 2112 4; mem "scope_policy" 2144 4; mem "rwnd_upd_shift" 2176 4;
    mem "max_autoclose" 2240 8; mem "l3mdev_accept" 2304 4]);
  ("struct netns_nf", 264, [mem "proc_netfilter" 0 8; mem "nf_loggers" 64 88;
    mem "nf_log_dir_header" 768 8; mem "nf_lwtnl_dir_header" 832 8; mem "hooks_ipv4" 896 40;
    mem "hooks_ipv6" 1216 40; mem "hooks_arp" 1536 24; mem "hooks_bridge" 1728 40;
    mem "defrag_ipv4_users" 2048 4; mem "defrag_ipv6_users" 2080 4]);
  ("struct nf_generic_net", 4, [mem "timeout" 0 4]);
  ("struct nf_tcp_net", 64, [mem "timeouts" 0 56; mem "tcp_loose" 448 1;
    mem "tcp_be_liberal" 456 1; mem "tcp_max_retrans" 464 1; mem "tcp_ignore_invalid_rst" 472 1;
    mem "offload_timeout" 480 4]);
  ("struct nf_udp_net", 12, [mem "timeouts" 0 8; mem "offload_timeout" 64 4]);
  ("struct nf_icmp_net", 4, [mem "timeout" 0 4]);
  ("struct nf_sctp_net", 40, [mem "timeouts" 0 40]);
  ("struct nf_gre_net", 24, [mem "keymap_list" 0 16; mem "timeouts" 128 8]);
  ("struct nf_ip_net", 152, [mem "generic" 0 4; mem "tcp" 32 64; mem "udp" 544 12;
    mem "icmp" 640 4; mem "icmpv6" 672 4; mem "sctp" 704 40; mem "gre" 1024 24]);
  ("struct netns_ct", 184, [mem "ecache_dwork_pending" 0 1; mem "sysctl_log_invalid" 8 1;
    mem "sysctl_events" 16 1; mem "sysctl_acct" 24 1; mem "sysctl_tstamp" 32 1;
    mem "sysctl_checksum" 40 1; mem "stat" 64 8; mem "nf_conntrack_event_cb" 128 8;
    mem "nf_ct_proto" 192 152; mem "labels_used" 1408 4]);
  ("struct netns_nftables", 8, [mem "base_seq" 0 4; mem "gencursor" 32 1]);
  ("struct netns_ft", 8, [mem "stat" 0 8]);
  ("struct netns_bpf", 64, [mem "run_array" 0 16; mem "progs" 128 16; mem "links" 256 32]);
  ("struct xfrm_policy_hash", 16, [mem "table" 0 8; mem "hmask" 64 4; mem "dbits4" 96 1;
    mem "sbits4" 104 1; mem "dbits6" 112 1; mem "sbits6" 120 1]);
  ("struct xfrm_policy_hthresh", 48, [mem "work" 0 32; mem "lock" 256 8; mem "lbits4" 320 1;
    mem "rbits4" 328 1; mem "lbits6" 336 1; mem "rbits6" 344 1]);
  ("struct netns_xfrm", 960, [mem "state_all" 0 16; mem "state_bydst" 128 8;
    mem "state_bysrc" 192 8; mem "state_byspi" 256 8; mem "state_byseq" 320 8;
    mem "state_cache_input" 384 8; mem "state_hmask" 448 4; mem "state_num" 480 4;
    mem "state_hash_work" 512 32; mem "policy_all" 768 16; mem "policy_byidx" 896 8;
    mem "policy_idx_hmask" 960 4; mem "idx_generator" 992 4; mem "policy_bydst" 1024 48;
    mem "policy_count" 1408 24; mem "policy_hash_work" 1600 32; mem "policy_hthresh" 1856 48;
    mem "inexact_bins" 2240 16; mem "nlsk" 2368 8; mem "nlsk_stash" 2432 8;
    mem "sysctl_aevent_etime" 2496 4; mem "sysctl_aevent_rseqth" 2528 4;
    mem "sysctl_larval_drop" 2560 4; mem "sysctl_acq_expires" 2592 4;
    mem "policy_default" 2624 3; mem "sysctl_hdr" 2688 8; mem "xfrm4_dst_ops" 3072 192;
    mem "xfrm6_dst_ops" 4608 192; mem "xfrm_state_lock" 6144 4;
    mem "xfrm_state_hash_generation" 6176 4; mem "xfrm_policy_hash_generation" 6208 4;
    mem "xfrm_policy_lock" 6240 4; mem "xfrm_cfg_mutex" 6272 32;
    mem "nat_keepalive_work" 6528 88]);
  ("struct seqcount_mutex", 4, [mem "seqcount" 0 4]);
  ("struct netns_mpls", 72, [mem "ip_ttl_propagate" 0 4; mem "default_ttl" 32 4;
    mem "platform_labels" 64 8; mem "platform_label" 128 8; mem "platform_mutex" 192 32;
    mem "platform_label_seq" 448 4; mem "ctl" 512 8]);
  ("struct netns_can", 160, [mem "proc_dir" 0 8; mem "pde_stats" 64 8;
    mem "pde_reset_stats" 128 8; mem "pde_rcvlist_all" 192 8; mem "pde_rcvlist_fil" 256 8;
    mem "pde_rcvlist_inv" 320 8; mem "pde_rcvlist_sff" 384 8; mem "pde_rcvlist_eff" 448 8;
    mem "pde_rcvlist_err" 512 8; mem "bcmproc_dir" 576 8; mem "rx_alldev_list" 640 8;
    mem "rcvlists_lock" 704 4; mem "stattimer" 768 40; mem "pkg_stats" 1088 8;
    mem "rcv_lists_stats" 1152 8; mem "cgw_list" 1216 8]);
  ("struct netns_xdp", 40, [mem "lock" 0 32; mem "list" 256 8]);
  ("struct netns_mctp", 1144, [mem "routes" 0 16; mem "bind_lock" 128 32; mem "binds" 384 1024;
    mem "keys_lock" 8576 4; mem "keys" 8640 8; mem "default_net" 8704 4;
    mem "neigh_lock" 8768 32; mem "neighbours" 9024 16]);
  ("struct netns_smc", 112, [mem "smc_stats" 0 8; mem "mutex_fback_rsn" 64 32;
    mem "fback_rsn" 320 8; mem "limit_smc_hs" 384 1; mem "smc_hdr" 448 8; mem "hs_ctrl" 512 8;
    mem "sysctl_autocorking_size" 576 4; mem "sysctl_smcr_buf_type" 608 4;
    mem "sysctl_smcr_testlink_time" 640 4; mem "sysctl_wmem" 672 4; mem "sysctl_rmem" 704 4;
    mem "sysctl_max_links_per_lgr" 736 4; mem "sysctl_max_conns_per_lgr" 768 4;
    mem "sysctl_smcr_max_send_wr" 800 4; mem "sysctl_smcr_max_recv_wr" 832 4]);
  ("struct netns_vsock", 24, [mem "sysctl_hdr" 0 8; mem "port" 64 4; mem "mode" 96 4;
    mem "child_ns_mode" 128 4; mem "child_ns_mode_locked" 160 4]);
  ("struct net", 6336, [mem "passive" 0 4; mem "rules_mod_lock" 32 4; mem "dev_base_seq" 64 4;
    mem "ifindex" 96 4; mem "nsid_lock" 128 4; mem "fnhe_genid" 160 4; mem "list" 192 16;
    mem "exit_list" 320 16; mem "defer_free_list" 448 8; mem "cleanup_list" 512 8;
    mem "ptype_all" 576 16; mem "ptype_specific" 704 16; mem "key_domain" 832 8;
    mem "user_ns" 896 8; mem "ucounts" 960 8; mem "netns_ids" 1024 24; mem "ns" 1536 256;
    mem "refcnt_tracker" 3584 0; mem "notrefcnt_tracker" 3584 0; mem "dev_base_head" 3584 16;
    mem "proc_net" 3712 8; mem "proc_net_stat" 3776 8; mem "sysctls" 3840 104; mem "rtnl" 4672 8;
    mem "genl_sock" 4736 8; mem "uevent_sock" 4800 8; mem "dev_name_head" 4864 8;
    mem "dev_index_head" 4928 8; mem "dev_by_index" 4992 16; mem "netdev_chain" 5120 8;
    mem "hash_mix" 5184 4; mem "is_dying" 5216 1; mem "loopback_dev" 5248 8;
    mem "rules_ops" 5312 16; mem "core" 5440 40; mem "mib" 5760 128; mem "packet" 6784 40;
    mem "unx" 7104 32; mem "nexthop" 7360 72; mem "ipv4" 8192 1024; mem "ipv6" 16384 832;
    mem "ieee802154_lowpan" 23040 16; mem "sctp" 23168 296; mem "nf" 25536 264;
    mem "ct" 27648 184; mem "nft" 29120 8; mem "ft" 29184 8; mem "wext_nlevents" 29248 24;
    mem "gen" 29440 8; mem "bpf" 29504 64; mem "xfrm" 30208 960; mem "net_cookie" 37888 8;
    mem "ipvs" 37952 8; mem "mpls" 38016 72; mem "can" 38592 160; mem "xdp" 39872 40;
    mem "mctp" 40192 1144; mem "crypto_nlsk" 49344 8; mem "diag_nlsk" 49408 8;
    mem "smc" 49472 112; mem "vsock" 50368 24]);
  ("struct thread_info", 24, [mem "flags" 0 8; mem "syscall_work" 64 8; mem "status" 128 4;
    mem "cpu" 160 4]);
  ("struct __call_single_node", 16, [mem "llist" 0 8; sub "" 64 4 [mem "u_flags" 0 4;
    mem "a_flags" 0 4]; mem "src" 96 2; mem "dst" 112 2]);
  ("struct load_weight", 16, [mem "weight" 0 8; mem "inv_weight" 64 4]);
  ("struct sched_avg", 64, [mem "last_update_time" 0 8; mem "load_sum" 64 8;
    mem "runnable_sum" 128 8; mem "util_sum" 192 4; mem "period_contrib" 224 4;
    mem "load_avg" 256 8; mem "runnable_avg" 320 8; mem "util_avg" 384 8; mem "util_est" 448 4]);
  ("struct sched_entity", 320, [mem "load" 0 16; mem "run_node" 128 24; mem "deadline" 320 8;
    mem "min_vruntime" 384 8; mem "min_slice" 448 8; mem "max_slice" 512 8;
    mem "group_node" 576 16; mem "on_rq" 704 1; mem "sched_delayed" 712 1;
    mem "rel_deadline" 720 1; mem "custom_slice" 728 1; mem "exec_start" 768 8;
    mem "sum_exec_runtime" 832 8; mem "prev_sum_exec_runtime" 896 8; mem "vruntime" 960 8;
    mem "vlag" 1024 8; mem "vprot" 1088 8; mem "slice" 1152 8; mem "nr_migrations" 1216 8;
    mem "depth" 1280 4; mem "parent" 1344 8; mem "cfs_rq" 1408 8; mem "my_q" 1472 8;
    mem "runnable_weight" 1536 8; mem "avg" 2048 64]);
  ("struct sched_rt_entity", 48, [mem "run_list" 0 16; mem "timeout" 128 8;
    mem "watchdog_stamp" 192 8; mem "time_slice" 256 4; mem "on_rq" 288 2; mem "on_list" 304 2;
    mem "back" 320 8]);
  ("struct sched_dl_entity", 240, [mem "rb_node" 0 24; mem "dl_runtime" 192 8;
    mem "dl_deadline" 256 8; mem "dl_period" 320 8; mem "dl_bw" 384 8; mem "dl_density" 448 8;
    mem "runtime" 512 8; mem "deadline" 576 8; mem "flags" 640 4; bitf "dl_throttled" 672 1 4;
    bitf "dl_yielded" 673 1 4; bitf "dl_non_contending" 674 1 4; bitf "dl_overrun" 675 1 4;
    bitf "dl_server" 676 1 4; bitf "dl_server_active" 677 1 4; bitf "dl_defer" 678 1 4;
    bitf "dl_defer_armed" 679 1 4; bitf "dl_defer_running" 680 1 4; bitf "dl_defer_idle" 681 1 4;
    mem "dl_timer" 704 64; mem "inactive_timer" 1216 64; mem "rq" 1728 8;
    mem "server_pick_task" 1792 8; mem "pi_se" 1856 8]);
  ("struct scx_dsq_list_node", 24, [mem "node" 0 16; mem "flags" 128 4; mem "priv" 160 4]);
  ("struct sched_ext_entity", 208, [mem "dsq" 0 8; mem "dsq_list" 64 24; mem "dsq_priq" 256 24;
    mem "dsq_seq" 448 4; mem "dsq_flags" 480 4; mem "flags" 512 4; mem "weight" 544 4;
    mem "sticky_cpu" 576 4; mem "holding_cpu" 608 4; mem "selected_cpu" 640 4;
    mem "kf_mask" 672 4; mem "kf_tasks" 704 16; mem "ops_state" 832 8;
    mem "runnable_node" 896 16; mem "runnable_at" 1024 8; mem "core_sched_at" 1088 8;
    mem "ddsp_dsq_id" 1152 8; mem "ddsp_enq_flags" 1216 8; mem "slice" 1280 8;
    mem "dsq_vtime" 1344 8; mem "disallow" 1408 1; mem "cgrp_moving_from" 1472 8;
    mem "tasks_node" 1536 16]);
  ("struct uclamp_se", 4, [bitf "value" 0 11 4; bitf "bucket_id" 11 3 4; bitf "active" 14 1 4;
    bitf "user_defined" 15 1 4]);
  ("struct sched_statistics", 256, [mem "wait_start" 0 8; mem "wait_max" 64 8;
    mem "wait_count" 128 8; mem "wait_sum" 192 8; mem "iowait_count" 256 8;
    mem "iowait_sum" 320 8; mem "sleep_start" 384 8; mem "sleep_max" 448 8;
    mem "sum_sleep_runtime" 512 8; mem "block_start" 576 8; mem "block_max" 640 8;
    mem "sum_block_runtime" 704 8; mem "exec_max" 768 8; mem "slice_max" 832 8;
    mem "nr_migrations_cold" 896 8; mem "nr_failed_migrations_affine" 960 8;
    mem "nr_failed_migrations_running" 1024 8; mem "nr_failed_migrations_hot" 1088 8;
    mem "nr_forced_migrations" 1152 8; mem "nr_wakeups" 1216 8; mem "nr_wakeups_sync" 1280 8;
    mem "nr_wakeups_migrate" 1344 8; mem "nr_wakeups_local" 1408 8;
    mem "nr_wakeups_remote" 1472 8; mem "nr_wakeups_affine" 1536 8;
    mem "nr_wakeups_affine_attempts" 1600 8; mem "nr_wakeups_passive" 1664 8;
    mem "nr_wakeups_idle" 1728 8; mem "core_forceidle_sum" 1792 8]);
  ("struct cpumask", 1024, [mem "bits" 0 1024]);
  ("struct timespec64", 16, [mem "tv_sec" 0 8; mem "tv_nsec" 64 8]);
  ("struct sched_info", 64, [mem "pcount" 0 8; mem "run_delay" 64 8; mem "max_run_delay" 128 8;
    mem "min_run_delay" 192 8; mem "last_arrival" 256 8; mem "last_queued" 320 8;
    mem "max_run_delay_ts" 384 16]);
  ("struct plist_node", 40, [mem "prio" 0 4; mem "prio_list" 64 16; mem "node_list" 192 16]);
  ("struct restart_block", 56, [mem "arch_data" 0 8; mem "fn" 64 8;
    sub "" 128 40 [sub "futex" 0 40 [mem "uaddr" 0 8; mem "val" 64 4; mem "flags" 96 4;
    mem "bitset" 128 4; mem "time" 192 8; mem "uaddr2" 256 8];
    sub "nanosleep" 0 24 [mem "clockid" 0 4; mem "type" 32 4; sub "" 64 8 [mem "rmtp" 0 8;
    mem "compat_rmtp" 0 8]; mem "expires" 128 8]; sub "poll" 0 32 [mem "ufds" 0 8;
    mem "nfds" 64 4; mem "has_timeout" 96 4; mem "end_time" 128 16]]]);
  ("struct prev_cputime", 24, [mem "utime" 0 8; mem "stime" 64 8; mem "lock" 128 4]);
  ("struct vtime", 48, [mem "seqcount" 0 4; mem "starttime" 64 8; mem "state" 128 4;
    mem "cpu" 160 4; mem "utime" 192 8; mem "stime" 256 8; mem "gtime" 320 8]);
  ("struct timerqueue_head", 16, [mem "rb_root" 0 16]);
  ("struct posix_cputimer_base", 24, [mem "nextevt" 0 8; mem "tqhead" 64 16]);
  ("struct posix_cputimers", 80, [mem "bases" 0 72; mem "timers_active" 576 4;
    mem "expiry_active" 608 4]);
  ("struct posix_cputimers_work", 56, [mem "work" 0 16; mem "mutex" 128 32;
    mem "scheduled" 384 4]);
  ("struct sysv_sem", 8, [mem "undo_list" 0 8]);
  ("struct sysv_shm", 16, [mem "shm_clist" 0 16]);
  ("sigset_t", 8, [mem "sig" 0 8]);
  ("struct sigpending", 24, [mem "list" 0 16; mem "signal" 128 8]);
  ("struct seccomp", 16, [mem "mode" 0 4; mem "filter_count" 32 4; mem "filter" 64 8]);
  ("struct syscall_user_dispatch", 32, [mem "selector" 0 8; mem "offset" 64 8; mem "len" 128 8;
    mem "on_dispatch" 192 1]);
  ("struct wake_q_node", 8, [mem "next" 0 8]);
  ("struct task_io_accounting", 56, [mem "rchar" 0 8; mem "wchar" 64 8; mem "syscr" 128 8;
    mem "syscw" 192 8; mem "read_bytes" 256 8; mem "write_bytes" 320 8;
    mem "cancelled_write_bytes" 384 8]);
  ("nodemask_t", 128, [mem "bits" 0 128]);
  ("struct rseq_event", 8, [sub "" 0 8 [mem "all" 0 8; sub "" 0 8 [sub "" 0 4 [mem "events" 0 4;
    sub "" 0 3 [mem "sched_switch" 0 1; mem "ids_changed" 8 1; mem "user_irq" 16 1]];
    mem "has_rseq" 32 1; mem "__pad" 40 1; sub "" 48 2 [mem "error" 0 2;
    sub "" 0 2 [mem "fatal" 0 1; mem "slowpath" 8 1]]]]]);
  ("struct rseq_ids", 8, [sub "" 0 8 [mem "cpu_cid" 0 8; sub "" 0 8 [mem "cpu_id" 0 4;
    mem "mm_cid" 32 4]]]);
  ("struct rseq_data", 32, [mem "usrptr" 0 8; mem "len" 64 4; mem "sig" 96 4; mem "event" 128 8;
    mem "ids" 192 8]);
  ("struct sched_mm_cid", 24, [mem "active" 0 4; mem "cid" 32 4; mem "node" 64 16]);
  ("struct arch_tlbflush_unmap_batch", 1032, [mem "cpumask" 0 1024; mem "unmapped_pages" 8192 1]);
  ("struct tlbflush_unmap_batch", 1040, [mem "arch" 0 1032; mem "flush_required" 8256 1;
    mem "writable" 8264 1]);
  ("struct lazy_mmu_state", 2, [mem "enable_count" 0 1; mem "pause_count" 8 1]);
  ("struct latency_record", 120, [mem "backtrace" 0 96; mem "count" 768 4; mem "time" 832 8;
    mem "max" 896 8]);
  ("struct kmap_ctrl", 0, []);
  ("struct llist_head", 8, [mem "first" 0 8]);
  ("struct da_monitor", 8, [mem "monitoring" 0 1; mem "curr_state" 32 4]);
  ("struct ltl_monitor", 0, []);
  ("union rv_task_monitor", 8, [mem "da_mon" 0 8; mem "ltl_mon" 0 0]);
  ("union unwind_task_id", 8, [sub "" 0 8 [mem "cpu" 0 4; mem "cnt" 32 4]; mem "id" 0 8]);
  ("struct unwind_task_info", 40, [mem "unwind_mask" 0 8; mem "cache" 64 8; mem "work" 128 16;
    mem "id" 256 8]);
  ("struct desc_struct", 8, [mem "limit0" 0 2; mem "base0" 16 2; bitf "base1" 32 8 2;
    bitf "type" 40 4 2; bitf "s" 44 1 2; bitf "dpl" 45 2 2; bitf "p" 47 1 2;
    bitf "limit1" 48 4 2; bitf "avl" 52 1 2; bitf "l" 53 1 2; bitf "d" 54 1 2; bitf "g" 55 1 2;
    bitf "base2" 56 8 2]);
  ("struct thread_shstk", 16, [mem "base" 0 8; mem "size" 64 8]);
  ("struct thread_struct", 184, [mem "tls_array" 0 24; mem "sp" 192 8; mem "es" 256 2;
    mem "ds" 272 2; mem "fsindex" 288 2; mem "gsindex" 304 2; mem "fsbase" 320 8;
    mem "gsbase" 384 8; mem "ptrace_bps" 448 32; mem "virtual_dr6" 704 8; mem "ptrace_dr7" 768 8;
    mem "cr2" 832 8; mem "trap_nr" 896 8; mem "error_code" 960 8; mem "io_bitmap" 1024 8;
    mem "iopl_emul" 1088 8; bitf "iopl_warn" 1152 1 4; mem "pkru" 1184 4; mem "features" 1216 8;
    mem "features_locked" 1280 8; mem "shstk" 1344 16]);
  ("struct task_struct", 9856, [mem "thread_info" 0 24; mem "__state" 192 4;
    mem "saved_state" 224 4; mem "stack" 256 8; mem "usage" 320 4; mem "flags" 352 4;
    mem "ptrace" 384 4; mem "on_cpu" 416 4; mem "wake_entry" 448 16; mem "wakee_flips" 576 4;
    mem "wakee_flip_decay_ts" 640 8; mem "last_wakee" 704 8; mem "recent_used_cpu" 768 4;
    mem "wake_cpu" 800 4; mem "on_rq" 832 4; mem "prio" 864 4; mem "static_prio" 896 4;
    mem "normal_prio" 928 4; mem "rt_priority" 960 4; mem "se" 1024 320; mem "rt" 3584 48;
    mem "dl" 3968 240; mem "dl_server" 5888 8; mem "scx" 5952 208; mem "sched_class" 7616 8;
    mem "core_node" 7680 24; mem "core_cookie" 7872 8; mem "core_occupation" 7936 4;
    mem "sched_task_group" 8000 8; mem "sched_throttle_work" 8064 16;
    mem "throttle_node" 8192 16; mem "throttled" 8320 1; mem "uclamp_req" 8352 8;
    mem "uclamp" 8416 8; mem "stats" 8704 256; mem "preempt_notifiers" 10752 8;
    mem "btrace_seq" 10816 4; mem "policy" 10848 4; mem "max_allowed_capacity" 10880 8;
    mem "nr_cpus_allowed" 10944 4; mem "cpus_ptr" 11008 8; mem "user_cpus_ptr" 11072 8;
    mem "cpus_mask" 11136 1024; mem "migration_pending" 19328 8;
    mem "migration_disabled" 19392 2; mem "migration_flags" 19408 2;
    mem "rcu_tasks_nvcsw" 19456 8; mem "rcu_tasks_holdout" 19520 1; mem "rcu_tasks_idx" 19528 1;
    mem "rcu_tasks_idle_cpu" 19552 4; mem "rcu_tasks_holdout_list" 19584 16;
    mem "rcu_tasks_exit_cpu" 19712 4; mem "rcu_tasks_exit_list" 19776 16;
    mem "trc_reader_nesting" 19904 4; mem "trc_reader_scp" 19968 8; mem "sched_info" 20032 64;
    mem "tasks" 20544 16; mem "pushable_tasks" 20672 40; mem "pushable_dl_tasks" 20992 24;
    mem "mm" 21184 8; mem "active_mm" 21248 8; mem "exit_state" 21312 4; mem "exit_code" 21344 4;
    mem "exit_signal" 21376 4; mem "pdeath_signal" 21408 4; mem "jobctl" 21440 8;
    mem "personality" 21504 4; bitf "sched_reset_on_fork" 21536 1 4;
    bitf "sched_contributes_to_load" 21537 1 4; bitf "sched_migrated" 21538 1 4;
    bitf "sched_task_hot" 21539 1 4; bitf "sched_remote_wakeup" 21568 1 4;
    bitf "sched_rt_mutex" 21569 1 4; bitf "in_execve" 21570 1 4; bitf "in_iowait" 21571 1 4;
    bitf "restore_sigmask" 21572 1 4; bitf "in_lru_fault" 21573 1 4;
    bitf "no_cgroup_migration" 21574 1 4; bitf "frozen" 21575 1 4; bitf "use_memdelay" 21576 1 4;
    bitf "in_memstall" 21577 1 4; bitf "in_eventfd" 21578 1 4; bitf "pasid_activated" 21579 1 4;
    bitf "reported_split_lock" 21580 1 4; bitf "in_thrashing" 21581 1 4;
    bitf "in_nf_duplicate" 21582 1 4; mem "atomic_flags" 21632 8; mem "restart_block" 21696 56;
    mem "pid" 22144 4; mem "tgid" 22176 4; mem "stack_canary" 22208 8; mem "real_parent" 22272 8;
    mem "parent" 22336 8; mem "children" 22400 16; mem "sibling" 22528 16;
    mem "group_leader" 22656 8; mem "ptraced" 22720 16; mem "ptrace_entry" 22848 16;
    mem "thread_pid" 22976 8; mem "pid_links" 23040 64; mem "thread_node" 23552 16;
    mem "vfork_done" 23680 8; mem "set_child_tid" 23744 8; mem "clear_child_tid" 23808 8;
    mem "worker_private" 23872 8; mem "utime" 23936 8; mem "stime" 24000 8; mem "gtime" 24064 8;
    mem "prev_cputime" 24128 24; mem "vtime" 24320 48; mem "tick_dep_mask" 24704 4;
    mem "nvcsw" 24768 8; mem "nivcsw" 24832 8; mem "start_time" 24896 8;
    mem "start_boottime" 24960 8; mem "min_flt" 25024 8; mem "maj_flt" 25088 8;
    mem "posix_cputimers" 25152 80; mem "posix_cputimers_work" 25792 56;
    mem "ptracer_cred" 26240 8; mem "real_cred" 26304 8; mem "cred" 26368 8;
    mem "cached_requested_key" 26432 8; mem "comm" 26496 16; mem "nameidata" 26624 8;
    mem "sysvsem" 26688 8; mem "sysvshm" 26752 16; mem "last_switch_count" 26880 8;
    mem "last_switch_time" 26944 8; mem "fs" 27008 8; mem "files" 27072 8;
    mem "io_uring" 27136 8; mem "io_uring_restrict" 27200 8; mem "nsproxy" 27264 8;
    mem "signal" 27328 8; mem "sighand" 27392 8; mem "blocked" 27456 8;
    mem "real_blocked" 27520 8; mem "saved_sigmask" 27584 8; mem "pending" 27648 24;
    mem "sas_ss_sp" 27840 8; mem "sas_ss_size" 27904 8; mem "sas_ss_flags" 27968 4;
    mem "task_works" 28032 8; mem "audit_context" 28096 8; mem "loginuid" 28160 4;
    mem "sessionid" 28192 4; mem "seccomp" 28224 16; mem "syscall_dispatch" 28352 32;
    mem "parent_exec_id" 28608 8; mem "self_exec_id" 28672 8; mem "alloc_lock" 28736 4;
    mem "pi_lock" 28768 4; mem "wake_q" 28800 8; mem "pi_waiters" 28864 16;
    mem "pi_top_task" 28992 8; mem "pi_blocked_on" 29056 8; mem "blocked_on" 29120 8;
    mem "blocker" 29184 8; mem "in_ubsan" 29248 4; mem "journal_info" 29312 8;
    mem "bio_list" 29376 8; mem "plug" 29440 8; mem "reclaim_state" 29504 8;
    mem "io_context" 29568 8; mem "capture_control" 29632 8; mem "ptrace_message" 29696 8;
    mem "last_siginfo" 29760 8; mem "ioac" 29824 56; mem "psi_flags" 30272 4;
    mem "acct_rss_mem1" 30336 8; mem "acct_vm_mem1" 30400 8; mem "acct_timexpd" 30464 8;
    mem "mems_allowed" 30528 128; mem "mems_allowed_seq" 31552 4;
    mem "cpuset_mem_spread_rotor" 31584 4; mem "cgroups" 31616 8; mem "cg_list" 31680 16;
    mem "closid" 31808 4; mem "rmid" 31840 4; mem "robust_list" 31872 8;
    mem "compat_robust_list" 31936 8; mem "pi_state_list" 32000 16; mem "pi_state_cache" 32128 8;
    mem "futex_exit_mutex" 32192 32; mem "futex_state" 32448 4; mem "perf_recursion" 32480 4;
    mem "perf_event_ctxp" 32512 8; mem "perf_event_mutex" 32576 32;
    mem "perf_event_list" 32832 16; mem "perf_ctx_data" 32960 8; mem "mempolicy" 33024 8;
    mem "il_prev" 33088 2; mem "il_weight" 33104 1; mem "pref_node_fork" 33120 2;
    mem "numa_scan_seq" 33152 4; mem "numa_scan_period" 33184 4;
    mem "numa_scan_period_max" 33216 4; mem "numa_preferred_nid" 33248 4;
    mem "numa_migrate_retry" 33280 8; mem "node_stamp" 33344 8;
    mem "last_task_numa_placement" 33408 8; mem "last_sum_exec_runtime" 33472 8;
    mem "numa_work" 33536 16; mem "numa_group" 33664 8; mem "numa_faults" 33728 8;
    mem "total_numa_faults" 33792 8; mem "numa_faults_locality" 33856 24;
    mem "numa_pages_migrated" 34048 8; mem "rseq" 34112 32; mem "mm_cid" 34368 24;
    mem "tlb_ubc" 34560 1040; mem "splice_pipe" 42880 8; mem "task_frag" 42944 16;
    mem "lazy_mmu_state" 43072 2; mem "delays" 43136 8; mem "nr_dirtied" 43200 4;
    mem "nr_dirtied_pause" 43232 4; mem "dirty_paused_when" 43264 8;
    mem "latency_record_count" 43328 4; mem "latency_record" 43392 3840;
    mem "timer_slack_ns" 74112 8; mem "default_timer_slack_ns" 74176 8;
    mem "curr_ret_stack" 74240 4; mem "curr_ret_depth" 74272 4; mem "ret_stack" 74304 8;
    mem "ftrace_timestamp" 74368 8; mem "ftrace_sleeptime" 74432 8; mem "trace_overrun" 74496 4;
    mem "tracing_graph_pause" 74528 4; mem "trace_recursion" 74560 8;
    mem "memcg_nr_pages_over_high" 74624 4; mem "active_memcg" 74688 8; mem "objcg" 74752 8;
    mem "throttle_disk" 74816 8; mem "utask" 74880 8; mem "sequential_io" 74944 4;
    mem "sequential_io_avg" 74976 4; mem "kmap_ctrl" 75008 0; mem "rcu" 75008 16;
    mem "rcu_users" 75136 4; mem "pagefault_disabled" 75168 4; mem "oom_reaper_list" 75200 8;
    mem "oom_reaper_timer" 75264 40; mem "stack_vm_area" 75584 8; mem "stack_refcount" 75648 4;
    mem "patch_state" 75680 4; mem "security" 75712 8; mem "bpf_storage" 75776 8;
    mem "bpf_ctx" 75840 8; mem "bpf_net_context" 75904 8; mem "mce_vaddr" 75968 8;
    mem "mce_kflags" 76032 8; mem "mce_addr" 76096 8; bitf "mce_ripv" 76160 1 8;
    bitf "mce_whole_page" 76161 1 8; bitf "__mce_reserved" 76162 62 8;
    mem "mce_kill_me" 76224 16; mem "mce_count" 76352 4; mem "kretprobe_instances" 76416 8;
    mem "rethooks" 76480 8; mem "l1d_flush_kill" 76544 16; mem "rv" 76672 16;
    mem "user_event_mm" 76800 8; mem "unwind_info" 76864 40; mem "thread" 77184 184]);
  ("struct bpf_map", 288, [mem "sha" 0 32; mem "ops" 256 8; mem "inner_map_meta" 320 8;
    mem "security" 384 8; mem "map_type" 448 4; mem "key_size" 480 4; mem "value_size" 512 4;
    mem "max_entries" 544 4; mem "map_extra" 576 8; mem "map_flags" 640 4; mem "id" 672 4;
    mem "record" 704 8; mem "numa_node" 768 4; mem "btf_key_type_id" 800 4;
    mem "btf_value_type_id" 832 4; mem "btf_vmlinux_value_type_id" 864 4; mem "btf" 896 8;
    mem "objcg" 960 8; mem "name" 1024 16; mem "freeze_mutex" 1152 32; mem "refcnt" 1408 8;
    mem "usercnt" 1472 8; sub "" 1536 32 [mem "work" 0 32; mem "rcu" 0 16];
    mem "writecnt" 1792 8; mem "owner_lock" 1856 4; mem "owner" 1920 8;
    mem "bypass_spec_v1" 1984 1; mem "frozen" 1992 1; mem "free_after_mult_rcu_gp" 2000 1;
    mem "free_after_rcu_gp" 2008 1; mem "sleepable_refcnt" 2048 8; mem "elem_count" 2112 8;
    mem "cookie" 2176 8; mem "excl_prog_sha" 2240 8]);
  ("struct bpf_mem_alloc", 80, [mem "caches" 0 8; mem "cache" 64 8; mem "objcg" 128 8;
    mem "percpu" 192 1; mem "work" 256 32; mem "dtor_ctx_free" 512 8; mem "dtor_ctx" 576 8]);
  ("struct pcpu_freelist", 8, [mem "freelist" 0 8]);
  ("struct bpf_lru_list", 128, [mem "lists" 0 48; mem "counts" 384 8;
    mem "next_inactive_rotation" 448 8; mem "lock" 512 4]);
  ("struct bpf_common_lru", 192, [mem "lru_list" 0 128; mem "local_list" 1024 8]);
  ("struct bpf_lru", 256, [sub "" 0 192 [mem "common_lru" 0 192; mem "percpu_lru" 0 8];
    mem "del_from_htab" 1536 8; mem "del_arg" 1600 8; mem "hash_offset" 1664 4;
    mem "target_free" 1696 4; mem "nr_scans" 1728 4; mem "percpu" 1760 1]);
  ("struct bpf_htab", 896, [mem "map" 0 288; mem "ma" 2304 80; mem "pcpu_ma" 2944 80;
    mem "buckets" 3584 8; mem "elems" 3648 8; sub "" 4096 256 [mem "freelist" 0 8;
    mem "lru" 0 256]; mem "extra_elems" 6144 8; mem "pcount" 6208 40; mem "count" 6528 4;
    mem "use_percpu_counter" 6560 1; mem "n_buckets" 6592 4; mem "elem_size" 6624 4;
    mem "hashrnd" 6656 4]);
  ("struct bpf_ringbuf_map", 296, [mem "map" 0 288; mem "rb" 2304 8]);
  ("struct arch_specific_insn", 32, [mem "insn" 0 8; bitf "boostable" 64 1 4; mem "size" 72 1;
    sub "" 80 2 [mem "opcode" 0 1; sub "jcc" 0 1 [mem "type" 0 1];
    sub "loop" 0 2 [mem "type" 0 1; mem "asize" 8 1]; sub "indirect" 0 1 [mem "reg" 0 1]];
    mem "rel32" 96 4; mem "emulate_op" 128 8; mem "tp_len" 192 4]);
  ("struct kprobe", 128, [mem "hlist" 0 16; mem "list" 128 16; mem "nmissed" 256 8;
    mem "addr" 320 8; mem "symbol_name" 384 8; mem "offset" 448 4; mem "pre_handler" 512 8;
    mem "post_handler" 576 8; mem "opcode" 640 1; mem "ainsn" 704 32; mem "flags" 960 4]);
  ("struct arch_uprobe", 40, [sub "" 0 16 [mem "insn" 0 16; mem "ixol" 0 16]; mem "ops" 128 8;
    sub "" 192 8 [sub "branch" 0 8 [mem "offs" 0 4; mem "ilen" 32 1; mem "opc1" 40 1];
    sub "defparam" 0 2 [mem "fixups" 0 1; mem "ilen" 8 1]; sub "push" 0 2 [mem "reg_offset" 0 1;
    mem "ilen" 8 1]]; mem "flags" 256 8]);
  ("struct uprobe", 248, [mem "rb_node" 0 24; mem "ref" 192 4; mem "register_rwsem" 256 40;
    mem "consumer_rwsem" 576 40; mem "pending_list" 896 16; mem "consumers" 1024 16;
    mem "inode" 1152 8; sub "" 1216 32 [mem "rcu" 0 16; mem "work" 0 32]; mem "offset" 1472 8;
    mem "ref_ctr_offset" 1536 8; mem "flags" 1600 8; mem "arch" 1664 40]);
  ("struct maple_tree", 16, [sub "" 0 4 [mem "ma_lock" 0 4]; mem "ma_flags" 32 4;
    mem "ma_root" 64 8]);
  ("struct rcuwait", 8, [mem "task" 0 8]);
  ("struct irq_work", 32, [mem "node" 0 16; mem "func" 128 8; mem "irqwait" 192 8]);
  ("struct mm_mm_cid", 192, [mem "pcpu" 0 8; mem "mode" 64 4; mem "max_cids" 96 4;
    mem "irq_work" 128 32; mem "work" 384 32; mem "lock" 640 4; mem "mutex" 704 32;
    mem "user_list" 960 8; mem "nr_cpus_allowed" 1024 4; mem "users" 1056 4;
    mem "pcpu_thrs" 1088 4; mem "update_deferred" 1120 4]);
  ("mm_context_t", 144, [mem "ctx_id" 0 8; mem "tlb_gen" 64 8; mem "next_trim_cpumask" 128 8;
    mem "ldt_usr_sem" 192 40; mem "ldt" 512 8; mem "flags" 576 8; mem "lock" 640 32;
    mem "vdso" 896 8; mem "vdso_image" 960 8; mem "perf_rdpmc_allowed" 1024 4;
    mem "pkey_allocation_map" 1056 2; mem "execute_only_pkey" 1072 2; mem "global_asid" 1088 2;
    mem "asid_transition" 1104 1]);
  ("mm_flags_t", 8, [mem "__mm_flags" 0 8]);
  ("struct uprobes_state", 16, [mem "xol_area" 0 8; mem "head_tramps" 64 8]);
  ("struct mm_struct", 1728, [sub "" 0 1728 [sub "" 0 64 [mem "mm_count" 0 4];
    mem "mm_mt" 512 16; mem "mmap_base" 640 8; mem "mmap_legacy_base" 704 8;
    mem "mmap_compat_base" 768 8; mem "mmap_compat_legacy_base" 832 8; mem "task_size" 896 8;
    mem "pgd" 960 8; mem "membarrier_state" 1024 4; mem "mm_users" 1056 4; mem "mm_cid" 1536 192;
    mem "pgtables_bytes" 3072 8; mem "map_count" 3136 4; mem "page_table_lock" 3168 4;
    mem "mmap_lock" 3200 40; mem "mmlist" 3520 16; mem "vma_writer_wait" 3648 8;
    mem "mm_lock_seq" 3712 4; mem "futex_hash_lock" 3776 32; mem "futex_phash" 4032 8;
    mem "futex_phash_new" 4096 8; mem "futex_batches" 4160 8; mem "futex_rcu" 4224 16;
    mem "futex_atomic" 4352 8; mem "futex_ref" 4416 8; mem "hiwater_rss" 4480 8;
    mem "hiwater_vm" 4544 8; mem "total_vm" 4608 8; mem "locked_vm" 4672 8;
    mem "pinned_vm" 4736 8; mem "data_vm" 4800 8; mem "exec_vm" 4864 8; mem "stack_vm" 4928 8;
    mem "def_flags" 4992 8; mem "write_protect_seq" 5056 4; mem "arg_lock" 5088 4;
    mem "start_code" 5120 8; mem "end_code" 5184 8; mem "start_data" 5248 8;
    mem "end_data" 5312 8; mem "start_brk" 5376 8; mem "brk" 5440 8; mem "start_stack" 5504 8;
    mem "arg_start" 5568 8; mem "arg_end" 5632 8; mem "env_start" 5696 8; mem "env_end" 5760 8;
    mem "saved_auxv" 5824 448; mem "rss_stat" 9408 160; mem "binfmt" 10688 8;
    mem "context" 10752 144; mem "flags" 11904 8; mem "ioctx_lock" 11968 4;
    mem "ioctx_table" 12032 8; mem "owner" 12096 8; mem "user_ns" 12160 8;
    mem "exe_file" 12224 8; mem "notifier_subscriptions" 12288 8; mem "numa_next_scan" 12352 8;
    mem "numa_scan_offset" 12416 8; mem "numa_scan_seq" 12480 4; mem "tlb_flush_pending" 12512 4;
    mem "tlb_flush_batched" 12544 4; mem "uprobes_state" 12608 16; mem "hugetlb_usage" 12736 8;
    mem "async_put_work" 12800 32; mem "iommu_mm" 13056 8; mem "ksm_merging_pages" 13120 8;
    mem "ksm_rmap_items" 13184 8; mem "ksm_zero_pages" 13248 8;
    sub "lru_gen" 13312 32 [mem "list" 0 16; mem "bitmap" 128 8; mem "memcg" 192 8];
    mem "mm_id" 13568 4]; mem "flexible_array" 13824 0]);
  ("struct sock_filter", 8, [mem "code" 0 2; mem "jt" 16 1; mem "jf" 24 1; mem "k" 32 4]);
  ("struct bpf_insn", 8, [mem "code" 0 1; bitf "dst_reg" 8 4 1; bitf "src_reg" 12 4 1;
    mem "off" 16 2; mem "imm" 32 4]);
  ("struct bpf_prog", 96, [mem "pages" 0 2; bitf "jited" 16 1 2; bitf "jit_requested" 17 1 2;
    bitf "gpl_compatible" 18 1 2; bitf "cb_access" 19 1 2; bitf "dst_needed" 20 1 2;
    bitf "blinding_requested" 21 1 2; bitf "blinded" 22 1 2; bitf "is_func" 23 1 2;
    bitf "kprobe_override" 24 1 2; bitf "has_callchain_buf" 25 1 2;
    bitf "enforce_expected_attach_type" 26 1 2; bitf "call_get_stack" 27 1 2;
    bitf "call_get_func_ip" 28 1 2; bitf "call_session_cookie" 29 1 2;
    bitf "tstamp_type_access" 30 1 2; bitf "sleepable" 31 1 2; mem "type" 32 4;
    mem "expected_attach_type" 64 4; mem "len" 96 4; mem "jited_len" 128 4;
    sub "" 160 32 [mem "digest" 0 32; mem "tag" 0 8]; mem "stats" 448 8; mem "active" 512 8;
    mem "bpf_func" 576 8; mem "aux" 640 8; mem "orig_prog" 704 8;
    sub "" 768 0 [sub "" 0 0 [mem "__empty_insns" 0 0; mem "insns" 0 0];
    sub "" 0 0 [mem "__empty_insnsi" 0 0; mem "insnsi" 0 0]]])].
