(* ===== verification/KernelMem.v ===== *)
(** Kernel memory behind the CO-RE reads.

    [memory] maps addresses to bytes; a read of unmapped memory yields zeros, as
    bpf_probe_read_kernel leaves them.  [core_read] is BPF_CORE_READ: the bytes at
    the offset of a member path in the kernel's type of a given name, where the kernel is
    the one bpf/vmlinux.h was taken from ([kernel_btf]).  The instance [mem_view]
    is the implementation of the interface [KernelView] the programs are written
    against; its laws and the locality of its reads are proved from the layout. *)
From S2P Require Import Prelude Abi Bpf CLayout KTypes1 KTypes2 KTypes3 KTypes4 KTypes5 KTypes6 KernelTypes.

#[local] Open Scope string_scope.
#[local] Open Scope Z_scope.

(** ** Reads *)

Definition memory : Type := Z -> option Byte.byte.

Definition byte_z (b : Byte.byte) : Z := Z.of_N (Byte.to_N b).

Definition probe_read_kernel (m : memory) (a n : Z) : list Z :=
  match mapM (fun i => m (a + i)) (seqZ 0 n) with
  | Some bs => byte_z <$> bs
  | None => replicate (Z.to_nat n) 0
  end.

(** The bytes of the member [path] of the object at [a], whose type has the name [t]. *)
Definition core_read_bytes (t : string) (path : list string) (m : memory) (a : Z) : list Z :=
  match resolve (type_named t) path with
  | Some p => probe_read_kernel m (a + p_off p / 8) (p_len p / 8)
  | None => []
  end.

Definition core_read (t : string) (path : list string) (m : memory) (a : Z) : Z :=
  le_word (core_read_bytes t path m a).

(** The four 32-bit words of an in6_addr. *)
Definition words4 (bs : list Z) : list Z :=
  (fun i => le_word (take 4 (drop (4 * i) bs))) <$> seq 0 4.

Definition core_read_words (t : string) (path : list string) (m : memory) (a : Z) : list Z :=
  words4 (core_read_bytes t path m a).

(** ** The interface, on memory *)

#[export] Instance mem_view : KernelView memory := {
  msg_iter msg := msg + default 0 (offsetof (type_named "struct msghdr") ["msg_iter"]);
  iter_type := core_read "struct iov_iter" ["iter_type"];
  iter_ubuf := core_read "struct iov_iter" ["ubuf"];
  iter_iov := core_read "struct iov_iter" ["__iov"];
  iov_base := core_read "struct iovec" ["iov_base"];
  skc_family := core_read "struct sock" ["__sk_common"; "skc_family"];
  skc_num := core_read "struct sock" ["__sk_common"; "skc_num"];
  skc_dport := core_read "struct sock" ["__sk_common"; "skc_dport"];
  skc_rcv_saddr := core_read "struct sock" ["__sk_common"; "skc_rcv_saddr"];
  skc_daddr := core_read "struct sock" ["__sk_common"; "skc_daddr"];
  skc_v6_rcv_saddr :=
    core_read_words "struct sock" ["__sk_common"; "skc_v6_rcv_saddr"; "in6_u"; "u6_addr32"];
  skc_v6_daddr :=
    core_read_words "struct sock" ["__sk_common"; "skc_v6_daddr"; "in6_u"; "u6_addr32"] }.

(** The arguments of the connection-state tracepoint, from its context record. *)
Definition tp_args (m : memory) (ctx : Z) : Z * Z * Z * Z :=
  let rd f := core_read "struct trace_event_raw_inet_sock_set_state" [f] m ctx in
  (rd "protocol", rd "skaddr",
   swrap 32 (rd "oldstate"), swrap 32 (rd "newstate")).

(** ** Laws *)

Lemma byte_z_byte b : is_byte (byte_z b).
Proof. unfold is_byte, byte_z. pose proof (Byte.to_N_bounded b). lia. Qed.

Lemma probe_read_kernel_ok m a n :
  length (probe_read_kernel m a n) = Z.to_nat n /\ Forall is_byte (probe_read_kernel m a n).
Proof.
  unfold probe_read_kernel. destruct (mapM _ _) as [bs|] eqn:E.
  - apply length_mapM in E. rewrite length_seqZ in E. rewrite length_fmap. split; [done|].
    apply Forall_fmap, Forall_true. intros. apply byte_z_byte.
  - rewrite length_replicate. split; [done|]. apply Forall_replicate. unfold is_byte. lia.
Qed.

Lemma core_read_bytes_ok t path m a n :
  (p_len <$> resolve (type_named t) path) = Some (8 * n) ->
  length (core_read_bytes t path m a) = Z.to_nat n /\ Forall is_byte (core_read_bytes t path m a).
Proof.
  intros (p & Hp & E)%fmap_Some. unfold core_read_bytes. rewrite Hp, <- E.
  rewrite (Z.mul_comm 8), Z.div_mul by lia. apply probe_read_kernel_ok.
Qed.

Lemma core_read_width t path m a n :
  0 <= n -> (p_len <$> resolve (type_named t) path) = Some (8 * n) -> in_width (8 * n) (core_read t path m a).
Proof.
  intros Hn Hp. destruct (core_read_bytes_ok t path m a n Hp) as [Hl Hb].
  pose proof (le_word_range _ Hb) as H. rewrite Hl in H. unfold in_width, core_read.
  by rewrite Z2Nat.id in H.
Qed.

Lemma words4_ok bs : Forall is_byte bs -> length (words4 bs) = 4%nat /\ Forall (in_width 32) (words4 bs).
Proof.
  intros Hb. unfold words4. rewrite length_fmap, length_seq. split; [done|].
  apply Forall_fmap, Forall_true. intros i. cbn.
  pose proof (le_word_range (take 4 (drop (4 * i) bs)) (Forall_take _ _ _ (Forall_drop _ _ _ Hb))) as H.
  rewrite length_take in H. unfold in_width. split; [apply H|].
  eapply Z.lt_le_trans; [apply H|]. apply Z.pow_le_mono_r; lia.
Qed.

Lemma core_read_words_ok t path m a :
  (p_len <$> resolve (type_named t) path) = Some (8 * 16) ->
  length (core_read_words t path m a) = 4%nat /\ Forall (in_width 32) (core_read_words t path m a).
Proof. intros Hp. by apply words4_ok, (core_read_bytes_ok t path m a 16 Hp). Qed.

#[export] Instance mem_view_ok : KernelViewOk memory.
Proof.
  split; intros k sk.
  - apply (core_read_width _ _ _ _ 2); vm_compute; congruence.
  - apply (core_read_width _ _ _ _ 2); vm_compute; congruence.
  - apply (core_read_width _ _ _ _ 4); vm_compute; congruence.
  - apply (core_read_width _ _ _ _ 4); vm_compute; congruence.
  - apply core_read_words_ok. vm_compute. congruence.
  - apply core_read_words_ok. vm_compute. congruence.
Qed.

(** ** Locality *)

(** Two memories agree on the object of type [t] at [a]. *)
Definition agree (t : ctype) (a : Z) (m m' : memory) : Prop :=
  forall i, 0 <= i < sizeof t -> m (a + i) = m' (a + i).

Lemma probe_read_kernel_agree m m' a n :
  (forall i, 0 <= i < n -> m (a + i) = m' (a + i)) ->
  probe_read_kernel m a n = probe_read_kernel m' a n.
Proof.
  intros Ha. unfold probe_read_kernel.
  rewrite (Forall_mapM_ext _ (fun i => m' (a + i))); [done|].
  apply Forall_forall. intros i Hi%elem_of_seqZ. apply Ha. lia.
Qed.

(** A read stays inside the object it starts from. *)
Lemma core_read_bytes_agree t path m m' a :
  wf (type_named t) -> agree (type_named t) a m m' -> core_read_bytes t path m a = core_read_bytes t path m' a.
Proof.
  intros Hw Ha. unfold core_read_bytes. destruct (resolve (type_named t) path) as [p|] eqn:E; [|done].
  destruct (resolve_inside _ _ _ Hw E) as (H1 & H2 & _).
  apply probe_read_kernel_agree. intros i Hi. rewrite <- Z.add_assoc. apply Ha.
  pose proof (Z.div_pos (p_off p) 8 H1 ltac:(lia)).
  pose proof (Z.mul_div_le (p_off p) 8). pose proof (Z.mul_div_le (p_len p) 8). lia.
Qed.

Lemma core_read_agree t path m m' a :
  wf (type_named t) -> agree (type_named t) a m m' -> core_read t path m a = core_read t path m' a.
Proof. intros Hw Ha. unfold core_read. by rewrite (core_read_bytes_agree t path m m'). Qed.

(** The types the programs name. *)
Lemma named_iov_iter : type_named "struct iov_iter" = struct_iov_iter. Proof. vm_compute. reflexivity. Qed.
Lemma named_iovec : type_named "struct iovec" = struct_iovec. Proof. vm_compute. reflexivity. Qed.
Lemma named_sock : type_named "struct sock" = struct_sock. Proof. vm_compute. reflexivity. Qed.
Lemma named_sock_common : type_named "struct sock_common" = struct_sock_common. Proof. vm_compute. reflexivity. Qed.
Lemma named_tp : type_named "struct trace_event_raw_inet_sock_set_state" = struct_trace_event_raw_inet_sock_set_state.
Proof. vm_compute. reflexivity. Qed.

Lemma wf_sock : wf struct_sock_common. Proof. vm_compute. reflexivity. Qed.
Lemma wf_iov_iter : wf struct_iov_iter. Proof. vm_compute. reflexivity. Qed.
Lemma wf_iovec : wf struct_iovec. Proof. vm_compute. reflexivity. Qed.
#[export] Hint Resolve wf_sock wf_iov_iter wf_iovec : tlstat.

Lemma iter_base_agree m m' it :
  agree struct_iov_iter it m m' -> agree struct_iovec (iter_iov m it) m m' ->
  iter_base m it = iter_base m' it.
Proof.
  intros Hi Hv. unfold iter_base.
  assert (forall f, core_read "struct iov_iter" [f] m it = core_read "struct iov_iter" [f] m' it) as E
    by (intros; apply core_read_agree; rewrite named_iov_iter; auto with tlstat).
  cbn [iter_type iter_ubuf iter_iov iov_base mem_view] in *. rewrite !E in *.
  destruct (_ =? ITER_UBUF); [done|]. destruct (_ =? ITER_IOVEC); [|done].
  apply core_read_agree; rewrite named_iovec; auto with tlstat.
Qed.

(** struct sock begins with its struct sock_common. *)
Lemma sock_common_first :
  find_member "__sk_common" struct_sock
  = Some (mkPlace 0 (8 * sizeof struct_sock_common) struct_sock_common).
Proof. vm_compute. reflexivity. Qed.

Lemma sock_common_bytes path m sk :
  core_read_bytes "struct sock" ("__sk_common" :: path) m sk
  = core_read_bytes "struct sock_common" path m sk.
Proof.
  unfold core_read_bytes, resolve. rewrite named_sock, named_sock_common. cbn [resolve_from p_type].
  by rewrite sock_common_first.
Qed.

Lemma read_tuple_agree m m' sk f :
  agree struct_sock_common sk m m' -> read_tuple m sk f = read_tuple m' sk f.
Proof.
  intros Ha. unfold read_tuple.
  assert (forall path, core_read_bytes "struct sock" ("__sk_common" :: path) m sk
    = core_read_bytes "struct sock" ("__sk_common" :: path) m' sk) as E
    by (intros; rewrite !sock_common_bytes; apply core_read_bytes_agree; rewrite named_sock_common; auto with tlstat).
  cbn [skc_family skc_num skc_dport skc_rcv_saddr skc_daddr skc_v6_rcv_saddr skc_v6_daddr mem_view].
  unfold core_read, core_read_words. by rewrite !E.
Qed.

(** The same firing over another state of kernel memory. *)
Definition with_kmem (m : memory) (e : env memory) : env memory :=
  Env (e_pid_tgid e) (e_comm e) m (e_user e) (e_ring e) (e_room e).

Lemma flow_get_agree e m' sk s :
  agree struct_sock_common sk (e_kmem e) m' -> flow_get (with_kmem m' e) sk s = flow_get e sk s.
Proof.
  intros Ha. unfold flow_get. cbn [with_kmem e_pid_tgid e_comm e_kmem e_room].
  destruct (flows _ !! sk) as [f|]; [|done]. destruct (f_pid f =? 0); [|done].
  by rewrite (read_tuple_agree _ _ _ _ Ha).
Qed.

Lemma capture_wire_kmem e m' sk f buf n dir s :
  capture_wire (with_kmem m' e) sk f buf n dir s = capture_wire e sk f buf n dir s.
Proof. done. Qed.

(** ** Properties of the reads *)

Lemma send_local e m' sk msg size s :
  agree struct_sock_common sk (e_kmem e) m' ->
  agree struct_iov_iter (msg_iter msg) (e_kmem e) m' ->
  agree struct_iovec (iter_iov (e_kmem e) (msg_iter msg)) (e_kmem e) m' ->
  k_tcp_sendmsg (with_kmem m' e) sk msg size s = k_tcp_sendmsg e sk msg size s.
Proof.
  intros Hs Hi Hv. unfold k_tcp_sendmsg. rewrite flow_get_agree by done.
  destruct (flow_get e sk s) as [s1 [f|]]; [|done].
  cbn [with_kmem e_kmem]. rewrite <- (iter_base_agree (e_kmem e) m') by done.
  by rewrite <- (capture_wire_kmem e m').
Qed.

Lemma recv_local e m' sk msg s :
  agree struct_iov_iter (msg_iter msg) (e_kmem e) m' ->
  agree struct_iovec (iter_iov (e_kmem e) (msg_iter msg)) (e_kmem e) m' ->
  k_tcp_recvmsg (with_kmem m' e) sk msg s = k_tcp_recvmsg e sk msg s.
Proof.
  intros Hi Hv. unfold k_tcp_recvmsg. cbn [with_kmem e_kmem e_pid_tgid e_room].
  by rewrite <- (iter_base_agree (e_kmem e) m') by done.
Qed.

Lemma recv_ret_local e m' ret s :
  (forall rc, recv_ctxs s !! e_pid_tgid e = Some rc ->
     agree struct_sock_common (rc_sk rc) (e_kmem e) m') ->
  kr_tcp_recvmsg (with_kmem m' e) ret s = kr_tcp_recvmsg e ret s.
Proof.
  intros Hs. unfold kr_tcp_recvmsg. cbn [with_kmem e_pid_tgid].
  destruct (recv_ctxs s !! e_pid_tgid e) as [rc|] eqn:E; [|done].
  rewrite flow_get_agree by (by apply Hs). destruct (_ || _); [done|].
  destruct (flow_get e (rc_sk rc) _) as [s1 [f|]]; [|done].
  by rewrite <- (capture_wire_kmem e m').
Qed.

Lemma wf_tp : wf struct_trace_event_raw_inet_sock_set_state.
Proof. vm_compute. reflexivity. Qed.

Lemma tp_args_local m m' ctx :
  agree struct_trace_event_raw_inet_sock_set_state ctx m m' -> tp_args m ctx = tp_args m' ctx.
Proof.
  intros Ha. unfold tp_args.
  assert (forall f, core_read "struct trace_event_raw_inet_sock_set_state" [f] m ctx
    = core_read "struct trace_event_raw_inet_sock_set_state" [f] m' ctx) as E
    by (intros; apply core_read_agree; rewrite named_tp; auto using wf_tp).
  by rewrite !E.
Qed.
