(* ===== verification/AbiLayout.v ===== *)
(** The structs of bpf/tlstat.h as C types, and the images of Abi as their layout.

    The C side declares every struct packed; the Go structs bpf2go generates have the
    same fields at their natural alignment.  Both layouts come from one field list. *)
From S2P Require Import Prelude Abi CLayout.

#[local] Open Scope string_scope.
#[local] Open Scope Z_scope.

Definition c_u8 : ctype := CInt false 1.
Definition c_u16 : ctype := CInt false 2.
Definition c_u32 : ctype := CInt false 4.
Definition c_s32 : ctype := CInt true 4.
Definition c_u64 : ctype := CInt false 8.
Definition c_char : ctype := CInt true 1.

Definition flow_fields : list field := [
  fld "tx" c_u64; fld "rx" c_u64; fld "pid" c_u32; fld "saddr" (CArray c_u32 4);
  fld "daddr" (CArray c_u32 4); fld "sport" c_u16; fld "dport" c_u16; fld "is_ipv6" c_u8;
  fld "direction" c_u8; fld "is_tls" c_u8; fld "closed" c_u8; fld "wire_out" c_u8;
  fld "wire_in" c_u8; fld "comm" (CArray c_char TASK_COMM_LEN)].

Definition ssl_stat_fields : list field := [
  fld "ptx" c_u64; fld "prx" c_u64; fld "pid" c_u32; fld "fd" c_s32].

Definition wire_event_fields : list field := [
  fld "type" c_u8; fld "direction" c_u8; fld "len" c_u16; fld "sk" c_u64;
  fld "data" (CArray c_u8 WIRE_CAP)].

Definition close_event_fields : list field := [
  fld "type" c_u8; fld "_pad" (CArray c_u8 3); fld "pid" c_u32; fld "fd" c_s32;
  fld "ssl" c_u64; fld "ptx" c_u64; fld "prx" c_u64].

Definition data_event_fields : list field := [
  fld "type" c_u8; fld "direction" c_u8; fld "len" c_u16; fld "pid" c_u32; fld "tid" c_u32;
  fld "fd" c_s32; fld "ssl" c_u64; fld "data" (CArray c_u8 DATA_CAP)].

(** The bytes of an image that are the member [name] of a packed struct. *)
Definition image_field (fs : list field) (name : string) (bs : list Z) : option (list Z) :=
  p ← resolve (CStruct true fs) [name];
  Some (ztake (p_len p / 8) (zdrop (p_off p / 8) bs)).

(** Names at the same offset in the packed and in the natural layout. *)
Definition same_offsets (fs : list field) : bool :=
  forallb (fun f => bool_decide (offsetof (CStruct true fs) [f_name f]
                                 = offsetof (CStruct false fs) [f_name f])) fs.

(** Skip a first piece of known length; take one. *)
Lemma piece_skip (l k : list Z) (n m : Z) :
  zlen l = n -> n <= m -> zdrop m (l ++ k) = zdrop (m - n) k.
Proof.
  intros <- Hm. unfold zdrop, zlen in *. rewrite drop_app_ge by lia. f_equal. lia.
Qed.

Lemma piece_take (l k : list Z) n : zlen l = n -> ztake n (zdrop 0 (l ++ k)) = l.
Proof. intros <-. rewrite zdrop_0. apply ztake_app. Qed.

Lemma piece_all (l : list Z) n : zlen l = n -> ztake n (zdrop 0 l) = l.
Proof. intros <-. by rewrite zdrop_0, ztake_all. Qed.

Ltac piece_len := first [apply zlen_le_bytes | eassumption].
Ltac image :=
  unfold image_field;
  match goal with |- context [resolve ?t ?p] =>
    let v := eval vm_compute in (resolve t p) in change (resolve t p) with v
  end;
  cbn [mbind option_bind p_len p_off]; f_equal;
  repeat match goal with |- context [Z.div ?a 8] =>
    let v := eval vm_compute in (a / 8) in change (a / 8) with v end;
  repeat (erewrite piece_skip; [|piece_len|vm_compute; congruence];
    match goal with |- context [Z.sub ?a ?b] =>
      let v := eval vm_compute in (a - b) in change (a - b) with v end);
  first [apply piece_take; piece_len | apply piece_all; piece_len].

Lemma wire_event_image e : wire_event_wf e ->
  let at_ name := image_field wire_event_fields name (wire_event_bytes e) in
  sizeof (CStruct true wire_event_fields) = zlen (wire_event_bytes e)
  /\ at_ "type" = Some (le_bytes 1 (we_type e)) /\ at_ "direction" = Some (le_bytes 1 (we_direction e))
  /\ at_ "len" = Some (le_bytes 2 (we_len e)) /\ at_ "sk" = Some (le_bytes 8 (we_sk e))
  /\ at_ "data" = Some (we_data e).
Proof.
  intros Hw. cbn zeta. split; [by rewrite (wire_event_size e Hw)|].
  destruct Hw as (_ & _ & _ & _ & Hd & _). unfold wire_event_bytes.
  split_and!; image.
Qed.

Lemma data_event_image e : data_event_wf e ->
  let at_ name := image_field data_event_fields name (data_event_bytes e) in
  sizeof (CStruct true data_event_fields) = zlen (data_event_bytes e)
  /\ at_ "type" = Some (le_bytes 1 (de_type e)) /\ at_ "direction" = Some (le_bytes 1 (de_direction e))
  /\ at_ "len" = Some (le_bytes 2 (de_len e)) /\ at_ "pid" = Some (le_bytes 4 (de_pid e))
  /\ at_ "tid" = Some (le_bytes 4 (de_tid e)) /\ at_ "fd" = Some (le_bytes 4 (de_fd e))
  /\ at_ "ssl" = Some (le_bytes 8 (de_ssl e)) /\ at_ "data" = Some (de_data e).
Proof.
  intros Hw. cbn zeta. split; [by rewrite (data_event_size e Hw)|].
  destruct Hw as (_ & _ & _ & _ & _ & _ & _ & Hd & _). unfold data_event_bytes.
  split_and!; image.
Qed.

Lemma close_event_image e : close_event_wf e ->
  let at_ name := image_field close_event_fields name (close_event_bytes e) in
  sizeof (CStruct true close_event_fields) = zlen (close_event_bytes e)
  /\ at_ "type" = Some (le_bytes 1 (ce_type e)) /\ at_ "pid" = Some (le_bytes 4 (ce_pid e))
  /\ at_ "fd" = Some (le_bytes 4 (ce_fd e)) /\ at_ "ssl" = Some (le_bytes 8 (ce_ssl e))
  /\ at_ "ptx" = Some (le_bytes 8 (ce_ptx e)) /\ at_ "prx" = Some (le_bytes 8 (ce_prx e)).
Proof.
  intros Hw. cbn zeta. split; [by rewrite (close_event_size e Hw)|].
  destruct Hw as (_ & [Hp _] & _). assert (zlen (ce_pad e) = 3) as Hp' by (unfold zlen; lia).
  unfold close_event_bytes. split_and!; image.
Qed.
