(* ===== verification/LayoutProps.v ===== *)
(** Layout: the properties of the kernel types, of the reads through them and of the
    shared structs. *)
From S2P Require Import Prelude Abi Bpf BpfProps CLayout KTypes1 KTypes2 KTypes3 KTypes4 KTypes5 KTypes6 KernelTypes ObjectBtf HeaderLayout KernelMem AbiLayout.

#[local] Open Scope string_scope.
#[local] Open Scope Z_scope.

(** What laying out an aggregate must achieve: each member inside, of its length,
    aligned where the type is not packed; the members of a struct apart and in order;
    the size a multiple of the alignment. *)
Definition laid_out (t : ctype) : Prop :=
  Forall2 (member_ok t) (fields t) (places t).1
  /\ (alignof t | sizeof t)
  /\ match t with
     | CStruct _ _ => StronglySorted (fun a b => a.1 + a.2 <= b.1) (places t).1
     | _ => True
     end.

(** Every kernel type is laid out soundly: in each of the structs and unions of
    vmlinux.h behind the pointers the probes receive, the members are inside,
    aligned and, in a struct, disjoint, and bit-fields stay within their unit. *)
Theorem kernel_types_laid_out : Forall laid_out kernel_types.
Proof.
  assert (forallb (fun t => is_agg t && wfb t) kernel_types = true) as Hall
    by (vm_compute; reflexivity).
  apply Forall_forall. intros t Ht%list_elem_of_In. rewrite forallb_forall in Hall.
  specialize (Hall t Ht). apply andb_true_iff in Hall as [Ha Hw]. split_and!.
  - by apply members_ok.
  - by apply sizeof_agg.
  - destruct t; try done. by apply struct_apart.
Qed.

(** Where the probes read.  The offset and size of every kernel field the
    programs touch, for the kernel vmlinux.h was taken from.  A socket pointer may
    designate a full socket, a time-wait or a request socket: each begins with the
    sock_common the reads stay in.  The command name has the size TASK_COMM_LEN. *)
Theorem core_read_offsets :
  Forall (fun '(t, path, off, len) =>
      (fun p => (p_off p, p_len p)) <$> resolve t path = Some (8 * off, 8 * len))
    [(struct_sock, ["__sk_common"; "skc_daddr"], 0, 4);
     (struct_sock, ["__sk_common"; "skc_rcv_saddr"], 4, 4);
     (struct_sock, ["__sk_common"; "skc_dport"], 12, 2);
     (struct_sock, ["__sk_common"; "skc_num"], 14, 2);
     (struct_sock, ["__sk_common"; "skc_family"], 16, 2);
     (struct_sock, ["__sk_common"; "skc_v6_daddr"; "in6_u"; "u6_addr32"], 56, 16);
     (struct_sock, ["__sk_common"; "skc_v6_rcv_saddr"; "in6_u"; "u6_addr32"], 72, 16);
     (struct_msghdr, ["msg_iter"], 16, sizeof struct_iov_iter);
     (struct_iov_iter, ["iter_type"], 0, 1);
     (struct_iov_iter, ["ubuf"], 16, 8);
     (struct_iov_iter, ["__iov"], 16, 8);
     (struct_iovec, ["iov_base"], 0, 8);
     (struct_trace_event_raw_inet_sock_set_state, ["skaddr"], 8, 8);
     (struct_trace_event_raw_inet_sock_set_state, ["oldstate"], 16, 4);
     (struct_trace_event_raw_inet_sock_set_state, ["newstate"], 20, 4);
     (struct_trace_event_raw_inet_sock_set_state, ["protocol"], 30, 2);
     (struct_task_struct, ["tgid"], 2772, 4);
     (struct_task_struct, ["comm"], 3312, TASK_COMM_LEN)]
  /\ Forall (fun '(t, path) => resolve t path
        = Some (mkPlace 0 (8 * sizeof struct_sock_common) struct_sock_common))
      [(struct_tcp6_sock, ["tcp"; "inet_conn"; "icsk_inet"; "sk"; "__sk_common"]);
       (struct_tcp_sock, ["inet_conn"; "icsk_inet"; "sk"; "__sk_common"]);
       (struct_tcp_timewait_sock, ["tw_sk"; "__tw_common"]);
       (struct_tcp_request_sock, ["req"; "req"; "__req_common"])].
Proof. split; repeat apply List.Forall_cons; try apply List.Forall_nil; vm_compute; reflexivity. Qed.

(** A CO-RE relocation of the shipped object: the member the indices lead to is the one
    the names do, it is [len] bytes at the offset [off] of the instruction, and it is what
    the model reads through those names. *)
Definition relocated (r : string * Z * string * list nat * list string * Z * Z) : Prop :=
  let '(_, _, name, idx, path, off, len) := r in
  let t := type_named name in
  access (mkPlace 0 (8 * sizeof t) t) idx = resolve t path
  /\ (fun p => (p_off p, p_len p)) <$> resolve t path = Some (8 * off, 8 * len)
  /\ forall m a, core_read_bytes name path m a = probe_read_kernel m (a + off) len.

Lemma core_read_at name path off len m a :
  (fun p => (p_off p, p_len p)) <$> resolve (type_named name) path = Some (8 * off, 8 * len) ->
  core_read_bytes name path m a = probe_read_kernel m (a + off) len.
Proof.
  intros (p & E & [= Eo El])%fmap_Some. unfold core_read_bytes.
  by rewrite E, <- Eo, <- El, !(Z.mul_comm 8), !Z.div_mul by lia.
Qed.

Lemma relocated_intro prog insn name idx path off len :
  access (mkPlace 0 (8 * sizeof (type_named name)) (type_named name)) idx = resolve (type_named name) path ->
  (fun p => (p_off p, p_len p)) <$> resolve (type_named name) path = Some (8 * off, 8 * len) ->
  relocated (prog, insn, name, idx, path, off, len).
Proof. intros H1 H2. split_and!; [exact H1|exact H2|]. intros m a. by apply core_read_at. Qed.

(** [described], decided. *)
Definition describedb (e : string * Z * list row) : bool :=
  let '(name, size, rows) := e in
  (sizeof (type_named name) =? size) && all2 row_is rows (listed (type_named name)).

Lemma describedb_all l : forallb describedb l = true -> Forall described l.
Proof.
  rewrite forallb_forall, Forall_forall. intros H [[name size] rows] Hin%list_elem_of_In%H.
  apply andb_true_iff in Hin as [E%Z.eqb_eq Hr]. by split.
Qed.

(** C39: the kernel's memory is laid out as the shipped programs expect.  Of the types
    declared from bpf/vmlinux.h, those the object file records in its BTF have there the
    same size and, member for member, the same names, offsets, bit-field widths and sizes;
    all others have those the C compiler gives them.  Each of the object's 45 CO-RE
    relocations - every load and read the nine programs make of registers, sockets,
    messages and tracepoint record - leads by member indices and by names to the same
    member, at the offset that stands in the instruction, and the model's read through
    those names reads exactly these bytes.  A socket pointer may designate a TCP socket
    over either address family, a time-wait or a request socket: each begins with the
    sock_common the reads stay in. *)
Theorem kernel_layout :
  Forall described object_btf /\ Forall described header_layout
  /\ Forall (fun '(name, _) => name ∈ (object_btf ++ header_layout)%list.*1.*1) kernel_btf
  /\ Forall relocated core_relos
  /\ Forall (fun '(t, path) => resolve (type_named t) path
        = Some (mkPlace 0 (8 * sizeof (type_named "struct sock_common")) (type_named "struct sock_common")))
      [("struct sock", ["__sk_common"]);
       ("struct tcp_sock", ["inet_conn"; "icsk_inet"; "sk"; "__sk_common"]);
       ("struct tcp6_sock", ["tcp"; "inet_conn"; "icsk_inet"; "sk"; "__sk_common"]);
       ("struct tcp_timewait_sock", ["tw_sk"; "__tw_common"]);
       ("struct tcp_request_sock", ["req"; "req"; "__req_common"])].
Proof.
  split_and!; try (apply describedb_all; vm_compute; reflexivity).
  - apply (bool_decide_unpack _). vm_compute. exact I.
  - unfold core_relos. repeat first [apply List.Forall_nil|apply List.Forall_cons; [apply relocated_intro; vm_compute; reflexivity|]].
  - repeat first [apply List.Forall_nil|apply List.Forall_cons; [vm_compute; reflexivity|]].
Qed.

(** C40: the reads are local.  A firing depends on kernel memory only through the
    objects its pointers designate: the socket's sock_common, the message's iov_iter
    and the iovec it points to, or the tracepoint's record.  Whatever else changes, the outcome is the same. *)
Theorem kernel_reads_local e m' sk msg s :
  agree struct_iov_iter (msg_iter msg) (e_kmem e) m' ->
  agree struct_iovec (iter_iov (e_kmem e) (msg_iter msg)) (e_kmem e) m' ->
  k_tcp_recvmsg (with_kmem m' e) sk msg s = k_tcp_recvmsg e sk msg s
  /\ (agree struct_sock_common sk (e_kmem e) m' -> forall size,
        k_tcp_sendmsg (with_kmem m' e) sk msg size s = k_tcp_sendmsg e sk msg size s)
  /\ ((forall rc, recv_ctxs s !! e_pid_tgid e = Some rc ->
          agree struct_sock_common (rc_sk rc) (e_kmem e) m') -> forall ret,
        kr_tcp_recvmsg (with_kmem m' e) ret s = kr_tcp_recvmsg e ret s)
  /\ (forall ctx, agree struct_trace_event_raw_inet_sock_set_state ctx (e_kmem e) m' ->
        tp_args (e_kmem e) ctx = tp_args m' ctx).
Proof.
  intros Hi Hv. split_and!; [by apply recv_local|intros; by apply send_local|intros; by apply recv_ret_local|].
  apply tp_args_local.
Qed.

(** A memory with one IPv4 socket at 4096 and a user-buffer message at 8192; [byte]
    fills what lies beyond 2^20. *)
Definition demo_mem (byte : Byte.byte) : memory := fun a =>
  if 2 ^ 20 <=? a then Some byte
  else if a =? 4096 + 14 then Some Byte.x50        (* skc_num 80 *)
  else if a =? 4096 + 16 then Some Byte.x02        (* skc_family AF_INET *)
  else if a =? 8192 + 32 + 1 then Some Byte.x30    (* msg_iter.ubuf 0x3000 *)
  else Some Byte.x00.

Definition demo_kenv (m : memory) : env memory :=
  Env (2 ^ 32 * 100 + 101) (replicate 16 65) m (fun _ n => Some (replicate (Z.to_nat n) 22))
    (fun n => Some (replicate (Z.to_nat n) 0)) true.

Lemma demo_mem_agree t a b b' :
  a + sizeof t <= 2 ^ 20 -> agree t a (demo_mem b) (demo_mem b').
Proof.
  intros Ha i Hi. unfold demo_mem. by destruct (Z.leb_spec (2 ^ 20) (a + i)); [lia|].
Qed.

Lemma kernel_reads_local_witness :
  k_tcp_sendmsg (with_kmem (demo_mem Byte.xff) (demo_kenv (demo_mem Byte.x01))) 4096 8192 9 bpf_init
  = k_tcp_sendmsg (demo_kenv (demo_mem Byte.x01)) 4096 8192 9 bpf_init
  /\ f_sport <$> flows (k_tcp_sendmsg (demo_kenv (demo_mem Byte.x01)) 4096 8192 9 bpf_init) !! 4096
     = Some 80.
Proof.
  split; [|vm_compute; reflexivity].
  destruct (kernel_reads_local (demo_kenv (demo_mem Byte.x01)) (demo_mem Byte.xff) 4096 8192 bpf_init)
    as (_ & H & _); [apply demo_mem_agree; vm_compute; congruence..|].
  apply H, demo_mem_agree. vm_compute. congruence.
Defined.

(** The shared structs in memory.  The images of the events, which the decoder
    reads at fixed offsets, are the packed layout of the C declarations: each member
    of the struct is found at its offset, and the sizes agree. *)
Theorem event_images :
  (forall e, wire_event_wf e ->
     let at_ name := image_field wire_event_fields name (wire_event_bytes e) in
     sizeof (CStruct true wire_event_fields) = zlen (wire_event_bytes e)
     /\ at_ "len" = Some (le_bytes 2 (we_len e)) /\ at_ "sk" = Some (le_bytes 8 (we_sk e))
     /\ at_ "data" = Some (we_data e))
  /\ (forall e, data_event_wf e ->
     let at_ name := image_field data_event_fields name (data_event_bytes e) in
     sizeof (CStruct true data_event_fields) = zlen (data_event_bytes e)
     /\ at_ "len" = Some (le_bytes 2 (de_len e)) /\ at_ "pid" = Some (le_bytes 4 (de_pid e))
     /\ at_ "fd" = Some (le_bytes 4 (de_fd e)) /\ at_ "ssl" = Some (le_bytes 8 (de_ssl e))
     /\ at_ "data" = Some (de_data e))
  /\ (forall e, close_event_wf e ->
     let at_ name := image_field close_event_fields name (close_event_bytes e) in
     sizeof (CStruct true close_event_fields) = zlen (close_event_bytes e)
     /\ at_ "pid" = Some (le_bytes 4 (ce_pid e)) /\ at_ "fd" = Some (le_bytes 4 (ce_fd e))
     /\ at_ "ssl" = Some (le_bytes 8 (ce_ssl e)) /\ at_ "ptx" = Some (le_bytes 8 (ce_ptx e))
     /\ at_ "prx" = Some (le_bytes 8 (ce_prx e))).
Proof.
  split_and!; intros e He; cbn zeta.
  - destruct (wire_event_image e He); destruct_and!. by split_and!.
  - destruct (data_event_image e He); destruct_and!. by split_and!.
  - destruct (close_event_image e He); destruct_and!. by split_and!.
Qed.

Definition demo_wire : wire_event := mk_wire_event EVENT_WIRE DIR_OUT 3 77 (replicate 1024 5).

Lemma event_images_witness :
  image_field wire_event_fields "sk" (wire_event_bytes demo_wire) = Some [77; 0; 0; 0; 0; 0; 0; 0].
Proof.
  destruct event_images as [H _]. destruct (H demo_wire) as (_ & _ & -> & _); [|reflexivity].
  unfold wire_event_wf, demo_wire, in_width. cbn [we_type we_direction we_len we_sk we_data].
  split_and!; try (by left); try by apply (bool_decide_unpack _).
Defined.

(** Go's view of the same declarations.  The generated Go structs have the same
    fields at natural alignment.  For the values of the two polled maps, and for data
    events, no field moves; wire and close events do move (sk from 4 to 8, ssl from 12
    to 16), which is why those are decoded from bytes and not through the Go structs. *)
Theorem go_struct_layout :
  same_offsets flow_fields = true /\ same_offsets ssl_stat_fields = true
  /\ same_offsets data_event_fields = true
  /\ sizeof (CStruct true flow_fields) = 78 /\ sizeof (CStruct false flow_fields) = 80
  /\ sizeof (CStruct true ssl_stat_fields) = sizeof (CStruct false ssl_stat_fields)
  /\ offsetof (CStruct true wire_event_fields) ["sk"] = Some 4
  /\ offsetof (CStruct false wire_event_fields) ["sk"] = Some 8
  /\ offsetof (CStruct true close_event_fields) ["ssl"] = Some 12
  /\ offsetof (CStruct false close_event_fields) ["ssl"] = Some 16.
Proof. vm_compute. tauto. Qed.
