(* ===== verification/Slices.v ===== *)
(** Go byte slices that share backing arrays.

    A [heap] lists the arrays; a slice is an array with a length, and starts at the
    array's first element, as every slice the modelled code keeps does.  [append]
    writes in place while the capacity lasts and moves to a new array otherwise; how
    large the new array is, is the runtime's choice: the class [Growth]. *)
From S2P Require Import Prelude.

Abbreviation heap := (list (list Z)).

(** [None] is the nil slice. *)
Definition slice : Type := option (nat * nat).

(** What [append] allocates: the new capacity, from the old one and the length
    needed.  It is at least the length needed. *)
Class Growth := growslice : nat -> nat -> nat.
Class GrowthOk `{Growth} : Prop := growslice_ok old need : (need <= growslice old need)%nat.

Definition array (h : heap) (a : nat) : list Z := default [] (h !! a).

(** The elements of a slice. *)
Definition view (h : heap) (s : slice) : list Z :=
  match s with
  | None => []
  | Some (a, n) => take n (array h a)
  end.

Definition slen (s : slice) : nat := match s with None => O | Some (_, n) => n end.

(** A slice within the capacity of an array of the heap. *)
Definition slice_ok (h : heap) (s : slice) : Prop :=
  match s with
  | None => True
  | Some (a, n) => (a < length h)%nat /\ (n <= length (array h a))%nat
  end.

(** Overwrite [l] from position [i] on with [data]. *)
Definition overwrite (l : list Z) (i : nat) (data : list Z) : list Z :=
  take i l ++ data ++ drop (i + length data) l.

Section Append.
Context `{Growth}.

(** [append(s, data...)] *)
Definition append (h : heap) (s : slice) (data : list Z) : heap * slice :=
  let old := match s with None => O | Some (a, _) => length (array h a) end in
  let need := (slen s + length data)%nat in
  match s with
  | None =>
      if decide (data = []) then (h, None)
      else (h ++ [data ++ replicate (growslice old need - need) 0], Some (length h, need))
  | Some (a, n) =>
      if (need <=? old)%nat then (<[a := overwrite (array h a) n data]> h, Some (a, need))
      else (h ++ [view h s ++ data ++ replicate (growslice old need - need) 0],
            Some (length h, need))
  end.

(** [s[:0]] *)
Definition truncate (s : slice) : slice := match s with None => None | Some (a, _) => Some (a, O) end.

(** The last [max] elements. *)
Definition last_z {A} (max : Z) (l : list A) : list A := zdrop (zlen l - max) l.

(** appendTail of internal/model/model.go. *)
Definition appendTail (h : heap) (buf : slice) (data : list Z) (max : Z) : heap * slice :=
  if max <=? 0 then (h, None)
  else
    let '(h, buf) := append h buf data in
    if max <? Z.of_nat (slen buf) then append h (truncate buf) (last_z max (view h buf))
    else (h, buf).
End Append.

(** ** Reading back *)

Lemma overwrite_length l i data :
  (i + length data <= length l)%nat -> length (overwrite l i data) = length l.
Proof. intros. unfold overwrite. rewrite !length_app, length_take, length_drop. lia. Qed.

Lemma overwrite_take l i data :
  (i + length data <= length l)%nat -> take (i + length data) (overwrite l i data) = take i l ++ data.
Proof.
  intros. unfold overwrite. rewrite app_assoc, take_app_le.
  - apply take_ge. rewrite length_app, length_take. lia.
  - rewrite length_app, length_take. lia.
Qed.

Lemma array_insert_eq h a l : (a < length h)%nat -> array (<[a := l]> h) a = l.
Proof. intros. unfold array. by rewrite list_lookup_insert_eq. Qed.
Lemma array_insert_ne h a b l : a <> b -> array (<[a := l]> h) b = array h b.
Proof. intros. unfold array. by rewrite list_lookup_insert_ne. Qed.
Lemma array_app_l h h' a : (a < length h)%nat -> array (h ++ h') a = array h a.
Proof. intros. unfold array. by rewrite lookup_app_l. Qed.
Lemma array_app_new h l : array (h ++ [l]) (length h) = l.
Proof. unfold array. by rewrite list_lookup_middle. Qed.

(** The array an append may write to. *)
Definition slice_array (s : slice) : option nat := fst <$> s.

(** What an operation on one slice leaves alone: every other array of the heap. *)
Definition heap_frame (s : slice) (h h' : heap) : Prop :=
  (length h <= length h')%nat
  /\ forall b, (b < length h)%nat -> slice_array s <> Some b -> array h' b = array h b.

(** The result lives where the argument did, or in a new array. *)
Definition moved (h : heap) (s s' : slice) : Prop :=
  match s' with
  | None => True
  | Some (a, _) => slice_array s = Some a \/ (length h <= a)%nat
  end.

(** Capacities never change, and arrays stay. *)
Definition heap_le (h h' : heap) : Prop :=
  (length h <= length h')%nat
  /\ forall a, (a < length h)%nat -> length (array h' a) = length (array h a).

Lemma heap_le_refl h : heap_le h h.
Proof. by split. Qed.
Lemma heap_le_trans h1 h2 h3 : heap_le h1 h2 -> heap_le h2 h3 -> heap_le h1 h3.
Proof.
  intros [H1 E1] [H2 E2]. split; [lia|]. intros a Ha. by rewrite E2, E1 by lia.
Qed.
Lemma slice_ok_le h h' s : heap_le h h' -> slice_ok h s -> slice_ok h' s.
Proof. intros [Hl E]. destruct s as [[a n]|]; [|done]. intros [Ha Hn]. split; [lia|]. by rewrite E. Qed.
Lemma heap_le_new h l : heap_le h (h ++ [l]).
Proof. split; [rewrite length_app; lia|]. intros a Ha. by rewrite array_app_l. Qed.

Section Append_facts.
Context `{GrowthOk}.

Lemma append_spec h s data h' s' :
  slice_ok h s -> append h s data = (h', s') ->
  slice_ok h' s' /\ view h' s' = view h s ++ data /\ heap_frame s h h' /\ moved h s s'.
Proof.
  intros Hs. unfold append. destruct s as [[a n]|].
  - destruct Hs as [Ha Hn]. cbn [slen]. destruct (Nat.leb_spec (n + length data) (length (array h a))).
    + intros [= <- <-]. cbn [slice_ok view moved slice_array fmap option_fmap option_map fst].
      rewrite length_insert, !array_insert_eq, overwrite_length, overwrite_take by done.
      split_and!; try done; [|by left]. split; [by rewrite length_insert|].
      intros b _ Hb. apply array_insert_ne. by intros ->.
    + intros [= <- <-]. pose proof (growslice_ok (length (array h a)) (n + length data)).
      cbn [slice_ok view moved]. rewrite array_app_new, length_app. cbn [length].
      assert (length (take n (array h a)) = n) as Hl by (rewrite length_take; lia).
      rewrite app_assoc, take_app_length' by (rewrite length_app, Hl; done).
      split_and!; try done; try (by right); try lia.
      * rewrite !length_app, Hl, length_replicate. lia.
      * split; [rewrite length_app; lia|]. intros. by apply array_app_l.
  - case_decide as Hd.
    + intros [= <- <-]. subst data. by split_and!.
    + intros [= <- <-]. cbn [slice_ok view moved slen Nat.add]. rewrite array_app_new, length_app.
      rewrite take_app_length' by done. split_and!; try done; try (by right); try (cbn; lia).
      * rewrite length_app. lia.
      * split; [rewrite length_app; lia|]. intros. by apply array_app_l.
Qed.

Lemma append_le h s data h' s' : slice_ok h s -> append h s data = (h', s') -> heap_le h h'.
Proof.
  intros Hs. unfold append. destruct s as [[a n]|].
  - destruct Hs as [Ha Hn]. cbn [slen]. destruct (Nat.leb_spec (n + length data) (length (array h a)));
      intros [= <- <-]; [|apply heap_le_new].
    split; [by rewrite length_insert|]. intros b Hb. destruct (decide (a = b)) as [->|].
    + by rewrite array_insert_eq, overwrite_length.
    + by rewrite array_insert_ne.
  - case_decide; intros [= <- <-]; [apply heap_le_refl|apply heap_le_new].
Qed.

Lemma truncate_ok h s : slice_ok h s -> slice_ok h (truncate s) /\ view h (truncate s) = [].
Proof. destruct s as [[a n]|]; cbn; [|done]. intros []. split; [lia|done]. Qed.

Lemma heap_frame_trans s s' h h1 h2 :
  moved h s s' -> heap_frame s h h1 -> heap_frame s' h1 h2 -> heap_frame s h h2.
Proof.
  intros Hm [Hl Hf] [Hl' Hf']. split; [lia|]. intros b Hb Hn.
  rewrite Hf'; [by apply Hf|lia|]. destruct s' as [[a n]|]; cbn in *; [|done].
  destruct Hm as [Hm|Hm]; [by rewrite <- Hm|intros [= ->]; lia].
Qed.

Lemma length_view h s : slice_ok h s -> length (view h s) = slen s.
Proof. destruct s as [[a n]|]; cbn; [|done]. intros []. rewrite length_take. lia. Qed.

(** [appendTail] keeps the last [max] bytes of everything appended. *)
Lemma appendTail_spec h buf data max h' buf' :
  slice_ok h buf -> appendTail h buf data max = (h', buf') ->
  slice_ok h' buf' /\ view h' buf' = (if max <=? 0 then [] else last_z max (view h buf ++ data))
  /\ heap_frame buf h h' /\ moved h buf buf'.
Proof.
  intros Hs. unfold appendTail. destruct (Z.leb_spec max 0).
  { intros [= <- <-]. by split_and!. }
  destruct (append h buf data) as [h1 b1] eqn:E1.
  destruct (append_spec _ _ _ _ _ Hs E1) as (Hs1 & Hv1 & Hf1 & Hm1).
  pose proof (length_view h1 b1 Hs1) as Hl1.
  destruct (Z.ltb_spec max (Z.of_nat (slen b1))) as [Hmax|Hmax].
  - intros E2. destruct (truncate_ok h1 b1 Hs1) as [Ht Hvt].
    destruct (append_spec _ _ _ _ _ Ht E2) as (Hs2 & Hv2 & Hf2 & Hm2).
    rewrite Hvt, Hv1 in Hv2. split_and!; [done|exact Hv2| |].
    + eapply heap_frame_trans; [exact Hm1|exact Hf1|]. by destruct b1 as [[a n]|].
    + destruct buf' as [[a n]|]; [|done]. cbn in *. destruct Hf1 as [Hle _].
      destruct b1 as [[a1 n1]|]; cbn in *; [|right; destruct Hm2; [done|lia]].
      destruct Hm2 as [[= ->]|]; [done|right; lia].
  - intros [= <- <-]. split_and!; try done. rewrite Hv1. unfold last_z.
    rewrite <- Hv1. unfold zlen, zdrop. rewrite Hl1.
    replace (Z.to_nat (Z.of_nat (slen b1) - max)) with O by lia. by rewrite drop_0.
Qed.

Lemma appendTail_le h buf data max h' buf' :
  slice_ok h buf -> appendTail h buf data max = (h', buf') -> heap_le h h'.
Proof.
  intros Hs. unfold appendTail. destruct (max <=? 0); [intros [= <- <-]; apply heap_le_refl|].
  destruct (append h buf data) as [h1 b1] eqn:E1. pose proof (append_le _ _ _ _ _ Hs E1) as H1.
  destruct (_ <? _); [|by intros [= <- <-]]. intros E2.
  destruct (append_spec _ _ _ _ _ Hs E1) as (Hs1 & _).
  eapply heap_le_trans; [exact H1|]. eapply append_le; [|exact E2]. by apply truncate_ok.
Qed.
End Append_facts.

(** Keeping the last bytes chunk by chunk is keeping the last bytes of the whole. *)
Lemma last_z_app {A} max (l k : list A) : 0 <= max -> last_z max (last_z max l ++ k) = last_z max (l ++ k).
Proof.
  intros Hm. unfold last_z, zdrop, zlen. rewrite !length_app, length_drop.
  destruct (decide (length l <= Z.to_nat max)%nat) as [Hl|Hl].
  - replace (Z.to_nat (Z.of_nat (length l) - max)) with O by lia. by rewrite drop_0, Nat.sub_0_r.
  - rewrite <- drop_app_le, drop_drop by lia. f_equal. lia.
Qed.

Lemma last_z_short {A} max (l : list A) : zlen l <= max -> last_z max l = l.
Proof. intros. unfold last_z, zdrop. replace (Z.to_nat (zlen l - max)) with O by lia. apply drop_0. Qed.

Lemma length_last_z {A} max (l : list A) : 0 <= max -> zlen (last_z max l) <= max.
Proof. intros. unfold last_z, zdrop, zlen. rewrite length_drop. lia. Qed.

(** Another slice sees the same elements when its array was left alone. *)
Lemma view_frame s h h' t :
  heap_frame s h h' -> slice_ok h t -> (forall a, slice_array s = Some a -> slice_array t <> Some a) ->
  view h' t = view h t /\ slice_ok h' t.
Proof.
  intros [Hl Hf] Ht Hd. destruct t as [[a n]|]; [|done]. cbn in *. destruct Ht as [Ha Hn].
  rewrite Hf; [split; [done|split; [lia|done]]|done|]. intros E. by apply (Hd a E).
Qed.
