(* ===== verification/Proc.v ===== *)
(** internal/model/proc.go: resolving a process's socket descriptor through /proc.

    The file system is the class [ProcFS]: what readlink and reading a file return.
    netip addresses, strconv.ParseUint in base 16 and strings.Fields are the parts of
    the standard library the code uses; they are modelled on byte strings. *)
From Stdlib Require Import Ascii.
From S2P Require Import Prelude.

(** ** Addresses (net/netip) *)

Inductive Addr : Type :=
| AddrZero                      (* the zero, invalid Addr *)
| AddrFrom4 (b : list Z)
| AddrFrom16 (b : list Z).

Record AddrPort := AddrPortFrom { ap_addr : Addr; ap_port : Z }.

Definition AddrPort_zero : AddrPort := AddrPortFrom AddrZero 0.

#[export] Instance Addr_eq_dec : EqDecision Addr.
Proof. solve_decision. Defined.
#[export] Instance AddrPort_eq_dec : EqDecision AddrPort.
Proof. solve_decision. Defined.

Definition IsValid (a : AddrPort) : bool := match ap_addr a with AddrZero => false | _ => true end.

(** ** Hexadecimal *)

Definition hex_digit (c : ascii) : option Z :=
  let n := byte_of_ascii c in
  if (48 <=? n) && (n <=? 57) then Some (n - 48)
  else if (97 <=? n) && (n <=? 102) then Some (n - 87)
  else if (65 <=? n) && (n <=? 70) then Some (n - 55)
  else None.

Fixpoint hex_digits (acc : Z) (s : string) : option Z :=
  match s with
  | EmptyString => Some acc
  | String c s => d ← hex_digit c; hex_digits (16 * acc + d) s
  end.

(** [strconv.ParseUint(s, 16, w)]: an error on the empty string, on a character that
    is not a digit and on a value that does not fit. *)
Definition ParseUint16 (s : string) (w : Z) : option Z :=
  match s with
  | EmptyString => None
  | _ => v ← hex_digits 0 s; if v <? 2 ^ w then Some v else None
  end.

(** ** parseHexAddr *)

(** The four bytes [byte(v), byte(v>>8), byte(v>>16), byte(v>>24)]. *)
Definition word_bytes (v : Z) : list Z :=
  [wrap 8 v; wrap 8 (Z.shiftr v 8); wrap 8 (Z.shiftr v 16); wrap 8 (Z.shiftr v 24)].

(** [strings.IndexByte(s, ':')] as the split around the first colon. *)
Fixpoint split_colon (s : string) : option (string * string) :=
  match s with
  | EmptyString => None
  | String c s =>
      if Ascii.eqb c ":"%char then Some (EmptyString, s)
      else '(a, b) ← split_colon s; Some (String c a, b)
  end.

(** The words of an IPv6 address, eight digits each. *)
Fixpoint hex_words (n : nat) (s : string) : option (list Z) :=
  match n with
  | O => Some []
  | S n =>
      v ← ParseUint16 (String.substring 0 8 s) 32;
      rest ← hex_words n (String.substring 8 (String.length s - 8) s);
      Some (word_bytes v ++ rest)
  end.

Definition parseHexAddr (tok : string) : option AddrPort :=
  '(addrHex, portHex) ← split_colon tok;
  port ← ParseUint16 portHex 16;
  if (String.length addrHex =? 8)%nat then
    v ← ParseUint16 addrHex 32;
    Some (AddrPortFrom (AddrFrom4 (word_bytes v)) port)
  else if (String.length addrHex =? 32)%nat then
    b ← hex_words 4 addrHex;
    Some (AddrPortFrom (AddrFrom16 b) port)
  else None.

(** ** scanNetTCP and procPeer *)

(** ASCII white space, which strings.Fields splits around. *)
Definition is_space (c : ascii) : bool :=
  existsb (Ascii.eqb c) [" "%char; "009"%char; "010"%char; "011"%char; "012"%char; "013"%char].

(** [strings.Fields]: the maximal runs of characters that are not white space. *)
Fixpoint fields_from (cur : string) (s : string) : list string :=
  let flush := match cur with EmptyString => [] | _ => [cur] end in
  match s with
  | EmptyString => flush
  | String c s =>
      if is_space c then flush ++ fields_from EmptyString s
      else fields_from (cur ++ String c EmptyString) s
  end.
Definition Fields (s : string) : list string := fields_from EmptyString s.

(** One line's remote address, when its inode column matches. *)
Definition line_peer (inode line : string) : option AddrPort :=
  let fs := Fields line in
  match fs !! 9%nat with
  | Some i => if String.eqb i inode then rem ← fs !! 2%nat; parseHexAddr rem else None
  | None => None
  end.

Fixpoint scan_lines (inode : string) (lines : list string) : option AddrPort :=
  match lines with
  | [] => None
  | l :: lines => match line_peer inode l with Some ap => Some ap | None => scan_lines inode lines end
  end.

(** What the system answers: the target of /proc/<pid>/fd/<fd> and the lines of a
    file, as the scanner delivers them. *)
Class ProcFS := {
  readlink_fd : Z -> Z -> option string;
  file_lines : string -> option (list string) }.

Definition scanNetTCP `{ProcFS} (path inode : string) : option AddrPort :=
  lines ← file_lines path;
  match lines with
  | [] => None
  | _ :: lines => scan_lines inode lines    (* header *)
  end.

Definition TrimPrefix (p s : string) : string :=
  if String.prefix p s then String.substring (String.length p) (String.length s - String.length p) s
  else s.
Definition HasSuffix (p s : string) : bool :=
  (String.length p <=? String.length s)%nat
  && String.eqb (String.substring (String.length s - String.length p) (String.length p) s) p.
Definition TrimSuffix (p s : string) : string :=
  if HasSuffix p s then String.substring 0 (String.length s - String.length p) s else s.

Definition procPeer `{ProcFS} (pid fd : Z) : option AddrPort :=
  link ← readlink_fd pid fd;
  if String.prefix "socket:[" link then
    let inode := TrimSuffix "]" (TrimPrefix "socket:[" link) in
    match scanNetTCP "/proc/net/tcp" inode with
    | Some ap => Some ap
    | None => scanNetTCP "/proc/net/tcp6" inode
    end
  else None.

(** ** ipFrom (internal/model/model.go) *)

Definition ipFrom (a : list Z) (v6 : bool) : Addr :=
  if v6 then AddrFrom16 (a ≫= le_bytes 4) else AddrFrom4 (le_bytes 4 (nth 0 a 0)).

(** ** The table as the kernel prints it *)

(** One hexadecimal digit, upper case, and [n] of them. *)
Definition hex_char (d : Z) : ascii := ascii_of_byte (if d <? 10 then 48 + d else 55 + d).
Fixpoint print_hex (n : nat) (v : Z) : string :=
  match n with
  | O => EmptyString
  | S n => print_hex n (v / 16) ++ String (hex_char (v mod 16)) EmptyString
  end.

(** An address column: the words of the address as the kernel holds them, the port. *)
Definition print_endpoint (a : list Z) (v6 : bool) (port : Z) : string :=
  (if v6 then String.concat EmptyString (print_hex 8 <$> a) else print_hex 8 (nth 0 a 0))
  ++ ":" ++ print_hex 4 port.

Lemma hex_digit_char d : 0 <= d < 16 -> hex_digit (hex_char d) = Some d.
Proof.
  intros Hd. assert (d ∈ seqZ 0 16) as Hin by (apply elem_of_seqZ; lia).
  revert d Hin Hd. apply (proj1 (Forall_forall (fun d => 0 <= d < 16 -> _) _)).
  repeat constructor.
Qed.

Lemma hex_digits_app acc s t : hex_digits acc (s ++ t) = (v ← hex_digits acc s; hex_digits v t).
Proof.
  revert acc. induction s as [|c s IH]; intros acc; [done|].
  change (String c s +:+ t) with (String c (s +:+ t)). cbn [hex_digits].
  destruct (hex_digit c); [|done]. cbn [mbind option_bind]. apply IH.
Qed.

Lemma hex_digits_print n acc v :
  0 <= v < 16 ^ Z.of_nat n -> hex_digits acc (print_hex n v) = Some (16 ^ Z.of_nat n * acc + v).
Proof.
  revert acc v. induction n as [|n IH]; intros acc v Hv.
  - cbn in *. f_equal. lia.
  - rewrite Nat2Z.inj_succ, Z.pow_succ_r in Hv |- * by lia. cbn [print_hex].
    rewrite hex_digits_app, IH by (split; [apply Z.div_pos; lia|apply Z.div_lt_upper_bound; lia]).
    cbn [mbind option_bind hex_digits]. rewrite hex_digit_char by (apply Z.mod_pos_bound; lia).
    cbn [mbind option_bind]. f_equal. pose proof (Z.div_mod v 16 ltac:(lia)). lia.
Qed.

Lemma length_sapp s t : String.length (s ++ t) = (String.length s + String.length t)%nat.
Proof.
  induction s as [|c s IH]; [done|]. change (String c s +:+ t) with (String c (s +:+ t)).
  cbn. by rewrite IH.
Qed.

Lemma substring_all s : String.substring 0 (String.length s) s = s.
Proof. induction s as [|c s IH]; [done|]. cbn. by rewrite IH. Qed.

Lemma substring_head s t n : String.length s = n -> String.substring 0 n (s ++ t) = s.
Proof.
  intros <-. induction s as [|c s IH]; [by destruct t|].
  change (String c s +:+ t) with (String c (s +:+ t)). cbn. by rewrite IH.
Qed.

Lemma substring_tail s t n :
  String.length s = n -> String.substring n (String.length (s ++ t) - n) (s ++ t) = t.
Proof.
  intros <-. rewrite length_sapp. replace (_ + _ - _)%nat with (String.length t) by lia.
  induction s as [|c s IH]; [apply substring_all|].
  change (String c s +:+ t) with (String c (s +:+ t)). exact IH.
Qed.

Lemma length_print_hex n v : String.length (print_hex n v) = n.
Proof.
  revert v. induction n as [|n IH]; intros v; [done|]. cbn [print_hex].
  rewrite length_sapp, IH. cbn. lia.
Qed.

Lemma ParseUint16_print n v w :
  (0 < n)%nat -> 4 * Z.of_nat n = w -> in_width w v -> ParseUint16 (print_hex n v) w = Some v.
Proof.
  intros Hn <- Hv. unfold ParseUint16.
  assert (hex_digits 0 (print_hex n v) = Some v) as E.
  { rewrite hex_digits_print; [f_equal; lia|]. unfold in_width in Hv.
    by rewrite Z.pow_mul_r in Hv by lia. }
  pose proof (length_print_hex n v) as Hl.
  destruct (print_hex n v) as [|c s]; [cbn in Hl; lia|]. rewrite E. cbn [mbind option_bind].
  destruct Hv as [_ Hv]. by destruct (Z.ltb_spec v (2 ^ (4 * Z.of_nat n))); [|lia].
Qed.

(** *** Splitting at the colon *)

Definition no_colon (s : string) : Prop := Forall (fun c => c <> ":"%char) (String.list_ascii_of_string s).

Lemma split_colon_app a b : no_colon a -> split_colon (a ++ ":" ++ b) = Some (a, b).
Proof.
  unfold no_colon. induction a as [|c a IH]; intros Ha; [done|].
  apply Forall_cons in Ha as [Hc Ha].
  change (String c a +:+ (":" +:+ b)) with (String c (a +:+ (":" +:+ b))). cbn [split_colon].
  destruct (Ascii.eqb_spec c ":"); [done|]. by rewrite IH.
Qed.

Lemma list_ascii_app s t :
  String.list_ascii_of_string (s ++ t) = String.list_ascii_of_string s ++ String.list_ascii_of_string t.
Proof.
  induction s as [|c s IH]; [done|]. change (String c s +:+ t) with (String c (s +:+ t)).
  cbn. by rewrite IH.
Qed.

Lemma no_colon_app s t : no_colon s -> no_colon t -> no_colon (s ++ t).
Proof. unfold no_colon. rewrite list_ascii_app. apply Forall_app_2. Qed.

(** A digit is neither a colon nor white space. *)
Lemma hex_char_plain d : 0 <= d < 16 -> hex_char d <> ":"%char /\ is_space (hex_char d) = false.
Proof.
  intros Hd. assert (d ∈ seqZ 0 16) as Hin by (apply elem_of_seqZ; lia).
  revert d Hin Hd. apply (proj1 (Forall_forall (fun d => 0 <= d < 16 -> _) _)).
  repeat constructor; by vm_compute.
Qed.

Lemma print_hex_chars n v :
  Forall (fun c => c <> ":"%char /\ is_space c = false) (String.list_ascii_of_string (print_hex n v)).
Proof.
  revert v. induction n as [|n IH]; intros v; [constructor|]. cbn [print_hex].
  rewrite list_ascii_app. apply Forall_app_2; [apply IH|]. constructor; [|constructor].
  apply hex_char_plain, Z.mod_pos_bound. lia.
Qed.

Lemma print_hex_no_colon n v : no_colon (print_hex n v).
Proof. eapply Forall_impl; [apply print_hex_chars|]. by intros c []. Qed.

(** *** An address read back *)

Lemma word_bytes_le v : in_width 32 v -> word_bytes v = le_bytes 4 v.
Proof.
  intros Hv. unfold word_bytes, wrap. rewrite !Z.shiftr_div_pow2 by lia. cbn [le_bytes].
  rewrite !Z.div_div by lia. done.
Qed.

Lemma hex_words_print a :
  Forall (in_width 32) a ->
  hex_words (length a) (String.concat EmptyString (print_hex 8 <$> a)) = Some (a ≫= le_bytes 4).
Proof.
  induction 1 as [|v a Hv _ IH]; [done|].
  assert (String.concat EmptyString (print_hex 8 <$> v :: a)
    = (print_hex 8 v ++ String.concat EmptyString (print_hex 8 <$> a))%string) as ->.
  { destruct a; [|done]. cbn [fmap list_fmap String.concat]. induction (print_hex 8 v) as [|c s IHs]; [done|].
    change (String c s +:+ "") with (String c (s +:+ "")). by rewrite <- IHs. }
  cbn [length hex_words]. rewrite substring_head, substring_tail by apply length_print_hex.
  rewrite (ParseUint16_print 8 v 32) by (done || lia). cbn [mbind option_bind].
  rewrite IH. cbn [mbind option_bind list_bind]. by rewrite word_bytes_le.
Qed.

Lemma length_concat_print a :
  String.length (String.concat EmptyString (print_hex 8 <$> a)) = (8 * length a)%nat
  /\ no_colon (String.concat EmptyString (print_hex 8 <$> a)).
Proof.
  induction a as [|v a [IH1 IH2]]; [split; [done|constructor]|].
  destruct a as [|w a].
  - cbn [fmap list_fmap String.concat length]. rewrite length_print_hex.
    split; [done|apply print_hex_no_colon].
  - change (String.concat EmptyString (print_hex 8 <$> v :: w :: a)) with
      (print_hex 8 v ++ String.concat EmptyString (print_hex 8 <$> w :: a))%string.
    rewrite length_sapp, length_print_hex, IH1. split; [cbn; lia|].
    apply no_colon_app; [apply print_hex_no_colon|done].
Qed.

(** The address column of a socket parses to the address the flow table shows. *)
Lemma parseHexAddr_print a v6 port :
  length a = 4%nat -> Forall (in_width 32) a -> in_width 16 port ->
  parseHexAddr (print_endpoint a v6 port) = Some (AddrPortFrom (ipFrom a v6) port).
Proof.
  intros Hl Ha Hp. unfold parseHexAddr, print_endpoint, ipFrom. destruct v6.
  - destruct (length_concat_print a) as [H1 H2]. rewrite split_colon_app by done.
    cbn [mbind option_bind]. rewrite (ParseUint16_print 4 port 16) by (done || lia).
    cbn [mbind option_bind]. rewrite H1, Hl. cbn [Nat.mul Nat.add Nat.eqb].
    pose proof (hex_words_print a Ha) as E. rewrite Hl in E. by rewrite E.
  - rewrite split_colon_app by apply print_hex_no_colon.
    cbn [mbind option_bind]. rewrite (ParseUint16_print 4 port 16) by (done || lia).
    cbn [mbind option_bind]. rewrite length_print_hex. cbn [Nat.eqb].
    assert (in_width 32 (nth 0 a 0)) as Hw by (destruct Ha; [done|done]).
    rewrite (ParseUint16_print 8 _ 32) by (done || lia). cbn [mbind option_bind].
    by rewrite word_bytes_le.
Qed.

(** *** Lines of the table *)

Fixpoint spaces (n : nat) : string := match n with O => EmptyString | S n => String " " (spaces n) end.

(** Words, each after at least one space, and trailing padding. *)
Fixpoint print_words (ws : list (nat * string)) (tail : nat) : string :=
  match ws with
  | [] => spaces tail
  | (n, w) :: ws => spaces (S n) ++ w ++ print_words ws tail
  end.

Definition word (s : string) : Prop :=
  s <> EmptyString /\ Forall (fun c => is_space c = false) (String.list_ascii_of_string s).

Lemma fields_from_spaces n cur s :
  fields_from cur (spaces (S n) ++ s) = (match cur with EmptyString => [] | _ => [cur] end) ++ Fields s.
Proof.
  cbn [spaces]. change (String " " (spaces n) +:+ s) with (String " " (spaces n +:+ s)).
  cbn [fields_from]. change (is_space " ") with true. cbn iota. f_equal.
  induction n as [|n IH]; [done|]. cbn [spaces].
  change (String " " (spaces n) +:+ s) with (String " " (spaces n +:+ s)). exact IH.
Qed.

Lemma fields_from_word cur w s :
  Forall (fun c => is_space c = false) (String.list_ascii_of_string w) ->
  fields_from cur (w ++ s) = fields_from (cur ++ w) s.
Proof.
  revert cur. induction w as [|c w IH]; intros cur Hw.
  - change (EmptyString +:+ s) with s. f_equal. induction cur as [|x cur IHc]; [done|].
    change (String x cur +:+ "") with (String x (cur +:+ "")). by rewrite <- IHc.
  - apply Forall_cons in Hw as [Hc Hw]. change (String c w +:+ s) with (String c (w +:+ s)).
    cbn [fields_from]. rewrite Hc, IH by done. f_equal.
    induction cur as [|x cur IHc]; [done|].
    change (String x cur +:+ String c "") with (String x (cur +:+ String c "")).
    change (String x (cur +:+ String c "") +:+ w) with (String x ((cur +:+ String c "") +:+ w)).
    by rewrite IHc.
Qed.

Lemma fields_from_print cur ws tail :
  Forall (fun nw => word nw.2) ws ->
  fields_from cur (print_words ws tail)
  = (match cur with EmptyString => [] | _ => [cur] end) ++ (snd <$> ws).
Proof.
  intros Hw. revert cur. induction Hw as [|[n w] ws [Hne Hsp] _ IH]; intros cur.
  - cbn [print_words fmap list_fmap]. rewrite app_nil_r. destruct tail as [|n]; [done|].
    pose proof (fields_from_spaces n cur EmptyString) as E.
    assert (spaces (S n) ++ "" = spaces (S n))%string as Es.
    { generalize (S n). intros m. induction m as [|m IHm]; [done|].
      change (spaces (S m) +:+ "") with (String " " (spaces m +:+ "")). cbn [spaces]. by rewrite IHm. }
    rewrite Es in E. rewrite E. by rewrite app_nil_r.
  - cbn [print_words]. rewrite fields_from_spaces. f_equal. unfold Fields.
    rewrite fields_from_word by done. rewrite IH. by destruct w.
Qed.

Lemma Fields_print ws tail : Forall (fun nw => word nw.2) ws -> Fields (print_words ws tail) = snd <$> ws.
Proof. intros Hw. by apply (fields_from_print EmptyString). Qed.

Lemma print_endpoint_word a v6 port : word (print_endpoint a v6 port).
Proof.
  unfold word, print_endpoint. split.
  - assert (forall s, (s ++ ":" ++ print_hex 4 port)%string <> EmptyString) as Hne by (by intros []).
    apply Hne.
  - rewrite !list_ascii_app. apply Forall_app_2; [|apply Forall_app_2].
    + destruct v6.
      * induction a as [|v [|w a] IH]; [constructor| |].
        -- eapply Forall_impl; [apply print_hex_chars|]. by intros c [].
        -- change (String.concat EmptyString (print_hex 8 <$> v :: w :: a)) with
             (print_hex 8 v ++ String.concat EmptyString (print_hex 8 <$> w :: a))%string.
           rewrite list_ascii_app. apply Forall_app_2; [|done].
           eapply Forall_impl; [apply print_hex_chars|]. by intros c [].
      * eapply Forall_impl; [apply print_hex_chars|]. by intros c [].
    + by repeat constructor.
    + eapply Forall_impl; [apply print_hex_chars|]. by intros c [].
Qed.

(** One row of /proc/net/tcp or tcp6: the slot and local address, the remote
    address, six columns, the inode, and the columns after it. *)
Record row := mkRow {
  r_front : list (nat * string); r_pad : nat; r_addr : list Z; r_v6 : bool; r_port : Z;
  r_mid : list (nat * string); r_inode : string; r_back : list (nat * string); r_tail : nat }.

Definition row_ok (r : row) : Prop :=
  length (r_front r) = 2%nat /\ length (r_mid r) = 6%nat
  /\ Forall (fun nw => word nw.2) (r_front r ++ r_mid r ++ r_back r) /\ word (r_inode r)
  /\ length (r_addr r) = 4%nat /\ Forall (in_width 32) (r_addr r) /\ in_width 16 (r_port r).

Definition print_row (r : row) : string :=
  print_words (r_front r ++ (r_pad r, print_endpoint (r_addr r) (r_v6 r) (r_port r))
    :: r_mid r ++ (O, r_inode r) :: r_back r) (r_tail r).

Definition row_peer (r : row) : AddrPort := AddrPortFrom (ipFrom (r_addr r) (r_v6 r)) (r_port r).

Lemma line_peer_row inode r :
  row_ok r -> line_peer inode (print_row r) = if String.eqb (r_inode r) inode then Some (row_peer r) else None.
Proof.
  intros (Hf & Hm & Hws & Hi & Ha & Haw & Hp). unfold line_peer, print_row.
  rewrite !Forall_app in Hws. destruct Hws as (H1 & H2 & H3).
  rewrite Fields_print.
  2:{ apply Forall_app_2; [done|]. constructor; [apply print_endpoint_word|].
      apply Forall_app_2; [done|]. by constructor. }
  destruct (r_front r) as [|f1 [|f2 [|]]]; try done.
  destruct (r_mid r) as [|m1 [|m2 [|m3 [|m4 [|m5 [|m6 [|]]]]]]]; try done. cbn.
  destruct (String.eqb (r_inode r) inode); [|done]. cbn. by apply parseHexAddr_print.
Qed.

(** The first row with the inode decides. *)
Definition find_row (inode : string) (rows : list row) : option row :=
  snd <$> list_find (fun r => r_inode r = inode) rows.

Lemma find_row_cons inode r rows :
  find_row inode (r :: rows) = if String.eqb (r_inode r) inode then Some r else find_row inode rows.
Proof.
  unfold find_row. cbn [list_find]. case_decide as Hd.
  - by rewrite (proj2 (String.eqb_eq _ _) Hd).
  - rewrite (proj2 (String.eqb_neq _ _) Hd). by destruct (list_find _ rows) as [[]|].
Qed.

Lemma find_row_app inode rows rows' :
  find_row inode (rows ++ rows')
  = match find_row inode rows with Some r => Some r | None => find_row inode rows' end.
Proof.
  induction rows as [|r rows IH]; [done|]. cbn [app]. rewrite !find_row_cons.
  by destruct (String.eqb _ _).
Qed.

Lemma scan_rows inode rows :
  Forall row_ok rows -> scan_lines inode (print_row <$> rows) = row_peer <$> find_row inode rows.
Proof.
  induction 1 as [|r rows Hr _ IH]; [done|]. cbn [fmap list_fmap scan_lines].
  rewrite find_row_cons, line_peer_row by done. by destruct (String.eqb _ _).
Qed.

Lemma scanNetTCP_rows `{ProcFS} path header rows inode :
  file_lines path = Some (header :: (print_row <$> rows)) -> Forall row_ok rows ->
  scanNetTCP path inode = row_peer <$> find_row inode rows.
Proof. intros E Hr. unfold scanNetTCP. rewrite E. by apply scan_rows. Qed.

(** *** The link *)

Lemma prefix_app p s : String.prefix p (p ++ s) = true.
Proof.
  induction p as [|c p IH]; [by destruct s|]. change (String c p +:+ s) with (String c (p +:+ s)).
  cbn. destruct (ascii_dec c c); done.
Qed.

Lemma TrimPrefix_app p s : TrimPrefix p (p ++ s) = s.
Proof. unfold TrimPrefix. rewrite prefix_app. by apply substring_tail. Qed.

Lemma TrimSuffix_app p s : TrimSuffix p (s ++ p) = s.
Proof.
  unfold TrimSuffix, HasSuffix. rewrite length_sapp.
  destruct (Nat.leb_spec (String.length p) (String.length s + String.length p)); [|lia].
  replace (String.length s + String.length p - String.length p)%nat with (String.length s) by lia.
  assert (String.substring (String.length s) (String.length p) (s ++ p) = p) as ->.
  { rewrite <- (substring_tail s p (String.length s) eq_refl) at 3. f_equal. rewrite length_sapp. lia. }
  rewrite String.eqb_refl. by apply substring_head.
Qed.

(** The inode of a socket link. *)
Definition socket_link (inode : string) : string := "socket:[" ++ inode ++ "]".

Lemma socket_link_inode inode :
  String.prefix "socket:[" (socket_link inode) = true
  /\ TrimSuffix "]" (TrimPrefix "socket:[" (socket_link inode)) = inode.
Proof.
  unfold socket_link. split; [apply prefix_app|]. rewrite TrimPrefix_app. apply TrimSuffix_app.
Qed.
