(* ===== verification/Store.v ===== *)
(** internal/model/model.go: the table of connections.

    A [Store] is changed by five operations, each of which holds the mutex from
    beginning to end, so a run of the program is a sequence of them.  Plaintext tails
    are slices into the shared [heap], because appendTail works in place and the
    slices are handed out; the other byte slices never share a written array and are
    lists.  What a call takes from outside is its [call] record: the clock, /proc, and
    a number for the order in which each of its map iterations runs ([MapRange]). *)
From S2P Require Import Prelude Loader TlsParse Slices Proc.

(** ** Iteration over maps *)

(** The order of a [range] loop: any permutation of the entries, possibly another one
    for every loop, which [id] identifies. *)
Class MapRange := range : forall {V}, list nat -> gmap Z V -> list (Z * V).
Class MapRangeOk `{MapRange} : Prop :=
  range_perm : forall V id (m : gmap Z V), range id m ≡ₚ map_to_list m.

(** ** Data *)

Record Conn := mkConn {
  cn_Sock : Z; cn_Pid : Z; cn_Comm : string; cn_Local : AddrPort; cn_Remote : AddrPort;
  cn_Direction : Z; cn_TxBytes : Z; cn_RxBytes : Z; cn_PtxBytes : Z; cn_PrxBytes : Z;
  cn_IsTLS : bool; cn_Closed : bool; cn_Preexisting : bool;
  cn_FirstSeen : Z; cn_LastActive : Z; cn_ClosedAt : Z;      (* 0 is the zero time *)
  cn_Info : Info;
  cn_HeadOut : list Z; cn_TailOut : slice; cn_HeadIn : list Z; cn_TailIn : slice;
  cn_plainFinal : bool; cn_wireOut : list Z; cn_wireIn : list Z }.

Record sample := mkSample {
  headOut : list Z; tailOut : slice; headIn : list Z; tailIn : slice }.

Record Store := mkStore {
  conns : gmap Z Conn; history : list Conn; maxHistory : Z; peekBytes : Z;
  pidfd : gmap Z Z; plainBySSL : gmap Z sample; arrays : heap }.

Definition maxWireBuf : Z := 16384.

(** [c.Remote.IsValid() && c.Remote.Port() != 0] *)
Definition HasEndpoint (c : Conn) : bool := IsValid (cn_Remote c) && negb (ap_port (cn_Remote c) =? 0).

Definition New (maxHistory peekBytes : Z) : Store :=
  mkStore ∅ [] (if maxHistory <? 0 then 0 else maxHistory)
    (if peekBytes <? 0 then 0 else peekBytes) ∅ ∅ [].

Definition set_conns (x : gmap Z Conn) (s : Store) : Store :=
  mkStore x (history s) (maxHistory s) (peekBytes s) (pidfd s) (plainBySSL s) (arrays s).
Definition set_history (x : list Conn) (s : Store) : Store :=
  mkStore (conns s) x (maxHistory s) (peekBytes s) (pidfd s) (plainBySSL s) (arrays s).
Definition set_pidfd (x : gmap Z Z) (s : Store) : Store :=
  mkStore (conns s) (history s) (maxHistory s) (peekBytes s) x (plainBySSL s) (arrays s).
Definition set_samples (x : gmap Z sample) (h : heap) (s : Store) : Store :=
  mkStore (conns s) (history s) (maxHistory s) (peekBytes s) (pidfd s) x h.

(** What one call observes. *)
Record call := mkCall {
  call_id : nat;                              (* identifies its map iterations *)
  now : Z;                                    (* time.Now() *)
  closed_now : Z -> Z;                        (* time.Now() in retire, per socket *)
  proc_at : nat -> ProcFS                     (* /proc, as the i-th resolve reads it *) }.

(** procPeer, as the [i]-th resolve of a call runs it. *)
Definition proc_peer (k : call) (i : nat) (pid fd : Z) : option AddrPort :=
  let fs := proc_at k i in procPeer pid fd.

(** ** UpdateFlows *)

(** [&Conn{Sock: sock, FirstSeen: now}] *)
Definition new_conn (sock t : Z) : Conn :=
  mkConn sock 0 EmptyString AddrPort_zero AddrPort_zero 0 0 0 0 0 false false false t 0 0
    Info_zero [] None [] None false [] [].

Definition update_conn (t : Z) (f : Flow) (c : Conn) : Conn :=
  let tls := if fl_IsTLS f then true else cn_IsTLS c in
  mkConn (cn_Sock c) (fl_Pid f) (fl_Comm f)
    (AddrPortFrom (ipFrom (fl_Saddr f) (fl_IsIPv6 f)) (fl_Sport f))
    (AddrPortFrom (ipFrom (fl_Daddr f) (fl_IsIPv6 f)) (fl_Dport f))
    (if negb (fl_Direction f =? 0) then fl_Direction f else cn_Direction c)
    (fl_Tx f) (fl_Rx f) (cn_PtxBytes c) (cn_PrxBytes c)
    tls (fl_Closed f)
    (tls && negb (HasClientHello (cn_Info c)) && negb (HasServerHello (cn_Info c)))
    (cn_FirstSeen c)
    (if negb (fl_Tx f =? cn_TxBytes c) || negb (fl_Rx f =? cn_RxBytes c) then t else cn_LastActive c)
    (cn_ClosedAt c) (cn_Info c) (cn_HeadOut c) (cn_TailOut c) (cn_HeadIn c) (cn_TailIn c)
    (cn_plainFinal c) (cn_wireOut c) (cn_wireIn c).

(** One turn of the loop over the snapshot. *)
Definition fold_flow (t : Z) (m : gmap Z Conn) (f : Flow) : gmap Z Conn :=
  let c := match m !! fl_Sock f with Some c => c | None => new_conn (fl_Sock f) t end in
  <[fl_Sock f := update_conn t f c]> m.

(** The changes retire makes to the connection. *)
Definition retired (t : Z) (c : Conn) : Conn :=
  mkConn (cn_Sock c) (cn_Pid c) (cn_Comm c) (cn_Local c) (cn_Remote c) (cn_Direction c)
    (cn_TxBytes c) (cn_RxBytes c) (cn_PtxBytes c) (cn_PrxBytes c) (cn_IsTLS c) (cn_Closed c)
    (cn_Preexisting c) (cn_FirstSeen c) (cn_LastActive c)
    (if cn_ClosedAt c =? 0 then t else cn_ClosedAt c)
    (cn_Info c) (cn_HeadOut c) (cn_TailOut c) (cn_HeadIn c) (cn_TailIn c) (cn_plainFinal c) [] [].

Definition retire (t : Z) (c : Conn) (s : Store) : Store :=
  let c := retired t c in
  if maxHistory s =? 0 then s
  else
    let h := history s ++ [c] in
    set_history (if maxHistory s <? zlen h then zdrop (zlen h - maxHistory s) h else h) s.

Definition UpdateFlows `{MapRange} (k : call) (fs : list Flow) (s : Store) : Store :=
  let s := set_conns (fold_left (fold_flow (now k)) fs (conns s)) s in
  let seen (sock : Z) := existsb (fun f => fl_Sock f =? sock) fs in
  fold_left (fun s '(sock, c) =>
      if negb (seen sock) && cn_Closed c then
        let s := retire (closed_now k sock) c s in
        set_conns (delete sock (conns s)) s
      else s)
    (range [call_id k] (conns s)) s.

(** ** ApplyWire *)

Definition set_wire (out inn : list Z) (i : Info) (tls pre : bool) (c : Conn) : Conn :=
  mkConn (cn_Sock c) (cn_Pid c) (cn_Comm c) (cn_Local c) (cn_Remote c) (cn_Direction c)
    (cn_TxBytes c) (cn_RxBytes c) (cn_PtxBytes c) (cn_PrxBytes c) tls (cn_Closed c) pre
    (cn_FirstSeen c) (cn_LastActive c) (cn_ClosedAt c) i
    (cn_HeadOut c) (cn_TailOut c) (cn_HeadIn c) (cn_TailIn c) (cn_plainFinal c) out inn.

(** The reassembly buffer takes the chunk while it is short of [maxWireBuf]. *)
Definition grow_wire (buf data : list Z) : list Z := if zlen buf <? maxWireBuf then buf ++ data else buf.

(** The part of ApplyWire after the buffer has grown: parse it, note what is known. *)
Definition wire_conn `{X509} (dir : Z) (data : list Z) (c : Conn) : go Conn :=
  let out := if dir =? 2 then cn_wireOut c else grow_wire (cn_wireOut c) data in
  let inn := if dir =? 2 then grow_wire (cn_wireIn c) data else cn_wireIn c in
  do! i <- Parse (if dir =? 2 then inn else out) (cn_Info c);
  let hello := HasClientHello i || HasServerHello i in
  Ok (set_wire out inn i (hello || cn_IsTLS c) (negb hello && cn_Preexisting c) c).

Definition ApplyWire `{X509} (k : call) (w : option WireEvent) (s : Store) : go Store :=
  match w with
  | None => Ok s
  | Some w =>
      if zlen (w_Data w) =? 0 then Ok s
      else
        let c := match conns s !! w_Sock w with Some c => c | None => new_conn (w_Sock w) (now k) end in
        do! c <- wire_conn (w_Dir w) (w_Data w) c;
        Ok (set_conns (<[w_Sock w := c]> (conns s)) s)
  end.

(** ** ApplyData *)

Definition sample_zero : sample := mkSample [] None [] None.

Definition ApplyData `{Growth} (d : option DataEvent) (s : Store) : Store :=
  match d with
  | None => s
  | Some d =>
      if zlen (d_Data d) =? 0 then s
      else
        let smp := match plainBySSL s !! d_SSL d with Some smp => smp | None => sample_zero end in
        if d_Dir d =? 1 then
          let head := match headOut smp with [] => d_Data d | h => h end in
          let '(h, tail) := appendTail (arrays s) (tailOut smp) (d_Data d) (peekBytes s) in
          set_samples (<[d_SSL d := mkSample head tail (headIn smp) (tailIn smp)]> (plainBySSL s)) h s
        else
          let head := match headIn smp with [] => d_Data d | h => h end in
          let '(h, tail) := appendTail (arrays s) (tailIn smp) (d_Data d) (peekBytes s) in
          set_samples (<[d_SSL d := mkSample (headOut smp) (tailOut smp) head tail]> (plainBySSL s)) h s
  end.

(** ** resolve *)

(** [uint64(pid)<<32 | uint64(uint32(fd))] *)
Definition pidfd_key (pid fd : Z) : Z := Z.lor (wrap 64 (Z.shiftl pid 32)) (wrap 32 fd).

(** The first connection with that remote, in iteration order. *)
Fixpoint by_remote (ap : AddrPort) (l : list (Z * Conn)) : option (Z * Conn) :=
  match l with
  | [] => None
  | (sock, c) :: l => if decide (cn_Remote c = ap) then Some (sock, c) else by_remote ap l
  end.

(** The only connection of the pid: the loop gives up at the second one. *)
Fixpoint sole_of_pid (pid : Z) (l : list (Z * Conn)) (m : option Z) : option Z :=
  match l with
  | [] => m
  | (sock, c) :: l =>
      if cn_Pid c =? pid then
        match m with Some _ => None | None => sole_of_pid pid l (Some sock) end
      else sole_of_pid pid l m
  end.

Section Resolve.
Context `{MapRange}.

(** The [i]-th resolve of a call: the key in [conns] of the connection it returns. *)
Definition resolve (k : call) (i : nat) (pid fd : Z) (s : Store) : Store * option Z :=
  let fallback s := (s, sole_of_pid pid (range [call_id k; i; 1]%nat (conns s)) None) in
  if 0 <=? fd then
    let key := pidfd_key pid fd in
    let lookup s :=
      match proc_peer k i pid fd with
      | Some ap =>
          match by_remote ap (range [call_id k; i; 0]%nat (conns s)) with
          | Some (sock, c) => (set_pidfd (<[key := cn_Sock c]> (pidfd s)) s, Some sock)
          | None => fallback s
          end
      | None => fallback s
      end in
    match pidfd s !! key with
    | Some sock =>
        match conns s !! sock with
        | Some _ => (s, Some sock)
        | None => lookup (set_pidfd (delete key (pidfd s)) s)
        end
    | None => lookup s
    end
  else fallback s.

(** ** ApplyClose *)

Definition set_plain (ptx prx : Z) (final : bool) (c : Conn) : Conn :=
  mkConn (cn_Sock c) (cn_Pid c) (cn_Comm c) (cn_Local c) (cn_Remote c) (cn_Direction c)
    (cn_TxBytes c) (cn_RxBytes c) ptx prx (cn_IsTLS c) (cn_Closed c) (cn_Preexisting c)
    (cn_FirstSeen c) (cn_LastActive c) (cn_ClosedAt c) (cn_Info c)
    (cn_HeadOut c) (cn_TailOut c) (cn_HeadIn c) (cn_TailIn c) final (cn_wireOut c) (cn_wireIn c).

Definition set_peek (smp : sample) (c : Conn) : Conn :=
  mkConn (cn_Sock c) (cn_Pid c) (cn_Comm c) (cn_Local c) (cn_Remote c) (cn_Direction c)
    (cn_TxBytes c) (cn_RxBytes c) (cn_PtxBytes c) (cn_PrxBytes c) (cn_IsTLS c) (cn_Closed c)
    (cn_Preexisting c) (cn_FirstSeen c) (cn_LastActive c) (cn_ClosedAt c) (cn_Info c)
    (headOut smp) (tailOut smp) (headIn smp) (tailIn smp) (cn_plainFinal c)
    (cn_wireOut c) (cn_wireIn c).

(** Join the cached sample of a session, where there is one. *)
Definition join_sample (s : Store) (ssl : Z) (c : Conn) : Conn :=
  match plainBySSL s !! ssl with Some smp => set_peek smp c | None => c end.

Definition ApplyClose (k : call) (e : option CloseEvent) (s : Store) : Store :=
  match e with
  | None => s
  | Some e =>
      let '(s, r) := resolve k O (c_Pid e) (c_Fd e) s in
      let s :=
        match r with
        | Some sock =>
            set_conns (alter (fun c =>
                set_plain (c_Ptx e) (c_Prx e) true (join_sample s (c_SSL e) c)) sock (conns s)) s
        | None => s
        end in
      set_samples (delete (c_SSL e) (plainBySSL s)) (arrays s) s
  end.

(** ** UpdateSSLStats *)

(** [if !c.plainFinal { c.PtxBytes, c.PrxBytes = 0, 0 }] *)
Definition zero_plain (c : Conn) : Conn := if cn_plainFinal c then c else set_plain 0 0 false c.

(** One turn of the loop over the statistics. *)
Definition fold_stat (k : call) (i : nat) (st : SSLStat) (s : Store) : Store :=
  let '(s, r) := resolve k i (st_Pid st) (st_Fd st) s in
  match r with
  | Some sock =>
      set_conns (alter (fun c =>
          join_sample s (st_SSL st)
            (set_plain (wrap 64 (cn_PtxBytes c + st_Ptx st)) (wrap 64 (cn_PrxBytes c + st_Prx st))
               (cn_plainFinal c) c)) sock (conns s)) s
  | None => s
  end.

Fixpoint fold_stats (k : call) (i : nat) (sts : list SSLStat) (s : Store) : Store :=
  match sts with
  | [] => s
  | st :: sts => fold_stats k (S i) sts (fold_stat k i st s)
  end.

Definition UpdateSSLStats (k : call) (sts : list SSLStat) (s : Store) : Store :=
  let s := set_conns (zero_plain <$> conns s) s in
  let s := fold_stats k O sts s in
  let live (ssl : Z) := existsb (fun st => st_SSL st =? ssl) sts in
  set_samples (filter (fun '(ssl, _) => live ssl = true) (plainBySSL s)) (arrays s) s.

(** ** Snapshots *)

Definition Snapshot (id : nat) (s : Store) : list Conn := snd <$> range [id] (conns s).
End Resolve.

Definition SnapshotHistory (s : Store) : list Conn := rev (history s).
