(* ===== verification/StoreInv.v ===== *)
(** The store's invariant, and that each of its operations keeps it. *)
From S2P Require Import Prelude Loader TlsParse TlsSpec TlsEquiv Slices Proc Store.

(** ** The operations as one step *)

Inductive op : Type :=
| OpFlows (fs : list Flow)
| OpWire (w : option WireEvent)
| OpData (d : option DataEvent)
| OpClose (e : option CloseEvent)
| OpStats (sts : list SSLStat).

Definition do_op `{X509, Growth, MapRange} (k : call) (o : op) (s : Store) : go Store :=
  match o with
  | OpFlows fs => Ok (UpdateFlows k fs s)
  | OpWire w => ApplyWire k w s
  | OpData d => Ok (ApplyData d s)
  | OpClose e => Ok (ApplyClose k e s)
  | OpStats sts => Ok (UpdateSSLStats k sts s)
  end.

Fixpoint run `{X509, Growth, MapRange} (ops : list (call * op)) (s : Store) : go Store :=
  match ops with
  | [] => Ok s
  | (k, o) :: ops => do! s <- do_op k o s; run ops s
  end.

(** Inputs as the decoder delivers them: wire chunks of at most 1023 bytes. *)
Definition op_ok (o : op) : Prop :=
  match o with
  | OpWire (Some w) => Forall is_byte (w_Data w) /\ zlen (w_Data w) < 1024
  | _ => True
  end.

(** ** The invariant *)

Definition wire_buf_ok (b : list Z) : Prop := Forall is_byte b /\ zlen b < maxWireBuf + 1024.

(** A tail within its array and the window. *)
Definition tail_ok (h : heap) (peek : Z) (t : slice) : Prop := slice_ok h t /\ Z.of_nat (slen t) <= peek.

Record conn_ok (h : heap) (peek : Z) (c : Conn) : Prop := {
  co_wire : wire_buf_ok (cn_wireOut c) /\ wire_buf_ok (cn_wireIn c);
  co_pre : cn_Preexisting c = true ->
           cn_IsTLS c = true /\ HasClientHello (cn_Info c) = false /\ HasServerHello (cn_Info c) = false;
  co_tails : tail_ok h peek (cn_TailOut c) /\ tail_ok h peek (cn_TailIn c) }.

(** The tail of a session in one direction ([true]: out). *)
Definition stail (s : Store) (p : Z * bool) : slice :=
  match plainBySSL s !! p.1 with
  | Some smp => if p.2 then tailOut smp else tailIn smp
  | None => None
  end.

Record store_wf (s : Store) : Prop := {
  sw_keys : map_Forall (fun k c => cn_Sock c = k) (conns s);
  sw_conns : map_Forall (fun _ c => conn_ok (arrays s) (peekBytes s) c) (conns s);
  sw_hist : zlen (history s) <= maxHistory s;
  sw_retired : Forall (fun c => conn_ok (arrays s) (peekBytes s) c /\ cn_Closed c = true
                         /\ cn_wireOut c = [] /\ cn_wireIn c = []) (history s);
  sw_peek : 0 <= peekBytes s;
  sw_tails : forall p, tail_ok (arrays s) (peekBytes s) (stail s p);
  sw_apart : forall p q a, slice_array (stail s p) = Some a -> slice_array (stail s q) = Some a -> p = q }.

(** ** New *)

Lemma New_wf mh pb : store_wf (New mh pb).
Proof.
  split; cbn [conns history maxHistory peekBytes arrays New].
  - apply map_Forall_empty.
  - apply map_Forall_empty.
  - rewrite zlen_nil. destruct (Z.ltb_spec mh 0); lia.
  - constructor.
  - destruct (Z.ltb_spec pb 0); lia.
  - intros p. unfold stail, New; cbn [plainBySSL]. rewrite lookup_empty.
    split; [done|]. cbn [slen]. destruct (Z.ltb_spec pb 0); lia.
  - intros p q a. unfold stail; cbn. by rewrite lookup_empty.
Qed.

(** ** Connections *)

Lemma wire_buf_nil : wire_buf_ok [].
Proof. split; [constructor|done]. Qed.
#[export] Hint Resolve wire_buf_nil : tlstat.

Lemma tail_nil h peek : 0 <= peek -> tail_ok h peek None.
Proof. by split. Qed.
#[export] Hint Resolve tail_nil : tlstat.

Lemma new_conn_ok h peek sock t : 0 <= peek -> conn_ok h peek (new_conn sock t).
Proof. intros. split; cbn; auto with tlstat. Qed.

Lemma update_conn_ok h peek t f c : conn_ok h peek c -> conn_ok h peek (update_conn t f c).
Proof.
  intros [Hw Hp Ht]. split; cbn; [done| |done].
  rewrite !andb_true_iff, !negb_true_iff. tauto.
Qed.

Lemma retired_ok h peek t c : conn_ok h peek c -> conn_ok h peek (retired t c).
Proof. intros [Hw Hp Ht]. split; cbn; auto with tlstat. Qed.

Lemma set_plain_ok h peek a b f c : conn_ok h peek c -> conn_ok h peek (set_plain a b f c).
Proof. by intros []. Qed.
Lemma zero_plain_ok h peek c : conn_ok h peek c -> conn_ok h peek (zero_plain c).
Proof. intros Hc. unfold zero_plain. destruct (cn_plainFinal c); [done|by apply set_plain_ok]. Qed.

Lemma tail_ok_le h h' peek t : heap_le h h' -> tail_ok h peek t -> tail_ok h' peek t.
Proof. intros Hh [Hs Hl]. split; [by eapply slice_ok_le|done]. Qed.
Lemma conn_ok_le h h' peek c : heap_le h h' -> conn_ok h peek c -> conn_ok h' peek c.
Proof. intros Hh [Hw Hp [H1 H2]]. split; eauto using tail_ok_le. Qed.

(** ** The map of connections *)

Lemma set_conns_wf m s :
  store_wf s -> map_Forall (fun k c => cn_Sock c = k) m ->
  map_Forall (fun _ c => conn_ok (arrays s) (peekBytes s) c) m -> store_wf (set_conns m s).
Proof. intros [] Hk Hc. by split. Qed.

Lemma insert_conn_wf s sock c :
  store_wf s -> cn_Sock c = sock -> conn_ok (arrays s) (peekBytes s) c ->
  store_wf (set_conns (<[sock := c]> (conns s)) s).
Proof. intros Hs Hk Hc. apply set_conns_wf; [done|..]; apply map_Forall_insert_2; try done; apply Hs. Qed.

Lemma map_Forall_alter {A} (P : Z -> A -> Prop) f k (m : gmap Z A) :
  map_Forall P m -> (forall x, m !! k = Some x -> P k x -> P k (f x)) -> map_Forall P (alter f k m).
Proof.
  intros Hm Hf i x. rewrite lookup_alter_Some. intros [(-> & y & Hy & ->)|[_ Hx]]; [|by apply Hm].
  apply Hf; [done|by apply Hm].
Qed.

Lemma alter_conn_wf s sock f :
  store_wf s -> (forall c, cn_Sock (f c) = cn_Sock c) ->
  (forall c, conn_ok (arrays s) (peekBytes s) c -> conn_ok (arrays s) (peekBytes s) (f c)) ->
  store_wf (set_conns (alter f sock (conns s)) s).
Proof.
  intros Hs Hk Hf. apply set_conns_wf; [done|..]; apply map_Forall_alter; try apply Hs; intros c _.
  - by rewrite Hk.
  - apply Hf.
Qed.

Lemma delete_conn_wf s sock : store_wf s -> store_wf (set_conns (delete sock (conns s)) s).
Proof. intros Hs. apply set_conns_wf; [done|..]; apply map_Forall_delete; apply Hs. Qed.

Lemma fmap_conn_wf s f :
  store_wf s -> (forall c, cn_Sock (f c) = cn_Sock c) ->
  (forall c, conn_ok (arrays s) (peekBytes s) c -> conn_ok (arrays s) (peekBytes s) (f c)) ->
  store_wf (set_conns (f <$> conns s) s).
Proof.
  intros Hs Hk Hf. apply set_conns_wf; [done|..]; intros k x;
    rewrite lookup_fmap_Some; intros (c & <- & Hc).
  - rewrite Hk. by apply (sw_keys _ Hs).
  - apply Hf. by apply (sw_conns _ Hs k).
Qed.

(** ** UpdateFlows *)

Lemma fold_flow_wf s t fs :
  store_wf s -> store_wf (set_conns (fold_left (fold_flow t) fs (conns s)) s).
Proof.
  revert s. induction fs as [|f fs IH]; intros s Hs; cbn [fold_left].
  - destruct s. done.
  - assert (store_wf (set_conns (fold_flow t (conns s) f) s)) as H1.
    { unfold fold_flow. destruct (conns s !! fl_Sock f) as [c|] eqn:E.
      - apply insert_conn_wf; [done|exact (sw_keys _ Hs _ _ E)|].
        apply update_conn_ok. by apply (sw_conns _ Hs (fl_Sock f)).
      - apply insert_conn_wf; [done..|]. apply update_conn_ok, new_conn_ok, Hs. }
    exact (IH _ H1).
Qed.

Lemma zlen_last_part {A} n (l : list A) :
  0 <= n -> zlen (if n <? zlen l then zdrop (zlen l - n) l else l) <= n.
Proof.
  intros Hn. destruct (Z.ltb_spec n (zlen l)); [|done]. rewrite zlen_zdrop; lia.
Qed.

Lemma retire_wf t c s :
  store_wf s -> conn_ok (arrays s) (peekBytes s) c -> cn_Closed c = true -> store_wf (retire t c s).
Proof.
  intros Hs Hc Hcl. unfold retire. destruct (Z.eqb_spec (maxHistory s) 0) as [|Hm]; [done|].
  pose proof (sw_hist _ Hs) as Hh. pose proof (zlen_nonneg (history s)).
  pose proof (zlen_last_part (maxHistory s) (history s ++ [retired t c]) ltac:(lia)) as Hl.
  assert (Forall (fun c => conn_ok (arrays s) (peekBytes s) c /\ cn_Closed c = true
      /\ cn_wireOut c = [] /\ cn_wireIn c = []) (history s ++ [retired t c])) as Hall.
  { apply Forall_app_2; [apply Hs|]. constructor; [|constructor]. split; [by apply retired_ok|done]. }
  destruct Hs. split; try done. cbn [history set_history]. destruct (_ <? _); [|done].
  by apply Forall_drop.
Qed.

Lemma retire_same t c s :
  conns (retire t c s) = conns s /\ arrays (retire t c s) = arrays s
  /\ peekBytes (retire t c s) = peekBytes s /\ maxHistory (retire t c s) = maxHistory s
  /\ plainBySSL (retire t c s) = plainBySSL s /\ pidfd (retire t c s) = pidfd s.
Proof. unfold retire. by destruct (maxHistory s =? 0). Qed.

(** The retiring loop, over any list of entries. *)
Definition retire_loop (k : call) (seen : Z -> bool) (l : list (Z * Conn)) (s : Store) : Store :=
  fold_left (fun s '(sock, c) =>
      if negb (seen sock) && cn_Closed c then
        let s := retire (closed_now k sock) c s in set_conns (delete sock (conns s)) s
      else s) l s.

Lemma UpdateFlows_loop `{MapRange} k fs s :
  UpdateFlows k fs s =
  let s := set_conns (fold_left (fold_flow (now k)) fs (conns s)) s in
  retire_loop k (fun sock => existsb (fun f => fl_Sock f =? sock) fs) (range [call_id k] (conns s)) s.
Proof. done. Qed.

Lemma retire_loop_wf k seen l s :
  store_wf s -> Forall (fun kc => conn_ok (arrays s) (peekBytes s) kc.2) l ->
  store_wf (retire_loop k seen l s).
Proof.
  intros Hs Hl. revert s Hs Hl. induction l as [|[sock c] l IH]; intros s Hs Hl; [done|].
  apply Forall_cons in Hl as [Hc Hl]. cbn [retire_loop fold_left].
  destruct (negb (seen sock) && cn_Closed c) eqn:E; [|by apply IH].
  apply andb_true_iff in E as [_ E].
  pose proof (retire_same (closed_now k sock) c s) as (E1 & E2 & E3 & _).
  apply IH; [by apply delete_conn_wf, retire_wf|]. cbn [arrays peekBytes set_conns]. by rewrite E2, E3.
Qed.

Lemma range_Forall `{MapRangeOk} {V} (P : Z -> V -> Prop) id (m : gmap Z V) :
  map_Forall P m -> Forall (fun kc => P kc.1 kc.2) (range id m).
Proof.
  intros Hm. rewrite (range_perm V id m). apply map_Forall_to_list in Hm.
  eapply Forall_impl; [exact Hm|]. by intros [].
Qed.

Lemma UpdateFlows_wf `{MapRangeOk} k fs s : store_wf s -> store_wf (UpdateFlows k fs s).
Proof.
  intros Hs. rewrite UpdateFlows_loop. cbn zeta.
  pose proof (fold_flow_wf s (now k) fs Hs) as H1. apply retire_loop_wf; [done|].
  apply (range_Forall (fun _ c => conn_ok _ _ c)). apply (sw_conns _ H1).
Qed.

(** ** ApplyWire *)

Lemma grow_wire_ok b d :
  wire_buf_ok b -> Forall is_byte d -> zlen d < 1024 -> wire_buf_ok (grow_wire b d).
Proof.
  intros [Hb Hl] Hd Hn. unfold grow_wire. destruct (Z.ltb_spec (zlen b) maxWireBuf); [|done].
  split; [by apply Forall_app_2|]. rewrite zlen_app. lia.
Qed.

Lemma wire_conn_ok `{X509} h peek dir data c :
  conn_ok h peek c -> Forall is_byte data -> zlen data < 1024 ->
  exists c', wire_conn dir data c = Ok c' /\ conn_ok h peek c' /\ cn_Sock c' = cn_Sock c.
Proof.
  intros [[Ho Hi] Hp Ht] Hd Hn. unfold wire_conn.
  set (out := if dir =? 2 then cn_wireOut c else _).
  set (inn := if dir =? 2 then grow_wire (cn_wireIn c) data else _).
  assert (wire_buf_ok out) as Ho' by (unfold out; destruct (dir =? 2); auto using grow_wire_ok).
  assert (wire_buf_ok inn) as Hi' by (unfold inn; destruct (dir =? 2); auto using grow_wire_ok).
  rewrite Parse_writes by (destruct (dir =? 2); [apply Hi'|apply Ho']). cbn [go_bind].
  generalize (apply_writes (buffer_writes (if dir =? 2 then inn else out)) (cn_Info c)) as i. intros i.
  eexists. split; [reflexivity|]. split; [|done]. split; cbn; [done| |done].
  intros [Hh Hpre]%andb_true_iff. apply negb_true_iff, orb_false_iff in Hh as [-> ->].
  by destruct (Hp Hpre) as (-> & _).
Qed.

Lemma ApplyWire_wf `{X509} k w s :
  store_wf s -> op_ok (OpWire w) -> exists s', ApplyWire k w s = Ok s' /\ store_wf s'.
Proof.
  intros Hs Hw. unfold ApplyWire. destruct w as [w|]; [|by exists s]. destruct Hw as [Hb Hn].
  destruct (zlen (w_Data w) =? 0); [by exists s|].
  set (c := match conns s !! w_Sock w with Some c => c | None => _ end).
  assert (conn_ok (arrays s) (peekBytes s) c /\ cn_Sock c = w_Sock w) as [Hc Hk].
  { unfold c. destruct (conns s !! w_Sock w) as [c0|] eqn:E.
    - split; [by apply (sw_conns _ Hs (w_Sock w))|by apply (sw_keys _ Hs)].
    - split; [apply new_conn_ok, Hs|done]. }
  destruct (wire_conn_ok (arrays s) (peekBytes s) (w_Dir w) (w_Data w) c) as (c' & -> & Hc' & Hk'); [done..|].
  cbn [go_bind]. eexists. split; [reflexivity|]. apply insert_conn_wf; congruence || done.
Qed.

(** ** ApplyData *)

(** The slice of a session and direction after a change of one sample. *)
Lemma stail_insert s h ssl smp p :
  stail (set_samples (<[ssl := smp]> (plainBySSL s)) h s) p
  = if decide (p.1 = ssl) then (if p.2 then tailOut smp else tailIn smp) else stail s p.
Proof.
  unfold stail. cbn [plainBySSL set_samples]. case_decide as Hd.
  - rewrite Hd, lookup_insert_eq. done.
  - by rewrite lookup_insert_ne by congruence.
Qed.

(** ApplyData, for either direction: the head is set once, the tail is appended to. *)
Definition data_head (smp : sample) (out : bool) (data : list Z) : list Z :=
  match (if out then headOut smp else headIn smp) with [] => data | h => h end.

Definition set_direction (out : bool) (head : list Z) (tail : slice) (smp : sample) : sample :=
  if out then mkSample head tail (headIn smp) (tailIn smp)
  else mkSample (headOut smp) (tailOut smp) head tail.

Lemma ApplyData_some `{Growth} d s :
  zlen (d_Data d) <> 0 ->
  let out := d_Dir d =? 1 in
  let smp := default sample_zero (plainBySSL s !! d_SSL d) in
  let '(h, tail) := appendTail (arrays s) (stail s (d_SSL d, out)) (d_Data d) (peekBytes s) in
  ApplyData (Some d) s =
  set_samples (<[d_SSL d := set_direction out (data_head smp out (d_Data d)) tail smp]> (plainBySSL s)) h s.
Proof.
  intros Hd. cbn zeta. unfold ApplyData. destruct (Z.eqb_spec (zlen (d_Data d)) 0); [done|].
  unfold stail. cbn [fst snd]. destruct (plainBySSL s !! d_SSL d) as [smp|]; cbn [default];
    destruct (d_Dir d =? 1); cbn [tailOut tailIn sample_zero];
    by destruct (appendTail _ _ _ _).
Qed.

Lemma ApplyData_wf `{GrowthOk} d s : store_wf s -> store_wf (ApplyData d s).
Proof.
  intros Hs. destruct d as [d|]; [|done]. destruct (decide (zlen (d_Data d) = 0)) as [E|E].
  { unfold ApplyData. by destruct (Z.eqb_spec (zlen (d_Data d)) 0). }
  pose proof (ApplyData_some d s E) as Hd. cbn zeta in Hd.
  set (out := d_Dir d =? 1) in *. set (t := stail s (d_SSL d, out)) in *.
  destruct (sw_tails _ Hs (d_SSL d, out)) as [Hts Htl]. fold t in Hts, Htl.
  destruct (appendTail (arrays s) t (d_Data d) (peekBytes s)) as [h tail] eqn:Ea.
  destruct (appendTail_spec _ _ _ _ _ _ Hts Ea) as (Hok & Hv & Hf & Hm).
  pose proof (appendTail_le _ _ _ _ _ _ Hts Ea) as Hle.
  assert (tail_ok h (peekBytes s) tail) as Htail.
  { split; [done|]. rewrite <- (length_view h tail Hok). rewrite Hv. pose proof (sw_peek _ Hs).
    destruct (Z.leb_spec (peekBytes s) 0); [done|]. by apply length_last_z. }
  rewrite Hd. set (smp := set_direction _ _ _ _).
  assert (forall p, stail (set_samples (<[d_SSL d := smp]> (plainBySSL s)) h s) p
    = if decide (p = (d_SSL d, out)) then tail else stail s p) as Hst.
  { intros [ssl dir]. rewrite stail_insert. unfold smp, set_direction, stail. cbn [fst snd].
    destruct (decide (ssl = d_SSL d)) as [->|Hne].
    - generalize out. clear. intros out. destruct (plainBySSL s !! d_SSL d) as [sm|]; destruct out, dir;
        cbn [default headOut tailOut headIn tailIn sample_zero]; case_decide; first [congruence|done].
    - case_decide; [congruence|done]. }
  split; try apply Hs.
  - intros k c Hc. eapply conn_ok_le; [exact Hle|]. by apply (sw_conns _ Hs k).
  - eapply Forall_impl; [apply (sw_retired _ Hs)|]. intros c (Hc & ?). split; [by eapply conn_ok_le|done].
  - intros p. rewrite Hst. case_decide; [done|]. eapply tail_ok_le; [exact Hle|apply Hs].
  - intros p q a. rewrite !Hst.
    assert (forall p', p' <> (d_SSL d, out) -> slice_array (stail s p') = Some a ->
              slice_array tail = Some a -> False) as Hno.
    { intros p' Hp' H1 H2. destruct tail as [[a' n]|]; [|done]. injection H2 as ->.
      destruct Hm as [Hm|Hm].
      - by apply Hp', (sw_apart _ Hs _ _ a).
      - destruct (sw_tails _ Hs p') as [Hp'' _]. destruct (stail s p') as [[b m]|]; [|done].
        injection H1 as ->. destruct Hp''. lia. }
    repeat case_decide; subst; try done; intros.
    + exfalso. eauto.
    + exfalso. eauto.
    + by apply (sw_apart _ Hs _ _ a).
Qed.

(** ** resolve, ApplyClose, UpdateSSLStats *)

(** [resolve] changes nothing but the cache. *)
Lemma resolve_same `{MapRange} k i pid fd s s' r :
  resolve k i pid fd s = (s', r) -> exists m, s' = set_pidfd m s.
Proof.
  assert (s = set_pidfd (pidfd s) s) as Hid by (by destruct s).
  unfold resolve. destruct (0 <=? fd); [|intros [= <- _]; eauto].
  intros Hr. repeat (case_match; try (injection Hr as <- _; eauto)).
Qed.

Lemma set_pidfd_wf m s : store_wf s -> store_wf (set_pidfd m s).
Proof. intros []. by split. Qed.

Lemma resolve_wf `{MapRange} k i pid fd s s' r :
  resolve k i pid fd s = (s', r) -> store_wf s -> store_wf s'.
Proof. intros Hr Hs. destruct (resolve_same _ _ _ _ _ _ _ Hr) as [m ->]. by apply set_pidfd_wf. Qed.

(** Fewer samples. *)
Lemma fewer_samples_wf m s :
  store_wf s -> m ⊆ plainBySSL s -> store_wf (set_samples m (arrays s) s).
Proof.
  intros Hs Hm.
  assert (forall p, stail (set_samples m (arrays s) s) p = stail s p
                    \/ stail (set_samples m (arrays s) s) p = None) as Hst.
  { intros p. unfold stail. cbn [plainBySSL set_samples].
    destruct (m !! p.1) as [smp|] eqn:E; [|by right]. left. by rewrite (lookup_weaken _ _ _ _ E Hm). }
  split; try apply Hs.
  - intros p. destruct (Hst p) as [->| ->]; [apply Hs|]. apply tail_nil, Hs.
  - intros p q a. destruct (Hst p) as [->| ->]; [|done]. destruct (Hst q) as [->| ->]; [|done]. apply Hs.
Qed.

Lemma join_sample_ok s ssl c :
  store_wf s -> conn_ok (arrays s) (peekBytes s) c ->
  conn_ok (arrays s) (peekBytes s) (join_sample s ssl c) /\ cn_Sock (join_sample s ssl c) = cn_Sock c.
Proof.
  intros Hs [Hw Hp Ht]. unfold join_sample. destruct (plainBySSL s !! ssl) as [smp|] eqn:E; [|done].
  split; [|done]. split; cbn; [done|done|].
  pose proof (sw_tails _ Hs (ssl, true)) as H1. pose proof (sw_tails _ Hs (ssl, false)) as H2.
  unfold stail in H1, H2. cbn [fst snd] in H1, H2. rewrite E in H1, H2. done.
Qed.

Lemma join_sample_Sock s ssl c : cn_Sock (join_sample s ssl c) = cn_Sock c.
Proof. unfold join_sample. by destruct (plainBySSL s !! ssl). Qed.

Lemma ApplyClose_wf `{MapRange} k e s : store_wf s -> store_wf (ApplyClose k e s).
Proof.
  intros Hs. destruct e as [e|]; [|done]. unfold ApplyClose.
  destruct (resolve k 0 (c_Pid e) (c_Fd e) s) as [s1 r] eqn:Er.
  pose proof (resolve_wf _ _ _ _ _ _ _ Er Hs) as H1.
  assert (store_wf (match r with
    | Some sock => set_conns (alter (fun c =>
        set_plain (c_Ptx e) (c_Prx e) true (join_sample s1 (c_SSL e) c)) sock (conns s1)) s1
    | None => s1 end)) as H2.
  { destruct r as [sock|]; [|done]. apply alter_conn_wf; [done|apply join_sample_Sock|].
    intros c Hc. by apply set_plain_ok, join_sample_ok. }
  apply fewer_samples_wf; [done|]. apply delete_subseteq.
Qed.

Lemma fold_stat_wf `{MapRange} k i st s : store_wf s -> store_wf (fold_stat k i st s).
Proof.
  intros Hs. unfold fold_stat. destruct (resolve k i (st_Pid st) (st_Fd st) s) as [s1 [sock|]] eqn:Er;
    pose proof (resolve_wf _ _ _ _ _ _ _ Er Hs) as H1; [|done].
  apply alter_conn_wf; [done|intros c; by rewrite join_sample_Sock|].
  intros c Hc. by apply join_sample_ok, set_plain_ok.
Qed.

Lemma fold_stats_wf `{MapRange} k i sts s : store_wf s -> store_wf (fold_stats k i sts s).
Proof.
  revert i s. induction sts as [|st sts IH]; intros i s Hs; [done|].
  cbn [fold_stats]. by apply IH, fold_stat_wf.
Qed.

Lemma UpdateSSLStats_wf `{MapRange} k sts s : store_wf s -> store_wf (UpdateSSLStats k sts s).
Proof.
  intros Hs. unfold UpdateSSLStats. cbn zeta. apply fewer_samples_wf; [|apply map_filter_subseteq].
  apply fold_stats_wf, fmap_conn_wf; [done| |].
  - intros c. unfold zero_plain. by destruct (cn_plainFinal c).
  - intros c. apply zero_plain_ok.
Qed.

(** ** Any operation, any run *)

Lemma do_op_wf `{X509, GrowthOk, MapRangeOk} k o s :
  store_wf s -> op_ok o -> exists s', do_op k o s = Ok s' /\ store_wf s'.
Proof.
  intros Hs Ho. destruct o; cbn [do_op].
  - eauto using UpdateFlows_wf.
  - by apply ApplyWire_wf.
  - eauto using ApplyData_wf.
  - eauto using ApplyClose_wf.
  - eauto using UpdateSSLStats_wf.
Qed.

Lemma run_wf `{X509, GrowthOk, MapRangeOk} ops s :
  store_wf s -> Forall (fun ko => op_ok ko.2) ops -> exists s', run ops s = Ok s' /\ store_wf s'.
Proof.
  intros Hs Ho. revert s Hs. induction Ho as [|[k o] ops Hk _ IH]; intros s Hs; [by exists s|].
  cbn [run]. destruct (do_op_wf k o s Hs Hk) as (s1 & -> & Hs1). by apply IH.
Qed.
