(* ===== verification/StoreFacts.v ===== *)
(** What the store's operations do to one connection, and to the history. *)
From S2P Require Import Prelude Loader TlsParse TlsSpec TlsEquiv TlsReparse Slices Proc Store StoreInv.

(** ** UpdateFlows *)

Definition of_sock (sock : Z) (fs : list Flow) : list Flow := filter (fun f => fl_Sock f = sock) fs.

Definition seen_in (fs : list Flow) (sock : Z) : bool := existsb (fun f => fl_Sock f =? sock) fs.

Lemma of_sock_seen sock fs : of_sock sock fs = [] <-> seen_in fs sock = false.
Proof.
  unfold of_sock, seen_in. induction fs as [|f fs IH]; [done|]. cbn [existsb].
  rewrite filter_cons. case_decide as Hd.
  - by rewrite (proj2 (Z.eqb_eq _ _) Hd).
  - by rewrite (proj2 (Z.eqb_neq _ _) Hd).
Qed.

(** The connection after the snapshot's entries for its socket. *)
Definition updated (t sock : Z) (fs : list Flow) (c : option Conn) : Conn :=
  fold_left (fun c f => update_conn t f c) (of_sock sock fs) (default (new_conn sock t) c).

Lemma fold_flow_lookup t fs m sock :
  fold_left (fold_flow t) fs m !! sock =
  if seen_in fs sock then Some (updated t sock fs (m !! sock)) else m !! sock.
Proof.
  revert m. induction fs as [|f fs IH]; intros m; [done|]. cbn [fold_left]. rewrite IH.
  unfold updated, of_sock, seen_in in *. cbn [existsb]. rewrite filter_cons. unfold fold_flow.
  case_decide as Hd.
  - subst sock. rewrite Z.eqb_refl, lookup_insert_eq. cbn [orb fold_left].
    destruct (existsb _ fs) eqn:E.
    + by destruct (m !! fl_Sock f).
    + apply of_sock_seen in E. unfold of_sock in E. rewrite E. by destruct (m !! fl_Sock f).
  - rewrite (proj2 (Z.eqb_neq _ _) Hd), lookup_insert_ne by done. done.
Qed.

(** Who goes to the history. *)
Definition leaves (seen : Z -> bool) (kc : Z * Conn) : Prop := seen kc.1 = false /\ cn_Closed kc.2 = true.
#[export] Instance leaves_dec seen kc : Decision (leaves seen kc).
Proof. unfold leaves. apply _. Defined.

Lemma leaves_bool seen sock c :
  negb (seen sock) && cn_Closed c = bool_decide (leaves seen (sock, c)).
Proof.
  symmetry. apply bool_decide_eq_true_2 || idtac.
  destruct (seen sock) eqn:E1, (cn_Closed c) eqn:E2; cbn;
    (apply bool_decide_eq_true_2; by split) || (apply bool_decide_eq_false_2; intros []; cbn in *; congruence).
Qed.

Lemma keep_last {A} n (l : list A) : (if n <? zlen l then zdrop (zlen l - n) l else l) = last_z n l.
Proof.
  destruct (Z.ltb_spec n (zlen l)); [done|]. symmetry. by apply last_z_short.
Qed.

Lemma retire_history t c s :
  zlen (history s) <= maxHistory s ->
  history (retire t c s) = last_z (maxHistory s) (history s ++ [retired t c]).
Proof.
  intros Hh. unfold retire. destruct (Z.eqb_spec (maxHistory s) 0) as [E|E].
  - rewrite E in *. pose proof (zlen_nonneg (history s)). destruct (history s) as [|x l]; [done|].
    rewrite zlen_cons in Hh. pose proof (zlen_nonneg l). lia.
  - cbn [history set_history]. apply keep_last.
Qed.

Lemma retire_loop_spec k seen l s :
  0 <= maxHistory s -> zlen (history s) <= maxHistory s ->
  let s' := retire_loop k seen l s in
  conns s' = fold_left (fun m kc => delete kc.1 m) (filter (leaves seen) l) (conns s)
  /\ history s' = last_z (maxHistory s)
       (history s ++ ((fun kc => retired (closed_now k kc.1) kc.2) <$> filter (leaves seen) l))
  /\ maxHistory s' = maxHistory s.
Proof.
  cbn zeta. intros Hm. revert s Hm. induction l as [|[sock c] l IH]; intros s Hm Hh.
  { cbn. rewrite app_nil_r, last_z_short by done. done. }
  cbn [retire_loop fold_left]. rewrite leaves_bool, filter_cons.
  case_bool_decide as Hd; [rewrite decide_True by done|rewrite decide_False by done; by apply IH].
  destruct (retire_same (closed_now k sock) c s) as (E1 & _ & _ & E4 & _).
  set (s1 := set_conns _ _).
  assert (history s1 = last_z (maxHistory s) (history s ++ [retired (closed_now k sock) c])) as Hs1
    by (by apply retire_history).
  assert (maxHistory s1 = maxHistory s) as Hm1 by done.
  destruct (IH s1) as (I1 & I2 & I3).
  - by rewrite Hm1.
  - rewrite Hs1, Hm1. by apply length_last_z.
  - unfold retire_loop in I1, I2, I3. rewrite I1, I2, I3, Hm1, Hs1, last_z_app by done.
    rewrite <- app_assoc. cbn [conns set_conns fold_left fmap list_fmap app]. unfold s1. cbn [conns set_conns].
    by rewrite E1.
Qed.

Lemma fold_delete_lookup (l : list (Z * Conn)) (m : gmap Z Conn) sock :
  fold_left (fun m kc => delete kc.1 m) l m !! sock = if decide (sock ∈ l.*1) then None else m !! sock.
Proof.
  revert m. induction l as [|[k c] l IH]; intros m; [done|]. cbn [fold_left fst fmap list_fmap]. rewrite IH.
  repeat case_decide; rewrite ?elem_of_cons in *; try done; try tauto.
  - destruct (decide (k = sock)) as [->|]; [by rewrite lookup_delete_eq|].
    rewrite lookup_delete_ne by done. naive_solver.
  - rewrite lookup_delete_ne; [done|]. naive_solver.
Qed.

Lemma range_lookup `{MapRangeOk} {V} id (m : gmap Z V) k x : (k, x) ∈ range id m <-> m !! k = Some x.
Proof. rewrite (range_perm V id m). apply elem_of_map_to_list. Qed.
Lemma range_NoDup `{MapRangeOk} {V} id (m : gmap Z V) : NoDup (range id m).*1.
Proof. rewrite (range_perm V id m). apply NoDup_fst_map_to_list. Qed.

Lemma filter_fst_in `{MapRangeOk} (P : Z * Conn -> Prop) `{!forall x, Decision (P x)} id m sock :
  sock ∈ (filter P (range id m)).*1 <-> exists c, m !! sock = Some c /\ P (sock, c).
Proof.
  rewrite list_elem_of_fmap. split.
  - intros ([k c] & -> & [Hp Hin]%list_elem_of_filter). exists c. by rewrite range_lookup in Hin.
  - intros (c & Hc & Hp). exists (sock, c). split; [done|]. apply list_elem_of_filter.
    split; [done|]. by apply range_lookup.
Qed.

Lemma NoDup_fst_filter (P : Z * Conn -> Prop) `{!forall x, Decision (P x)} (l : list (Z * Conn)) :
  NoDup l.*1 -> NoDup (filter P l).*1.
Proof.
  induction l as [|x l IH]; [constructor|]. cbn [fmap list_fmap]. intros [Hx Hl]%NoDup_cons.
  rewrite filter_cons. case_decide; [|by apply IH]. cbn [fmap list_fmap]. constructor; [|by apply IH].
  intros (y & Hy & Hin)%list_elem_of_fmap. apply list_elem_of_filter in Hin as [_ Hin].
  apply Hx. rewrite Hy. by apply list_elem_of_fmap_2.
Qed.

(** The whole of UpdateFlows. *)
Lemma UpdateFlows_spec `{MapRangeOk} k fs s :
  0 <= maxHistory s -> zlen (history s) <= maxHistory s ->
  let s' := UpdateFlows k fs s in
  (forall sock, conns s' !! sock =
     if seen_in fs sock then Some (updated (now k) sock fs (conns s !! sock))
     else match conns s !! sock with
          | Some c => if cn_Closed c then None else Some c
          | None => None
          end)
  /\ exists l, NoDup l.*1
      /\ (forall sock c, (sock, c) ∈ l <->
            conns s !! sock = Some c /\ seen_in fs sock = false /\ cn_Closed c = true)
      /\ history s' = last_z (maxHistory s)
           (history s ++ ((fun kc => retired (closed_now k kc.1) kc.2) <$> l)).
Proof.
  intros Hm Hh. cbn zeta. rewrite UpdateFlows_loop. cbn zeta.
  change (fun sock => existsb (fun f => fl_Sock f =? sock) fs) with (seen_in fs).
  set (m1 := fold_left (fold_flow (now k)) fs (conns s)). cbn [conns set_conns].
  pose proof (retire_loop_spec k (seen_in fs) (range [call_id k] m1) (set_conns m1 s) Hm Hh) as Hl.
  cbn zeta in Hl. destruct Hl as (E1 & E2 & _). cbn [conns history maxHistory set_conns] in E1, E2.
  assert (forall sock, m1 !! sock = if seen_in fs sock then Some (updated (now k) sock fs (conns s !! sock))
                                    else conns s !! sock) as Hm1 by (intros; apply fold_flow_lookup).
  split.
  - intros sock. rewrite E1, fold_delete_lookup.
    destruct (seen_in fs sock) eqn:Es.
    + rewrite decide_False; [by rewrite Hm1, Es|]. rewrite filter_fst_in. intros (c & _ & [Hc _]).
      cbn in Hc. congruence.
    + rewrite Hm1, Es. destruct (conns s !! sock) as [c|] eqn:Ec.
      * destruct (cn_Closed c) eqn:Ecl.
        -- rewrite decide_True; [done|]. rewrite filter_fst_in. exists c. rewrite Hm1, Es. done.
        -- rewrite decide_False; [done|]. rewrite filter_fst_in. intros (c' & Hc' & [_ Hcl]).
           rewrite Hm1, Es in Hc'. cbn in Hcl. congruence.
      * by destruct (decide _).
  - exists (filter (leaves (seen_in fs)) (range [call_id k] m1)). split_and!; [|intros sock c|done].
    + by apply NoDup_fst_filter, range_NoDup.
    + rewrite list_elem_of_filter, range_lookup, Hm1. unfold leaves. cbn [fst snd].
      destruct (seen_in fs sock); naive_solver.
Qed.

(** ** What ApplyClose and UpdateSSLStats leave alone *)

(** The parts of a connection the snapshots fill in, and those of the handshake. *)
Definition flow_view (c : Conn) : Z * Z * string * AddrPort * AddrPort * Z * Z * Z :=
  (cn_Sock c, cn_Pid c, cn_Comm c, cn_Local c, cn_Remote c, cn_Direction c, cn_TxBytes c, cn_RxBytes c).
Definition wire_view (c : Conn) : list Z * list Z * Info * bool * bool * (Z * Z * string * AddrPort * AddrPort * Z * Z * Z) :=
  (cn_wireOut c, cn_wireIn c, cn_Info c, cn_Closed c, cn_IsTLS c, flow_view c).

Lemma join_sample_view s ssl c : wire_view (join_sample s ssl c) = wire_view c.
Proof. unfold join_sample. by destruct (plainBySSL s !! ssl). Qed.

Lemma alter_view f k (m : gmap Z Conn) sock :
  (forall c, wire_view (f c) = wire_view c) ->
  wire_view <$> alter f k m !! sock = wire_view <$> m !! sock.
Proof.
  intros Hf. rewrite lookup_alter. case_decide; [subst|done]. destruct (m !! sock); [|done].
  cbn. by rewrite Hf.
Qed.

Lemma ApplyClose_view `{MapRange} k e s sock :
  wire_view <$> conns (ApplyClose k e s) !! sock = wire_view <$> conns s !! sock.
Proof.
  destruct e as [e|]; [|done]. unfold ApplyClose.
  destruct (resolve k 0 (c_Pid e) (c_Fd e) s) as [s1 r] eqn:Er.
  destruct (resolve_same _ _ _ _ _ _ _ Er) as [m ->]. destruct r as [sock'|]; [|done].
  cbn [conns set_conns set_samples set_pidfd]. apply alter_view. intros c. apply join_sample_view.
Qed.

Lemma fold_stat_view `{MapRange} k i st s sock :
  wire_view <$> conns (fold_stat k i st s) !! sock = wire_view <$> conns s !! sock.
Proof.
  unfold fold_stat. destruct (resolve k i (st_Pid st) (st_Fd st) s) as [s1 [sock'|]] eqn:Er;
    destruct (resolve_same _ _ _ _ _ _ _ Er) as [m ->]; [|done].
  cbn [conns set_conns set_pidfd]. apply alter_view. intros c. by rewrite ?join_sample_view.
Qed.

Lemma UpdateSSLStats_view `{MapRange} k sts s sock :
  wire_view <$> conns (UpdateSSLStats k sts s) !! sock = wire_view <$> conns s !! sock.
Proof.
  unfold UpdateSSLStats. cbn zeta. cbn [conns set_samples].
  set (s0 := set_conns (zero_plain <$> conns s) s).
  assert (wire_view <$> conns s0 !! sock = wire_view <$> conns s !! sock) as <-.
  { unfold s0. cbn [conns set_conns]. rewrite lookup_fmap. destruct (conns s !! sock) as [c|]; [|done].
    cbn. unfold zero_plain. by destruct (cn_plainFinal c). }
  generalize O as i. generalize s0. induction sts as [|st sts IH]; intros s1 i; [done|].
  cbn [fold_stats]. by rewrite IH, fold_stat_view.
Qed.

(** ** A socket no snapshot mentions *)

Definition unlisted (sock : Z) (o : op) : Prop :=
  match o with OpFlows fs => seen_in fs sock = false | _ => True end.

(** Its connection, unless closed, stays where it is. *)
Lemma unlisted_step `{X509, GrowthOk, MapRangeOk} sock k o s s' c :
  store_wf s -> unlisted sock o -> conns s !! sock = Some c -> cn_Closed c = false -> do_op k o s = Ok s' ->
  exists c', conns s' !! sock = Some c' /\ flow_view c' = flow_view c /\ cn_Closed c' = false.
Proof.
  intros Hs Hu Hc Hcl E.
  assert (wire_view <$> conns s' !! sock = wire_view <$> conns s !! sock ->
    exists c', conns s' !! sock = Some c' /\ flow_view c' = flow_view c /\ cn_Closed c' = false) as Hview.
  { rewrite Hc. destruct (conns s' !! sock) as [c'|]; [|done]. intros Ev%(inj Some). exists c'.
    split; [done|]. split; [exact (f_equal snd Ev)|].
    transitivity (cn_Closed c); [exact (f_equal (fun x => x.1.1.2) Ev)|done]. }
  destruct o as [fs|w|d|e|sts]; cbn [do_op unlisted] in *.
  - injection E as <-. pose proof (sw_hist _ Hs) as Hh. pose proof (zlen_nonneg (history s)).
    destruct (UpdateFlows_spec k fs s ltac:(lia) Hh) as [Hf _]. specialize (Hf sock).
    rewrite Hu, Hc, Hcl in Hf. eauto.
  - destruct w as [w|]; cbn [ApplyWire] in E; [|injection E as <-; eauto].
    destruct (_ =? 0); [injection E as <-; eauto|].
    apply go_bind_inv in E as (c1 & Hc1 & [= <-]). cbn [conns set_conns].
    destruct (decide (w_Sock w = sock)) as [<-|]; [|rewrite lookup_insert_ne by done; eauto].
    rewrite lookup_insert_eq. exists c1. split; [done|]. rewrite Hc in Hc1.
    unfold wire_conn in Hc1. apply go_bind_inv in Hc1 as (i & _ & [= <-]). done.
  - injection E as <-. apply Hview. unfold ApplyData. destruct d as [d|]; [|done].
    destruct (_ =? 0); [done|]. destruct (d_Dir d =? 1); by destruct (appendTail _ _ _ _).
  - injection E as <-. apply Hview, ApplyClose_view.
  - injection E as <-. apply Hview, UpdateSSLStats_view.
Qed.

Lemma unlisted_run `{X509, GrowthOk, MapRangeOk} sock ops s c :
  store_wf s -> Forall (fun ko => op_ok ko.2 /\ unlisted sock ko.2) ops ->
  conns s !! sock = Some c -> cn_Closed c = false ->
  exists s' c', run ops s = Ok s' /\ conns s' !! sock = Some c' /\ flow_view c' = flow_view c /\ cn_Closed c' = false.
Proof.
  revert s c. induction ops as [|[k o] ops IH]; intros s c Hs Ho Hc Hcl; [by exists s, c|].
  apply Forall_cons in Ho as [[Ho Hu] Hos]. cbn [snd] in *.
  destruct (do_op_wf k o s Hs Ho) as (s1 & E1 & Hs1).
  destruct (unlisted_step sock k o s s1 c Hs Hu Hc Hcl E1) as (c1 & Hc1 & Hv1 & Hcl1).
  destruct (IH s1 c1 Hs1 Hos Hc1 Hcl1) as (s' & c' & E' & Hc' & Hv' & Hcl').
  exists s', c'. cbn [run]. rewrite E1. cbn [go_bind]. rewrite Hv', Hv1. done.
Qed.
