(* ===== verification/StoreDuplex.v ===== *)
(** Reassembly: what the wire events of a socket make of its connection.

    [knows sock es s] says that the wire chunks of [sock] so far were [es], and what
    the connection therefore holds; every operation of the store, told of any other
    socket or process, keeps it. *)
From S2P Require Import Prelude Loader TlsParse TlsSpec TlsEquiv TlsReparse TlsDuplex Slices Proc Store StoreInv StoreFacts.

(** ** Buffers *)

(** The chunks an operation brings for a socket. *)
Definition wires (sock : Z) (o : op) : list wchunk :=
  match o with
  | OpWire (Some w) =>
      if decide (w_Sock w = sock /\ w_Data w <> []) then [(w_Dir w, w_Data w)] else []
  | _ => []
  end.

(** A direction's buffer: it takes chunks until it is full. *)
Definition grown (es : list wchunk) (inn : bool) : list Z := fold_left grow_wire (side inn es) [].

Lemma grown_snoc es e inn :
  grown (es ++ [e]) inn = if decide (inbound e = inn) then grow_wire (grown es inn) e.2 else grown es inn.
Proof.
  unfold grown. rewrite side_app, fold_left_app, side_one. by case_decide.
Qed.

Lemma grow_wire_prefix b d : b `prefix_of` grow_wire b d.
Proof. unfold grow_wire. destruct (_ <? _); [by exists d|done]. Qed.

Lemma grown_prefix es es' inn : grown es inn `prefix_of` grown (es ++ es') inn.
Proof.
  induction es' as [|e es' IH] using rev_ind; [by rewrite app_nil_r|].
  rewrite app_assoc, grown_snoc. case_decide; [|done]. etransitivity; [exact IH|apply grow_wire_prefix].
Qed.

(** Within the size, the buffer is the concatenation. *)
Lemma fold_grow_concat cs b :
  zlen b + zlen (concat cs) <= maxWireBuf -> fold_left grow_wire cs b = b ++ concat cs.
Proof.
  revert b. induction cs as [|c cs IH]; intros b Hl; cbn; [by rewrite app_nil_r|].
  cbn [concat] in Hl. rewrite zlen_app in Hl. pose proof (zlen_nonneg c). pose proof (zlen_nonneg (concat cs)).
  unfold grow_wire at 2. destruct (Z.ltb_spec (zlen b) maxWireBuf).
  - rewrite IH, app_assoc; [done|]. rewrite zlen_app. lia.
  - assert (c = []) as -> by (apply zlen_nil_inv; lia). rewrite IH; [done|].
    rewrite zlen_nil in Hl. lia.
Qed.

Lemma grown_concat es inn : zlen (concat (side inn es)) <= maxWireBuf -> grown es inn = concat (side inn es).
Proof. intros. unfold grown. rewrite fold_grow_concat; [done|]. by rewrite zlen_nil. Qed.

Lemma grown_byte es inn : Forall (fun e => Forall is_byte e.2) es -> Forall is_byte (grown es inn).
Proof.
  induction es as [|e es IH] using rev_ind; [constructor|]. intros [He [Hb _]%Forall_cons]%Forall_app.
  rewrite grown_snoc. case_decide; [|by apply IH]. unfold grow_wire.
  destruct (_ <? _); [|by apply IH]. apply Forall_app_2; [by apply IH|done].
Qed.

(** ** What is known of a socket *)

(** No snapshot reports the socket closed. *)
Definition stays_open (sock : Z) (o : op) : Prop :=
  match o with
  | OpFlows fs => Forall (fun f => fl_Sock f = sock -> fl_Closed f = false) fs
  | _ => True
  end.

(** Not both buffers have a ClientHello. *)
Definition single_hello `{X509} (es : list wchunk) : Prop :=
  one_hello (buffer_writes (grown es false)) (buffer_writes (grown es true)).

Record holds `{X509} (es : list wchunk) (c : Conn) : Prop := {
  ho_out : cn_wireOut c = grown es false;
  ho_in : cn_wireIn c = grown es true;
  ho_open : cn_Closed c = false;
  ho_info : single_hello es -> cn_Info c = last_pass (grown es) es }.

Record knows `{X509} (sock : Z) (es : list wchunk) (s : Store) : Prop := {
  kn_holds : forall c, conns s !! sock = Some c -> holds es c;
  kn_live : es <> [] -> is_Some (conns s !! sock) }.

Section Knows.
Context `{X509}.

Lemma holds_view es c c' : wire_view c' = wire_view c -> holds es c -> holds es c'.
Proof. unfold wire_view. intros E []. injection E as E1 E2 E3 E4 _ _ _ _ _ _ _ _ _. split; congruence || (intros; rewrite E3; auto). Qed.

Lemma knows_view sock es s s' :
  wire_view <$> conns s' !! sock = wire_view <$> conns s !! sock -> knows sock es s -> knows sock es s'.
Proof.
  intros E [K1 K2]. split.
  - intros c Hc. rewrite Hc in E. destruct (conns s !! sock) as [c0|]; [|done]. apply (inj Some) in E.
    apply (holds_view es c0); [|by apply K1]. exact E.
  - intros Hne. destruct (K2 Hne) as [c Hc]. rewrite Hc in E. destruct (conns s' !! sock); [by eexists|done].
Qed.

Lemma knows_new sock mh pb : knows sock [] (New mh pb).
Proof. split; cbn [conns New]; [intros c; by rewrite lookup_empty|done]. Qed.

Lemma holds_new sock t : holds [] (new_conn sock t).
Proof. by split. Qed.

(** The connection an operation starts from: what is there, or a new one. *)
Lemma knows_default sock es s t : knows sock es s -> holds es (default (new_conn sock t) (conns s !! sock)).
Proof.
  intros [K1 K2]. destruct (conns s !! sock) as [c|] eqn:E; [by apply K1|]. cbn.
  assert (es = []) as -> by (destruct es; [done|]; by destruct (K2 ltac:(done))). apply holds_new.
Qed.

Lemma updated_wire t sock fs c :
  Forall (fun f => fl_Sock f = sock -> fl_Closed f = false) fs -> seen_in fs sock = true ->
  let c' := updated t sock fs c in
  let c0 := default (new_conn sock t) c in
  cn_wireOut c' = cn_wireOut c0 /\ cn_wireIn c' = cn_wireIn c0 /\ cn_Info c' = cn_Info c0
  /\ cn_Closed c' = false.
Proof.
  intros Hf Hs. cbn zeta. unfold updated.
  assert (Forall (fun f => fl_Closed f = false) (of_sock sock fs)) as Hc.
  { apply Forall_forall. intros f [Hk Hin]%list_elem_of_filter. rewrite Forall_forall in Hf. by apply Hf. }
  assert (of_sock sock fs <> []) as Hne by (intros E%of_sock_seen; congruence).
  generalize (default (new_conn sock t) c) as c0. clear Hs Hf. intros c0.
  revert c0. induction Hc as [|f l Hfc Hc IH]; intros c0; [done|]. cbn [fold_left].
  destruct l as [|f2 l]; [done|]. destruct (IH ltac:(done) (update_conn t f c0)) as (-> & -> & -> & ->). done.
Qed.


Lemma knows_flows `{MapRangeOk} sock es k fs s :
  store_wf s -> stays_open sock (OpFlows fs) -> knows sock es s -> knows sock es (UpdateFlows k fs s).
Proof.
  intros Hs Hopen Hk. pose proof (sw_hist _ Hs) as Hh. pose proof (zlen_nonneg (history s)).
  destruct (UpdateFlows_spec k fs s ltac:(lia) Hh) as [Hc _]. specialize (Hc sock).
  destruct (seen_in fs sock) eqn:Es.
  - destruct (updated_wire (now k) sock fs (conns s !! sock) Hopen Es) as (U1 & U2 & U3 & U4).
    destruct (knows_default sock es s (now k) Hk) as [D1 D2 D3 D4].
    split; rewrite Hc; [|by eexists]. intros c [= <-]. split; try congruence.
    intros Hone. rewrite U3. by apply D4.
  - destruct Hk as [K1 K2]. destruct (conns s !! sock) as [c|] eqn:E.
    + destruct (K1 c eq_refl) as [? ? Hcl ?]. rewrite Hcl in Hc.
      split; rewrite Hc; [|by eexists]. intros c' [= <-]. by split.
    + split; rewrite Hc; [done|]. intros Hne. by destruct (K2 Hne).
Qed.

(** One wire chunk. *)
Lemma wire_conn_holds es e c c' :
  Forall (fun e => Forall is_byte e.2) (es ++ [e]) -> holds es c ->
  wire_conn e.1 e.2 c = Ok c' -> holds (es ++ [e]) c'.
Proof.
  intros Hb [Ho Hi Hcl Hin] E. unfold wire_conn in E. fold (inbound e) in E. rewrite Ho, Hi in E.
  assert (forall inn, grown (es ++ [e]) inn = if decide (inbound e = inn) then grow_wire (grown es inn) e.2
    else grown es inn) as Hg by (intros; apply grown_snoc).
  assert (forall inn, Forall is_byte (grown (es ++ [e]) inn)) as Hby by (intros; by apply grown_byte).
  assert (single_hello (es ++ [e]) ->
    apply_writes (buffer_writes (grown (es ++ [e]) (inbound e))) (cn_Info c) =
    last_pass (grown (es ++ [e])) (es ++ [e])) as Hpass.
  { intros Hone. rewrite Hin by (eapply one_hello_prefix; [apply grown_prefix..|exact Hone]).
    apply last_pass_step.
    - by intros ->.
    - apply grown_prefix.
    - rewrite Hg. rewrite decide_False; [done|]. by destruct (inbound e).
    - destruct (inbound e); cbn [negb]; [by apply one_hello_comm|exact Hone]. }
  pose proof (Hg (inbound e)) as Hgrow. rewrite decide_True in Hgrow by done.
  destruct (inbound e) eqn:Ed; rewrite <- Hgrow, Parse_writes in E by apply Hby; cbn [go_bind] in E;
    injection E as <-; split; cbn; try done; rewrite Hg; by rewrite decide_False.
Qed.

Lemma knows_wire sock es k w s s' :
  op_ok (OpWire w) -> Forall (fun e => Forall is_byte e.2) es -> knows sock es s ->
  ApplyWire k w s = Ok s' -> knows sock (es ++ wires sock (OpWire w)) s'.
Proof.
  intros Ho Hb Hk. destruct w as [w|]; cbn [ApplyWire wires]; [|intros [= <-]; by rewrite app_nil_r].
  destruct Ho as [Hwb _]. destruct (Z.eqb_spec (zlen (w_Data w)) 0) as [E0|E0].
  { intros [= <-]. rewrite decide_False; [by rewrite app_nil_r|]. intros [_ []]. by apply zlen_nil_inv. }
  assert (w_Data w <> []) as Hne by (intros E; by rewrite E in E0).
  fold (default (new_conn (w_Sock w) (now k)) (conns s !! w_Sock w)).
  intros (c' & Hc' & [= <-])%go_bind_inv. destruct (decide (w_Sock w = sock)) as [<-|Hd].
  - rewrite decide_True by done.
    assert (holds (es ++ [(w_Dir w, w_Data w)]) c') as Hh.
    { eapply (wire_conn_holds es (w_Dir w, w_Data w)); [|by apply knows_default|exact Hc'].
      apply Forall_app_2; [done|]. by constructor. }
    split; cbn [conns set_conns]; rewrite lookup_insert_eq; [by intros c [= <-]|by eexists].
  - rewrite decide_False by tauto. rewrite app_nil_r.
    eapply knows_view; [|exact Hk]. cbn [conns set_conns]. by rewrite lookup_insert_ne.
Qed.

Lemma wires_byte sock o : op_ok o -> Forall (fun e => Forall is_byte e.2) (wires sock o).
Proof.
  destruct o as [|[w|]| | |]; cbn [wires]; try constructor. intros [Hb _].
  case_decide; constructor; [done|constructor].
Qed.

Lemma knows_step `{GrowthOk, MapRangeOk} sock es k o s s' :
  store_wf s -> op_ok o -> stays_open sock o -> Forall (fun e => Forall is_byte e.2) es ->
  knows sock es s -> do_op k o s = Ok s' -> knows sock (es ++ wires sock o) s'.
Proof.
  intros Hs Ho Hopen Hb Hk. destruct o as [fs|w|d|e|sts]; cbn [do_op];
    [|by apply knows_wire|..]; cbn [wires]; rewrite app_nil_r; intros [= <-].
  - by apply knows_flows.
  - eapply knows_view; [|exact Hk]. unfold ApplyData. destruct d as [d|]; [|done].
    destruct (_ =? 0); [done|]. destruct (d_Dir d =? 1); by destruct (appendTail _ _ _ _).
  - eapply knows_view; [|exact Hk]. apply ApplyClose_view.
  - eapply knows_view; [|exact Hk]. apply UpdateSSLStats_view.
Qed.

(** Over a whole run. *)
Lemma knows_run `{GrowthOk, MapRangeOk} sock ops es s :
  store_wf s -> Forall (fun ko => op_ok ko.2 /\ stays_open sock ko.2) ops ->
  Forall (fun e => Forall is_byte e.2) es -> knows sock es s ->
  exists s', run ops s = Ok s' /\ knows sock (es ++ (ops ≫= fun ko => wires sock ko.2)) s'
    /\ Forall (fun e => Forall is_byte e.2) (es ++ (ops ≫= fun ko => wires sock ko.2)).
Proof.
  revert es s. induction ops as [|[k o] ops IH]; intros es s Hs Hops Hb Hk.
  { exists s. cbn. by rewrite app_nil_r. }
  apply Forall_cons in Hops as [[Ho1 Ho2] Hops]. cbn [snd] in *.
  destruct (do_op_wf k o s Hs Ho1) as (s1 & E1 & Hs1).
  destruct (IH (es ++ wires sock o) s1) as (s' & E' & Hk' & Hb');
    [done|done|apply Forall_app_2; [done|by apply wires_byte]|by apply (knows_step sock es k o s)|].
  exists s'. cbn [run]. rewrite E1. cbn [go_bind]. by rewrite bind_cons, app_assoc.
Qed.
End Knows.
