(* ===== verification/StorePlain.v ===== *)
(** Attribution of plaintext: which connection a session is charged to, the totals,
    and the cached samples. *)
From S2P Require Import Prelude Loader TlsParse Slices Proc Store StoreInv StoreFacts.

(** ** resolve *)

Definition owned (pid : Z) (kc : Z * Conn) : Prop := cn_Pid kc.2 = pid.
#[export] Instance owned_dec pid kc : Decision (owned pid kc).
Proof. unfold owned. apply _. Defined.

Lemma sole_filter pid l m :
  sole_of_pid pid l m =
  match filter (owned pid) l, m with
  | [], m => m
  | [kc], None => Some kc.1
  | _, _ => None
  end.
Proof.
  revert m. induction l as [|[k c] l IH]; intros m; [by destruct m|].
  cbn [sole_of_pid]. rewrite filter_cons. destruct (Z.eqb_spec (cn_Pid c) pid) as [E|E].
  - rewrite decide_True by done. destruct m; [by destruct (filter _ l) as [|? [|? ?]]|]. rewrite IH.
    by destruct (filter _ l) as [|? [|? ?]].
  - rewrite decide_False by done. apply IH.
Qed.

(** The pid owns exactly one connection, that of [sock]. *)
Definition sole (pid sock : Z) (m : gmap Z Conn) : Prop :=
  (exists c, m !! sock = Some c /\ cn_Pid c = pid)
  /\ forall sock' c', m !! sock' = Some c' -> cn_Pid c' = pid -> sock' = sock.

Lemma sole_of_pid_spec `{MapRangeOk} id pid m sock :
  sole_of_pid pid (range id m) None = Some sock <-> sole pid sock m.
Proof.
  rewrite sole_filter. unfold sole.
  assert (forall k c, (k, c) ∈ filter (owned pid) (range id m) <-> cn_Pid c = pid /\ m !! k = Some c) as Hin
    by (intros; by rewrite list_elem_of_filter, range_lookup).
  pose proof (NoDup_fst_filter (owned pid) _ (range_NoDup id m)) as Hnd.
  destruct (filter (owned pid) (range id m)) as [|[k c] [|[k2 c2] l]]; split.
  - done.
  - intros [(c & Hc & Hp) _]. exfalso. apply (not_elem_of_nil (sock, c)). by apply Hin.
  - intros [= <-]. destruct (proj1 (Hin k c)) as [Hp Hc]; [left|]. split; [by exists c|].
    intros k' c' Hc' Hp'. assert ((k', c') ∈ [(k, c)]) as E by (by apply Hin).
    apply list_elem_of_singleton in E. congruence.
  - intros [_ Hu]. destruct (proj1 (Hin k c)) as [Hp Hc]; [left|]. cbn. f_equal. by eapply Hu.
  - done.
  - intros [_ Hu]. destruct (proj1 (Hin k c)) as [Hp Hc]; [left|].
    destruct (proj1 (Hin k2 c2)) as [Hp2 Hc2]; [right; left|].
    cbn in Hnd. apply NoDup_cons in Hnd as [Hn _]. destruct Hn.
    rewrite (Hu k c Hc Hp), (Hu k2 c2 Hc2 Hp2). left.
Qed.

Lemma by_remote_Some ap l sock c : by_remote ap l = Some (sock, c) -> (sock, c) ∈ l /\ cn_Remote c = ap.
Proof.
  induction l as [|[k c'] l IH]; [done|]. cbn. case_decide.
  - intros [= -> ->]. split; [left|done].
  - intros H'. destruct (IH H'). split; [by right|done].
Qed.

Lemma by_remote_None ap l : by_remote ap l = None <-> Forall (fun kc => cn_Remote kc.2 <> ap) l.
Proof.
  induction l as [|[k c'] l IH]; [split; [constructor|done]|]. cbn. case_decide as Hd.
  - split; [done|]. intros [Hc _]%Forall_cons. by destruct Hc.
  - rewrite IH, Forall_cons. tauto.
Qed.

(** The three grounds for an attribution. *)
Inductive grounds (k : call) (i : nat) (pid fd : Z) (s : Store) (sock : Z) (c : Conn) : Prop :=
| by_cache : 0 <= fd -> pidfd s !! pidfd_key pid fd = Some sock -> grounds k i pid fd s sock c
| by_peer : 0 <= fd -> proc_peer k i pid fd = Some (cn_Remote c) -> grounds k i pid fd s sock c
| by_sole : sole pid sock (conns s) -> grounds k i pid fd s sock c.

Definition unresolved (k : call) (i : nat) (pid fd : Z) (s : Store) : Prop :=
  (0 <= fd -> forall sock, pidfd s !! pidfd_key pid fd = Some sock -> conns s !! sock = None)
  /\ (0 <= fd -> forall ap, proc_peer k i pid fd = Some ap ->
        map_Forall (fun _ c => cn_Remote c <> ap) (conns s))
  /\ forall sock, ~ sole pid sock (conns s).

Section Resolve_facts.
Context `{MapRangeOk}.

Lemma fallback_spec id pid s sock c :
  conns s !! sock = Some c \/ True ->
  sole_of_pid pid (range id (conns s)) None = Some sock -> exists c, conns s !! sock = Some c /\ sole pid sock (conns s).
Proof.
  intros _ E. apply sole_of_pid_spec in E. pose proof E as [(c' & Hc' & _) _]. by exists c'.
Qed.

Lemma fallback_None id pid m :
  sole_of_pid pid (range id m) None = None -> forall sock, ~ sole pid sock m.
Proof. intros E sock Hs. apply (sole_of_pid_spec id) in Hs. congruence. Qed.

Lemma resolve_spec k i pid fd s s' r :
  resolve k i pid fd s = (s', r) ->
  match r with
  | Some sock => exists c, conns s !! sock = Some c /\ grounds k i pid fd s sock c
  | None => unresolved k i pid fd s
  end.
Proof.
  unfold resolve. destruct (Z.leb_spec 0 fd) as [Hfd|Hfd].
  2:{ intros [= <- <-]. destruct (sole_of_pid _ _ _) as [sock|] eqn:E.
      - destruct (fallback_spec _ _ s sock (new_conn 0 0) (or_intror I) E) as (c & Hc & Hs).
        exists c. split; [done|by apply by_sole].
      - split_and!; [lia..|]. by eapply fallback_None. }
  set (key := pidfd_key pid fd).
  assert (forall s1 s2 r, conns s1 = conns s ->
    (forall sock, pidfd s !! key = Some sock -> conns s !! sock = None) ->
    match proc_peer k i pid fd with
    | Some ap =>
        match by_remote ap (range [call_id k; i; 0%nat] (conns s1)) with
        | Some (sock, c) => (set_pidfd (<[key := cn_Sock c]> (pidfd s1)) s1, Some sock)
        | None => (s1, sole_of_pid pid (range [call_id k; i; 1%nat] (conns s1)) None)
        end
    | None => (s1, sole_of_pid pid (range [call_id k; i; 1%nat] (conns s1)) None)
    end = (s2, r) ->
    match r with
    | Some sock => exists c, conns s !! sock = Some c /\ grounds k i pid fd s sock c
    | None => unresolved k i pid fd s
    end) as Hlook.
  { intros s1 s2 r1 -> Hcache E.
    assert (forall o, sole_of_pid pid (range [call_id k; i; 1%nat] (conns s)) None = o ->
      (forall ap, proc_peer k i pid fd = Some ap -> map_Forall (fun _ c => cn_Remote c <> ap) (conns s)) ->
      match o with
      | Some sock => exists c, conns s !! sock = Some c /\ grounds k i pid fd s sock c
      | None => unresolved k i pid fd s
      end) as Hfall.
    { intros [sock|] Eo Hp.
      - destruct (fallback_spec _ _ s sock (new_conn 0 0) (or_intror I) Eo) as (c & Hc & Hs).
        exists c. split; [done|by apply by_sole].
      - split_and!; [by intros _|by intros _|]. by eapply fallback_None. }
    destruct (proc_peer k i pid fd) as [ap|] eqn:Ep.
    - destruct (by_remote ap _) as [[sock c]|] eqn:Eb; injection E as _ <-.
      + destruct (by_remote_Some _ _ _ _ Eb) as [Hin Hr]. rewrite range_lookup in Hin.
        exists c. split; [done|]. apply by_peer; [done|]. congruence.
      + apply Hfall; [done|]. intros ap' [= <-]. apply by_remote_None in Eb.
        intros sock c Hc. rewrite Forall_forall in Eb. apply (Eb (sock, c)). by apply range_lookup.
    - injection E as _ <-. by apply Hfall. }
  fold key. destruct (pidfd s !! key) as [sock|] eqn:Ec.
  - destruct (conns s !! sock) as [c|] eqn:Es.
    + intros [= <- <-]. exists c. split; [done|]. by apply by_cache.
    + intros E. apply (Hlook (set_pidfd (delete key (pidfd s)) s) s' r); [done| |exact E].
      by intros sock' [= <-].
  - intros E. by apply (Hlook s s' r).
Qed.
End Resolve_facts.

(** ** Totals *)

(** Whom each statistic of a poll is charged to, in order. *)
Fixpoint charges `{MapRange} (k : call) (i : nat) (sts : list SSLStat) (s : Store) : list (option Z) :=
  match sts with
  | [] => []
  | st :: sts =>
      (resolve k i (st_Pid st) (st_Fd st) s).2 :: charges k (S i) sts (fold_stat k i st s)
  end.

(** The sum of [f] over the statistics charged to [sock]. *)
Fixpoint charged (f : SSLStat -> Z) (sock : Z) (sts : list SSLStat) (rs : list (option Z)) : Z :=
  match sts, rs with
  | st :: sts, r :: rs => (if decide (r = Some sock) then f st else 0) + charged f sock sts rs
  | _, _ => 0
  end.

(** Who a connection is: what attribution looks at. *)
Definition ident (c : Conn) : Z * Z * AddrPort := (cn_Sock c, cn_Pid c, cn_Remote c).

Section Totals.
Context `{MapRange}.

Lemma fold_stat_lookup k i st s sock c :
  conns s !! sock = Some c ->
  exists c', conns (fold_stat k i st s) !! sock = Some c'
    /\ (let r := (resolve k i (st_Pid st) (st_Fd st) s).2 in
        cn_PtxBytes c' = (if decide (r = Some sock) then wrap 64 (cn_PtxBytes c + st_Ptx st) else cn_PtxBytes c)
        /\ cn_PrxBytes c' = (if decide (r = Some sock) then wrap 64 (cn_PrxBytes c + st_Prx st) else cn_PrxBytes c))
    /\ ident c' = ident c /\ cn_plainFinal c' = cn_plainFinal c.
Proof.
  intros Hc. unfold fold_stat. destruct (resolve k i (st_Pid st) (st_Fd st) s) as [s1 r] eqn:Er.
  destruct (resolve_same _ _ _ _ _ _ _ Er) as [m ->]. cbn [snd]. destruct r as [sock'|].
  - cbn [conns set_conns set_pidfd]. rewrite lookup_alter.
    destruct (decide (sock' = sock)) as [->|Hne].
    + rewrite Hc. eexists. split; [reflexivity|]. rewrite !decide_True by done.
      unfold join_sample. cbn [plainBySSL]. by destruct (plainBySSL _ !! _).
    + exists c. rewrite !decide_False by congruence. done.
  - exists c. by rewrite !decide_False by done.
Qed.

Lemma fold_stats_lookup k i sts s sock c :
  conns s !! sock = Some c -> in_width 64 (cn_PtxBytes c) -> in_width 64 (cn_PrxBytes c) ->
  exists c', conns (fold_stats k i sts s) !! sock = Some c'
    /\ cn_PtxBytes c' = wrap 64 (cn_PtxBytes c + charged st_Ptx sock sts (charges k i sts s))
    /\ cn_PrxBytes c' = wrap 64 (cn_PrxBytes c + charged st_Prx sock sts (charges k i sts s))
    /\ ident c' = ident c /\ cn_plainFinal c' = cn_plainFinal c.
Proof.
  revert i s c. induction sts as [|st sts IH]; intros i s c Hc Hp Hr.
  { exists c. cbn. by rewrite !Z.add_0_r, !wrap_small. }
  cbn [fold_stats charges charged]. destruct (fold_stat_lookup k i st s sock c Hc) as (c1 & Hc1 & [E1 E2] & E3 & E4).
  destruct (IH (S i) (fold_stat k i st s) c1 Hc1) as (c2 & Hc2 & F1 & F2 & F3 & F4).
  - rewrite E1. case_decide; [by apply wrap_range|done].
  - rewrite E2. case_decide; [by apply wrap_range|done].
  - exists c2. split; [done|]. rewrite F1, F2, E1, E2, F3, F4, E3, E4. split_and!; try done.
    + case_decide; [by rewrite wrap_add_l, Z.add_assoc by lia|done].
    + case_decide; [by rewrite wrap_add_l, Z.add_assoc by lia|done].
Qed.

Lemma UpdateSSLStats_totals k sts s sock c :
  conns s !! sock = Some c -> in_width 64 (cn_PtxBytes c) -> in_width 64 (cn_PrxBytes c) ->
  let s0 := set_conns (zero_plain <$> conns s) s in
  let base b := if cn_plainFinal c then b else 0 in
  exists c', conns (UpdateSSLStats k sts s) !! sock = Some c'
    /\ cn_PtxBytes c' = wrap 64 (base (cn_PtxBytes c) + charged st_Ptx sock sts (charges k O sts s0))
    /\ cn_PrxBytes c' = wrap 64 (base (cn_PrxBytes c) + charged st_Prx sock sts (charges k O sts s0)).
Proof.
  intros Hc Hp Hr. cbn zeta. unfold UpdateSSLStats. cbn zeta. cbn [conns set_samples].
  set (s0 := set_conns (zero_plain <$> conns s) s).
  assert (conns s0 !! sock = Some (zero_plain c)) as H0.
  { unfold s0. cbn [conns set_conns]. by rewrite lookup_fmap, Hc. }
  destruct (fold_stats_lookup k O sts s0 sock (zero_plain c) H0) as (c' & Hc' & E1 & E2 & _).
  - unfold zero_plain. by destruct (cn_plainFinal c).
  - unfold zero_plain. by destruct (cn_plainFinal c).
  - exists c'. split; [exact Hc'|]. rewrite E1, E2. unfold zero_plain. by destruct (cn_plainFinal c).
Qed.
End Totals.

(** ** When only the owner decides *)

Lemma fold_stat_ident `{MapRange} k i st s :
  ident <$> conns (fold_stat k i st s) = ident <$> conns s.
Proof.
  apply map_eq. intros sock. rewrite !lookup_fmap.
  unfold fold_stat. destruct (resolve k i (st_Pid st) (st_Fd st) s) as [s1 [sock'|]] eqn:Er;
    destruct (resolve_same _ _ _ _ _ _ _ Er) as [m ->]; [|done].
  cbn [conns set_conns set_pidfd]. rewrite lookup_alter. case_decide; [subst|done].
  destruct (conns s !! sock) as [c|]; [|done]. cbn. unfold join_sample. cbn [plainBySSL].
  by destruct (plainBySSL _ !! _).
Qed.

Lemma zero_plain_ident s : ident <$> (zero_plain <$> conns s) = ident <$> conns s.
Proof.
  apply map_eq. intros sock. rewrite !lookup_fmap. destruct (conns s !! sock) as [c|]; [|done].
  cbn. unfold zero_plain. by destruct (cn_plainFinal c).
Qed.

Lemma sole_ident pid sock m m' : ident <$> m = ident <$> m' -> sole pid sock m -> sole pid sock m'.
Proof.
  intros E [(c & Hc & Hp) Hu].
  assert (forall k c', m' !! k = Some c' -> exists c0, m !! k = Some c0 /\ cn_Pid c0 = cn_Pid c') as Hback.
  { intros k c' Hc'. apply (f_equal (.!! k)) in E. rewrite !lookup_fmap, Hc' in E.
    destruct (m !! k) as [c0|]; [|done]. injection E as _ ? _. by exists c0. }
  split.
  - apply (f_equal (.!! sock)) in E. rewrite !lookup_fmap, Hc in E.
    destruct (m' !! sock) as [c'|]; [|done]. exists c'. injection E as _ ? _. split; [done|congruence].
  - intros k c' Hc' Hp'. destruct (Hback k c' Hc') as (c0 & Hc0 & Hq). eapply Hu; [done|congruence].
Qed.

Fixpoint sum_pid (f : SSLStat -> Z) (pid : Z) (sts : list SSLStat) : Z :=
  match sts with
  | [] => 0
  | st :: sts => (if st_Pid st =? pid then f st else 0) + sum_pid f pid sts
  end.

Lemma charged_sole `{MapRangeOk} f k i sts s s0 pid sock :
  ident <$> conns s = ident <$> conns s0 -> sole pid sock (conns s0) ->
  Forall (fun st => st_Fd st < 0) sts ->
  charged f sock sts (charges k i sts s) = sum_pid f pid sts.
Proof.
  intros E Hs Hf. revert i s E. induction Hf as [|st sts Hst _ IH]; intros i s E; [done|].
  cbn [charges charged sum_pid]. rewrite (IH (S i) (fold_stat k i st s)) by (by rewrite fold_stat_ident).
  f_equal. unfold resolve. destruct (Z.leb_spec 0 (st_Fd st)); [lia|]. cbn [snd].
  destruct (Z.eqb_spec (st_Pid st) pid) as [->|Hne].
  - rewrite decide_True; [done|]. apply sole_of_pid_spec. eapply sole_ident; [symmetry; exact E|exact Hs].
  - rewrite decide_False; [done|]. intros Hr%sole_of_pid_spec.
    apply (sole_ident _ _ _ _ E) in Hr. destruct Hr as [(c & Hc & Hp) _].
    destruct Hs as [(c' & Hc' & Hp') _]. congruence.
Qed.

(** ** ApplyClose *)

Lemma ApplyClose_spec `{MapRangeOk} k e s :
  let s' := ApplyClose k (Some e) s in
  plainBySSL s' = delete (c_SSL e) (plainBySSL s) /\ arrays s' = arrays s /\ history s' = history s
  /\ match (resolve k O (c_Pid e) (c_Fd e) s).2 with
     | Some sock => exists c, conns s !! sock = Some c
         /\ conns s' = <[sock := set_plain (c_Ptx e) (c_Prx e) true (join_sample s (c_SSL e) c)]> (conns s)
     | None => conns s' = conns s
     end.
Proof.
  cbn zeta. unfold ApplyClose. destruct (resolve k 0 (c_Pid e) (c_Fd e) s) as [s1 r] eqn:Er.
  pose proof (resolve_spec _ _ _ _ _ _ _ Er) as Hr. destruct (resolve_same _ _ _ _ _ _ _ Er) as [m ->].
  cbn [snd]. destruct r as [sock|]; [|done]. destruct Hr as (c & Hc & _).
  cbn [plainBySSL arrays history conns set_conns set_pidfd set_samples]. split_and!; try done.
  exists c. split; [done|]. apply map_eq. intros j. rewrite lookup_alter, lookup_insert.
  case_decide; [subst|done]. by rewrite Hc.
Qed.

(** ** Cached samples *)

Definition shead (s : Store) (p : Z * bool) : list Z :=
  match plainBySSL s !! p.1 with
  | Some smp => if p.2 then headOut smp else headIn smp
  | None => []
  end.

(** The plaintext an operation brings for a session and direction ([true]: out). *)
Definition plain (p : Z * bool) (o : op) : list Z :=
  match o with
  | OpData (Some d) => if decide (d_SSL d = p.1 /\ (d_Dir d =? 1) = p.2) then d_Data d else []
  | _ => []
  end.

(** The operation does not end the session. *)
Definition keeps (ssl : Z) (o : op) : Prop :=
  match o with
  | OpClose (Some e) => c_SSL e <> ssl
  | OpStats sts => exists st, st ∈ sts /\ st_SSL st = ssl
  | _ => True
  end.

(** The first non-empty chunk. *)
Definition first_chunk (h : list Z) (d : list Z) : list Z := match h with [] => d | _ => h end.

Lemma retire_loop_samples k seen l s :
  plainBySSL (retire_loop k seen l s) = plainBySSL s /\ arrays (retire_loop k seen l s) = arrays s
  /\ peekBytes (retire_loop k seen l s) = peekBytes s.
Proof.
  revert s. induction l as [|[sock c] l IH]; intros s; [done|]. cbn [retire_loop fold_left].
  destruct (negb (seen sock) && cn_Closed c); [|apply IH].
  destruct (IH (set_conns (delete sock (conns (retire (closed_now k sock) c s)))
                 (retire (closed_now k sock) c s))) as (E1 & E2 & E3).
  unfold retire_loop in *. rewrite E1, E2, E3.
  cbn [plainBySSL arrays peekBytes set_conns].
  destruct (retire_same (closed_now k sock) c s) as (_ & -> & -> & _ & -> & _). done.
Qed.

Lemma fold_stats_samples `{MapRange} k i sts s :
  plainBySSL (fold_stats k i sts s) = plainBySSL s /\ arrays (fold_stats k i sts s) = arrays s
  /\ peekBytes (fold_stats k i sts s) = peekBytes s.
Proof.
  revert i s. induction sts as [|st sts IH]; intros i s; [done|]. cbn [fold_stats].
  destruct (IH (S i) (fold_stat k i st s)) as (-> & -> & ->).
  unfold fold_stat. destruct (resolve k i (st_Pid st) (st_Fd st) s) as [s1 [sock|]] eqn:Er;
    by destruct (resolve_same _ _ _ _ _ _ _ Er) as [m ->].
Qed.

(** Operations other than ApplyData leave the samples of a kept session alone. *)
Lemma do_op_sample `{X509, Growth, MapRange} k o s s' ssl :
  do_op k o s = Ok s' -> keeps ssl o -> (forall d, o <> OpData d) ->
  plainBySSL s' !! ssl = plainBySSL s !! ssl /\ arrays s' = arrays s /\ peekBytes s' = peekBytes s.
Proof.
  intros Ho Hk Hd. destruct o as [fs|w|d|e|sts]; cbn [do_op] in Ho.
  - injection Ho as <-. rewrite UpdateFlows_loop. cbn zeta.
    by match goal with |- context [retire_loop ?a ?b ?c ?d] =>
      destruct (retire_loop_samples a b c d) as (-> & -> & ->) end.
  - destruct w as [w|]; cbn [ApplyWire] in Ho; [|by injection Ho as <-].
    destruct (_ =? 0); [by injection Ho as <-|]. apply go_bind_inv in Ho as (c & _ & Ho).
    by injection Ho as <-.
  - by destruct (Hd d).
  - destruct e as [e|]; cbn [ApplyClose] in Ho; [|by injection Ho as <-]. cbn in Hk.
    destruct (resolve k 0 (c_Pid e) (c_Fd e) s) as [s1 r] eqn:Er.
    destruct (resolve_same _ _ _ _ _ _ _ Er) as [m ->]. injection Ho as <-.
    destruct r; cbn [plainBySSL arrays peekBytes set_conns set_samples set_pidfd];
      by rewrite lookup_delete_ne.
  - injection Ho as <-. unfold UpdateSSLStats. cbn zeta. cbn [plainBySSL arrays peekBytes set_samples].
    destruct (fold_stats_samples k 0 sts (set_conns (zero_plain <$> conns s) s)) as (-> & -> & ->).
    cbn [plainBySSL arrays peekBytes set_conns]. split_and!; try done.
    destruct Hk as (st & Hst & Hssl). destruct (plainBySSL s !! ssl) as [smp|] eqn:E.
    + apply map_lookup_filter_Some_2; [done|]. cbn. apply existsb_exists. exists st.
      split; [by apply list_elem_of_In|]. by apply Z.eqb_eq.
    + apply map_lookup_filter_None_2. by left.
Qed.

Lemma last_z_0 {A} (l : list A) : last_z 0 l = [].
Proof. unfold last_z. rewrite Z.sub_0_r. apply zdrop_all. Qed.

Lemma shead_insert s h ssl smp p :
  shead (set_samples (<[ssl := smp]> (plainBySSL s)) h s) p
  = if decide (p.1 = ssl) then (if p.2 then headOut smp else headIn smp) else shead s p.
Proof.
  unfold shead. cbn [plainBySSL set_samples]. case_decide as Hd.
  - by rewrite Hd, lookup_insert_eq.
  - by rewrite lookup_insert_ne by congruence.
Qed.

Definition sample_tail (dir : bool) (smp : sample) : slice := if dir then tailOut smp else tailIn smp.
Definition sample_head (dir : bool) (smp : sample) : list Z := if dir then headOut smp else headIn smp.

Lemma stail_default s ssl dir :
  stail s (ssl, dir) = sample_tail dir (default sample_zero (plainBySSL s !! ssl)).
Proof. unfold stail. cbn [fst snd]. by destruct (plainBySSL s !! ssl), dir. Qed.
Lemma shead_default s ssl dir :
  shead s (ssl, dir) = sample_head dir (default sample_zero (plainBySSL s !! ssl)).
Proof. unfold shead. cbn [fst snd]. by destruct (plainBySSL s !! ssl), dir. Qed.

Lemma sample_tail_set out h t smp dir :
  sample_tail dir (set_direction out h t smp) = if decide (out = dir) then t else sample_tail dir smp.
Proof. by destruct out, dir. Qed.
Lemma sample_head_set out h t smp dir :
  sample_head dir (set_direction out h t smp) = if decide (out = dir) then h else sample_head dir smp.
Proof. by destruct out, dir. Qed.

(** A tail within the window is its own last part. *)
Lemma tail_full s p :
  store_wf s -> last_z (peekBytes s) (view (arrays s) (stail s p)) = view (arrays s) (stail s p).
Proof.
  intros Hs. apply last_z_short. destruct (sw_tails _ Hs p) as [H1 H2]. unfold zlen. by rewrite length_view.
Qed.

Lemma first_chunk_nil h : first_chunk h [] = h.
Proof. by destruct h. Qed.

(** Appending to one tail leaves the others as they read. *)
Lemma other_tail `{GrowthOk} s p q data h tail :
  store_wf s -> p <> q -> appendTail (arrays s) (stail s q) data (peekBytes s) = (h, tail) ->
  view h (stail s p) = view (arrays s) (stail s p).
Proof.
  intros Hs Hne Ea. destruct (sw_tails _ Hs q) as [Hq _].
  destruct (appendTail_spec _ _ _ _ _ _ Hq Ea) as (_ & _ & Hf & _).
  apply (view_frame (stail s q)); [done|apply (sw_tails _ Hs)|].
  intros a Ha Hb. by destruct Hne; apply (sw_apart _ Hs _ _ a).
Qed.

(** Heads and tails of every session and direction after one sample event. *)
Lemma ApplyData_spec `{GrowthOk} d s p :
  store_wf s ->
  let s' := ApplyData d s in
  let data := plain p (OpData d) in
  view (arrays s') (stail s' p) = last_z (peekBytes s) (view (arrays s) (stail s p) ++ data)
  /\ shead s' p = first_chunk (shead s p) data /\ peekBytes s' = peekBytes s.
Proof.
  intros Hs. cbn zeta. pose proof (tail_full s p Hs) as Hfull.
  destruct d as [d|]; [|cbn [plain ApplyData]; by rewrite app_nil_r, first_chunk_nil].
  destruct (decide (zlen (d_Data d) = 0)) as [E|E].
  { assert (d_Data d = []) as En by (by destruct (d_Data d)).
    assert (plain p (OpData (Some d)) = []) as -> by (cbn; rewrite En; by case_decide).
    unfold ApplyData. rewrite E. by rewrite app_nil_r, first_chunk_nil. }
  pose proof (ApplyData_some d s E) as Hd. cbn zeta in Hd. destruct p as [ssl dir].
  destruct (appendTail _ _ _ _) as [h tail] eqn:Ea. rewrite Hd. clear Hd.
  cbn [arrays set_samples peekBytes plain fst snd]. set (out := d_Dir d =? 1) in *.
  assert (Hother : (ssl, dir) <> (d_SSL d, out) ->
    view h (stail s (ssl, dir)) = view (arrays s) (stail s (ssl, dir))) by (intros; by eapply other_tail).
  rewrite !(stail_default (set_samples _ _ _)), !(shead_default (set_samples _ _ _)).
  cbn [plainBySSL set_samples]. rewrite lookup_insert.
  destruct (decide (d_SSL d = ssl)) as [Hssl|Hne]; cbn [default from_option id].
  - subst ssl. rewrite sample_tail_set, sample_head_set. destruct (decide (out = dir)) as [<-|Hdir].
    + rewrite decide_True by done. destruct (sw_tails _ Hs (d_SSL d, out)) as [Hts _].
      destruct (appendTail_spec _ _ _ _ _ _ Hts Ea) as (_ & Hv & _). rewrite Hv, shead_default.
      split_and!; [|unfold data_head, first_chunk, sample_head; by destruct (if out then _ else _)|done].
      pose proof (sw_peek _ Hs). destruct (Z.leb_spec (peekBytes s) 0); [|done].
      replace (peekBytes s) with 0 by lia. by rewrite last_z_0.
    + rewrite decide_False by tauto. rewrite <- stail_default, <- shead_default.
      rewrite app_nil_r, first_chunk_nil, Hfull. split_and!; try done. apply Hother. congruence.
  - rewrite decide_False by (intros []; congruence). rewrite <- stail_default, <- shead_default.
    rewrite app_nil_r, first_chunk_nil, Hfull. split_and!; try done. apply Hother. congruence.
Qed.

(** One operation, then a run: the head is the first chunk, the tail the last
    [peekBytes] bytes, of all the plaintext of the session and direction. *)
Lemma do_op_plain `{X509, GrowthOk, MapRangeOk} k o s s' p :
  store_wf s -> keeps p.1 o -> do_op k o s = Ok s' ->
  view (arrays s') (stail s' p) = last_z (peekBytes s) (view (arrays s) (stail s p) ++ plain p o)
  /\ shead s' p = first_chunk (shead s p) (plain p o) /\ peekBytes s' = peekBytes s.
Proof.
  intros Hs Hk Ho.
  assert ((exists d, o = OpData d) \/ (forall d, o <> OpData d)) as [[d ->]|Hd]
    by (destruct o; eauto; by right).
  - injection Ho as <-. by apply ApplyData_spec.
  - destruct (do_op_sample k o s s' p.1 Ho Hk Hd) as (E1 & E2 & E3).
    assert (plain p o = []) as -> by (destruct o as [| |d| |]; try done; by destruct (Hd d)).
    rewrite app_nil_r, tail_full, first_chunk_nil by done.
    unfold stail, shead. by rewrite E1, E2, E3.
Qed.

Lemma run_plain `{X509, GrowthOk, MapRangeOk} ops s s' p :
  store_wf s -> Forall (fun ko => op_ok ko.2 /\ keeps p.1 ko.2) ops -> run ops s = Ok s' ->
  view (arrays s') (stail s' p)
    = last_z (peekBytes s) (view (arrays s) (stail s p) ++ (ops ≫= fun ko => plain p ko.2))
  /\ shead s' p = fold_left first_chunk (map (fun ko => plain p ko.2) ops) (shead s p)
  /\ peekBytes s' = peekBytes s.
Proof.
  intros Hs Ho. revert s Hs. induction Ho as [|[k o] ops [Hk1 Hk2] _ IH]; intros s Hs.
  - intros [= <-]. cbn. rewrite app_nil_r, tail_full by done. done.
  - cbn [run]. intros (s1 & E1 & Hr)%go_bind_inv. cbn [snd] in *.
    destruct (do_op_wf k o s Hs Hk1) as (s1' & E1' & Hs1). rewrite E1' in E1. injection E1 as ->.
    destruct (do_op_plain k o s s1 p Hs Hk2 E1') as (F1 & F2 & F3).
    destruct (IH s1 Hs1 Hr) as (G1 & G2 & G3). rewrite G1, G2, G3, F1, F2, F3.
    cbn [map fold_left snd]. split_and!; try done.
    rewrite last_z_app by apply Hs. by rewrite <- app_assoc, bind_cons.
Qed.
