(* ===== verification/StoreFinal.v ===== *)
(** What SSL_free finalized stays: through every later operation that charges nothing to
    the connection, until and including its retirement. *)
From S2P Require Import Prelude Loader TlsParse Slices Proc Store StoreInv StoreFacts StorePlain.

(** The plaintext side of a connection. *)
Definition plain_view (c : Conn) : Z * Z * bool * (list Z * slice * (list Z * slice)) :=
  (cn_PtxBytes c, cn_PrxBytes c, cn_plainFinal c, (cn_HeadOut c, cn_TailOut c, (cn_HeadIn c, cn_TailIn c))).

(** Whom an operation applied to [s] charges a session's totals to. *)
Definition charged_to `{MapRange} (k : call) (o : op) (s : Store) : list (option Z) :=
  match o with
  | OpClose (Some e) => [(resolve k O (c_Pid e) (c_Fd e) s).2]
  | OpStats sts => charges k O sts (set_conns (zero_plain <$> conns s) s)
  | _ => []
  end.

(** None of the operations, each at its state of the run, charges anything to [sock]. *)
Fixpoint spared `{X509, Growth, MapRange} (sock : Z) (ops : list (call * op)) (s : Store) : Prop :=
  match ops with
  | [] => True
  | (k, o) :: ops =>
      Some sock ∉ charged_to k o s
      /\ match do_op k o s with Ok s' => spared sock ops s' | _ => True end
  end.

(** [sock] is live with plaintext side [v]. *)
Definition settled (sock : Z) v (s : Store) : Prop :=
  exists c, conns s !! sock = Some c /\ plain_view c = v.

(** UpdateFlows moves [sock] with plaintext side [v] to the history, which keeps its
    last [maxHistory] entries. *)
Definition retires `{MapRange} (sock : Z) v (k : call) (fs : list Flow) (s : Store) : Prop :=
  conns (UpdateFlows k fs s) !! sock = None
  /\ exists l c, history (UpdateFlows k fs s) = last_z (maxHistory s) (history s ++ l)
      /\ c ∈ l /\ cn_Sock c = sock /\ plain_view c = v /\ cn_Closed c = true.

Section Final.
Context `{X509, GrowthOk, MapRangeOk}.

Lemma updated_plain t sock fs c : plain_view (updated t sock fs (Some c)) = plain_view c.
Proof.
  unfold updated. cbn [default from_option id]. revert c.
  induction (of_sock sock fs) as [|f l IH]; intros c; [done|]. cbn [fold_left]. by rewrite IH.
Qed.

Lemma settled_flows sock v k fs s :
  store_wf s -> settled sock v s -> settled sock v (UpdateFlows k fs s) \/ retires sock v k fs s.
Proof.
  intros Hs (c & Hc & Hv). pose proof (sw_hist _ Hs) as Hh. pose proof (zlen_nonneg (history s)).
  destruct (UpdateFlows_spec k fs s ltac:(lia) Hh) as [Hconns (l & _ & Hl & Hhist)].
  specialize (Hconns sock). rewrite Hc in Hconns. destruct (seen_in fs sock) eqn:Es.
  - left. eexists. split; [exact Hconns|]. by rewrite updated_plain.
  - destruct (cn_Closed c) eqn:Ecl; [|left; by exists c]. right. split; [exact Hconns|].
    eexists _, (retired (closed_now k sock) c). split; [exact Hhist|]. split_and!; try done.
    + apply list_elem_of_fmap. exists (sock, c). split; [done|]. by apply Hl.
    + cbn. by apply (sw_keys _ Hs).
Qed.

(** Statistics that are charged to others leave a connection as it is. *)
Lemma fold_stats_spared sock k i sts s :
  Some sock ∉ charges k i sts s -> conns (fold_stats k i sts s) !! sock = conns s !! sock.
Proof.
  revert i s. induction sts as [|st sts IH]; intros i s; [done|]. cbn [fold_stats charges].
  rewrite not_elem_of_cons. intros [Hr Hrs]. rewrite IH by done. unfold fold_stat.
  destruct (resolve k i (st_Pid st) (st_Fd st) s) as [s1 [sock'|]] eqn:Er;
    destruct (resolve_same _ _ _ _ _ _ _ Er) as [m ->]; [|done].
  cbn [conns set_conns set_pidfd snd] in *. rewrite lookup_alter_ne; [done|congruence].
Qed.

Lemma wire_conn_plain dir data c c' :
  wire_conn dir data c = Ok c' -> plain_view c' = plain_view c.
Proof. unfold wire_conn. by intros (i & _ & [= <-])%go_bind_inv. Qed.

Lemma settled_step sock v k o s s' :
  store_wf s -> v.1.2 = true -> Some sock ∉ charged_to k o s -> settled sock v s -> do_op k o s = Ok s' ->
  settled sock v s' \/ exists fs, o = OpFlows fs /\ retires sock v k fs s.
Proof.
  intros Hs Hv Ho Hset E. destruct o as [fs|w|d|e|sts]; cbn [do_op charged_to] in *;
    [injection E as <-; destruct (settled_flows sock v k fs s Hs Hset); eauto|left; destruct Hset as (c & Hc & Hc')..].
  - destruct w as [w|]; cbn [ApplyWire] in E; [|injection E as <-; by exists c].
    destruct (zlen (w_Data w) =? 0); [injection E as <-; by exists c|].
    apply go_bind_inv in E as (c2 & E2 & [= <-]). unfold settled. cbn [conns set_conns].
    destruct (decide (w_Sock w = sock)) as [<-|Hne].
    + rewrite Hc in E2. apply wire_conn_plain in E2.
      exists c2. rewrite lookup_insert_eq. split; congruence.
    + exists c. by rewrite lookup_insert_ne.
  - injection E as <-. exists c. split; [|done].
    unfold ApplyData. destruct d as [d|]; [|done]. destruct (_ =? 0); [done|].
    destruct (d_Dir d =? 1); by destruct (appendTail _ _ _ _).
  - injection E as <-. exists c. split; [|done]. destruct e as [e|]; [|done].
    rewrite list_elem_of_singleton in Ho. destruct (ApplyClose_spec k e s) as (_ & _ & _ & Hcl).
    destruct (resolve k 0 (c_Pid e) (c_Fd e) s).2 as [sock'|]; [|by rewrite Hcl].
    destruct Hcl as (c1 & _ & ->). rewrite lookup_insert_ne; [done|congruence].
  - injection E as <-. exists c. split; [|done].
    unfold UpdateSSLStats. cbn zeta. cbn [conns set_samples].
    rewrite fold_stats_spared by exact Ho. cbn [conns set_conns]. rewrite lookup_fmap, Hc. cbn.
    unfold zero_plain. destruct (cn_plainFinal c) eqn:Ef; [done|]. rewrite <- Hc' in Hv. cbn in Hv. congruence.
Qed.

(** Over a run: still live with [v], or retired with [v] on the way. *)
Lemma settled_run sock v ops s s' :
  store_wf s -> v.1.2 = true -> Forall (fun ko => op_ok ko.2) ops -> spared sock ops s ->
  settled sock v s -> run ops s = Ok s' ->
  settled sock v s'
  \/ exists ops1 k fs ops2 s1, ops = ops1 ++ (k, OpFlows fs) :: ops2 /\ run ops1 s = Ok s1 /\ retires sock v k fs s1.
Proof.
  intros Hs Hv Ho. revert s Hs. induction Ho as [|[k o] ops Hok Ho IH]; intros s Hs Hsp Hset E.
  { injection E as <-. by left. }
  cbn [run] in E. destruct Hsp as [Hel Hsp]. destruct (do_op_wf k o s Hs Hok) as (s1 & E1 & Hs1).
  rewrite E1 in E, Hsp. cbn [go_bind] in E.
  destruct (settled_step sock v k o s s1 Hs Hv Hel Hset E1) as [Hset1|(fs & -> & Hr)].
  - destruct (IH s1 Hs1 Hsp Hset1 E) as [|(ops1 & k' & fs & ops2 & s2 & -> & E2 & Hr)]; [by left|right].
    exists ((k, o) :: ops1), k', fs, ops2, s2. split_and!; [done| |done]. cbn [run]. by rewrite E1.
  - right. by exists [], k, fs, ops, s.
Qed.
End Final.
