(* ===== verification/StoreProps.v ===== *)
(** The store: its properties, with a concrete X.509 decoder, allocator and map order
    for the witnesses. *)
From S2P Require Import Prelude Loader TlsParse TlsSpec TlsEquiv TlsDuplex TlsWire TlsProps Slices Proc Store StoreInv StoreFacts StoreDuplex StorePlain StoreFinal.

(** ** Data for the witnesses *)

#[local] Instance demo_x509 : X509 := fun _ => None.
#[local] Instance demo_growth : Growth := fun old need => Nat.max need (2 * old).
#[local] Instance demo_growth_ok : GrowthOk.
Proof. intros old need. unfold growslice, demo_growth. lia. Qed.
#[local] Instance demo_range : MapRange := fun _ _ m => map_to_list m.
#[local] Instance demo_range_ok : MapRangeOk.
Proof. by intros V id m. Qed.

(** A call at time [t] while /proc answers nothing. *)
Definition no_proc : ProcFS := {| readlink_fd _ _ := None; file_lines _ := None |}.
Definition demo_call (t : Z) : call := mkCall (Z.to_nat t) t (fun _ => t) (fun _ => no_proc).

Definition demo_flow (sock pid : Z) (closed : bool) : Flow :=
  mkFlow sock pid [16777343; 0; 0; 0] [16777343; 0; 0; 0] 5000 443 false 1 true closed "curl" 10 20.
Definition demo_data (n : Z) : DataEvent := mkDataEvent 1 100 101 (-1) 55 (replicate 6 n).
Definition demo_close : CloseEvent := mkCloseEvent 100 (-1) 55 12 34.

Definition demo_hello_bytes : list Z := encode_record (mkRecord 3 1 (encode_message (MClientHello demo_hello))).

(** ** The invariant *)

(** C16: the store's invariant.  Any sequence of its operations, with any clock, any
    answers from /proc and any map iteration orders, runs without a panic and leaves a
    well-formed store: connections under their own key, the history within its cap and
    holding only closed connections with their buffers released, reassembly buffers
    bounded, tails within the window, and no two live tails on one array. *)
Theorem store_invariant `{X509, GrowthOk, MapRangeOk} mh pb ops :
  Forall (fun ko => op_ok ko.2) ops ->
  exists s, run ops (New mh pb) = Ok s /\ store_wf s.
Proof. apply run_wf, New_wf. Qed.

Lemma store_invariant_witness :
  exists s, run [(demo_call 1, OpFlows [demo_flow 7 100 true]); (demo_call 2, OpData (Some (demo_data 65)));
                 (demo_call 3, OpFlows [])] (New 3 8) = Ok s /\ store_wf s.
Proof. apply store_invariant. repeat constructor. Defined.

(** ** UpdateFlows *)

(** C17: a snapshot reconciled.  After UpdateFlows a socket of the snapshot has its
    connection (a new one if there was none) with the snapshot's entries applied; a
    socket that is not in it keeps its connection, unless that was closed: then the
    connection is gone from the table and stands, retired, in the history, of which the
    last [maxHistory] entries are kept. *)
Theorem flows_reconciled `{MapRangeOk} k fs s :
  store_wf s ->
  let s' := UpdateFlows k fs s in
  (forall sock, conns s' !! sock =
     if seen_in fs sock then Some (updated (now k) sock fs (conns s !! sock))
     else match conns s !! sock with
          | Some c => if cn_Closed c then None else Some c
          | None => None
          end)
  /\ exists l, NoDup l.*1
      /\ (forall sock c, (sock, c) ∈ l <->
            conns s !! sock = Some c /\ seen_in fs sock = false /\ cn_Closed c = true)
      /\ history s' = last_z (maxHistory s)
           (history s ++ ((fun kc => retired (closed_now k kc.1) kc.2) <$> l)).
Proof.
  intros Hs. apply UpdateFlows_spec; [|apply Hs]. pose proof (sw_hist _ Hs).
  pose proof (zlen_nonneg (history s)). lia.
Qed.

Lemma flows_reconciled_witness :
  let s := UpdateFlows (demo_call 1) [demo_flow 7 100 true; demo_flow 8 100 false] (New 3 8) in
  let s' := UpdateFlows (demo_call 2) [demo_flow 8 100 false] s in
  conns s' !! 7 = None /\ cn_Sock <$> conns s' !! 8 = Some 8 /\ cn_ClosedAt <$> history s' = [2].
Proof.
  cbn zeta. set (s := UpdateFlows _ _ (New 3 8)).
  assert (store_wf s) as Hs by (apply UpdateFlows_wf, New_wf).
  destruct (flows_reconciled (demo_call 2) [demo_flow 8 100 false] s Hs) as [H _].
  rewrite !H. split_and!; vm_compute; reflexivity.
Defined.

(** ** Reassembly *)

(** C18: both directions of a handshake out of chunks.  Whatever else the store is
    told, while no snapshot reports the socket closed its connection's two buffers are
    what the outbound and the inbound chunks amount to, and its [Info] - parsed again
    into itself at every chunk, whichever direction that had - is that of two parses
    only: the direction of the last chunk on top of the other one.  This holds where at
    most one direction carries a ClientHello ([single_hello]), as between a client and a
    server: with two of different versions the first to come keeps the version. *)
Theorem directions_reassembled `{X509, GrowthOk, MapRangeOk} mh pb sock ops :
  let es := ops ≫= fun ko => wires sock ko.2 in
  Forall (fun ko => op_ok ko.2 /\ stays_open sock ko.2) ops -> es <> [] -> single_hello es ->
  exists s c, run ops (New mh pb) = Ok s /\ conns s !! sock = Some c /\ cn_Closed c = false
    /\ cn_wireOut c = grown es false /\ cn_wireIn c = grown es true
    /\ exists e, last es = Some e
        /\ (do! i <- Parse (grown es (negb (inbound e))) Info_zero; Parse (grown es (inbound e)) i)
           = Ok (cn_Info c).
Proof.
  cbn zeta. intros Ho Hne Hone.
  destruct (knows_run sock ops [] (New mh pb)) as (s & Hr & [K1 K2] & Hb);
    [apply New_wf|done|constructor|apply knows_new|]. rewrite app_nil_l in *.
  destruct (K2 Hne) as [c Hc]. destruct (K1 c Hc) as [C1 C2 C3 C4].
  exists s, c. split_and!; try done. rewrite C4 by done. unfold last_pass.
  destruct (last _) as [e|] eqn:El; [|by apply last_None in El].
  exists e. split; [done|]. by apply two_pass_Parse; apply grown_byte.
Qed.

(** The offer, the server's choice, and the client's next record, all in TLS 1.2. *)
Definition demo_offer : list Z := encode_record (mkRecord 3 1 (encode_message (MClientHello demo_hello))).
Definition demo_answer : ServerHello := mkServerHello 0x0303 (replicate 32 9) [] 0xc02f 0 [EALPN ["h2"%string]].
Definition demo_choice : list Z := encode_record (mkRecord 3 3 (encode_message (MServerHello demo_answer))).
Definition demo_exchange : list Z := encode_record (mkRecord 3 3 (encode_message (MOther 16 [1; 2; 3]))).
Definition demo_wire (dir : Z) (d : list Z) : op := OpWire (Some (mkWireEvent dir 7 d)).
Definition demo_talk : list (call * op) :=
  [(demo_call 1, demo_wire 1 (take 30 demo_offer)); (demo_call 2, OpFlows [demo_flow 7 100 false]);
   (demo_call 3, demo_wire 1 (drop 30 demo_offer)); (demo_call 4, demo_wire 2 demo_choice);
   (demo_call 5, demo_wire 1 demo_exchange)].

#[local] Instance op_ok_dec o : Decision (op_ok o).
Proof. destruct o as [|[w|]| | |]; cbn; apply _. Defined.
#[local] Instance stays_open_dec sock o : Decision (stays_open sock o).
Proof. destruct o; cbn; apply _. Defined.

Lemma demo_talk_ok : Forall (fun ko => op_ok ko.2 /\ stays_open 7 ko.2) demo_talk.
Proof. apply (bool_decide_unpack _). vm_compute. exact I. Qed.

Lemma directions_reassembled_witness :
  exists s c, run demo_talk (New 3 8) = Ok s /\ conns s !! 7 = Some c
    /\ cn_wireOut c = demo_offer ++ demo_exchange /\ cn_wireIn c = demo_choice
    /\ SNI (cn_Info c) = "example.com"%string /\ CipherSuite (cn_Info c) = 0xc02f.
Proof.
  destruct (directions_reassembled 3 8 7 demo_talk demo_talk_ok) as (s & c & Hr & Hc & _ & Ho & Hi & e & He & Hp).
  - vm_compute. congruence.
  - right. apply (bool_decide_unpack _). vm_compute. exact I.
  - exists s, c. split_and!; [exact Hr|exact Hc|rewrite Ho; vm_compute; reflexivity
      |rewrite Hi; vm_compute; reflexivity|..];
      (assert (e = (1, demo_exchange)) as -> by (vm_compute in He; injection He as <-; reflexivity));
      set (i := cn_Info c) in *; clearbody i; vm_compute in Hp; injection Hp as <-; reflexivity.
Defined.

(** C19: whose word counts.  On a client's connection - no ServerHello or Certificate
    goes out, no ClientHello comes in, and no snapshot reports it closed - whichever
    direction was parsed last, what only a ClientHello says is as one parse of the
    outbound buffer gives it, and what only the server says as one parse of the inbound
    buffer does; the version is the client's before the server's hello and the server's
    after, where that names one.  The application protocols are those of the direction
    that spoke last if a hello of it has their extension, and else those of the other:
    in TLS 1.2 the client's next record takes the server's choice back, in TLS 1.3,
    where the server's choice is encrypted, the client's list stays. *)
Theorem fields_by_direction `{X509, GrowthOk, MapRangeOk} mh pb sock ops :
  let es := ops ≫= fun ko => wires sock ko.2 in
  Forall (fun ko => op_ok ko.2 /\ stays_open sock ko.2) ops -> es <> [] ->
  client_side (grown es false) (grown es true) ->
  exists s c io ii, run ops (New mh pb) = Ok s /\ conns s !! sock = Some c
    /\ Parse (grown es false) Info_zero = Ok io /\ Parse (grown es true) Info_zero = Ok ii
    /\ client_part (cn_Info c) = client_part io /\ server_part (cn_Info c) = server_part ii
    /\ (if HasServerHello ii then NegVersion ii <> 0 -> NegVersion (cn_Info c) = NegVersion ii
        else NegVersion (cn_Info c) = NegVersion io)
    /\ forall e, last es = Some e ->
        let said d := ALPN (if d : bool then ii else io) in
        ALPN (cn_Info c) = said (if names_alpn (grown es (inbound e)) then inbound e else negb (inbound e)).
Proof.
  cbn zeta. intros Ho Hne Hcs.
  destruct (knows_run sock ops [] (New mh pb)) as (s & Hr & [K1 K2] & Hb);
    [apply New_wf|done|constructor|apply knows_new|]. rewrite app_nil_l in *.
  set (es := ops ≫= _) in *. destruct (K2 Hne) as [c Hc]. destruct (K1 c Hc) as [_ _ _ C4].
  assert (single_hello es) as Hone.
  { right. apply (client_side_kinds _ _ 0 Hcs), (bool_decide_unpack _). exact I. }
  exists s, c, (parsed (grown es false)), (parsed (grown es true)). rewrite (C4 Hone).
  pose proof (last_pass_two (grown es) es Hne) as Hp.
  destruct (two_pass_parts _ _ _ Hcs Hp) as [P1 P2].
  split_and!; try done; try (by apply Parse_writes, grown_byte); [by apply two_pass_version|].
  intros e He. unfold last_pass. rewrite He, two_pass_alpn.
  by destruct (names_alpn _), (inbound e).
Qed.

(** A server that names no protocol in the clear, as in TLS 1.3. *)
Definition demo_quiet : ServerHello := mkServerHello 0x0303 (replicate 32 9) [] 0x1301 0 [].
Definition demo_talk13 : list (call * op) :=
  [(demo_call 1, demo_wire 1 demo_offer);
   (demo_call 2, demo_wire 2 (encode_record (mkRecord 3 3 (encode_message (MServerHello demo_quiet)))))].

(** The server's h2 is shown, until the client's key exchange shows both again; where
    the server names none, both are shown. *)
Lemma fields_by_direction_witness :
  (exists s c, run (take 4 demo_talk) (New 3 8) = Ok s /\ conns s !! 7 = Some c
    /\ ALPN (cn_Info c) = ["h2"%string])
  /\ (exists s c, run demo_talk (New 3 8) = Ok s /\ conns s !! 7 = Some c
    /\ NegVersion (cn_Info c) = 0x0303 /\ ALPN (cn_Info c) = ["h2"%string; "http/1.1"%string])
  /\ exists s c, run demo_talk13 (New 3 8) = Ok s /\ conns s !! 7 = Some c
    /\ NegVersion (cn_Info c) = 0x0304 /\ ALPN (cn_Info c) = ["h2"%string; "http/1.1"%string].
Proof.
  assert (forall ops, bool_decide (Forall (fun ko => op_ok ko.2 /\ stays_open 7 ko.2) ops) = true ->
    bool_decide (client_side (grown (ops ≫= fun ko => wires 7 ko.2) false)
      (grown (ops ≫= fun ko => wires 7 ko.2) true)) = true ->
    (ops ≫= fun ko => wires 7 ko.2) <> [] -> exists s c, run ops (New 3 8) = Ok s /\ conns s !! 7 = Some c
      /\ exists io ii, Parse (grown (ops ≫= fun ko => wires 7 ko.2) false) Info_zero = Ok io
        /\ Parse (grown (ops ≫= fun ko => wires 7 ko.2) true) Info_zero = Ok ii
        /\ (if HasServerHello ii then NegVersion ii <> 0 -> NegVersion (cn_Info c) = NegVersion ii else True)
        /\ forall e, last (ops ≫= fun ko => wires 7 ko.2) = Some e ->
          ALPN (cn_Info c) = ALPN (if if names_alpn (grown (ops ≫= fun ko => wires 7 ko.2) (inbound e))
            then inbound e else negb (inbound e) then ii else io)) as H.
  { intros ops Hok%bool_decide_eq_true Hcs%bool_decide_eq_true Hne.
    destruct (fields_by_direction 3 8 7 ops Hok Hne Hcs) as (s & c & io & ii & Hr & Hc & Ho & Hi & _ & _ & Hv & Ha).
    exists s, c. split; [exact Hr|]. split; [exact Hc|]. exists io, ii. split; [exact Ho|]. split; [exact Hi|].
    split; [destruct (HasServerHello ii); [exact Hv|exact I]|exact Ha]. }
  split; [|split].
  - destruct (H (take 4 demo_talk)) as (s & c & Hr & Hc & io & ii & Ho & Hi & _ & Ha);
      [vm_compute; reflexivity..|vm_compute; congruence|].
    exists s, c. split; [exact Hr|]. split; [exact Hc|]. rewrite (Ha _ eq_refl).
    vm_compute in Ho, Hi. injection Ho as <-. injection Hi as <-. vm_compute. reflexivity.
  - destruct (H demo_talk) as (s & c & Hr & Hc & io & ii & Ho & Hi & Hv & Ha);
      [vm_compute; reflexivity..|vm_compute; congruence|].
    exists s, c. split; [exact Hr|]. split; [exact Hc|]. rewrite (Ha _ eq_refl).
    vm_compute in Ho, Hi. injection Ho as <-. injection Hi as <-.
    split; [apply Hv; discriminate|]. vm_compute. reflexivity.
  - destruct (H demo_talk13) as (s & c & Hr & Hc & io & ii & Ho & Hi & Hv & Ha);
      [vm_compute; reflexivity..|vm_compute; congruence|].
    exists s, c. split; [exact Hr|]. split; [exact Hc|]. rewrite (Ha _ eq_refl).
    vm_compute in Ho, Hi. injection Ho as <-. injection Hi as <-.
    split; [apply Hv; discriminate|]. vm_compute. reflexivity.
Defined.

(** Of a client that is not answered, one parse of the bytes sent says it all, however
    they were cut. *)
Lemma handshake_reassembled `{X509, GrowthOk, MapRangeOk} mh pb sock ops :
  let es := ops ≫= fun ko => wires sock ko.2 in
  let b := concat es.*2 in
  Forall (fun ko => op_ok ko.2 /\ stays_open sock ko.2) ops -> Forall (fun e => inbound e = false) es ->
  zlen b <= maxWireBuf -> es <> [] ->
  exists s c, run ops (New mh pb) = Ok s /\ conns s !! sock = Some c
    /\ cn_wireOut c = b /\ Parse b Info_zero = Ok (cn_Info c) /\ cn_Closed c = false.
Proof.
  cbn zeta. intros Ho Hout Hlen Hne.
  destruct (knows_run sock ops [] (New mh pb)) as (s & Hr & [K1 K2] & Hb);
    [apply New_wf|done|constructor|apply knows_new|]. rewrite app_nil_l in *.
  set (es := ops ≫= _) in *. destruct (K2 Hne) as [c Hc]. destruct (K1 c Hc) as [C1 _ C3 C4].
  assert (side false es = es.*2 /\ side true es = []) as [Hsf Hst].
  { clear - Hout. induction Hout as [|e es He _ [IH1 IH2]]; [done|].
    rewrite !(side_app _ [e] es), !side_one, He, IH1, IH2. done. }
  assert (grown es false = concat es.*2) as Hg by (rewrite grown_concat; by rewrite Hsf).
  assert (grown es true = []) as Hgt by (unfold grown; by rewrite Hst).
  exists s, c. split_and!; try done; [congruence|]. rewrite C4.
  - unfold last_pass. destruct (last es) as [e|] eqn:El; [|by apply last_None in El].
    assert (inbound e = false) as ->.
    { rewrite Forall_forall in Hout. apply Hout. by apply last_Some_elem_of. }
    unfold two_pass. cbn [negb]. rewrite Hg, Hgt, buffer_writes_nil. apply Parse_writes.
    rewrite <- Hg. by apply grown_byte.
  - right. rewrite Hgt, buffer_writes_nil. apply not_elem_of_nil.
Qed.

(** ** Chunks that come too late *)

(** C24: a late chunk leaves a connection behind.  A wire chunk that reaches the store
    when its connection has been retired makes a new one.  As long as no later snapshot
    lists that socket as closed - the kernel may give its address to another socket -
    nothing removes it or marks it closed: not its absence from every snapshot, not a
    session's end, not a poll, not any other event; and as long as no snapshot lists the
    socket at all, it has no endpoint either. *)
Theorem late_chunk_stays `{X509, GrowthOk, MapRangeOk} k w ops s :
  store_wf s -> op_ok (OpWire (Some w)) -> w_Data w <> [] -> conns s !! w_Sock w = None ->
  Forall (fun ko => op_ok ko.2 /\ stays_open (w_Sock w) ko.2) ops ->
  exists s' c, run ((k, OpWire (Some w)) :: ops) s = Ok s' /\ conns s' !! w_Sock w = Some c
    /\ cn_Closed c = false
    /\ (Forall (fun ko => unlisted (w_Sock w) ko.2) ops -> HasEndpoint c = false).
Proof.
  intros Hs Ho Hd Hc Hos.
  destruct (knows_run (w_Sock w) ((k, OpWire (Some w)) :: ops) [] s Hs) as (s' & E & [K1 K2] & _);
    [by constructor|done|split; [by rewrite Hc|done]|]. cbn [app] in *.
  destruct K2 as [c' Hc']. { rewrite bind_cons. cbn [wires snd]. by rewrite decide_True. }
  exists s', c'. split_and!; try done; [by apply (K1 c' Hc')|]. intros Hun.
  destruct (do_op_wf k (OpWire (Some w)) s Hs Ho) as (s1 & E1 & Hs1).
  cbn [run] in E. rewrite E1 in E. cbn [do_op go_bind] in *.
  assert (exists c1, conns s1 !! w_Sock w = Some c1 /\ cn_Closed c1 = false /\ HasEndpoint c1 = false) as (c1 & Hc1 & Hcl & He).
  { cbn [ApplyWire] in E1. destruct (Z.eqb_spec (zlen (w_Data w)) 0) as [E0|]; [by apply zlen_nil_inv in E0|].
    rewrite Hc in E1. apply go_bind_inv in E1 as (c1 & Hc1 & [= <-]). exists c1.
    unfold wire_conn in Hc1. apply go_bind_inv in Hc1 as (i & _ & [= <-]).
    cbn [conns set_conns]. by rewrite lookup_insert_eq. }
  assert (Forall (fun ko => op_ok ko.2 /\ unlisted (w_Sock w) ko.2) ops) as Hos'.
  { apply Forall_and. split; [|done]. by apply Forall_and in Hos as [? _]. }
  destruct (unlisted_run (w_Sock w) ops s1 c1 Hs1 Hos' Hc1 Hcl) as (s2 & c2 & E2 & Hc2 & Hv & Hcl').
  rewrite E in E2. injection E2 as <-. rewrite Hc' in Hc2. injection Hc2 as <-. unfold HasEndpoint in *.
  rewrite (f_equal (fun x => x.1.1.1.2) Hv : cn_Remote c' = cn_Remote c1). exact He.
Qed.

(** Socket 7 closes, is gone from the next snapshot and retired; then its last chunk comes. *)
Lemma late_chunk_stays_witness :
  let s := UpdateFlows (demo_call 2) [] (UpdateFlows (demo_call 1) [demo_flow 7 100 true] (New 3 8)) in
  length (history s) = 1%nat /\
  exists s' c, run [(demo_call 3, demo_wire 2 [21; 3; 3]); (demo_call 4, OpFlows [demo_flow 8 100 false]);
      (demo_call 5, OpClose (Some demo_close)); (demo_call 6, OpFlows []); (demo_call 7, OpStats [])] s = Ok s'
    /\ conns s' !! 7 = Some c /\ HasEndpoint c = false.
Proof.
  cbn zeta. set (s := UpdateFlows _ _ _). split; [vm_compute; reflexivity|].
  assert (store_wf s) as Hs by (by do 2 apply UpdateFlows_wf; apply New_wf).
  destruct (late_chunk_stays (demo_call 3) (mkWireEvent 2 7 [21; 3; 3])
    [(demo_call 4, OpFlows [demo_flow 8 100 false]); (demo_call 5, OpClose (Some demo_close));
     (demo_call 6, OpFlows []); (demo_call 7, OpStats [])] s Hs) as (s' & c & E & Hc & _ & He).
  - split; [apply (bool_decide_unpack _); exact I|done].
  - discriminate.
  - vm_compute. reflexivity.
  - apply (bool_decide_unpack _). vm_compute. exact I.
  - exists s', c. split_and!; [exact E|exact Hc|apply He; by repeat constructor].
Defined.

(** ** Attribution *)

Definition demo_store : Store :=
  UpdateFlows (demo_call 1) [demo_flow 7 100 false; demo_flow 8 200 false] (New 3 8).
Definition demo_stats : list SSLStat :=
  [mkSSLStat 55 12 34 100 (-1); mkSSLStat 56 5 6 200 (-1); mkSSLStat 57 1 1 100 (-1)].

(** C20: an attribution has grounds.  When [resolve] returns a connection, the
    connection is live and was cached for the (pid, fd), or has the remote endpoint
    /proc reports for it, or is the only connection of the pid; and when it returns
    none, no cached connection is live, no connection has the reported endpoint, and
    the pid does not own exactly one.  The order of the map iterations only matters
    between connections with the same remote endpoint. *)
Theorem resolve_grounds `{MapRangeOk} k i pid fd s :
  let '(s', r) := resolve k i pid fd s in
  (exists m, s' = set_pidfd m s)
  /\ match r with
     | Some sock => exists c, conns s !! sock = Some c /\ grounds k i pid fd s sock c
     | None => unresolved k i pid fd s
     end.
Proof.
  destruct (resolve k i pid fd s) as [s' r] eqn:E.
  split; [by eapply resolve_same|by eapply resolve_spec].
Qed.

Lemma resolve_grounds_witness :
  (resolve (demo_call 2) 0 100 (-1) demo_store).2 = Some 7
  /\ exists c, conns demo_store !! 7 = Some c /\ grounds (demo_call 2) 0 100 (-1) demo_store 7 c.
Proof.
  pose proof (resolve_grounds (demo_call 2) 0 100 (-1) demo_store) as H.
  destruct (resolve (demo_call 2) 0 100 (-1) demo_store) as [s' r] eqn:E.
  vm_compute in E. injection E as <- <-. split; [reflexivity|]. exact (proj2 H).
Defined.

(** Plaintext totals.  After a poll of the session statistics, a connection's
    totals are the sums over the statistics charged to it - on top of its old totals
    when SSL_free had finalized them - modulo 2^64. *)
Theorem stats_totals `{MapRange} k sts s sock c :
  conns s !! sock = Some c -> in_width 64 (cn_PtxBytes c) -> in_width 64 (cn_PrxBytes c) ->
  let rs := charges k O sts (set_conns (zero_plain <$> conns s) s) in
  let base b := if cn_plainFinal c then b else 0 in
  exists c', conns (UpdateSSLStats k sts s) !! sock = Some c'
    /\ cn_PtxBytes c' = wrap 64 (base (cn_PtxBytes c) + charged st_Ptx sock sts rs)
    /\ cn_PrxBytes c' = wrap 64 (base (cn_PrxBytes c) + charged st_Prx sock sts rs).
Proof. apply UpdateSSLStats_totals. Qed.

Lemma stats_totals_witness :
  exists c', conns (UpdateSSLStats (demo_call 2) demo_stats demo_store) !! 7 = Some c'
    /\ cn_PtxBytes c' = 13 /\ cn_PrxBytes c' = 35.
Proof.
  destruct (stats_totals (demo_call 2) demo_stats demo_store 7
    (update_conn 1 (demo_flow 7 100 false) (new_conn 7 1))) as (c' & Hc & H1 & H2).
  - vm_compute. reflexivity.
  - vm_compute. split; congruence.
  - vm_compute. split; congruence.
  - exists c'. split; [exact Hc|]. rewrite H1, H2. split; vm_compute; reflexivity.
Defined.

(** C21: the owner's totals, and what SSL_free does not protect.  Where the sessions'
    descriptors are unknown and a pid owns exactly one connection, every poll gives that
    connection the sum of the pid's sessions - and if its totals were final, it adds
    that sum to them, poll after poll, as long as another session of the pid lives. *)
Theorem stats_by_owner `{MapRangeOk} k sts s sock c pid :
  conns s !! sock = Some c -> in_width 64 (cn_PtxBytes c) -> in_width 64 (cn_PrxBytes c) ->
  sole pid sock (conns s) -> Forall (fun st => st_Fd st < 0) sts ->
  exists c', conns (UpdateSSLStats k sts s) !! sock = Some c'
    /\ cn_PtxBytes c' = wrap 64 ((if cn_plainFinal c then cn_PtxBytes c else 0) + sum_pid st_Ptx pid sts)
    /\ cn_PrxBytes c' = wrap 64 ((if cn_plainFinal c then cn_PrxBytes c else 0) + sum_pid st_Prx pid sts).
Proof.
  intros Hc Hp Hr Hs Hf. destruct (UpdateSSLStats_totals k sts s sock c Hc Hp Hr) as (c' & Hc' & E1 & E2).
  exists c'. split; [exact Hc'|]. rewrite E1, E2.
  split; do 2 f_equal; (eapply charged_sole; [apply zero_plain_ident|exact Hs|exact Hf]).
Qed.

(** Final totals 12/34; each poll of the pid's other session adds its 1/1. *)
Lemma stats_by_owner_witness :
  let s1 := ApplyClose (demo_call 2) (Some demo_close) demo_store in
  let poll := UpdateSSLStats (demo_call 3) [mkSSLStat 57 1 1 100 (-1)] in
  cn_PtxBytes <$> conns s1 !! 7 = Some 12
  /\ exists c', conns (poll (poll s1)) !! 7 = Some c' /\ cn_PtxBytes c' = 14.
Proof.
  cbn zeta. set (s1 := ApplyClose _ _ _). split; [vm_compute; reflexivity|].
  set (s2 := UpdateSSLStats (demo_call 3) [mkSSLStat 57 1 1 100 (-1)] s1).
  destruct (conns s2 !! 7) as [c|] eqn:E; [|vm_compute in E; discriminate].
  destruct (stats_by_owner (demo_call 3) [mkSSLStat 57 1 1 100 (-1)] s2 7 c 100) as (c' & Hc' & Hp & _).
  - exact E.
  - vm_compute in E. injection E as <-. vm_compute. split; congruence.
  - vm_compute in E. injection E as <-. vm_compute. split; congruence.
  - apply (sole_of_pid_spec []). vm_compute. reflexivity.
  - by repeat constructor.
  - exists c'. split; [exact Hc'|]. rewrite Hp. vm_compute in E. injection E as <-. vm_compute. reflexivity.
Defined.

(** What a close event leaves on the connection it is charged to: the session's totals,
    marked final, and its cached plaintext. *)
Definition final_view (e : CloseEvent) (s : Store) (c : Conn) :=
  plain_view (set_plain (c_Ptx e) (c_Prx e) true (join_sample s (c_SSL e) c)).

(** C22: final totals survive.  ApplyClose gives the connection it resolves to exactly
    the session's final totals and its cached heads and tail slices; whatever the store
    is told afterwards - snapshots that give the socket another owner, further chunks,
    ends and polls of any session of any process, its own included - the connection
    keeps them as long as it is live, provided no end and no poll is itself charged to
    it; and if a snapshot retires it, it enters the history with them. *)
Theorem final_totals_survive `{X509, GrowthOk, MapRangeOk} k e s sock c ops s' :
  store_wf s -> conns s !! sock = Some c -> (resolve k O (c_Pid e) (c_Fd e) s).2 = Some sock ->
  Forall (fun ko => op_ok ko.2) ops -> spared sock ops (ApplyClose k (Some e) s) ->
  run ((k, OpClose (Some e)) :: ops) s = Ok s' ->
  settled sock (final_view e s c) s'
  \/ exists ops1 k' fs ops2 s1, ops = ops1 ++ (k', OpFlows fs) :: ops2
       /\ run ((k, OpClose (Some e)) :: ops1) s = Ok s1 /\ retires sock (final_view e s c) k' fs s1.
Proof.
  intros Hs Hc Hr Ho Hsp E. cbn [run do_op go_bind] in *. destruct (ApplyClose_spec k e s) as (_ & _ & _ & Hcl).
  rewrite Hr in Hcl. destruct Hcl as (c1 & Hc1 & Hcs). rewrite Hc in Hc1. injection Hc1 as <-.
  apply (settled_run sock (final_view e s c) ops (ApplyClose k (Some e) s)); try done.
  - by apply ApplyClose_wf.
  - eexists. rewrite Hcs, lookup_insert_eq. by split.
Qed.

(** 12 and 34 bytes stay while sessions are polled: one of another process, and one of the
    same process when that has a second connection, so that it is nobody's. *)
Definition demo_after : list (call * op) :=
  [(demo_call 3, OpFlows [demo_flow 7 100 false; demo_flow 8 200 false; demo_flow 9 100 false]);
   (demo_call 4, OpStats [mkSSLStat 56 5 6 200 (-1); mkSSLStat 57 1 1 100 (-1)])].

Lemma final_totals_survive_witness :
  exists s', run ((demo_call 2, OpClose (Some demo_close)) :: demo_after) demo_store = Ok s'
    /\ exists v, settled 7 v s' /\ v.1 = (12, 34, true).
Proof.
  destruct (run ((demo_call 2, OpClose (Some demo_close)) :: demo_after) demo_store) as [s'| |] eqn:E;
    [|vm_compute in E; discriminate..].
  destruct (final_totals_survive (demo_call 2) demo_close demo_store 7
    (update_conn 1 (demo_flow 7 100 false) (new_conn 7 1)) demo_after s')
    as [Hset|(ops1 & k' & fs & ops2 & s1 & E1 & Hr1 & Hret & _)].
  - apply UpdateFlows_wf, New_wf.
  - vm_compute. reflexivity.
  - vm_compute. reflexivity.
  - by repeat constructor.
  - cbn [spared demo_after do_op]. split; [|split; [|exact I]]; apply (bool_decide_unpack _); vm_compute; exact I.
  - exact E.
  - exists s'. split; [reflexivity|]. eexists. split; [exact Hset|]. vm_compute. reflexivity.
  - exfalso. destruct ops1 as [|? [|? [|? ?]]]; try discriminate. injection E1 as <- <- _.
    injection Hr1 as <-. vm_compute in Hret. discriminate.
Defined.

(** C23: the plaintext window.  For each session and direction, as long as the session
    lives, the head is the first non-empty chunk and the tail reads as the last
    [peekBytes] bytes of everything captured - although the tail is appended to in
    place, in arrays of whatever capacity the runtime chose, interleaved with other
    sessions and with every other operation. *)
Theorem plaintext_window `{X509, GrowthOk, MapRangeOk} mh pb ops s p :
  Forall (fun ko => op_ok ko.2 /\ keeps p.1 ko.2) ops -> run ops (New mh pb) = Ok s -> 0 <= pb ->
  view (arrays s) (stail s p) = last_z pb (ops ≫= fun ko => plain p ko.2)
  /\ shead s p = fold_left first_chunk (map (fun ko => plain p ko.2) ops) [].
Proof.
  intros Ho Hr Hpb. destruct (run_plain ops (New mh pb) s p (New_wf mh pb) Ho Hr) as (-> & -> & _).
  unfold stail, shead. cbn [plainBySSL peekBytes New]. rewrite lookup_empty. cbn [view app].
  by destruct (Z.ltb_spec pb 0); [lia|].
Qed.

Lemma plaintext_window_witness :
  exists s, run [(demo_call 1, OpData (Some (demo_data 65))); (demo_call 2, OpData (Some (demo_data 66)))]
      (New 3 8) = Ok s
    /\ view (arrays s) (stail s (55, true)) = [65; 65; 66; 66; 66; 66; 66; 66]
    /\ shead s (55, true) = replicate 6 65.
Proof.
  eexists. split; [reflexivity|].
  match goal with |- view (arrays ?s) _ = _ /\ _ =>
    destruct (plaintext_window 3 8 [(demo_call 1, OpData (Some (demo_data 65)));
      (demo_call 2, OpData (Some (demo_data 66)))] s (55, true)) as [-> ->] end.
  - by repeat constructor.
  - reflexivity.
  - lia.
  - split; vm_compute; reflexivity.
Defined.

(** A snapshot is not stable.  The connections a snapshot returns share their tail
    arrays with the live samples: a later sample event of the session changes what an
    earlier snapshot reads, here from AAAA to AABB, without the store touching the
    connection.  (The next poll joins the tail anew; the copy on screen in between, and
    the entries of the history, are overwritten in place.) *)
Theorem snapshot_not_stable :
  exists s c c0, let late := mkDataEvent 1 100 101 (-1) 55 [66; 66] in
    Snapshot 0 s = [c] /\ s = UpdateSSLStats (demo_call 3) [mkSSLStat 55 1 1 100 (-1)]
      (ApplyData (Some (demo_data 65)) (UpdateFlows (demo_call 1) [demo_flow 7 100 false] (New 3 4)))
    /\ conns (ApplyData (Some late) s) !! 7 = Some c0 /\ c0 = c
    /\ view (arrays s) (cn_TailOut c) = [65; 65; 65; 65]
    /\ view (arrays (ApplyData (Some late) s)) (cn_TailOut c) = [65; 65; 66; 66].
Proof.
  eexists _, _, _. split; [|split; [reflexivity|]].
  - vm_compute. reflexivity.
  - split_and!; vm_compute; reflexivity.
Qed.

(** ** /proc *)

Definition demo_row (inode : string) (port : Z) : row :=
  mkRow [(0, "0:"); (0, "0100007F:9C40")]%nat 0 [16777343; 0; 0; 0] false port
    [(0, "01"); (0, "00000000:00000000"); (0, "00:00000000"); (0, "00000000"); (2, "1000"); (5, "0")]%nat
    inode [(0, "1")]%nat 3.

Definition procfs_of (links : Z -> Z -> option string) (tcp tcp6 : list row) : ProcFS := {|
  readlink_fd := links;
  file_lines path :=
    if String.eqb path "/proc/net/tcp" then Some ("sl local_address"%string :: (print_row <$> tcp))
    else Some ("sl local_address"%string :: (print_row <$> tcp6)) |}.

(** C25: finding a descriptor's peer.  When /proc/<pid>/fd/<fd> links to a socket inode
    and the kernel's tables, printed in their format, list it, procPeer returns the
    remote endpoint of the inode's row - the very AddrPort the store computes for a flow
    with the same address words and port, so that the comparison in [resolve] is exact. *)
Theorem procPeer_table links tcp tcp6 pid fd inode r :
  links pid fd = Some (socket_link inode) -> Forall row_ok (tcp ++ tcp6) ->
  find_row inode (tcp ++ tcp6) = Some r ->
  let fs := procfs_of links tcp tcp6 in
  procPeer pid fd = Some (AddrPortFrom (ipFrom (r_addr r) (r_v6 r)) (r_port r)).
Proof.
  intros Hl Hr Hf. cbn zeta. apply Forall_app in Hr as [H4 H6]. unfold procPeer.
  cbn [readlink_fd procfs_of]. rewrite Hl. cbn [mbind option_bind].
  destruct (socket_link_inode inode) as [-> ->].
  rewrite (scanNetTCP_rows "/proc/net/tcp" "sl local_address" tcp) by done.
  rewrite (scanNetTCP_rows "/proc/net/tcp6" "sl local_address" tcp6) by done.
  rewrite find_row_app in Hf. destruct (find_row inode tcp) as [r'|] eqn:E; cbn.
  - by injection Hf as ->.
  - by rewrite Hf.
Qed.

Lemma procPeer_table_witness :
  let fs := procfs_of (fun _ _ => Some (socket_link "4242")) [demo_row "17" 80; demo_row "4242" 443] [] in
  procPeer 100 5 = Some (AddrPortFrom (AddrFrom4 [127; 0; 0; 1]) 443).
Proof.
  apply (procPeer_table (fun _ _ => Some (socket_link "4242")) [demo_row "17" 80; demo_row "4242" 443] []
    100 5 "4242" (demo_row "4242" 443)).
  - reflexivity.
  - repeat constructor; cbn; try done; try (vm_compute; congruence).
  - reflexivity.
Defined.
