(* ===== verification/System.v ===== *)
(** main.go: the program running.

    Besides the kernel side two goroutines run: the reader takes records off the ring
    and applies them to the store, the poller copies the two maps into the store and
    deletes closed flows.  A [world] is the kernel side, the store and where each
    goroutine stands; an [action] is one step of one of the three, and any
    interleaving of actions is a run.  The iteration over a map is not atomic: every
    entry is read by an action of its own, in an order and number the kernel chooses. *)
From S2P Require Import Prelude Abi Bpf BpfInv Loader LoaderProps TlsParse Slices Proc Store StoreInv.

(** ** State *)

(** The event reader. *)
Inductive ev_reader : Type :=
| RdWait                        (* in l.ReadEvent() *)
| RdGot (r : event_ptrs)        (* before the switch *)
| RdEnd.                        (* returned *)

(** The map poller. *)
Inductive poller : Type :=
| PlWait                             (* for the ticker *)
| PlFlows (it : list (Z * flow))     (* in l.Flows(): the entries read so far *)
| PlUpdate (fs : list Flow)          (* before store.UpdateFlows(flows) *)
| PlDelete (fs : list Flow)          (* what is left of the loop over flows *)
| PlStats (it : list (Z * ssl_stat)) (* in l.SSLStats() *)
| PlTotals (sts : list SSLStat)      (* before store.UpdateSSLStats(stats) *).

Record world := World { kern : bpf; store : Store; rd : ev_reader; pl : poller }.

Definition set_kern (x : bpf) (w : world) : world := World x (store w) (rd w) (pl w).
Definition set_pl (x : poller) (w : world) : world := World (kern w) (store w) (rd w) x.

Definition world_init (history peekBytes : Z) : world :=
  World bpf_init (New history peekBytes) RdWait PlWait.

(** ** Steps *)

Inductive action (K : Type) : Type :=
| AFire (e : env K) (p : probe)      (* a program fires *)
| ARead                              (* ReadEvent returns the oldest record *)
| AReadErr                           (* ReadEvent returns an error *)
| AApply (k : call)                  (* the switch *)
| ATick                              (* the ticker fires *)
| AFlow (sk : Z)                     (* the iterator yields the entry of sk *)
| AFlowsEnd (err : bool)             (* l.Flows() returns *)
| AUpdate (k : call)                 (* store.UpdateFlows(flows) *)
| ADelete                            (* one turn of the deletion loop, or its end *)
| AStat (ssl : Z)
| AStatsEnd (err : bool)
| ATotals (k : call).
Arguments AFire {K}.
Arguments ARead {K}.
Arguments AReadErr {K}.
Arguments AApply {K}.
Arguments ATick {K}.
Arguments AFlow {K}.
Arguments AFlowsEnd {K}.
Arguments AUpdate {K}.
Arguments ADelete {K}.
Arguments AStat {K}.
Arguments AStatsEnd {K}.
Arguments ATotals {K}.

Section Step.
Context {K : Type} `{KernelView K, X509, Growth, MapRange}.

(** The switch of the reader. *)
Definition dispatch (k : call) (r : event_ptrs) (s : Store) : go Store :=
  match r with
  | (Some w, _, _) => ApplyWire k (Some w) s
  | (None, Some d, _) => Ok (ApplyData (Some d) s)
  | (None, None, Some c) => Ok (ApplyClose k (Some c) s)
  | (None, None, None) => Ok s
  end.

(** [Ok None]: the action is not enabled. *)
Definition read_next (w : world) : go (option world) :=
  match rd w, events (kern w) with
  | RdWait, ev :: evs =>
      do! r <- ReadEvent (event_bytes ev);
      Ok (Some (World (set_events evs (kern w)) (store w) (RdGot r) (pl w)))
  | _, _ => Ok None
  end.

Definition apply_next (k : call) (w : world) : go (option world) :=
  match rd w with
  | RdGot r => do! s <- dispatch k r (store w); Ok (Some (World (kern w) s RdWait (pl w)))
  | _ => Ok None
  end.

(** One step of the poller. *)
Definition poll (a : action K) (w : world) : option world :=
  match a, pl w with
  | ATick, PlWait => Some (set_pl (PlFlows []) w)
  | AFlow sk, PlFlows it =>
      f ← flows (kern w) !! sk; Some (set_pl (PlFlows (it ++ [(sk, f)])) w)
  | AFlowsEnd err, PlFlows it => Some (set_pl (if err then PlStats [] else PlUpdate (Flows it)) w)
  | AUpdate k, PlUpdate fs => Some (World (kern w) (UpdateFlows k fs (store w)) (rd w) (PlDelete fs))
  | ADelete, PlDelete (f :: fs) =>
      Some (World (if fl_Closed f then DeleteFlow (fl_Sock f) (kern w) else kern w)
              (store w) (rd w) (PlDelete fs))
  | ADelete, PlDelete [] => Some (set_pl (PlStats []) w)
  | AStat ssl, PlStats it =>
      st ← ssl_stats (kern w) !! ssl; Some (set_pl (PlStats (it ++ [(ssl, st)])) w)
  | AStatsEnd err, PlStats it => Some (set_pl (if err then PlWait else PlTotals (SSLStats it)) w)
  | ATotals k, PlTotals sts => Some (World (kern w) (UpdateSSLStats k sts (store w)) (rd w) PlWait)
  | _, _ => None
  end.

Definition act (a : action K) (w : world) : go (option world) :=
  match a with
  | AFire e p => Ok (Some (set_kern (fire e p (kern w)) w))
  | ARead => read_next w
  | AReadErr =>
      match rd w with
      | RdWait => Ok (Some (World (kern w) (store w) RdEnd (pl w)))
      | _ => Ok None
      end
  | AApply k => apply_next k w
  | _ => Ok (poll a w)
  end.

Fixpoint acts (l : list (action K)) (w : world) : go (option world) :=
  match l with
  | [] => Ok (Some w)
  | a :: l => do! r <- act a w; match r with Some w => acts l w | None => Ok None end
  end.
End Step.

(** ** The invariant *)

Definition action_ok {K} (a : action K) : Prop :=
  match a with AFire e p => env_ok e /\ probe_ok p | _ => True end.

(** What the reader holds as an operation of the store. *)
Definition op_of (r : event_ptrs) : op :=
  match r with
  | (Some w, _, _) => OpWire (Some w)
  | (None, Some d, _) => OpData (Some d)
  | (None, None, Some c) => OpClose (Some c)
  | (None, None, None) => OpData None
  end.

Lemma dispatch_op `{X509, Growth, MapRange} k r s : dispatch k r s = do_op k (op_of r) s.
Proof. by destruct r as [[[w|] [d|]] [c|]]. Qed.

Record sys_wf (w : world) : Prop := {
  sy_kern : bpf_wf (kern w);
  sy_store : store_wf (store w);
  sy_rd : match rd w with RdGot r => op_ok (op_of r) | _ => True end }.

Lemma event_view_op ev : event_wf ev -> op_ok (op_of (event_view ev)).
Proof.
  destruct ev as [e|e|e]; cbn; [|done..].
  intros (_ & _ & Hl & _ & _ & Hb). split; [by apply Forall_take|].
  unfold WIRE_CAP in Hl. unfold ztake, zlen. rewrite length_take. lia.
Qed.

Section Inv.
Context {K : Type} `{KernelViewOk K, X509, GrowthOk, MapRangeOk}.

Lemma set_events_tail_wf ev evs s :
  events s = ev :: evs -> bpf_wf s -> bpf_wf (set_events evs s) /\ event_wf ev.
Proof.
  intros E Hs. destruct (Hs) as [He ? ? ? ? ? ?]. rewrite E in He.
  apply Forall_cons in He as [? ?]. split; [by split|done].
Qed.

Lemma poll_wf a w w' : sys_wf w -> poll (K := K) a w = Some w' -> sys_wf w'.
Proof.
  intros [Hk Hs Hr] E. unfold poll in E.
  destruct a, (pl w) as [|it|fs|[|f fs]|it|sts]; try done.
  - injection E as <-. by split.
  - apply bind_Some in E as (f & _ & [= <-]). by split.
  - injection E as <-. by split.
  - injection E as <-. split; [done| |done]. by apply UpdateFlows_wf.
  - injection E as <-. by split.
  - injection E as <-. split; [|done..]. cbn [kern]. destruct (fl_Closed f); [|done].
    by apply set_flows_delete_wf.
  - apply bind_Some in E as (f & _ & [= <-]). by split.
  - injection E as <-. by split.
  - injection E as <-. split; [done| |done]. by apply UpdateSSLStats_wf.
Qed.

Lemma act_wf a w :
  sys_wf w -> action_ok a ->
  exists r, act (K := K) a w = Ok r /\ forall w', r = Some w' -> sys_wf w'.
Proof.
  intros Hw Ha.
  assert (forall a, exists r, Ok (poll (K := K) a w) = Ok r /\ forall w', r = Some w' -> sys_wf w') as Hp.
  { intros a0. eexists. split; [done|]. intros w'. by apply poll_wf. }
  destruct (Hw) as [Hk Hs Hr]. destruct a; try apply Hp; cbn [act].
  - eexists. split; [done|]. intros w' [= <-]. split; cbn; [|done..]. destruct Ha. by apply fire_wf.
  - unfold read_next. destruct (rd w); try (by eexists). destruct (events (kern w)) as [|ev evs] eqn:E;
      [by eexists|]. destruct (set_events_tail_wf _ _ _ E Hk) as [Hk' Hev].
    rewrite ReadEvent_event by done. cbn [go_bind]. eexists. split; [done|]. intros w' [= <-].
    split; cbn; [done..|]. by apply event_view_op.
  - destruct (rd w); eexists; (split; [done|]); [|done..]. intros w' [= <-]. by split.
  - unfold apply_next. destruct (rd w) as [|r|]; try (by eexists). rewrite dispatch_op.
    destruct (do_op_wf k (op_of r) (store w) Hs Hr) as (s' & -> & Hs'). cbn [go_bind].
    eexists. split; [done|]. intros w' [= <-]. by split.
Qed.

Lemma acts_wf l w :
  sys_wf w -> Forall action_ok l ->
  exists r, acts (K := K) l w = Ok r /\ forall w', r = Some w' -> sys_wf w'.
Proof.
  intros Hw Hl. revert w Hw. induction Hl as [|a l Ha _ IH]; intros w Hw; cbn [acts].
  - eexists. split; [done|]. by intros w' [= <-].
  - destruct (act_wf a w Hw Ha) as (r & -> & Hr). cbn [go_bind]. destruct r as [w1|]; [|by eexists].
    apply IH. by apply Hr.
Qed.

Lemma world_init_wf mh pb : sys_wf (world_init mh pb).
Proof. split; cbn; [apply bpf_init_wf|apply New_wf|done]. Qed.
End Inv.
