(* ===== verification/SystemTrace.v ===== *)
(** Following one socket's handshake through the whole program.

    [carries sk no ni es0 es w] says that the kernel has captured the chunks [es] of
    [sk], both directions in the order they happened, and where they are: the first
    ones [es0] in the store, then those in the reader's hands, then those still in the
    ring.  Every action of every party preserves it. *)
From S2P Require Import Prelude Abi Bpf BpfInv BpfFrame BpfTrace BpfDuplex Loader TlsParse TlsSpec TlsEquiv TlsReparse TlsDuplex Slices Proc Store StoreInv StoreFacts StoreDuplex System.

(** ** The kernel side *)

(** [sk] has an open flow that captured [no] outbound and [ni] inbound chunks. *)
Definition open_flow (sk no ni : Z) (s : bpf) : Prop :=
  exists f, flows s !! sk = Some f /\ gate_view f = (no, ni, 0).

(** ** The whole *)

(** The poller holds no report of [sk] being closed. *)
Definition poller_open (sk : Z) (p : poller) : Prop :=
  match p with
  | PlFlows it => Forall (fun kv => kv.1 = sk -> f_closed kv.2 = 0) it
  | PlUpdate fs | PlDelete fs => Forall (fun f => fl_Sock f = sk -> fl_Closed f = false) fs
  | _ => True
  end.

(** The chunks of [sk] the reader holds, and those in the ring. *)
Definition held (sk : Z) (r : ev_reader) : list wchunk :=
  match r with RdGot r => wires sk (op_of r) | _ => [] end.
Definition in_ring (sk : Z) (s : bpf) : list wchunk := wire_stream sk (events s).

(** [es0] has reached the store. *)
Record carries `{X509} (sk no ni : Z) (es0 es : list wchunk) (w : world) : Prop := {
  ca_kern : open_flow sk no ni (kern w);
  ca_pl : poller_open sk (pl w);
  ca_store : knows sk es0 (store w);
  ca_bytes : Forall (fun e => Forall is_byte e.2) es;
  ca_items : es = es0 ++ held sk (rd w) ++ in_ring sk (kern w) }.

(** A record of the ring as the store will see it. *)
Lemma event_view_wires sk ev :
  event_wf ev -> wires sk (op_of (event_view ev)) = option_list (wire_item sk ev).
Proof.
  destruct ev as [e|e|e]; cbn; [|done..]. intros (_ & _ & Hl & _ & Hz & _).
  assert (ztake (we_len e) (we_data e) <> [] <-> 0 < we_len e) as Hne.
  { rewrite <- (nonempty_zlen (ztake _ _)), zlen_ztake by (unfold WIRE_CAP in *; lia). done. }
  destruct (Z.eqb_spec (we_sk e) sk), (Z.ltb_spec 0 (we_len e)); cbn;
    [rewrite decide_True by tauto; done|rewrite decide_False; [done|]..];
    intros [? Hn%Hne]; done || lia.
Qed.

Lemma in_ring_cons sk ev evs s :
  events s = ev :: evs -> in_ring sk s = option_list (wire_item sk ev) ++ in_ring sk (set_events evs s).
Proof.
  intros E. unfold in_ring. rewrite E. unfold wire_stream, omap. cbn [list_omap events set_events].
  by destruct (wire_item sk ev).
Qed.

Lemma Flows_open sk it :
  Forall (fun kv => kv.1 = sk -> f_closed kv.2 = 0) it ->
  Forall (fun f => fl_Sock f = sk -> fl_Closed f = false) (Flows it).
Proof.
  intros Hit. unfold Flows. apply Forall_map. eapply Forall_impl; [exact Hit|].
  intros [k f] Hc Hk. cbn in *. by rewrite Hc.
Qed.

Section Carry.
Context {K : Type} `{KernelViewOk K, X509, GrowthOk, MapRangeOk}.
Implicit Types (w : world) (es : list wchunk).

Lemma carries_read sk no ni es0 es w w' :
  sys_wf w -> carries sk no ni es0 es w -> read_next w = Ok (Some w') -> carries sk no ni es0 es w'.
Proof.
  intros Hw [Hk Hp Hs Hb Hi] E. unfold read_next in E.
  destruct (rd w) eqn:Er; try done. destruct (events (kern w)) as [|ev evs] eqn:Ee; [done|].
  destruct (set_events_tail_wf ev evs (kern w) Ee (sy_kern _ Hw)) as [_ Hev].
  rewrite LoaderProps.ReadEvent_event in E by done. injection E as <-.
  split; cbn [kern rd pl store]; try done.
  rewrite Hi, (in_ring_cons sk ev evs) by done. cbn [held]. by rewrite event_view_wires.
Qed.

Lemma carries_apply sk no ni es0 es k w w' :
  sys_wf w -> carries sk no ni es0 es w -> apply_next k w = Ok (Some w') ->
  carries sk no ni (es0 ++ held sk (rd w)) es w' /\ kern w' = kern w /\ rd w' = RdWait.
Proof.
  intros [_ Hsw Hrw] [Hk Hp Hs Hb Hi] E. unfold apply_next in E.
  destruct (rd w) as [|r|]; try done. cbn [held] in *.
  apply go_bind_inv in E as (s & Es & [= <-]). rewrite dispatch_op in Es. split; [|done].
  split; cbn [kern rd pl store held]; try done; [|by rewrite Hi, app_assoc].
  rewrite Hi, !Forall_app in Hb.
  apply (knows_step sk es0 k (op_of r) (store w) s); try done; [|by destruct Hb].
  by destruct r as [[[?|] [?|]] [?|]].
Qed.

Lemma carries_poll sk no ni es0 es a w w' :
  sys_wf w -> carries sk no ni es0 es w -> poll (K := K) a w = Some w' -> carries sk no ni es0 es w'.
Proof.
  intros Hw [Hk Hp Hs Hb Hi] E. unfold poll in E.
  destruct a, (pl w) as [|it|fs|[|f fs]|it|sts] eqn:Epl; try done; cbn [poller_open] in Hp.
  - injection E as <-. split; try done. constructor.
  - apply bind_Some in E as (f & Hf & [= <-]). split; try done. cbn.
    apply Forall_app_2; [done|]. constructor; [|constructor]. cbn. intros ->.
    destruct Hk as (f' & Hf' & Hg). injection Hg as _ _ Hcl. congruence.
  - injection E as <-. split; try done. cbn. destruct err; [done|]. by apply Flows_open.
  - injection E as <-. split; try done. cbn [store]. apply knows_flows; [apply Hw|exact Hp|exact Hs].
  - injection E as <-. by split.
  - injection E as <-. apply Forall_cons in Hp as [Hf Hp].
    assert (in_ring sk (if fl_Closed f then DeleteFlow (fl_Sock f) (kern w) else kern w) = in_ring sk (kern w)) as Ee
      by (by destruct (fl_Closed f)).
    split; cbn [kern rd pl store]; try done; [|by rewrite Ee].
    destruct Hk as (g & Hg & Hrest). exists g. split; [|done]. destruct (fl_Closed f) eqn:Ecl; [|done]. cbn.
    rewrite lookup_delete_ne; [done|]. intros E. by specialize (Hf E).
  - apply bind_Some in E as (f & Hf & [= <-]). by split.
  - injection E as <-. split; try done. by destruct err.
  - injection E as <-. split; try done. cbn. eapply knows_view; [|exact Hs]. apply UpdateSSLStats_view.
Qed.

(** ** Runs in which a socket exchanges chunks *)

(** An action that moves no bytes of [sk] and does not close it. *)
Definition calm (sk : Z) (a : action K) w : Prop :=
  match a with AFire e p => touches sk e p (kern w) = None /\ keeps_open sk p | _ => True end.

Lemma carries_calm sk no ni es0 es a w w' :
  sys_wf w -> carries sk no ni es0 es w -> calm sk a w ->
  act a w = Ok (Some w') -> exists es0', carries sk no ni es0' es w'.
Proof.
  intros Hw Hc Ha E.
  assert (forall a, Ok (poll (K := K) a w) = Ok (Some w') -> exists es0', carries sk no ni es0' es w') as Hpoll.
  { intros a0 [= E0]. exists es0. by eapply carries_poll. }
  destruct a; cbn [act] in E; try by eapply Hpoll.
  - injection E as <-. exists es0. destruct Hc as [(f & Hf & Hg) Hp Hs Hb Hi]. destruct Ha as [Ht Ho].
    destruct (fire_untouched e p (kern w) sk f Ht Ho Hf) as [(f' & Hf' & Hg') Hev].
    split; try done; cbn [kern rd set_kern]; [exists f'; by rewrite Hg'|]. unfold in_ring. by rewrite Hev.
  - exists es0. by eapply carries_read.
  - exists es0. destruct Hc. destruct (rd w) eqn:Er; try done. injection E as <-. by split.
  - destruct (carries_apply sk no ni es0 es k w w') as [Hc' _]; eauto.
Qed.

(** [session sk w l tr w']: the run [l] from [w] to [w'], in which [sk] exchanges the
    chunks [tr], each readable by the program that captures it. *)
Inductive session (sk : Z) : world -> list (action K) -> list wchunk -> world -> Prop :=
| session_nil w : session sk w [] [] w
| session_chunk e p dir buf c w l tr w' :
    touches sk e p (kern w) = Some (dir, buf, zlen c) -> readable e buf c -> Forall is_byte c ->
    session sk (set_kern (fire e p (kern w)) w) l tr w' ->
    session sk w (AFire e p :: l) ((dir, c) :: tr) w'
| session_calm a w w1 l tr w' :
    calm sk a w -> act a w = Ok (Some w1) -> session sk w1 l tr w' -> session sk w (a :: l) tr w'.

Lemma session_acts sk w l tr w' : session sk w l tr w' -> acts l w = Ok (Some w').
Proof.
  induction 1 as [w|e p dir buf c w l tr w' _ _ _ _ IH|a w w1 l tr w' _ Ha _ IH]; cbn [acts]; [done|done|].
  by rewrite Ha.
Qed.

Lemma session_dirs sk w l tr w' :
  session sk w l tr w' -> Forall (fun it => it.1 = DIR_OUT \/ it.1 = DIR_IN) tr.
Proof.
  induction 1 as [|e p dir buf c w l tr w' Ht _ _ _ IH|]; [constructor| |done].
  constructor; [|done]. by apply fire_touched_eq in Ht as [Hd _].
Qed.

(** The gate decides what arrives. *)
Lemma session_carries sk w l tr w' no ni es0 es :
  session sk w l tr w' -> sys_wf w -> Forall action_ok l -> carries sk no ni es0 es w ->
  0 <= no <= MAX_WIRE_EVENTS -> 0 <= ni <= MAX_WIRE_EVENTS ->
  sys_wf w' /\ exists no' ni' es0', carries sk no' ni' es0' (es ++ captured_both no ni tr) w'.
Proof.
  intros Hl. revert no ni es0 es.
  induction Hl as [w|e p dir buf c w l tr w' Ht Hr Hcb Hl IH|a w w1 l tr w' Ha E Hl IH];
    intros no ni es0 es Hw Hok Hc Hno Hni.
  - split; [done|]. exists no, ni, es0. cbn. by rewrite app_nil_r.
  - apply Forall_cons in Hok as [Ho Hok].
    destruct (act_wf (AFire e p) w Hw Ho) as (r & [= <-] & Hw1). specialize (Hw1 _ eq_refl).
    destruct Hc as [(f & Hf & Hg) Hp Hs Hb Hi].
    destruct (fire_touched e p (kern w) sk f dir buf c Ht Hr Hf) as (f' & Hf' & Hcap).
    { rewrite Hg. unfold gate_cnt. by destruct (dir =? DIR_OUT). }
    rewrite Hg in Hcap. cbn zeta in Hcap.
    change (gate_cnt dir (no, ni, 0)) with (if dir =? DIR_OUT then no else ni) in Hcap.
    cbn [captured_both]. destruct ((1 <=? zlen c) && _ && _) eqn:G; destruct Hcap as [Hg' Hev].
    + apply andb_prop in G as [[_ G%Z.ltb_lt]%andb_prop _]. unfold gate_incr in Hg'. cbn [fst snd] in Hg'.
      assert (forall no' ni', gate_view f' = (no', ni', 0) ->
        carries sk no' ni' es0 (es ++ [(dir, ztake (WIRE_CAP - 1) c)]) (set_kern (fire e p (kern w)) w)) as Hc1.
      { intros no' ni' Hgv. split; cbn [kern rd pl store set_kern]; try done; [by exists f'| |].
        - apply Forall_app_2; [done|]. constructor; [by apply Forall_take|constructor].
        - unfold in_ring. rewrite Hev, Hi. unfold in_ring. by rewrite <- !app_assoc. }
      destruct (dir =? DIR_OUT) eqn:Ed.
      * specialize (IH (no + 1) ni es0 _ Hw1 Hok (Hc1 _ _ Hg') ltac:(lia) Hni). by rewrite <- app_assoc in IH.
      * specialize (IH no (ni + 1) es0 _ Hw1 Hok (Hc1 _ _ Hg') Hno ltac:(lia)). by rewrite <- app_assoc in IH.
    + apply (IH no ni es0 es Hw1 Hok); try done. split; cbn [kern rd pl store set_kern]; try done; [by exists f'|].
      unfold in_ring. by rewrite Hev.
  - apply Forall_cons in Hok as [Ho Hok].
    destruct (act_wf a w Hw Ho) as (r & Er & Hw1). rewrite E in Er. injection Er as <-.
    destruct (carries_calm sk no ni es0 es a w w1 Hw Hc Ha E) as [es1 Hc1].
    by apply (IH no ni es1 es (Hw1 w1 eq_refl) Hok).
Qed.
End Carry.

(** ** The reader catching up *)

(** Apply what the reader holds, then read and apply what is in the ring. *)
Definition catch_up {K} (k : call) (w : world) : list (action K) :=
  match rd w with RdGot _ => [AApply k] | _ => [] end
  ++ concat (replicate (length (events (kern w))) [ARead; AApply k]).

Section Catch.
Context {K : Type} `{KernelViewOk K, X509, GrowthOk, MapRangeOk}.
Implicit Types (w : world).

Lemma acts_app (l1 l2 : list (action K)) w w' :
  acts l1 w = Ok (Some w') -> acts (l1 ++ l2) w = acts l2 w'.
Proof.
  revert w. induction l1 as [|a l1 IH]; intros w; cbn [acts app]; [by intros [= ->]|].
  destruct (act a w) as [[w1|]| |]; cbn [go_bind]; try done. apply IH.
Qed.

Lemma apply_enabled k r w :
  sys_wf w -> rd w = RdGot r -> exists w', apply_next k w = Ok (Some w') /\ sys_wf w'.
Proof.
  intros Hw Er. destruct (act_wf (AApply k : action K) w Hw I) as (o & Eo & Hw').
  cbn [act] in Eo. unfold apply_next in *. rewrite Er in *.
  apply go_bind_inv in Eo as (s & Es & [= <-]). rewrite Es. cbn [go_bind].
  eexists. split; [done|]. by apply Hw'.
Qed.

Lemma read_enabled w ev evs :
  sys_wf w -> rd w = RdWait -> events (kern w) = ev :: evs ->
  exists w' r, read_next w = Ok (Some w') /\ sys_wf w' /\ rd w' = RdGot r /\ events (kern w') = evs.
Proof.
  intros Hw Er Ee. destruct (act_wf (ARead : action K) w Hw I) as (o & Eo & Hw').
  cbn [act] in Eo. unfold read_next in *. rewrite Er, Ee in *.
  apply go_bind_inv in Eo as (r & Es & [= <-]). rewrite Es. cbn [go_bind].
  do 2 eexists. split; [done|]. split; [by apply Hw'|done].
Qed.

Lemma drain_carries sk no ni es0 es k w :
  sys_wf w -> carries sk no ni es0 es w -> rd w = RdWait ->
  exists w', acts (concat (replicate (length (events (kern w))) [ARead : action K; AApply k])) w = Ok (Some w')
    /\ (exists es0', carries sk no ni es0' es w') /\ events (kern w') = [] /\ rd w' = RdWait.
Proof.
  intros Hw Hc Er. remember (events (kern w)) as evs eqn:Ee. symmetry in Ee.
  revert es0 w Hw Hc Er Ee. induction evs as [|ev evs IH]; intros es0 w Hw Hc Er Ee.
  { exists w. eauto. }
  destruct (read_enabled w ev evs Hw Er Ee) as (w1 & r & E1 & Hw1 & Er1 & Ee1).
  pose proof (carries_read sk no ni es0 es w w1 Hw Hc E1) as Hc1.
  destruct (apply_enabled k r w1 Hw1 Er1) as (w2 & E2 & Hw2).
  destruct (carries_apply sk no ni es0 es k w1 w2 Hw1 Hc1 E2) as (Hc2 & Ek2 & Er2).
  destruct (IH _ w2 Hw2 Hc2 Er2) as (w' & E' & Hrest); [by rewrite Ek2|].
  exists w'. split; [|exact Hrest]. cbn [length replicate concat app acts act].
  rewrite E1. cbn [go_bind]. rewrite E2. exact E'.
Qed.

Lemma catch_up_carries sk no ni es0 es k w :
  sys_wf w -> carries sk no ni es0 es w -> rd w <> RdEnd ->
  exists w', acts (catch_up k w : list (action K)) w = Ok (Some w') /\ carries sk no ni es es w'.
Proof.
  intros Hw Hc Hrd.
  assert (exists w1 es1, acts (match rd w with RdGot _ => [AApply k : action K] | _ => [] end) w = Ok (Some w1)
    /\ sys_wf w1 /\ carries sk no ni es1 es w1 /\ rd w1 = RdWait /\ kern w1 = kern w)
    as (w1 & es1 & E1 & Hw1 & Hc1 & Er1 & Ek1).
  { destruct (rd w) as [|r|] eqn:Er; [by exists w, es0| |done].
    destruct (apply_enabled k r w Hw Er) as (w1 & E1 & Hw1).
    destruct (carries_apply sk no ni es0 es k w w1 Hw Hc E1) as (Hc1 & Ek & Er1).
    exists w1. eexists. split; [|by split_and!]. cbn [acts act]. by rewrite E1. }
  destruct (drain_carries sk no ni es1 es k w1 Hw1 Hc1 Er1) as (w' & E' & [es0' Hc'] & Ee & Er).
  rewrite Ek1 in E'. exists w'. split; [unfold catch_up; by erewrite acts_app|].
  assert (es0' = es) as <-; [|exact Hc']. destruct Hc' as [_ _ _ _ Hi].
  rewrite Hi at 1. unfold in_ring. rewrite Ee, Er. cbn. by rewrite app_nil_r.
Qed.
End Catch.

(** ** A connection about to shake hands *)

(** The flow of [sk] is open and none of its traffic has been captured. *)
Definition fresh `{X509} (sk : Z) (w : world) : Prop :=
  open_flow sk 0 0 (kern w) /\ in_ring sk (kern w) = [] /\ held sk (rd w) = []
  /\ poller_open sk (pl w) /\ knows sk [] (store w).

Lemma fresh_carries `{X509} sk w : fresh sk w -> carries sk 0 0 [] [] w.
Proof. intros (Hk & He & Hr & Hp & Hs). split; try done. by rewrite He, Hr. Qed.

(** A session from a fresh connection, all of it. *)
Lemma session_fresh {K} `{KernelViewOk K, X509, GrowthOk, MapRangeOk} sk (w : world) (l : list (action K)) tr w' :
  sys_wf w -> fresh sk w -> session sk w l tr w' -> Forall action_ok l ->
  sys_wf w' /\ exists no ni es0, carries sk no ni es0 (captured_both 0 0 tr) w'.
Proof.
  intros Hw Hf Hl Hok.
  apply (session_carries sk w l tr w' 0 0 [] [] Hl Hw Hok); [by apply fresh_carries|done|done].
Qed.

(** The two ways of telling directions apart agree on captured chunks. *)
Lemma side_toward tr inn :
  Forall (fun it => it.1 = DIR_OUT \/ it.1 = DIR_IN) tr -> side inn tr = toward (negb inn) tr.
Proof.
  induction 1 as [|it tr Hd _ IH]; [done|].
  rewrite (side_app _ [it] tr), side_one, toward_cons, IH. unfold inbound.
  by destruct Hd as [-> | ->], inn.
Qed.

(** A direction within the budget fits its buffer. *)
Lemma fits_gate_size n cs : 0 <= n -> fits_gate n cs -> zlen (concat cs) <= maxWireBuf.
Proof.
  intros Hn (Hcs & Hl & _). assert (zlen (concat cs) <= 1023 * zlen cs) as Hle.
  { clear Hl. induction Hcs as [|c cs Hc _ IH]; [done|]. cbn [concat]. rewrite zlen_app, zlen_cons. lia. }
  unfold maxWireBuf. lia.
Qed.

(** Once the reader has caught up the connection holds everything captured. *)
Lemma session_caught_up {K} `{KernelViewOk K, X509, GrowthOk, MapRangeOk} sk (w : world) (l : list (action K)) tr w1 k :
  sys_wf w -> fresh sk w -> session sk w l tr w1 -> Forall action_ok l ->
  fits_gate 0 (toward true tr) -> fits_gate 0 (toward false tr) -> tr <> [] -> rd w1 <> RdEnd ->
  exists w2 c, acts (catch_up k w1 : list (action K)) w1 = Ok (Some w2) /\ conns (store w2) !! sk = Some c
    /\ holds tr c /\ grown tr false = concat (toward true tr) /\ grown tr true = concat (toward false tr)
    /\ Forall (fun e => Forall is_byte e.2) tr.
Proof.
  intros Hw Hf Hl Hok Ho Hi Hne Hrd.
  destruct (session_fresh sk w l tr w1 Hw Hf Hl Hok) as (Hw1 & no & ni & es0 & Hc).
  rewrite captured_both_whole in Hc by done.
  destruct (catch_up_carries (K := K) sk no ni es0 tr k w1 Hw1 Hc Hrd) as (w2 & E2 & [_ _ [K1 K2] Hb _]).
  destruct (K2 Hne) as [c Ec]. pose proof (session_dirs _ _ _ _ _ Hl) as Hd.
  pose proof (fits_gate_size 0 _ ltac:(done) Ho). pose proof (fits_gate_size 0 _ ltac:(done) Hi).
  exists w2, c. rewrite !grown_concat; rewrite !side_toward by done; [|done..].
  split_and!; try done. by apply K1.
Qed.
