(* ===== verification/SystemFlows.v ===== *)
(** The byte counters, from the kernel's flow entry to the connection shown. *)
From S2P Require Import Prelude Abi Bpf BpfInv BpfFrame BpfTrace BpfDuplex Loader TlsParse Slices Proc Store StoreInv StoreFacts System SystemTrace.

(** ** Sums over a run *)

Section Sums.
Context {K : Type} `{KernelViewOk K, X509, GrowthOk, MapRangeOk}.
Implicit Types (w : world) (a : action K) (l : list (action K)).

(** What the actions of a run contribute, each in the world it happens in. *)
Fixpoint acts_sum (g : action K -> world -> Z) l w : Z :=
  match l with
  | [] => 0
  | a :: l => g a w + match act a w with Ok (Some w1) => acts_sum g l w1 | _ => 0 end
  end.

(** The bytes an action sends or completes receiving on [sk]. *)
Definition act_sent (sk : Z) a w : Z := match a with AFire _ p => sent sk p | _ => 0 end.
Definition act_received (sk : Z) a w : Z := match a with AFire e p => received sk e p (kern w) | _ => 0 end.

(** The action does not close [sk]. *)
Definition stays (sk : Z) a : Prop := match a with AFire _ p => keeps_open sk p | _ => True end.

(** [sk] has the open entry [f], and the poller has no report of its end. *)
Definition live_flow (sk : Z) (f : flow) w : Prop :=
  flows (kern w) !! sk = Some f /\ counters_ok f /\ f_closed f = 0 /\ poller_open sk (pl w).

Lemma poll_live sk f a w w' : poll a w = Some w' -> live_flow sk f w -> live_flow sk f w'.
Proof.
  intros E (Hf & Hc & Hcl & Hp). unfold poll in E.
  destruct a, (pl w) as [|it|fs|[|f0 fs]|it|sts] eqn:Epl; try done; cbn [poller_open] in Hp.
  - injection E as <-. repeat split; try done; try apply Hc. constructor.
  - apply bind_Some in E as (f1 & Hf1 & [= <-]). repeat split; try done; try apply Hc. cbn.
    apply Forall_app_2; [done|]. constructor; [|constructor]. cbn. congruence.
  - injection E as <-. repeat split; try done; try apply Hc. cbn. destruct err; [done|]. by apply Flows_open.
  - injection E as <-. repeat split; try done; apply Hc.
  - injection E as <-. by repeat split; try apply Hc.
  - injection E as <-. apply Forall_cons in Hp as [Hf0 Hp]. repeat split; try done; try apply Hc. cbn [kern].
    destruct (fl_Closed f0) eqn:Ecl; [|done]. cbn.
    rewrite lookup_delete_ne; [done|]. intros E. by specialize (Hf0 E).
  - apply bind_Some in E as (f1 & Hf1 & [= <-]). by repeat split; try apply Hc.
  - injection E as <-. repeat split; try done; try apply Hc. by destruct err.
  - injection E as <-. by repeat split; try apply Hc.
Qed.

Lemma act_live sk f a w w' :
  act a w = Ok (Some w') -> stays sk a -> live_flow sk f w ->
  exists f', live_flow sk f' w' /\ flow_evolves (act_sent sk a w) (act_received sk a w) f f'.
Proof.
  intros E Hs Hl. pose proof Hl as (Hf & Hc & Hcl & Hp).
  assert (forall w'', kern w'' = kern w -> pl w'' = pl w ->
    exists f', live_flow sk f' w'' /\ flow_evolves 0 0 f f') as Hsame.
  { intros w'' Ek Ep. exists f. unfold live_flow. rewrite Ek, Ep. auto using flow_evolves_refl. }
  assert (forall a, Ok (poll (K := K) a w) = Ok (Some w') ->
    exists f', live_flow sk f' w' /\ flow_evolves 0 0 f f') as Hpoll.
  { intros a0 [= E0]. exists f. eauto using poll_live, flow_evolves_refl. }
  destruct a; cbn [act act_sent act_received] in *; try by eapply Hpoll.
  - injection E as <-. destruct (fire_flow e p (kern w) sk f Hc Hf) as (f1 & Hf1 & Hev).
    destruct (fire_open e p (kern w) sk f Hs Hf) as (f2 & Hf2 & Hcl2).
    rewrite Hf1 in Hf2. injection Hf2 as <-. exists f1. split; [|done].
    unfold live_flow. cbn.
    split_and!; try done; [by eapply flow_evolves_counters|congruence].
  - unfold read_next in E. destruct (rd w); try done. destruct (events (kern w)) as [|ev evs]; [done|].
    apply go_bind_inv in E as (r & _ & [= <-]). exists f. split; [|by apply flow_evolves_refl]. done.
  - destruct (rd w); try done. injection E as <-. by apply Hsame.
  - unfold apply_next in E. destruct (rd w); try done. apply go_bind_inv in E as (s & _ & [= <-]). by apply Hsame.
Qed.

Lemma acts_live sk l f w w' :
  acts l w = Ok (Some w') -> Forall (stays sk) l -> live_flow sk f w ->
  exists f', live_flow sk f' w' /\ flow_evolves (acts_sum (act_sent sk) l w) (acts_sum (act_received sk) l w) f f'.
Proof.
  revert f w. induction l as [|a l IH]; intros f w E Hl Hf; cbn [acts acts_sum] in *.
  - injection E as <-. exists f. split; [done|]. apply flow_evolves_refl, Hf.
  - apply Forall_cons in Hl as [Ha Hl]. apply go_bind_inv in E as ([w1|] & E1 & E); [|done]. rewrite E1.
    destruct (act_live sk f a w w1 E1 Ha Hf) as (f1 & Hf1 & Hev1).
    destruct (IH f1 w1 E Hl Hf1) as (f' & Hf' & Hev'). exists f'. split; [done|]. by eapply flow_evolves_trans.
Qed.

(** ** From the entry to the connection *)

(** The rest of an iteration in which [sk] does not come up again. *)
Definition rest_of_iteration (sk : Z) a : Prop :=
  match a with
  | AFlow sk' => sk' <> sk
  | AFlowsEnd err => err = false
  | AUpdate _ => False
  | _ => True
  end.

(** [f] is the last entry of [sk] the poller has read. *)
Definition last_read (sk : Z) (f : flow) (p : poller) : Prop :=
  match p with
  | PlFlows it => exists pre post, it = pre ++ (sk, f) :: post /\ Forall (fun kv => kv.1 <> sk) post
  | PlUpdate fs => exists pre post, fs = pre ++ flow_of sk f :: post /\ Forall (fun g => fl_Sock g <> sk) post
  | _ => False
  end.

Lemma act_pl a w w' : act (K := K) a w = Ok (Some w') -> pl w' = pl w \/ poll a w = Some w'.
Proof.
  destruct a; cbn [act]; try (by intros [= E]; right).
  - intros [= <-]. by left.
  - unfold read_next. destruct (rd w); try done. destruct (events (kern w)) as [|ev evs]; [done|].
    intros (r & _ & [= <-])%go_bind_inv. by left.
  - destruct (rd w); try done. intros [= <-]. by left.
  - unfold apply_next. destruct (rd w); try done. intros (s & _ & [= <-])%go_bind_inv. by left.
Qed.

Lemma act_last_read sk f a w w' :
  act a w = Ok (Some w') -> rest_of_iteration sk a -> last_read sk f (pl w) -> last_read sk f (pl w').
Proof.
  intros [->|E]%act_pl Ha Hp; [done|]. unfold poll in E.
  destruct a, (pl w) as [|it|fs|[|f0 fs]|it|sts] eqn:Epl; try done; cbn [last_read rest_of_iteration] in *.
  - apply bind_Some in E as (f1 & _ & [= <-]). cbn. destruct Hp as (x & y & -> & Hy).
    exists x, (y ++ [(sk0, f1)]). rewrite <- app_assoc. split; [done|]. apply Forall_app_2; [done|by repeat constructor].
  - subst err. injection E as <-. cbn. destruct Hp as (x & y & -> & Hy).
    exists (Flows x), (Flows y). unfold Flows. rewrite map_app. split; [done|]. apply Forall_map.
    eapply Forall_impl; [exact Hy|]. by intros [].
Qed.

Lemma acts_last_read sk f l w w' :
  acts l w = Ok (Some w') -> Forall (rest_of_iteration sk) l -> last_read sk f (pl w) -> last_read sk f (pl w').
Proof.
  revert w. induction l as [|a l IH]; intros w E Hl Hp; cbn [acts] in E; [by injection E as <-|].
  apply Forall_cons in Hl as [Ha Hl]. apply go_bind_inv in E as ([w1|] & E1 & E); [|done].
  eapply IH; [exact E|done|]. by eapply act_last_read.
Qed.

(** Several entries of a socket: the last one counts. *)
Lemma updated_last t sk (a : list Flow) f b c :
  fl_Sock f = sk -> Forall (fun g => fl_Sock g <> sk) b ->
  exists c0, updated t sk (a ++ f :: b) c = update_conn t f c0.
Proof.
  intros Hf Hb. unfold updated, of_sock. rewrite filter_app, filter_cons, decide_True by done.
  assert (filter (fun g => fl_Sock g = sk) b = []) as ->.
  { clear - Hb. induction Hb as [|g b Hg _ IH]; [done|]. by rewrite filter_cons, decide_False. }
  rewrite fold_left_app. cbn [fold_left]. by eexists.
Qed.

Lemma update_shown sk f k w w' :
  sys_wf w -> last_read sk f (pl w) -> act (AUpdate k : action K) w = Ok (Some w') ->
  exists c c0, conns (store w') !! sk = Some c /\ c = update_conn (now k) (flow_of sk f) c0.
Proof.
  intros Hw Hp [= E]. unfold poll in E. destruct (pl w) as [|it|fs|fs|it|sts] eqn:Epl; try done. injection E as <-.
  destruct Hp as (a & b & -> & Hb). destruct (sy_store _ Hw) as [_ _ Hh _ _ _ _]. pose proof (zlen_nonneg (history (store w))).
  destruct (UpdateFlows_spec k (a ++ flow_of sk f :: b) (store w) ltac:(lia) Hh) as [Hc _]. specialize (Hc sk).
  assert (seen_in (a ++ flow_of sk f :: b) sk = true) as Es.
  { unfold seen_in. rewrite existsb_app. cbn. by rewrite Z.eqb_refl, orb_true_r. }
  rewrite Es in Hc. cbn [store]. rewrite Hc. eexists. 
  destruct (updated_last (now k) sk a (flow_of sk f) b (conns (store w) !! sk) eq_refl Hb) as [c0 E].
  exists c0. split; [done|exact E].
Qed.
End Sums.
