(* ===== verification/SystemTypes.v ===== *)
(** Every value keeps its type: the integers of the store's connections are within the
    widths their Go types declare, in every reachable state of the whole program.

    The widths come from the kernel's records and map entries (BpfInv), through the
    decoder and the snapshots, into the connection table. *)
From S2P Require Import Prelude Abi Bpf BpfInv BpfFrame BpfDuplex Loader LoaderProps TlsParse TlsSpec TlsEquiv TlsTypes Slices Proc Store StoreInv StoreFacts StorePlain System.

(** ** Typed values *)

(** [netip.Addr]: four or sixteen bytes, or the zero value. *)
Definition addr_typed (a : Addr) : Prop :=
  match a with
  | AddrZero => True
  | AddrFrom4 b => length b = 4%nat /\ Forall is_byte b
  | AddrFrom16 b => length b = 16%nat /\ Forall is_byte b
  end.
Definition endpoint_typed (a : AddrPort) : Prop := addr_typed (ap_addr a) /\ in_width 16 (ap_port a).

Record conn_typed (c : Conn) : Prop := {
  ct_ids : in_width 64 (cn_Sock c) /\ in_width 32 (cn_Pid c) /\ in_width 8 (cn_Direction c);
  ct_ends : endpoint_typed (cn_Local c) /\ endpoint_typed (cn_Remote c);
  ct_bytes : in_width 64 (cn_TxBytes c) /\ in_width 64 (cn_RxBytes c);
  ct_plain : in_width 64 (cn_PtxBytes c) /\ in_width 64 (cn_PrxBytes c);
  ct_info : info_typed (cn_Info c);
  ct_wires : Forall is_byte (cn_wireOut c) /\ Forall is_byte (cn_wireIn c);
  ct_heads : Forall is_byte (cn_HeadOut c) /\ Forall is_byte (cn_HeadIn c) }.

Definition sample_typed (smp : sample) : Prop := Forall is_byte (headOut smp) /\ Forall is_byte (headIn smp).

Record store_typed (s : Store) : Prop := {
  st_conns : map_Forall (fun k c => in_width 64 k /\ conn_typed c) (conns s);
  st_history : Forall conn_typed (history s);
  st_samples : map_Forall (fun _ smp => sample_typed smp) (plainBySSL s) }.

(** What the decoder and the snapshots deliver. *)
Record flow_typed (f : Flow) : Prop := {
  ft_ids : in_width 64 (fl_Sock f) /\ in_width 32 (fl_Pid f) /\ in_width 8 (fl_Direction f);
  ft_addrs : Forall (in_width 32) (fl_Saddr f) /\ length (fl_Saddr f) = 4%nat
             /\ Forall (in_width 32) (fl_Daddr f) /\ length (fl_Daddr f) = 4%nat;
  ft_ports : in_width 16 (fl_Sport f) /\ in_width 16 (fl_Dport f);
  ft_bytes : in_width 64 (fl_Tx f) /\ in_width 64 (fl_Rx f) }.

(** The three events, field by field: [uint8], [uint32], [int32], [uint64] and bytes. *)
Record wire_typed (w : WireEvent) : Prop := {
  wt_ids : in_width 8 (w_Dir w) /\ in_width 64 (w_Sock w);
  wt_data : Forall is_byte (w_Data w) }.

Record data_typed (d : DataEvent) : Prop := {
  dt_dir : in_width 8 (d_Dir d);
  dt_ids : in_width 32 (d_Pid d) /\ in_width 32 (d_Tid d) /\ in_s32 (d_Fd d) /\ in_width 64 (d_SSL d);
  dt_data : Forall is_byte (d_Data d) }.

Record close_typed (e : CloseEvent) : Prop := {
  et_ids : in_width 32 (c_Pid e) /\ in_s32 (c_Fd e) /\ in_width 64 (c_SSL e);
  et_bytes : in_width 64 (c_Ptx e) /\ in_width 64 (c_Prx e) }.

Definition op_typed (o : op) : Prop :=
  match o with
  | OpFlows fs => Forall flow_typed fs
  | OpWire (Some w) => wire_typed w
  | OpData (Some d) => data_typed d
  | OpClose (Some e) => close_typed e
  | _ => True
  end.

(** ** The store's operations *)

Lemma le_bytes_length n z : length (le_bytes n z) = n.
Proof. pose proof (zlen_le_bytes n z) as Hl. unfold zlen in Hl. lia. Qed.

Lemma ipFrom_typed a v6 : length a = 4%nat -> addr_typed (ipFrom a v6).
Proof.
  intros Hl. unfold ipFrom. destruct v6; cbn.
  - split; [|apply Forall_bind, Forall_true; intros x; exact (le_bytes_is_byte 4 x)].
    by destruct a as [|a0 [|a1 [|a2 [|a3 [|]]]]].
  - split; [done|exact (le_bytes_is_byte 4 _)].
Qed.

Lemma new_conn_typed sock t : in_width 64 sock -> conn_typed (new_conn sock t).
Proof.
  intros Hs. split; cbn; try apply Info_zero_typed; try (by split; apply Forall_nil_2);
    split_and!; try split; cbn; try done; unfold in_width in *; lia.
Qed.

Lemma update_conn_typed t f c : flow_typed f -> conn_typed c -> conn_typed (update_conn t f c).
Proof.
  intros [(? & ? & ?) (? & ? & ? & ?) [? ?] ?] [(? & ? & ?) ? ? ? ? ? ?]. split; cbn; try done.
  - split_and!; [done..|]. by destruct (negb _).
  - split; (split; [by apply ipFrom_typed|done]).
Qed.

Lemma retired_typed t c : conn_typed c -> conn_typed (retired t c).
Proof. intros []. split; cbn; try done. Qed.

Lemma join_sample_typed s ssl c : store_typed s -> conn_typed c -> conn_typed (join_sample s ssl c).
Proof.
  intros [_ _ Hs] Hc. unfold join_sample. destruct (plainBySSL s !! ssl) as [smp|] eqn:E; [|done].
  destruct Hc, (Hs _ _ E). by split.
Qed.

Lemma set_plain_typed a b fin c : in_width 64 a -> in_width 64 b -> conn_typed c -> conn_typed (set_plain a b fin c).
Proof. intros ? ? []. by split. Qed.

Lemma last_z_Forall {A} (P : A -> Prop) n l : Forall P l -> Forall P (last_z n l).
Proof. apply Forall_drop. Qed.

Lemma UpdateFlows_typed `{MapRangeOk} k fs s :
  store_wf s -> Forall flow_typed fs -> store_typed s -> store_typed (UpdateFlows k fs s).
Proof.
  intros Hw Hf [Hc Hh Hs]. pose proof (sw_hist _ Hw) as Hl. pose proof (zlen_nonneg (history s)).
  destruct (UpdateFlows_spec k fs s ltac:(lia) Hl) as (U1 & l & _ & Hin & U2).
  split.
  - intros sock c E. rewrite U1 in E. destruct (seen_in fs sock) eqn:Es.
    + assert (in_width 64 sock) as Hsk.
      { unfold seen_in in Es. apply existsb_exists in Es as (f & Hin' & <-%Z.eqb_eq).
        rewrite Forall_forall in Hf. by apply Hf, list_elem_of_In. }
      split; [done|]. injection E as <-. unfold updated.
      assert (Forall flow_typed (of_sock sock fs)) as Hfs.
      { apply Forall_forall. intros f [_ Hi]%list_elem_of_filter. rewrite Forall_forall in Hf. auto. }
      assert (conn_typed (default (new_conn sock (now k)) (conns s !! sock))) as Hd.
      { destruct (conns s !! sock) as [c|] eqn:Ec; [by apply (Hc _ _ Ec)|by apply new_conn_typed]. }
      revert Hd. generalize (default (new_conn sock (now k)) (conns s !! sock)).
      induction Hfs as [|f fs' Hf1 _ IH]; intros c0 Hd; [done|]. cbn. apply IH. by apply update_conn_typed.
    + destruct (conns s !! sock) as [c'|] eqn:Ec; [|done]. destruct (cn_Closed c'); [done|]. injection E as <-.
      by apply (Hc _ _ Ec).
  - rewrite U2. apply last_z_Forall, Forall_app_2; [done|]. apply Forall_map, Forall_forall.
    intros [sock c] (E & _)%Hin. apply retired_typed. by apply (Hc _ _ E).
  - rewrite UpdateFlows_loop. by rewrite (proj1 (retire_loop_samples _ _ _ _)).
Qed.

Lemma wire_conn_typed `{X509} dir data c c' :
  Forall is_byte data -> conn_typed c -> wire_conn dir data c = Ok c' -> conn_typed c'.
Proof.
  intros Hd [Hids Hends Hbytes Hplain Hinfo [Ho Hi] Hheads] E. unfold wire_conn in E.
  assert (forall b, Forall is_byte b -> Forall is_byte (grow_wire b data)) as Hg.
  { intros b Hb. unfold grow_wire. destruct (_ <? _); [by apply Forall_app_2|done]. }
  destruct (dir =? 2); rewrite Parse_writes in E by auto; injection E as <-; split; cbn; try done;
    first [by apply apply_writes_typed; [apply buffer_writes_typed; auto|]|split; auto].
Qed.

Lemma ApplyWire_typed `{X509} k w s s' :
  op_typed (OpWire w) -> store_typed s -> ApplyWire k w s = Ok s' -> store_typed s'.
Proof.
  intros Hw [Hc Hh Hs] E. destruct w as [w|]; cbn [ApplyWire] in E; [|injection E as <-; by split].
  destruct Hw as [[_ Hsk] Hd]. destruct (_ =? 0); [injection E as <-; by split|].
  apply go_bind_inv in E as (c' & Ec & [= <-]). split; cbn [conns history plainBySSL set_conns]; try done.
  apply map_Forall_insert_2; [|done]. split; [done|]. eapply wire_conn_typed; [exact Hd| |exact Ec].
  destruct (conns s !! w_Sock w) eqn:E; [by apply (Hc _ _ E)|by apply new_conn_typed].
Qed.

Lemma ApplyData_typed `{Growth} d s : op_typed (OpData d) -> store_typed s -> store_typed (ApplyData d s).
Proof.
  intros Hd [Hc Hh Hs]. unfold ApplyData. destruct d as [d|]; [|by split]. destruct (_ =? 0); [by split|].
  apply dt_data in Hd.
  set (smp := match plainBySSL s !! d_SSL d with Some smp => smp | None => sample_zero end).
  assert (sample_typed smp) as [Ho Hi].
  { unfold smp. destruct (plainBySSL s !! d_SSL d) eqn:E; [by apply (Hs _ _ E)|by split; constructor]. }
  destruct (d_Dir d =? 1); destruct (appendTail _ _ _ _); (split; cbn [conns history plainBySSL set_samples]; try done);
    (apply map_Forall_insert_2; [|done]); split; cbn; try done;
    [by destruct (headOut smp)|by destruct (headIn smp)].
Qed.

(** An alteration that keeps connections typed. *)
Lemma alter_typed f k s :
  (forall c, conn_typed c -> conn_typed (f c)) -> store_typed s -> store_typed (set_conns (alter f k (conns s)) s).
Proof.
  intros Hf [Hc Hh Hs]. split; cbn [conns history plainBySSL set_conns]; try done.
  intros i c E. rewrite lookup_alter in E. case_decide; [subst|by apply Hc].
  destruct (conns s !! i) as [c0|] eqn:E0; [|done]. injection E as <-. destruct (Hc _ _ E0). auto.
Qed.

Lemma set_pidfd_typed m s : store_typed s -> store_typed (set_pidfd m s).
Proof. intros []. by split. Qed.

Lemma ApplyClose_typed `{MapRange} k e s :
  op_typed (OpClose e) -> store_typed s -> store_typed (ApplyClose k e s).
Proof.
  intros He Hs. unfold ApplyClose. destruct e as [e|]; [|done]. destruct He as [_ [Hp Hr]].
  destruct (resolve k 0 (c_Pid e) (c_Fd e) s) as [s1 r] eqn:Er. destruct (resolve_same _ _ _ _ _ _ _ Er) as [m ->].
  pose proof (set_pidfd_typed m s Hs) as Hs1.
  assert (forall s2, store_typed s2 -> store_typed (set_samples (delete (c_SSL e) (plainBySSL s2)) (arrays s2) s2)) as Hdel.
  { intros s2 [? ? ?]. split; cbn [conns history plainBySSL set_samples]; try done. by apply map_Forall_delete. }
  apply Hdel. destruct r as [sock|]; [|done]. apply alter_typed; [|done].
  intros c Hc. apply set_plain_typed; [done..|]. by apply join_sample_typed.
Qed.

Lemma fold_stats_typed `{MapRange} k i sts s : store_typed s -> store_typed (fold_stats k i sts s).
Proof.
  revert i s. induction sts as [|st sts IH]; intros i s Hs; [done|]. cbn [fold_stats]. apply IH.
  unfold fold_stat. destruct (resolve k i (st_Pid st) (st_Fd st) s) as [s1 r] eqn:Er.
  destruct (resolve_same _ _ _ _ _ _ _ Er) as [m ->]. pose proof (set_pidfd_typed m s Hs) as Hs1.
  destruct r as [sock|]; [|done]. apply alter_typed; [|done].
  intros c Hc. apply join_sample_typed; [done|]. apply set_plain_typed; [apply wrap_range; lia..|done].
Qed.

Lemma UpdateSSLStats_typed `{MapRange} k sts s : store_typed s -> store_typed (UpdateSSLStats k sts s).
Proof.
  intros [Hc Hh Hs]. unfold UpdateSSLStats. cbn zeta.
  assert (store_typed (set_conns (zero_plain <$> conns s) s)) as H0.
  { split; cbn [conns history plainBySSL set_conns]; try done. intros sock c E. rewrite lookup_fmap in E.
    destruct (conns s !! sock) as [c0|] eqn:E0; [|done]. injection E as <-. destruct (Hc _ _ E0) as [Hk Hc0].
    split; [done|]. unfold zero_plain. destruct (cn_plainFinal c0); [done|]. apply set_plain_typed; [unfold in_width; lia..|done]. }
  destruct (fold_stats_typed k O sts _ H0) as [? ? Hs1].
  split; cbn [conns history plainBySSL set_samples]; try done.
  intros ssl smp [E _]%map_lookup_filter_Some. by apply (Hs1 _ _ E).
Qed.

Lemma do_op_typed `{X509, GrowthOk, MapRangeOk} k o s s' :
  store_wf s -> op_typed o -> store_typed s -> do_op k o s = Ok s' -> store_typed s'.
Proof.
  intros Hw Ho Hs E. destruct o; cbn [do_op] in E; try injection E as <-.
  - by apply UpdateFlows_typed.
  - by eapply ApplyWire_typed.
  - by apply ApplyData_typed.
  - by apply ApplyClose_typed.
  - by apply UpdateSSLStats_typed.
Qed.

(** ** The kernel side and the goroutines *)

(** Flow keys are addresses. *)
Definition keys_ok (s : bpf) : Prop := forall sk, is_Some (flows s !! sk) -> in_width 64 sk.

Section System.
Context {K : Type} `{KernelViewOk K, X509, GrowthOk, MapRangeOk}.
Implicit Types (e : env K) (w : world).

Lemma fire_keys e p s : probe_ok p -> bpf_wf s -> keys_ok s -> keys_ok (fire e p s).
Proof.
  intros Hp Hw Hs.
  assert (forall sk' buf n dir upd s0, in_width 64 sk' -> flows s0 = flows s ->
    keys_ok (count_and_capture e sk' buf n dir upd s0)) as Hcap.
  { intros sk' buf n dir upd s0 Hsk E sk Hin. destruct (decide (sk = sk')) as [->|Hne]; [done|].
    destruct (count_and_capture_frame e sk' buf n dir upd s0) as (Hf & _). rewrite Hf, E in Hin by done. auto. }
  destruct p as [sk' msg size|sk' msg|ret|pr sk' o n|ssl|ssl fd|ssl buf num|ssl buf|ret]; cbn [fire probe_ok] in *; try done.
  - rewrite k_tcp_sendmsg_eq. apply Hcap; [apply Hp|done].
  - rewrite kr_tcp_recvmsg_eq. destruct (recv_ctxs s !! e_pid_tgid e) as [rc|] eqn:E; [|done]. cbn zeta.
    case_match; [done|]. apply Hcap; [by apply (wf_recv _ Hw _ _ E)|done].
  - intros sk Hin. destruct (decide (sk = sk')) as [->|Hne]; [done|]. apply Hs. revert Hin.
    unfold tp_inet_sock_set_state. case_match; [done|]. case_match.
    + set (s1 := match flows s !! sk' with Some _ => s | None => _ end).
      assert (flows s1 !! sk = flows s !! sk) as E1.
      { subst s1. destruct (flows s !! sk'); [done|]. cbn. by rewrite map_update_elem_ne by congruence. }
      destruct (flows s1 !! sk'); [rewrite put_flow_ne by congruence|]; by rewrite E1.
    + case_match; [|done]. destruct (flows s !! sk'); [by rewrite put_flow_ne by congruence|done].
  - by destruct (u_ssl_free_frame e ssl s) as (E & _); unfold keys_ok; rewrite E.
  - unfold u_ssl_write. case_match; [|done].
    by destruct (emit_plaintext_frame e ssl buf num DIR_OUT s) as (E & _); unfold keys_ok; rewrite E.
  - unfold ur_ssl_read. destruct (ssl_ctxs s !! _) as [c|]; [|done]. case_match; [|done].
    by destruct (emit_plaintext_frame e (sc_ssl c) (sc_buf c) ret DIR_IN
      (set_ssl_ctxs (delete (e_pid_tgid e) (ssl_ctxs s)) s)) as (E & _); unfold keys_ok; rewrite E.
Qed.

Definition poller_typed (p : poller) : Prop :=
  match p with
  | PlFlows it => Forall (fun kv => in_width 64 kv.1 /\ flow_wf kv.2) it
  | PlUpdate fs | PlDelete fs => Forall flow_typed fs
  | _ => True
  end.

Record sys_typed (w : world) : Prop := {
  ty_keys : keys_ok (kern w);
  ty_store : store_typed (store w);
  ty_rd : match rd w with RdGot r => op_typed (op_of r) | _ => True end;
  ty_pl : poller_typed (pl w) }.

Lemma flow_of_typed k f : in_width 64 k -> flow_wf f -> flow_typed (flow_of k f).
Proof. unfold flow_wf. intros Hk Hf. split; cbn; tauto. Qed.

Lemma direction_width d : d = DIR_OUT \/ d = DIR_IN -> in_width 8 d.
Proof. by intros [-> | ->]. Qed.

Lemma event_view_typed ev : event_wf ev -> op_typed (op_of (event_view ev)).
Proof.
  destruct ev as [e|e|e]; cbn.
  - intros (_ & Hd & _ & Hsk & _ & Hb). apply direction_width in Hd. split; cbn; [done|by apply Forall_take].
  - intros (_ & Hd & _ & Hp & Ht & Hf & Hs & _ & Hb). apply direction_width in Hd.
    split; cbn; [done..|by apply Forall_take].
  - intros (_ & _ & Hp & Hf & Hs & Ht & Hr). by split.
Qed.

Lemma poll_typed a w w' : sys_wf w -> sys_typed w -> poll (K := K) a w = Some w' -> sys_typed w'.
Proof.
  intros Hw [Hk Hs Hr Hp] E. unfold poll in E.
  destruct a, (pl w) as [|it|fs|[|f fs]|it|sts] eqn:Epl; try done; cbn [poller_typed] in Hp.
  - injection E as <-. split; try done. constructor.
  - apply bind_Some in E as (f & Hf & [= <-]). split; try done. cbn.
    apply Forall_app_2; [done|]. constructor; [|constructor]. split; [by apply Hk|].
    by apply (wf_flows _ (sy_kern _ Hw) _ _ Hf).
  - injection E as <-. split; try done. cbn. destruct err; [done|]. unfold Flows. apply Forall_map.
    eapply Forall_impl; [exact Hp|]. intros kv []. by apply flow_of_typed.
  - injection E as <-. split; try done. cbn [store]. by apply UpdateFlows_typed; [apply Hw|..].
  - injection E as <-. by split.
  - injection E as <-. apply Forall_cons in Hp as [Hf Hp]. split; try done. cbn [kern].
    destruct (fl_Closed f); [|done]. intros sk. cbn. rewrite lookup_delete_is_Some. intros [_ Hi]. by apply Hk.
  - apply bind_Some in E as (f & Hf & [= <-]). by split.
  - injection E as <-. split; try done. by destruct err.
  - injection E as <-. split; try done. by apply UpdateSSLStats_typed.
Qed.

Lemma act_typed a w w' :
  sys_wf w -> sys_typed w -> action_ok a -> act (K := K) a w = Ok (Some w') -> sys_typed w'.
Proof.
  intros Hw Ht Ha E. pose proof Ht as [Hk Hs Hr Hp].
  assert (forall a, Ok (poll (K := K) a w) = Ok (Some w') -> sys_typed w') as Hpoll.
  { intros a0 [= E0]. by apply (poll_typed a0 w). }
  destruct a; cbn [act] in E; try by eapply Hpoll.
  - injection E as <-. destruct Ha. split; try done. cbn. apply fire_keys; [done|apply Hw|done].
  - unfold read_next in E. destruct (rd w); try done. destruct (events (kern w)) as [|ev evs] eqn:Ee; [done|].
    destruct (set_events_tail_wf ev evs (kern w) Ee (sy_kern _ Hw)) as [_ Hev].
    rewrite ReadEvent_event in E by done. injection E as <-. split; try done. by apply event_view_typed.
  - destruct (rd w); try done. injection E as <-. by split.
  - unfold apply_next in E. destruct (rd w) as [|r|] eqn:Er; try done.
    apply go_bind_inv in E as (s & Es & [= <-]). rewrite dispatch_op in Es. split; try done.
    cbn [store]. eapply do_op_typed; [apply Hw|exact Hr|exact Hs|exact Es].
Qed.

Lemma acts_typed l w w' :
  sys_wf w -> sys_typed w -> Forall action_ok l -> acts (K := K) l w = Ok (Some w') -> sys_typed w'.
Proof.
  intros Hw Ht Hl. revert w Hw Ht. induction Hl as [|a l Ha _ IH]; intros w Hw Ht E; cbn [acts] in E.
  - by injection E as <-.
  - apply go_bind_inv in E as ([w1|] & E1 & E); [|done].
    destruct (act_wf a w Hw Ha) as (r & Er & Hw1). rewrite E1 in Er. injection Er as <-.
    apply (IH w1); [by apply Hw1|by apply (act_typed a w w1)|done].
Qed.

Lemma world_init_typed mh pb : sys_typed (world_init mh pb).
Proof.
  split; [|split; [apply map_Forall_empty|constructor|apply map_Forall_empty]|done..].
  intros sk. cbn. rewrite lookup_empty. by intros [].
Qed.
End System.
