(* ===== verification/SystemProps.v ===== *)
(** The whole program: safety and types in every interleaving, the handshake and the
    byte counters from the kernel to the table. *)
From S2P Require Import Prelude Abi Bpf BpfInv BpfFrame BpfTrace BpfDuplex BpfProps Loader TlsParse TlsSpec TlsEquiv TlsDuplex TlsWire TlsProps Slices Proc Store StoreInv StoreFacts StoreDuplex StoreProps System SystemTrace SystemFlows SystemTypes.

#[local] Existing Instance demo_x509.
#[local] Existing Instance demo_growth.
#[local] Existing Instance demo_growth_ok.
#[local] Existing Instance demo_range.
#[local] Existing Instance demo_range_ok.
#[local] Existing Instance msg_wf_dec.
#[local] Existing Instance record_wf_dec.

(** ** Safety of every interleaving *)

(** The program never goes wrong.  Under any interleaving of kernel programs,
    reader and poller - any helper results, clocks, /proc contents and iteration
    orders, any entries an iteration happens to yield - no step panics, and kernel
    maps, ring records, the decoded event in flight and the store stay well-formed. *)
Theorem system_invariant {K} `{KernelViewOk K, X509, GrowthOk, MapRangeOk} history peekBytes
    (l : list (action K)) :
  Forall action_ok l ->
  exists r, acts l (world_init history peekBytes) = Ok r /\ forall w, r = Some w -> sys_wf w.
Proof. apply acts_wf, world_init_wf. Qed.

(** Socket 7 is connected. *)
Definition demo_connect : action unit :=
  AFire (demo_env (2 ^ 32 * 100 + 101) []) (TpSetState IPPROTO_TCP 7 2 TCP_ESTABLISHED).
(** Thread 101 of process 100 sends [c] on it. *)
Definition demo_send (c : list Z) : action unit :=
  AFire (demo_env (2 ^ 32 * 100 + 101) c) (KpSendmsg 7 9 (zlen c)).
(** One poll that finds the flow and no SSL session. *)
Definition demo_poll (t : Z) (deletes : nat) : list (action unit) :=
  [ATick; AFlow 7; AFlowsEnd false; AUpdate (demo_call t)] ++ replicate (S deletes) ADelete
  ++ [AStatsEnd false; ATotals (demo_call t)].

Lemma demo_connect_ok : action_ok demo_connect.
Proof. split; [apply demo_env_ok; [done|constructor]|done]. Qed.
Lemma demo_send_ok c : Forall is_byte c -> zlen c < 2 ^ 64 -> action_ok (demo_send c).
Proof.
  intros Hb Hl. split; [by apply demo_env_ok|]. pose proof (zlen_nonneg c). by split_and!.
Qed.

Lemma system_invariant_witness :
  exists w, acts ([demo_connect; demo_send demo_record; ARead] ++ demo_poll 1 1 ++ [AApply (demo_call 2)])
      (world_init 3 8) = Ok (Some w) /\ sys_wf w.
Proof.
  destruct (system_invariant 3 8
    ([demo_connect; demo_send demo_record; ARead] ++ demo_poll 1 1 ++ [AApply (demo_call 2)])) as (r & Hr & Hw).
  - repeat first [apply Forall_cons; split|apply Forall_nil; exact I];
      [apply demo_connect_ok|apply demo_send_ok; [by repeat constructor|done]|done..].
  - destruct r as [w|]; [|vm_compute in Hr; discriminate]. exists w. split; [exact Hr|by apply Hw].
Defined.

(** C5: every value keeps its type.  In every state a run can reach, the connections
    of the table and of the history - addresses, ports, process, byte and plaintext
    counters, negotiated version, suite, group and signature schemes, reassembly buffers
    and plaintext heads - hold values of the widths their Go types declare.  So does the
    event in the reader's hands, in every field: direction, socket, process and thread
    ids, session and totals within their unsigned widths, the descriptor within int32
    (negative ones included), the payload bytes. *)
Theorem values_typed {K} `{KernelViewOk K, X509, GrowthOk, MapRangeOk} history peekBytes (l : list (action K)) w :
  Forall action_ok l -> acts l (world_init history peekBytes) = Ok (Some w) ->
  store_typed (store w) /\ match rd w with RdGot r => op_typed (op_of r) | _ => True end.
Proof.
  intros Hl E. destruct (acts_typed l _ w (world_init_wf _ _) (world_init_typed _ _) Hl E). done.
Qed.

Lemma values_typed_witness :
  exists w c, acts ([demo_connect; demo_send demo_record; ARead] ++ demo_poll 1 1 ++ [AApply (demo_call 2)])
      (world_init 3 8) = Ok (Some w) /\ conns (store w) !! 7 = Some c /\ conn_typed c.
Proof.
  set (l := _ ++ _). assert (Forall action_ok l) as Hl.
  { repeat first [apply Forall_cons; split|apply Forall_nil; exact I];
      [apply demo_connect_ok|apply demo_send_ok; [by repeat constructor|done]|done..]. }
  assert (match acts l (world_init 3 8) with
    | Ok (Some w) => match conns (store w) !! 7 with Some _ => true | None => false end
    | _ => false end = true) as E by (vm_compute; reflexivity).
  pose proof (fun w => values_typed 3 8 l w Hl) as H.
  destruct (acts l (world_init 3 8)) as [[w|]| |]; try discriminate. specialize (H w eq_refl).
  destruct (conns (store w) !! 7) as [c|] eqn:Ec; [|discriminate].
  exists w, c. split_and!; [reflexivity|exact Ec|]. apply (st_conns _ (proj1 H) 7 c Ec).
Defined.

(** ** The handshake, from tcp_sendmsg to the connection table *)

(** C4: what is shown is a parsed prefix of what was captured.  A freshly connected
    socket exchanges chunks in both directions, by any threads; everything else the
    machine, the reader and the poller do is interleaved at will.  At every moment the
    chunks that passed the capture gate are, in their order, those the store has, then
    those in the reader's hands, then those in the ring; and the connection is what the
    store's chunks make of it. *)
Theorem handshake_prefix {K} `{KernelViewOk K, X509, GrowthOk, MapRangeOk} sk tr (l : list (action K)) w w' :
  sys_wf w -> fresh sk w -> session sk w l tr w' -> Forall action_ok l ->
  exists es, captured_both 0 0 tr = es ++ held sk (rd w') ++ in_ring sk (kern w')
    /\ match conns (store w') !! sk with
       | Some c => cn_wireOut c = grown es false /\ cn_wireIn c = grown es true /\ cn_Closed c = false
                   /\ (single_hello es -> cn_Info c = last_pass (grown es) es)
       | None => es = []
       end.
Proof.
  intros Hw Hf Hl Hok.
  destruct (session_fresh sk w l tr w' Hw Hf Hl Hok) as (_ & no & ni & es & [_ _ [K1 K2] _ Hi]).
  exists es. split; [exact Hi|]. destruct (conns (store w') !! sk) as [c|].
  - destruct (K1 c eq_refl). by split_and!.
  - destruct es as [|e es]; [done|]. by destruct (K2 ltac:(done)).
Qed.

(** The client offers in two chunks, is answered in one, and goes on. *)
Definition demo_traffic : list wchunk :=
  [(DIR_OUT, take 40 demo_offer); (DIR_OUT, drop 40 demo_offer); (DIR_IN, demo_choice); (DIR_OUT, demo_exchange)].
Definition demo_thread : Z := 2 ^ 32 * 100 + 101.
Definition demo_recv (c : list Z) : list (action unit) :=
  [AFire (demo_env demo_thread []) (KpRecvmsg 7 9); AFire (demo_env demo_thread c) (KrRecvmsg (zlen c))].
Definition demo_session : list (action unit) :=
  [demo_send (take 40 demo_offer); ARead; ATick; AFlow 7; AApply (demo_call 1); AFlowsEnd false;
   demo_send (drop 40 demo_offer); AUpdate (demo_call 2)] ++ demo_recv demo_choice ++
  [ARead; demo_send demo_exchange; AApply (demo_call 3); ARead].

Definition demo_world : world := set_kern (fire (demo_env demo_thread [])
  (TpSetState IPPROTO_TCP 7 2 TCP_ESTABLISHED) bpf_init) (world_init 3 8).
Definition demo_end : world :=
  match acts demo_session demo_world with Ok (Some w) => w | _ => demo_world end.

Lemma demo_traffic_bytes : Forall (fun it => Forall is_byte it.2) demo_traffic.
Proof. apply (bool_decide_unpack _). vm_compute. exact I. Qed.

Lemma demo_chunk_readable id c a : a <> 0 -> zlen c < 2 ^ 32 -> readable (demo_env id c) a c.
Proof.
  intros Ha Hc. split_and!; [done|done| |].
  - intros n [Hn1 Hn2]. cbn. destruct (Z.leb_spec 0 n), (Z.leb_spec n (zlen c)); try lia; done.
  - exists (replicate 1036 0). done.
Qed.

(** One step, computed. *)
Definition demo_next (a : action unit) (w : world) : world :=
  match act a w with Ok (Some w1) => w1 | _ => demo_world end.

Lemma demo_step sk (a : action unit) w l tr w' :
  calm sk a w -> match act a w with Ok (Some _) => true | _ => false end = true ->
  session sk (demo_next a w) l tr w' -> session sk w (a :: l) tr w'.
Proof.
  unfold demo_next. intros Hc Ha Hs. destruct (act a w) as [[w1|]| |] eqn:E; try discriminate. by eapply session_calm.
Qed.

Lemma demo_chunk sk p dir c w l tr w' :
  touches sk (demo_env demo_thread c) p (kern w) = Some (dir, 9, zlen c) -> zlen c <? 2 ^ 32 = true -> Forall is_byte c ->
  session sk (demo_next (AFire (demo_env demo_thread c) p) w) l tr w' ->
  session sk w (AFire (demo_env demo_thread c) p :: l) ((dir, c) :: tr) w'.
Proof. intros Ht Hl%Z.ltb_lt Hc Hs. eapply session_chunk; [exact Ht|by apply demo_chunk_readable|done|done]. Qed.

Lemma demo_session_ok : session 7 demo_world demo_session demo_traffic demo_end.
Proof.
  pose proof demo_traffic_bytes as Hb. repeat (apply Forall_cons in Hb as [? Hb]).
  unfold demo_session, demo_traffic, demo_recv. cbn [app].
  repeat first
    [ apply demo_chunk; [vm_compute; reflexivity|vm_compute; reflexivity|assumption|]
    | apply demo_step; [first [exact I|split; [vm_compute; reflexivity|exact I]]|vm_compute; reflexivity|] ].
  match goal with |- session _ ?w _ _ ?w' => assert (w = w') as <- by (vm_compute; reflexivity) end.
  constructor.
Qed.

Lemma demo_session_actions : Forall action_ok demo_session.
Proof.
  pose proof demo_traffic_bytes as Hb. repeat (apply Forall_cons in Hb as [? Hb]).
  assert (forall c, Forall is_byte c -> env_ok (demo_env demo_thread c)) as He by (intros; by apply demo_env_ok).
  unfold demo_session, demo_recv. cbn [app].
  repeat (apply Forall_cons; split); try exact I; try (apply demo_send_ok; [assumption|done]); [..|apply Forall_nil; exact I].
  - split; [by apply He, Forall_nil|done].
  - split; [by apply He|done].
Qed.

Lemma demo_world_ok : sys_wf demo_world /\ fresh 7 demo_world.
Proof.
  split.
  - destruct (act_wf demo_connect (world_init 3 8) (world_init_wf 3 8) demo_connect_ok) as (r & [= <-] & Hw).
    by apply Hw.
  - unfold fresh. split_and!; try done. by exists (flow_set_direction DIR_OUT flow_zero).
Qed.

(** The offer in the store, the answer in the reader's hands, the rest in the ring. *)
Lemma handshake_prefix_witness :
  exists es c, captured_both 0 0 demo_traffic = es ++ [(DIR_IN, demo_choice); (DIR_OUT, demo_exchange)]
    /\ conns (store demo_end) !! 7 = Some c /\ cn_wireOut c = grown es false.
Proof.
  destruct demo_world_ok as [Hw Hf].
  destruct (handshake_prefix 7 demo_traffic demo_session demo_world demo_end Hw Hf demo_session_ok
    demo_session_actions) as (es & Hes & Hc).
  assert (held 7 (rd demo_end) = [(DIR_IN, demo_choice)]) as Eh by (vm_compute; reflexivity).
  assert (in_ring 7 (kern demo_end) = [(DIR_OUT, demo_exchange)]) as Er by (vm_compute; reflexivity).
  assert (match conns (store demo_end) !! 7 with Some _ => true | None => false end = true) as Es
    by (vm_compute; reflexivity).
  rewrite Eh, Er in Hes. clear Eh Er. revert Hc Es.
  generalize (conns (store demo_end) !! 7). intros [c|] Hc; [|discriminate]. intros _.
  exists es, c. split_and!; [exact Hes|reflexivity|apply Hc].
Defined.

(** Once the reader has caught up, every byte exchanged is in the connection's buffers,
    and its [Info] is two parses of them. *)
Theorem handshake_end_to_end {K} `{KernelViewOk K, X509, GrowthOk, MapRangeOk} sk tr (l : list (action K)) w w1 k :
  sys_wf w -> fresh sk w -> session sk w l tr w1 -> Forall action_ok l ->
  fits_gate 0 (toward true tr) -> fits_gate 0 (toward false tr) -> tr <> [] -> rd w1 <> RdEnd ->
  exists w2 c, acts (catch_up k w1 : list (action K)) w1 = Ok (Some w2) /\ conns (store w2) !! sk = Some c
    /\ cn_wireOut c = concat (toward true tr) /\ cn_wireIn c = concat (toward false tr) /\ cn_Closed c = false
    /\ (single_hello tr -> cn_Info c = last_pass (grown tr) tr).
Proof.
  intros Hw Hf Hl Hok Ho Hi Hne Hrd.
  destruct (session_caught_up sk w l tr w1 k Hw Hf Hl Hok Ho Hi Hne Hrd)
    as (w2 & c & E2 & Ec & [C1 C2 C3 C4] & G1 & G2 & _).
  exists w2, c. rewrite C1, C2, G1, G2. by split_and!.
Qed.

(** From the wire to the table.  A client exchanges handshake chunks of 1 to 1023
    bytes, at most 16 each way, the first of each way beginning a TLS record; what it
    sent is the messages [ms] and what it received the messages [ms'], in records cut
    up in any way.  Whatever else happens in between, once the reader has caught up the
    connection holds, of what only the client or only the server says, exactly what the
    messages said, and the version the server chose. *)
Theorem handshake_shown {K} `{KernelViewOk K, X509, GrowthOk, MapRangeOk} sk tr (l : list (action K)) w w1 k ms ms' :
  sys_wf w -> fresh sk w -> session sk w l tr w1 -> Forall action_ok l ->
  fits_gate 0 (toward true tr) -> fits_gate 0 (toward false tr) -> tr <> [] -> rd w1 <> RdEnd ->
  flight_bytes ms (concat (toward true tr)) -> flight_bytes ms' (concat (toward false tr)) ->
  Forall (fun m => msg_type m <> 2 /\ msg_type m <> 11) ms -> Forall (fun m => msg_type m <> 1) ms' ->
  let said := see_all ms Info_zero in
  let heard := see_all ms' Info_zero in
  exists w2 c, acts (catch_up k w1 : list (action K)) w1 = Ok (Some w2) /\ conns (store w2) !! sk = Some c
    /\ client_part (cn_Info c) = client_part said /\ server_part (cn_Info c) = server_part heard
    /\ (if HasServerHello heard then NegVersion heard <> 0 -> NegVersion (cn_Info c) = NegVersion heard
        else NegVersion (cn_Info c) = NegVersion said).
Proof.
  cbn zeta. intros Hw Hf Hl Hok Ho Hi Hne Hrd Hms Hms' Hty Hty'.
  destruct (session_caught_up sk w l tr w1 k Hw Hf Hl Hok Ho Hi Hne Hrd)
    as (w2 & c & E2 & Ec & [_ _ _ C4] & G1 & G2 & _).
  pose proof (client_side_flights ms ms' _ _ Hms Hms' Hty Hty') as Hcs. rewrite <- G1, <- G2 in *.
  assert (single_hello tr) as Hone.
  { right. apply (client_side_kinds _ _ 0 Hcs), (bool_decide_unpack _). exact I. }
  pose proof (last_pass_two (grown tr) tr Hne) as Hp. rewrite <- C4 in Hp by done.
  destruct (two_pass_parts _ _ _ Hcs Hp) as [P1 P2]. pose proof (two_pass_version _ _ _ Hcs Hp) as P3.
  apply flight_parsed in Hms as [E _]. apply flight_parsed in Hms' as [E' _]. rewrite E, E' in *.
  exists w2, c. by split_and!.
Qed.

Lemma demo_flights :
  flight_bytes [MClientHello demo_hello; MOther 16 [1; 2; 3]] (concat (toward true demo_traffic))
  /\ flight_bytes [MServerHello demo_answer] (concat (toward false demo_traffic)).
Proof.
  split.
  - exists [mkRecord 3 1 (encode_message (MClientHello demo_hello)); mkRecord 3 3 (encode_message (MOther 16 [1; 2; 3]))], [].
    split_and!; [vm_compute; reflexivity|apply (bool_decide_unpack _); vm_compute; exact I..|
      split; [constructor|exact I]|vm_compute; reflexivity].
  - exists [mkRecord 3 3 (encode_message (MServerHello demo_answer))], [].
    split_and!; [vm_compute; reflexivity|apply (bool_decide_unpack _); vm_compute; exact I..|
      split; [constructor|exact I]|vm_compute; reflexivity].
Qed.

Lemma handshake_shown_witness :
  exists w2 c, acts (catch_up (demo_call 4) demo_end : list (action unit)) demo_end = Ok (Some w2)
    /\ conns (store w2) !! 7 = Some c /\ SNI (cn_Info c) = "example.com"%string
    /\ CipherSuite (cn_Info c) = 0xc02f /\ NegVersion (cn_Info c) = 0x0303.
Proof.
  destruct demo_world_ok as [Hw Hf]. destruct demo_flights as [Hm Hm'].
  destruct (handshake_shown 7 demo_traffic demo_session demo_world demo_end (demo_call 4) _ _ Hw Hf demo_session_ok
    demo_session_actions ltac:(split; [apply (bool_decide_unpack _); vm_compute; exact I|
      split; [vm_compute; congruence|intros _ c cs' [= <- _]; vm_compute; reflexivity]])
    ltac:(split; [apply (bool_decide_unpack _); vm_compute; exact I|
      split; [vm_compute; congruence|intros _ c cs' [= <- _]; vm_compute; reflexivity]])
    ltac:(discriminate) ltac:(vm_compute; discriminate) Hm Hm'
    ltac:(apply (bool_decide_unpack _); exact I) ltac:(apply (bool_decide_unpack _); exact I))
    as (w2 & c & E2 & Hc & Hp & Hq & Hv).
  exists w2, c. split_and!; [exact E2|exact Hc|..].
  - exact (f_equal (fun x => x.1.2) Hp).
  - exact (f_equal (fun x => x.1.1.1.2) Hq).
  - apply Hv. discriminate.
Defined.

(** ** The byte counters *)

(** C2: the bytes shown.  Let a socket have an open flow entry [f] and be sent on and
    received from in any run [l1], interleaved with everything else; when the poller then
    reads its entry and, whatever happens meanwhile, hands the snapshot to the store, the
    connection shows exactly the entry's start plus the bytes moved in [l1] - what moves
    later waits for the next poll - and is not closed. *)
Theorem bytes_shown {K} `{KernelViewOk K, X509, GrowthOk, MapRangeOk} sk f (l1 l2 : list (action K)) k w w1 w2 w3 w4 :
  sys_wf w -> live_flow sk f w -> Forall action_ok (l1 ++ AFlow sk :: l2) ->
  Forall (stays sk) l1 -> Forall (rest_of_iteration sk) l2 ->
  acts l1 w = Ok (Some w1) -> act (AFlow sk : action K) w1 = Ok (Some w2) -> acts l2 w2 = Ok (Some w3) ->
  act (AUpdate k : action K) w3 = Ok (Some w4) ->
  exists c, conns (store w4) !! sk = Some c /\ cn_Closed c = false
    /\ cn_TxBytes c = wrap 64 (f_tx f + acts_sum (act_sent sk) l1 w)
    /\ cn_RxBytes c = wrap 64 (f_rx f + acts_sum (act_received sk) l1 w).
Proof.
  intros Hw Hl [Hok1 [_ Hok2]%Forall_cons]%Forall_app Hs1 Hr2 E1 E2 E3 E4.
  destruct (acts_live sk l1 f w w1 E1 Hs1 Hl) as (f1 & (Hf1 & _ & Hcl & _) & [Htx Hrx _ _ _]).
  destruct (acts_wf l1 w Hw Hok1) as (r & Er & Hw1). rewrite E1 in Er. injection Er as <-. specialize (Hw1 _ eq_refl).
  destruct (act_wf (AFlow sk : action K) w1 Hw1 I) as (r & Er & Hw2). rewrite E2 in Er. injection Er as <-.
  specialize (Hw2 _ eq_refl).
  destruct (acts_wf l2 w2 Hw2 Hok2) as (r & Er & Hw3). rewrite E3 in Er. injection Er as <-. specialize (Hw3 _ eq_refl).
  assert (last_read sk f1 (pl w2)) as Hp2.
  { cbn [act] in E2. injection E2 as E2. unfold poll in E2. destruct (pl w1) as [|it|fs|fs|it|sts]; try done.
    rewrite Hf1 in E2. injection E2 as <-. by exists it, []. }
  pose proof (acts_last_read sk f1 l2 w2 w3 E3 Hr2 Hp2) as Hp3.
  destruct (update_shown sk f1 k w3 w4 Hw3 Hp3 E4) as (c & c0 & Hc & ->).
  eexists. split; [exact Hc|]. cbn. rewrite Hcl. by split_and!.
Qed.

(** 9 bytes before the entry is read, 9 more before the snapshot is taken over. *)
Lemma bytes_shown_witness :
  exists w4 c, acts ([demo_send demo_record; ATick] ++ AFlow 7 :: [demo_send demo_record; ARead; AFlowsEnd false]
      ++ [AUpdate (demo_call 1)]) demo_world = Ok (Some w4)
    /\ conns (store w4) !! 7 = Some c /\ cn_TxBytes c = 9.
Proof.
  destruct demo_world_ok as [Hw _]. pose (l1 := [demo_send demo_record; ATick]).
  pose (l2 := [demo_send demo_record; ARead; AFlowsEnd false]).
  pose (w1 := match acts l1 demo_world with Ok (Some w) => w | _ => demo_world end).
  pose (w2 := demo_next (AFlow 7) w1).
  pose (w3 := match acts l2 w2 with Ok (Some w) => w | _ => demo_world end).
  destruct (bytes_shown 7 (flow_set_direction DIR_OUT flow_zero) l1 l2 (demo_call 1) demo_world w1 w2 w3
    (demo_next (AUpdate (demo_call 1)) w3)) as (c & Hc & _ & Ht & _).
  - exact Hw.
  - repeat split; done.
  - repeat (apply Forall_cons; split); try exact I; try (apply demo_send_ok; [by repeat constructor|done]);
      apply Forall_nil; exact I.
  - repeat constructor.
  - by repeat constructor.
  - vm_compute. reflexivity.
  - vm_compute. reflexivity.
  - vm_compute. reflexivity.
  - vm_compute. reflexivity.
  - exists (demo_next (AUpdate (demo_call 1)) w3), c.
    split_and!; [vm_compute; reflexivity|exact Hc|rewrite Ht; vm_compute; reflexivity].
Defined.

(** ** Half-closed connections *)

(** A half-close loses the counters.  Socket 7 sends 9 bytes; the peer shuts its
    side down (CLOSE_WAIT), a poll comes by; the socket, still open for sending, sends
    another 9.  The poll saw [closed] and deleted the flow, the send made a new one: after
    the first poll the connection shows as closed with 9 bytes, after the second it is
    live again with 9, where the same sends without the half-close show 18. *)
Theorem half_close_resets :
  let close_wait := AFire (demo_env 0 []) (TpSetState IPPROTO_TCP 7 TCP_ESTABLISHED TCP_CLOSE_WAIT) in
  let shown l := match acts l (world_init 3 8) with
    | Ok (Some w) => (fun c => (cn_TxBytes c, cn_Closed c)) <$> conns (store w) !! 7
    | _ => None end in
  let one := [demo_connect; demo_send demo_record; close_wait] ++ demo_poll 1 1 in
  shown one = Some (9, true)
  /\ shown (one ++ [demo_send demo_record] ++ demo_poll 2 1) = Some (9, false)
  /\ shown ([demo_connect; demo_send demo_record; demo_send demo_record] ++ demo_poll 1 1) = Some (18, false).
Proof. split_and!; vm_compute; reflexivity. Qed.
