(* ===== verification/Names.v ===== *)
(** internal/tlsparse/names.go: labels for the code points of the handshake.

    A uint16 is a [Z]; the tables are Go maps, here [gmap]s built from the entries of
    the literals; strings are byte strings, as Go's indexing sees them. *)
From Stdlib Require Import Ascii.
From S2P Require Import Prelude.

(** ** fmt.Sprintf("0x%04x", v) *)

Definition hex_lower (d : Z) : ascii := ascii_of_byte (if d <? 10 then 48 + d else 87 + d).

Definition hex4 (v : Z) : string :=
  String "0" (String "x" (String (hex_lower (v / 4096 mod 16)) (String (hex_lower (v / 256 mod 16))
    (String (hex_lower (v / 16 mod 16)) (String (hex_lower (v mod 16)) EmptyString))))).

(** ** Versions *)

Definition VersionName (v : Z) : string :=
  if v =? 0x0300 then "SSL 3.0"
  else if v =? 0x0301 then "TLS 1.0"
  else if v =? 0x0302 then "TLS 1.1"
  else if v =? 0x0303 then "TLS 1.2"
  else if v =? 0x0304 then "TLS 1.3"
  else if v =? 0 then EmptyString
  else hex4 v.

(** ** Cipher suites *)

Definition cipherSuites_entries : list (Z * string) :=
  [(0x1301, "TLS_AES_128_GCM_SHA256"); (0x1302, "TLS_AES_256_GCM_SHA384");
   (0x1303, "TLS_CHACHA20_POLY1305_SHA256"); (0x1304, "TLS_AES_128_CCM_SHA256");
   (0x1305, "TLS_AES_128_CCM_8_SHA256");
   (0xc02b, "ECDHE-ECDSA-AES128-GCM-SHA256"); (0xc02c, "ECDHE-ECDSA-AES256-GCM-SHA384");
   (0xc02f, "ECDHE-RSA-AES128-GCM-SHA256"); (0xc030, "ECDHE-RSA-AES256-GCM-SHA384");
   (0xcca8, "ECDHE-RSA-CHACHA20-POLY1305"); (0xcca9, "ECDHE-ECDSA-CHACHA20-POLY1305");
   (0xc023, "ECDHE-ECDSA-AES128-SHA256"); (0xc027, "ECDHE-RSA-AES128-SHA256");
   (0xc013, "ECDHE-RSA-AES128-SHA"); (0xc014, "ECDHE-RSA-AES256-SHA");
   (0xc009, "ECDHE-ECDSA-AES128-SHA"); (0xc00a, "ECDHE-ECDSA-AES256-SHA");
   (0x009c, "RSA-AES128-GCM-SHA256"); (0x009d, "RSA-AES256-GCM-SHA384");
   (0x002f, "RSA-AES128-SHA"); (0x0035, "RSA-AES256-SHA");
   (0x00ff, "TLS_EMPTY_RENEGOTIATION_INFO_SCSV")]%string.
Definition cipherSuites : gmap Z string := list_to_map cipherSuites_entries.

Definition CipherName (c : Z) : string :=
  match cipherSuites !! c with
  | Some s => s
  | None => if c =? 0 then EmptyString else hex4 c
  end.

(** ** Case-insensitive search *)

(** ASCII lower case to upper case. *)
Definition upper (c : ascii) : ascii :=
  let n := byte_of_ascii c in
  if (97 <=? n) && (n <=? 122) then ascii_of_byte (n - 32) else c.

Fixpoint equalFold_loop (a b : string) : bool :=
  match a, b with
  | String x a, String y b => if Ascii.eqb (upper x) (upper y) then equalFold_loop a b else false
  | _, _ => true
  end.

Definition equalFold (a b : string) : bool :=
  if (String.length a =? String.length b)%nat then equalFold_loop a b else false.

(** The loop over [i]; [t] is [s[i:]]. *)
Fixpoint containsFold_loop (sub t : string) : bool :=
  if (String.length sub <=? String.length t)%nat then
    if equalFold (String.substring 0 (String.length sub) t) sub then true
    else match t with String _ t => containsFold_loop sub t | EmptyString => false end
  else false.

Definition containsFold (s sub : string) : bool :=
  if (String.length s <? String.length sub)%nat then false else containsFold_loop sub s.

(** ** Symmetric *)

Definition bulk_keys : list string :=
  ["CHACHA20-POLY1305"; "AES256-GCM"; "AES128-GCM"; "AES256"; "AES128"; "3DES"]%string.

(** The first key the name contains. *)
Fixpoint first_key (n : string) (ks : list string) : string :=
  match ks with
  | [] => EmptyString
  | k :: ks => if containsFold n k then k else first_key n ks
  end.

Definition Symmetric (c : Z) : string :=
  if (c =? 0x1301) || (c =? 0x1304) || (c =? 0x1305) then "AES-128-GCM"
  else if c =? 0x1302 then "AES-256-GCM"
  else if c =? 0x1303 then "ChaCha20-Poly1305"
  else first_key (CipherName c) bulk_keys.

(** ** Groups and signature schemes *)

Definition namedGroups_entries : list (Z * string) :=
  [(0x0017, "secp256r1 (P-256)"); (0x0018, "secp384r1 (P-384)"); (0x0019, "secp521r1 (P-521)");
   (0x001d, "x25519"); (0x001e, "x448"); (0x0100, "ffdhe2048"); (0x0101, "ffdhe3072");
   (0x11ec, "X25519MLKEM768"); (0x6399, "X25519Kyber768Draft00")]%string.
Definition namedGroups : gmap Z string := list_to_map namedGroups_entries.

Definition GroupName (g : Z) : string :=
  match namedGroups !! g with
  | Some s => s
  | None => if g =? 0 then EmptyString else hex4 g
  end.

Definition sigSchemes_entries : list (Z * string) :=
  [(0x0401, "rsa_pkcs1_sha256"); (0x0501, "rsa_pkcs1_sha384"); (0x0601, "rsa_pkcs1_sha512");
   (0x0403, "ecdsa_secp256r1_sha256"); (0x0503, "ecdsa_secp384r1_sha384");
   (0x0603, "ecdsa_secp521r1_sha512"); (0x0804, "rsa_pss_rsae_sha256");
   (0x0805, "rsa_pss_rsae_sha384"); (0x0806, "rsa_pss_rsae_sha512"); (0x0807, "ed25519");
   (0x0808, "ed448"); (0x0809, "rsa_pss_pss_sha256"); (0x0201, "rsa_pkcs1_sha1");
   (0x0203, "ecdsa_sha1")]%string.
Definition sigSchemes : gmap Z string := list_to_map sigSchemes_entries.

Definition SigSchemeName (s : Z) : string :=
  match sigSchemes !! s with
  | Some n => n
  | None => hex4 s
  end.

(** ** Tables with a hexadecimal fallback *)

(** Names are pairwise different and none could be a code point or empty. *)
Definition plain_name (s : string) : Prop :=
  match s with String c _ => c <> "0"%char | EmptyString => False end.
Definition table_ok (l : list (Z * string)) : Prop := NoDup l.*1 /\ NoDup l.*2 /\ Forall plain_name l.*2.

#[export] Instance plain_name_dec s : Decision (plain_name s).
Proof. destruct s; cbn; apply _. Defined.
#[export] Instance table_ok_dec l : Decision (table_ok l).
Proof. unfold table_ok. apply _. Defined.

Lemma hex_lower_inj a b : 0 <= a < 16 -> 0 <= b < 16 -> hex_lower a = hex_lower b -> a = b.
Proof.
  intros Ha Hb E.
  assert (forall d, 0 <= d < 16 -> d ∈ seqZ 0 16) as Hin by (intros; apply elem_of_seqZ; lia).
  assert (Forall (fun a => Forall (fun b => hex_lower a = hex_lower b -> a = b) (seqZ 0 16)) (seqZ 0 16)) as Hall
    by (apply (bool_decide_unpack _); vm_compute; exact I).
  rewrite Forall_forall in Hall. pose proof (Hall a (Hin a Ha)) as H. cbn beta in H.
  rewrite Forall_forall in H. exact (H b (Hin b Hb) E).
Qed.

Lemma hex4_inj v w : in_width 16 v -> in_width 16 w -> hex4 v = hex4 w -> v = w.
Proof.
  unfold in_width. intros Hv Hw [= E3 E2 E1 E0].
  assert (forall x, 0 <= x mod 16 < 16) as Hm by (intros; apply Z.mod_pos_bound; lia).
  apply hex_lower_inj in E3, E2, E1, E0; auto.
  assert (forall x, in_width 16 x ->
    x = 4096 * (x / 4096 mod 16) + 256 * (x / 256 mod 16) + 16 * (x / 16 mod 16) + x mod 16) as Hd.
  { clear. unfold in_width. intros x Hx. change (2 ^ 16) with 65536 in Hx.
    assert (x / 4096 < 16) by (apply Z.div_lt_upper_bound; lia).
    assert (0 <= x / 4096) by (apply Z.div_pos; lia).
    rewrite (Z.mod_small (x / 4096)) by lia.
    replace (x / 4096) with (x / 256 / 16) by (rewrite Z.div_div by lia; done).
    replace (x / 256) with (x / 16 / 16) by (rewrite Z.div_div by lia; done).
    pose proof (Z.div_mod x 16 ltac:(lia)). pose proof (Z.div_mod (x / 16) 16 ltac:(lia)).
    pose proof (Z.div_mod (x / 16 / 16) 16 ltac:(lia)). lia. }
  rewrite (Hd v Hv), (Hd w Hw). congruence.
Qed.

(** Looking a code point up, and what is shown when it is not there. *)
Definition name_of (zero : bool) (l : list (Z * string)) (v : Z) : string :=
  match (list_to_map l : gmap Z string) !! v with
  | Some s => s
  | None => if zero && (v =? 0) then EmptyString else hex4 v
  end.

Lemma name_of_cases zero l v :
  table_ok l ->
  ((v, name_of zero l v) ∈ l /\ plain_name (name_of zero l v))
  \/ (v = 0 /\ name_of zero l v = EmptyString) \/ name_of zero l v = hex4 v.
Proof.
  intros (Hk & _ & Hp). unfold name_of. destruct (list_to_map l !! v) as [s|] eqn:E.
  - apply elem_of_list_to_map in E; [|done]. left. split; [done|].
    rewrite Forall_forall in Hp. apply Hp, list_elem_of_fmap. by exists (v, s).
  - right. destruct zero; [|by right]. cbn. destruct (Z.eqb_spec v 0); auto.
Qed.

Lemma name_of_inj zero l v w :
  table_ok l -> in_width 16 v -> in_width 16 w -> name_of zero l v = name_of zero l w -> v = w.
Proof.
  intros Hl Hv Hw E. pose proof (name_of_cases zero l v Hl) as Cv. pose proof (name_of_cases zero l w Hl) as Cw.
  rewrite <- E in Cw. destruct Cv as [[Iv Pv]|[[-> Ev]|Ev]], Cw as [[Iw Pw]|[[-> Ew]|Ew]];
    rewrite ?Ev, ?Ew in *; try done.
  - destruct Hl as (_ & Hn & _). apply list_elem_of_lookup in Iv as [i Hi]. apply list_elem_of_lookup in Iw as [j Hj].
    assert (i = j) as <-.
    { eapply NoDup_lookup; [exact Hn| |]; rewrite list_lookup_fmap; [rewrite Hi|rewrite Hj]; done. }
    congruence.
  - by apply hex4_inj.
Qed.

(** VersionName is such a table, too. *)
Definition version_entries : list (Z * string) :=
  [(0x0300, "SSL 3.0"); (0x0301, "TLS 1.0"); (0x0302, "TLS 1.1"); (0x0303, "TLS 1.2"); (0x0304, "TLS 1.3")]%string.

(** Case analysis on the next comparison. *)
Ltac case_eqb :=
  match goal with |- context [?v =? ?k] => destruct (Z.eqb_spec v k) end.

Lemma VersionName_table v : VersionName v = name_of true version_entries v.
Proof.
  unfold VersionName, name_of. repeat (case_eqb; [subst v; reflexivity|]).
  rewrite (not_elem_of_list_to_map_1 version_entries v); [done|].
  cbn. rewrite !elem_of_cons. intros [|[|[|[|[|E]]]]]; try done. by apply elem_of_nil in E.
Qed.

(** ** containsFold *)

Fixpoint upper_string (s : string) : string :=
  match s with EmptyString => EmptyString | String c s => String (upper c) (upper_string s) end.

Lemma length_upper s : String.length (upper_string s) = String.length s.
Proof. induction s; cbn; congruence. Qed.

Lemma equalFold_upper a b : equalFold a b = true <-> upper_string a = upper_string b.
Proof.
  unfold equalFold. destruct (Nat.eqb_spec (String.length a) (String.length b)) as [E|E].
  - revert b E. induction a as [|x a IH]; intros [|y b]; cbn; try done. intros [= E].
    destruct (Ascii.eqb_spec (upper x) (upper y)) as [Exy|Exy].
    + rewrite IH by done. split; [congruence|by intros [=]].
    + split; [done|]. by intros [=].
  - split; [done|]. intros H%(f_equal String.length). by rewrite !length_upper in H.
Qed.

Lemma substring_prefix n s : (n <= String.length s)%nat ->
  exists t, s = (String.substring 0 n s ++ t)%string /\ String.length (String.substring 0 n s) = n.
Proof.
  revert n. induction s as [|c s IH]; intros [|n]; cbn; intros Hn; try lia; try (by eexists).
  destruct (IH n ltac:(lia)) as (t & Ht & Hl). exists t. split; [|congruence].
  change (String c s = String c (String.substring 0 n s +:+ t)). congruence.
Qed.

Lemma prefix_substring s t : String.substring 0 (String.length s) (s ++ t) = s.
Proof.
  induction s as [|c s IH]; [by destruct t|]. change (String c s +:+ t) with (String c (s +:+ t)).
  cbn. by rewrite IH.
Qed.

Lemma length_string_app s t : String.length (s ++ t) = (String.length s + String.length t)%nat.
Proof. induction s as [|c s IH]; [done|]. change (String c s +:+ t) with (String c (s +:+ t)). cbn. by rewrite IH. Qed.

(** [sub] occurs in [s] up to case. *)
Definition occurs (sub s : string) : Prop :=
  exists a b c, s = (a ++ b ++ c)%string /\ upper_string b = upper_string sub.

Lemma containsFold_loop_occurs sub t : containsFold_loop sub t = true <-> occurs sub t.
Proof.
  induction t as [|x t IH]; cbn [containsFold_loop].
  - destruct (Nat.leb_spec (String.length sub) (String.length "")) as [Hl|Hl].
    + destruct sub; [|cbn in Hl; lia]. cbn. split; [|done]. intros _. by exists EmptyString, EmptyString, EmptyString.
    + split; [done|]. intros (a & b & c & E & Eb). apply (f_equal String.length) in E, Eb.
      rewrite !length_string_app in E. rewrite !length_upper in Eb. cbn in *. lia.
  - destruct (Nat.leb_spec (String.length sub) (String.length (String x t))) as [Hl|Hl].
    + destruct (equalFold _ sub) eqn:Ef.
      * split; [|done]. intros _. apply equalFold_upper in Ef.
        destruct (substring_prefix _ _ Hl) as (r & Hr & _). by exists EmptyString, (String.substring 0 (String.length sub) (String x t)), r.
      * rewrite IH. split.
        -- intros (a & b & c & -> & Eb). exists (String x a), b, c. done.
        -- intros (a & b & c & E & Eb). destruct a as [|y a].
           ++ change (String x t = (b ++ c)%string) in E. apply not_true_iff_false in Ef. destruct Ef. apply equalFold_upper.
              assert (String.length b = String.length sub) as Eln by (by rewrite <- (length_upper b), Eb, length_upper).
              by rewrite E, <- Eln, prefix_substring.
           ++ change (String y a +:+ (b +:+ c)) with (String y (a +:+ (b +:+ c))) in E.
              injection E as <- ->. by exists a, b, c.
    + split; [done|]. intros (a & b & c & E & Eb). apply (f_equal String.length) in E, Eb.
      rewrite !length_string_app in E. rewrite !length_upper in Eb. lia.
Qed.

Lemma containsFold_occurs s sub : containsFold s sub = true <-> occurs sub s.
Proof.
  unfold containsFold. destruct (Nat.ltb_spec (String.length s) (String.length sub)) as [Hl|Hl];
    [|apply containsFold_loop_occurs].
  split; [done|]. intros (a & b & c & E & Eb). apply (f_equal String.length) in E, Eb.
  rewrite !length_string_app in E. rewrite !length_upper in Eb. lia.
Qed.
