(* ===== verification/NamesProps.v ===== *)
(** The labels: that they are unambiguous, and the bulk cipher shown. *)
From Stdlib Require Import Ascii.
From S2P Require Import Prelude Names.

(** ** Unambiguous labels *)

(** Labels are unambiguous.  Two different 16-bit code points never show as the
    same version, cipher suite, group or signature scheme, be they in the tables or
    shown by their hexadecimal value. *)
Theorem names_unambiguous v w :
  in_width 16 v -> in_width 16 w -> v <> w ->
  VersionName v <> VersionName w /\ CipherName v <> CipherName w
  /\ GroupName v <> GroupName w /\ SigSchemeName v <> SigSchemeName w.
Proof.
  intros Hv Hw Hne.
  assert (forall zero l, table_ok l -> name_of zero l v <> name_of zero l w) as Hinj
    by (intros zero l Hl E; by apply name_of_inj in E).
  split_and!.
  - rewrite !VersionName_table. apply Hinj, (bool_decide_unpack _). vm_compute. exact I.
  - apply (Hinj true cipherSuites_entries), (bool_decide_unpack _). vm_compute. exact I.
  - apply (Hinj true namedGroups_entries), (bool_decide_unpack _). vm_compute. exact I.
  - apply (Hinj false sigSchemes_entries), (bool_decide_unpack _). vm_compute. exact I.
Qed.

Lemma names_unambiguous_witness :
  CipherName 0xc02f <> CipherName 0xc030 /\ CipherName 0xabcd = "0xabcd"%string
  /\ CipherName 0xabcd <> CipherName 0xc02f.
Proof.
  split; [|split; [reflexivity|]].
  - refine (proj1 (proj2 (names_unambiguous 0xc02f 0xc030 _ _ _))); done.
  - refine (proj1 (proj2 (names_unambiguous 0xabcd 0xc02f _ _ _))); done.
Defined.

(** ** The bulk cipher *)

(** Every character of what occurs is, up to case, in the string. *)
Definition chars (s : string) : list ascii := String.list_ascii_of_string s.

Lemma chars_app s t : chars (s ++ t) = chars s ++ chars t.
Proof.
  unfold chars. induction s as [|c s IH]; [done|]. change (String c s +:+ t) with (String c (s +:+ t)).
  cbn. by rewrite IH.
Qed.

Lemma chars_upper s : chars (upper_string s) = upper <$> chars s.
Proof. induction s as [|c s IH]; [done|]. unfold chars in *. cbn. f_equal. exact IH. Qed.

Lemma occurs_chars sub s x : occurs sub s -> x ∈ (upper <$> chars sub) -> x ∈ (upper <$> chars s).
Proof.
  intros (a & b & c & -> & Eb) Hx.
  assert (x ∈ (upper <$> chars b)) by (by rewrite <- chars_upper, Eb, chars_upper).
  rewrite !chars_app, !fmap_app. set_solver.
Qed.

Definition hex_chars : list ascii :=
  String.list_ascii_of_string "0123456789ABCDEFX".

Lemma hex_lower_upper d : 0 <= d < 16 -> upper (hex_lower d) ∈ hex_chars.
Proof.
  intros Hd. assert (d ∈ seqZ 0 16) as Hin by (apply elem_of_seqZ; lia). revert d Hin Hd.
  apply (proj1 (Forall_forall (fun d => 0 <= d < 16 -> _) _)).
  apply (bool_decide_unpack _). vm_compute. exact I.
Qed.

Lemma hex4_chars v : Forall (fun x => x ∈ hex_chars) (upper <$> chars (hex4 v)).
Proof.
  assert (forall x, upper (hex_lower (x mod 16)) ∈ hex_chars) as Hm
    by (intros; apply hex_lower_upper, Z.mod_pos_bound; lia).
  unfold hex4, chars. cbn [String.list_ascii_of_string fmap list_fmap].
  repeat (apply Forall_cons; split; [first [apply Hm|by apply (bool_decide_unpack _)]|]). constructor.
Qed.

(** No key occurs in a hexadecimal code point. *)
Lemma hex4_no_key v k : k ∈ bulk_keys -> ~ occurs k (hex4 v).
Proof.
  intros Hk Ho.
  assert (Forall (fun k => Exists (fun x => x ∉ hex_chars) (upper <$> chars k)) bulk_keys) as Hall
    by (apply (bool_decide_unpack _); vm_compute; exact I).
  rewrite Forall_forall in Hall. specialize (Hall k Hk). apply Exists_exists in Hall as (x & Hx & Hn).
  apply Hn. pose proof (hex4_chars v) as Hc. rewrite Forall_forall in Hc. apply Hc.
  by eapply occurs_chars.
Qed.

Lemma first_key_spec n ks :
  (first_key n ks = EmptyString /\ Forall (fun k => ~ occurs k n) ks)
  \/ exists pre post, ks = pre ++ first_key n ks :: post /\ occurs (first_key n ks) n
       /\ Forall (fun k => ~ occurs k n) pre.
Proof.
  induction ks as [|k ks IH]; cbn [first_key]; [by left|].
  destruct (containsFold n k) eqn:E.
  - right. exists [], ks. split_and!; [done|by apply containsFold_occurs|done].
  - assert (~ occurs k n) as Hk by (rewrite <- containsFold_occurs; congruence).
    destruct IH as [[-> H]|(pre & post & E' & Ho & Hp)]; [left; split; [done|by constructor]|right].
    exists (k :: pre), post. split_and!; [by rewrite E' at 1|done|by constructor].
Qed.

Lemma first_key_hex4 v : first_key (hex4 v) bulk_keys = EmptyString.
Proof.
  destruct (first_key_spec (hex4 v) bulk_keys) as [[H _]|(pre & post & Ek & Ho & _)]; [done|].
  destruct (hex4_no_key v (first_key (hex4 v) bulk_keys)); [|exact Ho].
  generalize dependent (first_key (hex4 v) bulk_keys). intros k -> _. apply elem_of_app. right. left.
Qed.

Lemma Symmetric_named c : c < 0x1301 \/ 0x1305 < c -> Symmetric c = first_key (CipherName c) bulk_keys.
Proof. intros Hc. unfold Symmetric. repeat (case_eqb; [lia|]). done. Qed.

Lemma Symmetric_unknown c :
  cipherSuites !! c = None -> first_key (CipherName c) bulk_keys = EmptyString.
Proof.
  intros E. unfold CipherName. rewrite E. destruct (c =? 0); [vm_compute; reflexivity|apply first_key_hex4].
Qed.

(** The bulk cipher shown.  Outside the TLS 1.3 range [Symmetric] is the first of
    its keys that occurs, up to case, in the suite's name, and empty exactly when none
    does - in particular for every suite that is shown by its code point.  Of the five
    TLS 1.3 suites it names three rightly, but calls the two CCM suites GCM. *)
Theorem symmetric_classifies c :
  let name := CipherName c in
  let key := Symmetric c in
  if (0x1301 <=? c) && (c <=? 0x1305) then
    key = nth (Z.to_nat (c - 0x1301)) ["AES-128-GCM"; "AES-256-GCM"; "ChaCha20-Poly1305"; "AES-128-GCM"; "AES-128-GCM"]%string key
    /\ (0x1304 <= c -> occurs "AES_128_CCM" name /\ ~ occurs "GCM" name)
  else
    (key = EmptyString /\ Forall (fun k => ~ occurs k name) bulk_keys
     \/ exists pre post, bulk_keys = pre ++ key :: post /\ occurs key name /\ Forall (fun k => ~ occurs k name) pre)
    /\ (cipherSuites !! c = None -> key = EmptyString).
Proof.
  cbn zeta. destruct (Z.leb_spec 0x1301 c), (Z.leb_spec c 0x1305); cbn [andb].
  - assert (c = 0x1301 \/ c = 0x1302 \/ c = 0x1303 \/ c = 0x1304 \/ c = 0x1305) as Hc by lia.
    assert (forall c, c = 0x1304 \/ c = 0x1305 ->
      occurs "AES_128_CCM" (CipherName c) /\ ~ occurs "GCM" (CipherName c)) as Hccm.
    { intros d Hd. rewrite <- !containsFold_occurs. destruct Hd as [-> | ->]; (split; [|apply not_true_iff_false]); vm_compute; reflexivity. }
    destruct Hc as [->|[->|[->|Hc]]]; [split; [vm_compute; reflexivity|intros; lia]..|].
    split; [destruct Hc as [-> | ->]; vm_compute; reflexivity|auto].
  - rewrite Symmetric_named by lia. split; [apply first_key_spec|apply Symmetric_unknown].
  - rewrite Symmetric_named by lia. split; [apply first_key_spec|apply Symmetric_unknown].
  - lia.
Qed.
