(* ===== verification/UnitTests.v ===== *)
(** internal/tlsparse/parse_test.go and server_test.go: the assertions of the tests, and
    that the parser meets them.

    What crypto/tls sends in a test is not fixed; the assertions are proved for every
    flight a peer with the test's configuration can send, in the encoding of TlsWire.  The
    buffers of TestParseTruncated are those of the test. *)
From S2P Require Import Prelude TlsParse TlsSpec TlsEquiv TlsDuplex TlsWire Names NamesProps.

(** ** Assertions *)

Definition TestParseClientHello (info : Info) : bool :=
  HasClientHello info && String.eqb (SNI info) "example.com"
  && match ALPN info with p :: _ => String.eqb p "h2" | [] => false end
  && negb (zlen (OfferedSigs info) =? 0).

Definition TestParseServerHelloAndCert12 (info : Info) : bool :=
  HasServerHello info && (NegVersion info =? 0x0303) && negb (String.eqb (CipherName (CipherSuite info)) EmptyString)
  && HasCert info && String.eqb (CertSubject info) "tlstat.test".

Definition truncated_buffers : list (list Z) :=
  [[]; [0x16]; [0x16; 0x03; 0x01; 0x00]; [0x17; 0x03; 0x03; 0x00; 0x10; 0x00]].

(** ** They hold *)

Lemma flight_Parse `{X509} ms buf : Forall is_byte buf -> flight_bytes ms buf -> Parse buf Info_zero = Ok (see_all ms Info_zero).
Proof. intros Hb Hf. rewrite Parse_writes by done. f_equal. by apply flight_parsed. Qed.

(** The client is configured with the server name example.com and the protocols h2 and
    http/1.1, and offers signature algorithms. *)
Theorem TestParseClientHello_passes `{X509} h buf :
  Forall is_byte buf -> flight_bytes [MClientHello h] buf ->
  final ext_host EmptyString (ch_exts h) = "example.com"%string ->
  final ext_alpn [] (ch_exts h) = ["h2"; "http/1.1"]%string -> final ext_sigs [] (ch_exts h) <> [] ->
  exists info, Parse buf Info_zero = Ok info /\ TestParseClientHello info = true.
Proof.
  intros Hb Hf Hn Hp Hs. eexists. split; [by apply flight_Parse|]. unfold TestParseClientHello. cbn [see_all fold_left see see_client].
  unfold see_client. cbn [HasClientHello SNI ALPN OfferedSigs Info_zero]. rewrite Hn, Hp.
  destruct (final ext_sigs [] (ch_exts h)) as [|s l]; [done|]. rewrite zlen_cons. pose proof (zlen_nonneg l).
  by destruct (Z.eqb_spec (1 + zlen l) 0); [lia|].
Qed.

(** The server speaks TLS 1.2 with a suite the table names, and its certificate's common
    name is tlstat.test; other handshake messages follow, then other records. *)
Theorem TestParseServerHelloAndCert12_passes `{X509} h der chain cert rest buf :
  Forall is_byte buf ->
  flight_bytes (MServerHello h :: MCertificate (der :: chain) :: ((fun m => MOther m.1 m.2) <$> rest)) buf ->
  server_version h = 0x0303 -> CipherName (sh_suite h) <> EmptyString ->
  der <> [] -> ParseCertificate der = Some cert -> Subject_CommonName cert = "tlstat.test"%string ->
  exists info, Parse buf Info_zero = Ok info /\ TestParseServerHelloAndCert12 info = true.
Proof.
  intros Hb Hf Hv Hc Hd Hp Hs. eexists. split; [by apply flight_Parse|].
  assert (forall i, see_all ((fun m => MOther m.1 m.2) <$> rest) i = i) as Hrest.
  { clear. induction rest as [|m rest IH]; intros i; [done|]. apply IH. }
  change (see_all (?a :: ?b :: ?l) Info_zero) with (see_all l (see b (see a Info_zero))). rewrite Hrest.
  cbn [see]. unfold see_chain. destruct der as [|b der]; [done|]. rewrite Hp.
  assert (cert_subject cert = "tlstat.test"%string) as -> by (unfold cert_subject; by rewrite Hs).
  unfold TestParseServerHelloAndCert12, see_server. cbn [set_cert HasServerHello NegVersion CipherSuite HasCert CertSubject].
  rewrite Hv. destruct (String.eqb_spec (CipherName (sh_suite h)) EmptyString); done.
Qed.

Example TestParseTruncated_passes `{X509} :
  Forall (fun b => exists info, Parse b Info_zero = Ok info) truncated_buffers.
Proof. repeat (apply Forall_cons; split); [by eexists..|apply Forall_nil; exact I]. Qed.
