(* ===== verification/Ui.v ===== *)
(** internal/ui/ui.go: the state of the terminal interface.

    The model of the bubbletea program: what its messages do to the rows, the selection
    and the modes, which rows a screen shows and which connection the detail panel
    describes; Render turns this into text.  [sort.Slice] is the class
    [SortSlice]; the keys arrive as the strings of tea.KeyMsg. *)
From S2P Require Import Prelude Slices Proc Store.

(** [sort.Slice]: for a strict weak order, a sorted permutation; which one, is not
    specified. *)
Class SortSlice := sort_slice : forall {A : Type}, (A -> A -> bool) -> list A -> list A.

Record weak_order {A} (less : A -> A -> bool) : Prop := {
  wo_irrefl a : less a a = false;
  wo_trans a b c : less a b = true -> less b c = true -> less a c = true;
  wo_incomp a b c : less b a = false -> less c b = false -> less c a = false }.

Class SortSliceOk `{SortSlice} : Prop := sort_slice_ok A (less : A -> A -> bool) l :
  weak_order less ->
  sort_slice less l ≡ₚ l /\ StronglySorted (fun a b => less b a = false) (sort_slice less l).

(** ** State *)

Inductive sortMode := sortActive | sortBytes | sortPid.
Inductive viewMode := viewActive | viewClosed | viewAll.

(** [(m + 1) % 3] *)
Definition next_sort (m : sortMode) : sortMode :=
  match m with sortActive => sortBytes | sortBytes => sortPid | sortPid => sortActive end.
Definition next_view (v : viewMode) : viewMode :=
  match v with viewActive => viewClosed | viewClosed => viewAll | viewAll => viewActive end.

Record Model := mkModel {
  m_rows : list Conn; m_sel : Z; m_sortBy : sortMode; m_view : viewMode; m_peek : bool;
  m_w : Z; m_h : Z }.

Definition New_model : Model := mkModel [] 0 sortActive viewActive false 0 0.

Definition set_sel (x : Z) (m : Model) : Model :=
  mkModel (m_rows m) x (m_sortBy m) (m_view m) (m_peek m) (m_w m) (m_h m).
Definition set_rows (x : list Conn) (m : Model) : Model :=
  mkModel x (m_sel m) (m_sortBy m) (m_view m) (m_peek m) (m_w m) (m_h m).

(** ** Sorting *)

Definition conn_less (by_ : sortMode) (a b : Conn) : bool :=
  if negb (Bool.eqb (cn_IsTLS a) (cn_IsTLS b)) then cn_IsTLS a
  else
    match by_ with
    | sortBytes => wrap 64 (cn_TxBytes b + cn_RxBytes b) <? wrap 64 (cn_TxBytes a + cn_RxBytes a)
    | sortPid =>
        if negb (cn_Pid a =? cn_Pid b) then cn_Pid a <? cn_Pid b else cn_Sock a <? cn_Sock b
    | sortActive => cn_LastActive b <? cn_LastActive a
    end.

Definition sortConns `{SortSlice} (cs : list Conn) (by_ : sortMode) : list Conn :=
  sort_slice (conn_less by_) cs.

(** ** refresh *)

(** [s1] is the store when the snapshot is taken, [s2] when the history is: the store
    may change in between. *)
Definition refresh `{MapRange, SortSlice} (id : nat) (s1 s2 : Store) (m : Model) : Model :=
  let live :=
    match m_view m with
    | viewActive | viewAll => filter (fun c => HasEndpoint c = true) (Snapshot id s1)
    | viewClosed => []
    end in
  let closed :=
    match m_view m with
    | viewClosed | viewAll => SnapshotHistory s2
    | viewActive => []
    end in
  let m := set_rows (sortConns live (m_sortBy m) ++ closed) m in
  let m := if zlen (m_rows m) <=? m_sel m then set_sel (zlen (m_rows m) - 1) m else m in
  if m_sel m <? 0 then set_sel 0 m else m.

(** ** Update *)

Inductive Msg : Type :=
| WindowSizeMsg (w h : Z)
| KeyMsg (key : string)
| tickMsg (id : nat) (s1 s2 : Store)
| OtherMsg.

Inductive Cmd : Type := NoCmd | Quit_ | Tick_.

Definition is_key (key : string) (l : list string) : bool := existsb (String.eqb key) l.

Definition handle_key (key : string) (m : Model) : Model * Cmd :=
  if is_key key ["q"; "ctrl+c"]%string then (m, Quit_)
  else if is_key key ["up"; "k"]%string then
    (if 0 <? m_sel m then set_sel (m_sel m - 1) m else m, NoCmd)
  else if is_key key ["down"; "j"]%string then
    (if m_sel m <? zlen (m_rows m) - 1 then set_sel (m_sel m + 1) m else m, NoCmd)
  else if is_key key ["enter"; " "]%string then
    (mkModel (m_rows m) (m_sel m) (m_sortBy m) (m_view m) (negb (m_peek m)) (m_w m) (m_h m), NoCmd)
  else if is_key key ["tab"]%string then
    (mkModel (m_rows m) 0 (m_sortBy m) (next_view (m_view m)) (m_peek m) (m_w m) (m_h m), NoCmd)
  else if is_key key ["s"]%string then
    (mkModel (m_rows m) (m_sel m) (next_sort (m_sortBy m)) (m_view m) (m_peek m) (m_w m) (m_h m), NoCmd)
  else if is_key key ["g"]%string then (set_sel 0 m, NoCmd)
  else if is_key key ["G"]%string then (set_sel (zlen (m_rows m) - 1) m, NoCmd)
  else (m, NoCmd).

Definition Update `{MapRange, SortSlice} (msg : Msg) (m : Model) : Model * Cmd :=
  match msg with
  | WindowSizeMsg w h =>
      (mkModel (m_rows m) (m_sel m) (m_sortBy m) (m_view m) (m_peek m) w h, NoCmd)
  | KeyMsg key => handle_key key m
  | tickMsg id s1 s2 => (refresh id s1 s2 m, Tick_)
  | OtherMsg => (m, NoCmd)
  end.

(** The program loop: every message until one quits. *)
Fixpoint updates `{MapRange, SortSlice} (msgs : list Msg) (m : Model) : Model :=
  match msgs with
  | [] => m
  | msg :: msgs =>
      match Update msg m with
      | (m, Quit_) => m
      | (m, _) => updates msgs m
      end
  end.

(** ** What is on screen *)

Definition maxRows (m : Model) : Z :=
  let detailH := if m_peek m then 22 else 12 in
  let r := m_h m - (4 + detailH + 1) in
  if r <? 3 then 3 else r.

Definition start (m : Model) : Z := if maxRows m <=? m_sel m then m_sel m - maxRows m + 1 else 0.

(** [m.rows[i]] with Go's bounds check. *)
Definition row_at (m : Model) (i : Z) : go Conn :=
  if 0 <=? i then match m_rows m !! Z.to_nat i with Some c => Ok c | None => Panic end else Panic.

(** The rows drawn, each with whether it is highlighted. *)
Fixpoint draw (m : Model) (i : Z) (fuel : nat) : go (list (Conn * bool)) :=
  match fuel with
  | O => NoFuel
  | S fuel =>
      if (i <? zlen (m_rows m)) && (i <? start m + maxRows m) then
        do! c <- row_at m i;
        do! rest <- draw m (i + 1) fuel;
        Ok ((c, i =? m_sel m) :: rest)
      else Ok []
  end.
Definition visible (m : Model) : go (list (Conn * bool)) := draw m (start m) (S (length (m_rows m))).

(** The connection renderDetail describes. *)
Definition detail (m : Model) : go (option Conn) :=
  if (zlen (m_rows m) =? 0) || (zlen (m_rows m) <=? m_sel m) then Ok None
  else do! c <- row_at m (m_sel m); Ok (Some c).

(** ** The order is a strict weak order *)

(** The sort key: smaller comes first. *)
Definition sort_key (by_ : sortMode) (c : Conn) : Z * Z * Z :=
  let tls := if cn_IsTLS c then 0 else 1 in
  match by_ with
  | sortBytes => (tls, - wrap 64 (cn_TxBytes c + cn_RxBytes c), 0)
  | sortPid => (tls, cn_Pid c, cn_Sock c)
  | sortActive => (tls, - cn_LastActive c, 0)
  end.

Definition key_lt (x y : Z * Z * Z) : Prop :=
  let '(x1, x2, x3) := x in let '(y1, y2, y3) := y in
  x1 < y1 \/ x1 = y1 /\ (x2 < y2 \/ x2 = y2 /\ x3 < y3).

Lemma conn_less_key by_ a b : conn_less by_ a b = true <-> key_lt (sort_key by_ a) (sort_key by_ b).
Proof.
  unfold conn_less, sort_key, key_lt.
  destruct (cn_IsTLS a), (cn_IsTLS b), by_; cbn [negb Bool.eqb];
    try destruct (Z.eqb_spec (cn_Pid a) (cn_Pid b)); cbn [negb];
    rewrite ?Z.ltb_lt; try (split; [lia|intros]; try done); lia.
Qed.

Lemma conn_less_order by_ : weak_order (conn_less by_).
Proof.
  assert (forall a b, conn_less by_ a b = false <-> ~ key_lt (sort_key by_ a) (sort_key by_ b)) as Hf.
  { intros a b. rewrite <- conn_less_key. by destruct (conn_less by_ a b). }
  split; intros *; rewrite ?Hf, ?conn_less_key; unfold key_lt;
    repeat match goal with |- context [sort_key by_ ?c] => destruct (sort_key by_ c) as [[??]?] end; lia.
Qed.

(** ** The selection *)

Definition sel_ok (m : Model) : Prop :=
  (m_rows m = [] /\ -1 <= m_sel m <= 0) \/ 0 <= m_sel m < zlen (m_rows m).

Lemma zlen_pos {A} (l : list A) : l <> [] -> 0 < zlen l.
Proof. destruct l; [done|]. rewrite zlen_cons. pose proof (zlen_nonneg l). lia. Qed.

(** A selection in range of the rows, for rows that may be empty. *)
Lemma sel_ok_intro m :
  -1 <= m_sel m <= 0 \/ 0 <= m_sel m < zlen (m_rows m) ->
  (m_rows m <> [] -> 0 <= m_sel m < zlen (m_rows m)) -> sel_ok m.
Proof.
  intros H1 H2. unfold sel_ok. destruct (decide (m_rows m = [])) as [E|E]; [|by right; apply H2].
  left. split; [done|]. assert (zlen (m_rows m) = 0) by (by rewrite E). lia.
Qed.

Lemma refresh_sel `{MapRange, SortSlice} id s1 s2 m : sel_ok (refresh id s1 s2 m).
Proof.
  unfold refresh. set (m1 := set_rows _ m). pose proof (zlen_nonneg (m_rows m1)).
  apply sel_ok_intro; [|intros Hp%zlen_pos; revert Hp];
    destruct (Z.leb_spec (zlen (m_rows m1)) (m_sel m1)); cbn [m_sel m_rows set_sel];
    match goal with |- context [?x <? 0] => destruct (Z.ltb_spec x 0) end;
    cbn [m_sel m_rows set_sel]; lia.
Qed.

Lemma Update_sel `{MapRange, SortSlice} msg m : sel_ok m -> sel_ok (Update msg m).1.
Proof.
  intros Hs. destruct msg as [w h|key|id s1 s2|]; cbn [Update fst]; try done; [|apply refresh_sel].
  assert (forall x, (m_rows m = [] -> -1 <= x <= 0) -> (m_rows m <> [] -> 0 <= x < zlen (m_rows m)) ->
    sel_ok (set_sel x m)) as Hset.
  { intros x H1 H2. unfold sel_ok. cbn [m_rows m_sel set_sel].
    destruct (decide (m_rows m = [])); [left; auto|right; auto]. }
  assert (m_rows m <> [] -> 0 < zlen (m_rows m)) as Hpos by apply zlen_pos.
  assert (m_rows m = [] -> zlen (m_rows m) = 0) as Hnil by (by intros ->).
  unfold handle_key. repeat (case_match; [first [exact Hs|cbn [fst]]|]); try exact Hs.
  - destruct (Z.ltb_spec 0 (m_sel m)); [|done].
    apply Hset; intros Hr; [apply Hnil in Hr|]; destruct Hs as [[]|]; lia || done.
  - destruct (Z.ltb_spec (m_sel m) (zlen (m_rows m) - 1)); [|done].
    apply Hset; intros Hr; [apply Hnil in Hr|]; destruct Hs as [[]|]; lia || done.
  - apply (Hset 0); intros Hr; [lia|apply Hpos in Hr; lia].
  - apply (Hset 0); intros Hr; [lia|apply Hpos in Hr; lia].
  - apply Hset; intros Hr; [apply Hnil in Hr|apply Hpos in Hr]; lia.
Qed.

Lemma updates_sel `{MapRange, SortSlice} msgs m : sel_ok m -> sel_ok (updates msgs m).
Proof.
  revert m. induction msgs as [|msg msgs IH]; intros m Hs; cbn [updates]; [done|].
  pose proof (Update_sel msg m Hs) as H1. destruct (Update msg m) as [m1 []]; auto.
Qed.

(** ** The rows drawn *)

(** Only a resize changes the width. *)
Lemma updates_width `{MapRange, SortSlice} msgs m :
  Forall (fun msg => match msg with WindowSizeMsg w _ => 0 <= w | _ => True end) msgs ->
  0 <= m_w m -> 0 <= m_w (updates msgs m).
Proof.
  intros Hm. revert m. induction Hm as [|msg msgs H1 _ IH]; intros m Hw; cbn [updates]; [done|].
  assert (0 <= m_w (fst (Update msg m))) as Hu.
  { destruct msg as [w h|key|id s1 s2|]; cbn [Update fst]; [done| | |done].
    - unfold handle_key. by repeat case_match.
    - unfold refresh. by repeat case_match. }
  destruct (Update msg m) as [m1 []]; cbn [fst] in Hu; auto.
Qed.

Lemma row_at_ok m i : 0 <= i < zlen (m_rows m) -> exists c, row_at m i = Ok c /\ m_rows m !! Z.to_nat i = Some c.
Proof.
  intros Hi. unfold row_at. destruct (Z.leb_spec 0 i); [|lia].
  destruct (lookup_lt_is_Some_2 (m_rows m) (Z.to_nat i)) as [c Hc]; [unfold zlen in Hi; lia|].
  exists c. by rewrite Hc.
Qed.

Lemma maxRows_pos m : 3 <= maxRows m.
Proof. unfold maxRows. match goal with |- context [?x <? 3] => destruct (Z.ltb_spec x 3) end; lia. Qed.

Lemma start_nonneg m : 0 <= start m.
Proof. unfold start. destruct (Z.leb_spec (maxRows m) (m_sel m)); lia. Qed.

(** From [i] on, with fuel for the rows left. *)
Lemma draw_spec m i fuel :
  0 <= i -> Z.max 0 (zlen (m_rows m) - i) < Z.of_nat fuel ->
  exists l, draw m i fuel = Ok l
    /\ l.*1 = ztake (start m + maxRows m - i) (zdrop i (m_rows m))
    /\ (forall k c b, l !! k = Some (c, b) -> b = (i + Z.of_nat k =? m_sel m)).
Proof.
  revert i. induction fuel as [|fuel IH]; intros i Hi Hf; [|cbn [draw]].
  - lia.
  - destruct (Z.ltb_spec i (zlen (m_rows m))) as [Hlt|Hge]; cbn [andb].
    + destruct (Z.ltb_spec i (start m + maxRows m)) as [Hw|Hw].
      * destruct (row_at_ok m i) as (c & -> & Hc); [lia|]. cbn [go_bind].
        destruct (IH (i + 1)) as (l & -> & Hl & Hb); [lia|lia|]. cbn [go_bind].
        eexists. split; [done|]. split.
        -- cbn [fmap list_fmap fst]. rewrite Hl. unfold ztake, zdrop.
           erewrite (drop_S (m_rows m) c (Z.to_nat i)) by done.
           replace (Z.to_nat (start m + maxRows m - i)) with (S (Z.to_nat (start m + maxRows m - (i + 1)))) by lia.
           by replace (Z.to_nat (i + 1)) with (S (Z.to_nat i)) by lia.
        -- intros [|k] c' b'; cbn [lookup list_lookup]; [intros [= _ <-]; by rewrite Z.add_0_r|].
           intros Hk. rewrite (Hb k c' b' Hk). f_equal. lia.
      * exists []. split; [done|]. split; [|done]. unfold ztake.
        replace (Z.to_nat (start m + maxRows m - i)) with O by lia. done.
    + exists []. split; [done|]. split; [|done]. unfold ztake, zdrop.
      rewrite drop_ge by (unfold zlen in *; lia). by rewrite take_nil.
Qed.
