(* ===== verification/UiProps.v ===== *)
(** The terminal interface: its properties. *)
From S2P Require Import Prelude Loader Slices Proc Store StoreProps Ui.

#[local] Existing Instance demo_range.
#[local] Existing Instance demo_range_ok.

(** Sorting by merging, for the witness. *)
Definition not_after {A} (less : A -> A -> bool) (a b : A) : Prop := less b a = false.
#[local] Instance not_after_dec {A} (less : A -> A -> bool) a b : Decision (not_after less a b).
Proof. unfold not_after. apply _. Defined.
#[local] Instance demo_sort : SortSlice := fun A less l => merge_sort (not_after less) l.
#[local] Instance demo_sort_ok : SortSliceOk.
Proof.
  intros A less l Ho. unfold sort_slice, demo_sort. split; [apply merge_sort_Permutation|].
  apply StronglySorted_merge_sort.
  - intros x y z H1 H2. by apply (wo_incomp less Ho x y z).
  - intros x y. destruct (less y x) eqn:E; [|by left]. right.
    destruct (less x y) eqn:E'; [|done].
    pose proof (wo_trans less Ho _ _ _ E E') as H. by rewrite (wo_irrefl less Ho) in H.
Qed.

(** C32: the selection.  After any messages - keys, resizes, ticks that find whatever is
    in the store - no row is indexed out of range; with no rows nothing is drawn or
    described; otherwise the detail panel describes the selected connection, at most
    [maxRows] consecutive rows are drawn, and exactly one of them is highlighted: the
    connection described. *)
Theorem screen_selection `{MapRange, SortSlice} (msgs : list Msg) :
  let m := updates msgs New_model in
  if decide (m_rows m = []) then detail m = Ok None /\ visible m = Ok []
  else exists c l, detail m = Ok (Some c) /\ visible m = Ok l
    /\ l.*1 = ztake (maxRows m) (zdrop (start m) (m_rows m))
    /\ exists k, l !! k = Some (c, true) /\ forall k' c', l !! k' = Some (c', true) -> k' = k.
Proof.
  cbn zeta. assert (sel_ok (updates msgs New_model)) as Hs by (apply updates_sel; left; done).
  revert Hs. generalize (updates msgs New_model). intros m Hs.
  pose proof (start_nonneg m) as Hst. pose proof (maxRows_pos m) as Hm.
  destruct (draw_spec m (start m) (S (length (m_rows m)))) as (l & Hl & Hrows & Hflag);
    [lia|unfold zlen; lia|].
  replace (start m + maxRows m - start m) with (maxRows m) in Hrows by lia.
  unfold visible. rewrite Hl. case_decide as Hr.
  - unfold detail. rewrite Hr in *. split; [done|]. f_equal. apply fmap_nil_inv with fst.
    rewrite Hrows. unfold ztake, zdrop. by rewrite drop_nil, take_nil.
  - destruct Hs as [[? _]|Hs]; [done|].
    destruct (row_at_ok m (m_sel m) Hs) as (c & Hc & Hlk). exists c, l.
    unfold detail. destruct (Z.eqb_spec (zlen (m_rows m)) 0); [lia|].
    destruct (Z.leb_spec (zlen (m_rows m)) (m_sel m)); [lia|]. cbn [orb]. rewrite Hc. cbn [go_bind].
    split_and!; [done..|].
    assert (0 <= m_sel m - start m < maxRows m) as Hwin.
    { unfold start. destruct (Z.leb_spec (maxRows m) (m_sel m)); lia. }
    exists (Z.to_nat (m_sel m - start m)). split.
    + assert (l.*1 !! Z.to_nat (m_sel m - start m) = Some c) as Hk.
      { rewrite Hrows. unfold ztake, zdrop. rewrite lookup_take_lt by lia. rewrite lookup_drop.
        rewrite <- Hlk. f_equal. lia. }
      rewrite list_lookup_fmap in Hk. destruct (l !! _) as [[c' b]|] eqn:El; [|done].
      injection Hk as ->. pose proof (Hflag _ _ _ El) as ->. do 2 f_equal. apply Z.eqb_eq. lia.
    + intros k' c' Hk'. apply Hflag in Hk'. symmetry in Hk'. apply Z.eqb_eq in Hk'. lia.
Qed.

(** C33: the rows after a tick.  The live connections with an endpoint (in the views
    that show them) come first, every one exactly once, TLS before plain and in the
    order of the sort mode; then the history, newest first; and the selection is the
    old one, moved into range. *)
Theorem refresh_rows `{MapRangeOk, SortSliceOk} id s1 s2 m :
  let m' := refresh id s1 s2 m in
  exists live,
    m_rows m' = live ++ (if m_view m is viewActive then [] else rev (history s2))
    /\ live ≡ₚ (if m_view m is viewClosed then []
                else filter (fun c => HasEndpoint c = true) (snd <$> map_to_list (conns s1)))
    /\ StronglySorted (fun a b => ~ key_lt (sort_key (m_sortBy m) b) (sort_key (m_sortBy m) a)) live
    /\ m_sel m' = Z.max 0 (Z.min (m_sel m) (zlen (m_rows m') - 1))
    /\ (m_view m', m_sortBy m', m_peek m') = (m_view m, m_sortBy m, m_peek m).
Proof.
  cbn zeta. set (l0 := match m_view m with viewClosed => [] | _ => filter (fun c => HasEndpoint c = true) (Snapshot id s1) end).
  set (h0 := match m_view m with viewActive => [] | _ => SnapshotHistory s2 end).
  assert (m_rows (refresh id s1 s2 m) = sortConns l0 (m_sortBy m) ++ h0) as Hrows.
  { unfold refresh, l0, h0. destruct (m_view m); by repeat case_match. }
  destruct (sort_slice_ok Conn (conn_less (m_sortBy m)) l0 (conn_less_order _)) as [Hp Hs].
  exists (sortConns l0 (m_sortBy m)). split_and!.
  - rewrite Hrows. unfold h0. by destruct (m_view m).
  - unfold sortConns. rewrite Hp. unfold l0, Snapshot. destruct (m_view m); [|done|];
      by rewrite (range_perm Conn [id] (conns s1)).
  - rewrite <- (list_fmap_id (sortConns _ _)). eapply StronglySorted_fmap; [|exact Hs].
    intros a b Hab. change (~ key_lt (sort_key (m_sortBy m) b) (sort_key (m_sortBy m) a)).
    rewrite <- conn_less_key. congruence.
  - unfold refresh. set (m1 := set_rows _ m). pose proof (zlen_nonneg (m_rows m1)).
    change (m_sel m) with (m_sel m1).
    destruct (Z.leb_spec (zlen (m_rows m1)) (m_sel m1)); cbn [m_sel m_rows set_sel];
    match goal with |- context [?x <? 0] => destruct (Z.ltb_spec x 0) end;
    cbn [m_sel m_rows set_sel]; lia.
  - unfold refresh. set (m1 := set_rows _ m). destruct (zlen (m_rows m1) <=? m_sel m1);
      by match goal with |- context [?x <? 0] => destruct (x <? 0) end.
Qed.

(** A TLS connection and a plain one that is more recent, and one without an endpoint. *)
Definition demo_conn (sock last : Z) (tls : bool) (port : Z) : Conn :=
  update_conn last (mkFlow sock 100 [1; 0; 0; 0] [2; 0; 0; 0] 5000 port false 1 tls false "curl" sock 0)
    (new_conn sock 0).

Definition demo_rows_store : Store :=
  set_conns (list_to_map [(7, demo_conn 7 10 true 443); (8, demo_conn 8 20 false 80); (9, demo_conn 9 30 true 0)])
    (New 3 8).

Lemma refresh_rows_witness :
  exists live, m_rows (refresh 0 demo_rows_store demo_rows_store (mkModel [] 5 sortActive viewAll false 80 24)) = live
    /\ cn_Sock <$> live = [7; 8] /\ StronglySorted (fun a b => ~ key_lt (sort_key sortActive b) (sort_key sortActive a)) live.
Proof.
  destruct (refresh_rows 0 demo_rows_store demo_rows_store (mkModel [] 5 sortActive viewAll false 80 24))
    as (live & Hr & _ & Hs & _). exists live. cbn [m_view] in Hr.
  change (rev (history demo_rows_store)) with (@nil Conn) in Hr. rewrite app_nil_r in Hr.
  split; [exact Hr|]. split; [|exact Hs]. rewrite <- Hr. vm_compute. reflexivity.
Defined.
