(* ===== verification/Format.v ===== *)
(** internal/ui/format.go: fitting text into a column.

    Go strings are lists of bytes; [runes] is the conversion []rune(s), which decodes
    UTF-8 and yields U+FFFD for every byte that does not fit, and [encode] is
    string(runes).  Both are given by arithmetic on the bytes. *)
From S2P Require Import Prelude.

(** ** UTF-8 *)

Definition between (lo x hi : Z) : bool := (lo <=? x) && (x <=? hi).
Definition cont (b : Z) : bool := between 128 b 191.

(** Well-formed sequences of two, three and four bytes: no overlong forms, surrogates
    or values above U+10FFFF. *)
Definition two (b0 b1 : Z) : bool := between 194 b0 223 && cont b1.
Definition three (b0 b1 b2 : Z) : bool :=
  between 224 b0 239 && between (if b0 =? 224 then 160 else 128) b1 (if b0 =? 237 then 159 else 191) && cont b2.
Definition four (b0 b1 b2 b3 : Z) : bool :=
  between 240 b0 244 && between (if b0 =? 240 then 144 else 128) b1 (if b0 =? 244 then 143 else 191)
  && cont b2 && cont b3.

Definition RuneError : Z := 65533.
Definition one (b0 : Z) : Z := if b0 <? 128 then b0 else RuneError.

Fixpoint runes (s : list Z) : list Z :=
  match s with
  | [] => []
  | b0 :: s1 =>
      match s1 with
      | [] => one b0 :: runes s1
      | b1 :: s2 =>
          if two b0 b1 then (b0 - 192) * 64 + (b1 - 128) :: runes s2
          else
            match s2 with
            | [] => one b0 :: runes s1
            | b2 :: s3 =>
                if three b0 b1 b2 then (b0 - 224) * 4096 + (b1 - 128) * 64 + (b2 - 128) :: runes s3
                else
                  match s3 with
                  | [] => one b0 :: runes s1
                  | b3 :: s4 =>
                      if four b0 b1 b2 b3 then
                        (b0 - 240) * 262144 + (b1 - 128) * 4096 + (b2 - 128) * 64 + (b3 - 128) :: runes s4
                      else one b0 :: runes s1
                  end
            end
      end
  end.

Definition valid_rune (r : Z) : bool := between 0 r 55295 || between 57344 r 1114111.

Definition encode_rune (r : Z) : list Z :=
  let r := if valid_rune r then r else RuneError in
  if r <? 128 then [r]
  else if r <? 2048 then [192 + r / 64; 128 + r mod 64]
  else if r <? 65536 then [224 + r / 4096; 128 + r / 64 mod 64; 128 + r mod 64]
  else [240 + r / 262144; 128 + r / 4096 mod 64; 128 + r / 64 mod 64; 128 + r mod 64].

Definition encode (rs : list Z) : list Z := rs ≫= encode_rune.

(** ** trunc *)

(** The UTF-8 encoding of the ellipsis, U+2026. *)
Definition ellipsis : list Z := [226; 128; 166].

Definition trunc (s : list Z) (w : Z) : list Z :=
  if w <=? 0 then []
  else
    let r := runes s in
    if w <? zlen r then
      if w =? 1 then ellipsis else encode (ztake (w - 1) r) ++ ellipsis
    else s ++ replicate (Z.to_nat (w - zlen r)) 32.

(** The UTF-8 encoding of the dash, U+2014. *)
Definition dash : list Z := [226; 128; 148].

Definition orDash (s : list Z) : list Z := match s with [] => dash | _ :: _ => s end.

(** ** Facts *)

Ltac utf8 :=
  unfold two, three, four, cont, valid_rune, one, RuneError in *; unfold between in *;
  repeat match goal with
  | H : context [if ?b =? ?k then _ else _] |- _ => destruct (Z.eqb_spec b k)
  | |- context [if ?b =? ?k then _ else _] => destruct (Z.eqb_spec b k)
  end;
  rewrite ?orb_true_iff, ?andb_true_iff, ?andb_false_iff, ?Z.leb_le, ?Z.leb_gt in *.

Lemma runes_valid s : Forall is_byte s -> Forall (fun r => valid_rune r = true) (runes s).
Proof.
  assert (forall b, is_byte b -> valid_rune (one b) = true) as H1.
  { intros b Hb. unfold is_byte in Hb. unfold one. destruct (Z.ltb_spec b 128); [utf8; lia|done]. }
  remember (length s) as n eqn:E. assert (length s <= n)%nat as Hn by lia. clear E.
  revert s Hn. induction n as [|n IH]; intros [|b0 s1] Hn Hb; cbn [length] in Hn; try lia; try constructor.
  apply Forall_cons in Hb as [Hb0 Hb1]. unfold is_byte in H1.
  cbn [runes]. destruct s1 as [|b1 s2]; [constructor; [auto|constructor]|].
  pose proof (Hb1) as [Hx1 Hb2]%Forall_cons. cbn [length] in Hn.
  assert (Forall (fun r => valid_rune r = true) (one b0 :: runes (b1 :: s2))) as Hone
    by (constructor; [auto|apply IH; [cbn [length]; lia|done]]).
  destruct (two b0 b1) eqn:E2; [constructor; [utf8; lia|apply IH; [lia|done]]|].
  destruct s2 as [|b2 s3]; [done|]. apply Forall_cons in Hb2 as [Hx2 Hb3]. cbn [length] in Hn.
  destruct (three b0 b1 b2) eqn:E3; [constructor; [utf8; lia|apply IH; [lia|done]]|].
  destruct s3 as [|b3 s4]; [done|]. apply Forall_cons in Hb3 as [Hx3 Hb4]. cbn [length] in Hn.
  destruct (four b0 b1 b2 b3) eqn:E4; [constructor; [utf8; lia|apply IH; [lia|done]]|done].
Qed.

(** Text that begins with an ASCII character is decoded on its own. *)
Definition ascii_head (t : list Z) : Prop := match t with [] => True | b :: _ => 0 <= b < 128 end.

Lemma not_cont x b0 b1 b2 : 0 <= x < 128 ->
  two b0 x = false /\ (forall y, three b0 x y = false) /\ three b0 b1 x = false
  /\ (forall y z, four b0 x y z = false) /\ (forall z, four b0 b1 x z = false) /\ four b0 b1 b2 x = false.
Proof. intros Hx. split_and!; intros; utf8; lia. Qed.

Lemma runes_app s t : ascii_head t -> runes (s ++ t) = runes s ++ runes t.
Proof.
  intros Ht. remember (length s) as n eqn:E. assert (length s <= n)%nat as Hn by lia. clear E.
  revert s Hn. induction n as [|n IH]; intros [|b0 s1] Hn; cbn [length] in Hn; try lia; try done.
  destruct s1 as [|b1 s2].
  - destruct t as [|x t]; [done|]. cbn [app runes]. destruct (not_cont x b0 0 0 Ht) as (-> & H3 & _ & H4 & _).
    destruct t as [|y t]; [done|]. rewrite H3. destruct t as [|z t]; [done|]. by rewrite H4.
  - cbn [length] in Hn. pose proof (IH (b1 :: s2) ltac:(cbn [length]; lia)) as I1.
    cbn [app] in *. cbn [runes] in I1 |- *. destruct (two b0 b1); [cbn [app]; by rewrite IH by lia|].
    destruct s2 as [|b2 s3].
    + cbn [app]. destruct t as [|x t]; [by rewrite app_nil_r|]. cbn [app] in *.
      destruct (not_cont x b0 b1 0 Ht) as (_ & _ & -> & _ & H4 & _).
      destruct t as [|y t]; [|rewrite H4]; by rewrite I1.
    + cbn [length app] in *. destruct (three b0 b1 b2); [cbn [app]; by rewrite IH by lia|].
      destruct s3 as [|b3 s4].
      * cbn [app] in *. destruct t as [|x t]; [by rewrite app_nil_r|].
        destruct (not_cont x b0 b1 b2 Ht) as (_ & _ & _ & _ & _ & ->). by rewrite I1.
      * cbn [length app] in *. destruct (four b0 b1 b2 b3); [cbn [app]; by rewrite IH by lia|]. by rewrite I1.
Qed.

Lemma runes_spaces n : runes (replicate n 32) = replicate n 32.
Proof.
  induction n as [|n IH]; [done|]. change (replicate (S n) 32) with ([32] ++ replicate n 32) at 1.
  rewrite runes_app by (by destruct n). by rewrite IH.
Qed.

Lemma runes_ellipsis t : runes (ellipsis ++ t) = 8230 :: runes t.
Proof. reflexivity. Qed.

(** A valid rune is read back from its encoding. *)
Lemma runes_encode_rune r t : valid_rune r = true -> runes (encode_rune r ++ t) = r :: runes t.
Proof.
  intros Hr. unfold encode_rune. rewrite Hr.
  assert (0 <= r <= 1114111 /\ (r <= 55295 \/ 57344 <= r)) as [Hb Hs] by (utf8; lia). clear Hr.
  destruct (Z.ltb_spec r 128); [|destruct (Z.ltb_spec r 2048); [|destruct (Z.ltb_spec r 65536)]].
  - assert ((forall x, two r x = false) /\ (forall x y, three r x y = false)
      /\ (forall x y z, four r x y z = false)) as (E2 & E3 & E4) by (split_and!; intros; utf8; lia).
    assert (one r = r) as E1 by (unfold one; by rewrite (proj2 (Z.ltb_lt r 128))).
    destruct t as [|x [|y [|z t]]]; cbn [app runes]; by rewrite E1, ?E2, ?E3, ?E4.
  - pose proof (Z.div_mod r 64 ltac:(lia)). pose proof (Z.mod_pos_bound r 64 ltac:(lia)).
    set (a := r / 64) in *. set (b := r mod 64) in *.
    cbn [app runes]. assert (two (192 + a) (128 + b) = true) as -> by (utf8; lia). f_equal. lia.
  - pose proof (Z.div_mod r 64 ltac:(lia)). pose proof (Z.mod_pos_bound r 64 ltac:(lia)).
    pose proof (Z.div_mod (r / 64) 64 ltac:(lia)). pose proof (Z.mod_pos_bound (r / 64) 64 ltac:(lia)).
    rewrite Z.div_div in * by lia. change (64 * 64) with 4096 in *.
    set (a := r / 4096) in *. set (b := r / 64 mod 64) in *. set (c := r mod 64) in *.
    cbn [app runes]. assert (two (224 + a) (128 + b) = false) as -> by (utf8; lia).
    assert (three (224 + a) (128 + b) (128 + c) = true) as -> by (utf8; lia). f_equal. lia.
  - pose proof (Z.div_mod r 64 ltac:(lia)). pose proof (Z.mod_pos_bound r 64 ltac:(lia)).
    pose proof (Z.div_mod (r / 64) 64 ltac:(lia)). pose proof (Z.mod_pos_bound (r / 64) 64 ltac:(lia)).
    pose proof (Z.div_mod (r / 4096) 64 ltac:(lia)). pose proof (Z.mod_pos_bound (r / 4096) 64 ltac:(lia)).
    rewrite !Z.div_div in * by lia. change (64 * 64) with 4096 in *. change (4096 * 64) with 262144 in *.
    set (a := r / 262144) in *. set (b := r / 4096 mod 64) in *. set (c := r / 64 mod 64) in *.
    set (d := r mod 64) in *.
    cbn [app runes]. assert (two (240 + a) (128 + b) = false) as -> by (utf8; lia).
    assert (three (240 + a) (128 + b) (128 + c) = false) as -> by (utf8; lia).
    assert (four (240 + a) (128 + b) (128 + c) (128 + d) = true) as -> by (utf8; lia). f_equal. lia.
Qed.

Lemma runes_encode rs t :
  Forall (fun r => valid_rune r = true) rs -> runes (encode rs ++ t) = rs ++ runes t.
Proof.
  induction 1 as [|r rs Hr _ IH]; [done|]. unfold encode in *. rewrite bind_cons, <- app_assoc.
  rewrite runes_encode_rune by done. by rewrite IH.
Qed.

(** Runes in [w] columns: padded, or cut with an ellipsis. *)
Definition fit (w : Z) (r : list Z) : list Z :=
  if w <? zlen r then ztake (w - 1) r ++ [8230] else r ++ replicate (Z.to_nat (w - zlen r)) 32.

Lemma zlen_fit w r : 0 < w -> zlen (fit w r) = w.
Proof.
  intros Hw. unfold fit. pose proof (zlen_nonneg r). destruct (Z.ltb_spec w (zlen r)); rewrite zlen_app.
  - rewrite zlen_ztake by lia. change (zlen [8230]) with 1. lia.
  - unfold zlen at 2. rewrite length_replicate. lia.
Qed.

(** What a reader of the column sees. *)
Lemma trunc_runes s w : Forall is_byte s -> 0 < w -> runes (trunc s w) = fit w (runes s).
Proof.
  intros Hs Hw. unfold trunc, fit. destruct (Z.leb_spec w 0); [lia|].
  destruct (Z.ltb_spec w (zlen (runes s))).
  - destruct (Z.eqb_spec w 1) as [->|]; [done|].
    rewrite <- (app_nil_r ellipsis), runes_encode, runes_ellipsis; [done|].
    apply Forall_take. by apply runes_valid.
  - rewrite runes_app, runes_spaces; [done|]. by destruct (Z.to_nat _).
Qed.
