(* ===== verification/Dump.v ===== *)
(** internal/ui/format.go, continued: byte counts for humans and hex dumps; and
    renderPlain of internal/ui/ui.go, which shows plaintext with them.

    Text is a list of bytes.  The styling of lipgloss is a parameter. *)
From S2P Require Import Prelude Format.

Definition str (s : string) : list Z := bytes_of_string s.

(** ** Numbers *)

(** [%d] of a non-negative number: [fuel] digits at most. *)
Fixpoint dec_digits (fuel : nat) (n : Z) : list Z :=
  match fuel with
  | O => []
  | S fuel => (if n <? 10 then [] else dec_digits fuel (n / 10)) ++ [48 + n mod 10]
  end.
Definition dec (n : Z) : list Z := dec_digits 20 n.

(** A quotient to the nearest integer, ties to even. *)
Definition round_even (a d : Z) : Z :=
  let q := a / d in
  let r := a mod d in
  if 2 * r <? d then q else if d <? 2 * r then q + 1 else if Z.even q then q else q + 1.

(** [float64(n)]: 53 significant bits. *)
Definition float64 (n : Z) : Z :=
  if n <? 2 ^ 53 then n else let u := 2 ^ (Z.log2 n - 52) in round_even n u * u.

(** [%.1f] of the quotient of an integral float by a power of two, which is exact. *)
Definition fixed1 (f d : Z) : list Z :=
  let t := round_even (10 * f) d in dec (t / 10) ++ str "." ++ dec (t mod 10).

(** ** humanBytes *)

Definition unit : Z := 1024.

(** [for x := n / unit; x >= unit; x /= unit] *)
Fixpoint unit_loop (fuel : nat) (x div exp : Z) : option (Z * Z) :=
  match fuel with
  | O => None
  | S fuel =>
      if unit <=? x then unit_loop fuel (x / unit) (wrap 64 (div * unit)) (exp + 1) else Some (div, exp)
  end.

Definition humanBytes (n : Z) : go (list Z) :=
  if n <? unit then Ok (dec n ++ str "B")
  else
    match unit_loop 7 (n / unit) unit 0 with
    | Some (div, exp) => do! c <- byte_at (str "KMGTPE") exp; Ok (fixed1 (float64 n) div ++ [c])
    | None => NoFuel
    end.

(** ** hexDump *)

Definition hex_char (d : Z) : Z := if d <? 10 then 48 + d else 87 + d.

(** [%02x] of a byte. *)
Definition hex02 (b : Z) : list Z := [hex_char (b / 16); hex_char (b mod 16)].

Fixpoint hex_digits (fuel : nat) (n : Z) : list Z :=
  match fuel with
  | O => []
  | S fuel => (if n <? 16 then [] else hex_digits fuel (n / 16)) ++ [hex_char (n mod 16)]
  end.
(** [%04x]: at least four digits. *)
Definition hex04 (n : Z) : list Z :=
  let d := hex_digits 16 n in replicate (4 - length d) 48 ++ d.

(** The sixteen cells of a line, from column [j] on; [c] is what is left of the line. *)
Fixpoint cells (n : nat) (j : Z) (c : list Z) : list Z :=
  match n with
  | O => []
  | S n =>
      (match c with b :: _ => hex02 b ++ str " " | [] => str "   " end)
      ++ (if j =? 7 then str " " else []) ++ cells n (j + 1) (tail c)
  end.

(** [unicode.IsPrint(rune(c)) && c < 0x80] *)
Definition printable (c : Z) : bool := between 32 c 126.

Definition dump_line (i : Z) (c : list Z) : list Z :=
  hex04 i ++ str "  " ++ cells 16 0 c ++ str " |"
  ++ ((fun b => if printable b then b else 46) <$> c) ++ str "|" ++ [10].

(** [for i := 0; i < len(b); i += 16]; [b] is what is left from [i] on. *)
Fixpoint dump_lines (fuel : nat) (i : Z) (b : list Z) : list Z :=
  match fuel, b with
  | S fuel, _ :: _ => dump_line i (ztake 16 b) ++ dump_lines fuel (i + 16) (zdrop 16 b)
  | _, _ => []
  end.

Definition hexDump (b : list Z) (max : Z) : go (list Z) :=
  do! b <- (if max <? zlen b then subslice b 0 max else Ok b);
  Ok (dump_lines (length b) 0 b).

(** ** renderPlain *)

Fixpoint bytesEqualPrefix (head tail : list Z) : bool :=
  match tail, head with
  | [], _ => true
  | _ :: _, [] => false
  | t :: tail, h :: head => (h =? t) && bytesEqualPrefix head tail
  end.

(** [strings.TrimRight(s, "\n")], [strings.Split(s, "\n")] and [strings.Join(l, "\n")]. *)
Fixpoint trim_right_nl (s : list Z) : list Z :=
  match s with
  | [] => []
  | c :: s => match trim_right_nl s with [] => if c =? 10 then [] else [c] | t => c :: t end
  end.
Fixpoint split_nl (s : list Z) : list (list Z) :=
  match s with
  | [] => [[]]
  | c :: s =>
      if c =? 10 then [] :: split_nl s
      else match split_nl s with l :: ls => (c :: l) :: ls | [] => [[c]] end
  end.
Fixpoint join_nl (ls : list (list Z)) : list Z :=
  match ls with
  | [] => []
  | [l] => l
  | l :: ls => l ++ [10] ++ join_nl ls
  end.

Definition indent (s : list Z) : list Z :=
  join_nl ((fun l => str "  " ++ l) <$> split_nl (trim_right_nl s)) ++ [10].

Section Plain.
Context (styLabel styDim : list Z -> list Z).

Definition renderPlain (fn verb head tail : list Z) : go (list Z) :=
  if (zlen head =? 0) && (zlen tail =? 0) then Ok []
  else
    let b := str "  " ++ styLabel (str "plaintext ")
             ++ styDim (fn ++ str " (cleartext " ++ verb ++ str ")") ++ [10] in
    do! b <- (if 0 <? zlen head then
                do! d <- hexDump head 128;
                Ok (b ++ str "  " ++ styDim (str "head:") ++ [10] ++ indent d)
              else Ok b);
    if (0 <? zlen tail) && negb (bytesEqualPrefix head tail) then
      do! n <- humanBytes (zlen tail);
      do! d <- hexDump tail 128;
      Ok (b ++ str "  " ++ styDim (str "tail (last " ++ n ++ str "):") ++ [10] ++ indent d)
    else Ok b.
End Plain.

(** ** Facts about rounding *)

Lemma round_even_bound a d : 0 < d -> Z.abs (2 * (round_even a d * d - a)) <= d.
Proof.
  intros Hd. unfold round_even. pose proof (Z.div_mod a d ltac:(lia)). pose proof (Z.mod_pos_bound a d Hd).
  set (q := a / d) in *. set (r := a mod d) in *.
  destruct (Z.ltb_spec (2 * r) d); [|destruct (Z.ltb_spec d (2 * r)); [|destruct (Z.even q)]]; lia.
Qed.

(** Rounding does not leave an interval between multiples. *)
Lemma round_even_between a d lo hi : 0 < d -> lo * d <= a <= hi * d -> lo <= round_even a d <= hi.
Proof.
  intros Hd Ha. unfold round_even. pose proof (Z.div_mod a d ltac:(lia)). pose proof (Z.mod_pos_bound a d Hd).
  set (q := a / d) in *. set (r := a mod d) in *.
  assert (lo <= q <= hi) as Hq by nia. assert (r = 0 \/ q < hi) as Hr by nia.
  destruct (Z.ltb_spec (2 * r) d); [|destruct (Z.ltb_spec d (2 * r)); [|destruct (Z.even q)]]; lia.
Qed.

Lemma float64_bound n : in_width 64 n -> Z.abs (float64 n - n) <= 1024.
Proof.
  intros [Hn1 Hn2]. unfold float64. destruct (Z.ltb_spec n (2 ^ 53)) as [|Hn]; [lia|]. cbn zeta.
  pose proof (Z.log2_spec n ltac:(lia)) as [Hl _].
  assert (Z.log2 n < 64) as Hlog by (apply Z.log2_lt_pow2; lia).
  assert (0 <= Z.log2 n - 52 <= 11) as Hu by (pose proof (Z.log2_le_mono _ _ Hn); rewrite Z.log2_pow2 in *; lia).
  pose proof (Z.pow_le_mono_r 2 (Z.log2 n - 52) 11 ltac:(lia) ltac:(lia)).
  pose proof (Z.pow_pos_nonneg 2 (Z.log2 n - 52) ltac:(lia) ltac:(lia)).
  pose proof (round_even_bound n (2 ^ (Z.log2 n - 52)) ltac:(lia)). lia.
Qed.

Lemma float64_between n k : in_width 64 n -> 0 <= k -> 2 ^ k <= n < 2 ^ (k + 10) -> 2 ^ k <= float64 n <= 2 ^ (k + 10).
Proof.
  intros [Hn1 Hn2] Hk Hn. unfold float64. destruct (Z.ltb_spec n (2 ^ 53)) as [|H53]; [lia|]. cbn zeta.
  pose proof (Z.log2_spec n ltac:(lia)) as [Hl1 Hl2].
  assert (k <= Z.log2 n) as H1 by (apply Z.log2_le_pow2; lia).
  assert (Z.log2 n < k + 10) as H2 by (apply Z.log2_lt_pow2; lia).
  assert (53 <= Z.log2 n) as H3 by (apply Z.log2_le_pow2; lia).
  set (g := Z.log2 n) in *. set (u := 2 ^ (g - 52)).
  assert (0 < u) by (apply Z.pow_pos_nonneg; lia).
  assert (2 ^ (k + 10) = 2 ^ (k + 10 - (g - 52)) * u) as E2
    by (unfold u; rewrite <- Z.pow_add_r by lia; f_equal; lia).
  assert (2 ^ g = 2 ^ 52 * u) as Eg by (unfold u; rewrite <- Z.pow_add_r by lia; f_equal; lia).
  pose proof (round_even_between n u (2 ^ 52) (2 ^ (k + 10 - (g - 52))) ltac:(lia) ltac:(lia)).
  pose proof (Z.pow_le_mono_r 2 k g ltac:(lia) ltac:(lia)). nia.
Qed.

(** ** humanBytes *)

Lemma unit_loop_spec fuel n e :
  in_width 64 n -> 0 <= e <= 5 -> 2 ^ (10 * (e + 1)) <= n -> 5 - e < Z.of_nat fuel ->
  exists e', e <= e' <= 5 /\ 2 ^ (10 * (e' + 1)) <= n < 2 ^ (10 * (e' + 1) + 10)
    /\ unit_loop fuel (n / 2 ^ (10 * (e + 1))) (2 ^ (10 * (e + 1))) e = Some (2 ^ (10 * (e' + 1)), e').
Proof.
  intros Hn. revert e. induction fuel as [|fuel IH]; intros e He Hlo Hf; [lia|]. cbn [unit_loop].
  set (d := 2 ^ (10 * (e + 1))) in *. assert (0 < d) by (apply Z.pow_pos_nonneg; lia).
  assert (2 ^ (10 * (e + 1) + 10) = d * unit) as Ed by (unfold d, unit; rewrite Z.pow_add_r by lia; done).
  assert (10 * (e + 1 + 1) = 10 * (e + 1) + 10) as E10 by lia.
  destruct (Z.leb_spec unit (n / d)) as [Hx|Hx].
  - assert (d * unit <= n) as Hn2 by (unfold unit in *; pose proof (Z.mul_div_le n d ltac:(lia)); nia).
    assert (e + 1 <= 5) as He1.
    { destruct (decide (e = 5)) as [->|]; [|lia]. unfold in_width in Hn. unfold d, unit in *. cbn in *. lia. }
    rewrite Z.div_div by (unfold unit; lia). rewrite wrap_small.
    2:{ unfold in_width in *. split; [unfold unit; lia|lia]. }
    rewrite <- Ed, <- E10. rewrite <- Ed, <- E10 in Hn2.
    destruct (IH (e + 1) ltac:(lia) Hn2 ltac:(lia)) as (e' & He' & Hb & E). exists e'. split; [lia|done].
  - exists e. split; [lia|]. split; [|done]. fold d. rewrite Ed. split; [done|].
    pose proof (Z.div_mod n d ltac:(lia)). pose proof (Z.mod_pos_bound n d ltac:(lia)).
    unfold unit in *. nia.
Qed.

(** The text of a count from 1024 on. *)
Definition human_text (t e : Z) : list Z :=
  dec (t / 10) ++ str "." ++ dec (t mod 10) ++ [nth (Z.to_nat e) (str "KMGTPE") 0].

(** Where float64 rounds at all, the unit is at least 2^50. *)
Lemma unit_large e n : 0 <= e <= 5 -> n < 2 ^ (10 * (e + 1) + 10) -> 2 ^ 53 <= n -> 20 * 1024 <= 2 ^ (10 * (e + 1)) / 2 ^ 35.
Proof.
  intros He Hn H53. assert (4 <= e).
  { destruct (Z.le_gt_cases 4 e); [done|]. pose proof (Z.pow_le_mono_r 2 (10 * (e + 1) + 10) 50 ltac:(lia) ltac:(lia)). lia. }
  pose proof (Z.pow_le_mono_r 2 50 (10 * (e + 1)) ltac:(lia) ltac:(lia)).
  pose proof (Z.div_le_mono (2 ^ 50) (2 ^ (10 * (e + 1))) (2 ^ 35) ltac:(lia) ltac:(lia)) as Hm.
  change (2 ^ 50 / 2 ^ 35) with 32768 in Hm. lia.
Qed.

Lemma humanBytes_spec n :
  in_width 64 n -> 1024 <= n ->
  exists e t, 0 <= e <= 5 /\ 1024 ^ (e + 1) <= n < 1024 ^ (e + 2)
    /\ humanBytes n = Ok (human_text t e)
    /\ 10 <= t <= 10240
    /\ Z.abs (2 * (t * 1024 ^ (e + 1) - 10 * n))
       <= 1024 ^ (e + 1) + (if n <? 2 ^ 53 then 0 else 1024 ^ (e + 1) / 2 ^ 35).
Proof.
  intros Hn Hlo. unfold humanBytes. destruct (Z.ltb_spec n unit) as [|_]; [unfold unit in *; lia|].
  destruct (unit_loop_spec 7 n 0 Hn ltac:(lia) ltac:(done) ltac:(lia)) as (e & He & Hb & E).
  change (2 ^ (10 * (0 + 1))) with unit in E. rewrite E.
  assert (forall k, 0 <= k -> 1024 ^ k = 2 ^ (10 * k)) as Hp.
  { intros k Hk. change 1024 with (2 ^ 10). by rewrite <- Z.pow_mul_r by lia. }
  set (f := float64 n). set (d := 2 ^ (10 * (e + 1))) in *.
  assert (0 < d) by (apply Z.pow_pos_nonneg; lia).
  exists e, (round_even (10 * f) d). rewrite !Hp by lia.
  replace (10 * (e + 2)) with (10 * (e + 1) + 10) by lia. fold d.
  split; [lia|]. split; [done|]. split; [|split].
  - assert (byte_at (str "KMGTPE") e = Ok (nth (Z.to_nat e) (str "KMGTPE") 0)) as ->.
    { assert (e = 0 \/ e = 1 \/ e = 2 \/ e = 3 \/ e = 4 \/ e = 5) as Hc by lia.
      by destruct Hc as [->|[->|[->|[->|[->| ->]]]]]. }
    cbn [go_bind]. unfold fixed1, human_text. cbn zeta. by rewrite <- !app_assoc.
  - pose proof (float64_between n (10 * (e + 1)) Hn ltac:(lia) Hb) as Hf. fold f d in Hf.
    rewrite Z.pow_add_r in Hf by lia. fold d in Hf. change (2 ^ 10) with 1024 in Hf.
    apply round_even_between; [done|lia].
  - pose proof (round_even_bound (10 * f) d ltac:(lia)). destruct (Z.ltb_spec n (2 ^ 53)) as [H53|H53].
    + replace f with n in * by (unfold f, float64; by destruct (Z.ltb_spec n (2 ^ 53)); [|lia]). lia.
    + pose proof (float64_bound n Hn) as Hfb. fold f in Hfb.
      pose proof (unit_large e n He (proj2 Hb) H53) as Hu. fold d in Hu. lia.
Qed.

Lemma humanBytes_ok n : in_width 64 n -> is_ok (humanBytes n).
Proof.
  intros Hn. destruct (Z.ltb_spec n 1024).
  - unfold humanBytes. destruct (Z.ltb_spec n unit); [by eexists|unfold unit in *; lia].
  - destruct (humanBytes_spec n Hn ltac:(lia)) as (e & t & _ & _ & -> & _). by eexists.
Qed.

Lemma dec_digits_length k n fuel : 0 <= n < 10 ^ Z.of_nat k -> (length (dec_digits fuel n) <= Nat.max 1 k)%nat.
Proof.
  revert k n. induction fuel as [|fuel IH]; intros k n Hn; cbn [dec_digits]; [cbn; lia|].
  rewrite length_app. cbn [length]. destruct (Z.ltb_spec n 10); [cbn; lia|].
  destruct k as [|[|k]]; [cbn in Hn; lia|cbn in Hn; lia|].
  specialize (IH (S k) (n / 10)). rewrite (Nat2Z.inj_succ (S k)), Z.pow_succ_r in Hn by lia.
  assert (0 <= n / 10 < 10 ^ Z.of_nat (S k)) as Hd by (Z.to_euclidean_division_equations; lia). specialize (IH Hd). lia.
Qed.

Lemma human_text_length t e : 10 <= t <= 10240 -> zlen (human_text t e) <= 7.
Proof.
  intros Ht. unfold human_text, zlen. rewrite !length_app. cbn [length str].
  pose proof (dec_digits_length 4 (t / 10) 20 ltac:(cbn; Z.to_euclidean_division_equations; lia)).
  pose proof (dec_digits_length 1 (t mod 10) 20 ltac:(cbn; Z.to_euclidean_division_equations; lia)).
  unfold dec. change (length (str ".")) with 1%nat. lia.
Qed.

(** ** Reading a dump back *)

Definition hex_value (c : Z) : option Z :=
  if between 48 c 57 then Some (c - 48) else if between 97 c 102 then Some (c - 87) else None.

(** The bytes of the cells, a blank one standing for none, and what follows them. *)
Fixpoint read_cells (n : nat) (j : Z) (s : list Z) : option (list Z * list Z) :=
  match n with
  | O => Some ([], s)
  | S n =>
      match s with
      | a :: b :: _ :: s =>
          '(l, r) ← read_cells n (j + 1) (if j =? 7 then tail s else s);
          if a =? 32 then Some (l, r)
          else x ← hex_value a; y ← hex_value b; Some (16 * x + y :: l, r)
      | _ => None
      end
  end.

(** The text after the offset and the two spaces that follow it. *)
Fixpoint after_offset (s : list Z) : list Z :=
  match s with
  | [] => []
  | c :: s => if c =? 32 then tail s else after_offset s
  end.
Fixpoint after_nl (s : list Z) : list Z :=
  match s with
  | [] => []
  | c :: s => if c =? 10 then s else after_nl s
  end.

Fixpoint undump_lines (fuel : nat) (s : list Z) : option (list Z) :=
  match s with
  | [] => Some []
  | _ =>
      match fuel with
      | O => None
      | S fuel =>
          '(l, r) ← read_cells 16 0 (after_offset s);
          t ← undump_lines fuel (after_nl r); Some (l ++ t)
      end
  end.
Definition undump (s : list Z) : option (list Z) := undump_lines (length s) s.

Lemma hex_value_char d : 0 <= d < 16 -> hex_value (hex_char d) = Some d /\ hex_char d <> 32.
Proof.
  intros Hd. unfold hex_value, hex_char, between. destruct (Z.ltb_spec d 10).
  - destruct (Z.leb_spec 48 (48 + d)), (Z.leb_spec (48 + d) 57); try lia. cbn. split; [f_equal; lia|lia].
  - destruct (Z.leb_spec 48 (87 + d)), (Z.leb_spec (87 + d) 57), (Z.leb_spec 97 (87 + d)), (Z.leb_spec (87 + d) 102);
      try lia. cbn. split; [f_equal; lia|lia].
Qed.

Lemma read_cells_spec n j c r :
  Forall is_byte c -> read_cells n j (cells n j c ++ r) = Some (take n c, r).
Proof.
  revert j c. induction n as [|n IH]; intros j c Hc; [done|].
  assert (forall x y z s, read_cells (S n) j (x :: y :: z :: (if j =? 7 then str " " else []) ++ s) =
    '(l, r) ← read_cells n (j + 1) s;
    if x =? 32 then Some (l, r) else x ← hex_value x; y ← hex_value y; Some (16 * x + y :: l, r)) as Hstep
    by (intros; cbn [read_cells]; by destruct (j =? 7)).
  destruct c as [|b c].
  - change (cells (S n) j [] ++ r) with (32 :: 32 :: 32 :: ((if j =? 7 then str " " else []) ++ cells n (j + 1) []) ++ r).
    rewrite <- app_assoc, Hstep, IH by done. cbn. by rewrite take_nil.
  - apply Forall_cons in Hc as [Hb Hc].
    change (cells (S n) j (b :: c) ++ r) with (hex_char (b / 16) :: hex_char (b mod 16) :: 32
      :: ((if j =? 7 then str " " else []) ++ cells n (j + 1) c) ++ r).
    rewrite <- app_assoc, Hstep, IH by done. unfold is_byte in Hb.
    destruct (hex_value_char (b / 16)) as [E1 Hne]; [Z.to_euclidean_division_equations; lia|].
    destruct (hex_value_char (b mod 16)) as [E2 _]; [Z.to_euclidean_division_equations; lia|].
    cbn [mbind option_bind take]. rewrite (proj2 (Z.eqb_neq _ _) Hne), E1, E2. cbn [mbind option_bind].
    do 3 f_equal. Z.to_euclidean_division_equations; lia.
Qed.

Lemma hex_digits_space fuel n : 0 <= n -> Forall (fun c => c <> 32) (hex_digits fuel n).
Proof.
  revert n. induction fuel as [|fuel IH]; intros n Hn; cbn [hex_digits]; [constructor|].
  apply Forall_app_2.
  - destruct (n <? 16); [constructor|]. apply IH. by apply Z.div_pos.
  - constructor; [|constructor]. apply hex_value_char. by apply Z.mod_pos_bound.
Qed.

Lemma after_offset_spec d r : Forall (fun c => c <> 32) d -> after_offset (d ++ str "  " ++ r) = r.
Proof.
  induction 1 as [|c d Hc _ IH]; [done|]. cbn [app after_offset]. by rewrite (proj2 (Z.eqb_neq _ _) Hc).
Qed.

Lemma after_nl_spec d r : Forall (fun c => c <> 10) d -> after_nl (d ++ 10 :: r) = r.
Proof.
  induction 1 as [|c d Hc _ IH]; [done|]. cbn [app after_nl]. by rewrite (proj2 (Z.eqb_neq _ _) Hc).
Qed.

(** A line is read back, whatever follows it. *)
Lemma undump_line fuel i c r :
  0 <= i -> Forall is_byte c -> zlen c <= 16 ->
  undump_lines (S fuel) (dump_line i c ++ r) = t ← undump_lines fuel r; Some (c ++ t).
Proof.
  intros Hi Hc Hl. unfold dump_line.
  set (a := (fun b => if printable b then b else 46) <$> c).
  assert (Forall (fun c => c <> 10) (str " |" ++ a ++ str "|")) as Ha.
  { repeat apply Forall_app_2; try (apply (bool_decide_unpack _); vm_compute; exact I).
    apply Forall_map, Forall_true. intros b. unfold printable, between.
    destruct (Z.leb_spec 32 b); [destruct (b <=? 126)|]; cbn; lia. }
  assert (Forall (fun c => c <> 32) (hex04 i)) as Ho.
  { unfold hex04. apply Forall_app_2; [by apply Forall_replicate|by apply hex_digits_space]. }
  replace ((hex04 i ++ str "  " ++ cells 16 0 c ++ str " |" ++ a ++ str "|" ++ [10]) ++ r)
    with (hex04 i ++ str "  " ++ cells 16 0 c ++ (str " |" ++ a ++ str "|") ++ 10 :: r)
    by (by rewrite <- !app_assoc).
  assert (exists x s, hex04 i ++ str "  " ++ cells 16 0 c ++ (str " |" ++ a ++ str "|") ++ 10 :: r = x :: s) as (x & s & Es).
  { destruct (hex04 i); cbn; eauto. }
  rewrite Es. cbn [undump_lines]. rewrite <- Es, after_offset_spec, read_cells_spec by done.
  cbn [mbind option_bind]. rewrite after_nl_spec, take_ge by (done || (unfold zlen in Hl; lia)). done.
Qed.

Lemma undump_dump_lines fuel fuel' i b :
  0 <= i -> Forall is_byte b -> (length b <= fuel)%nat -> (length b <= fuel')%nat ->
  undump_lines fuel' (dump_lines fuel i b) = Some b.
Proof.
  revert fuel' i b. induction fuel as [|fuel IH]; intros fuel' i b Hi Hb Hf Hf'.
  { destruct b; [|cbn in Hf; lia]. by destruct fuel'. }
  destruct b as [|x b]; [by destruct fuel'|]. destruct fuel' as [|fuel']; [cbn in Hf'; lia|].
  cbn [dump_lines]. set (c := x :: b) in *.
  assert (zlen (ztake 16 c) <= 16) as Hz by (unfold zlen, ztake; rewrite length_take; lia).
  rewrite undump_line by (done || by apply Forall_take).
  assert (length (zdrop 16 c) <= length b)%nat as Hd by (unfold zdrop, c; rewrite length_drop; cbn [length]; lia).
  rewrite IH; [|lia|by apply Forall_drop|cbn in Hf; lia|cbn in Hf'; lia].
  cbn [mbind option_bind]. unfold ztake, zdrop. by rewrite take_drop.
Qed.

Lemma dump_line_length i c : (length c <= length (dump_line i c))%nat.
Proof. unfold dump_line. rewrite !length_app, length_fmap. lia. Qed.

Lemma dump_lines_length fuel i b : (length b <= fuel)%nat -> (length b <= length (dump_lines fuel i b))%nat.
Proof.
  revert i b. induction fuel as [|fuel IH]; intros i b Hf; [destruct b; cbn in *; lia|].
  destruct b as [|x b]; [cbn; lia|]. cbn [dump_lines]. set (c := x :: b) in *. rewrite length_app.
  pose proof (dump_line_length i (ztake 16 c)). pose proof (IH (i + 16) (zdrop 16 c)).
  assert (length (ztake 16 c) + length (zdrop 16 c) = length c)%nat by (unfold ztake, zdrop; rewrite <- length_app; by rewrite take_drop).
  assert (length (zdrop 16 c) <= fuel)%nat by (unfold zdrop, c in *; rewrite length_drop; cbn [length] in *; lia).
  lia.
Qed.

Lemma undump_hexDump b max :
  Forall is_byte b -> 0 <= max -> exists t, hexDump b max = Ok t /\ undump t = Some (ztake max b).
Proof.
  intros Hb Hm. unfold hexDump.
  assert ((if max <? zlen b then subslice b 0 max else Ok b) = Ok (ztake max b)) as ->.
  { destruct (Z.ltb_spec max (zlen b)); [|by rewrite ztake_ge].
    unfold subslice. destruct (Z.leb_spec 0 0), (Z.leb_spec 0 max), (Z.leb_spec max (zlen b)); try lia.
    cbn. unfold zdrop. cbn. by rewrite Z.sub_0_r. }
  cbn [go_bind]. set (c := ztake max b). eexists. split; [done|].
  apply undump_dump_lines; [done|by apply Forall_take|done|by apply dump_lines_length].
Qed.

(** ** What a dump and the rendered plaintext depend on *)

Lemma hexDump_take b max : 0 <= max -> hexDump b max = Ok (dump_lines (length (ztake max b)) 0 (ztake max b)).
Proof.
  intros Hm. unfold hexDump. destruct (Z.ltb_spec max (zlen b)); [|by rewrite ztake_ge].
  unfold subslice. destruct (Z.leb_spec 0 0), (Z.leb_spec 0 max), (Z.leb_spec max (zlen b)); try lia.
  cbn [andb go_bind]. unfold zdrop, ztake. cbn [Z.to_nat drop]. by rewrite Z.sub_0_r.
Qed.

Lemma bytesEqualPrefix_spec head tail : bytesEqualPrefix head tail = true <-> tail `prefix_of` head.
Proof.
  revert head. induction tail as [|t tail IH]; intros head.
  { split; [intros _; apply prefix_nil|]. by destruct head. }
  destruct head as [|h head]; cbn [bytesEqualPrefix].
  - split; [done|]. intros [k Hk]. discriminate.
  - rewrite andb_true_iff, IH, Z.eqb_eq. split.
    + intros [-> Hp]. by apply prefix_cons.
    + intros Hp. pose proof (prefix_cons_inv_1 _ _ _ _ Hp) as ->. by apply prefix_cons_inv_2 in Hp.
Qed.
