(* ===== verification/FormatProps.v ===== *)
(** Text on the screen: columns, byte counts, hex dumps and the plaintext panel. *)
From S2P Require Import Prelude Format Dump.

(** A column keeps its width.  Whatever bytes a name consists of - not even UTF-8,
    as command names need not be - [trunc] yields text of exactly [w] runes: the name's
    own, padded with spaces, when they fit, and otherwise its first [w - 1] and an
    ellipsis; no multi-byte character is ever cut.  (Runes are not display columns: a
    wide character counts as one.) *)
Theorem trunc_width s w :
  Forall is_byte s -> 0 < w ->
  zlen (runes (trunc s w)) = w
  /\ runes (trunc s w) =
     (if w <? zlen (runes s) then ztake (w - 1) (runes s) ++ [8230]
      else runes s ++ replicate (Z.to_nat (w - zlen (runes s))) 32).
Proof.
  intros Hs Hw. rewrite trunc_runes by done. split; [by apply zlen_fit|done].
Qed.

(** A name with an accent and a stray byte, in seven columns and in four. *)
Lemma trunc_width_witness :
  runes (trunc [99; 97; 102; 195; 169; 255] 7) = [99; 97; 102; 233; 65533; 32; 32]
  /\ runes (trunc [99; 97; 102; 195; 169; 255] 4) = [99; 97; 102; 8230].
Proof.
  split.
  - destruct (trunc_width [99; 97; 102; 195; 169; 255] 7) as [_ ->];
      [by apply (bool_decide_unpack _)|lia|reflexivity].
  - destruct (trunc_width [99; 97; 102; 195; 169; 255] 4) as [_ ->];
      [by apply (bool_decide_unpack _)|lia|reflexivity].
Defined.

(** ** Byte counts *)

(** C36: byte counts for humans.  On every 64-bit count the loop ends within five turns,
    its divisor never wraps and its exponent never runs past the unit letters, so there is
    no panic; from 1024 on the text is a number of tenths and the letter of the largest
    unit not above the count.  The number is within half a tenth of the unit of the count
    below 2^53, where float64 is exact, and above, where the unit is at least 2^50, within
    half a tenth and a 2^35-th part of that again.  The text is never longer than seven
    bytes - 1048575 is 1024.0K - so that two of them and a slash fit the 18 columns they
    are given. *)
Theorem humanBytes_bounds n :
  in_width 64 n ->
  if n <? 1024 then humanBytes n = Ok (dec n ++ str "B") /\ zlen (dec n ++ str "B") <= 5
  else exists e t, 0 <= e <= 5 /\ 1024 ^ (e + 1) <= n < 1024 ^ (e + 2)
    /\ humanBytes n = Ok (human_text t e) /\ zlen (human_text t e) <= 7
    /\ Z.abs (2 * (t * 1024 ^ (e + 1) - 10 * n))
       <= 1024 ^ (e + 1) + (if n <? 2 ^ 53 then 0 else 1024 ^ (e + 1) / 2 ^ 35).
Proof.
  intros Hn. destruct (Z.ltb_spec n 1024) as [Hlt|Hge].
  - unfold humanBytes. destruct (Z.ltb_spec n unit); [|unfold unit in *; lia]. split; [done|].
    pose proof (dec_digits_length 4 n 20 ltac:(unfold in_width in Hn; cbn; lia)).
    unfold zlen, dec. rewrite length_app. change (length (str "B")) with 1%nat. lia.
  - destruct (humanBytes_spec n Hn Hge) as (e & t & He & Hb & E & Ht & Ha).
    exists e, t. split_and!; try done; try lia. by apply human_text_length.
Qed.

Lemma humanBytes_bounds_witness :
  humanBytes 1048575 = Ok (str "1024.0K") /\ humanBytes (2 ^ 64 - 1) = Ok (str "16.0E")
  /\ exists e t, humanBytes 1536 = Ok (human_text t e) /\ zlen (human_text t e) <= 7.
Proof.
  split_and!; [vm_compute; reflexivity..|].
  pose proof (humanBytes_bounds 1536 ltac:(unfold in_width; lia)) as H. cbn [Z.ltb Z.compare Pos.compare Pos.compare_cont] in H.
  destruct H as (e & t & _ & _ & E & Hl & _). exists e, t. split; [exact E|exact Hl].
Defined.

(** ** Hex dumps *)

(** C37: a dump can be read back.  The hexadecimal columns of [hexDump] - offsets, blanks
    for a last line that is not full, the gap in the middle, an ASCII column in which any
    byte may stand - give back exactly the first [max] bytes; only a negative [max], which
    no caller passes, would panic. *)
Theorem hexDump_readback b max :
  Forall is_byte b ->
  if max <? 0 then hexDump b max = Panic
  else exists t, hexDump b max = Ok t /\ undump t = Some (ztake max b).
Proof.
  intros Hb. destruct (Z.ltb_spec max 0) as [Hn|Hn]; [|by apply undump_hexDump].
  unfold hexDump. pose proof (zlen_nonneg b). destruct (Z.ltb_spec max (zlen b)); [|lia].
  unfold subslice. by destruct (Z.leb_spec 0 max); [lia|].
Qed.

Lemma hexDump_readback_witness :
  exists t, hexDump (replicate 17 124 ++ [10; 32; 255]) 19 = Ok t /\ undump t = Some (replicate 17 124 ++ [10; 32])
    /\ zlen t = 137.
Proof.
  pose proof (hexDump_readback (replicate 17 124 ++ [10; 32; 255]) 19) as H.
  destruct H as (t & E & Hu); [by apply (bool_decide_unpack _)|].
  exists t. split; [exact E|]. split; [exact Hu|]. vm_compute in E. injection E as <-. reflexivity.
Defined.

(** How much plaintext is shown.  The detail panel renders without a panic, and what
    it shows of a direction is the first 128 bytes of the head, the first 128 of the tail
    and the tail's length: bytes further on - the end of the exchange, once it is longer -
    make no difference, and of a tail that is a beginning of the head nothing is shown. *)
Theorem plain_shown styLabel styDim fn verb head tail head' tail' :
  zlen tail < 2 ^ 64 -> head <> [] ->
  ztake 128 head = ztake 128 head' -> ztake 128 tail = ztake 128 tail' -> zlen tail = zlen tail' ->
  bytesEqualPrefix head tail = bytesEqualPrefix head' tail' ->
  is_ok (renderPlain styLabel styDim fn verb head tail)
  /\ renderPlain styLabel styDim fn verb head tail = renderPlain styLabel styDim fn verb head' tail'
  /\ (tail `prefix_of` head ->
      renderPlain styLabel styDim fn verb head tail = renderPlain styLabel styDim fn verb head []).
Proof.
  intros Hlen Hne Eh Et El Ep.
  assert (head' <> []) as Hne' by (intros ->; destruct head; [done|]; unfold ztake in Eh; discriminate).
  apply nonempty_zlen, Z.ltb_lt in Hne, Hne'.
  assert (zlen head =? 0 = false /\ zlen head' =? 0 = false) as [Z1 Z2].
  { rewrite !Z.eqb_neq. apply Z.ltb_lt in Hne, Hne'. lia. }
  unfold renderPlain. rewrite Z1, Z2, Hne, Hne', !hexDump_take by done. rewrite <- Eh, <- Et, <- El, <- Ep.
  cbn [andb go_bind]. split_and!; [|done|].
  - destruct (_ && _); [|by eexists]. pose proof (zlen_nonneg tail).
    pose proof (humanBytes_ok (zlen tail) ltac:(unfold in_width; lia)) as [t ->]. cbn [go_bind]. by eexists.
  - intros Hp%bytesEqualPrefix_spec. rewrite Hp. cbn. by rewrite andb_false_r.
Qed.

(** Three hundred bytes sent in one piece, the last of them changed. *)
Lemma plain_shown_witness :
  let sent c := replicate 299 65 ++ [c] in
  let shown s := renderPlain id id (str "SSL_write") (str "sent") s s in
  is_ok (shown (sent 66)) /\ shown (sent 66) = shown (sent 67).
Proof.
  cbn zeta.
  destruct (plain_shown id id (str "SSL_write") (str "sent") (replicate 299 65 ++ [66]) (replicate 299 65 ++ [66])
    (replicate 299 65 ++ [67]) (replicate 299 65 ++ [67])) as (Hok & E & _); [done..|].
  split; [exact Hok|exact E].
Defined.
