(* ===== verification/Text.v ===== *)
(** The formats of Go's standard library the program prints with: integers, quoted and
    padded strings, durations, and netip.AddrPort.

    Text is a list of bytes; a [time.Duration] is a number of nanoseconds in 64 bits. *)
From S2P Require Import Prelude Proc Format Dump.

(** ** Strings *)

(** [strings.Join] *)
Fixpoint join (sep : list Z) (l : list (list Z)) : list Z :=
  match l with
  | [] => []
  | [s] => s
  | s :: l => s ++ sep ++ join sep l
  end.

(** [strings.Repeat], which panics on a negative count. *)
Definition Repeat (s : list Z) (n : Z) : go (list Z) :=
  if n <? 0 then Panic else Ok (concat (replicate (Z.to_nat n) s)).

(** [%-ws]: at least [w] runes. *)
Definition pad (w : Z) (s : list Z) : list Z := s ++ replicate (Z.to_nat (w - zlen (runes s))) 32.

(** [%q] of text of printable ASCII characters. *)
Definition quote_char (c : Z) : list Z := if (c =? 34) || (c =? 92) then [92; c] else [c].
Definition quote (s : list Z) : list Z := [34] ++ (s ≫= quote_char) ++ [34].

(** [%d] of a signed number. *)
Definition sdec (n : Z) : list Z := if n <? 0 then [45] ++ dec (- n) else dec n.

(** [%v] of a slice of strings. *)
Definition list_text (l : list string) : list Z := [91] ++ join [32] (str <$> l) ++ [93].

(** ** Durations *)

Definition Microsecond : Z := 1000.
Definition Millisecond : Z := 1000 * Microsecond.
Definition Second : Z := 1000 * Millisecond.
Definition Minute : Z := 60 * Second.
Definition Hour : Z := 60 * Minute.

(** A result outside the range is the nearest bound. *)
Definition saturate (z : Z) : Z := Z.max (- 2 ^ 63) (Z.min (2 ^ 63 - 1) z).

(** [t.Sub(u)]; [time.Since(u)] is that of the time now. *)
Definition Sub (t u : Z) : Z := saturate (t - u).

(** [d.Round(m)]: to the nearest multiple, halves away from zero. *)
Definition Round (d m : Z) : Z := saturate (Z.sgn d * (m * ((2 * Z.abs d + m) / (2 * m)))).

(** A positive quotient as float64: [m * 2^-k] is [(m, k)]. *)
Definition fl_quot (n d : Z) : Z * Z :=
  if n =? 0 then (0, 0)
  else
    let k := 52 - (Z.log2 n - Z.log2 d) in
    let k := if n * 2 ^ k <? d * 2 ^ 52 then k + 1 else k in
    (round_even (n * 2 ^ k) d, k).

(** [int(d.Seconds())], [int(d.Minutes())], [int(d.Hours())]: whole units and the rest,
    added as floats, and truncated. *)
Definition whole (d unit : Z) : Z :=
  let n := Z.abs d in
  let '(m, k) := fl_quot (n mod unit) unit in
  let '(s, j) := fl_quot (n / unit * 2 ^ k + m) (2 ^ k) in
  Z.sgn d * (s / 2 ^ j).

(** The digits of a fraction of [prec] digits, without trailing zeros; nothing for 0. *)
Fixpoint frac_digits (prec : nat) (v : Z) (print : bool) : list Z :=
  match prec with
  | O => []
  | S prec =>
      let print := print || negb (v mod 10 =? 0) in
      frac_digits prec (v / 10) print ++ (if print then [48 + v mod 10] else [])
  end.
Definition fmtFrac (v : Z) (prec : nat) : list Z :=
  match frac_digits prec v false with [] => [] | l => [46] ++ l end.

(** [d.String()] *)
Definition Duration_String (d : Z) : list Z :=
  let u := Z.abs d in
  let t :=
    if u =? 0 then str "0s"
    else if u <? Second then
      if u <? Microsecond then dec u ++ str "ns"
      else if u <? Millisecond then dec (u / Microsecond) ++ fmtFrac u 3 ++ str "µs"
      else dec (u / Millisecond) ++ fmtFrac u 6 ++ str "ms"
    else
      let s := u / Second in
      (if 3600 <=? s then dec (s / 3600) ++ str "h" else [])
      ++ (if 60 <=? s then dec (s / 60 mod 60) ++ str "m" else [])
      ++ dec (s mod 60) ++ fmtFrac u 9 ++ str "s" in
  if d <? 0 then [45] ++ t else t.

(** ** Addresses *)

Definition text4 (b : list Z) : list Z := join [46] (dec <$> b).

(** The 16-bit groups of an IPv6 address. *)
Fixpoint groups (b : list Z) : list Z :=
  match b with
  | hi :: lo :: b => 256 * hi + lo :: groups b
  | _ => []
  end.

Fixpoint zero_run (ws : list Z) : Z :=
  match ws with
  | w :: ws => if w =? 0 then 1 + zero_run ws else 0
  | [] => 0
  end.

(** The first longest run of two or more zero groups; 255 for none. *)
Fixpoint longest_run (i : Z) (ws : list Z) (zs ze : Z) : Z * Z :=
  match ws with
  | [] => (zs, ze)
  | _ :: ws' =>
      let l := zero_run ws in
      let '(zs, ze) := if (2 <=? l) && (ze - zs <? l) then (i, i + l) else (zs, ze) in
      longest_run (i + 1) ws' zs ze
  end.

(** Groups in hexadecimal, colons between them, two colons for the run; [fuel] is what is
    left of the eight. *)
Fixpoint text6_from (fuel : nat) (i zs ze : Z) (ws : list Z) : list Z :=
  match fuel with
  | O => []
  | S fuel =>
      if i =? zs then
        [58; 58] ++ (if 8 <=? ze then []
                     else hex_digits 4 (nth (Z.to_nat ze) ws 0) ++ text6_from fuel (ze + 1) zs ze ws)
      else if i <? 8 then
        (if 0 <? i then [58] else []) ++ hex_digits 4 (nth (Z.to_nat i) ws 0) ++ text6_from fuel (i + 1) zs ze ws
      else []
  end.

Definition is_4in6 (b : list Z) : bool := bool_decide (take 12 b = replicate 10 0 ++ [255; 255]).

Definition text6 (b : list Z) : list Z :=
  if is_4in6 b then str "::ffff:" ++ text4 (drop 12 b)
  else
    let ws := groups b in
    let '(zs, ze) := longest_run 0 ws 255 255 in text6_from 9 0 zs ze ws.

(** [p.String()] *)
Definition AddrPort_String (p : AddrPort) : list Z :=
  match ap_addr p with
  | AddrZero => str "invalid AddrPort"
  | AddrFrom4 b => text4 b ++ [58] ++ dec (ap_port p)
  | AddrFrom16 b => [91] ++ text6 b ++ [93; 58] ++ dec (ap_port p)
  end.

(** ** Examples *)

Example loopback6 :
  AddrPort_String (AddrPortFrom (AddrFrom16 (replicate 15 0 ++ [1])) 443) = str "[::1]:443".
Proof. reflexivity. Qed.
Example longest6 :
  AddrPort_String (AddrPortFrom (AddrFrom16 [32;1;13;184;0;0;0;0;0;1;0;0;0;0;0;0]) 80) = str "[2001:db8:0:0:1::]:80".
Proof. reflexivity. Qed.
Example mapped6 :
  AddrPort_String (AddrPortFrom (AddrFrom16 (replicate 10 0 ++ [255;255;10;0;0;1])) 53) = str "[::ffff:10.0.0.1]:53".
Proof. reflexivity. Qed.
Example durations :
  Duration_String (90 * Minute + 1500 * Millisecond) = str "1h30m1.5s" /\ Duration_String (7 * Millisecond) = str "7ms"
  /\ Duration_String (Round 12345678 Millisecond) = str "12ms" /\ Duration_String (- 1500) = str "-1.5µs".
Proof. by vm_compute. Qed.
Example wholes : whole (59 * Second + 999999999) Second = 59 /\ whole (Hour - 1) Minute = 59 /\ whole (-3 * Second) Second = -3.
Proof. by vm_compute. Qed.

(** ** Printable text *)

(** Printable ASCII. *)
Definition printable_text (s : list Z) : Prop := Forall (fun b => 32 <= b < 127) s.

#[export] Instance printable_text_dec s : Decision (printable_text s).
Proof. unfold printable_text. apply _. Defined.

Lemma printable_app s t : printable_text s -> printable_text t -> printable_text (s ++ t).
Proof. apply Forall_app_2. Qed.

Lemma printable_join sep l : printable_text sep -> Forall printable_text l -> printable_text (join sep l).
Proof.
  intros Hs. induction 1 as [|s l H1 Hl IH]; [constructor|]. destruct l as [|s' l]; [done|].
  cbn [join] in *. by repeat apply printable_app.
Qed.

Lemma printable_dec_digits fuel n : printable_text (dec_digits fuel n).
Proof.
  revert n. induction fuel as [|fuel IH]; intros n; cbn [dec_digits]; [constructor|].
  apply printable_app; [destruct (n <? 10); [constructor|apply IH]|].
  pose proof (Z.mod_pos_bound n 10 ltac:(lia)). repeat constructor; lia.
Qed.

Lemma printable_dec n : printable_text (dec n).
Proof. apply printable_dec_digits. Qed.

Lemma printable_sdec n : printable_text (sdec n).
Proof. unfold sdec. destruct (n <? 0); [apply printable_app; [by repeat constructor|]|]; apply printable_dec. Qed.

Lemma printable_hex_char d : 0 <= d < 16 -> 32 <= hex_char d < 127.
Proof. intros Hd. unfold hex_char. destruct (Z.ltb_spec d 10); lia. Qed.

Lemma printable_hex_digits fuel n : printable_text (hex_digits fuel n).
Proof.
  revert n. induction fuel as [|fuel IH]; intros n; cbn [hex_digits]; [constructor|].
  apply printable_app; [destruct (n <? 16); [constructor|apply IH]|].
  constructor; [|constructor]. apply printable_hex_char. by apply Z.mod_pos_bound.
Qed.

#[export] Hint Resolve printable_app printable_join printable_dec printable_sdec printable_hex_digits : tlstat.

(** A literal is checked by computation. *)
Ltac literal := apply (bool_decide_unpack _); vm_compute; exact I.

Lemma printable_text4 b : printable_text (text4 b).
Proof.
  apply printable_join; [literal|]. apply Forall_map, Forall_true. intros. apply printable_dec.
Qed.

Lemma printable_text6_from fuel i zs ze ws : printable_text (text6_from fuel i zs ze ws).
Proof.
  revert i. induction fuel as [|fuel IH]; intros i; cbn [text6_from]; [constructor|].
  destruct (i =? zs); [|destruct (i <? 8); [|constructor]].
  - apply printable_app; [literal|]. destruct (8 <=? ze); [constructor|]. auto with tlstat.
  - apply printable_app; [destruct (0 <? i); literal|]. auto with tlstat.
Qed.

Lemma printable_addr p : printable_text (AddrPort_String p).
Proof.
  unfold AddrPort_String, text6. destruct (ap_addr p) as [|b|b]; [literal|..].
  - apply printable_app; [apply printable_text4|]. apply printable_app; [literal|]. apply printable_dec.
  - apply printable_app; [literal|]. apply printable_app.
    + destruct (is_4in6 b); [apply printable_app; [literal|apply printable_text4]|].
      destruct (longest_run 0 (groups b) 255 255). apply printable_text6_from.
    + apply printable_app; [literal|]. apply printable_dec.
Qed.

Lemma printable_human n t : in_width 64 n -> humanBytes n = Ok t -> printable_text t /\ zlen t <= 7.
Proof.
  intros Hn E. destruct (Z.ltb_spec n 1024).
  - unfold humanBytes in E. destruct (Z.ltb_spec n unit); [|unfold unit in *; lia]. injection E as <-.
    split; [apply printable_app; [apply printable_dec|literal]|].
    pose proof (dec_digits_length 4 n 20 ltac:(unfold in_width in Hn; cbn; lia)).
    unfold zlen, dec. rewrite length_app. change (length (str "B")) with 1%nat. lia.
  - destruct (humanBytes_spec n Hn ltac:(lia)) as (e & x & He & _ & E' & Hx & _). rewrite E in E'. injection E' as ->.
    split; [|by apply human_text_length].
    unfold human_text. repeat (apply printable_app; [first [apply printable_dec|literal]|]).
    constructor; [|constructor].
    assert (e = 0 \/ e = 1 \/ e = 2 \/ e = 3 \/ e = 4 \/ e = 5) as Hc by lia.
    destruct Hc as [->|[->|[->|[->|[->| ->]]]]]; split; vm_compute; (done || discriminate).
Qed.

#[export] Hint Resolve printable_text4 printable_addr : tlstat.

Lemma printable_bytes s : printable_text s -> Forall is_byte s.
Proof. intros Hs. eapply Forall_impl; [exact Hs|]. unfold is_byte. cbn. lia. Qed.

(** ASCII text is its own runes. *)
Lemma runes_ascii s : Forall (fun b => 0 <= b < 128) s -> runes s = s.
Proof.
  induction 1 as [|b s Hb Hs IH]; [done|]. cbn beta in Hb. change (b :: s) with ([b] ++ s). rewrite runes_app.
  - rewrite IH. cbn. unfold one. destruct (Z.ltb_spec b 128); [done|lia].
  - by destruct Hs.
Qed.

Lemma runes_printable s : printable_text s -> runes s = s.
Proof. intros Hs. apply runes_ascii. eapply Forall_impl; [exact Hs|]. cbn. lia. Qed.
