(* ===== verification/Endpoint.v ===== *)
(** The endpoints the program prints can be read back: what netip.AddrPort's String
    prints determines the address and the port.

    The reader is the reference of the round trip; the program prints only. *)
From S2P Require Import Prelude Proc Format Dump Text.

(** ** Reading *)

(** Text between the separators [d]. *)
Fixpoint tokens (d : Z) (s : list Z) : list (list Z) :=
  match s with
  | [] => [[]]
  | c :: s =>
      if c =? d then [] :: tokens d s
      else match tokens d s with t :: ts => (c :: t) :: ts | [] => [[c]] end
  end.

(** A number of at least one digit in base [b]. *)
Fixpoint read_digits (b acc : Z) (s : list Z) : option Z :=
  match s with
  | [] => Some acc
  | c :: s => v ← hex_value c; if v <? b then read_digits b (b * acc + v) s else None
  end.
Definition read_number (b : Z) (s : list Z) : option Z :=
  match s with [] => None | _ => read_digits b 0 s end.

Definition read4 (s : list Z) : option (list Z) := mapM (read_number 10) (tokens 46 s).

(** The tokens before the first empty one. *)
Fixpoint leading (ts : list (list Z)) : list (list Z) :=
  match ts with
  | (_ :: _) as t :: ts => t :: leading ts
  | _ => []
  end.

Definition group_bytes (w : Z) : list Z := [w / 256; w mod 256].

(** Eight groups, or fewer around a gap; the last two may be an IPv4 address. *)
Definition read6 (s : list Z) : option (list Z) :=
  if bool_decide (46 ∈ s) then
    b ← read4 (drop 7 s); Some (replicate 10 0 ++ [255; 255] ++ b)
  else
    let ts := tokens 58 s in
    let before := leading ts in
    let after := if bool_decide (length before = 8%nat) then [] else rev (leading (rev ts)) in
    bs ← mapM (read_number 16) before;
    es ← mapM (read_number 16) after;
    Some ((bs ++ replicate (8 - length bs - length es) 0 ++ es) ≫= group_bytes).

Definition read_endpoint (s : list Z) : option AddrPort :=
  if bool_decide (91 ∈ s) then
    match tokens 93 (tail s) with
    | [a; _ :: p] => b ← read6 a; port ← read_number 10 p; Some (AddrPortFrom (AddrFrom16 b) port)
    | _ => None
    end
  else
    match tokens 58 s with
    | [a; p] => b ← read4 a; port ← read_number 10 p; Some (AddrPortFrom (AddrFrom4 b) port)
    | _ => None
    end.

(** ** Tokens *)

Definition lacks (d : Z) (s : list Z) : Prop := Forall (fun c => c <> d) s.

#[export] Instance lacks_dec d s : Decision (lacks d s).
Proof. unfold lacks. apply _. Defined.

Lemma lacks_not d s : lacks d s -> d ∉ s.
Proof. intros H Hin. by apply (proj1 (Forall_forall _ _) H d Hin). Qed.

Lemma lacks_app d s t : lacks d s -> lacks d t -> lacks d (s ++ t).
Proof. apply Forall_app_2. Qed.

Lemma tokens_lacks d s : lacks d s -> tokens d s = [s].
Proof.
  induction 1 as [|c s Hc Hs IH]; [done|]. cbn [tokens]. by rewrite (proj2 (Z.eqb_neq c d) Hc), IH.
Qed.

Lemma tokens_app d s t : lacks d s -> tokens d (s ++ d :: t) = s :: tokens d t.
Proof.
  induction 1 as [|c s Hc Hs IH]; cbn [app tokens]; [by rewrite Z.eqb_refl|].
  by rewrite (proj2 (Z.eqb_neq c d) Hc), IH.
Qed.

Lemma tokens_join d l : l <> [] -> Forall (lacks d) l -> tokens d (join [d] l) = l.
Proof.
  intros Hl H. induction H as [|s l Hs H IH]; [done|]. destruct l as [|s' l]; [by apply tokens_lacks|].
  change (join [d] (s :: s' :: l)) with (s ++ d :: join [d] (s' :: l)). by rewrite tokens_app, IH.
Qed.

(** ** Numbers *)

Lemma read_digits_app b acc s t :
  read_digits b acc (s ++ t) = v ← read_digits b acc s; read_digits b v t.
Proof.
  revert acc. induction s as [|c s IH]; intros acc; [done|]. cbn [app read_digits].
  destruct (hex_value c) as [v|]; [|done]. cbn [mbind option_bind]. by destruct (v <? b).
Qed.

(** Both printers of numbers are this one. *)
Fixpoint digits (b : Z) (fuel : nat) (n : Z) : list Z :=
  match fuel with
  | O => []
  | S fuel => (if n <? b then [] else digits b fuel (n / b)) ++ [hex_char (n mod b)]
  end.

Lemma dec_is_digits n : 0 <= n -> dec n = digits 10 20 n.
Proof.
  unfold dec. generalize 20%nat. intros fuel. revert n. induction fuel as [|fuel IH]; intros n Hn; [done|].
  cbn [dec_digits digits]. rewrite IH by (apply Z.div_pos; lia). unfold hex_char.
  pose proof (Z.mod_pos_bound n 10 ltac:(lia)). by destruct (Z.ltb_spec (n mod 10) 10); [|lia].
Qed.

Lemma hex_is_digits fuel n : hex_digits fuel n = digits 16 fuel n.
Proof. revert n. induction fuel as [|fuel IH]; intros n; [done|]. cbn [hex_digits digits]. by rewrite IH. Qed.

Lemma read_digits_spec b k fuel n :
  2 <= b <= 16 -> 0 <= n < b ^ Z.of_nat k -> (k <= fuel)%nat -> (0 < fuel)%nat ->
  read_digits b 0 (digits b fuel n) = Some n.
Proof.
  intros Hb. revert k n. induction fuel as [|fuel IH]; intros k n Hn Hk Hf; [lia|]. cbn [digits].
  pose proof (Z.mod_pos_bound n b ltac:(lia)) as Hm.
  assert (forall acc, read_digits b acc [hex_char (n mod b)] = Some (b * acc + n mod b)) as Hlast.
  { intros acc. cbn [read_digits]. destruct (hex_value_char (n mod b)) as [-> _]; [lia|]. cbn [mbind option_bind].
    by destruct (Z.ltb_spec (n mod b) b); [|lia]. }
  destruct (Z.ltb_spec n b).
  - cbn [app]. rewrite Hlast, Z.mod_small by lia. f_equal. lia.
  - destruct k as [|[|k]]; [cbn in Hn; lia|rewrite Z.pow_1_r in Hn; lia|].
    rewrite (Nat2Z.inj_succ (S k)), Z.pow_succ_r in Hn by lia.
    assert (0 <= n / b < b ^ Z.of_nat (S k)) as Hd
      by (split; [apply Z.div_pos; lia|apply Z.div_lt_upper_bound; lia]).
    rewrite read_digits_app, (IH (S k) _ Hd) by lia. cbn [mbind option_bind].
    rewrite Hlast. f_equal. pose proof (Z.div_mod n b). lia.
Qed.

Lemma digits_cons b fuel n : (0 < fuel)%nat -> exists c s, digits b fuel n = c :: s.
Proof.
  destruct fuel as [|fuel]; [lia|]. intros _. cbn [digits]. destruct (_ ++ _) as [|c s] eqn:E; [|by eexists _, _].
  by apply app_eq_nil in E as [_ ?].
Qed.

Lemma read_number_spec b k fuel n :
  2 <= b <= 16 -> 0 <= n < b ^ Z.of_nat k -> (k <= fuel)%nat -> (0 < fuel)%nat ->
  read_number b (digits b fuel n) = Some n.
Proof.
  intros Hb Hn Hk Hf. unfold read_number. destruct (digits_cons b fuel n Hf) as (c & s & E). rewrite E, <- E.
  by apply (read_digits_spec b k).
Qed.

Lemma read_dec n : 0 <= n < 10 ^ 20 -> read_number 10 (dec n) = Some n.
Proof. intros Hn. rewrite dec_is_digits by lia. apply (read_number_spec 10 20); (done || lia). Qed.

Lemma read_hex n : in_width 16 n -> read_number 16 (hex_digits 4 n) = Some n.
Proof. intros Hn. rewrite hex_is_digits. unfold in_width in Hn. apply (read_number_spec 16 4); cbn; lia. Qed.

Lemma digits_lack d b fuel n : 2 <= b <= 16 -> ~ 48 <= d <= 57 -> ~ 97 <= d <= 102 -> lacks d (digits b fuel n).
Proof.
  intros Hb H1 H2. revert n. induction fuel as [|fuel IH]; intros n; cbn [digits]; [constructor|].
  apply lacks_app; [destruct (n <? b); [constructor|apply IH]|]. constructor; [|constructor].
  pose proof (Z.mod_pos_bound n b ltac:(lia)). unfold hex_char. destruct (Z.ltb_spec (n mod b) 10); lia.
Qed.

Lemma dec_lack d n : 0 <= n -> ~ 48 <= d <= 57 -> ~ 97 <= d <= 102 -> lacks d (dec n).
Proof. intros Hn H1 H2. rewrite dec_is_digits by done. by apply digits_lack. Qed.

Lemma hex_lack d n : ~ 48 <= d <= 57 -> ~ 97 <= d <= 102 -> lacks d (hex_digits 4 n).
Proof. intros H1 H2. rewrite hex_is_digits. by apply digits_lack. Qed.

Lemma mapM_printed {A} (pr : A -> list Z) (rdr : list Z -> option A) l :
  Forall (fun x => rdr (pr x) = Some x) l -> mapM rdr (pr <$> l) = Some l.
Proof. induction 1 as [|x l Hx Hl IH]; [done|]. cbn. by rewrite Hx, IH. Qed.

(** ** Addresses *)

Definition bytes_of (n : nat) (b : list Z) : Prop := length b = n /\ Forall is_byte b.

Lemma join_lack d sep l : lacks d sep -> Forall (lacks d) l -> lacks d (join sep l).
Proof.
  intros Hs. induction 1 as [|s l Hl H IH]; [constructor|]. destruct l as [|s' l]; [done|].
  cbn [join] in *. by repeat apply lacks_app.
Qed.

Lemma decs_lack d b : Forall is_byte b -> ~ 48 <= d <= 57 -> ~ 97 <= d <= 102 -> Forall (lacks d) (dec <$> b).
Proof.
  intros Hb H1 H2. apply Forall_map. eapply Forall_impl; [exact Hb|]. unfold is_byte. cbn beta.
  intros n Hn. apply dec_lack; lia.
Qed.

Lemma text4_lack d b : Forall is_byte b -> ~ 46 <= d <= 57 -> ~ 97 <= d <= 102 -> lacks d (text4 b).
Proof. intros Hb H1 H2. apply join_lack; [constructor; [lia|constructor]|apply decs_lack; (done || lia)]. Qed.

Lemma read4_spec b : bytes_of 4 b -> read4 (text4 b) = Some b.
Proof.
  intros [Hl Hb]. unfold read4, text4. rewrite tokens_join.
  - apply mapM_printed. eapply Forall_impl; [exact Hb|]. unfold is_byte. cbn beta. intros n Hn. apply read_dec. lia.
  - by destruct b.
  - apply decs_lack; (done || lia).
Qed.

Lemma groups_bytes n b : bytes_of (2 * n) b ->
  groups b ≫= group_bytes = b /\ length (groups b) = n /\ Forall (in_width 16) (groups b).
Proof.
  revert b. induction n as [|n IH]; intros b [Hl Hb].
  - destruct b; [|done]. by repeat constructor.
  - destruct b as [|hi [|lo b]]; [cbn in Hl; lia..|]. apply Forall_cons in Hb as [H1 Hb]. apply Forall_cons in Hb as [H2 Hb].
    destruct (IH b) as (E & El & Ew); [split; [cbn in Hl; lia|done]|]. unfold is_byte in H1, H2.
    cbn [groups mbind list_bind length]. rewrite E, El. split; [|split; [done|constructor; [unfold in_width; lia|done]]].
    unfold group_bytes. cbn [app]. do 2 f_equal; Z.to_euclidean_division_equations; lia.
Qed.

(** The run the text leaves out, if there is one, consists of zeros. *)
Definition run_ok (ws : list Z) (r : Z * Z) : Prop :=
  r = (255, 255) \/ exists s n, r = (Z.of_nat s, Z.of_nat (s + n)) /\ (2 <= n)%nat /\ (s + n <= length ws)%nat
    /\ take n (drop s ws) = replicate n 0.

Lemma zero_run_spec ws : exists n, zero_run ws = Z.of_nat n /\ (n <= length ws)%nat /\ take n ws = replicate n 0.
Proof.
  induction ws as [|w ws (n & E & Hn & Et)]; [by exists 0%nat|]. cbn [zero_run].
  destruct (Z.eqb_spec w 0) as [->|]; [|exists 0%nat; cbn; split_and!; (done || lia)].
  exists (S n). cbn [length take replicate]. rewrite E, Et. split_and!; (done || lia).
Qed.

Lemma longest_run_ok all pre ws zs ze :
  all = pre ++ ws -> run_ok all (zs, ze) -> run_ok all (longest_run (Z.of_nat (length pre)) ws zs ze).
Proof.
  revert pre zs ze. induction ws as [|w ws IH]; intros pre zs ze Ea Hr; [done|]. cbn [longest_run].
  destruct (zero_run_spec (w :: ws)) as (n & E & Hn & Et). rewrite E.
  replace (Z.of_nat (length pre) + 1) with (Z.of_nat (length (pre ++ [w]))) by (rewrite length_app; cbn; lia).
  destruct (_ && _) eqn:Ec; (apply IH; [by rewrite Ea, <- app_assoc|]); [|done].
  right. exists (length pre), n. split_and!; [f_equal; lia|lia|rewrite Ea, length_app; lia|].
  by rewrite Ea, drop_app_length.
Qed.

(** What stands between the colons. *)
Definition shown_tokens (ws : list Z) (r : Z * Z) : list (list Z) :=
  let hex := hex_digits 4 in
  if r.1 =? 255 then hex <$> ws
  else (if r.1 =? 0 then [[]] else hex <$> ztake (r.1) ws) ++ [[]]
    ++ (if r.2 =? 8 then [[]] else hex <$> zdrop (r.2) ws).

(** Both sides computed up to the digits of the groups. *)
Ltac same_text := cbv -[hex_digits app]; cbn [app]; rewrite ?app_nil_r, <- ?app_assoc; reflexivity.

Lemma text6_tokens ws r : length ws = 8%nat -> run_ok ws r -> text6_from 9 0 r.1 r.2 ws = join [58] (shown_tokens ws r).
Proof.
  intros Hl Hr. do 9 (destruct ws as [|? ws]; [cbn in Hl; try lia|]); [|cbn in Hl; lia].
  destruct Hr as [-> | (s & n & -> & Hn & Hs & _)]; [same_text|]. cbn [length] in Hs. cbn [fst snd].
  assert (s = 0 \/ s = 1 \/ s = 2 \/ s = 3 \/ s = 4 \/ s = 5 \/ s = 6)%nat as Hc by lia.
  assert (n = 2 \/ n = 3 \/ n = 4 \/ n = 5 \/ n = 6 \/ n = 7 \/ n = 8)%nat as Hd by lia.
  destruct_or! Hc; subst s; destruct_or! Hd; subst n; try lia; clear; same_text.
Qed.

Lemma leading_hex l r : leading ((hex_digits 4 <$> l) ++ [] :: r) = hex_digits 4 <$> l.
Proof.
  induction l as [|w l IH]; [done|]. cbn [fmap list_fmap app]. rewrite hex_is_digits.
  destruct (digits_cons 16 4 w ltac:(lia)) as (c & s & E). rewrite E. cbn [leading]. by rewrite IH.
Qed.

Lemma leading_all l : leading (hex_digits 4 <$> l) = hex_digits 4 <$> l.
Proof.
  induction l as [|w l IH]; [done|]. cbn [fmap list_fmap]. rewrite hex_is_digits.
  destruct (digits_cons 16 4 w ltac:(lia)) as (c & s & E). rewrite E. cbn [leading]. by rewrite IH.
Qed.

Lemma read_hexes l : Forall (in_width 16) l -> mapM (read_number 16) (hex_digits 4 <$> l) = Some l.
Proof. intros Hl. apply mapM_printed. eapply Forall_impl; [exact Hl|]. intros n Hn. by apply read_hex. Qed.

Lemma shown_lack d ws r : ~ 48 <= d <= 57 -> ~ 97 <= d <= 102 -> Forall (lacks d) (shown_tokens ws r).
Proof.
  intros H1 H2.
  assert (forall l, Forall (lacks d) (hex_digits 4 <$> l)) as Hh.
  { intros l. apply Forall_map, Forall_true. intros w. by apply hex_lack. }
  assert (Forall (lacks d) [[]]) by by repeat constructor.
  unfold shown_tokens. destruct (_ =? 255); [done|]. destruct (_ =? 0), (_ =? 8); by repeat apply Forall_app_2.
Qed.

Lemma fmap_rev {A B} (f : A -> B) l : f <$> rev l = rev (f <$> l).
Proof. exact (List.map_rev f l). Qed.

(** Eight groups are read back, whichever run of zeros was left out. *)
Lemma read_shown ws r :
  length ws = 8%nat -> Forall (in_width 16) ws -> run_ok ws r ->
  read6 (join [58] (shown_tokens ws r)) = Some (ws ≫= group_bytes).
Proof.
  intros Hl Hw Hr. unfold read6. rewrite bool_decide_eq_false_2, tokens_join.
  2:{ unfold shown_tokens. destruct (_ =? 255); [by destruct ws|]. intros E. by apply app_eq_nil in E as [_ ?]. }
  2:{ apply shown_lack; lia. }
  2:{ assert (lacks 46 (join [58] (shown_tokens ws r))) as H
        by (apply join_lack; [constructor; [lia|constructor]|apply shown_lack; lia]).
      by apply lacks_not. }
  destruct Hr as [-> | (s & n & -> & Hn & Hs & Hz)].
  - cbn [shown_tokens fst Z.eqb Pos.eqb]. rewrite leading_all, bool_decide_eq_true_2 by by rewrite length_fmap.
    rewrite read_hexes by done. cbn [mbind option_bind mapM]. rewrite Hl. cbn. by rewrite app_nil_r.
  - unfold shown_tokens. cbn [fst snd]. rewrite (proj2 (Z.eqb_neq (Z.of_nat s) 255)) by lia.
    unfold ztake, zdrop. rewrite !Nat2Z.id.
    set (h := hex_digits 4). set (L := if Z.of_nat s =? 0 then _ else _). set (R := if _ =? 8 then _ else _).
    assert (exists r, L ++ [[]] ++ R = (h <$> take s ws) ++ [] :: r) as [r Er].
    { subst L. destruct (Z.eqb_spec (Z.of_nat s) 0); [|by exists R]. replace s with 0%nat by lia. by eexists. }
    assert (exists q, rev (L ++ [[]] ++ R) = (h <$> rev (drop (s + n) ws)) ++ [] :: q) as [q Eq].
    { rewrite !rev_app_distr. cbn [rev app]. rewrite <- app_assoc. subst R.
      destruct (Z.eqb_spec (Z.of_nat (s + n)) 8); [|eexists; by rewrite (fmap_rev h)].
      replace (s + n)%nat with 8%nat by lia. rewrite drop_ge by lia. by eexists. }
    rewrite Er, leading_hex, <- Er, Eq, leading_hex, <- fmap_rev, rev_involutive.
    assert (length (take s ws) = s) as Ls by (rewrite length_take; lia).
    assert (length (drop (s + n) ws) = 8 - s - n)%nat as Le by (rewrite length_drop; lia).
    rewrite bool_decide_eq_false_2 by (rewrite length_fmap; lia).
    rewrite !read_hexes by (by apply Forall_take || by apply Forall_drop). cbn [mbind option_bind].
    rewrite Ls, Le. replace (8 - s - (8 - s - n))%nat with n by lia. do 2 f_equal.
    rewrite <- Hz, <- drop_drop, take_drop, take_drop. done.
Qed.

Lemma text6_form b : bytes_of 16 b ->
  (text6 b = str "::ffff:" ++ text4 (drop 12 b) /\ b = replicate 10 0 ++ [255; 255] ++ drop 12 b)
  \/ exists r, text6 b = join [58] (shown_tokens (groups b) r) /\ run_ok (groups b) r.
Proof.
  intros Hb. unfold text6, is_4in6. case_bool_decide as H4.
  - left. split; [done|]. rewrite <- (take_drop 12 b) at 1. by rewrite H4, <- app_assoc.
  - right. destruct (groups_bytes 8 b Hb) as (_ & El & _).
    pose proof (longest_run_ok (groups b) [] (groups b) 255 255 eq_refl ltac:(by left)) as Hr.
    cbn [length] in Hr. change (Z.of_nat 0) with 0 in Hr. destruct (longest_run 0 (groups b) 255 255) as [zs ze].
    exists (zs, ze). by rewrite <- text6_tokens.
Qed.

Lemma read6_spec b : bytes_of 16 b -> read6 (text6 b) = Some b.
Proof.
  intros Hb. destruct (text6_form b Hb) as [[-> E]|(r & -> & Hr)].
  - destruct Hb as [Hl Hb]. unfold read6. rewrite bool_decide_eq_true_2.
    + change (drop 7 (str "::ffff:" ++ ?s)) with s. rewrite read4_spec.
      * cbn [mbind option_bind]. by rewrite <- E.
      * split; [rewrite length_drop; lia|by apply Forall_drop].
    + destruct (drop 12 b) as [|x [|y t]] eqn:Ed;
        try (apply (f_equal length) in Ed; rewrite length_drop, Hl in Ed; cbn in Ed; lia).
      apply elem_of_app. right. unfold text4. cbn [fmap list_fmap join]. apply elem_of_app. right. by left.
  - destruct (groups_bytes 8 b Hb) as (E & El & Ew). rewrite read_shown by done. by rewrite E.
Qed.

Lemma text6_lack d b : bytes_of 16 b -> ~ 46 <= d <= 58 -> ~ 97 <= d <= 102 -> lacks d (text6 b).
Proof.
  intros Hb H1 H2. destruct (text6_form b Hb) as [[-> _]|(r & -> & _)].
  - apply lacks_app; [|apply text4_lack; first [lia|apply Forall_drop, Hb]].
    change (str "::ffff:") with [58; 58; 102; 102; 102; 102; 58]. repeat (constructor; [lia|]). constructor.
  - apply join_lack; [constructor; [lia|constructor]|apply shown_lack; lia].
Qed.

(** ** Endpoints *)

Definition endpoint_ok (p : AddrPort) : Prop :=
  match ap_addr p with
  | AddrZero => False
  | AddrFrom4 b => bytes_of 4 b
  | AddrFrom16 b => bytes_of 16 b
  end /\ in_width 16 (ap_port p).

#[export] Instance endpoint_ok_dec p : Decision (endpoint_ok p).
Proof. unfold endpoint_ok, bytes_of. destruct (ap_addr p); apply _. Defined.

(** An endpoint is read back from its text. *)
Lemma endpoint_readback p : endpoint_ok p -> read_endpoint (AddrPort_String p) = Some p.
Proof.
  destruct p as [[|b|b] port]; intros [Hb Hp]; cbn [ap_addr ap_port] in *; [done|..];
    unfold in_width in Hp; unfold read_endpoint, AddrPort_String; cbn [ap_addr ap_port].
  - assert (forall d, ~ 46 <= d <= 57 -> ~ 97 <= d <= 102 -> lacks d (text4 b)) as H4
      by (intros; apply text4_lack; first [lia|apply Hb]).
    rewrite bool_decide_eq_false_2.
    2:{ apply lacks_not, lacks_app; [apply H4; lia|]. apply lacks_app; [literal|apply dec_lack; lia]. }
    change ([58] ++ dec port) with (58 :: dec port).
    rewrite tokens_app, tokens_lacks by first [apply H4; lia|apply dec_lack; lia].
    by rewrite read4_spec, read_dec by (done || lia).
  - rewrite bool_decide_eq_true_2 by by left. change (tail ([91] ++ ?s ++ [93; 58] ++ ?p)) with (s ++ 93 :: 58 :: p).
    rewrite tokens_app, tokens_lacks.
    + by rewrite read6_spec, read_dec by (done || lia).
    + constructor; [lia|]. apply dec_lack; lia.
    + apply text6_lack; (done || lia).
Qed.

Lemma endpoint_lack d p :
  endpoint_ok p -> ~ 46 <= d <= 58 -> ~ 97 <= d <= 102 -> d <> 91 -> d <> 93 -> lacks d (AddrPort_String p).
Proof.
  destruct p as [[|b|b] port]; intros [Hb Hp] H1 H2 H3 H4; cbn [ap_addr ap_port] in *; [done|..];
    unfold in_width in Hp; unfold AddrPort_String; cbn [ap_addr ap_port].
  - apply lacks_app; [apply text4_lack; first [lia|apply Hb]|]. constructor; [lia|]. apply dec_lack; lia.
  - constructor; [lia|]. apply lacks_app; [apply text6_lack; (done || lia)|].
    constructor; [lia|]. constructor; [lia|]. apply dec_lack; lia.
Qed.

Lemma tokens_padded d s n : lacks d s -> hd [] (tokens d (s ++ replicate n d)) = s.
Proof.
  intros Hs. destruct n; cbn [replicate]; [by rewrite app_nil_r, tokens_lacks|by rewrite tokens_app].
Qed.

(** Two endpoints are shown alike only if they are the same. *)
Lemma endpoint_text_injective p q :
  endpoint_ok p -> endpoint_ok q -> AddrPort_String p = AddrPort_String q -> p = q.
Proof. intros Hp Hq E. apply endpoint_readback in Hp, Hq. congruence. Qed.

(** An IPv4 endpoint takes at most 21 characters. *)
Lemma endpoint4_length b port :
  bytes_of 4 b -> in_width 16 port -> zlen (AddrPort_String (AddrPortFrom (AddrFrom4 b) port)) <= 21.
Proof.
  intros [Hl Hb] Hp. do 4 (destruct b as [|? b]; [done|]). destruct b; [|done].
  repeat (apply Forall_cons in Hb as [? Hb]). unfold is_byte, in_width in *.
  assert (forall n, 0 <= n < 256 -> (length (dec n) <= 3)%nat) as H3.
  { intros n Hn. apply (dec_digits_length 3 n 20). cbn. lia. }
  pose proof (dec_digits_length 5 port 20 ltac:(cbn; lia)) as H5. fold (dec port) in H5.
  unfold AddrPort_String, zlen. cbn [ap_addr ap_port text4 join fmap list_fmap]. unfold text4. cbn [fmap list_fmap join].
  rewrite !length_app. cbn [length].
  repeat match goal with |- context [length (dec ?n)] =>
    lazymatch n with port => fail | _ => pose proof (H3 n ltac:(done)); generalize dependent (length (dec n)); intros end end.
  lia.
Qed.

(** The longest, and some of the shortest. *)
Example endpoints_read :
  (fun s => (AddrPort_String <$> read_endpoint (str s))) <$>
    ["255.255.255.255:65535"; "[::]:0"; "[::1]:443"; "[2001:db8::1:0:0:1]:80"; "[1:2:3:4:5:6:7:8]:9"; "[::ffff:10.0.0.1]:53"]
  = (fun s => Some (str s)) <$>
    ["255.255.255.255:65535"; "[::]:0"; "[::1]:443"; "[2001:db8::1:0:0:1]:80"; "[1:2:3:4:5:6:7:8]:9"; "[::ffff:10.0.0.1]:53"].
Proof. by vm_compute. Qed.
