(* ===== verification/Render.v ===== *)
(** internal/ui/ui.go, the rendering half: one row of the table, the detail panel and the
    whole screen as text.

    The styling of lipgloss is the class [Style]; plaintext tails are read from the heap
    when the screen is drawn; every reading of the clock is an argument. *)
From S2P Require Import Prelude Slices Proc TlsParse Names Store Ui Format Dump Text.

(** ** Styles *)

Class Style := {
  styHeader : list Z -> list Z; stySel : list Z -> list Z; styTLS : list Z -> list Z;
  styDim : list Z -> list Z; styLabel : list Z -> list Z; styTitle : list Z -> list Z;
  styWarn : list Z -> list Z }.

(** The number of line ends in a text. *)
Fixpoint newlines (s : list Z) : nat :=
  match s with
  | [] => O
  | c :: s => if c =? 10 then S (newlines s) else newlines s
  end.

Definition one_line (s : list Z) : Prop := Forall (fun c => c <> 10) s.

#[export] Instance one_line_dec s : Decision (one_line s).
Proof. unfold one_line. apply _. Defined.

(** A style sets colours and weight, no width, margin or border: text of one line stays
    one line. *)
Class StyleOk `{Style} : Prop := {
  styHeader_line s : one_line s -> one_line (styHeader s);
  stySel_line s : one_line s -> one_line (stySel s);
  styTLS_line s : one_line s -> one_line (styTLS s);
  styDim_line s : one_line s -> one_line (styDim s);
  styLabel_line s : one_line s -> one_line (styLabel s);
  styTitle_line s : one_line s -> one_line (styTitle s);
  styWarn_line s : one_line s -> one_line (styWarn s) }.

(** ** Words *)

Definition sort_text (s : sortMode) : list Z :=
  match s with sortBytes => str "bytes" | sortPid => str "pid" | sortActive => str "recent" end.
Definition view_text (v : viewMode) : list Z :=
  match v with viewClosed => str "Closed" | viewAll => str "All" | viewActive => str "Active" end.

#[export] Instance viewMode_eq_dec : EqDecision viewMode.
Proof. solve_decision. Defined.

(** [ago(t)], of [d := time.Since(t)]. *)
Definition ago (d : Z) : list Z :=
  if d <? Minute then sdec (whole d Second) ++ str "s ago"
  else if d <? Hour then sdec (whole d Minute) ++ str "m ago"
  else sdec (whole d Hour) ++ str "h ago".

(** ** One row *)

Definition wPID : Z := 7.
Definition wComm : Z := 14.
Definition wRemote : Z := 24.
Definition wVer : Z := 8.
Definition wCipher : Z := 30.
Definition wIO : Z := 18.
Definition wState : Z := 9.

Definition io (up down : Z) : go (list Z) :=
  do! u <- humanBytes up; do! d <- humanBytes down; Ok (u ++ str "/" ++ d).

Definition remote_text (c : Conn) : list Z :=
  let remote := orDash (str (SNI (cn_Info c))) in
  if bool_decide (remote = dash) then AddrPort_String (cn_Remote c) else remote.

(** The version and the cipher columns. *)
Definition crypto_text (c : Conn) : list Z * list Z :=
  let ver := str (VersionName (NegVersion (cn_Info c))) in
  let cipher := str (CipherName (CipherSuite (cn_Info c))) in
  if cn_Preexisting c && bool_decide (ver = []) then (str "?", str "(pre-existing)") else (ver, cipher).

Definition last_text (now : Z) (c : Conn) : list Z :=
  if negb (cn_ClosedAt c =? 0) then ago (Sub now (cn_ClosedAt c))
  else if cn_Closed c then str "clos"
  else if cn_IsTLS c then str "TLS"
  else dash.

(** [cols] of renderRow. *)
Definition row_cols (now : Z) (c : Conn) : go (list Z) :=
  let '(ver, cipher) := crypto_text c in
  do! wire <- io (cn_TxBytes c) (cn_RxBytes c);
  do! plain <- io (cn_PtxBytes c) (cn_PrxBytes c);
  Ok (join (str " ")
    [trunc (dec (cn_Pid c)) wPID; trunc (str (cn_Comm c)) wComm; trunc (remote_text c) wRemote;
     trunc ver wVer; trunc cipher wCipher; trunc wire wIO; trunc plain wIO; trunc (last_text now c) wState]).

Section Styled.
Context `{Style}.

Definition renderRow (now : Z) (c : Conn) (selected : bool) : go (list Z) :=
  do! cols <- row_cols now c;
  Ok (if selected then stySel cols
      else if negb (cn_ClosedAt c =? 0) then styDim cols
      else if cn_IsTLS c then styTLS cols
      else styDim cols).

(** ** The detail panel *)

Definition nl : list Z := [10].

Definition lab (k v : list Z) : list Z := str "  " ++ styLabel (trunc k 14) ++ orDash v ++ nl.

Definition dir_text (d : Z) : list Z :=
  if d =? 1 then str "outbound (client)" else if d =? 2 then str "inbound (server)" else [].

Definition ident_text (i : Info) : list Z :=
  match str (CertSubject i) with
  | [] => str (SNI i)
  | cn => orDash (str (SNI i)) ++ str "  (cert CN=" ++ cn ++ str ")"
  end.

Definition sig_text (i : Info) : list Z :=
  match str (CertSigAlg i), OfferedSigs i with
  | [], _ :: _ => str "offered: " ++ join (str ", ") ((fun s => str (SigSchemeName s)) <$> take 3 (OfferedSigs i))
  | sig, _ => sig
  end.

(** Process, flow and end of the connection. *)
Definition detail_flow (now : Z) (c : Conn) : list Z :=
  lab (str "process") (str (cn_Comm c) ++ str "  pid=" ++ dec (cn_Pid c))
  ++ lab (str "flow") (AddrPort_String (cn_Local c) ++ str " → " ++ AddrPort_String (cn_Remote c) ++ str "  "
                       ++ dir_text (cn_Direction c))
  ++ (if negb (cn_ClosedAt c =? 0) then
        let lifetime := Round (Sub (cn_ClosedAt c) (cn_FirstSeen c)) Millisecond in
        lab (str "closed") (ago (Sub now (cn_ClosedAt c)) ++ str "  (open for " ++ Duration_String lifetime ++ str ")")
      else []).

(** The server's identity and the negotiated cryptography. *)
Definition detail_info (i : Info) : list Z :=
  lab (str "server") (ident_text i)
  ++ (if (0 <? zlen (CertSANs i)) then lab (str "cert SANs") (join (str ", ") (str <$> CertSANs i))
      else if HasServerHello i && (NegVersion i =? 0x0304) && negb (HasCert i)
      then lab (str "cert") (styWarn (str "encrypted (TLS 1.3)"))
      else [])
  ++ lab (str "version") (str (VersionName (NegVersion i)))
  ++ lab (str "cipher") (orDash (str (CipherName (CipherSuite i))))
  ++ lab (str "symmetric") (str (Symmetric (CipherSuite i)))
  ++ lab (str "key exch") (str (GroupName (Group i)))
  ++ lab (str "signature") (sig_text i)
  ++ (if 0 <? zlen (ALPN i) then lab (str "alpn") (join (str ", ") (str <$> ALPN i)) else []).

Definition detail_peek (div : list Z) (h : heap) (c : Conn) : go (list Z) :=
  let tail_out := view h (cn_TailOut c) in
  let tail_in := view h (cn_TailIn c) in
  if (zlen (cn_HeadOut c) =? 0) && (zlen (cn_HeadIn c) =? 0) && (zlen tail_out =? 0) && (zlen tail_in =? 0)
  then Ok (div ++ styDim (str "  no plaintext captured (needs OpenSSL app; press enter to hide)") ++ nl)
  else
    do! o <- renderPlain styLabel styDim (str "SSL_write →") (str "sent") (cn_HeadOut c) tail_out;
    do! i <- renderPlain styLabel styDim (str "SSL_read ←") (str "received") (cn_HeadIn c) tail_in;
    Ok (div ++ o ++ i).

Definition renderDetail (now : Z) (h : heap) (m : Model) : go (list Z) :=
  do! line <- Repeat (str "─") (Z.min (m_w m) 100);
  let div := styDim line ++ nl in
  do! d <- detail m;
  match d with
  | None => Ok (div ++ styDim (str "  (no connection selected)") ++ nl ++ nl)
  | Some c =>
      let b := div ++ detail_flow now c ++ detail_info (cn_Info c)
               ++ (if cn_Preexisting c
                   then str "  " ++ styWarn (str "pre-existing connection — handshake not captured") ++ nl else []) in
      if m_peek m then do! p <- detail_peek div h c; Ok (b ++ p) else Ok b
  end.

(** ** The screen *)

Definition tab (m : Model) (v : viewMode) : list Z :=
  let label := str " " ++ view_text v ++ str " " in
  if decide (v = m_view m) then styTitle label else styDim label.

Definition tlsCount (m : Model) : Z := zlen (filter (fun c => cn_IsTLS c = true) (m_rows m)).

(** The title with the tabs, and the table's header. *)
Definition title (m : Model) : list Z :=
  styTitle (str " tlstat ") ++ str " " ++ concat (tab m <$> [viewActive; viewClosed; viewAll])
  ++ str "  " ++ styDim (dec (zlen (m_rows m)) ++ str " rows, " ++ dec (tlsCount m) ++ str " TLS · sort:" ++ sort_text (m_sortBy m))
  ++ nl ++ nl.

Definition head_line (m : Model) : list Z :=
  let lastCol := if decide (m_view m = viewActive) then str "ST" else str "CLOSED" in
  styHeader (join (str " ")
    [trunc (str "PID") wPID; trunc (str "COMM") wComm; trunc (str "REMOTE / SNI") wRemote; trunc (str "VER") wVer;
     trunc (str "CIPHER") wCipher; trunc (str "WIRE ↑/↓") wIO; trunc (str "PLAIN ↑/↓") wIO; trunc lastCol wState])
  ++ nl.

(** The rows drawn; [clock i] is the time when the [i]-th of them is. *)
Fixpoint rows_text (clock : nat -> Z) (i : nat) (l : list (Conn * bool)) : go (list Z) :=
  match l with
  | [] => Ok []
  | (c, selected) :: l =>
      do! r <- renderRow (clock i) c selected;
      do! rest <- rows_text clock (S i) l;
      Ok (r ++ nl ++ rest)
  end.

Definition View (clock : nat -> Z) (h : heap) (m : Model) : go (list Z) :=
  if m_w m =? 0 then Ok (str "starting…")
  else
    do! l <- visible m;
    do! rows <- rows_text clock 0 l;
    let filler := replicate (Z.to_nat (start m + maxRows m - zlen (m_rows m))) 10 in
    do! d <- renderDetail (clock (length l)) h m;
    Ok (title m ++ head_line m ++ rows ++ filler ++ d
        ++ styDim (str "↑/↓ select · enter peek · tab active/closed/all · s sort · q quit")).
End Styled.
