(* ===== verification/RenderFacts.v ===== *)
(** How many lines the parts of the screen have, and what a row of the table consists of. *)
From S2P Require Import Prelude Slices Proc TlsParse Names Store Ui Format Dump Text Render.

(** ** Lines *)

Lemma newlines_app s t : newlines (s ++ t) = (newlines s + newlines t)%nat.
Proof. induction s as [|c s IH]; [done|]. cbn. destruct (c =? 10); cbn; by rewrite IH. Qed.

Lemma newlines_one_line s : one_line s -> newlines s = O.
Proof. induction 1 as [|c s Hc _ IH]; [done|]. cbn. by rewrite (proj2 (Z.eqb_neq c 10) Hc). Qed.

Lemma newlines_replicate n : newlines (replicate n 10) = n.
Proof. induction n as [|n IH]; [done|]. cbn. by rewrite IH. Qed.

Lemma one_line_app s t : one_line s -> one_line t -> one_line (s ++ t).
Proof. apply Forall_app_2. Qed.

Lemma one_line_join sep l : one_line sep -> Forall one_line l -> one_line (join sep l).
Proof.
  intros Hs. induction 1 as [|s l H1 Hl IH]; [constructor|]. destruct l as [|s' l]; [done|].
  cbn [join] in *. by repeat apply one_line_app.
Qed.

Lemma one_line_printable s : printable_text s -> one_line s.
Proof. intros Hs. eapply Forall_impl; [exact Hs|]. cbn. lia. Qed.

Lemma one_line_repeat n s : one_line s -> one_line (concat (replicate n s)).
Proof. intros Hs. induction n as [|n IH]; [constructor|]. by apply one_line_app. Qed.

(** No rune but the line end itself is written with a line end. *)
Lemma runes_one_line s : one_line s -> one_line (runes s).
Proof.
  assert (forall b, b <> 10 -> one b <> 10) as H1 by (intros b Hb; unfold one, RuneError; destruct (b <? 128); lia).
  remember (length s) as n eqn:E. assert (length s <= n)%nat as Hn by lia. clear E.
  revert s Hn. induction n as [|n IH]; intros [|b0 s1] Hn Hb; cbn [length] in Hn; try lia; try constructor.
  apply Forall_cons in Hb as [Hb0 Hb1].
  cbn [runes]. destruct s1 as [|b1 s2]; [constructor; [auto|constructor]|].
  pose proof (Hb1) as [_ Hb2]%Forall_cons. cbn [length] in Hn.
  assert (one_line (one b0 :: runes (b1 :: s2))) as Hone by (constructor; [auto|apply IH; [cbn [length]; lia|done]]).
  destruct (two b0 b1) eqn:E2; [constructor; [utf8; lia|apply IH; [lia|done]]|].
  destruct s2 as [|b2 s3]; [done|]. apply Forall_cons in Hb2 as [_ Hb3]. cbn [length] in Hn.
  destruct (three b0 b1 b2) eqn:E3; [constructor; [utf8; lia|apply IH; [lia|done]]|].
  destruct s3 as [|b3 s4]; [done|]. apply Forall_cons in Hb3 as [_ Hb4]. cbn [length] in Hn.
  destruct (four b0 b1 b2 b3) eqn:E4; [constructor; [utf8; lia|apply IH; [lia|done]]|done].
Qed.

Lemma encode_one_line rs : one_line rs -> one_line (encode rs).
Proof.
  induction 1 as [|r rs Hr _ IH]; [constructor|]. unfold encode in *. rewrite bind_cons.
  apply one_line_app; [|exact IH]. unfold encode_rune.
  set (x := if valid_rune r then r else RuneError).
  assert (x <> 10 /\ 0 <= x) as [Hx H0] by (unfold x; destruct (valid_rune r) eqn:E; [utf8; lia|unfold RuneError; lia]).
  assert (forall a, 0 <= a -> 0 <= a mod 64) as Hm by (intros; apply Z.mod_pos_bound; lia).
  assert (forall d, 0 < d -> 0 <= x / d) as Hd by (intros; by apply Z.div_pos).
  pose proof (Hd 64 ltac:(lia)). pose proof (Hd 4096 ltac:(lia)). pose proof (Hd 262144 ltac:(lia)).
  pose proof (Hm x H0). pose proof (Hm (x / 64) ltac:(done)). pose proof (Hm (x / 4096) ltac:(done)).
  destruct (x <? 128); [|destruct (x <? 2048); [|destruct (x <? 65536)]]; repeat constructor; lia.
Qed.

Lemma one_line_trunc s w : one_line s -> one_line (trunc s w).
Proof.
  intros Hs. unfold trunc. destruct (w <=? 0); [constructor|]. destruct (w <? zlen (runes s)).
  - destruct (w =? 1); [literal|]. apply one_line_app; [|literal].
    apply encode_one_line, Forall_take, runes_one_line, Hs.
  - apply one_line_app; [done|]. by apply Forall_replicate.
Qed.

(** ** Names *)

Lemma str_app s t : str (s +:+ t) = str s ++ str t.
Proof.
  unfold str, bytes_of_string. induction s as [|c s IH]; [done|].
  change (String c s +:+ t) with (String c (s +:+ t)). cbn in *. by rewrite IH.
Qed.

Lemma hex4_printable v : printable_text (str (hex4 v)).
Proof.
  assert (forall d, 0 <= d < 16 -> 32 <= byte_of_ascii (hex_lower d) < 127) as Hc.
  { intros d Hd. unfold hex_lower. destruct (Z.ltb_spec d 10);
      rewrite byte_of_ascii_of_byte by (unfold is_byte; lia); lia. }
  unfold hex4, str, bytes_of_string. cbn.
  repeat constructor; try (apply Hc; by apply Z.mod_pos_bound); vm_compute; (done || discriminate).
Qed.

Definition table_printable (l : list (Z * string)) : Prop := Forall (fun e => printable_text (str e.2)) l.
#[export] Instance table_printable_dec l : Decision (table_printable l).
Proof. unfold table_printable. apply _. Defined.

Lemma name_of_printable zero l v : table_ok l -> table_printable l -> printable_text (str (name_of zero l v)).
Proof.
  intros Hl Hp. destruct (name_of_cases zero l v Hl) as [[Hin _]|[[_ ->]| ->]]; [|constructor|apply hex4_printable].
  unfold table_printable in Hp. rewrite Forall_forall in Hp. exact (Hp _ Hin).
Qed.

Lemma VersionName_printable v : printable_text (str (VersionName v)).
Proof. rewrite VersionName_table. apply name_of_printable; literal. Qed.
Lemma CipherName_printable v : printable_text (str (CipherName v)).
Proof. apply (name_of_printable true cipherSuites_entries); literal. Qed.
Lemma GroupName_printable v : printable_text (str (GroupName v)).
Proof. apply (name_of_printable true namedGroups_entries); literal. Qed.
Lemma SigSchemeName_printable v : printable_text (str (SigSchemeName v)).
Proof. apply (name_of_printable false sigSchemes_entries); literal. Qed.

Lemma Symmetric_printable v : printable_text (str (Symmetric v)).
Proof.
  unfold Symmetric. destruct (_ || _); [literal|]. destruct (v =? 0x1302); [literal|]. destruct (v =? 0x1303); [literal|].
  assert (forall n ks, Forall (fun k => printable_text (str k)) ks -> printable_text (str (first_key n ks))) as Hf.
  { intros n ks. induction 1 as [|k ks Hk _ IH]; cbn [first_key]; [constructor|]. by destruct (containsFold n k). }
  apply Hf. literal.
Qed.

(** ** Times *)

Lemma one_line_frac prec v print : one_line (frac_digits prec v print).
Proof.
  revert v print. induction prec as [|prec IH]; intros v print; cbn [frac_digits]; [constructor|].
  apply one_line_app; [apply IH|]. pose proof (Z.mod_pos_bound v 10 ltac:(lia)).
  destruct (print || _); repeat constructor; lia.
Qed.

Lemma one_line_fmtFrac v prec : one_line (fmtFrac v prec).
Proof.
  unfold fmtFrac. pose proof (one_line_frac prec v false) as Hf.
  destruct (frac_digits prec v false); [constructor|]. by constructor.
Qed.

Lemma one_line_dec n : one_line (dec n).
Proof. apply one_line_printable, printable_dec. Qed.

(** A text that may be missing. *)
Lemma orDash_line s : one_line s -> one_line (orDash s).
Proof. intros Hs. destruct s; [literal|done]. Qed.


(** Text put together from literals, names and numbers is one line. *)
Ltac line_step :=
  match goal with
  | |- one_line (_ ++ _) => apply one_line_app
  | |- one_line [] => constructor
  | |- one_line (str (String _ _)) => literal
  | |- one_line (str EmptyString) => constructor
  | |- one_line [_] => literal
  | |- one_line (dec _) => apply one_line_dec
  | |- one_line (fmtFrac _ _) => apply one_line_fmtFrac
  | |- one_line (trunc _ _) => apply one_line_trunc
  | |- one_line (AddrPort_String _) => apply one_line_printable, printable_addr
  | |- one_line (str (VersionName _)) => apply one_line_printable, VersionName_printable
  | |- one_line (str (CipherName _)) => apply one_line_printable, CipherName_printable
  | |- one_line (str (GroupName _)) => apply one_line_printable, GroupName_printable
  | |- one_line (str (SigSchemeName _)) => apply one_line_printable, SigSchemeName_printable
  | |- one_line (str (Symmetric _)) => apply one_line_printable, Symmetric_printable
  | |- one_line (if ?b then _ else _) => destruct b
  | |- one_line (orDash _) => apply orDash_line
  | |- one_line (styHeader _) => apply styHeader_line
  | |- one_line (stySel _) => apply stySel_line
  | |- one_line (styTLS _) => apply styTLS_line
  | |- one_line (styDim _) => apply styDim_line
  | |- one_line (styLabel _) => apply styLabel_line
  | |- one_line (styTitle _) => apply styTitle_line
  | |- one_line (styWarn _) => apply styWarn_line
  end.
Ltac lines := repeat line_step; try assumption.

Lemma one_line_duration d : one_line (Duration_String d).
Proof.
  unfold Duration_String. set (u := Z.abs d).
  match goal with |- context [if d <? 0 then [45] ++ ?t else ?t] => assert (one_line t) as Ht; [|set (x := t) in *] end.
  { cbv zeta. lines. }
  lines.
Qed.

Lemma printable_ago d : printable_text (ago d).
Proof.
  unfold ago. destruct (d <? Minute); [|destruct (d <? Hour)]; (apply printable_app; [apply printable_sdec|literal]).
Qed.

Ltac line_step' :=
  match goal with
  | |- one_line (ago _) => apply one_line_printable, printable_ago
  | |- one_line (Duration_String _) => apply one_line_duration
  | _ => line_step
  end.

(** Count the lines of a text: its parts are lines, or lines themselves. *)
Ltac one_lines := solve [repeat line_step'; assumption || done].
Ltac count_lines :=
  rewrite ?newlines_app;
  repeat match goal with |- context [newlines ?s] => rewrite (newlines_one_line s) by one_lines end.

(** ** Dumps *)

Lemma newlines_dump_line i c : 0 <= i -> Forall is_byte c -> newlines (dump_line i c) = 1%nat /\ exists s, dump_line i c = s ++ [10].
Proof.
  intros Hi Hc. split.
  2:{ exists (hex04 i ++ str "  " ++ cells 16 0 c ++ str " |" ++ ((fun b => if printable b then b else 46) <$> c) ++ str "|").
      unfold dump_line. by rewrite <- !app_assoc. }
  unfold dump_line. rewrite !newlines_app. cbn [newlines Z.eqb Pos.eqb].
  assert (one_line ((fun b => if printable b then b else 46) <$> c)) as Ha.
  { apply Forall_map, Forall_true. intros b. unfold printable, between.
    destruct (Z.leb_spec 32 b); [destruct (b <=? 126)|]; cbn; lia. }
  assert (one_line (hex04 i)) as Hx.
  { unfold hex04. apply one_line_app; [by apply Forall_replicate|]. apply one_line_printable, printable_hex_digits. }
  assert (forall n j c, Forall is_byte c -> one_line (cells n j c)) as Hcells.
  { clear. induction n as [|n IH]; intros j c Hc; cbn [cells]; [constructor|].
    repeat apply one_line_app; [|destruct (j =? 7); literal|apply IH; destruct Hc; [constructor|done]].
    destruct Hc as [|b c Hb _]; [literal|]. apply one_line_app; [|literal]. unfold is_byte in Hb.
    apply one_line_printable. apply Forall_cons; split; [|apply Forall_cons; split; [|constructor]];
      apply printable_hex_char; Z.to_euclidean_division_equations; lia. }
  rewrite !newlines_one_line by first [exact Ha|exact Hx|exact (Hcells _ _ _ Hc)|literal]. reflexivity.
Qed.

(** A dump has a line for each sixteen bytes, and ends with a line end. *)
Lemma newlines_dump_lines fuel i b :
  0 <= i -> Forall is_byte b -> (length b <= fuel)%nat ->
  16 * Z.of_nat (newlines (dump_lines fuel i b)) <= zlen b + 15
  /\ (b <> [] -> exists s, dump_lines fuel i b = s ++ [10]).
Proof.
  revert i b. induction fuel as [|fuel IH]; intros i b Hi Hb Hf.
  { destruct b; [|cbn in Hf; lia]. unfold zlen. cbn. split; [lia|congruence]. }
  destruct b as [|x b]; [unfold zlen; cbn; split; [lia|congruence]|]. cbn [dump_lines]. set (c := x :: b) in *.
  destruct (newlines_dump_line i (ztake 16 c) Hi ltac:(by apply Forall_take)) as [Hn [s Hs]].
  assert (length (zdrop 16 c) <= fuel)%nat as Hd by (unfold zdrop, c in *; rewrite length_drop; cbn [length] in *; lia).
  destruct (IH (i + 16) (zdrop 16 c) ltac:(lia) ltac:(by apply Forall_drop) Hd) as [I1 I2].
  rewrite newlines_app, Hn. split.
  - assert (1 <= length c)%nat by (unfold c; cbn; lia). clearbody c.
    unfold zlen, zdrop in *. rewrite length_drop in I1. change (Z.to_nat 16) with 16%nat in *. lia.
  - intros _. destruct (decide (zdrop 16 c = [])) as [E|E].
    + rewrite E. exists s. destruct fuel; cbn; by rewrite app_nil_r.
    + destruct (I2 E) as [s' ->]. exists (dump_line i (ztake 16 c) ++ s'). by rewrite app_assoc.
Qed.

Lemma newlines_indent s : (newlines (indent (s ++ nl)) <= S (newlines s))%nat.
Proof.
  assert (forall l, newlines (join_nl ((fun l => str "  " ++ l) <$> split_nl l)) = newlines l) as Hj.
  { induction l as [|c l IH]; [done|]. cbn [split_nl newlines]. destruct (Z.eqb_spec c 10) as [->|Hc].
    - cbn [fmap list_fmap join_nl]. destruct (split_nl l) as [|x ls] eqn:E; [by destruct l; cbn in E; repeat case_match|].
      cbn [fmap list_fmap] in *. rewrite !newlines_app. cbn [newlines Z.eqb Pos.eqb]. rewrite <- IH. done.
    - destruct (split_nl l) as [|x ls] eqn:E; [by destruct l; cbn in E; repeat case_match|].
      rewrite <- IH. cbn [fmap list_fmap join_nl]. destruct ls; cbn [fmap list_fmap];
        rewrite ?newlines_app; cbn [newlines]; by rewrite (proj2 (Z.eqb_neq c 10) Hc). }
  assert (forall l, (newlines (trim_right_nl l) <= newlines l)%nat /\ trim_right_nl (l ++ nl) = trim_right_nl l) as Ht.
  { unfold nl. induction l as [|c l [IH1 IH2]]; [done|]. cbn [trim_right_nl app newlines]. rewrite IH2. split; [|done].
    destruct (trim_right_nl l) as [|y t]; destruct (Z.eqb_spec c 10); cbn [newlines] in *;
      rewrite ?(proj2 (Z.eqb_neq c 10)) by done; subst; cbn; lia. }
  unfold indent. rewrite newlines_app, Hj, (proj2 (Ht s)). pose proof (proj1 (Ht s)). cbn. lia.
Qed.

(** ** A row of the table *)

Lemma io_ok up down :
  in_width 64 up -> in_width 64 down -> exists t, io up down = Ok t /\ printable_text t /\ zlen t <= 15.
Proof.
  intros Hu Hd. unfold io. destruct (humanBytes_ok up Hu) as [u Eu]. destruct (humanBytes_ok down Hd) as [d Ed].
  rewrite Eu, Ed. cbn [go_bind]. eexists. split; [done|].
  destruct (printable_human up u Hu Eu), (printable_human down d Hd Ed). split.
  - repeat apply printable_app; [done|literal|done].
  - rewrite !zlen_app. change (zlen (str "/")) with 1. lia.
Qed.

Lemma runes_join l : runes (join (str " ") l) = join (str " ") (runes <$> l).
Proof.
  induction l as [|s l IH]; [done|]. destruct l as [|s' l]; [done|]. cbn [join fmap list_fmap] in *.
  change (str " ") with [32] in *. rewrite runes_app by (cbn; lia).
  change ([32] ++ ?t) with (encode_rune 32 ++ t). rewrite runes_encode_rune by done. by rewrite IH.
Qed.

Lemma zlen_join l : l <> [] -> zlen (join (str " ") l) = zlen (concat l) + zlen l - 1.
Proof.
  induction l as [|s l IH]; [done|]. intros _. destruct l as [|s' l].
  - cbn. rewrite app_nil_r. unfold zlen. cbn. lia.
  - specialize (IH ltac:(done)). cbn [join concat] in *. rewrite !zlen_app, IH, !zlen_app, !zlen_cons.
    change (zlen (str " ")) with 1. lia.
Qed.

Lemma remote_bytes c : Forall is_byte (remote_text c).
Proof.
  unfold remote_text, orDash. pose proof (bytes_of_string_is_byte (SNI (cn_Info c))) as Hs. fold (str (SNI (cn_Info c))) in Hs.
  assert (Forall is_byte (AddrPort_String (cn_Remote c))) by apply printable_bytes, printable_addr.
  assert (Forall is_byte dash) by literal. destruct (str _); by case_bool_decide.
Qed.

Lemma crypto_printable c : printable_text (crypto_text c).1 /\ printable_text (crypto_text c).2.
Proof.
  unfold crypto_text. destruct (cn_Preexisting c && _); cbn; split;
    first [apply VersionName_printable|apply CipherName_printable|literal].
Qed.

Lemma last_bytes now c : Forall is_byte (last_text now c).
Proof.
  unfold last_text. destruct (negb _); [apply printable_bytes, printable_ago|].
  destruct (cn_Closed c); [literal|]. destruct (cn_IsTLS c); literal.
Qed.

(** The columns of a row; the counters always fit theirs. *)
Lemma row_cols_runes now c :
  in_width 64 (cn_TxBytes c) /\ in_width 64 (cn_RxBytes c) -> in_width 64 (cn_PtxBytes c) /\ in_width 64 (cn_PrxBytes c) ->
  exists t wire plain,
    row_cols now c = Ok t /\ io (cn_TxBytes c) (cn_RxBytes c) = Ok wire /\ io (cn_PtxBytes c) (cn_PrxBytes c) = Ok plain
    /\ runes t = join (str " ")
         [fit wPID (dec (cn_Pid c)); fit wComm (runes (str (cn_Comm c))); fit wRemote (runes (remote_text c));
          fit wVer (crypto_text c).1; fit wCipher (crypto_text c).2;
          wire ++ replicate (Z.to_nat (wIO - zlen wire)) 32; plain ++ replicate (Z.to_nat (wIO - zlen plain)) 32;
          fit wState (runes (last_text now c))].
Proof.
  intros [W1 W2] [P1 P2]. destruct (io_ok _ _ W1 W2) as (wire & Ew & Pw & Lw). destruct (io_ok _ _ P1 P2) as (plain & Ep & Pp & Lp).
  destruct (crypto_printable c) as [C1 C2]. unfold row_cols. destruct (crypto_text c) as [ver cipher]. cbn [fst snd] in *.
  rewrite Ew, Ep. cbn [go_bind]. eexists _, wire, plain. split_and!; [done..|].
  assert (forall s w, printable_text s -> 0 < w -> runes (trunc s w) = fit w s) as Hp.
  { intros s w Hs Hw. rewrite trunc_runes by (done || by apply printable_bytes). by rewrite runes_printable. }
  rewrite runes_join. cbn [fmap list_fmap].
  rewrite !(trunc_runes _ _ (bytes_of_string_is_byte _)) by done.
  rewrite (trunc_runes _ _ (remote_bytes c)), (trunc_runes _ _ (last_bytes now c)) by done.
  rewrite !Hp by (done || apply printable_dec).
  assert (forall s, zlen s <= 15 -> fit wIO s = s ++ replicate (Z.to_nat (wIO - zlen s)) 32) as Hf.
  { intros s Hs. unfold fit, wIO. destruct (Z.ltb_spec 18 (zlen s)); [lia|done]. }
  by rewrite !Hf.
Qed.

(** ** Lines of the screen *)

(** What the program takes from elsewhere and shows as text has no line end in it. *)
Record conn_lines (c : Conn) : Prop := {
  cl_comm : one_line (str (cn_Comm c));
  cl_sni : one_line (str (SNI (cn_Info c)));
  cl_subject : one_line (str (CertSubject (cn_Info c)));
  cl_sig : one_line (str (CertSigAlg (cn_Info c)));
  cl_sans : Forall one_line (str <$> CertSANs (cn_Info c));
  cl_alpn : Forall one_line (str <$> ALPN (cn_Info c)) }.

(** Numbers and bytes are of their types, and the tails of a size a machine can hold. *)
Record conn_shown (h : heap) (c : Conn) : Prop := {
  cs_bytes : in_width 64 (cn_TxBytes c) /\ in_width 64 (cn_RxBytes c);
  cs_plain : in_width 64 (cn_PtxBytes c) /\ in_width 64 (cn_PrxBytes c);
  cs_heads : Forall is_byte (cn_HeadOut c) /\ Forall is_byte (cn_HeadIn c);
  cs_tails : Forall is_byte (view h (cn_TailOut c)) /\ Forall is_byte (view h (cn_TailIn c));
  cs_sizes : zlen (view h (cn_TailOut c)) < 2 ^ 64 /\ zlen (view h (cn_TailIn c)) < 2 ^ 64 }.

Lemma remote_line c : conn_lines c -> one_line (remote_text c).
Proof.
  intros Hc. unfold remote_text. pose proof (orDash_line _ (cl_sni c Hc)).
  case_bool_decide; [apply one_line_printable, printable_addr|done].
Qed.

Lemma last_line now c : one_line (last_text now c).
Proof.
  unfold last_text. destruct (negb _); [apply one_line_printable, printable_ago|].
  destruct (cn_Closed c); [literal|]. destruct (cn_IsTLS c); literal.
Qed.

Section Screen.
Context `{StyleOk}.

Lemma lab_lines k v : one_line k -> one_line v -> newlines (lab k v) = 1%nat.
Proof.
  intros Hk Hv. unfold lab. count_lines. done.
Qed.

Lemma renderRow_lines now c selected :
  in_width 64 (cn_TxBytes c) /\ in_width 64 (cn_RxBytes c) -> in_width 64 (cn_PtxBytes c) /\ in_width 64 (cn_PrxBytes c) ->
  conn_lines c -> exists t, renderRow now c selected = Ok t /\ one_line t.
Proof.
  intros Hb Hp Hc. destruct (row_cols_runes now c Hb Hp) as (t & wire & plain & E & Ew & Ep & _).
  unfold renderRow. rewrite E. cbn [go_bind]. eexists. split; [done|].
  assert (one_line t) as Ht.
  { unfold row_cols in E. destruct (crypto_printable c) as [C1 C2]. destruct (crypto_text c) as [ver cipher].
    rewrite Ew, Ep in E. cbn [go_bind] in E.
    match type of E with Ok ?x = _ => assert (x = t) as <- by congruence end.
    destruct (io_ok _ _ (proj1 Hb) (proj2 Hb)) as (w' & Ew' & Pw & _). rewrite Ew in Ew'. injection Ew' as <-.
    destruct (io_ok _ _ (proj1 Hp) (proj2 Hp)) as (p' & Ep' & Pp & _). rewrite Ep in Ep'. injection Ep' as <-.
    apply one_line_join; [literal|].
    repeat first [apply Forall_nil; exact I|apply Forall_cons; split]; apply one_line_trunc;
      first [apply one_line_dec|apply (cl_comm c Hc)|by apply remote_line|apply last_line|by apply one_line_printable]. }
  destruct selected; [by apply stySel_line|]. destruct (negb _); [by apply styDim_line|].
  destruct (cn_IsTLS c); [by apply styTLS_line|by apply styDim_line].
Qed.

(** The first 128 bytes of a text take eight lines. *)
Lemma dump_panel b : Forall is_byte b -> b <> [] -> exists d, hexDump b 128 = Ok d /\ (newlines (indent d) <= 8)%nat.
Proof.
  intros Hb Hne. rewrite hexDump_take by done. eexists. split; [done|]. set (c := ztake 128 b).
  assert (c <> [] /\ zlen c <= 128) as [Hc Hl].
  { unfold c, ztake, zlen. change (Z.to_nat 128) with 128%nat. rewrite length_take. split; [by destruct b|lia]. }
  destruct (newlines_dump_lines (length c) 0 c ltac:(lia) ltac:(by apply Forall_take) ltac:(lia)) as [Hn Hs].
  destruct (Hs Hc) as [s E]. rewrite E in *. pose proof (newlines_indent s).
  unfold nl in *. rewrite newlines_app in Hn. cbn [newlines Z.eqb Pos.eqb] in Hn. lia.
Qed.

Lemma renderPlain_lines fn verb head tail :
  one_line fn -> one_line verb -> Forall is_byte head -> Forall is_byte tail -> zlen tail < 2 ^ 64 ->
  exists t, renderPlain styLabel styDim fn verb head tail = Ok t /\ (newlines t <= 19)%nat.
Proof.
  intros Hf Hv Hh Ht Hl. unfold renderPlain. destruct (_ && _); [eexists; split; [done|]; cbn; lia|].
  match goal with |- context [do! b <- (if _ then _ else Ok ?x); _] => set (b0 := x) end.
  assert (newlines b0 = 1%nat) as Hb0 by (unfold b0; by count_lines).
  assert (exists b, (if 0 <? zlen head then do! d <- hexDump head 128;
      Ok (b0 ++ str "  " ++ styDim (str "head:") ++ [10] ++ indent d) else Ok b0) = Ok b /\ (newlines b <= 10)%nat) as (b & -> & Hb).
  { destruct (Z.ltb_spec 0 (zlen head)) as [Hp|_]; [|exists b0; split; [done|lia]].
    destruct (dump_panel head Hh ltac:(by intros ->)) as (d & -> & Hd). eexists. split; [done|].
    count_lines. rewrite Hb0. cbn [newlines Z.eqb Pos.eqb]. lia. }
  cbn [go_bind]. destruct (Z.ltb_spec 0 (zlen tail)) as [Hp|_]; cbn [andb]; [|exists b; split; [done|lia]].
  destruct (negb _); [|exists b; split; [done|lia]].
  pose proof (zlen_nonneg tail). assert (in_width 64 (zlen tail)) as Hw by (unfold in_width; lia).
  destruct (humanBytes_ok _ Hw) as [n En]. rewrite En. cbn [go_bind].
  pose proof (one_line_printable _ (proj1 (printable_human _ _ Hw En))) as Hn.
  destruct (dump_panel tail Ht ltac:(by intros ->)) as (d & -> & Hd). eexists. split; [done|].
  count_lines. cbn [newlines Z.eqb Pos.eqb]. lia.
Qed.

Lemma detail_flow_lines now c : conn_lines c -> (newlines (detail_flow now c) <= 3)%nat.
Proof.
  intros Hc. pose proof (cl_comm c Hc). unfold detail_flow, dir_text. cbv zeta.
  rewrite !newlines_app, !lab_lines by one_lines. destruct (negb _); [rewrite lab_lines by one_lines|cbn]; lia.
Qed.

Lemma ident_line i : one_line (str (SNI i)) -> one_line (str (CertSubject i)) -> one_line (ident_text i).
Proof. intros Hs Hc. unfold ident_text. destruct (str (CertSubject i)); [done|]. one_lines. Qed.

Lemma sig_line i : one_line (str (CertSigAlg i)) -> one_line (sig_text i).
Proof.
  intros Hs. unfold sig_text. destruct (str (CertSigAlg i)), (OfferedSigs i); try done.
  apply one_line_app; [literal|]. apply one_line_join; [literal|].
  apply Forall_map, Forall_true. intros. apply one_line_printable, SigSchemeName_printable.
Qed.

Lemma detail_info_lines c : conn_lines c -> (newlines (detail_info (cn_Info c)) <= 8)%nat.
Proof.
  intros [_ Hs Hcs Hsig Hsan Halpn]. set (i := cn_Info c) in *. unfold detail_info.
  pose proof (ident_line i Hs Hcs). pose proof (sig_line i Hsig).
  pose proof (one_line_join (str ", ") _ ltac:(literal) Hsan). pose proof (one_line_join (str ", ") _ ltac:(literal) Halpn).
  rewrite !newlines_app, !lab_lines by one_lines.
  destruct (0 <? zlen (CertSANs i)), (HasServerHello i && (NegVersion i =? 0x0304) && negb (HasCert i)),
    (0 <? zlen (ALPN i)); rewrite ?lab_lines by one_lines;
    cbn; lia.
Qed.

Lemma detail_peek_lines line h c :
  one_line line -> conn_shown h c -> exists t, detail_peek (line ++ nl) h c = Ok t /\ (newlines t <= 39)%nat.
Proof.
  intros Hl [_ _ [H1 H2] [T1 T2] [S1 S2]]. unfold detail_peek. cbv zeta. destruct (_ && _).
  - eexists. split; [done|]. count_lines. cbn. lia.
  - destruct (renderPlain_lines (str "SSL_write →") (str "sent") _ _ ltac:(literal) ltac:(literal) H1 T1 S1) as (o & -> & Ho).
    destruct (renderPlain_lines (str "SSL_read ←") (str "received") _ _ ltac:(literal) ltac:(literal) H2 T2 S2) as (i & -> & Hi).
    cbn [go_bind]. eexists. split; [done|]. count_lines. cbn. lia.
Qed.

Lemma renderDetail_lines now h m :
  sel_ok m -> 0 <= m_w m -> Forall (fun c => conn_lines c /\ conn_shown h c) (m_rows m) ->
  exists t, renderDetail now h m = Ok t /\ (newlines t <= if m_peek m then 52 else 13)%nat.
Proof.
  intros Hs Hw Hr. unfold renderDetail, Repeat. destruct (Z.ltb_spec (Z.min (m_w m) 100) 0); [lia|]. cbn [go_bind]. cbv zeta.
  set (line := styDim _). assert (one_line line) as Hl by (apply styDim_line, one_line_repeat; literal).
  unfold detail. destruct Hs as [[E _]|Hs].
  - rewrite E. cbn [orb Z.eqb zlen length Z.of_nat go_bind]. eexists. split; [done|]. count_lines. cbn. destruct (m_peek m); lia.
  - destruct (row_at_ok m (m_sel m) Hs) as (c & Hc & Hlk).
    destruct (Z.eqb_spec (zlen (m_rows m)) 0); [lia|]. destruct (Z.leb_spec (zlen (m_rows m)) (m_sel m)); [lia|].
    cbn [orb]. rewrite Hc. cbn [go_bind]. rewrite Forall_lookup in Hr. destruct (Hr _ _ Hlk) as [C1 C2].
    set (b := (line ++ nl) ++ _).
    assert (newlines b <= 13)%nat as Hb.
    { unfold b. pose proof (detail_flow_lines now c C1). pose proof (detail_info_lines c C1). count_lines.
      destruct (cn_Preexisting c); count_lines; cbn [newlines nl Z.eqb Pos.eqb]; lia. }
    destruct (m_peek m); [|by exists b].
    destruct (detail_peek_lines line h c Hl C2) as (p & -> & Hp). cbn [go_bind]. eexists. split; [done|].
    rewrite newlines_app. lia.
Qed.

Lemma rows_text_lines clock h i l :
  Forall (fun c => conn_lines c /\ conn_shown h c) l.*1 ->
  exists t, rows_text clock i l = Ok t /\ newlines t = length l.
Proof.
  revert i. induction l as [|[c b] l IH]; intros i Hl; cbn [rows_text]; [by eexists|].
  cbn [fmap list_fmap fst] in Hl. apply Forall_cons in Hl as [[C1 C2] Hl].
  destruct (renderRow_lines (clock i) c b (cs_bytes h c C2) (cs_plain h c C2) C1) as (r & -> & Hr). cbn [go_bind].
  destruct (IH (S i) Hl) as (t & -> & Ht). cbn [go_bind]. eexists. split; [done|]. count_lines. cbn. lia.
Qed.

Lemma title_lines m : newlines (title m) = 2%nat.
Proof.
  unfold title, tab. assert (forall v, one_line (view_text v)) as Hv by (intros []; literal).
  assert (one_line (sort_text (m_sortBy m))) as Hs by (destruct (m_sortBy m); literal).
  cbn [fmap list_fmap concat]. repeat case_decide; try congruence; by count_lines.
Qed.

Lemma head_line_lines m : newlines (head_line m) = 1%nat.
Proof.
  unfold head_line. cbv zeta. rewrite newlines_app. rewrite newlines_one_line; [done|]. apply styHeader_line.
  case_decide; literal.
Qed.

(** The lines of the screen but for the detail panel. *)
Lemma View_lines clock h m :
  sel_ok m -> 0 < m_w m -> Forall (fun c => conn_lines c /\ conn_shown h c) (m_rows m) ->
  exists t, View clock h m = Ok t
    /\ Z.of_nat (newlines t) <= 3 + maxRows m + (if m_peek m then 52 else 13).
Proof.
  intros Hs Hw Hr. unfold View. destruct (Z.eqb_spec (m_w m) 0); [lia|].
  pose proof (start_nonneg m) as Hst. pose proof (maxRows_pos m) as Hm.
  destruct (draw_spec m (start m) (S (length (m_rows m)))) as (l & Hl & Hrows & _); [lia|unfold zlen; lia|].
  replace (start m + maxRows m - start m) with (maxRows m) in Hrows by lia. unfold visible. rewrite Hl. cbn [go_bind].
  destruct (rows_text_lines clock h 0 l) as (r & -> & En).
  { rewrite Hrows. by apply Forall_take, Forall_drop. }
  cbn [go_bind]. destruct (renderDetail_lines (clock (length l)) h m Hs ltac:(lia) Hr) as (d & -> & Hd).
  cbn [go_bind]. eexists. split; [done|].
  rewrite !newlines_app, title_lines, head_line_lines, En, newlines_replicate.
  rewrite (newlines_one_line (styDim _)) by one_lines.
  assert (start m <= zlen (m_rows m)) as Hle.
  { destruct Hs as [[-> Hs]|Hs]; unfold start; [|destruct (Z.leb_spec (maxRows m) (m_sel m)); lia].
    destruct (Z.leb_spec (maxRows m) (m_sel m)); [lia|done]. }
  assert (Z.of_nat (length l) = Z.min (maxRows m) (zlen (m_rows m) - start m)) as Hlen.
  { rewrite <- (length_fmap fst), Hrows. unfold ztake, zdrop, zlen in *. rewrite length_take, length_drop. lia. }
  destruct (m_peek m); lia.
Qed.
End Screen.
