(* ===== verification/RenderProps.v ===== *)
(** The screen as text: the columns of a row, and how many lines a screen has. *)
From S2P Require Import Prelude Slices Proc TlsParse Names Loader Store StoreProps Ui UiProps Format Dump Text Endpoint Render RenderFacts.

#[local] Existing Instance demo_range.
#[local] Existing Instance demo_sort.

(** ** Rows *)

(** A remote endpoint that fits its column is its first word. *)
Lemma remote_read c :
  SNI (cn_Info c) = EmptyString -> endpoint_ok (cn_Remote c) ->
  (exists b, ap_addr (cn_Remote c) = AddrFrom4 b) \/ zlen (AddrPort_String (cn_Remote c)) <= wRemote ->
  read_endpoint (hd [] (tokens 32 (fit wRemote (runes (remote_text c))))) = Some (cn_Remote c).
Proof.
  intros Es Hok Hfit.
  assert (zlen (AddrPort_String (cn_Remote c)) <= 24) as Hz.
  { destruct Hfit as [[b Eb]|Hfit]; [|exact Hfit]. destruct (cn_Remote c) as [a port]. cbn [ap_addr] in Eb. subst a.
    destruct Hok. pose proof (endpoint4_length b port). cbn in *. intuition lia. }
  unfold remote_text, orDash. rewrite Es. cbn [str bytes_of_string]. rewrite bool_decide_eq_true_2 by done.
  rewrite runes_printable by apply printable_addr. unfold fit, wRemote.
  destruct (Z.ltb_spec 24 (zlen (AddrPort_String (cn_Remote c)))); [lia|].
  rewrite tokens_padded by (apply endpoint_lack; (done || lia)). by apply endpoint_readback.
Qed.

(** A server name that is neither empty nor the dash stands in its column. *)
Lemma remote_name c : str (SNI (cn_Info c)) ∉ [[]; dash] -> remote_text c = str (SNI (cn_Info c)).
Proof.
  intros Hn. unfold remote_text, orDash. set (s := str _) in *. clearbody s.
  destruct s as [|x s]; [by destruct Hn; left|]. rewrite bool_decide_eq_false_2; [done|].
  intros E. apply Hn. rewrite E. by right; left.
Qed.

(** C35: a row of the table.  Whatever the connection is called and however much it has
    moved, its row is 135 runes wide: eight columns of fixed width with a blank between
    them.  The byte counters, printed for humans, are never cut; names are cut with an
    ellipsis, between runes.  (A name is not escaped: its control characters are among the
    runes of the row.)  The remote column has the server name where one is known
    (other than the dash itself).  Where
    none is, it tells the remote endpoint: its first word is read back as that endpoint,
    provided this is a valid address whose text fits in the 24 columns, which an IPv4
    endpoint's always does. *)
Theorem row_layout now c :
  in_width 64 (cn_TxBytes c) /\ in_width 64 (cn_RxBytes c) -> in_width 64 (cn_PtxBytes c) /\ in_width 64 (cn_PrxBytes c) ->
  exists t wire plain,
    row_cols now c = Ok t /\ io (cn_TxBytes c) (cn_RxBytes c) = Ok wire /\ io (cn_PtxBytes c) (cn_PrxBytes c) = Ok plain
    /\ runes t = join (str " ")
         [fit wPID (dec (cn_Pid c)); fit wComm (runes (str (cn_Comm c))); fit wRemote (runes (remote_text c));
          fit wVer (crypto_text c).1; fit wCipher (crypto_text c).2;
          wire ++ replicate (Z.to_nat (wIO - zlen wire)) 32; plain ++ replicate (Z.to_nat (wIO - zlen plain)) 32;
          fit wState (runes (last_text now c))]
    /\ zlen (runes t) = 135
    /\ (str (SNI (cn_Info c)) ∉ [[]; dash] -> remote_text c = str (SNI (cn_Info c)))
    /\ (SNI (cn_Info c) = EmptyString -> endpoint_ok (cn_Remote c) ->
         (exists b, ap_addr (cn_Remote c) = AddrFrom4 b) \/ zlen (AddrPort_String (cn_Remote c)) <= wRemote ->
         read_endpoint (hd [] (tokens 32 (fit wRemote (runes (remote_text c))))) = Some (cn_Remote c)).
Proof.
  intros Hb Hp. destruct (row_cols_runes now c Hb Hp) as (t & wire & plain & E & Ew & Ep & Er).
  exists t, wire, plain. split_and!; try done; [|by apply remote_name|by apply remote_read].
  rewrite Er, zlen_join by done.
  destruct (io_ok _ _ (proj1 Hb) (proj2 Hb)) as (w' & Ew' & _ & Lw). rewrite Ew in Ew'. injection Ew' as <-.
  destruct (io_ok _ _ (proj1 Hp) (proj2 Hp)) as (p' & Ep' & _ & Lp). rewrite Ep in Ep'. injection Ep' as <-.
  assert (forall s, zlen s <= 15 -> zlen (s ++ replicate (Z.to_nat (wIO - zlen s)) 32) = 18) as Hpad.
  { intros s Hs. rewrite zlen_app. unfold zlen at 2. rewrite length_replicate. unfold wIO. lia. }
  assert (forall (ls : list (list Z)), zlen (concat ls) = foldr Z.add 0 (zlen <$> ls)) as Hc.
  { induction ls as [|l ls IH]; [done|]. cbn [concat fmap list_fmap foldr]. by rewrite zlen_app, IH. }
  rewrite Hc. cbn [fmap list_fmap foldr]. rewrite !zlen_fit, !Hpad by done. reflexivity.
Qed.

(** 1000 bytes sent and 2^40 received, by a command with a long name. *)
Definition demo_big : Conn :=
  update_conn 5 (mkFlow 7 100 [16777343; 0; 0; 0] [16777343; 0; 0; 0] 5000 443 false 1 true false "a-long-command" 1000 (2 ^ 40))
    (new_conn 7 0).

Lemma row_layout_witness :
  exists t, row_cols 9 demo_big = Ok t /\ zlen (runes t) = 135
    /\ ztake 18 (zdrop 88 (runes t)) = str "1000B/1.0T        "
    /\ ztake 24 (zdrop 23 (runes t)) = str "127.0.0.1:443           "
    /\ read_endpoint (hd [] (tokens 32 (fit wRemote (runes (remote_text demo_big)))))
       = Some (AddrPortFrom (AddrFrom4 [127; 0; 0; 1]) 443).
Proof.
  destruct (row_layout 9 demo_big) as (t & wire & plain & E & Ew & Ep & Er & El & _ & Eb);
    [unfold in_width; cbn; lia..|].
  exists t. split; [exact E|]. split; [exact El|].
  rewrite Eb; [|done|apply (bool_decide_unpack _); vm_compute; exact I|left; by eexists]. rewrite Er.
  vm_compute in Ew. injection Ew as <-. vm_compute in Ep. injection Ep as <-. by vm_compute.
Defined.

(** ** Lines *)

(** C34: the screen fits the terminal.  After any messages (window widths not negative),
    as long as no name among those shown - command, server name, certificate subject and
    SANs, signature algorithm, application protocols - has a line end in it and the
    numbers, heads and tails shown are within their types, the screen is drawn without a
    panic and, without the plaintext, has at most as many lines as the terminal, or 20
    where that has fewer.  With the plaintext the 22 lines the layout reserves do not
    suffice: the bound is 29 lines more than the terminal has, or 59, whichever is more,
    and a full panel exceeds the terminal.  (The names come from the handshake and
    nothing removes a line end from them.) *)
Theorem view_fits `{StyleOk, MapRange, SortSlice} clock h msgs :
  Forall (fun msg => match msg with WindowSizeMsg w _ => 0 <= w | _ => True end) msgs ->
  let m := updates msgs New_model in
  Forall (fun c => conn_lines c /\ conn_shown h c) (m_rows m) ->
  exists t, View clock h m = Ok t /\
    Z.of_nat (newlines t) + 1 <= if m_peek m then Z.max 59 (m_h m + 29) else Z.max 20 (m_h m).
Proof.
  cbn zeta. intros Hw. assert (sel_ok (updates msgs New_model)) as Hs by (apply updates_sel; by left).
  pose proof (updates_width msgs New_model Hw ltac:(done)) as Hmw. revert Hs Hmw.
  generalize (updates msgs New_model). intros m Hs Hmw Hr.
  destruct (Z.eqb_spec (m_w m) 0) as [E|E].
  - exists (str "starting…"). unfold View. rewrite E. split; [done|].
    assert (newlines (str "starting…") = 0%nat) as -> by reflexivity. destruct (m_peek m); lia.
  - destruct (View_lines clock h m Hs ltac:(lia) Hr) as (t & Et & Hn). exists t. split; [done|].
    unfold maxRows in Hn. cbv zeta in Hn. destruct (m_peek m); cbn match in *;
      match type of Hn with context [?x <? 3] => destruct (Z.ltb_spec x 3) end; lia.
Qed.

(** Colours that do nothing. *)
#[local] Instance demo_style : Style := Build_Style id id id id id id id.
#[local] Instance demo_style_ok : StyleOk.
Proof. by split. Qed.

(** A connection with 200 bytes of plaintext at both ends of both directions, in a
    terminal of 40 lines. *)
Definition demo_bytes (c : Z) : list Z := replicate 200 c.
Definition demo_peeked : Conn := set_peek (mkSample (demo_bytes 65) (Some (0, 200)%nat) (demo_bytes 66) (Some (1, 200)%nat)) demo_big.
Definition demo_heap : heap := [demo_bytes 67; demo_bytes 68].
Definition demo_screen (keys : list Msg) : list Msg :=
  let s := set_conns {[7 := demo_peeked]} (Store.New 3 8) in WindowSizeMsg 120 40 :: tickMsg 0 s s :: keys.

Lemma view_fits_witness :
  (exists t, View (fun _ => 9) demo_heap (updates (demo_screen []) New_model) = Ok t
    /\ Z.of_nat (newlines t) + 1 <= 40)
  /\ exists t, View (fun _ => 9) demo_heap (updates (demo_screen [KeyMsg "enter"]) New_model) = Ok t
    /\ Z.of_nat (newlines t) + 1 <= 69 /\ 40 < Z.of_nat (newlines t) + 1.
Proof.
  split.
  - destruct (view_fits (fun _ => 9) demo_heap (demo_screen [])) as (t & E & Hn).
    + by repeat constructor.
    + vm_compute. by repeat constructor.
    + exists t. split; [exact E|]. exact Hn.
  - destruct (view_fits (fun _ => 9) demo_heap (demo_screen [KeyMsg "enter"])) as (t & E & Hn).
    + by repeat constructor.
    + vm_compute. by repeat constructor.
    + exists t. split; [exact E|]. split; [exact Hn|].
      assert (match View (fun _ => 9) demo_heap (updates (demo_screen [KeyMsg "enter"]) New_model) with
        | Ok t => 40 <? Z.of_nat (newlines t) + 1 | _ => false end = true) as Hb by (vm_compute; reflexivity).
      rewrite E in Hb. by apply Z.ltb_lt.
Defined.
