(* ===== verification/Screen.v ===== *)
(** main.go with the terminal interface: the kernel side, the event reader, the map poller
    and the interface's message loop as one interleaving.

    A [tickMsg] takes two locks, so others may run between its snapshot and its history;
    the rows it builds hold slices of arrays the store goes on writing, and a screen is
    drawn from what those arrays hold by then. *)
From S2P Require Import Prelude Abi Bpf BpfInv Loader LoaderProps TlsParse TlsDuplex Slices Proc Store StoreInv StoreFacts StorePlain System SystemTypes Ui Names Format Dump Text Render RenderFacts.

(** ** The arrays of the store *)

Definition heap_typed (h : heap) : Prop := Forall (Forall is_byte) h.

Lemma array_typed h a : heap_typed h -> Forall is_byte (array h a).
Proof.
  intros Hh. unfold array. destruct (h !! a) as [l|] eqn:E; [|constructor].
  unfold heap_typed in Hh. rewrite Forall_lookup in Hh. by apply (Hh a).
Qed.

Lemma view_typed h s : heap_typed h -> Forall is_byte (view h s).
Proof. intros Hh. destruct s as [[a n]|]; [|constructor]. by apply Forall_take, array_typed. Qed.

Lemma zeros_typed n : Forall is_byte (replicate n 0).
Proof. by apply Forall_replicate. Qed.

Section Arrays.
Context `{GrowthOk}.

Lemma append_typed h s data h' s' :
  heap_typed h -> Forall is_byte data -> append h s data = (h', s') -> heap_typed h'.
Proof.
  intros Hh Hd. unfold append. destruct s as [[a n]|].
  - case_match; intros [= <- <-].
    + apply Forall_insert; [done|]. unfold overwrite.
      repeat apply Forall_app_2; [by apply Forall_take, array_typed|done|by apply Forall_drop, array_typed].
    + apply Forall_app_2; [done|]. constructor; [|constructor].
      repeat apply Forall_app_2; [by apply (view_typed h (Some (a, n)))|done|apply zeros_typed].
  - case_match; intros [= <- <-]; [done|]. apply Forall_app_2; [done|]. constructor; [|constructor].
    apply Forall_app_2; [done|apply zeros_typed].
Qed.

Lemma appendTail_typed h buf data max h' buf' :
  heap_typed h -> Forall is_byte data -> appendTail h buf data max = (h', buf') -> heap_typed h'.
Proof.
  intros Hh Hd. unfold appendTail. destruct (max <=? 0); [by intros [= <- <-]|].
  destruct (append h buf data) as [h1 b1] eqn:E1. pose proof (append_typed _ _ _ _ _ Hh Hd E1) as H1.
  case_match; [|by intros [= <- <-]]. intros E2. eapply append_typed; [exact H1| |exact E2].
  apply Forall_drop. by apply view_typed.
Qed.

(** What an operation leaves of the arrays: capacities, the window, bytes. *)
Definition arrays_le (s s' : Store) : Prop :=
  heap_le (arrays s) (arrays s') /\ peekBytes s' = peekBytes s
  /\ (heap_typed (arrays s) -> heap_typed (arrays s')).

Lemma arrays_le_refl s : arrays_le s s.
Proof. split_and!; [apply heap_le_refl|done|done]. Qed.
Lemma arrays_le_same s s' : arrays s' = arrays s -> peekBytes s' = peekBytes s -> arrays_le s s'.
Proof. intros E1 E2. unfold arrays_le. rewrite E1, E2. split_and!; [apply heap_le_refl|done|done]. Qed.
Lemma arrays_le_trans a b c : arrays_le a b -> arrays_le b c -> arrays_le a c.
Proof. intros (H1 & H2 & H3) (H4 & H5 & H6). split_and!; [by eapply heap_le_trans|congruence|auto]. Qed.
End Arrays.

Lemma do_op_arrays `{X509, Growth, MapRange} k o s s' :
  do_op k o s = Ok s' -> (forall d, o <> OpData d) -> arrays s' = arrays s /\ peekBytes s' = peekBytes s.
Proof.
  intros Ho Hd. destruct o as [fs|w|d|e|sts]; cbn [do_op] in Ho.
  - injection Ho as <-. rewrite UpdateFlows_loop. cbn zeta.
    by match goal with |- context [retire_loop ?a ?b ?c ?d] => destruct (retire_loop_samples a b c d) as (_ & -> & ->) end.
  - destruct w as [w|]; cbn [ApplyWire] in Ho; [|by injection Ho as <-].
    destruct (_ =? 0); [by injection Ho as <-|]. apply go_bind_inv in Ho as (c & _ & Ho). by injection Ho as <-.
  - by destruct (Hd d).
  - destruct e as [e|]; cbn [ApplyClose] in Ho; [|by injection Ho as <-].
    destruct (resolve k 0 (c_Pid e) (c_Fd e) s) as [s1 r] eqn:Er. destruct (resolve_same _ _ _ _ _ _ _ Er) as [m ->].
    injection Ho as <-. by destruct r.
  - injection Ho as <-. unfold UpdateSSLStats. cbn zeta. cbn [arrays peekBytes set_samples].
    by destruct (fold_stats_samples k 0 sts (set_conns (zero_plain <$> conns s) s)) as (_ & -> & ->).
Qed.

Lemma do_op_le `{X509, GrowthOk, MapRangeOk} k o s s' :
  store_wf s -> op_typed o -> do_op k o s = Ok s' -> arrays_le s s'.
Proof.
  intros Hw Ho E. destruct o as [fs|w|d|e|sts];
    try (destruct (do_op_arrays _ _ _ _ E ltac:(done)); by apply arrays_le_same).
  cbn [do_op] in E. injection E as <-. unfold ApplyData. destruct d as [d|]; [|apply arrays_le_refl].
  destruct (_ =? 0); [apply arrays_le_refl|]. apply dt_data in Ho.
  set (smp := match plainBySSL s !! d_SSL d with Some smp => smp | None => sample_zero end).
  assert (slice_ok (arrays s) (tailOut smp) /\ slice_ok (arrays s) (tailIn smp)) as [Ht1 Ht2].
  { pose proof (proj1 (sw_tails _ Hw (d_SSL d, true))) as Hx. pose proof (proj1 (sw_tails _ Hw (d_SSL d, false))) as Hy.
    unfold stail in *. cbn [fst snd] in *. unfold smp. by destruct (plainBySSL s !! d_SSL d). }
  destruct (d_Dir d =? 1); destruct (appendTail _ _ _ _) as [h t] eqn:Ea; split_and!; cbn [arrays peekBytes set_samples]; try done.
  all: first [eapply appendTail_le; [|exact Ea]; assumption|intros Hh; eapply appendTail_typed; [exact Hh|exact Ho|exact Ea]].
Qed.

(** ** The arrays while the program runs *)

Section Runs.
Context {K : Type} `{KernelViewOk K, X509, GrowthOk, MapRangeOk}.

(** Everything that is always so. *)
Record whole_ok (w : world) : Prop := {
  wh_wf : sys_wf w;
  wh_typed : sys_typed w;
  wh_heap : heap_typed (arrays (store w)) }.

Lemma act_le a w w' :
  sys_wf w -> sys_typed w -> act (K := K) a w = Ok (Some w') -> arrays_le (store w) (store w').
Proof.
  intros Hw Ht E. pose proof (sy_store _ Hw) as Hs.
  assert (forall a, Ok (poll (K := K) a w) = Ok (Some w') -> arrays_le (store w) (store w')) as Hpoll.
  { intros a0 [= E0]. unfold poll in E0.
    destruct a0, (pl w) as [|it|fs|[|f fs]|it|sts] eqn:Epl; try done;
      try (injection E0 as <-; apply arrays_le_refl);
      try (apply bind_Some in E0 as (x & _ & [= <-]); apply arrays_le_refl).
    - injection E0 as <-. apply (do_op_le k (OpFlows fs)); [done| |done].
      pose proof (ty_pl _ Ht) as Hp. by rewrite Epl in Hp.
    - injection E0 as <-. by apply (do_op_le k (OpStats sts)). }
  destruct a; cbn [act] in E; try by eapply Hpoll.
  - injection E as <-. apply arrays_le_refl.
  - unfold read_next in E. destruct (rd w); try done. destruct (events (kern w)) as [|ev evs]; [done|].
    destruct (ReadEvent _); try done. injection E as <-. apply arrays_le_refl.
  - destruct (rd w); try done. injection E as <-. apply arrays_le_refl.
  - unfold apply_next in E. pose proof (ty_rd _ Ht) as Hr. destruct (rd w) as [|r|] eqn:Er; try done.
    apply go_bind_inv in E as (s & Es & [= <-]). rewrite dispatch_op in Es. cbn [store]. by eapply do_op_le.
Qed.

Lemma act_whole a w w' :
  whole_ok w -> action_ok a -> act (K := K) a w = Ok (Some w') -> whole_ok w' /\ arrays_le (store w) (store w').
Proof.
  intros [Hw Ht Hh] Ha E. pose proof (act_le _ _ _ Hw Ht E) as Hle. split; [|done].
  destruct (act_wf a w Hw Ha) as (r & Er & Hw'). rewrite E in Er. injection Er as <-.
  split; [by apply Hw'|by eapply act_typed|by apply Hle].
Qed.

Lemma acts_whole l w w' :
  whole_ok w -> Forall action_ok l -> acts (K := K) l w = Ok (Some w') -> whole_ok w' /\ arrays_le (store w) (store w').
Proof.
  intros Hw Hl. revert w Hw. induction Hl as [|a l Ha _ IH]; intros w Hw E; cbn [acts] in E.
  - injection E as <-. split; [done|apply arrays_le_refl].
  - apply go_bind_inv in E as ([w1|] & E1 & E); [|done].
    destruct (act_whole a w w1 Hw Ha E1) as [Hw1 Hle1]. destruct (IH w1 Hw1 E) as [Hw2 Hle2].
    split; [done|by eapply arrays_le_trans].
Qed.

Lemma whole_init mh pb : whole_ok (world_init mh pb).
Proof. split; [apply world_init_wf|apply world_init_typed|constructor]. Qed.
End Runs.

(** ** The screen of a model *)

Section Drawn.
Context `{StyleOk}.

Lemma rows_text_ok clock h i l :
  Forall (conn_shown h) l.*1 -> exists t, rows_text clock i l = Ok t.
Proof.
  revert i. induction l as [|[c b] l IH]; intros i Hl; cbn [rows_text]; [by eexists|].
  cbn [fmap list_fmap fst] in Hl. apply Forall_cons in Hl as [Hc Hl].
  destruct (row_cols_runes (clock i) c (cs_bytes h c Hc) (cs_plain h c Hc)) as (r & _ & _ & Er & _).
  unfold renderRow. rewrite Er. cbn [go_bind]. destruct (IH (S i) Hl) as (t & ->). by eexists.
Qed.

Lemma detail_peek_ok div h c : conn_shown h c -> exists t, detail_peek div h c = Ok t.
Proof.
  intros [_ _ [Hh1 Hh2] [T1 T2] [S1 S2]]. unfold detail_peek. cbv zeta. destruct (_ && _); [by eexists|].
  destruct (renderPlain_lines (str "SSL_write →") (str "sent") _ _ ltac:(literal) ltac:(literal) Hh1 T1 S1) as (o & -> & _).
  destruct (renderPlain_lines (str "SSL_read ←") (str "received") _ _ ltac:(literal) ltac:(literal) Hh2 T2 S2) as (i & -> & _).
  by eexists.
Qed.

(** The panel is drawn, with the lines of the connection it describes in it. *)
Lemma renderDetail_shows now h m :
  sel_ok m -> 0 <= m_w m -> Forall (conn_shown h) (m_rows m) ->
  exists t, renderDetail now h m = Ok t
    /\ forall c, detail m = Ok (Some c) -> exists pre post, t = pre ++ detail_flow now c ++ detail_info (cn_Info c) ++ post.
Proof.
  intros Hs Hw Hr. unfold renderDetail, Repeat. destruct (Z.ltb_spec (Z.min (m_w m) 100) 0); [lia|]. cbn [go_bind]. cbv zeta.
  set (line := styDim _). destruct (detail m) as [[c|]| |] eqn:Ed; cbn [go_bind].
  - set (pre := if cn_Preexisting c then _ else []). destruct (m_peek m).
    + destruct (detail_peek_ok (line ++ nl) h c) as (p & ->).
      { unfold detail in Ed. destruct (_ || _); [done|]. apply go_bind_inv in Ed as (c' & Ec & [= ->]).
        unfold row_at in Ec. destruct (0 <=? m_sel m); [|done]. destruct (m_rows m !! _) as [c'|] eqn:El; [|done].
        injection Ec as ->. rewrite Forall_lookup in Hr. by apply (Hr _ _ El). }
      cbn [go_bind]. eexists. split; [done|]. intros c' [= <-]. exists (line ++ nl), (pre ++ p). by rewrite <- !app_assoc.
    + eexists. split; [done|]. intros c' [= <-]. exists (line ++ nl), pre. done.
  - eexists. split; [done|]. by intros c'.
  - exfalso. unfold detail in Ed. destruct Hs as [[E _]|Hs]; [by rewrite E in Ed|].
    destruct (row_at_ok m (m_sel m) Hs) as (c & Hc & _). rewrite Hc in Ed. by destruct (_ || _).
  - exfalso. unfold detail in Ed. destruct Hs as [[E _]|Hs]; [by rewrite E in Ed|].
    destruct (row_at_ok m (m_sel m) Hs) as (c & Hc & _). rewrite Hc in Ed. by destruct (_ || _).
Qed.

Lemma View_shows clock h m :
  sel_ok m -> 0 <= m_w m -> Forall (conn_shown h) (m_rows m) ->
  exists t, View clock h m = Ok t
    /\ forall c, m_w m <> 0 -> detail m = Ok (Some c) ->
       exists now pre post, t = pre ++ detail_flow now c ++ detail_info (cn_Info c) ++ post.
Proof.
  intros Hs Hw Hr. unfold View. destruct (Z.eqb_spec (m_w m) 0); [by eexists|].
  pose proof (start_nonneg m) as Hst.
  destruct (draw_spec m (start m) (S (length (m_rows m)))) as (l & Hl & Hrows & _); [lia|unfold zlen; lia|].
  unfold visible. rewrite Hl. cbn [go_bind]. destruct (rows_text_ok clock h 0 l) as (r & ->).
  { rewrite Hrows. by apply Forall_take, Forall_drop. }
  cbn [go_bind]. destruct (renderDetail_shows (clock (length l)) h m Hs Hw Hr) as (d & -> & Hd). cbn [go_bind].
  eexists. split; [done|]. intros c _ Hc. destruct (Hd c Hc) as (pre & post & ->).
  match goal with |- context [title m ++ head_line m ++ r ++ ?f ++ _ ++ ?z] =>
    exists (clock (length l)), (title m ++ head_line m ++ r ++ f ++ pre), (post ++ z) end.
  by rewrite <- !app_assoc.
Qed.
End Drawn.

(** ** The rows of a model *)

(** What a row may hold: typed values, and tails within the store's arrays. *)
Definition row_ok (s : Store) (c : Conn) : Prop :=
  conn_typed c /\ tail_ok (arrays s) (peekBytes s) (cn_TailOut c) /\ tail_ok (arrays s) (peekBytes s) (cn_TailIn c).

Lemma row_ok_le s s' c : arrays_le s s' -> row_ok s c -> row_ok s' c.
Proof.
  intros (Hh & Hp & _) (Ht & Ho & Hi). unfold row_ok. rewrite Hp. split; [done|].
  split; by eapply tail_ok_le.
Qed.

Lemma row_shown s c : heap_typed (arrays s) -> peekBytes s < 2 ^ 64 -> row_ok s c -> conn_shown (arrays s) c.
Proof.
  intros Hh Hp ([_ _ Hb Hpl _ _ Hhd] & [Ho1 Ho2] & [Hi1 Hi2]). split; try done.
  - split; by apply view_typed.
  - unfold zlen. rewrite !length_view by done. lia.
Qed.

Lemma store_row_ok s c :
  store_wf s -> store_typed s -> (exists k, conns s !! k = Some c) \/ c ∈ history s -> row_ok s c.
Proof.
  intros Hw [Hc Hh _] [[k E]|Hin].
  - split; [by apply (Hc _ _ E)|]. apply (co_tails _ _ _ (sw_conns _ Hw _ _ E)).
  - rewrite Forall_forall in Hh. split; [by apply Hh|]. pose proof (sw_retired _ Hw) as Hr.
    rewrite Forall_forall in Hr. apply (co_tails _ _ _ (proj1 (Hr _ Hin))).
Qed.

Section Rows.
Context `{MapRangeOk, SortSliceOk}.

(** The rows of a tick come from the table and the history, and a live connection with an
    endpoint is among them. *)
Lemma refresh_elem id s1 s2 m c :
  (c ∈ m_rows (refresh id s1 s2 m) -> (exists k, conns s1 !! k = Some c) \/ c ∈ history s2)
  /\ (forall k, conns s1 !! k = Some c -> HasEndpoint c = true -> m_view m <> viewClosed -> c ∈ m_rows (refresh id s1 s2 m)).
Proof.
  set (l0 := match m_view m with viewClosed => [] | _ => filter (fun c => HasEndpoint c = true) (Snapshot id s1) end).
  set (h0 := match m_view m with viewActive => [] | _ => SnapshotHistory s2 end).
  assert (m_rows (refresh id s1 s2 m) = sortConns l0 (m_sortBy m) ++ h0) as ->.
  { unfold refresh, l0, h0. destruct (m_view m); by repeat case_match. }
  destruct (sort_slice_ok Conn (conn_less (m_sortBy m)) l0 (conn_less_order _)) as [Hp _].
  assert (forall x, x ∈ Snapshot id s1 <-> exists k, conns s1 !! k = Some x) as Hsn.
  { intros x. unfold Snapshot. rewrite (range_perm Conn [id] (conns s1)), list_elem_of_fmap. split.
    - intros ([k y] & -> & Hin). exists k. by apply elem_of_map_to_list.
    - intros [k E]. exists (k, x). split; [done|]. by apply elem_of_map_to_list. }
  assert (c ∈ sortConns l0 (m_sortBy m) ++ h0 <-> c ∈ l0 \/ c ∈ h0) as -> by (unfold sortConns; by rewrite elem_of_app, Hp).
  setoid_rewrite (elem_of_app (sortConns l0 (m_sortBy m)) h0 c). split.
  - intros [Hin|Hin].
    + left. apply Hsn. unfold l0 in Hin. destruct (m_view m); try (by apply elem_of_nil in Hin);
        by apply list_elem_of_filter in Hin as [_ Hin].
    + right. unfold h0 in Hin. destruct (m_view m); try (by apply elem_of_nil in Hin);
        apply list_elem_of_In; unfold SnapshotHistory in Hin; apply list_elem_of_In in Hin; by apply in_rev.
  - intros k E Hep Hv. left. unfold sortConns. rewrite Hp. assert (c ∈ Snapshot id s1) as Hin by (apply Hsn; by exists k).
    unfold l0. destruct (m_view m); [by apply list_elem_of_filter|congruence|by apply list_elem_of_filter].
Qed.

Lemma refresh_width id s1 s2 m : m_w (refresh id s1 s2 m) = m_w m.
Proof. unfold refresh. by repeat case_match. Qed.

Lemma key_rows key m : m_rows (handle_key key m).1 = m_rows m /\ m_w (handle_key key m).1 = m_w m.
Proof. unfold handle_key. repeat case_match; done. Qed.
End Rows.

(** ** The program with its interface *)

Record console := Console { cs_world : world; cs_model : Model; cs_done : bool }.

Inductive happening (K : Type) : Type :=
| HAct (a : action K)
| HSize (w h : Z)
| HKey (key : string)
| HTick (id : nat) (l : list (action K)).
Arguments HAct {K}.
Arguments HSize {K}.
Arguments HKey {K}.
Arguments HTick {K}.

Section Happen.
Context {K : Type} `{KernelView K, X509, Growth, MapRange, SortSlice}.

(** A message is handled; the one that quits ends the program. *)
Definition handle (msg : Msg) (w : world) (c : console) : console :=
  match Update msg (cs_model c) with
  | (m, Quit_) => Console w m true
  | (m, _) => Console w m false
  end.

(** One step: an action of the kernel or of the other goroutines, or a message.  A tick
    takes its snapshot, lets [l] happen, and takes the history.  [Ok None]: not possible
    now. *)
Definition happen (x : happening K) (c : console) : go (option console) :=
  if cs_done c then Ok None
  else
    match x with
    | HAct a =>
        do! r <- act a (cs_world c);
        Ok (match r with Some w => Some (Console w (cs_model c) false) | None => None end)
    | HSize w h => Ok (Some (handle (WindowSizeMsg w h) (cs_world c) c))
    | HKey key => Ok (Some (handle (KeyMsg key) (cs_world c) c))
    | HTick id l =>
        do! r <- acts l (cs_world c);
        Ok (match r with
            | Some w => Some (handle (tickMsg id (store (cs_world c)) (store w)) w c)
            | None => None
            end)
    end.

Fixpoint happens (xs : list (happening K)) (c : console) : go (option console) :=
  match xs with
  | [] => Ok (Some c)
  | x :: xs => do! r <- happen x c; match r with Some c => happens xs c | None => Ok None end
  end.

(** What is drawn: the model's rows, with the arrays as they are when it is drawn. *)
Definition screen `{Style} (clock : nat -> Z) (c : console) : go (list Z) :=
  View clock (arrays (store (cs_world c))) (cs_model c).

Definition console_init (history peekBytes : Z) : console := Console (world_init history peekBytes) New_model false.
End Happen.

Definition happening_ok {K} (x : happening K) : Prop :=
  match x with
  | HAct a => action_ok a
  | HSize w _ => 0 <= w
  | HKey _ => True
  | HTick _ l => Forall action_ok l
  end.

Record console_ok (c : console) : Prop := {
  co_whole : whole_ok (cs_world c);
  co_sel : sel_ok (cs_model c);
  co_width : 0 <= m_w (cs_model c);
  co_rows : Forall (row_ok (store (cs_world c))) (m_rows (cs_model c)) }.

Section Console.
Context {K : Type} `{KernelViewOk K, X509, GrowthOk, MapRangeOk, SortSliceOk}.

Lemma handle_model msg w c : cs_world (handle msg w c) = w /\ cs_model (handle msg w c) = (Update msg (cs_model c)).1.
Proof. unfold handle. by destruct (Update msg (cs_model c)) as [m []]. Qed.

Lemma rows_le s s' rows : arrays_le s s' -> Forall (row_ok s) rows -> Forall (row_ok s') rows.
Proof. intros Hle Hr. eapply Forall_impl; [exact Hr|]. intros c. by apply row_ok_le. Qed.

Lemma happen_ok x c :
  console_ok c -> happening_ok x ->
  exists r, happen (K := K) x c = Ok r /\ forall c', r = Some c' ->
    console_ok c' /\ peekBytes (store (cs_world c')) = peekBytes (store (cs_world c)).
Proof.
  intros [Hw Hs Hwd Hr] Hx. unfold happen. destruct (cs_done c); [by exists None|].
  destruct x as [a|w h|key|id l]; cbn [happening_ok] in Hx.
  - destruct (act_wf a _ (wh_wf _ Hw) Hx) as (r & Er & _). rewrite Er. cbn [go_bind]. eexists. split; [done|].
    intros c' Hc'. destruct r as [w|]; [|done]. injection Hc' as <-. destruct (act_whole _ _ _ Hw Hx Er) as [Hw' Hle].
    split; [|apply Hle]. split; try done. by eapply rows_le.
  - eexists. split; [done|]. intros c' [= <-].
    destruct (handle_model (WindowSizeMsg w h) (cs_world c) c) as [Ew Em]. rewrite Ew. split; [|done]. by split; rewrite ?Ew, ?Em.
  - eexists. split; [done|]. intros c' [= <-].
    destruct (handle_model (KeyMsg key) (cs_world c) c) as [Ew Em]. rewrite Ew. split; [|done].
    pose proof (Update_sel (KeyMsg key) _ Hs). destruct (key_rows key (cs_model c)) as [E1 E2].
    split; rewrite ?Ew, ?Em; cbn [Update]; rewrite ?E1, ?E2; done.
  - destruct (acts_wf l _ (wh_wf _ Hw) Hx) as (r & Er & _). rewrite Er. cbn [go_bind]. eexists. split; [done|].
    intros c' Hc'. destruct r as [w|]; [|done]. injection Hc' as <-. destruct (acts_whole _ _ _ Hw Hx Er) as [Hw' Hle].
    destruct (handle_model (tickMsg id (store (cs_world c)) (store w)) w c) as [Ew Em]. rewrite Ew. split; [|apply Hle].
    split; rewrite ?Ew, ?Em; [done| | |].
    + by apply Update_sel.
    + cbn [Update fst]. by rewrite refresh_width.
    + cbn [Update fst]. apply Forall_forall. intros x Hin.
      destruct (refresh_elem id (store (cs_world c)) (store w) (cs_model c) x) as [Hel _].
      destruct (Hel Hin) as [Hk|Hh].
      * eapply row_ok_le; [exact Hle|]. apply store_row_ok; [apply Hw|apply Hw|by left].
      * apply store_row_ok; [apply Hw'|apply Hw'|by right].
Qed.

Lemma happens_ok xs c :
  console_ok c -> Forall happening_ok xs ->
  exists r, happens (K := K) xs c = Ok r /\ forall c', r = Some c' ->
    console_ok c' /\ peekBytes (store (cs_world c')) = peekBytes (store (cs_world c)).
Proof.
  intros Hc Hx. revert c Hc. induction Hx as [|x xs Hx _ IH]; intros c Hc; cbn [happens].
  - eexists. split; [done|]. by intros c' [= <-].
  - destruct (happen_ok x c Hc Hx) as (r & -> & Hr). cbn [go_bind]. destruct r as [c1|]; [|by exists None].
    destruct (Hr c1 eq_refl) as [Hc1 Ep]. destruct (IH c1 Hc1) as (r2 & E2 & Hr2). exists r2. split; [done|].
    intros c2 E. destruct (Hr2 c2 E) as [Hc2 Ep2]. split; [done|congruence].
Qed.

Lemma console_init_ok mh pb : console_ok (console_init mh pb).
Proof. split; cbn; [apply whole_init|by left|done|constructor]. Qed.

Lemma console_shown c :
  console_ok c -> peekBytes (store (cs_world c)) < 2 ^ 64 ->
  Forall (conn_shown (arrays (store (cs_world c)))) (m_rows (cs_model c)).
Proof.
  intros [Hw _ _ Hr] Hp. eapply Forall_impl; [exact Hr|]. intros x Hx. apply row_shown; [apply Hw|done|done].
Qed.
End Console.

(** ** Choosing a row *)

Section Choose.
Context {K : Type} `{KernelView K, X509, Growth, MapRange, SortSlice}.

Lemma happens_acts (l : list (action K)) w w' m :
  acts l w = Ok (Some w') -> happens (HAct <$> l) (Console w m false) = Ok (Some (Console w' m false)).
Proof.
  revert w. induction l as [|a l IH]; intros w E; cbn [acts] in E; [by injection E as <-|].
  apply go_bind_inv in E as ([w1|] & E1 & E); [|done].
  change (HAct <$> a :: l) with (HAct a :: (HAct <$> l)). cbn [happens]. unfold happen. cbn [cs_done cs_world cs_model].
  rewrite E1. cbn [go_bind]. by apply IH.
Qed.

Lemma happens_app (a b : list (happening K)) c c1 :
  happens a c = Ok (Some c1) -> happens (a ++ b) c = happens b c1.
Proof.
  revert c. induction a as [|x a IH]; intros c E; cbn [happens app] in *; [by injection E as ->|].
  apply go_bind_inv in E as ([c2|] & E1 & E); [|done]. rewrite E1. cbn [go_bind]. auto.
Qed.

Lemma set_sel_twice a b m : set_sel a (set_sel b m) = set_sel a m.
Proof. done. Qed.

Lemma happens_down n i w m :
  0 <= i -> i + Z.of_nat n < zlen (m_rows m) ->
  happens (replicate n (HKey "down" : happening K)) (Console w (set_sel i m) false) = Ok (Some (Console w (set_sel (i + Z.of_nat n) m) false)).
Proof.
  revert i. induction n as [|n IH]; intros i Hi Hn; cbn [replicate happens].
  - by rewrite Z.add_0_r.
  - assert (happen (HKey "down" : happening K) (Console w (set_sel i m) false) = Ok (Some (Console w (set_sel (i + 1) m) false))) as ->.
    { unfold happen, handle. cbn [cs_done cs_world cs_model]. cbn [Update].
      change (handle_key "down" (set_sel i m)) with
        (if m_sel (set_sel i m) <? zlen (m_rows (set_sel i m)) - 1 then set_sel (m_sel (set_sel i m) + 1) (set_sel i m) else set_sel i m, NoCmd).
      cbn [m_sel m_rows set_sel]. destruct (Z.ltb_spec i (zlen (m_rows m) - 1)); [done|lia]. }
    cbn [go_bind]. rewrite IH by lia. do 4 f_equal. lia.
Qed.

(** From anywhere, [g] and then [down] as often as needed. *)
Lemma happens_choose n w m :
  Z.of_nat n < zlen (m_rows m) ->
  happens ((HKey "g" : happening K) :: replicate n (HKey "down")) (Console w m false)
  = Ok (Some (Console w (set_sel (Z.of_nat n) m) false)).
Proof.
  intros Hn. cbn [happens]. change (happen (HKey "g" : happening K) (Console w m false)) with (Ok (Some (Console w (set_sel 0 m) false))).
  cbn [go_bind]. by apply (happens_down n 0).
Qed.

Lemma detail_chosen n m c : m_rows m !! n = Some c -> detail (set_sel (Z.of_nat n) m) = Ok (Some c).
Proof.
  intros Hc. pose proof (lookup_lt_Some _ _ _ Hc). unfold detail, row_at. cbn [m_sel m_rows set_sel].
  destruct (Z.eqb_spec (zlen (m_rows m)) 0); [unfold zlen in *; lia|].
  destruct (Z.leb_spec (zlen (m_rows m)) (Z.of_nat n)); [unfold zlen in *; lia|]. cbn [orb].
  destruct (Z.leb_spec 0 (Z.of_nat n)); [|lia]. by rewrite Nat2Z.id, Hc.
Qed.

End Choose.

(** ** What a handshake amounts to *)

(** The client's part of what the client said, the server's of what the server said, a
    version and a list of application protocols. *)
Definition told (said heard : Info) (ver : Z) (alpn : list string) : Info :=
  mkInfo (HasClientHello said) (HasServerHello heard) (HasCert heard) (SNI said) alpn (ClientVersion said) ver
    (CipherSuite heard) (Group heard) (OfferedSigs said) (CertSubject heard) (CertIssuer heard) (CertSANs heard) (CertSigAlg heard).

Lemma told_parts i said heard :
  client_part i = client_part said -> server_part i = server_part heard -> i = told said heard (NegVersion i) (ALPN i).
Proof. destruct i, said, heard. unfold client_part, server_part, told. cbn. intros. by simplify_eq. Qed.
