(* ===== verification/ScreenProps.v ===== *)
(** The whole program with its interface: nothing that happens makes it fail, and a
    handshake observed by the kernel is read on the screen. *)
From S2P Require Import Prelude Abi Bpf BpfInv BpfTrace BpfDuplex BpfProps Loader TlsParse TlsSpec TlsDuplex TlsWire TlsProps Slices Proc Store StoreInv StoreFacts StoreProps System SystemTrace SystemTypes SystemProps Ui UiProps Names Format Dump Text Render RenderFacts RenderProps Screen.

#[local] Existing Instance demo_x509.
#[local] Existing Instance demo_growth.
#[local] Existing Instance demo_growth_ok.
#[local] Existing Instance demo_range.
#[local] Existing Instance demo_range_ok.
#[local] Existing Instance demo_sort.
#[local] Existing Instance demo_sort_ok.
#[local] Existing Instance demo_style.
#[local] Existing Instance demo_style_ok.

(** C3: the program never fails.  Whatever sequence of things happens - kernel programs,
    reads, polls, keys, resizes and ticks, with any helper results, clocks, /proc contents
    and iteration orders, and with other goroutines running between the two parts of a
    tick - no step panics; kernel maps, records and store stay well-formed; the selection
    designates a row; and at every moment the screen can be drawn, although its rows hold
    slices of arrays the store has gone on writing. *)
Theorem program_never_fails {K} `{KernelViewOk K, X509, GrowthOk, MapRangeOk, SortSliceOk, StyleOk}
    history peekBytes (xs : list (happening K)) :
  peekBytes < 2 ^ 63 -> Forall happening_ok xs ->
  exists r, happens xs (console_init history peekBytes) = Ok r
    /\ forall c, r = Some c ->
       sys_wf (cs_world c) /\ sel_ok (cs_model c) /\ forall clock, exists t, screen clock c = Ok t.
Proof.
  intros Hp Hx. destruct (happens_ok xs _ (console_init_ok history peekBytes) Hx) as (r & Er & Hr).
  exists r. split; [done|]. intros c ->. destruct (Hr c eq_refl) as [Hc Ep].
  split; [apply (wh_wf _ (co_whole _ Hc))|]. split; [apply (co_sel _ Hc)|]. intros clock.
  destruct (View_shows clock (arrays (store (cs_world c))) (cs_model c)) as (t & Et & _);
    [apply (co_sel _ Hc)|apply (co_width _ Hc)| |by exists t].
  apply console_shown; [done|]. rewrite Ep. cbn. case_match; lia.
Qed.

(** A terminal of 80 columns; socket 7 is connected and sends; a poll, a tick, the
    plaintext, the other views. *)
Definition demo_evening : list (happening Datatypes.unit) :=
  [HSize 80 24; HAct demo_connect; HAct (demo_send demo_record); HAct ARead] ++ (HAct <$> demo_poll 1 1)
  ++ [HTick 0 [AApply (demo_call 2)]; HKey "enter"; HKey "tab"; HTick 1 []; HKey "G"; HKey "down"].

Lemma program_never_fails_witness :
  exists c t, happens demo_evening (console_init 3 8) = Ok (Some c) /\ screen (fun _ => 9) c = Ok t.
Proof.
  destruct (program_never_fails 3 8 demo_evening) as (r & Er & Hr).
  - done.
  - unfold demo_evening, demo_poll. cbn [app fmap list_fmap replicate].
    repeat (apply Forall_cons; split); try exact I; try (cbn; lia);
      [apply demo_connect_ok|apply demo_send_ok; [by repeat constructor|done]|by repeat constructor..|apply Forall_nil; exact I].
  - destruct r as [c|]; [|vm_compute in Er; discriminate]. exists c.
    destruct (Hr c eq_refl) as (_ & _ & Hs). destruct (Hs (fun _ => 9)) as [t Et]. exists t. split; [exact Er|exact Et].
Defined.

(** C1: from the wire to the screen.  The socket is freshly connected - its flow has
    captured nothing, and neither ring, reader, poller nor store know it - and stays open.
    A client exchanges handshake chunks on it of 1 to 1023 bytes, at most 16 each way, the
    first of each way beginning a TLS record, each readable and with room in the ring; what
    it sent is the messages [ms], with no ServerHello or Certificate, and what it received
    the messages [ms'], with no ClientHello and a version other than 0 if there is a
    ServerHello, well-formed and complete, in records cut up in any way; and whatever else
    happens in between.  (A chunk of 1024 bytes or more is cut by the kernel program,
    [capture_gate]; it is not covered here.)  Once the reader, which has not ended, has
    caught up, the connection holds, of what only the
    client or only the server says, exactly what the messages said, and the version the
    server chose.  And when it has an endpoint, then in a terminal whose width is known, in
    any view but that of the closed, after the next tick the keys [g] and some [down]s bring up a screen whose detail panel
    says just that: server name, certificate, version, cipher, key exchange, signature. *)
Theorem handshake_on_screen {K} `{KernelViewOk K, X509, GrowthOk, MapRangeOk, SortSliceOk, StyleOk}
    sk tr (l : list (action K)) w m w1 k ms ms' :
  sys_wf w -> fresh sk w -> session sk w l tr w1 -> Forall action_ok l ->
  console_ok (Console w1 m false) -> peekBytes (store w1) < 2 ^ 63 -> m_view m <> viewClosed -> 0 < m_w m ->
  fits_gate 0 (toward true tr) -> fits_gate 0 (toward false tr) -> tr <> [] -> rd w1 <> RdEnd ->
  flight_bytes ms (concat (toward true tr)) -> flight_bytes ms' (concat (toward false tr)) ->
  Forall (fun m => msg_type m <> 2 /\ msg_type m <> 11) ms -> Forall (fun m => msg_type m <> 1) ms' ->
  let said := see_all ms Info_zero in
  let heard := see_all ms' Info_zero in
  (HasServerHello heard = true -> NegVersion heard <> 0) ->
  exists w2 c, happens (HAct <$> (catch_up k w1 : list (action K))) (Console w1 m false) = Ok (Some (Console w2 m false))
    /\ conns (store w2) !! sk = Some c
    /\ let info := told said heard (if HasServerHello heard then NegVersion heard else NegVersion said) (ALPN (cn_Info c)) in
       cn_Info c = info
       /\ forall id l' w3, HasEndpoint c = true -> Forall action_ok l' -> acts l' w2 = Ok (Some w3) ->
          exists n c3, happens (HTick id l' :: HKey "g" :: replicate n (HKey "down")) (Console w2 m false) = Ok (Some c3)
            /\ forall clock, exists now pre post,
                 screen clock c3 = Ok (pre ++ detail_flow now c ++ detail_info info ++ post).
Proof.
  cbn zeta. intros Hw Hf Hl Hok Hco Hpk Hv Hwd Ho Hi Hne Hrd Hms Hms' Hty Hty' Hver.
  destruct (handshake_shown sk tr l w w1 k ms ms' Hw Hf Hl Hok Ho Hi Hne Hrd Hms Hms' Hty Hty') as (w2 & c & E2 & Ec & Hcp & Hsp & Hnv).
  exists w2, c. split; [by apply happens_acts|]. split; [done|].
  assert (cn_Info c = told (see_all ms Info_zero) (see_all ms' Info_zero)
    (if HasServerHello (see_all ms' Info_zero) then NegVersion (see_all ms' Info_zero) else NegVersion (see_all ms Info_zero))
    (ALPN (cn_Info c))) as Hinfo.
  { pose proof (told_parts _ _ _ Hcp Hsp) as Ht. rewrite Ht at 1. f_equal.
    destruct (HasServerHello (see_all ms' Info_zero)); auto. }
  split; [exact Hinfo|]. intros id l' w3 Hep Hl' E3. rewrite <- Hinfo.
  assert (Forall action_ok (catch_up k w1 : list (action K))) as Hcu.
  { unfold catch_up. apply Forall_app_2; [destruct (rd w1); by repeat constructor|].
    apply Forall_concat, Forall_replicate. by repeat constructor. }
  destruct (acts_whole _ _ _ (co_whole _ Hco) Hcu E2) as [Hw2 Hle2]. cbn [cs_world] in Hw2, Hle2.
  pose proof (proj2 (refresh_elem id (store w2) (store w3) m c) sk Ec Hep Hv) as Hin.
  apply list_elem_of_lookup in Hin as [n Hn]. set (m3 := refresh id (store w2) (store w3) m) in *.
  exists n, (Console w3 (set_sel (Z.of_nat n) m3) false).
  assert (happens ([HTick id l'] ++ HKey "g" :: replicate n (HKey "down")) (Console w2 m false)
    = Ok (Some (Console w3 (set_sel (Z.of_nat n) m3) false))) as Eh.
  { rewrite (happens_app [HTick id l'] (HKey "g" :: replicate n (HKey "down")) _ (Console w3 m3 false)).
    - apply happens_choose. apply lookup_lt_Some in Hn. unfold zlen. lia.
    - cbn [happens]. unfold happen. cbn [cs_done cs_world]. rewrite E3. done. }
  split; [exact Eh|]. intros clock.
  assert (console_ok (Console w2 m false)) as Hc2.
  { destruct Hco as [_ Hsel Hwid Hrows]. split; cbn [cs_world cs_model] in *; try done. by eapply rows_le. }
  destruct (happens_ok (HTick id l' :: HKey "g" :: replicate n (HKey "down")) _ Hc2) as (r & Er & Hr).
  { constructor; [done|]. constructor; [done|]. by apply Forall_replicate. }
  change (happens ([HTick id l'] ++ HKey "g" :: replicate n (HKey "down")) (Console w2 m false) = Ok r) in Er.
  rewrite Eh in Er. injection Er as <-. destruct (Hr _ eq_refl) as [Hc3 Ep]. cbn [cs_world cs_model] in *.
  destruct (View_shows clock (arrays (store w3)) (set_sel (Z.of_nat n) m3)) as (t & Et & Hd);
    [apply (co_sel _ Hc3)|apply (co_width _ Hc3)| |].
  - apply (console_shown _ Hc3). cbn [cs_world]. rewrite Ep. destruct Hle2 as (_ & -> & _). lia.
  - destruct (Hd c) as (now & pre & post & ->); [|by apply detail_chosen|by exists now, pre, post].
    cbn [m_w set_sel]. unfold m3. rewrite refresh_width. lia.
Qed.

(** The interface while the demonstration runs. *)
Definition demo_model : Model := mkModel [] 0 sortActive viewActive false 80 24.

Lemma demo_console_ok : console_ok (Console demo_end demo_model false).
Proof.
  assert (whole_ok demo_world) as Hw.
  { apply (act_whole demo_connect (world_init 3 8)); [apply whole_init|apply demo_connect_ok|reflexivity]. }
  split; [|by left|done|constructor]. cbn [cs_world].
  apply (acts_whole demo_session demo_world demo_end Hw demo_session_actions). vm_compute. reflexivity.
Qed.

(** The server's name read on the screen. *)
Lemma handshake_on_screen_witness :
  exists c2 n c3 pre post,
    happens (HAct <$> (catch_up (demo_call 4) demo_end : list (action Datatypes.unit))) (Console demo_end demo_model false) = Ok (Some c2)
    /\ happens (HTick 0 [] :: HKey "g" :: replicate n (HKey "down") : list (happening Datatypes.unit)) c2 = Ok (Some c3)
    /\ screen (fun _ => 9) c3 = Ok (pre ++ lab (str "server") (str "example.com") ++ post).
Proof.
  destruct demo_world_ok as [Hw Hf]. destruct demo_flights as [Hm Hm'].
  destruct (handshake_on_screen 7 demo_traffic demo_session demo_world demo_model demo_end (demo_call 4) _ _ Hw Hf demo_session_ok
    demo_session_actions demo_console_ok ltac:(vm_compute; reflexivity) ltac:(discriminate) ltac:(reflexivity)
    ltac:(split; [apply (bool_decide_unpack _); vm_compute; exact I|
      split; [vm_compute; congruence|intros _ c cs' [= <- _]; vm_compute; reflexivity]])
    ltac:(split; [apply (bool_decide_unpack _); vm_compute; exact I|
      split; [vm_compute; congruence|intros _ c cs' [= <- _]; vm_compute; reflexivity]])
    ltac:(discriminate) ltac:(vm_compute; discriminate) Hm Hm'
    ltac:(apply (bool_decide_unpack _); exact I) ltac:(apply (bool_decide_unpack _); exact I) ltac:(discriminate))
    as (w2 & c & E2 & Hc & _ & Hs).
  assert (match happens (HAct <$> (catch_up (demo_call 4) demo_end : list (action Datatypes.unit))) (Console demo_end demo_model false) with
    | Ok (Some c2) => match conns (store (cs_world c2)) !! 7 with Some c => HasEndpoint c | None => false end
    | _ => false end = true) as Hep by (vm_compute; reflexivity).
  rewrite E2 in Hep. cbn [cs_world] in Hep. rewrite Hc in Hep.
  destruct (Hs O [] w2 Hep (Forall_nil_2 _) eq_refl) as (n & c3 & E3 & Ht).
  destruct (Ht (fun _ => 9)) as (now & pre & post & Et).
  exists (Console w2 demo_model false), n, c3, (pre ++ detail_flow now c). eexists. split; [exact E2|]. split; [exact E3|].
  rewrite Et. f_equal. rewrite <- app_assoc. do 2 f_equal.
Defined.
