(* ===== verification/Headless.v ===== *)
(** main.go: the headless mode, which prints snapshots as text, and the search for libssl.

    What the clock, the file system and ldconfig answer are arguments.  Text is a list of
    bytes. *)
From S2P Require Import Prelude Slices Proc TlsParse Names Store Format Dump Text.

(** ** Labels and notes *)

Definition tlsVer (c : Conn) : list Z :=
  match str (VersionName (NegVersion (cn_Info c))) with
  | [] => if cn_Preexisting c then str "pre-ex" else str "?"
  | v => v
  end.

Definition cipherOf (c : Conn) : list Z :=
  match str (CipherName (CipherSuite (cn_Info c))) with [] => str "-" | n => n end.

(** The text before the first carriage return or line feed. *)
Fixpoint first_line (s : list Z) : list Z :=
  match s with
  | [] => []
  | c :: s => if (c =? 13) || (c =? 10) then [] else c :: first_line s
  end.

(** [strings.Map] with a dot for every rune that is not printable ASCII. *)
Definition clean (s : list Z) : list Z := (fun r => if (r <? 0x20) || (0x7e <? r) then 46 else r) <$> runes s.

Definition peekNote (c : Conn) : list Z :=
  let '(data, arrow) := if zlen (cn_HeadOut c) =? 0 then (cn_HeadIn c, str "←") else (cn_HeadOut c, str "→") in
  if zlen data =? 0 then []
  else
    let s := first_line data in
    let s := if 48 <? zlen s then ztake 48 s else s in
    str "  peek" ++ arrow ++ str "(" ++ dec (zlen data) ++ str "B): " ++ quote (clean s).

Definition tailNote (h : heap) (c : Conn) : list Z :=
  let tail_in := view h (cn_TailIn c) in
  let data := if zlen tail_in =? 0 then view h (cn_TailOut c) else tail_in in
  if zlen data =? 0 then []
  else
    let s := if 32 <? zlen data then zdrop (zlen data - 32) data else data in
    str "  tail(" ++ dec (zlen data) ++ str "B):…" ++ quote (clean s).

(** [agoShort(t)], of [time.Since(t)]. *)
Definition agoShort (since : Z) : list Z := Duration_String (Round since Second).

(** ** Snapshots *)

(** Who is on the other end: name, certificate subject or address. *)
Definition live_id (c : Conn) : list Z :=
  match str (SNI (cn_Info c)) with
  | [] => match str (CertSubject (cn_Info c)) with
          | [] => AddrPort_String (cn_Remote c)
          | cn => str "CN=" ++ cn
          end
  | id => id
  end.

Definition cert_note (i : Info) : list Z :=
  if HasCert i then
    str "  cert[CN=" ++ str (CertSubject i) ++ str " SANs=" ++ list_text (CertSANs i) ++ str " sig=" ++ str (CertSigAlg i) ++ str "]"
  else if (NegVersion i =? 0x0304) && HasServerHello i then str "  cert[encrypted TLS1.3]"
  else [].

Definition slash (a b : Z) : list Z := dec a ++ str "/" ++ dec b.

Definition live_line (c : Conn) : list Z :=
  str "  pid=" ++ pad 6 (dec (cn_Pid c)) ++ str " " ++ pad 12 (str (cn_Comm c)) ++ str " " ++ pad 28 (live_id c)
  ++ str " " ++ pad 8 (tlsVer c) ++ str " " ++ pad 30 (cipherOf c)
  ++ str " wire=" ++ slash (cn_TxBytes c) (cn_RxBytes c) ++ str " plain=" ++ slash (cn_PtxBytes c) (cn_PrxBytes c)
  ++ peekNote c ++ cert_note (cn_Info c) ++ [10].

Definition closed_id (c : Conn) : list Z :=
  match str (SNI (cn_Info c)) with [] => AddrPort_String (cn_Remote c) | id => id end.

Definition closed_line (h : heap) (now : Z) (c : Conn) : list Z :=
  str "  [closed " ++ pad 8 (agoShort (Sub now (cn_ClosedAt c))) ++ str "] pid=" ++ pad 6 (dec (cn_Pid c)) ++ str " "
  ++ pad 12 (str (cn_Comm c)) ++ str " " ++ pad 24 (closed_id c) ++ str " " ++ pad 8 (tlsVer c)
  ++ str " plain=" ++ slash (cn_PtxBytes c) (cn_PrxBytes c) ++ tailNote h c ++ [10].

(** The connections listed. *)
Definition live_listed (conns : list Conn) : list Conn := filter (fun c => cn_IsTLS c && HasEndpoint c = true) conns.
Definition closed_listed (closed : list Conn) : list Conn := filter (fun c => cn_IsTLS c = true) closed.

(** What one turn of the loop finds: the time before it, the snapshots, the tails' arrays
    when they are printed, the time of day, and the time at each closed line. *)
Record turn := mkTurn {
  t_check : Z; t_conns : list Conn; t_closed : list Conn; t_heap : heap; t_clock : list Z; t_now : nat -> Z }.

Definition print_turn (t : turn) : list Z :=
  let tls := zlen (filter (fun c => cn_IsTLS c = true) (t_conns t)) in
  [10] ++ str "=== " ++ t_clock t ++ str " | " ++ dec (zlen (t_conns t)) ++ str " conns, " ++ dec tls ++ str " TLS, "
  ++ dec (zlen (t_closed t)) ++ str " closed ===" ++ [10]
  ++ concat (live_line <$> live_listed (t_conns t))
  ++ concat (imap (fun i c => closed_line (t_heap t) (t_now t i) c) (closed_listed (t_closed t))).

(** Turns until one begins at the deadline. *)
Fixpoint runDump (deadline : Z) (turns : list turn) : list Z :=
  match turns with
  | [] => []
  | t :: turns => if t_check t <? deadline then print_turn t ++ runDump deadline turns else []
  end.

(** ** findLibssl *)

Definition candidates : list string :=
  ["/usr/lib/x86_64-linux-gnu/libssl.so.3"; "/usr/lib/x86_64-linux-gnu/libssl.so.1.1";
   "/lib/x86_64-linux-gnu/libssl.so.3"; "/usr/lib64/libssl.so.3"; "/usr/lib/libssl.so.3"]%string.

(** [strings.HasPrefix], [strings.Contains]; [strings.LastIndex] followed by the slice
    after the match. *)
Fixpoint has_prefix (p s : list Z) : bool :=
  match p, s with
  | [], _ => true
  | x :: p, y :: s => (x =? y) && has_prefix p s
  | _ :: _, [] => false
  end.
Fixpoint contains (p s : list Z) : bool :=
  has_prefix p s || match s with [] => false | _ :: s => contains p s end.
Fixpoint after_last (p s : list Z) : option (list Z) :=
  match s with
  | [] => if has_prefix p [] then Some [] else None
  | _ :: s' =>
      match after_last p s' with
      | Some r => Some r
      | None => if has_prefix p s then Some (drop (length p) s) else None
      end
  end.

(** The encodings of the characters [unicode.IsSpace] accepts. *)
Definition space_codes : list (list Z) :=
  [[9]; [10]; [11]; [12]; [13]; [32]; [194; 133]; [194; 160]; [225; 154; 128];
   [226; 128; 128]; [226; 128; 129]; [226; 128; 130]; [226; 128; 131]; [226; 128; 132]; [226; 128; 133];
   [226; 128; 134]; [226; 128; 135]; [226; 128; 136]; [226; 128; 137]; [226; 128; 138];
   [226; 128; 168]; [226; 128; 169]; [226; 128; 175]; [226; 129; 159]; [227; 128; 128]].

(** Drop any of [codes] from the front, as often as it goes. *)
Fixpoint trim_codes (codes : list (list Z)) (fuel : nat) (s : list Z) : list Z :=
  match fuel with
  | O => s
  | S fuel =>
      match list_find (fun p => has_prefix p s = true) codes with
      | Some (_, p) => trim_codes codes fuel (drop (length p) s)
      | None => s
      end
  end.

(** [strings.TrimSpace] *)
Definition TrimSpace (s : list Z) : list Z :=
  let s := trim_codes space_codes (length s) s in
  rev (trim_codes (@rev Z <$> space_codes) (length s) (rev s)).

(** The first line of ldconfig's that names the library and a path. *)
Fixpoint scan_ldconfig (lines : list (list Z)) : list Z :=
  match lines with
  | [] => []
  | line :: lines =>
      if contains (str "libssl.so.3") line then
        match after_last (str "=> ") line with
        | Some path => TrimSpace path
        | None => scan_ldconfig lines
        end
      else scan_ldconfig lines
  end.

(** [stat] is whether os.Stat succeeds; [ldconfig] the output, or [None] for an error. *)
Definition findLibssl (stat : string -> bool) (ldconfig : option (list Z)) : list Z :=
  match list_find (fun c => stat c = true) candidates with
  | Some (_, c) => str c
  | None => match ldconfig with None => [] | Some out => scan_ldconfig (split_nl out) end
  end.

Example find_fallback :
  findLibssl (fun _ => false)
    (Some (str "2 libs found" ++ [10; 9] ++ str "libssl.so.3 (libc6,x86-64) => /opt/ssl/libssl.so.3" ++ [10]))
  = str "/opt/ssl/libssl.so.3".
Proof. by vm_compute. Qed.
