(* ===== verification/HeadlessProps.v ===== *)
(** The headless mode and the search for libssl: their properties. *)
From S2P Require Import Prelude Slices Proc TlsParse Names Store Format Dump Text Render RenderFacts Headless.

(** ** Notes *)

Lemma clean_printable s : printable_text (clean s).
Proof.
  apply Forall_map, Forall_true. intros r. destruct (Z.ltb_spec r 0x20), (Z.ltb_spec 0x7e r); cbn; lia.
Qed.

Lemma length_runes s : (length (runes s) <= length s)%nat.
Proof.
  remember (length s) as n eqn:E. assert (length s <= n)%nat as Hn by lia. clear E. revert s Hn.
  induction n as [|n IH]; intros [|b0 s1] Hn; cbn [length] in Hn; try (cbn; lia).
  pose proof (IH s1 ltac:(lia)) as I1. cbn [runes]. destruct s1 as [|b1 s2]; [cbn; lia|].
  pose proof (IH s2 ltac:(cbn in Hn; lia)) as I2. destruct (two b0 b1); [cbn [length]; lia|].
  destruct s2 as [|b2 s3]; [cbn [length] in *; lia|].
  pose proof (IH s3 ltac:(cbn in Hn; lia)) as I3. destruct (three b0 b1 b2); [cbn [length] in *; lia|].
  destruct s3 as [|b3 s4]; [cbn [length] in *; lia|].
  pose proof (IH s4 ltac:(cbn in Hn; lia)) as I4. destruct (four b0 b1 b2 b3); cbn [length] in *; lia.
Qed.

Lemma quote_printable s : printable_text s -> printable_text (quote s) /\ zlen (quote s) <= 2 * zlen s + 2.
Proof.
  intros Hs. assert (printable_text (s ≫= quote_char) /\ zlen (s ≫= quote_char) <= 2 * zlen s) as [H1 H2].
  { induction Hs as [|c s Hc _ [IH1 IH2]]; [by split; [constructor|]|].
    assert (printable_text (quote_char c) /\ zlen (quote_char c) <= 2) as [Q1 Q2].
    { unfold quote_char. destruct ((c =? 34) || (c =? 92)); split; repeat constructor; cbn in *; try lia; vm_compute; discriminate. }
    rewrite bind_cons. split; [by apply printable_app|]. rewrite zlen_app, zlen_cons. lia. }
  unfold quote. split; [repeat apply printable_app; (done || literal)|].
  rewrite !zlen_app. change (zlen [34]) with 1. lia.
Qed.

(** What is shown of captured bytes. *)
Lemma clean_quoted s : zlen s <= 48 -> printable_text (quote (clean s)) /\ zlen (quote (clean s)) <= 98.
Proof.
  intros Hs. destruct (quote_printable _ (clean_printable s)) as [H1 H2]. split; [done|].
  pose proof (length_runes s). unfold clean, zlen in *. rewrite length_fmap in H2. lia.
Qed.

Lemma first_line_spec s : first_line s `prefix_of` s /\ Forall (fun c => c <> 10 /\ c <> 13) (first_line s).
Proof.
  induction s as [|c s [IH1 IH2]]; [by split|]. cbn [first_line].
  destruct (Z.eqb_spec c 13), (Z.eqb_spec c 10); cbn [orb]; try (split; [apply prefix_nil|constructor]).
  split; [by apply prefix_cons|by constructor].
Qed.

(** C38: captured plaintext reaches the terminal only as printable ASCII.  The note on a
    live connection quotes at most the first 48 bytes of the first line sent, or else
    received; the note on a closed one at most the last 32 bytes kept of what was received,
    or else sent; in both every rune that is not printable is a dot, so that no byte of the
    plaintext can move the cursor, end the line or the quotation.  (This is about the two
    notes.  The rest of a headless line - command, server name, certificate subject, SANs -
    is printed as it is.) *)
Theorem notes_safe h c :
  (let '(data, arrow) := if zlen (cn_HeadOut c) =? 0 then (cn_HeadIn c, str "←") else (cn_HeadOut c, str "→") in
   if decide (data = []) then peekNote c = []
   else exists s, peekNote c = str "  peek" ++ arrow ++ str "(" ++ dec (zlen data) ++ str "B): " ++ quote (clean s)
     /\ s `prefix_of` data /\ zlen s <= 48 /\ Forall (fun b => b <> 10 /\ b <> 13) s
     /\ printable_text (quote (clean s)) /\ zlen (quote (clean s)) <= 98)
  /\ (let data := if zlen (view h (cn_TailIn c)) =? 0 then view h (cn_TailOut c) else view h (cn_TailIn c) in
   if decide (data = []) then tailNote h c = []
   else exists s, tailNote h c = str "  tail(" ++ dec (zlen data) ++ str "B):…" ++ quote (clean s)
     /\ s `suffix_of` data /\ zlen s = Z.min 32 (zlen data)
     /\ printable_text (quote (clean s)) /\ zlen (quote (clean s)) <= 98).
Proof.
  split.
  - unfold peekNote. destruct (if zlen (cn_HeadOut c) =? 0 then _ else _) as [data arrow].
    case_decide as Hd; [by subst|]. destruct (Z.eqb_spec (zlen data) 0) as [E|_]; [by apply zlen_nil_inv in E|].
    cbv zeta. destruct (first_line_spec data) as [Hp Hf]. set (s := first_line data) in *. eexists. split; [done|].
    assert (forall s', s' `prefix_of` s -> zlen s' <= 48 -> s' `prefix_of` data /\ zlen s' <= 48
      /\ Forall (fun b => b <> 10 /\ b <> 13) s' /\ printable_text (quote (clean s')) /\ zlen (quote (clean s')) <= 98) as Hs.
    { intros s' Hs' Hl. destruct (clean_quoted s' Hl). split_and!; try done; [by etrans|].
      destruct Hs' as [k Hk]. rewrite Hk in Hf. by apply Forall_app in Hf as [? _]. }
    destruct (Z.ltb_spec 48 (zlen s)); apply Hs; try done; try lia.
    + exists (zdrop 48 s). by rewrite ztake_zdrop.
    + rewrite zlen_ztake; lia.
  - unfold tailNote. cbv zeta. set (data := if zlen (view h (cn_TailIn c)) =? 0 then _ else _).
    case_decide as Hd; [by rewrite Hd|]. destruct (Z.eqb_spec (zlen data) 0) as [E|_]; [by apply zlen_nil_inv in E|].
    eexists. split; [done|].
    assert (forall s, s `suffix_of` data -> zlen s = Z.min 32 (zlen data) -> s `suffix_of` data
      /\ zlen s = Z.min 32 (zlen data) /\ printable_text (quote (clean s)) /\ zlen (quote (clean s)) <= 98) as Hs.
    { intros s Hs Hl. split_and!; try done; apply clean_quoted; lia. }
    destruct (Z.ltb_spec 32 (zlen data)); apply Hs; try done; try lia.
    + exists (ztake (zlen data - 32) data). by rewrite ztake_zdrop.
    + rewrite zlen_zdrop; lia.
Qed.

(** ** Lines *)

Lemma one_line_pad w s : one_line s -> one_line (pad w s).
Proof. intros Hs. apply one_line_app; [done|]. by apply Forall_replicate. Qed.

Lemma one_line_clean s : one_line (quote (clean s)).
Proof. apply one_line_printable, quote_printable, clean_printable. Qed.

Lemma peekNote_line c : one_line (peekNote c).
Proof.
  unfold peekNote. destruct (zlen (cn_HeadOut c) =? 0); cbv zeta;
    (match goal with |- context [if ?b then [] else _] => destruct b end; [constructor|]);
    repeat first [apply one_line_clean|line_step'].
Qed.

Lemma tailNote_line h c : one_line (tailNote h c).
Proof.
  unfold tailNote. cbv zeta. match goal with |- context [if ?b then [] else _] => destruct b end; [constructor|].
  repeat first [apply one_line_clean|line_step'].
Qed.

Lemma tlsVer_line c : one_line (tlsVer c).
Proof.
  unfold tlsVer. pose proof (one_line_printable _ (VersionName_printable (NegVersion (cn_Info c)))).
  destruct (str _); [destruct (cn_Preexisting c); literal|done].
Qed.

Lemma cipherOf_line c : one_line (cipherOf c).
Proof.
  unfold cipherOf. pose proof (one_line_printable _ (CipherName_printable (CipherSuite (cn_Info c)))).
  destruct (str _); [literal|done].
Qed.

Lemma id_lines c : conn_lines c -> one_line (live_id c) /\ one_line (closed_id c).
Proof.
  intros [_ Hs Hc _ _ _]. pose proof (one_line_printable _ (printable_addr (cn_Remote c))).
  unfold live_id, closed_id. destruct (str (SNI (cn_Info c))); [|done].
  split; [|done]. destruct (str (CertSubject (cn_Info c))); [done|]. apply one_line_app; [literal|done].
Qed.

Lemma cert_note_line c : conn_lines c -> one_line (cert_note (cn_Info c)).
Proof.
  intros [_ _ Hc Hsig Hsan _]. unfold cert_note, list_text.
  destruct (HasCert _); [|destruct (_ && _); literal].
  pose proof (one_line_join [32] _ ltac:(literal) Hsan). one_lines.
Qed.

Lemma live_line_lines c : conn_lines c -> newlines (live_line c) = 1%nat.
Proof.
  intros Hc. unfold live_line, slash. pose proof (id_lines c Hc) as [Hi _]. pose proof (cert_note_line c Hc).
  pose proof (peekNote_line c). pose proof (one_line_pad 8 _ (tlsVer_line c)). pose proof (one_line_pad 30 _ (cipherOf_line c)).
  pose proof (one_line_pad 12 _ (cl_comm c Hc)). pose proof (one_line_pad 28 _ Hi).
  pose proof (one_line_pad 6 _ (one_line_dec (cn_Pid c))). by count_lines.
Qed.

Lemma closed_line_lines h now c : conn_lines c -> newlines (closed_line h now c) = 1%nat.
Proof.
  intros Hc. unfold closed_line, slash, agoShort. pose proof (id_lines c Hc) as [_ Hi].
  pose proof (tailNote_line h c). pose proof (one_line_pad 8 _ (tlsVer_line c)).
  pose proof (one_line_pad 12 _ (cl_comm c Hc)). pose proof (one_line_pad 24 _ Hi).
  pose proof (one_line_pad 6 _ (one_line_dec (cn_Pid c))).
  pose proof (one_line_pad 8 _ (one_line_duration (Round (Sub now (cn_ClosedAt c)) Second))). by count_lines.
Qed.

(** The turns that begin before the deadline. *)
Fixpoint turns_run (deadline : Z) (turns : list turn) : list turn :=
  match turns with
  | [] => []
  | t :: turns => if t_check t <? deadline then t :: turns_run deadline turns else []
  end.

Lemma newlines_concat ls : Forall (fun l => newlines l = 1%nat) ls -> newlines (concat ls) = length ls.
Proof. induction 1 as [|l ls H1 _ IH]; [done|]. cbn [concat]. rewrite newlines_app, H1, IH. done. Qed.

(** What the headless mode prints.  Every turn that begins before the deadline prints an
    empty line, a title, one line for each live TLS connection with an endpoint and one
    for each closed TLS connection, and nothing else: no captured byte adds a line.  (Names
    are printed as they are, so this is of names without line ends.) *)
Theorem headless_lines deadline turns :
  Forall (fun t => one_line (t_clock t) /\ Forall conn_lines (t_conns t) /\ Forall conn_lines (t_closed t)) turns ->
  Z.of_nat (newlines (runDump deadline turns)) =
  foldr (fun t n => 2 + zlen (live_listed (t_conns t)) + zlen (closed_listed (t_closed t)) + n) 0 (turns_run deadline turns).
Proof.
  induction 1 as [|t turns (Hc & Hl & Hd) _ IH]; [done|]. cbn [runDump turns_run].
  destruct (t_check t <? deadline); [|done]. cbn [foldr]. rewrite newlines_app, Nat2Z.inj_add, IH. f_equal.
  unfold print_turn. cbv zeta. count_lines. rewrite !newlines_concat.
  - rewrite length_fmap, length_imap. unfold zlen. cbn [newlines Z.eqb Pos.eqb]. lia.
  - apply Forall_lookup. intros i l Hi. rewrite list_lookup_imap in Hi. apply fmap_Some in Hi as (c & Hi & ->).
    apply closed_line_lines. apply list_elem_of_lookup_2 in Hi. unfold closed_listed in Hi.
    apply list_elem_of_filter in Hi as [_ Hi]. rewrite Forall_forall in Hd. by apply Hd.
  - apply Forall_map, Forall_forall. intros c Hi. apply live_line_lines.
    unfold live_listed in Hi. apply list_elem_of_filter in Hi as [_ Hi]. rewrite Forall_forall in Hl. by apply Hl.
Qed.

(** ** The search for libssl *)

(** An entry as ldconfig -p prints it. *)
Record entry := mkEntry { e_name : list Z; e_arch : list Z; e_path : list Z }.
Definition print_entry (e : entry) : list Z := [9] ++ e_name e ++ str " (" ++ e_arch e ++ str ") => " ++ e_path e.
Definition print_ldconfig (header : list Z) (es : list entry) : list Z :=
  concat ((fun l => l ++ [10]) <$> (header :: (print_entry <$> es))).

(** A path: printable, without blanks at its ends or an equals sign in it. *)
Definition path_ok (p : list Z) : Prop :=
  printable_text p /\ Forall (fun c => c <> 61) p /\ p <> [] /\ head p <> Some 32 /\ last p <> Some 32.
Definition entry_ok (e : entry) : Prop := one_line (e_name e) /\ one_line (e_arch e) /\ path_ok (e_path e).

Definition hit (e : entry) : Prop := contains (str "libssl.so.3") (print_entry e) = true.
#[export] Instance hit_dec e : Decision (hit e).
Proof. unfold hit. apply _. Defined.

Lemma has_prefix_app p s : has_prefix p (p ++ s) = true.
Proof. induction p as [|x p IH]; [done|]. cbn. by rewrite Z.eqb_refl. Qed.

Lemma after_last_none x p s : Forall (fun c => c <> x) s -> after_last (x :: p) s = None.
Proof.
  induction 1 as [|c s Hc _ IH]; [done|]. cbn [after_last]. rewrite IH. cbn [has_prefix].
  by rewrite (proj2 (Z.eqb_neq x c)) by congruence.
Qed.

(** After the separator, when it does not begin in what follows its first character. *)
Lemma after_last_spec x p a b :
  Forall (fun c => c <> x) (p ++ b) -> after_last (x :: p) (a ++ x :: p ++ b) = Some b.
Proof.
  intros Hb. induction a as [|c a IH].
  - cbn [app after_last]. rewrite after_last_none by done. change (x :: p ++ b) with ((x :: p) ++ b).
    rewrite has_prefix_app. by rewrite drop_app_length.
  - cbn [app after_last]. by rewrite IH.
Qed.

Lemma trim_codes_none codes fuel s :
  Forall (fun p => has_prefix p s = false) codes -> trim_codes codes fuel s = s.
Proof.
  intros Hc. destruct fuel as [|fuel]; [done|]. cbn [trim_codes].
  assert (list_find (fun p => has_prefix p s = true) codes = None) as ->; [|done].
  apply list_find_None. eapply Forall_impl; [exact Hc|]. cbn. intros p ->. done.
Qed.

(** No code begins with a printable character other than the blank. *)
Lemma not_space codes c s :
  Forall (fun p => match p with b :: _ => (b <=? 32) || (127 <=? b) | [] => false end = true) codes -> 32 < c < 127 ->
  Forall (fun p => has_prefix p (c :: s) = false) codes.
Proof.
  intros Hc Hr. eapply Forall_impl; [exact Hc|]. cbn. intros [|b q]; [done|]. rewrite orb_true_iff, !Z.leb_le. intros Hb.
  cbn [has_prefix]. by rewrite (proj2 (Z.eqb_neq b c)) by lia.
Qed.

Lemma TrimSpace_path p : path_ok p -> TrimSpace p = p.
Proof.
  intros (Hp & _ & Hne & Hh & Hl). unfold TrimSpace.
  destruct p as [|c p']; [done|]. destruct (last (c :: p')) as [d|] eqn:Ed; [|by apply last_None in Ed].
  apply last_Some in Ed as [l E]. cbn [head] in Hh.
  assert (forall x, x ∈ c :: p' -> Some x <> Some 32 -> 32 < x < 127) as Hr.
  { intros x Hx Hne32. unfold printable_text in Hp. rewrite Forall_forall in Hp. specialize (Hp x Hx). cbn in Hp.
    assert (x <> 32) by congruence. lia. }
  rewrite (trim_codes_none space_codes).
  2:{ apply not_space; [literal|]. apply Hr; [left|done]. }
  rewrite (trim_codes_none (@rev Z <$> space_codes)); [apply rev_involutive|].
  rewrite E in *. rewrite rev_unit. apply not_space; [literal|].
  apply Hr; [|done]. apply elem_of_app. right. left.
Qed.

Lemma split_nl_lines ls : Forall one_line ls -> split_nl (concat ((fun l => l ++ [10]) <$> ls)) = ls ++ [[]].
Proof.
  assert (forall l s, one_line l -> split_nl (l ++ 10 :: s) = l :: split_nl s) as Hs.
  { intros l s. induction 1 as [|c l Hc _ IH]; [done|]. cbn [app split_nl].
    by rewrite (proj2 (Z.eqb_neq c 10) Hc), IH. }
  induction 1 as [|l ls Hl _ IH]; [done|]. cbn [fmap list_fmap concat]. rewrite <- app_assoc. cbn [app].
  by rewrite Hs, IH.
Qed.

Lemma scan_entries es :
  Forall entry_ok es -> scan_ldconfig ((print_entry <$> es) ++ [[]]) = match list_find hit es with Some (_, e) => e_path e | None => [] end.
Proof.
  induction 1 as [|e es (Hn & Ha & Hp) _ IH]; [by vm_compute|]. cbn [fmap list_fmap app scan_ldconfig list_find].
  case_decide as Hh; [|rewrite (not_true_is_false _ Hh), IH; by destruct (list_find hit es) as [[]|]].
  rewrite Hh. destruct Hp as (Hp & Heq & Hne).
  assert (print_entry e = ([9] ++ e_name e ++ str " (" ++ e_arch e ++ str ") ") ++ 61 :: [62; 32] ++ e_path e) as ->
    by (unfold print_entry; rewrite <- !app_assoc; done).
  change (str "=> ") with (61 :: [62; 32]). rewrite after_last_spec.
  - by apply TrimSpace_path.
  - by repeat constructor.
Qed.

(** Where libssl is found.  The first candidate that exists is taken; where none does, and
    ldconfig prints its table in its usual form, the path of the first entry that mentions
    libssl.so.3 - of whatever architecture - and nothing when there is none or ldconfig
    fails. *)
Theorem findLibssl_table stat header es :
  one_line header -> contains (str "libssl.so.3") header = false -> Forall entry_ok es ->
  findLibssl stat None = match list_find (fun c => stat c = true) candidates with Some (_, c) => str c | None => [] end
  /\ findLibssl stat (Some (print_ldconfig header es)) =
     match list_find (fun c => stat c = true) candidates with
     | Some (_, c) => str c
     | None => match list_find hit es with Some (_, e) => e_path e | None => [] end
     end.
Proof.
  intros Hh Hc He. unfold findLibssl. destruct (list_find _ candidates) as [[i c]|]; [done|]. split; [done|].
  unfold print_ldconfig. rewrite split_nl_lines.
  - cbn [app scan_ldconfig]. rewrite Hc. by apply scan_entries.
  - constructor; [done|]. apply Forall_map. eapply Forall_impl; [exact He|]. intros e (Hn & Ha & Hp & _).
    unfold print_entry. pose proof (one_line_printable _ Hp). by lines.
Qed.

Definition demo_ldconfig : list entry :=
  [mkEntry (str "libssl3.so") (str "libc6,x86-64") (str "/lib/libssl3.so");
   mkEntry (str "libssl.so.3") (str "libc6,x86-64") (str "/opt/ssl/lib/libssl.so.3")].

Lemma findLibssl_table_witness :
  findLibssl (fun _ => false) (Some (print_ldconfig (str "2 libs found in cache") demo_ldconfig)) = str "/opt/ssl/lib/libssl.so.3".
Proof.
  destruct (findLibssl_table (fun _ => false) (str "2 libs found in cache") demo_ldconfig) as [_ E].
  - literal.
  - vm_compute. reflexivity.
  - repeat constructor; try literal; discriminate.
  - rewrite E. vm_compute. reflexivity.
Defined.
