(* ===== verification/Startup.v ===== *)
(** internal/loader/loader.go: acquiring and releasing what the program runs on, and
    main.go around it.

    Which of the system's operations succeed is an [outcome]; what the code does to the
    system is the log of [effect]s.  The error of every failing operation is told apart
    by what was asked for. *)
From S2P Require Import Prelude.

(** ** Resources *)

(** The attachments of kernel programs. *)
Inductive kernel_probe : Type :=
| Kprobe_tcp_sendmsg | Kprobe_tcp_recvmsg | Kretprobe_tcp_recvmsg | Tracepoint_set_state.

(** The attachments to libssl, in the order of the table in attachSSL. *)
Inductive ssl_probe : Type :=
| Up_SSL_set_fd | Up_SSL_free | Up_SSL_write | Up_SSL_read | Uret_SSL_read.

Inductive resource : Type :=
| RObjects                       (* the loaded programs and maps *)
| RKernel (p : kernel_probe)     (* a link *)
| RSSL (p : ssl_probe)           (* a link *)
| RReader                        (* the ring buffer reader *).

#[export] Instance kernel_probe_eq_dec : EqDecision kernel_probe.
Proof. solve_decision. Defined.
#[export] Instance ssl_probe_eq_dec : EqDecision ssl_probe.
Proof. solve_decision. Defined.
#[export] Instance resource_eq_dec : EqDecision resource.
Proof. solve_decision. Defined.

Inductive effect : Type :=
| Opened (r : resource)
| Closed (r : resource)
| Warned (p : option ssl_probe)  (* the warning of New; [None]: the executable *).

(** What the system answers. *)
Record outcome := {
  memlock_ok : bool;             (* rlimit.RemoveMemlock *)
  executable_ok : bool;          (* link.OpenExecutable(path) *)
  opens : resource -> bool       (* the operation that yields the resource succeeds *) }.

(** Why New fails. *)
Inductive new_error : Type :=
| ErrMemlock
| ErrObjects
| ErrKernel (ps : list kernel_probe)   (* errors.Join of the ones that failed *)
| ErrRingbuf.

(** ** Loader *)

Record Loader := mkLoader { links : list resource; reader : option resource }.

Section Startup.
Context (o : outcome).

(** [must(link.X(...))]: the attachment, appended to the links or an error. *)
Definition must (p : kernel_probe) (l : Loader) (log : list effect) : Loader * list effect * list kernel_probe :=
  if opens o (RKernel p) then (mkLoader (links l ++ [RKernel p]) (reader l), log ++ [Opened (RKernel p)], [])
  else (l, log, [p]).

(** The arguments of errors.Join are all evaluated, in order. *)
Fixpoint must_all (ps : list kernel_probe) (l : Loader) (log : list effect) : Loader * list effect * list kernel_probe :=
  match ps with
  | [] => (l, log, [])
  | p :: ps =>
      let '(l, log, e) := must p l log in
      let '(l, log, es) := must_all ps l log in
      (l, log, e ++ es)
  end.

Definition kernel_probes : list kernel_probe :=
  [Kprobe_tcp_sendmsg; Kprobe_tcp_recvmsg; Kretprobe_tcp_recvmsg; Tracepoint_set_state].
Definition ssl_probes : list ssl_probe :=
  [Up_SSL_set_fd; Up_SSL_free; Up_SSL_write; Up_SSL_read; Uret_SSL_read].

(** attachSSL: the loop over the table, which returns at the first error.  The result
    says whether New prints its warning. *)
Fixpoint attach_loop (ps : list ssl_probe) (l : Loader) (log : list effect) : Loader * list effect :=
  match ps with
  | [] => (l, log)
  | p :: ps =>
      if opens o (RSSL p) then
        attach_loop ps (mkLoader (links l ++ [RSSL p]) (reader l)) (log ++ [Opened (RSSL p)])
      else (l, log ++ [Warned (Some p)])
  end.

Definition attachSSL (l : Loader) (log : list effect) : Loader * list effect :=
  if executable_ok o then attach_loop ssl_probes l log else (l, log ++ [Warned None]).

(** [l.Close()] *)
Definition Close (l : Loader) (log : list effect) : list effect :=
  log ++ (match reader l with Some r => [Closed r] | None => [] end) ++ (Closed <$> links l) ++ [Closed RObjects].

(** [New(libsslPath)]; [path] is whether the path is non-empty. *)
Definition New (path : bool) : list effect * (new_error + Loader) :=
  if negb (memlock_ok o) then ([], inl ErrMemlock)
  else
    let l := mkLoader [] None in
    if negb (opens o RObjects) then ([], inl ErrObjects)
    else
      let '(l, log, es) := must_all kernel_probes l [Opened RObjects] in
      match es with
      | _ :: _ => (Close l log, inl (ErrKernel es))
      | [] =>
          let '(l, log) := if path then attachSSL l log else (l, log) in
          if opens o RReader then (log ++ [Opened RReader], inr (mkLoader (links l) (Some RReader)))
          else (Close l log, inl ErrRingbuf)
      end.
End Startup.

(** ** Logs *)

(** What is open after a log that opens nothing twice and closes only what is open. *)
Fixpoint live (log : list effect) (s : list resource) : option (list resource) :=
  match log with
  | [] => Some s
  | Opened r :: log => if decide (r ∈ s) then None else live log (s ++ [r])
  | Closed r :: log => if decide (r ∈ s) then live log (filter (fun r' => r' <> r) s) else None
  | Warned _ :: log => live log s
  end.

Lemma live_app a b s : live (a ++ b) s = live a s ≫= live b.
Proof. revert s. induction a as [|[r|r|w] a IH]; intros s; cbn [app live]; [done|..|done]; by case_decide. Qed.

Lemma live_opens rs s : NoDup (s ++ rs) -> live (Opened <$> rs) s = Some (s ++ rs).
Proof.
  revert s. induction rs as [|r rs IH]; intros s Hn; cbn; [by rewrite app_nil_r|].
  rewrite decide_False.
  - rewrite IH by (by rewrite <- app_assoc). by rewrite <- app_assoc.
  - intros Hin. apply NoDup_app in Hn as (_ & Hd & _). apply (Hd r Hin). left.
Qed.

(** Closing in any order everything that is open. *)
Lemma live_closes rs s : NoDup rs -> rs ≡ₚ s -> live (Closed <$> rs) s = Some [].
Proof.
  revert s. induction rs as [|r rs IH]; intros s Hn Hp; cbn [fmap list_fmap live].
  - by apply Permutation_nil in Hp as ->.
  - apply NoDup_cons in Hn as [Hr Hn]. rewrite decide_True by (rewrite <- Hp; left).
    apply IH; [done|]. rewrite <- Hp, filter_cons, decide_False by tauto.
    clear - Hr. induction rs as [|r' rs IH]; [done|]. rewrite not_elem_of_cons in Hr.
    rewrite filter_cons, decide_True by naive_solver. apply perm_skip, IH. tauto.
Qed.

(** ** What the attachments leave *)

Section Facts.
Context (o : outcome).

(** The kernel programs that could and that could not be attached. *)
Definition kernel_up (ps : list kernel_probe) : list kernel_probe := filter (fun p => opens o (RKernel p) = true) ps.
Definition kernel_down (ps : list kernel_probe) : list kernel_probe := filter (fun p => opens o (RKernel p) = false) ps.

Lemma must_all_spec ps l log :
  must_all o ps l log =
  (mkLoader (links l ++ (RKernel <$> kernel_up ps)) (reader l),
   log ++ (Opened <$> (RKernel <$> kernel_up ps)), kernel_down ps).
Proof.
  revert l log. induction ps as [|p ps IH]; intros [ls rd] log; cbn [must_all].
  { cbn. by rewrite !app_nil_r. }
  unfold must. unfold kernel_up, kernel_down in *. rewrite !filter_cons.
  destruct (opens o (RKernel p)); rewrite IH; cbn; by rewrite <- ?app_assoc.
Qed.

(** The symbols before the first that cannot be attached. *)
Fixpoint ssl_prefix (ps : list ssl_probe) : list ssl_probe :=
  match ps with
  | [] => []
  | p :: ps => if opens o (RSSL p) then p :: ssl_prefix ps else []
  end.

Definition ssl_up (path : bool) : list ssl_probe := if path && executable_ok o then ssl_prefix ssl_probes else [].

Definition is_warning (e : effect) : Prop := match e with Warned _ => True | _ => False end.

Lemma attach_loop_spec ps l log :
  exists ws, Forall is_warning ws /\
  attach_loop o ps l log =
  (mkLoader (links l ++ (RSSL <$> ssl_prefix ps)) (reader l), log ++ (Opened <$> (RSSL <$> ssl_prefix ps)) ++ ws).
Proof.
  revert l log. induction ps as [|p ps IH]; intros [ls rd] log; cbn [attach_loop ssl_prefix].
  { exists []. split; [constructor|]. cbn. by rewrite !app_nil_r. }
  destruct (opens o (RSSL p)).
  - destruct (IH (mkLoader (ls ++ [RSSL p]) rd) (log ++ [Opened (RSSL p)])) as (ws & Hw & E).
    exists ws. split; [done|]. cbn [links reader] in *. rewrite E. cbn. by rewrite <- !app_assoc.
  - exists [Warned (Some p)]. split; [by repeat constructor|]. cbn. by rewrite app_nil_r.
Qed.

Lemma attachSSL_spec (path : bool) l log :
  exists ws, Forall is_warning ws /\
  (if path then attachSSL o l log else (l, log)) =
  (mkLoader (links l ++ (RSSL <$> ssl_up path)) (reader l), log ++ (Opened <$> (RSSL <$> ssl_up path)) ++ ws).
Proof.
  unfold ssl_up, attachSSL. destruct l as [ls rd]. destruct path; cbn [andb]; [destruct (executable_ok o)|].
  - apply attach_loop_spec.
  - exists [Warned None]. split; [by repeat constructor|]. cbn. by rewrite app_nil_r.
  - exists []. split; [constructor|]. cbn. by rewrite !app_nil_r.
Qed.

Lemma live_warnings ws s : Forall is_warning ws -> live ws s = Some s.
Proof. induction 1 as [|[| |] ws Hw _ IH]; done. Qed.

(** Everything New ever holds is distinct. *)
Lemma ssl_prefix_sublist ps : sublist (ssl_prefix ps) ps.
Proof. induction ps as [|p ps IH]; cbn; [done|]. destruct (opens o (RSSL p)); [by constructor|apply sublist_nil_l]. Qed.

Lemma held_NoDup path :
  NoDup (RObjects :: (RKernel <$> kernel_up kernel_probes) ++ (RSSL <$> ssl_up path) ++ [RReader]).
Proof.
  apply (sublist_NoDup _ (RObjects :: (RKernel <$> kernel_probes) ++ (RSSL <$> ssl_probes) ++ [RReader])).
  - apply (bool_decide_unpack _). vm_compute. exact I.
  - constructor. apply sublist_app; [apply fmap_sublist, sublist_filter|].
    apply sublist_app; [|done]. apply fmap_sublist. unfold ssl_up.
    destruct (path && executable_ok o); [apply ssl_prefix_sublist|apply sublist_nil_l].
Qed.

(** Closing a loader closes what is open, once. *)
Lemma Close_live l log rs :
  live log [] = Some rs ->
  option_list (reader l) ++ links l ++ [RObjects] ≡ₚ rs -> NoDup rs ->
  live (Close l log) [] = Some [].
Proof.
  intros Hl Hp Hn. unfold Close. rewrite live_app, Hl. cbn [mbind option_bind].
  replace (_ ++ _ ++ _) with (Closed <$> (option_list (reader l) ++ links l ++ [RObjects])).
  - apply live_closes; [by rewrite Hp|done].
  - rewrite !fmap_app. by destruct (reader l).
Qed.

(** New, once the programs are loaded: the log up to the ring reader. *)
Lemma attached_live (path : bool) ws :
  Forall is_warning ws ->
  live (([Opened RObjects] ++ (Opened <$> (RKernel <$> kernel_up kernel_probes))) ++ (Opened <$> (RSSL <$> ssl_up path)) ++ ws) []
  = Some (RObjects :: (RKernel <$> kernel_up kernel_probes) ++ (RSSL <$> ssl_up path)).
Proof.
  intros Hw. pose proof (held_NoDup path) as Hn.
  rewrite app_assoc, live_app.
  change ([Opened RObjects]) with (Opened <$> [RObjects]). rewrite <- !fmap_app.
  rewrite live_opens; cbn [app].
  - cbn [mbind option_bind]. by apply live_warnings.
  - rewrite app_comm_cons, app_assoc in Hn. by apply NoDup_app in Hn as [Hn _].
Qed.
End Facts.

(** ** main.go *)

(** [main], from the privilege check to the exit status: whether it runs as root, a libssl
    path is known, [-dump] was given, and the interface ends without error.  [os.Exit]
    does not run the deferred [l.Close()]. *)
Definition main (root path dump ui_ok : bool) (o : outcome) : Z * list effect :=
  if negb root then (1, [])
  else
    match New o path with
    | (log, inl _) => (1, log)
    | (log, inr l) =>
        if dump then (0, Close l log)
        else if negb ui_ok then (1, log)
        else (0, Close l log)
    end.
