(* ===== verification/StartupProps.v ===== *)
(** Starting up and shutting down: its properties. *)
From S2P Require Import Prelude Startup.

(** What an error of New says about the system. *)
Definition accounts (o : outcome) (e : new_error) : Prop :=
  match e with
  | ErrMemlock => memlock_ok o = false
  | ErrObjects => memlock_ok o = true /\ opens o RObjects = false
  | ErrKernel ps => memlock_ok o = true /\ opens o RObjects = true /\ ps = kernel_down o kernel_probes /\ ps <> []
  | ErrRingbuf => memlock_ok o = true /\ opens o RObjects = true /\ kernel_down o kernel_probes = []
                  /\ opens o RReader = false
  end.

Lemma kernel_all_up o : kernel_down o kernel_probes = [] -> kernel_up o kernel_probes = kernel_probes.
Proof.
  unfold kernel_down, kernel_up, kernel_probes. rewrite !filter_cons, !filter_nil.
  by destruct (opens o (RKernel Kprobe_tcp_sendmsg)), (opens o (RKernel Kprobe_tcp_recvmsg)),
    (opens o (RKernel Kretprobe_tcp_recvmsg)), (opens o (RKernel Tracepoint_set_state)).
Qed.

(** What New does, by its result. *)
Lemma New_spec o path :
  let '(log, r) := New o path in
  match r with
  | inl e => live log [] = Some [] /\ accounts o e
  | inr l =>
      live log [] = Some (RObjects :: links l ++ [RReader]) /\ NoDup (RObjects :: links l ++ [RReader])
      /\ reader l = Some RReader /\ links l = (RKernel <$> kernel_probes) ++ (RSSL <$> ssl_up o path)
      /\ memlock_ok o = true /\ opens o RObjects = true /\ kernel_down o kernel_probes = [] /\ opens o RReader = true
  end.
Proof.
  unfold New. destruct (memlock_ok o) eqn:Em; cbn [negb]; [|done].
  destruct (opens o RObjects) eqn:Eo; cbn [negb]; [|done].
  rewrite must_all_spec. cbn [links reader app].
  pose proof (held_NoDup o path) as Hn. destruct (kernel_down o kernel_probes) as [|p ps] eqn:Ek.
  - destruct (attachSSL_spec o path (mkLoader (RKernel <$> kernel_up o kernel_probes) None)
      ([Opened RObjects] ++ (Opened <$> (RKernel <$> kernel_up o kernel_probes)))) as (ws & Hw & E).
    cbn [app links reader] in E. rewrite E. pose proof (attached_live o path ws Hw) as Hl. cbn [app] in Hl.
    rewrite (kernel_all_up o Ek) in *. destruct (opens o RReader) eqn:Er.
    + cbn [links reader]. split_and!; try done. rewrite live_app, Hl. cbn [mbind option_bind live].
      rewrite decide_False; [by rewrite <- app_comm_cons|].
      rewrite app_comm_cons, app_assoc in Hn. apply NoDup_app in Hn as (_ & Hd & _).
      intros Hin. apply (Hd RReader Hin). left.
    + split; [|done]. eapply Close_live; [exact Hl| |].
      * cbn [reader links option_list app]. rewrite (Permutation_app_comm _ [RObjects]). done.
      * rewrite app_comm_cons, app_assoc in Hn. by apply NoDup_app in Hn as [Hn _].
  - split; [|done]. 
    pose proof (attached_live o false [] (Forall_nil_2 _)) as Hl. cbn [ssl_up andb fmap list_fmap app] in Hl.
    rewrite !app_nil_r in Hl. eapply Close_live; [exact Hl| |].
    + cbn [reader links option_list app]. rewrite (Permutation_app_comm _ [RObjects]). done.
    + rewrite app_comm_cons in Hn. by apply NoDup_app in Hn as [Hn _].
Qed.

(** And what closing the loader does. *)
Lemma startup_closes o path :
  let '(log, r) := New o path in
  match r with
  | inl e => live log [] = Some []
  | inr l => live log [] = Some (RObjects :: links l ++ [RReader]) /\ live (Close l log) [] = Some []
  end.
Proof.
  pose proof (New_spec o path) as Hs. destruct (New o path) as [log [e|l]]; [tauto|].
  destruct Hs as (Hl & Hn & Hr & Hk & _). split; [done|].
  eapply Close_live; [exact Hl| |exact Hn]. rewrite Hr. cbn [option_list app].
  rewrite (app_assoc [RReader]), Permutation_app_comm. cbn [app]. by rewrite (Permutation_app_comm _ [RReader]).
Qed.

(** C31: starting is all or nothing.  When New fails, the error says what failed - every
    kernel program that could not be attached, not only the first - and everything that
    had been opened by then has been closed exactly once.  When it succeeds, the programs,
    the four kernel attachments, the ring reader and the OpenSSL attachments before the
    first missing symbol are open and nothing else is; a missing libssl or symbol is
    never fatal; and [Close] closes each of them exactly once. *)
Theorem startup_all_or_nothing o path :
  let '(log, r) := New o path in
  match r with
  | inl e => live log [] = Some [] /\ accounts o e
  | inr l =>
      live log [] = Some (RObjects :: links l ++ [RReader])
      /\ links l = (RKernel <$> kernel_probes) ++ (RSSL <$> ssl_up o path)
      /\ live (Close l log) [] = Some []
  end.
Proof.
  pose proof (New_spec o path) as Hs. pose proof (startup_closes o path) as Hc.
  destruct (New o path) as [log [e|l]]; [done|]. tauto.
Qed.

(** Leaving the program.  A run that ends with status 0 has closed everything it
    opened, and so has one that could not start; only when the interface fails does
    [main] leave through [os.Exit] with everything still open, the deferred Close having
    been skipped. *)
Theorem main_releases root path dump ui_ok o :
  let '(status, log) := main root path dump ui_ok o in
  match snd (New o path) with
  | inr l =>
      if root && negb dump && negb ui_ok
      then status = 1 /\ live log [] = Some (RObjects :: links l ++ [RReader])
      else live log [] = Some [] /\ (status = 0 <-> root = true)
  | inl _ => live log [] = Some [] /\ status = 1
  end.
Proof.
  unfold main. pose proof (startup_closes o path) as Hs. destruct (New o path) as [log [e|l]]; cbn [snd] in *.
  - destruct root; cbn [negb]; done.
  - destruct Hs as [Hl Hc]. destruct root, dump, ui_ok; cbn [negb andb]; done.
Qed.
