(* ===== verification/Bindings.v ===== *)
(** internal/loader/tlstat_x86_bpfel.go: the generated objects, under which names they are
    loaded from the ELF file and how they are closed; and which of them
    internal/loader/loader.go attaches where.

    Reading and loading the ELF file is the eBPF library's ([load_outcome]), and so is the
    closing of one object ([close_ok]). *)
From S2P Require Import Prelude Startup.

(** ** Objects *)

Inductive bpf_program : Type :=
| K_tcpRecvmsg | K_tcpSendmsg | KrTcpRecvmsg | TpInetSockSetState
| U_sslFree | U_sslRead | U_sslSetFd | U_sslWrite | UrSslRead.

Inductive bpf_map : Type := Events | Flows | RecvCtxs | SslCtxs | SslFds | SslStats.

Inductive bpf_object : Type := Program (p : bpf_program) | Map (m : bpf_map).

#[export] Instance bpf_program_eq_dec : EqDecision bpf_program.
Proof. solve_decision. Defined.
#[export] Instance bpf_map_eq_dec : EqDecision bpf_map.
Proof. solve_decision. Defined.
#[export] Instance bpf_object_eq_dec : EqDecision bpf_object.
Proof. solve_decision. Defined.

(** The [ebpf] tags: the names in the ELF file, that is in tlstat.bpf.c. *)
Definition program_tag (p : bpf_program) : string :=
  match p with
  | K_tcpRecvmsg => "k_tcp_recvmsg" | K_tcpSendmsg => "k_tcp_sendmsg" | KrTcpRecvmsg => "kr_tcp_recvmsg"
  | TpInetSockSetState => "tp_inet_sock_set_state" | U_sslFree => "u_ssl_free" | U_sslRead => "u_ssl_read"
  | U_sslSetFd => "u_ssl_set_fd" | U_sslWrite => "u_ssl_write" | UrSslRead => "ur_ssl_read"
  end.
Definition map_tag (m : bpf_map) : string :=
  match m with
  | Events => "events" | Flows => "flows" | RecvCtxs => "recv_ctxs" | SslCtxs => "ssl_ctxs"
  | SslFds => "ssl_fds" | SslStats => "ssl_stats"
  end.

(** tlstat.bpf.c: the programs and the sections they are in, and the maps. *)
Definition c_programs : list (string * string) :=
  [("k_tcp_sendmsg", "kprobe/tcp_sendmsg"); ("k_tcp_recvmsg", "kprobe/tcp_recvmsg");
   ("kr_tcp_recvmsg", "kretprobe/tcp_recvmsg"); ("tp_inet_sock_set_state", "tp/sock/inet_sock_set_state");
   ("u_ssl_free", "uprobe/SSL_free"); ("u_ssl_set_fd", "uprobe/SSL_set_fd"); ("u_ssl_write", "uprobe/SSL_write");
   ("u_ssl_read", "uprobe/SSL_read"); ("ur_ssl_read", "uretprobe/SSL_read")]%string.
Definition c_maps : list string := ["events"; "flows"; "ssl_stats"; "ssl_fds"; "recv_ctxs"; "ssl_ctxs"]%string.

(** ** Closing *)

Section Close.
Context (close_ok : bpf_object -> bool).

(** [Close] of one program or map; the log is of what was closed. *)
Definition close_one (o : bpf_object) (log : list bpf_object) : list bpf_object * bool := (log ++ [o], close_ok o).

(** [_TlstatClose]: in order, until one fails. *)
Fixpoint _TlstatClose (closers : list (list bpf_object -> list bpf_object * bool)) (log : list bpf_object) : list bpf_object * bool :=
  match closers with
  | [] => (log, true)
  | close :: closers =>
      let '(log, ok) := close log in
      if ok then _TlstatClose closers log else (log, false)
  end.

Definition close_programs : list bpf_object -> list bpf_object * bool :=
  _TlstatClose ((fun p => close_one (Program p)) <$>
    [K_tcpRecvmsg; K_tcpSendmsg; KrTcpRecvmsg; TpInetSockSetState; U_sslFree; U_sslRead; U_sslSetFd; U_sslWrite; UrSslRead]).
Definition close_maps : list bpf_object -> list bpf_object * bool :=
  _TlstatClose ((fun m => close_one (Map m)) <$> [Events; Flows; RecvCtxs; SslCtxs; SslFds; SslStats]).
Definition close_objects : list bpf_object -> list bpf_object * bool := _TlstatClose [close_programs; close_maps].
End Close.

(** ** Loading *)

(** Whether the embedded file can be read as a specification, and whether everything in it
    can be loaded and assigned: all objects or none. *)
Record load_outcome := { spec_ok : bool; assign_ok : bool }.

Inductive load_error : Type := ErrSpec | ErrAssign.

Definition loadTlstat (o : load_outcome) : option load_error := if spec_ok o then None else Some ErrSpec.
Definition loadTlstatObjects (o : load_outcome) : option load_error :=
  match loadTlstat o with
  | Some e => Some e
  | None => if assign_ok o then None else Some ErrAssign
  end.

(** ** Attachments *)

(** New and attachSSL: where each object is attached. *)
Definition kernel_site (p : kernel_probe) : string * bpf_program :=
  match p with
  | Kprobe_tcp_sendmsg => ("kprobe/tcp_sendmsg", K_tcpSendmsg)
  | Kprobe_tcp_recvmsg => ("kprobe/tcp_recvmsg", K_tcpRecvmsg)
  | Kretprobe_tcp_recvmsg => ("kretprobe/tcp_recvmsg", KrTcpRecvmsg)
  | Tracepoint_set_state => ("tp/sock/inet_sock_set_state", TpInetSockSetState)
  end%string.
Definition ssl_site (p : ssl_probe) : string * bpf_program :=
  match p with
  | Up_SSL_set_fd => ("uprobe/SSL_set_fd", U_sslSetFd)
  | Up_SSL_free => ("uprobe/SSL_free", U_sslFree)
  | Up_SSL_write => ("uprobe/SSL_write", U_sslWrite)
  | Up_SSL_read => ("uprobe/SSL_read", U_sslRead)
  | Uret_SSL_read => ("uretprobe/SSL_read", UrSslRead)
  end%string.

(** ** Properties *)

Definition objects : list bpf_object :=
  (Program <$> [K_tcpRecvmsg; K_tcpSendmsg; KrTcpRecvmsg; TpInetSockSetState; U_sslFree; U_sslRead; U_sslSetFd; U_sslWrite; UrSslRead])
  ++ (Map <$> [Events; Flows; RecvCtxs; SslCtxs; SslFds; SslStats]).

(** Everything up to and including the first that does not close. *)
Fixpoint until_failure (close_ok : bpf_object -> bool) (l : list bpf_object) : list bpf_object :=
  match l with
  | [] => []
  | o :: l => o :: if close_ok o then until_failure close_ok l else []
  end.

Lemma close_each ok (l : list bpf_object) log :
  _TlstatClose (close_one ok <$> l) log = (log ++ until_failure ok l, forallb ok l).
Proof.
  revert log. induction l as [|o l IH]; intros log; cbn; [by rewrite app_nil_r|].
  destruct (ok o); [|done]. rewrite IH. by rewrite <- app_assoc.
Qed.

Lemma until_failure_app ok a b :
  until_failure ok (a ++ b) = if forallb ok a then until_failure ok a ++ until_failure ok b else until_failure ok a.
Proof.
  induction a as [|o a IH]; [done|]. cbn [until_failure forallb app]. destruct (ok o); cbn [andb]; [|done].
  rewrite IH. by destruct (forallb ok a).
Qed.

(** Closing the objects closes programs before maps, each at most once and all of them
    unless one fails; then the rest stays open, and the caller hears of it. *)
Theorem close_objects_order ok log :
  close_objects ok log = (log ++ until_failure ok objects, forallb ok objects)
  /\ NoDup (until_failure ok objects)
  /\ (forallb ok objects = true -> until_failure ok objects = objects /\ forall o, o ∈ objects).
Proof.
  split; [|split].
  - unfold objects. rewrite until_failure_app, forallb_app. set (ps := Program <$> _). set (ms := Map <$> _).
    assert (close_programs ok log = _TlstatClose (close_one ok <$> ps) log) as Ep by reflexivity.
    assert (forall log, close_maps ok log = _TlstatClose (close_one ok <$> ms) log) as Em by reflexivity.
    unfold close_objects. cbn [_TlstatClose]. rewrite Ep, close_each. destruct (forallb ok ps); cbn [andb]; [|done].
    rewrite Em, close_each, <- app_assoc. by destruct (forallb ok ms).
  - assert (sublist (until_failure ok objects) objects) as Hs.
    { generalize objects. intros l. induction l as [|o l IH]; cbn; [done|].
      apply sublist_skip. destruct (ok o); [done|apply sublist_nil_l]. }
    eapply sublist_NoDup; [|exact Hs]. apply (bool_decide_unpack _). vm_compute. exact I.
  - intros Hok. split.
    + revert Hok. generalize objects. intros l. induction l as [|o l IH]; [done|]. cbn. destruct (ok o); [|done]. intros Hok. by rewrite IH.
    + intros [p|m]; [destruct p|destruct m]; apply (bool_decide_unpack _); vm_compute; exact I.
Qed.

(** The objects are the programs and maps of tlstat.bpf.c, and every program is attached
    where its section says and nowhere else. *)
Theorem attached_as_compiled :
  (forall n, n ∈ c_programs.*1 <-> exists p, program_tag p = n)
  /\ (forall n, n ∈ c_maps <-> exists m, map_tag m = n)
  /\ Forall (fun '(site, p) => (program_tag p, site) ∈ c_programs) ((kernel_site <$> kernel_probes) ++ (ssl_site <$> ssl_probes))
  /\ ((kernel_site <$> kernel_probes) ++ (ssl_site <$> ssl_probes)).*2 ≡ₚ
     [K_tcpRecvmsg; K_tcpSendmsg; KrTcpRecvmsg; TpInetSockSetState; U_sslFree; U_sslRead; U_sslSetFd; U_sslWrite; UrSslRead].
Proof.
  split_and!.
  - intros n. split.
    + intros Hn. repeat (apply elem_of_cons in Hn as [->|Hn]); [..|by apply elem_of_nil in Hn];
        [by exists K_tcpSendmsg|by exists K_tcpRecvmsg|by exists KrTcpRecvmsg|by exists TpInetSockSetState
        |by exists U_sslFree|by exists U_sslSetFd|by exists U_sslWrite|by exists U_sslRead|by exists UrSslRead].
    + intros [p <-]. destruct p; apply (bool_decide_unpack _); vm_compute; exact I.
  - intros n. split.
    + intros Hn. repeat (apply elem_of_cons in Hn as [->|Hn]); [..|by apply elem_of_nil in Hn];
        [by exists Events|by exists Flows|by exists SslStats|by exists SslFds|by exists RecvCtxs|by exists SslCtxs].
    + intros [m <-]. destruct m; apply (bool_decide_unpack _); vm_compute; exact I.
  - repeat (apply Forall_cons; split); [apply (bool_decide_unpack _); vm_compute; exact I..|apply Forall_nil; exact I].
  - apply (bool_decide_unpack _). vm_compute. exact I.
Qed.
